(* ===== verification/_CoqProject ===== *)
-Q . S2P
Prelude.v
Platform.v
State.v
Sched.v
Kmutex.v
Mmobj.v
Vmmap.v
Pframe.v
Anon.v
Proc.v
Lifecycle.v
UserMem.v
UserPages.v
PageGet.v
Vmsys.v
Fork.v
Vnode.v
Namev.v
VfsSys.v
ForkCall.v
PathRefs.v
VnodeRefs.v
Syscall.v
ReadPath.v
Kmain.v
KernelTests.v
Info.v
