(* ===== verification/Prelude.v ===== *)
(** * A verification of the Weenix kernel

    The program is the C code of a teaching kernel ([src/kernel]): threads and their scheduler,
    mutexes, processes, address spaces with copy-on-write, the page cache, the virtual file
    system and the system calls.  It is modelled with the configuration of its build: file
    systems, virtual memory and drivers are compiled in; mounting, [getcwd], several threads per
    process, the shadow daemon and preemption in user mode are not.

    ** Parts and files

    - [Prelude]: this file.  Record update, the monad of kernel code, its weakest precondition and
      equivalence, 32-bit integers, list lemmas and tactics.
    - [Platform]: constants, macros and allocators that the kernel takes from its headers, with
      the laws it relies on; [State]: the data structures and all global variables, in one record.
    - [Sched] ([proc/sched.c]), [Kmutex] ([proc/kmutex.c]).
    - [Mmobj], [Pframe], [Anon], [Vmmap]: memory objects, the page cache ([mm/pframe.c]), anonymous
      and shadow objects ([vm/anon.c], [vm/shadow.c]), address spaces ([vm/vmmap.c]).
    - [Proc]: processes and threads ([proc/proc.c], [proc/kthread.c]); [Lifecycle]: the end of
      a process, from [do_exit] in the child to [do_waitpid] in the parent; [Fork] and
      [ForkCall] ([proc/fork.c]): sharing an address space, then the whole of [do_fork].
    - [UserMem]: reading and writing user memory ([vm/vmmap.c], [api/access.c]), with [UserPages] on
      its contents; [PageGet]: bringing a page into the cache ([pframe_get] of [mm/pframe.c]);
      [Vmsys]: the break, mappings and page faults ([vm/brk.c], [vm/mmap.c], [vm/pagefault.c]).
    - [Vnode] ([fs/vnode.c]), [Namev] ([fs/namev.c], [fs/open.c]), [VfsSys] ([fs/vfs_syscall.c]),
      [Syscall] ([api/syscall.c] and [user_vecdup] of [api/access.c]); [PathRefs] and [VnodeRefs]
      are about the references to vnodes that the calls on paths take; [ReadPath] follows the bytes
      of a [sys_read] from the file to user memory.
    - [Kmain]: the start of the kernel ([main/kmain.c]) and the pageout daemon of [mm/pframe.c];
      [KernelTests]: the init process and the tests it offers in the kernel shell
      ([main/kmain.c]).
    - [Info]: the text that describes processes and address spaces ([proc_info],
      [proc_list_info], [vmmap_mapping_info]).

    A file holds the definitions, one for each function of the source and with its name, then
    lemmas, then the properties, and a module [Witness] in which the properties are applied to
    concrete states.

    ** The model

    A C function is a function in the monad [M kernel]: it takes the whole state and returns a
    result with the new state, faults, or gives up the processor.  Pointers are addresses;
    [option ptr] is a pointer that may be NULL.  Structures live in one heap for each type, and
    reading freed memory or NULL faults ([BadPtr]), a failed [KASSERT] faults ([KAssert]), as do
    [panic] and linking a list element twice ([ListCorrupt]).  What a function stores through a
    pointer argument is part of its result.  Debugging output is left out.

    Interrupts and other threads act where a thread gives up the processor: [Wait] carries the
    state at that moment and the rest of the call.  [wp R] quantifies over everything the other
    threads may do meanwhile, under a rely condition [R].  In [Sched] and [Kmutex] that is made
    precise by a step relation of the whole system and invariants of its reachable states.

    Integers are [Z]; where the code computes in [uint32_t] or [int], [uint32] and [int32] write
    out the wrap-around.

    ** Interfaces

    Code outside the sources is a parameter, a class with the laws the code relies on:
    [Platform]/[PlatformOk] (allocators return fresh memory, or none), [FsOps], [DevOps],
    [FileCalls] (file systems, devices, the file table), [ForkArch], [SyscallCalls], [BootCode].
    Between components: [MmobjOps], the entry points of memory objects, given by the dispatcher
    [mm_ops] of [Anon] with the vnodes of [Vnode]; [VfsCalls] with the laws [VfsOk], which the
    process code uses, is implemented by [vfs_calls] and [vfs_calls_ok] of [VfsSys]; [RefCounts]
    is what fork needs of the objects it shares; [PageOps], the pages behind user memory, is
    implemented by the anonymous and shadow objects ([object_pages] of [UserPages]); [PathOps],
    how references to vnodes move, by the reference counts of [Vnode] ([counting_path_ops] of
    [VnodeRefs]) for file systems that keep them ([FsPathOps]); [QuietExit] and [QuietPut], that
    closing files and leaving a directory disturb no process, by [bare_quiet] of [Lifecycle] and
    [vfs_calls_put] of [VfsSys]; [FrefOk] and [VnodesGrow], what fork needs of files and vnodes,
    the latter by [vfs_calls_grow] of [ForkCall].  [Printf] and [TestCode] stand for
    formatted output and for what the tests of the kernel shell take from other files.

    ** Fuel

    A loop over a list that the code reads at entry is a recursion on the list.  Loops that end
    by a bound get that bound: [sched_broadcast_on] the length of the queue, [_proc_getid] the
    number of identifiers, [dir_namev] the length of the path, [sys_read] and [sys_write] the
    number of pages; the theorems show that it is enough.  Loops that wait for other threads
    ([loop_fuel]) and nested calls through memory objects ([mm_ops n]) have the budget as
    a parameter; running out is the outcome [NoFuel], which [wp] excludes, and the properties say
    how much is enough.

    ** What is shown

    - Scheduling: the queues are FIFO queues, no thread is lost, exactly one runs; sleeping,
      waking and cancelling do what they say; a mutex is held by whoever returns from
      [kmutex_lock], waiters are not overtaken, and a free mutex has no waiters.
    - Address spaces: areas stay ordered and disjoint; searching, inserting, removing and cloning
      change exactly the pages they should; the break and page faults.
    - Memory: pages and objects are freed once and completely; pinning keeps the page lists and
      counters consistent; user memory is checked page by page, what is written to it is read
      back and nothing else changes; a page that is missing is brought in, filled and
      counted; [sys_read] moves the bytes of the file chunk by chunk into user memory and changes
      nothing else; fork shares copy-on-write and counts every reference; an address space that is
      made, mapped and destroyed leaves nothing behind.
    - Processes: the process tree is well formed from the start of the kernel on and stays so
      when processes are made, exit and are waited for; a parent that waits for a child that
      exits gets its identifier and status, and the child is gone; a successful fork returns
      a child with a copy of the address space, the files and the registers, on the run queue;
      identifiers are unique; processes run in
      the order in which they are started; the descriptions of processes and address spaces
      stay within their buffer.
    - Files: reference counts of files are the number of descriptors that refer to them; a vnode
      is unique for its file, and goes with its pages exactly when nothing refers to it; path
      resolution is the walk over the components of the path; the calls on paths give back exactly
      the references they took, and [do_chdir] moves one; the flags of [do_open] determine the
      mode of the file; seeking stays within bounds.
    - Faults of the code that are proved as such: the leak of a mutex by
      [kmutex_lock_cancellable], the corruption by splitting a private area, the process left on
      the list by [proc_create], the last byte that [vmmap_read] misses, ranges that wrap around
      in [range_perm], the reference that [dir_namev] loses, the buffer that [sys_read] and
      [sys_write] do not advance, the copy-on-write page that [vmmap_write] writes in place, the
      bytes of the kernel that [sys_read] hands out after a short read, the
      page that [pframe_get] caches twice or keeps unfilled, the assertion that a path of
      slashes fails, the panic of a process whose exit has to sleep, and the fork that runs out
      of memory.

    ** What is not modelled

    Debugging output, with the calls of [vmmap_mapping_info] that only serve it; [do_mount],
    [do_umount], [lookup_name], [lookup_dirpath] and the reaper of detached threads, which are
    compiled out; memory from [kmalloc], which holds no state that a property speaks of; the
    contents of kernel stacks; the initialisation of the hardware.

    ** What could come next

    [do_open] and [do_read] in the account of references to vnodes; waiting for a page that is
    busy; shutting down. *)

From stdpp Require Export base tactics list gmap gmultiset countable strings.
From Stdlib Require Export ZArith Lia Sorted.

Open Scope Z_scope.

(** Pointers are addresses different from NULL; a field that may be NULL has
    type [option ptr]. *)
Abbreviation ptr := positive.

(** ** Record update

    [r <| f := v |>] is the record [r] with field [f] replaced, and
    [r <| f ::= g |>] applies [g] to the field.  The setter of a field is
    derived from the eta-expansion of its record type. *)

Class Eta (R : Type) := eta_expand : R -> R.
Class FieldSetter {R E : Type} (proj : R -> E) := update_field : (E -> E) -> R -> R.
Arguments update_field {R E} proj {_} _ _.

(** Setters are derived, never searched for as functions. *)
#[global] Hint Opaque Eta FieldSetter : typeclass_instances.

Ltac derive_setter :=
  lazymatch goal with
  | |- @FieldSetter ?R ?E ?proj =>
      let i := constr:(_ : Eta R) in
      let e := eval hnf in i in
      let p := eval pattern proj in e in
      lazymatch p with
      | ?g proj =>
          let t := eval cbv beta in (fun (f : E -> E) (r : R) => g (fun x => f (proj x)) r) in
          exact t
      end
  end.
#[export] Hint Extern 1 (FieldSetter _) => derive_setter : typeclass_instances.

Declare Scope record_scope.
Open Scope record_scope.
Notation "r <| proj ::= f |>" := (update_field proj f r)
  (at level 1, left associativity, format "r  <| proj  ::=  f |>") : record_scope.
Notation "r <| proj := v |>" := (update_field proj (fun _ => v) r)
  (at level 1, left associativity, format "r  <| proj  :=  v |>") : record_scope.

(** ** The kernel monad

    A kernel routine runs on the shared state.  It returns, or it stops on a
    fault, or it gives up the processor: [Wait] carries the reason, the state
    at that moment and the rest of the call, which is run from the state in
    which the thread is scheduled again.  [NoFuel] ends a loop whose iteration
    budget is used up. *)

Inductive fault : Type :=
| KAssert      (* a KASSERT does not hold *)
| BadPtr       (* NULL or freed memory is dereferenced *)
| ListCorrupt  (* a link already on a list is inserted, or an unlinked one removed *)
| KPanic.      (* panic() *)

#[export] Instance fault_eq_dec : EqDecision fault.
Proof. solve_decision. Defined.

Inductive wait_reason : Type :=
| IntrWait     (* intr_wait: run queue empty, waiting for an interrupt *)
| CtxSwitch.   (* context_switch: another thread runs *)

#[export] Instance wait_reason_eq_dec : EqDecision wait_reason.
Proof. solve_decision. Defined.

Inductive outcome (S A : Type) : Type :=
| Ret (a : A) (s : S)
| Fault (f : fault)
| Wait (w : wait_reason) (s : S) (k : S -> outcome S A)
| NoFuel.
Arguments Ret {S A} a s.
Arguments Fault {S A} f.
Arguments Wait {S A} w s k.
Arguments NoFuel {S A}.

Definition M (S A : Type) : Type := S -> outcome S A.

Fixpoint obind {S A B : Type} (f : A -> M S B) (o : outcome S A) : outcome S B :=
  match o with
  | Ret a s => f a s
  | Fault e => Fault e
  | Wait w s k => Wait w s (fun s' => obind f (k s'))
  | NoFuel => NoFuel
  end.

Definition ret {S A : Type} (a : A) : M S A := fun s => Ret a s.
Definition bind {S A B : Type} (m : M S A) (f : A -> M S B) : M S B := fun s => obind f (m s).

Declare Scope kernel_scope.
Notation "x ← m ; f" := (bind m (fun x => f))
  (at level 20, m at level 100, f at level 200, only parsing) : kernel_scope.
Notation "' x ← m ; f" := (bind m (fun x => f))
  (at level 20, x pattern, m at level 100, f at level 200, only parsing) : kernel_scope.
Notation "m ;; f" := (bind m (fun _ => f))
  (at level 100, f at level 200, right associativity) : kernel_scope.
Open Scope kernel_scope.

Definition get {S} : M S S := fun s => Ret s s.
Definition gets {S A} (f : S -> A) : M S A := fun s => Ret (f s) s.
Definition modify {S} (f : S -> S) : M S unit := fun s => Ret tt (f s).
Definition fail {S A} (e : fault) : M S A := fun _ => Fault e.
Definition KASSERT {S} (b : bool) : M S unit :=
  fun s => if b then Ret tt s else Fault KAssert.
Definition wait {S} (w : wait_reason) : M S unit := fun s => Wait w s (fun s' => Ret tt s').
Definition no_fuel {S A} : M S A := fun _ => NoFuel.

(** [x->f] through a pointer that may be NULL. *)
Definition nonnull {S A} (p : option A) : M S A :=
  match p with Some a => ret a | None => fail BadPtr end.

(** Sequencing rules: how [bind] runs. *)
Lemma bind_unfold {S A B} (m : M S A) (f : A -> M S B) s : (bind m f) s = obind f (m s).
Proof. reflexivity. Qed.

Lemma bind_ret {S A B} (m : M S A) (f : A -> M S B) s a s' :
  m s = Ret a s' -> (bind m f) s = f a s'.
Proof. unfold bind. intros ->. reflexivity. Qed.

Lemma bind_fault {S A B} (m : M S A) (f : A -> M S B) s e :
  m s = Fault e -> (bind m f) s = Fault e.
Proof. unfold bind. intros ->. reflexivity. Qed.

Lemma bind_wait {S A B} (m : M S A) (f : A -> M S B) s w s' k :
  m s = Wait w s' k -> (bind m f) s = Wait w s' (fun s1 => obind f (k s1)).
Proof. unfold bind. intros ->. reflexivity. Qed.

(** A call that returns: each of its two parts returned. *)
Lemma bind_ret_inv {S A B} (m : M S A) (f : A -> M S B) s b s' :
  (bind m f) s = Ret b s' -> exists a s1, m s = Ret a s1 /\ f a s1 = Ret b s'.
Proof.
  unfold bind. destruct (m s) as [a s1| | |]; simpl; intros H; try discriminate.
  eauto.
Qed.

(** ** Weakest precondition

    [wp R o Q]: the call whose outcome is [o] never faults and never runs out
    of fuel, and when it returns, [Q] holds.  At a [Wait] the other threads and
    the interrupt handlers may take the state from [s] to any [s'] related by
    the rely condition [R]. *)

Definition rely (S : Type) := wait_reason -> S -> S -> Prop.

Fixpoint wp {S A : Type} (R : rely S) (o : outcome S A) (Q : A -> S -> Prop) : Prop :=
  match o with
  | Ret a s => Q a s
  | Fault _ => False
  | Wait w s k => forall s', R w s s' -> wp R (k s') Q
  | NoFuel => False
  end.

Lemma wp_mono {S A} (R : rely S) (o : outcome S A) (Q Q' : A -> S -> Prop) :
  wp R o Q -> (forall a s, Q a s -> Q' a s) -> wp R o Q'.
Proof. induction o as [| |w s k IH|]; simpl; eauto. Qed.

Lemma wp_obind {S A B} (R : rely S) (o : outcome S A) (f : A -> M S B) Q :
  wp R o (fun a s => wp R (f a s) Q) -> wp R (obind f o) Q.
Proof. induction o as [| |w s k IH|]; simpl; eauto. Qed.

Lemma wp_bind {S A B} (R : rely S) (m : M S A) (f : A -> M S B) Q s :
  wp R (m s) (fun a s' => wp R (f a s') Q) -> wp R ((bind m f) s) Q.
Proof. apply wp_obind. Qed.

(** ** Equivalence of calls

    Two outcomes are equivalent when they agree step by step: the same results, faults and waits
    in the same states, with continuations that are equivalent from every state. *)
Fixpoint oequiv {S A : Type} (o1 o2 : outcome S A) : Prop :=
  match o1, o2 with
  | Ret a s, Ret b t => a = b /\ s = t
  | Fault e, Fault f => e = f
  | Wait w s k, Wait v t l => w = v /\ s = t /\ forall u, oequiv (k u) (l u)
  | NoFuel, NoFuel => True
  | _, _ => False
  end.
#[export] Instance outcome_equiv S A : Equiv (outcome S A) := oequiv.

#[export] Instance oequiv_equivalence S A : Equivalence (≡@{outcome S A}).
Proof.
  unfold equiv, outcome_equiv. split.
  - intros o. induction o; simpl; auto.
  - intros o1. induction o1; intros [] Ho; simpl in *; naive_solver.
  - intros o1. induction o1; intros [] [] Ho1 Ho2; simpl in *; naive_solver.
Qed.

Lemma obind_equiv {S A B} (f g : A -> M S B) (o1 o2 : outcome S A) :
  o1 ≡ o2 -> (forall a s, f a s ≡ g a s) -> obind f o1 ≡ obind g o2.
Proof.
  unfold equiv, outcome_equiv. intros Ho Hfg. revert o2 Ho.
  induction o1 as [a s|e|w s k IH|]; intros [] Ho; simpl in *; try done.
  - destruct Ho as [<- <-]. apply Hfg.
  - destruct Ho as (<- & <- & Hk). repeat split. intros u. by apply IH.
Qed.

Lemma bind_equiv {S A B} (m : M S A) (f g : A -> M S B) s :
  (forall a s', f a s' ≡ g a s') -> bind m f s ≡ bind m g s.
Proof. by apply obind_equiv. Qed.

Lemma equiv_Ret {S A} (o : outcome S A) a s : o ≡ Ret a s -> o = Ret a s.
Proof. destruct o; simpl; try done. by intros [-> ->]. Qed.

(** Equivalent calls satisfy the same specifications. *)
#[export] Instance wp_proper S A (R : rely S) : Proper ((≡) ==> eq ==> iff) (@wp S A R).
Proof.
  unfold equiv, outcome_equiv. intros o1 o2 Ho Q _ <-. revert o2 Ho.
  induction o1 as [| |w s k IH|]; intros [] Ho; simpl in *; try done.
  - by destruct Ho as [<- <-].
  - destruct Ho as (<- & <- & Hk). split; intros H s' HR; apply (IH s' _ (Hk s')), H, HR.
Qed.

(** [returns m s a s']: the call neither blocks nor faults. *)
Lemma wp_ret_intro {S A} (R : rely S) (m : M S A) s a s' (Q : A -> S -> Prop) :
  m s = Ret a s' -> Q a s' -> wp R (m s) Q.
Proof. intros ->. done. Qed.

(** ** 32-bit integers *)

Definition uint32 (z : Z) : Z := z mod 2 ^ 32.
Definition int32 (z : Z) : Z := let u := z mod 2 ^ 32 in if u <? 2 ^ 31 then u else u - 2 ^ 32.

Lemma uint32_small z : 0 <= z < 2 ^ 32 -> uint32 z = z.
Proof. apply Z.mod_small. Qed.

Lemma uint32_range z : 0 <= uint32 z < 2 ^ 32.
Proof. apply Z.mod_pos_bound. lia. Qed.

Lemma int32_small z : - 2 ^ 31 <= z < 2 ^ 31 -> int32 z = z.
Proof.
  intros Hz. unfold int32. cbv zeta.
  destruct (decide (0 <= z)).
  - rewrite Z.mod_small by lia. destruct (Z.ltb_spec z (2 ^ 31)); lia.
  - assert (z mod 2 ^ 32 = z + 2 ^ 32) as ->.
    { symmetry. apply Z.mod_unique with (-1); lia. }
    destruct (Z.ltb_spec (z + 2 ^ 32) (2 ^ 31)); lia.
Qed.

(** ** Lists *)

(** [list_remove] on a doubly linked list without duplicates. *)
Definition remove_elem {A} `{EqDecision A} (x : A) (l : list A) : list A :=
  filter (fun y => y <> x) l.

Section remove_elem.
Context {A : Type} `{EqDecision A}.
Implicit Types (x y : A) (l : list A).

Lemma elem_of_remove_elem x y l : y ∈ remove_elem x l <-> y <> x /\ y ∈ l.
Proof. unfold remove_elem. by rewrite list_elem_of_filter. Qed.

Lemma NoDup_remove_elem x l : NoDup l -> NoDup (remove_elem x l).
Proof. apply NoDup_filter. Qed.

Lemma remove_elem_app x l1 l2 : remove_elem x (l1 ++ l2) = remove_elem x l1 ++ remove_elem x l2.
Proof. apply filter_app. Qed.

Lemma remove_elem_not_in x l : x ∉ l -> remove_elem x l = l.
Proof.
  unfold remove_elem. induction l as [|y l IH]; [done|]. intros Hx.
  rewrite filter_cons_True by set_solver. f_equal. apply IH. set_solver.
Qed.

Lemma remove_elem_middle x l1 l2 : NoDup (l1 ++ x :: l2) -> remove_elem x (l1 ++ x :: l2) = l1 ++ l2.
Proof.
  intros (_ & Hdis & [Hx _]%NoDup_cons)%NoDup_app.
  rewrite remove_elem_app, remove_elem_not_in by (intros Hin; apply (Hdis x Hin); by left).
  unfold remove_elem. rewrite filter_cons_False by naive_solver.
  change (filter _ l2) with (remove_elem x l2). by rewrite remove_elem_not_in.
Qed.

Lemma length_remove_elem x l :
  NoDup l -> x ∈ l -> length l = S (length (remove_elem x l)).
Proof.
  induction 1 as [|y l Hy Hnd IH]; [set_solver|]. intros Hx.
  unfold remove_elem in *. destruct (decide (y = x)) as [->|Hne].
  - rewrite filter_cons_False by naive_solver. simpl.
    change (filter _ l) with (remove_elem x l). by rewrite remove_elem_not_in.
  - rewrite filter_cons_True by done. simpl. rewrite <- IH by set_solver. done.
Qed.

Lemma remove_elem_perm x l : NoDup l -> x ∈ l -> l ≡ₚ x :: remove_elem x l.
Proof.
  induction 1 as [|y l Hy Hnd IH]; [set_solver|]. intros Hx. unfold remove_elem in *.
  destruct (decide (y = x)) as [->|Hne].
  - rewrite filter_cons_False by naive_solver.
    change (filter _ l) with (remove_elem x l). by rewrite remove_elem_not_in.
  - rewrite filter_cons_True by done. rewrite (Permutation_swap y x). apply Permutation_skip, IH. set_solver.
Qed.
End remove_elem.

(** The last element of a non-empty list: the one at [l_prev] of its head. *)
Lemma last_snoc_inv {A} (l : list A) x : last l = Some x -> exists l', l = l' ++ [x].
Proof. intros H. apply last_Some in H as [l' ->]. eauto. Qed.

(** Pointwise related lists: elements have partners. *)
Lemma Forall2_elem_l {A B} (R : A -> B -> Prop) l k x :
  Forall2 R l k -> x ∈ l -> exists y, y ∈ k /\ R x y.
Proof.
  intros HF. induction HF as [|a b l k Hab _ IH]; [by intros ?%not_elem_of_nil|].
  intros [->|Hin]%elem_of_cons; [exists b; split; [by left|done]|].
  destruct (IH Hin) as (y & ? & ?). exists y. split; [by right|done].
Qed.

Lemma Forall2_elem_r {A B} (R : A -> B -> Prop) l k y :
  Forall2 R l k -> y ∈ k -> exists x, x ∈ l /\ R x y.
Proof.
  intros HF. induction HF as [|a b l k Hab _ IH]; [by intros ?%not_elem_of_nil|].
  intros [->|Hin]%elem_of_cons; [exists a; split; [by left|done]|].
  destruct (IH Hin) as (x & ? & ?). exists x. split; [by right|done].
Qed.

(** ** Automation *)

Create HintDb kernel.
Create Rewrite HintDb kernel.
#[export] Hint Rewrite @elem_of_remove_elem : kernel.

(** Run one step of a monadic call in the goal. *)
Ltac mred :=
  repeat match goal with
  | |- context [bind _ _ _] => unfold bind at 1
  end; simpl.

(** Case analysis on the scrutinee of a [match] or [if] in hypothesis [H]. *)
Ltac case_in H :=
  match type of H with
  | context [match ?x with _ => _ end] =>
      lazymatch x with
      | context [match _ with _ => _ end] => fail
      | _ => destruct x eqn:?
      end
  end.

(** Boolean comparisons to propositions. *)
Ltac to_prop :=
  repeat match goal with
  | H : _ && _ = true |- _ => apply andb_true_iff in H as [? ?]
  | H : _ || _ = false |- _ => apply orb_false_iff in H as [? ?]
  | H : negb _ = true |- _ => apply negb_true_iff in H
  | H : negb _ = false |- _ => apply negb_false_iff in H
  | H : (_ <? _) = true |- _ => apply Z.ltb_lt in H
  | H : (_ <? _) = false |- _ => apply Z.ltb_ge in H
  | H : (_ <=? _) = true |- _ => apply Z.leb_le in H
  | H : (_ <=? _) = false |- _ => apply Z.leb_gt in H
  | H : (_ =? _) = true |- _ => apply Z.eqb_eq in H
  | H : (_ =? _) = false |- _ => apply Z.eqb_neq in H
  | H : bool_decide _ = true |- _ => apply bool_decide_eq_true in H
  | H : bool_decide _ = false |- _ => apply bool_decide_eq_false in H
  end.
