(* ===== verification/Platform.v ===== *)
(** * Platform

    The constants, macros and allocators that the kernel takes from headers
    and from components outside the modelled sources: [mm/page.h], [mm/mman.h],
    [errno.h], [config.h], [fs/*.h], [main/interrupt.h], [mm/slab.h],
    [mm/page.c].  They are parameters of the model ([Platform]); what the
    code relies on is stated once, as the laws of [PlatformOk].  [weenix] is
    the instance the witnesses are evaluated at. *)

From S2P Require Import Prelude.

(** The parameters. *)
Class Platform := {
  (* mm/page.h, mm/mm.h *)
  PAGE_SIZE : Z;
  ADDR_TO_PN : Z -> Z;
  PN_TO_ADDR : Z -> Z;
  PAGE_OFFSET : Z -> Z;
  PAGE_ALIGNED : Z -> bool;
  USER_MEM_LOW : Z;
  USER_MEM_HIGH : Z;
  (* mm/mman.h *)
  PROT_NONE : Z; PROT_READ : Z; PROT_WRITE : Z; PROT_EXEC : Z;
  MAP_SHARED : Z; MAP_PRIVATE : Z; MAP_FIXED : Z; MAP_ANON : Z;
  (* vm/vmmap.h *)
  VMMAP_DIR_LOHI : Z; VMMAP_DIR_HILO : Z;
  (* main/interrupt.h *)
  IPL_LOW : Z; IPL_HIGH : Z;
  (* config.h *)
  PROC_MAX_COUNT : Z; PROC_NAME_LEN : nat; NFILES : nat; PF_HASH_SIZE : Z;
  (* proc/proc.h *)
  PID_IDLE : Z; PID_INIT : Z;
  (* errno.h *)
  EINTR : Z; ECHILD : Z; EBADF : Z; EMFILE : Z; ENOMEM : Z; EINVAL : Z;
  EISDIR : Z; ENOTDIR : Z; ENOENT : Z; ENAMETOOLONG : Z; EEXIST : Z;
  EFAULT : Z; ENOTEMPTY : Z; EBUSY : Z; ENOTSUP : Z;
  (* The slab allocator (mm/slab.c): which object the n-th request returns, given the
     objects of its kind that are live; None when memory is exhausted. *)
  slab_obj_alloc : nat -> gset ptr -> option ptr;
  (* The physical page allocator (mm/page.c): the page the n-th request returns, what it
     contains, and the number of free pages, given the pages in use. *)
  page_alloc_n : nat -> gset ptr -> option ptr;
  page_content : nat -> list Z;
  page_free_count : gset ptr -> Z;
  (* mm/pagetable.c: the page directory the n-th request returns, given those in use. *)
  pt_new_pagedir : nat -> gset ptr -> option ptr;
  (* What a word of newly allocated memory holds before it is written. *)
  uninit : nat -> Z;
}.

(** Iteration budget of the loops that wait for interrupts or for other
    threads; it is a parameter of the routines that contain such a loop. *)
Class LoopFuel := loop_fuel : nat.

(** The documented behaviour the code relies on. *)
Class PlatformOk (P : Platform) : Prop := {
  page_size_4k : PAGE_SIZE = 4096;
  addr_to_pn_spec a : ADDR_TO_PN a = a / PAGE_SIZE;
  pn_to_addr_spec n : PN_TO_ADDR n = n * PAGE_SIZE;
  page_offset_spec a : PAGE_OFFSET a = a mod PAGE_SIZE;
  page_aligned_spec a : PAGE_ALIGNED a = (a mod PAGE_SIZE =? 0);
  user_mem_low_pos : 0 < ADDR_TO_PN USER_MEM_LOW;
  user_mem_range : USER_MEM_LOW < USER_MEM_HIGH;
  user_mem_high_32 : USER_MEM_HIGH < 2 ^ 32;
  user_mem_low_aligned : USER_MEM_LOW mod PAGE_SIZE = 0;
  user_mem_high_aligned : USER_MEM_HIGH mod PAGE_SIZE = 0;
  proc_max_count_pos : 0 < PROC_MAX_COUNT < 2 ^ 31;
  errno_pos : Forall (fun e => 0 < e)
    [EINTR; ECHILD; EBADF; EMFILE; ENOMEM; EINVAL; EISDIR; ENOTDIR; ENOENT;
     ENAMETOOLONG; EEXIST; EFAULT; ENOTEMPTY; EBUSY; ENOTSUP];
  slab_obj_alloc_fresh n live p : slab_obj_alloc n live = Some p -> p ∉ live;
  page_alloc_n_fresh n live p : page_alloc_n n live = Some p -> p ∉ live;
  pt_new_pagedir_fresh n live p : pt_new_pagedir n live = Some p -> p ∉ live;
  page_content_length n : Z.of_nat (length (page_content n)) = PAGE_SIZE;
  pf_hash_size_pos : 0 < PF_HASH_SIZE;
  pid_idle_0 : PID_IDLE = 0;
  pid_init_1 : PID_INIT = 1;
  vmmap_dirs : VMMAP_DIR_LOHI <> VMMAP_DIR_HILO;
  map_shared_private : Z.land MAP_SHARED MAP_PRIVATE = 0 /\ 0 < MAP_SHARED /\ 0 < MAP_PRIVATE;
}.

(** The values of the Weenix headers, for a given allocator of objects. *)
Definition first_fresh (_ : nat) (live : gset ptr) : option ptr := Some (fresh live).

Definition weenix_with (slab : nat -> gset ptr -> option ptr) : Platform := {|
  PAGE_SIZE := 4096;
  ADDR_TO_PN a := a / 4096;
  PN_TO_ADDR n := n * 4096;
  PAGE_OFFSET a := a mod 4096;
  PAGE_ALIGNED a := a mod 4096 =? 0;
  USER_MEM_LOW := 0x00400000;
  USER_MEM_HIGH := 0xc0000000;
  PROT_NONE := 0; PROT_READ := 1; PROT_WRITE := 2; PROT_EXEC := 4;
  MAP_SHARED := 1; MAP_PRIVATE := 2; MAP_FIXED := 4; MAP_ANON := 8;
  VMMAP_DIR_LOHI := 1; VMMAP_DIR_HILO := 2;
  IPL_LOW := 0; IPL_HIGH := 255;
  PROC_MAX_COUNT := 65536; PROC_NAME_LEN := 256; NFILES := 32; PF_HASH_SIZE := 1024;
  PID_IDLE := 0; PID_INIT := 1;
  EINTR := 4; ECHILD := 10; EBADF := 9; EMFILE := 24; ENOMEM := 12; EINVAL := 22;
  EISDIR := 21; ENOTDIR := 20; ENOENT := 2; ENAMETOOLONG := 36; EEXIST := 17;
  EFAULT := 14; ENOTEMPTY := 39; EBUSY := 16; ENOTSUP := 95;
  slab_obj_alloc := slab;
  page_alloc_n := first_fresh;
  page_content _ := replicate 4096 0;
  page_free_count live := 65536 - Z.of_nat (size live);
  pt_new_pagedir := first_fresh;
  uninit _ := 0;
|}.

Lemma first_fresh_ok n live p : first_fresh n live = Some p -> p ∉ live.
Proof. intros [= <-]. apply is_fresh. Qed.

Lemma weenix_with_ok slab :
  (forall n live p, slab n live = Some p -> p ∉ live) -> PlatformOk (weenix_with slab).
Proof. intros Hslab. split; try done; try apply first_fresh_ok. simpl. repeat constructor. Qed.

(** An allocator that never runs out. *)
#[export] Instance weenix : Platform := weenix_with first_fresh.
#[export] Instance weenix_ok : PlatformOk weenix := weenix_with_ok _ first_fresh_ok.

(** Lowest and highest user page numbers. *)
Definition user_lo `{Platform} : Z := ADDR_TO_PN USER_MEM_LOW.
Definition user_hi `{Platform} : Z := ADDR_TO_PN USER_MEM_HIGH.

Section platform_lemmas.
Context `{PlatformOk}.

Lemma user_pages : 0 < user_lo < user_hi /\ user_hi < 2 ^ 20.
Proof.
  unfold user_lo, user_hi. pose proof user_mem_low_pos as Hpos. revert Hpos.
  rewrite !addr_to_pn_spec. pose proof user_mem_range as Hr. pose proof user_mem_high_32 as H32.
  pose proof user_mem_low_aligned as Hl. pose proof user_mem_high_aligned as Hh.
  rewrite page_size_4k in *. intros Hp.
  pose proof (Z.div_mod USER_MEM_HIGH 4096 ltac:(lia)) as Hhi.
  split; [split; [done|]|]; apply Z.div_lt_upper_bound; lia.
Qed.
End platform_lemmas.
