(* ===== verification/State.v ===== *)
(** * State

    The kernel's data: the structures of [proc/proc.h], [proc/kthread.h],
    [proc/sched.h], [proc/kmutex.h], [vm/vmmap.h], [mm/mmobj.h], [mm/pframe.h],
    [fs/file.h] and [fs/vnode.h] as the
    modelled sources use them, and the global variables of the sources, in one
    record [kernel].  A structure lives in a heap of its type, a finite map
    from addresses; freed memory is absent from its heap, so that a dangling
    dereference faults.

    Intrusive lists ([util/list.h]): a list is the sequence of the structures
    linked on it, and a [list_link_t] member records the list its structure is
    linked on ([None]: unlinked).  Inserting a linked link or removing an
    unlinked one would corrupt pointers, and faults. *)

From S2P Require Import Prelude Platform.

(** ** Wait queues

    Every [ktqueue_t] of the kernel, named by the structure that embeds it. *)
Inductive wchan : Type :=
| Runq                  (* sched.c: kt_runq *)
| ProcWait (p : ptr)    (* p->p_wait *)
| MutexWait (m : ptr)   (* mtx->km_waitq *)
| PframeWait (pf : ptr) (* pf->pf_waitq *)
| VnodeWait (vn : ptr)  (* vn->vn_waitq *)
| AllocWait             (* pframe.c: alloc_waitq *)
| PageoutdWait.         (* pframe.c: pageoutd_waitq *)

#[export] Instance wchan_eq_dec : EqDecision wchan.
Proof. solve_decision. Defined.

#[export] Instance wchan_countable : Countable wchan.
Proof.
  refine (inj_countable'
    (fun w => match w with
      | Runq => inl 1%positive | AllocWait => inl 2%positive | PageoutdWait => inl 3%positive
      | ProcWait p => inr (inl (inl p)) | MutexWait p => inr (inl (inr p))
      | PframeWait p => inr (inr (inl p)) | VnodeWait p => inr (inr (inr p)) end)
    (fun (e : positive + ((positive + positive) + (positive + positive))) => match e with
      | inl 1%positive => Runq | inl 2%positive => AllocWait | inl _ => PageoutdWait
      | inr (inl (inl p)) => ProcWait p | inr (inl (inr p)) => MutexWait p
      | inr (inr (inl p)) => PframeWait p | inr (inr (inr p)) => VnodeWait p end) _).
  by intros [].
Defined.

Record ktqueue := { tq_list : list ptr; tq_size : Z }.
#[export] Instance eta_ktqueue : Eta ktqueue := fun r => Build_ktqueue (tq_list r) (tq_size r).

(** ** Threads and mutexes *)
Inductive kthread_state := KT_NO_STATE | KT_RUN | KT_SLEEP | KT_SLEEP_CANCELLABLE | KT_EXITED.
#[export] Instance kthread_state_eq_dec : EqDecision kthread_state.
Proof. solve_decision. Defined.

(** [context_t]: what a context switch restores. *)
Record context := {
  c_pdptr : option ptr;
  c_eip : Z;
  c_esp : Z;
  c_kstack : option ptr;
  c_kstacksz : Z;
}.
#[export] Instance eta_context : Eta context := fun r =>
  Build_context (c_pdptr r) (c_eip r) (c_esp r) (c_kstack r) (c_kstacksz r).

Record kthread := {
  kt_ctx : context;
  kt_kstack : option ptr;
  kt_retval : Z;
  kt_errno : Z;
  kt_proc : option ptr;
  kt_cancelled : Z;
  kt_wchan : option wchan;
  kt_state : kthread_state;
  kt_qlink : option wchan;   (* the queue the thread is linked on *)
  kt_plink : option ptr;     (* the process whose p_threads it is linked on *)
}.
#[export] Instance eta_kthread : Eta kthread := fun r =>
  Build_kthread (kt_ctx r) (kt_kstack r) (kt_retval r) (kt_errno r) (kt_proc r) (kt_cancelled r)
    (kt_wchan r) (kt_state r) (kt_qlink r) (kt_plink r).

(** The wait queue of mutex [m] is the queue [MutexWait m]. *)
Record kmutex := { km_holder : option ptr }.
#[export] Instance eta_kmutex : Eta kmutex := fun r => Build_kmutex (km_holder r).

(** ** Processes

    The wait queue of process [p] is the queue [ProcWait p]. *)
Inductive proc_state := PROC_RUNNING | PROC_DEAD.
#[export] Instance proc_state_eq_dec : EqDecision proc_state.
Proof. solve_decision. Defined.

Record proc := {
  p_pid : Z;
  p_comm : string;
  p_threads : list ptr;
  p_children : list ptr;
  p_pproc : option ptr;
  p_status : Z;
  p_state : proc_state;
  p_pagedir : option ptr;
  p_list_link : bool;          (* linked on _proc_list *)
  p_child_link : option ptr;   (* the process whose p_children it is linked on *)
  p_files : list (option ptr);
  p_cwd : option ptr;
  p_vmmap : option ptr;
  p_brk : Z;
  p_start_brk : Z;
}.
#[export] Instance eta_proc : Eta proc := fun r =>
  Build_proc (p_pid r) (p_comm r) (p_threads r) (p_children r) (p_pproc r) (p_status r)
    (p_state r) (p_pagedir r) (p_list_link r) (p_child_link r) (p_files r) (p_cwd r)
    (p_vmmap r) (p_brk r) (p_start_brk r).

(** ** Address spaces *)
Record vmmap := { vmm_list : list ptr; vmm_proc : option ptr }.
#[export] Instance eta_vmmap : Eta vmmap := fun r => Build_vmmap (vmm_list r) (vmm_proc r).

Record vmarea := {
  vma_start : Z;
  vma_end : Z;
  vma_off : Z;
  vma_prot : Z;
  vma_flags : Z;
  vma_vmmap : option ptr;
  vma_obj : option ptr;
  vma_plink : option ptr;   (* the vmmap whose vmm_list it is linked on *)
  vma_olink : option ptr;   (* the memory object whose mmo_vmas it is linked on *)
}.
#[export] Instance eta_vmarea : Eta vmarea := fun r =>
  Build_vmarea (vma_start r) (vma_end r) (vma_off r) (vma_prot r) (vma_flags r)
    (vma_vmmap r) (vma_obj r) (vma_plink r) (vma_olink r).

(** ** Memory objects and page frames

    [mmo_ops] is the table of entry points of the object: that of [anon.c], of [shadow.c],
    or of [vnode.c] for the object embedded in a vnode.  The union [mmo_un] holds the areas
    that map the object, or, for a shadow object, the bottom object of its chain. *)
Inductive mmobj_ops_table := anon_mmobj_ops | shadow_mmobj_ops | vnode_mmobj_ops (vn : ptr).
#[export] Instance mmobj_ops_table_eq_dec : EqDecision mmobj_ops_table.
Proof. solve_decision. Defined.

Inductive mmo_union := MmoVmas (vmas : list ptr) | MmoBottom (bottom : option ptr).

Record mmobj := {
  mmo_ops : mmobj_ops_table;
  mmo_refcount : Z;
  mmo_nrespages : Z;
  mmo_respages : list ptr;
  mmo_un : mmo_union;
  mmo_shadowed : option ptr;
}.
#[export] Instance eta_mmobj : Eta mmobj := fun r =>
  Build_mmobj (mmo_ops r) (mmo_refcount r) (mmo_nrespages r) (mmo_respages r) (mmo_un r)
    (mmo_shadowed r).

(** The list [pf_link] is on: pframe.c's [alloc_list] or [pinned_list]. *)
Inductive page_list := AllocList | PinnedList.
#[export] Instance page_list_eq_dec : EqDecision page_list.
Proof. solve_decision. Defined.

Record pframe := {
  pf_obj : option ptr;
  pf_pagenum : Z;
  pf_addr : ptr;
  pf_busy : bool;            (* PF_BUSY of pf_flags *)
  pf_dirty : bool;           (* PF_DIRTY of pf_flags *)
  pf_pincount : Z;
  pf_link : option page_list;
  pf_hlink : option Z;       (* the chain of pframe_hash it is on *)
  pf_olink : option ptr;     (* the object whose mmo_respages it is on *)
}.
#[export] Instance eta_pframe : Eta pframe := fun r =>
  Build_pframe (pf_obj r) (pf_pagenum r) (pf_addr r) (pf_busy r) (pf_dirty r) (pf_pincount r)
    (pf_link r) (pf_hlink r) (pf_olink r).

(** ** Files and vnodes

    [vn_mmobj] is the address of the memory object embedded in the vnode; the members
    [vn_refcount] and [vn_nrespages] are the counts of that object.  The wait queue of vnode
    [vn] is the queue [VnodeWait vn]. *)
Record file := {
  f_pos : Z;
  f_mode : Z;
  f_refcount : Z;
  f_vnode : option ptr;
}.
#[export] Instance eta_file : Eta file := fun r =>
  Build_file (f_pos r) (f_mode r) (f_refcount r) (f_vnode r).

(** The table of operations: that of the file system the vnode belongs to, or one of the
    tables of [vnode.c] for special files; NULL before the vnode is read. *)
Inductive vnode_ops_table := no_vops | fs_vops | bytedev_spec_vops | blockdev_spec_vops.
#[export] Instance vnode_ops_table_eq_dec : EqDecision vnode_ops_table.
Proof. solve_decision. Defined.

Record vnode := {
  vn_ops : vnode_ops_table;
  vn_fs : ptr;
  vn_mmobj : ptr;
  vn_vno : Z;
  vn_mode : Z;
  vn_len : Z;
  vn_devid : Z;
  vn_cdev : option ptr;
  vn_bdev : option ptr;
  vn_busy : bool;            (* VN_BUSY of vn_flags *)
}.
#[export] Instance eta_vnode : Eta vnode := fun r =>
  Build_vnode (vn_ops r) (vn_fs r) (vn_mmobj r) (vn_vno r) (vn_mode r) (vn_len r) (vn_devid r)
    (vn_cdev r) (vn_bdev r) (vn_busy r).

(** Calls to the MMU code (page tables and TLB), recorded in order. *)
Inductive mmu_call :=
| PtMap (pd : ptr) (vaddr : Z) (page : ptr) (pdflags ptflags : Z)
| PtUnmap (pd : ptr) (vaddr : Z)
| PtUnmapRange (pd : ptr) (vlow vhigh : Z)
| TlbFlush (vaddr : Z)
| TlbFlushPage (page : ptr)
| TlbFlushRange (vaddr count : Z)
| TlbFlushAll.

(** ** The kernel: heaps and global variables *)
Record kernel := {
  (* sched.c, kthread.c, kmutex.c *)
  threads : gmap ptr kthread;
  queues : gmap wchan ktqueue;
  mutexes : gmap ptr kmutex;
  kstacks : gset ptr;
  curthr : option ptr;
  ipl : Z;
  (* proc.c *)
  procs : gmap ptr proc;
  proc_list : list ptr;
  proc_initproc : option ptr;
  next_pid : Z;
  curproc : option ptr;
  pagedirs : gset ptr;
  (* vmmap.c *)
  vmmaps : gmap ptr vmmap;
  vmareas : gmap ptr vmarea;
  (* pframe.c, anon.c, shadow.c *)
  mmobjs : gmap ptr mmobj;
  pframes : gmap ptr pframe;
  pages : gmap ptr (list Z);
  alloc_list : list ptr;
  pinned_list : list ptr;
  nallocated : Z;
  npinned : Z;
  pframe_hash : gmap Z (list ptr);
  nfreepages_min : Z;
  nfreepages_target : Z;
  pageoutd : option ptr;
  pageoutd_thr : option ptr;
  mmu : list mmu_call;
  (* vnode.c, file.c, vfs.c *)
  vnodes : gmap ptr vnode;
  vnode_inuse_list : list ptr;
  files : gmap ptr file;
  vfs_root_vn : option ptr;
  (* number of allocation requests so far *)
  alloc_count : nat;
}.
#[export] Instance eta_kernel : Eta kernel := fun r =>
  Build_kernel (threads r) (queues r) (mutexes r) (kstacks r) (curthr r) (ipl r)
    (procs r) (proc_list r) (proc_initproc r) (next_pid r) (curproc r) (pagedirs r)
    (vmmaps r) (vmareas r) (mmobjs r) (pframes r) (pages r) (alloc_list r) (pinned_list r)
    (nallocated r) (npinned r) (pframe_hash r) (nfreepages_min r) (nfreepages_target r)
    (pageoutd r) (pageoutd_thr r) (mmu r) (vnodes r) (vnode_inuse_list r) (files r)
    (vfs_root_vn r) (alloc_count r).

Lemma kernel_ext (k1 k2 : kernel) :
  threads k1 = threads k2 ->
  queues k1 = queues k2 ->
  mutexes k1 = mutexes k2 ->
  kstacks k1 = kstacks k2 ->
  curthr k1 = curthr k2 ->
  ipl k1 = ipl k2 ->
  procs k1 = procs k2 ->
  proc_list k1 = proc_list k2 ->
  proc_initproc k1 = proc_initproc k2 ->
  next_pid k1 = next_pid k2 ->
  curproc k1 = curproc k2 ->
  pagedirs k1 = pagedirs k2 ->
  vmmaps k1 = vmmaps k2 ->
  vmareas k1 = vmareas k2 ->
  mmobjs k1 = mmobjs k2 ->
  pframes k1 = pframes k2 ->
  pages k1 = pages k2 ->
  alloc_list k1 = alloc_list k2 ->
  pinned_list k1 = pinned_list k2 ->
  nallocated k1 = nallocated k2 ->
  npinned k1 = npinned k2 ->
  pframe_hash k1 = pframe_hash k2 ->
  nfreepages_min k1 = nfreepages_min k2 ->
  nfreepages_target k1 = nfreepages_target k2 ->
  pageoutd k1 = pageoutd k2 ->
  pageoutd_thr k1 = pageoutd_thr k2 ->
  mmu k1 = mmu k2 ->
  vnodes k1 = vnodes k2 ->
  vnode_inuse_list k1 = vnode_inuse_list k2 ->
  files k1 = files k2 ->
  vfs_root_vn k1 = vfs_root_vn k2 ->
  alloc_count k1 = alloc_count k2 ->
  k1 = k2.
Proof. destruct k1, k2. cbn. intros. by subst. Qed.

(** Equality of states, field by field. *)
Ltac kernel_ext := apply kernel_ext; simpl; try reflexivity.

Abbreviation K := (M kernel).

(** ** Memory access *)
Section heap.
Context {X : Type} (h : kernel -> gmap ptr X) `{!FieldSetter h}.

(** [*p] *)
Definition deref (p : ptr) : K X :=
  fun k => match h k !! p with Some x => Ret x k | None => Fault BadPtr end.

(** Assignment to members of [*p]. *)
Definition assign (p : ptr) (f : X -> X) : K unit :=
  fun k => match h k !! p with
    | Some x => Ret tt (k <| h := <[p := f x]> (h k) |>)
    | None => Fault BadPtr
    end.

(** [slab_obj_alloc], then initialisation of the members by [x]. *)
Definition slab_alloc `{Platform} : K (option ptr) :=
  fun k => Ret (slab_obj_alloc (alloc_count k) (dom (h k))) (k <| alloc_count ::= S |>).

Definition init_obj (p : ptr) (x : X) : K unit :=
  modify (fun k => k <| h := <[p := x]> (h k) |>).

(** [slab_obj_free]. *)
Definition slab_free (p : ptr) : K unit :=
  fun k => match h k !! p with
    | Some _ => Ret tt (k <| h := delete p (h k) |>)
    | None => Fault BadPtr
    end.
End heap.

(** A call to the MMU code. *)
Definition mmu_do (c : mmu_call) : K unit := modify (fun k => k <| mmu ::= cons c |>).
Arguments deref {X} h p.
Arguments assign {X} h {_} p f.
Arguments slab_alloc {X} h {_}.
Arguments init_obj {X} h {_} p x.
Arguments slab_free {X} h {_} p.

(** The context of a thread that was never set up. *)
Definition no_context : context := {|
  c_pdptr := None; c_eip := 0; c_esp := 0; c_kstack := None; c_kstacksz := 0 |}.

(** Boot state: every list empty, nothing allocated. *)
Definition boot : kernel := {|
  threads := ∅; queues := ∅; mutexes := ∅; kstacks := ∅; curthr := None; ipl := 0;
  procs := ∅; proc_list := []; proc_initproc := None; next_pid := 0; curproc := None;
  pagedirs := ∅; vmmaps := ∅; vmareas := ∅; mmobjs := ∅; pframes := ∅; pages := ∅;
  alloc_list := []; pinned_list := []; nallocated := 0; npinned := 0; pframe_hash := ∅;
  nfreepages_min := 0; nfreepages_target := 0; pageoutd := None; pageoutd_thr := None;
  mmu := []; vnodes := ∅; vnode_inuse_list := []; files := ∅; vfs_root_vn := None;
  alloc_count := 0%nat |}.

(** ** How memory access runs *)
Section heap_lemmas.
Context {X : Type} (h : kernel -> gmap ptr X) `{!FieldSetter h}.

Lemma deref_Some p x k : h k !! p = Some x -> deref h p k = Ret x k.
Proof. unfold deref. intros ->. done. Qed.

Lemma deref_inv p x k k' : deref h p k = Ret x k' -> k' = k /\ h k !! p = Some x.
Proof. unfold deref. destruct (h k !! p); naive_solver. Qed.

Lemma assign_Some p x f k :
  h k !! p = Some x -> assign h p f k = Ret tt (k <| h := <[p := f x]> (h k) |>).
Proof. unfold assign. intros ->. done. Qed.

Lemma bind_deref {B} p x k (f : X -> K B) :
  h k !! p = Some x -> bind (deref h p) f k = f x k.
Proof. intros Hp. apply bind_ret, deref_Some, Hp. Qed.

Lemma bind_assign {B} p x g k (f : unit -> K B) :
  h k !! p = Some x -> bind (assign h p g) f k = f tt (k <| h := <[p := g x]> (h k) |>).
Proof. intros Hp. by apply bind_ret, assign_Some. Qed.

Lemma bind_slab_alloc `{Platform} {B} k (f : option ptr -> K B) :
  bind (slab_alloc h) f k = f (slab_obj_alloc (alloc_count k) (dom (h k))) (k <| alloc_count ::= S |>).
Proof. reflexivity. Qed.

Lemma bind_init_obj {B} p x k (f : unit -> K B) :
  bind (init_obj h p x) f k = f tt (k <| h := <[p := x]> (h k) |>).
Proof. reflexivity. Qed.

Lemma slab_free_Some p x k : h k !! p = Some x -> slab_free h p k = Ret tt (k <| h := delete p (h k) |>).
Proof. unfold slab_free. by intros ->. Qed.

Lemma bind_slab_free {B} p x k (f : unit -> K B) :
  h k !! p = Some x -> bind (slab_free h p) f k = f tt (k <| h := delete p (h k) |>).
Proof. intros Hp. by eapply bind_ret, slab_free_Some. Qed.
End heap_lemmas.

Lemma bind_KASSERT {S B} (b : bool) (f : unit -> M S B) s :
  b = true -> bind (KASSERT b) f s = f tt s.
Proof. intros ->. reflexivity. Qed.

Lemma bind_modify {S B} (g : S -> S) (f : unit -> M S B) s : bind (modify g) f s = f tt (g s).
Proof. reflexivity. Qed.

Lemma bind_get {S B} (f : S -> M S B) s : bind get f s = f s s.
Proof. reflexivity. Qed.

Lemma bind_gets {S A B} (g : S -> A) (f : A -> M S B) s : bind (gets g) f s = f (g s) s.
Proof. reflexivity. Qed.

Lemma bind_nonnull {S A B} (a : A) (f : A -> M S B) s : bind (nonnull (Some a)) f s = f a s.
Proof. reflexivity. Qed.

Lemma bind_ret_l {S A B} (a : A) (f : A -> M S B) s : bind (ret a) f s = f a s.
Proof. reflexivity. Qed.

(** ** Running a call step by step

    [kstep] executes the first memory access or state change of the call in the goal;
    [lookup_solve] finds the object it reads. *)
Ltac lookup_solve :=
  simpl;
  repeat first [rewrite lookup_insert_eq | rewrite lookup_insert_ne by congruence];
  first [eassumption | reflexivity].
Ltac kstep :=
  first
    [ rewrite bind_get | rewrite bind_gets | rewrite bind_modify | rewrite bind_nonnull
    | rewrite bind_ret_l | rewrite bind_init_obj | rewrite bind_slab_alloc
    | erewrite bind_deref by lookup_solve
    | erewrite bind_assign by lookup_solve
    | erewrite bind_slab_free by lookup_solve ].
