(* ===== verification/Sched.v ===== *)
(** * Sched

    [kernel/proc/sched.c]: wait queues, sleeping, waking, cancelling and the
    context switch.  The component's invariant [sched_wf] ties the queue a
    thread says it waits on ([kt_wchan]) to the queue it is linked on; the
    queues refine FIFO queues ([fifo]). *)

From S2P Require Import Prelude Platform State.

(** ** Queues *)
Definition empty_ktqueue : ktqueue := {| tq_list := []; tq_size := 0 |}.

(** The queue named [q]; memory that was never initialised counts as an empty queue. *)
Definition queue (k : kernel) (q : wchan) : ktqueue := default empty_ktqueue (queues k !! q).

Definition set_queue (q : wchan) (f : ktqueue -> ktqueue) : K unit :=
  modify (fun k => k <| queues := <[q := f (queue k q)]> (queues k) |>).

(** [list_insert_head(&q->tq_list, &thr->kt_qlink)] *)
Definition qlink_insert_head (q : wchan) (thr : ptr) : K unit :=
  t ← deref threads thr;
  match kt_qlink t with
  | Some _ => fail ListCorrupt
  | None =>
      set_queue q (fun tq => tq <| tq_list ::= cons thr |>);;
      assign threads thr (fun t => t <| kt_qlink := Some q |>)
  end.

(** [list_remove(&thr->kt_qlink)] *)
Definition qlink_remove (thr : ptr) : K unit :=
  t ← deref threads thr;
  match kt_qlink t with
  | None => fail ListCorrupt
  | Some q =>
      set_queue q (fun tq => tq <| tq_list ::= remove_elem thr |>);;
      assign threads thr (fun t => t <| kt_qlink := None |>)
  end.

Definition ktqueue_enqueue (q : wchan) (thr : ptr) : K unit :=
  t ← deref threads thr;
  KASSERT (bool_decide (kt_wchan t = None));;
  qlink_insert_head q thr;;
  assign threads thr (fun t => t <| kt_wchan := Some q |>);;
  set_queue q (fun tq => tq <| tq_size ::= fun n => n + 1 |>).

Definition ktqueue_dequeue (q : wchan) : K (option ptr) :=
  k ← get;
  match last (tq_list (queue k q)) with
  | None => ret None
  | Some thr =>
      qlink_remove thr;;
      assign threads thr (fun t => t <| kt_wchan := None |>);;
      set_queue q (fun tq => tq <| tq_size ::= fun n => n - 1 |>);;
      ret (Some thr)
  end.

Definition ktqueue_remove (q : wchan) (thr : ptr) : K unit :=
  t ← deref threads thr;
  KASSERT (bool_decide (kt_qlink t <> None));;
  qlink_remove thr;;
  assign threads thr (fun t => t <| kt_wchan := None |>);;
  set_queue q (fun tq => tq <| tq_size ::= fun n => n - 1 |>).

Definition sched_queue_init (q : wchan) : K unit := set_queue q (fun _ => empty_ktqueue).

Definition sched_queue_empty (q : wchan) : K bool :=
  k ← get; ret (match tq_list (queue k q) with [] => true | _ => false end).

(** [intr_getipl], [intr_setipl] and [apic_setipl]: the interrupt priority level. *)
Definition intr_getipl : K Z := gets ipl.
Definition intr_setipl (l : Z) : K unit := modify (fun k => k <| ipl := l |>).

Section sched.
Context `{P : Platform, F : LoopFuel}.

Definition sched_make_runnable (thr : ptr) : K unit :=
  t ← deref threads thr;
  KASSERT (bool_decide (kt_wchan t <> Some Runq));;
  oldIPL ← intr_getipl;
  intr_setipl IPL_HIGH;;
  assign threads thr (fun t => t <| kt_state := KT_RUN |>);;
  ktqueue_enqueue Runq thr;;
  intr_setipl oldIPL.

(** The loop of [sched_switch] that waits for an interrupt to fill the run queue. *)
Fixpoint switch_wait (fuel : nat) : K unit :=
  match fuel with
  | O => no_fuel
  | S fuel =>
      e ← sched_queue_empty Runq;
      if e then
        intr_setipl IPL_LOW;;
        wait IntrWait;;
        intr_setipl IPL_HIGH;;
        switch_wait fuel
      else ret tt
  end.

Definition sched_switch : K unit :=
  oldIPL ← intr_getipl;
  intr_setipl IPL_HIGH;;
  switch_wait loop_fuel;;
  oldThread ← gets curthr;
  new ← ktqueue_dequeue Runq;
  modify (fun k => k <| curthr := new |>);;
  thr ← nonnull new;
  t ← deref threads thr;
  modify (fun k => k <| curproc := kt_proc t |>);;
  intr_setipl oldIPL;;
  old ← nonnull oldThread;
  _ ← deref threads old;
  wait CtxSwitch;;
  intr_setipl oldIPL.

Definition sched_sleep_on (q : wchan) : K unit :=
  c ← gets curthr;
  KASSERT (bool_decide (c <> None));;
  cur ← nonnull c;
  assign threads cur (fun t => t <| kt_state := KT_SLEEP |>);;
  ktqueue_enqueue q cur;;
  sched_switch.

Definition sched_cancellable_sleep_on (q : wchan) : K Z :=
  c ← gets curthr;
  KASSERT (bool_decide (c <> None));;
  cur ← nonnull c;
  t ← deref threads cur;
  if kt_cancelled t =? 1 then ret (- EINTR)
  else
    assign threads cur (fun t => t <| kt_state := KT_SLEEP_CANCELLABLE |>);;
    ktqueue_enqueue q cur;;
    sched_switch;;
    c' ← gets curthr;
    cur' ← nonnull c';
    t' ← deref threads cur';
    if kt_cancelled t' =? 1 then ret (- EINTR) else ret 0.

Definition sched_wakeup_on (q : wchan) : K (option ptr) :=
  e ← sched_queue_empty q;
  if e then ret None
  else
    headThr ← ktqueue_dequeue q;
    thr ← nonnull headThr;
    t ← deref threads thr;
    KASSERT (bool_decide (kt_state t = KT_SLEEP) || bool_decide (kt_state t = KT_SLEEP_CANCELLABLE));;
    sched_make_runnable thr;;
    ret (Some thr).

(** The [while] loop of [sched_broadcast_on]. *)
Fixpoint broadcast_loop (fuel : nat) (q : wchan) : K unit :=
  match fuel with
  | O => no_fuel
  | S fuel =>
      e ← sched_queue_empty q;
      if e then ret tt
      else
        _ ← sched_wakeup_on q;
        broadcast_loop fuel q
  end.

(** The loop removes one thread per iteration, so the length of the queue bounds it. *)
Definition sched_broadcast_on (q : wchan) : K unit :=
  k ← get; broadcast_loop (S (length (tq_list (queue k q)))) q.

Definition sched_cancel (kthr : ptr) : K unit :=
  t ← deref threads kthr;
  KASSERT (bool_decide (kt_wchan t <> None));;
  if decide (kt_state t = KT_SLEEP_CANCELLABLE) then
    assign threads kthr (fun t => t <| kt_cancelled := 1 |>);;
    q ← nonnull (kt_wchan t);
    ktqueue_remove q kthr;;
    sched_make_runnable kthr
  else
    assign threads kthr (fun t => t <| kt_cancelled := 1 |>).
End sched.

(** ** Specification

    What the scheduler promises, on the queues seen as sequences of threads,
    oldest first. *)
Definition fifo (k : kernel) (q : wchan) : list ptr := reverse (tq_list (queue k q)).

Definition spec_enqueue (q : wchan) (t : ptr) (f : wchan -> list ptr) : wchan -> list ptr :=
  fun q' => if decide (q' = q) then f q' ++ [t] else f q'.
Definition spec_remove (t : ptr) (f : wchan -> list ptr) : wchan -> list ptr :=
  fun q' => remove_elem t (f q').
Definition spec_wakeup (q : wchan) (f : wchan -> list ptr) : wchan -> list ptr :=
  match f q with
  | [] => f
  | t :: rest => spec_enqueue Runq t (fun q' => if decide (q' = q) then rest else f q')
  end.
Definition spec_broadcast (q : wchan) (f : wchan -> list ptr) : wchan -> list ptr :=
  fun q' => if decide (q' = q) then []
            else if decide (q' = Runq) then f Runq ++ f q else f q'.

(** [kt_state] of a thread on queue [q]. *)
Definition state_on (q : option wchan) (st : kthread_state) : Prop :=
  match q with
  | Some Runq => st = KT_RUN
  | Some _ => st = KT_SLEEP \/ st = KT_SLEEP_CANCELLABLE
  | None => True
  end.

(** The invariant of the component. *)
Record sched_wf (k : kernel) : Prop := {
  wf_link t thr : threads k !! t = Some thr -> kt_qlink thr = kt_wchan thr;
  wf_mem t thr q : threads k !! t = Some thr ->
    kt_wchan thr = Some q <-> t ∈ tq_list (queue k q);
  wf_live q t : t ∈ tq_list (queue k q) -> is_Some (threads k !! t);
  wf_nodup q : NoDup (tq_list (queue k q));
  wf_size q : tq_size (queue k q) = Z.of_nat (length (tq_list (queue k q)));
  wf_state t thr : threads k !! t = Some thr -> state_on (kt_wchan thr) (kt_state thr);
}.

(** ** The states that queue operations lead to *)
Definition enq (q : wchan) (t : ptr) (thr : kthread) (k : kernel) : kernel :=
  k <| threads := <[t := thr <| kt_qlink := Some q |> <| kt_wchan := Some q |>]> (threads k) |>
    <| queues := <[q := {| tq_list := t :: tq_list (queue k q);
                           tq_size := tq_size (queue k q) + 1 |}]> (queues k) |>.

Definition deq (q : wchan) (t : ptr) (thr : kthread) (k : kernel) : kernel :=
  k <| threads := <[t := thr <| kt_qlink := None |> <| kt_wchan := None |>]> (threads k) |>
    <| queues := <[q := {| tq_list := remove_elem t (tq_list (queue k q));
                           tq_size := tq_size (queue k q) - 1 |}]> (queues k) |>.

(** Two kernel states with the same fields. *)
Ltac kernel_eq := repeat match goal with k : kernel |- _ => destruct k end; reflexivity.

Lemma queue_enq q t thr k q' :
  queue (enq q t thr k) q' =
    if decide (q' = q)
    then {| tq_list := t :: tq_list (queue k q); tq_size := tq_size (queue k q) + 1 |}
    else queue k q'.
Proof.
  unfold enq, queue. simpl. destruct (decide (q' = q)) as [->|Hne].
  - by rewrite lookup_insert_eq.
  - by rewrite lookup_insert_ne by done.
Qed.

Lemma queue_deq q t thr k q' :
  queue (deq q t thr k) q' =
    if decide (q' = q)
    then {| tq_list := remove_elem t (tq_list (queue k q)); tq_size := tq_size (queue k q) - 1 |}
    else queue k q'.
Proof.
  unfold deq, queue. simpl. destruct (decide (q' = q)) as [->|Hne].
  - by rewrite lookup_insert_eq.
  - by rewrite lookup_insert_ne by done.
Qed.

Lemma queue_ext k k' q : queues k' = queues k -> queue k' q = queue k q.
Proof. unfold queue. by intros ->. Qed.

Section runs.
Context {q : wchan} {t : ptr} {thr : kthread} {k : kernel}.
Hypothesis Ht : threads k !! t = Some thr.

Lemma enqueue_run :
  kt_wchan thr = None -> kt_qlink thr = None -> ktqueue_enqueue q t k = Ret tt (enq q t thr k).
Proof.
  intros Hw Hl. unfold ktqueue_enqueue.
  rewrite (bind_deref threads _ _ _ _ Ht), bind_KASSERT by (rewrite Hw; done).
  unfold bind at 1, qlink_insert_head.
  rewrite (bind_deref threads _ _ _ _ Ht), Hl. unfold set_queue, modify.
  unfold bind, assign, enq, queue. simpl. rewrite Ht. simpl.
  rewrite lookup_insert_eq. simpl. rewrite lookup_insert_eq. simpl.
  rewrite !insert_insert_eq. reflexivity.
Qed.

Lemma unlink_run {B} (f : unit -> K B) :
  kt_qlink thr = Some q ->
  bind (qlink_remove t) (fun _ =>
    bind (assign threads t (fun t => t <| kt_wchan := None |>)) (fun _ =>
    bind (set_queue q (fun tq => tq <| tq_size ::= fun n => n - 1 |>)) f)) k
  = f tt (deq q t thr k).
Proof.
  intros Hl. unfold bind at 1, qlink_remove.
  rewrite (bind_deref threads _ _ _ _ Ht), Hl.
  unfold set_queue, modify, bind, assign, deq, queue. simpl. rewrite Ht. simpl.
  rewrite lookup_insert_eq. simpl. rewrite lookup_insert_eq. simpl.
  rewrite !insert_insert_eq. reflexivity.
Qed.

Lemma dequeue_run :
  last (tq_list (queue k q)) = Some t -> kt_qlink thr = Some q ->
  ktqueue_dequeue q k = Ret (Some t) (deq q t thr k).
Proof.
  intros Hlast Hl. unfold ktqueue_dequeue, get. unfold bind at 1. simpl. rewrite Hlast.
  by rewrite unlink_run.
Qed.

Lemma remove_run :
  kt_qlink thr = Some q -> ktqueue_remove q t k = Ret tt (deq q t thr k).
Proof.
  intros Hl. unfold ktqueue_remove. rewrite (bind_deref threads _ _ _ _ Ht).
  rewrite bind_KASSERT by (rewrite Hl; done).
  pose proof (unlink_run (fun _ => ret tt) Hl) as Hu. unfold ret in Hu. rewrite <- Hu.
  unfold bind, set_queue, modify. simpl.
  destruct (qlink_remove t k); simpl; try done.
Qed.
End runs.

(** ** The invariant is preserved *)
Lemma sched_wf_ext k k' :
  threads k' = threads k -> queues k' = queues k -> sched_wf k -> sched_wf k'.
Proof.
  intros Ht Hq [H1 H2 H3 H4 H5 H6]. split; intros *; rewrite ?Ht, ?(queue_ext _ _ _ Hq); eauto.
Qed.

Lemma bind_queue_init {B} k q (f : unit -> K B) :
  bind (sched_queue_init q) f k = f tt (k <| queues := <[q := empty_ktqueue]> (queues k) |>).
Proof. reflexivity. Qed.

(** Initialising a queue that nobody waits on. *)
Lemma queue_init_wf k q : sched_wf k -> tq_list (queue k q) = [] ->
  sched_wf (k <| queues := <[q := empty_ktqueue]> (queues k) |>).
Proof.
  intros Hwf Hq. assert (He : queue k q = empty_ktqueue).
  { pose proof (wf_size k Hwf q) as Hs. rewrite Hq in Hs. destruct (queue k q); cbn in *. by subst. }
  assert (Hsame : forall q', queue (k <| queues := <[q := empty_ktqueue]> (queues k) |>) q' = queue k q').
  { intros q'. unfold queue at 1. simpl. destruct (decide (q' = q)) as [->|]; [by rewrite lookup_insert_eq|].
    by rewrite lookup_insert_ne. }
  destruct Hwf as [H1 H2 H3 H4 H5 H6]. split; intros *; rewrite ?Hsame; eauto.
Qed.

(** A new thread that is on no queue. *)
Lemma new_thread_wf k t thr : sched_wf k -> threads k !! t = None -> kt_wchan thr = None -> kt_qlink thr = None ->
  sched_wf (k <| threads := <[t := thr]> (threads k) |>).
Proof.
  intros [H1 H2 H3 H4 H5 H6] Ht Hw Hl. assert (Hq : forall q, t ∉ tq_list (queue k q)).
  { intros q [x Hx]%H3. congruence. }
  split; intros *; unfold queue in *; simpl in *; rewrite ?lookup_insert_Some; eauto.
  - intros [[<- <-]|[_ ?]]; [congruence|eauto].
  - intros [[<- <-]|[_ ?]]; [|eauto]. rewrite Hw. split; [done|]. intros Hin. by destruct (Hq q).
  - intros Hin. rewrite lookup_insert_is_Some'. right. eauto.
  - intros [[<- <-]|[_ ?]]; [by rewrite Hw|eauto].
Qed.

(** A thread that changes, but neither its queue nor what its state says about that queue. *)
Lemma update_wf k t thr thr' :
  sched_wf k -> threads k !! t = Some thr ->
  kt_qlink thr' = kt_qlink thr -> kt_wchan thr' = kt_wchan thr ->
  state_on (kt_wchan thr) (kt_state thr') ->
  sched_wf (k <| threads := <[t := thr']> (threads k) |>).
Proof.
  intros [H1 H2 H3 H4 H5 H6] Ht Hl Hw Hs.
  split; intros *; unfold queue in *; simpl in *; rewrite ?lookup_insert_Some.
  - intros [[<- <-]|[_ ?]]; [rewrite Hl, Hw|]; eauto.
  - intros [[<- <-]|[_ ?]]; [rewrite Hw|]; eauto.
  - intros Hin. destruct (decide (t = t0)) as [->|Hne].
    + by rewrite lookup_insert_eq.
    + rewrite lookup_insert_ne by done. eauto.
  - eauto.
  - eauto.
  - intros [[<- <-]|[_ ?]]; [rewrite Hw|]; eauto.
Qed.

Section wf.
Context {q : wchan} {t : ptr} {thr : kthread} {k : kernel}.
Hypothesis Hwf : sched_wf k.
Hypothesis Ht : threads k !! t = Some thr.

(** A thread that is on no queue is found on none. *)
Lemma free_not_queued q' : kt_wchan thr = None -> t ∉ tq_list (queue k q').
Proof. intros Hw Hin. apply (wf_mem k Hwf t thr q' Ht) in Hin. congruence. Qed.

Lemma enq_wf :
  kt_wchan thr = None -> state_on (Some q) (kt_state thr) -> sched_wf (enq q t thr k).
Proof.
  intros Hw Hs. pose proof (fun q' => free_not_queued q' Hw) as Hfree.
  destruct Hwf as [H1 H2 H3 H4 H5 H6].
  split; intros *; rewrite ?queue_enq; simpl; rewrite ?lookup_insert_Some.
  - intros [[<- <-]|[_ ?]]; [done|]; eauto.
  - intros [[<- <-]|[? ?]]; simpl.
    + destruct (decide (q0 = q)) as [->|Hne]; simpl; [rewrite elem_of_cons; tauto|].
      split; [congruence|]. intros Hin. by destruct (Hfree q0).
    + destruct (decide (q0 = q)) as [->|Hne]; simpl; [|eauto].
      rewrite (H2 _ _ q), elem_of_cons by done. naive_solver.
  - intros Hin. destruct (decide (t = t0)) as [->|Hne]; [by rewrite lookup_insert_eq|].
    rewrite lookup_insert_ne by done. destruct (decide (q0 = q)) as [->|?]; simpl in Hin; [|eauto].
    apply elem_of_cons in Hin as [?|?]; [congruence|eauto].
  - destruct (decide (q0 = q)) as [->|?]; simpl; [|apply H4].
    constructor; [apply Hfree|apply H4].
  - destruct (decide (q0 = q)) as [->|?]; simpl; [|apply H5]. unfold queue in *. rewrite H5. lia.
  - intros [[<- <-]|[_ ?]]; eauto.
Qed.

Lemma deq_wf : kt_wchan thr = Some q -> sched_wf (deq q t thr k).
Proof.
  intros Hw. destruct Hwf as [H1 H2 H3 H4 H5 H6]. pose proof (proj1 (H2 _ _ q Ht) Hw) as Hin.
  split; intros *; rewrite ?queue_deq; simpl; rewrite ?lookup_insert_Some.
  - intros [[<- <-]|[_ ?]]; [done|]; eauto.
  - intros [[<- <-]|[? ?]]; simpl.
    + split; [congruence|]. destruct (decide (q0 = q)) as [->|Hne]; simpl.
      * rewrite elem_of_remove_elem. naive_solver.
      * intros Hq. apply (H2 _ _ q0 Ht) in Hq. congruence.
    + destruct (decide (q0 = q)) as [->|Hne]; simpl; [|by eauto].
      rewrite elem_of_remove_elem, (H2 _ _ q) by done. naive_solver.
  - intros Hq. destruct (decide (t = t0)) as [->|Hne]; [by rewrite lookup_insert_eq|].
    rewrite lookup_insert_ne by done. destruct (decide (q0 = q)) as [->|?]; simpl in Hq; [|eauto].
    apply elem_of_remove_elem in Hq as [_ ?]. eauto.
  - destruct (decide (q0 = q)) as [->|?]; simpl; [|apply H4]. by apply NoDup_remove_elem.
  - destruct (decide (q0 = q)) as [->|?]; simpl; [|apply H5].
    pose proof (length_remove_elem t (tq_list (queue k q)) (H4 q) Hin) as Hlen.
    unfold queue in *. simpl. rewrite H5. lia.
  - intros [[<- <-]|[_ ?]]; [done|]; eauto.
Qed.
End wf.

(** Queue contents after an operation, oldest thread first. *)
Lemma fifo_enq q t thr k q' : fifo (enq q t thr k) q' = spec_enqueue q t (fifo k) q'.
Proof.
  unfold fifo, spec_enqueue. rewrite queue_enq.
  destruct (decide (q' = q)) as [->|]; [|done]. simpl. by rewrite reverse_cons.
Qed.

Lemma reverse_remove_elem (t : ptr) l : reverse (remove_elem t l) = remove_elem t (reverse l).
Proof.
  unfold remove_elem. induction l as [|x l IH]; [done|].
  rewrite reverse_cons, filter_app, filter_cons, !filter_cons. case_decide.
  - by rewrite reverse_cons, IH.
  - by rewrite IH, filter_nil, app_nil_r.
Qed.

Lemma fifo_deq q t thr k q' :
  fifo (deq q t thr k) q' = if decide (q' = q) then remove_elem t (fifo k q') else fifo k q'.
Proof.
  unfold fifo. rewrite queue_deq.
  destruct (decide (q' = q)) as [->|]; [|done]. simpl. apply reverse_remove_elem.
Qed.

Lemma fifo_ext k k' q : queues k' = queues k -> fifo k' q = fifo k q.
Proof. intros Hq. unfold fifo. by rewrite (queue_ext _ _ _ Hq). Qed.

(** The oldest thread of a queue: what [ktqueue_dequeue] takes. *)
Lemma fifo_cons_last k q t rest :
  fifo k q = t :: rest -> last (tq_list (queue k q)) = Some t.
Proof.
  unfold fifo. intros Hf. rewrite <- (reverse_involutive (tq_list _)), Hf, reverse_cons.
  apply last_snoc.
Qed.

Lemma fifo_cons_thread k q t rest :
  sched_wf k -> fifo k q = t :: rest ->
  exists thr, threads k !! t = Some thr /\ kt_wchan thr = Some q /\ kt_qlink thr = Some q.
Proof.
  intros Hwf Hf. assert (Hin : t ∈ tq_list (queue k q)).
  { apply elem_of_reverse. unfold fifo in Hf. rewrite Hf. by left. }
  destruct (wf_live k Hwf q t Hin) as [thr Hthr]. exists thr.
  assert (kt_wchan thr = Some q) by (by apply (wf_mem k Hwf t thr q Hthr)).
  split_and!; try done. by rewrite (wf_link k Hwf t thr Hthr).
Qed.

Lemma fifo_cons_remove k q t rest :
  sched_wf k -> fifo k q = t :: rest -> remove_elem t (fifo k q) = rest.
Proof.
  intros Hwf Hf. assert (Hnd : NoDup (fifo k q)).
  { unfold fifo. rewrite reverse_Permutation. by apply wf_nodup. }
  rewrite Hf in Hnd |- *.
  apply NoDup_cons in Hnd as [Hnin _]. unfold remove_elem. rewrite filter_cons_False by naive_solver.
  by apply (remove_elem_not_in t rest).
Qed.

Lemma fifo_nil_empty k q : fifo k q = [] -> tq_list (queue k q) = [].
Proof. unfold fifo. intros H. by rewrite <- (reverse_involutive (tq_list _)), H. Qed.

(** ** Operations *)

(** [k'] differs from [k] in threads and queues only. *)
Definition sched_frame (k k' : kernel) : Prop :=
  k' <| threads := threads k |> <| queues := queues k |> = k.

#[export] Instance sched_frame_preorder : PreOrder sched_frame.
Proof.
  split.
  - intros []. reflexivity.
  - intros k1 k2 k3 H1 H2. unfold sched_frame in *. rewrite <- H1, <- H2 at 1. reflexivity.
Qed.

Lemma frame_enq q t thr k : sched_frame k (enq q t thr k).
Proof. by destruct k. Qed.
Lemma frame_deq q t thr k : sched_frame k (deq q t thr k).
Proof. by destruct k. Qed.
Lemma frame_curthr k k' : sched_frame k k' -> curthr k' = curthr k.
Proof. unfold sched_frame. intros H. rewrite <- H. reflexivity. Qed.
Lemma frame_ipl k k' : sched_frame k k' -> ipl k' = ipl k.
Proof. unfold sched_frame. intros H. rewrite <- H. reflexivity. Qed.
#[export] Hint Resolve frame_enq frame_deq : kernel.

(** The state after thread [t] was taken from queue [q] and put on the run queue. *)
Definition woken (thr : kthread) : kthread :=
  thr <| kt_qlink := None |> <| kt_wchan := None |> <| kt_state := KT_RUN |>.
Definition wake (q : wchan) (t : ptr) (thr : kthread) (k : kernel) : kernel :=
  enq Runq t (woken thr) (deq q t thr k).

Lemma frame_wake q t thr k : sched_frame k (wake q t thr k).
Proof. by destruct k. Qed.
#[export] Hint Resolve frame_wake : kernel.

Lemma threads_wake q t thr k :
  threads (wake q t thr k) =
    <[t := (woken thr) <| kt_qlink := Some Runq |> <| kt_wchan := Some Runq |>]> (threads k).
Proof. unfold wake, enq. simpl. by rewrite insert_insert_eq. Qed.

Lemma threads_wake_ne q t thr k t' :
  t' <> t -> threads (wake q t thr k) !! t' = threads k !! t'.
Proof. intros Hne. by rewrite threads_wake, lookup_insert_ne. Qed.

Section specs.
Context `{P : Platform}.

Lemma make_runnable_run t thr k :
  threads k !! t = Some thr -> kt_wchan thr = None -> kt_qlink thr = None ->
  sched_make_runnable t k = Ret tt (enq Runq t (thr <| kt_state := KT_RUN |>) k).
Proof.
  intros Ht Hw Hl. unfold sched_make_runnable. rewrite (bind_deref threads _ _ _ _ Ht).
  rewrite bind_KASSERT by (rewrite Hw; done).
  unfold bind, intr_getipl, gets, intr_setipl, modify. simpl.
  unfold assign. simpl. rewrite Ht. simpl.
  rewrite (enqueue_run (thr := thr <| kt_state := KT_RUN |>)); [|by apply lookup_insert_eq|done|done].
  simpl. unfold enq. simpl. rewrite insert_insert_eq. by destruct k.
Qed.

Lemma deq_thread q t thr k :
  threads (deq q t thr k) !! t = Some (thr <| kt_qlink := None |> <| kt_wchan := None |>).
Proof. apply lookup_insert_eq. Qed.

(** Dequeue, then make runnable. *)
Lemma wake_run q t thr k :
  sched_make_runnable t (deq q t thr k) = Ret tt (wake q t thr k).
Proof. by rewrite (make_runnable_run _ _ _ (deq_thread q t thr k)). Qed.

Lemma wakeup_run q t rest k thr :
  sched_wf k -> q <> Runq -> fifo k q = t :: rest -> threads k !! t = Some thr ->
  sched_wakeup_on q k = Ret (Some t) (wake q t thr k).
Proof.
  intros Hwf Hq Hf Ht. pose proof (fifo_cons_last _ _ _ _ Hf) as Hlast.
  destruct (fifo_cons_thread _ _ _ _ Hwf Hf) as (thr' & Ht' & Hw & Hl).
  assert (thr' = thr) as -> by congruence.
  pose proof (wf_state k Hwf t thr Ht) as Hst. rewrite Hw in Hst.
  unfold sched_wakeup_on, sched_queue_empty, get, ret. unfold bind at 1 2. simpl.
  destruct (tq_list (queue k q)) as [|x l] eqn:Hl0; [done|]. simpl.
  erewrite bind_ret by (apply (dequeue_run Ht); [by rewrite Hl0|done]).
  simpl. unfold bind at 1. simpl.
  rewrite (bind_deref threads _ _ _ _ (deq_thread q t thr k)). simpl.
  rewrite bind_KASSERT.
  - erewrite bind_ret by apply wake_run. done.
  - destruct q; try done; destruct Hst as [-> | ->]; done.
Qed.

Lemma wake_wf q t thr k :
  sched_wf k -> threads k !! t = Some thr -> kt_wchan thr = Some q -> sched_wf (wake q t thr k).
Proof.
  intros Hwf Ht Hw. set (thr0 := thr <| kt_qlink := None |> <| kt_wchan := None |>).
  assert (Hd : sched_wf (deq q t thr k)) by (by apply deq_wf).
  assert (Hu : sched_wf ((deq q t thr k) <| threads := <[t := woken thr]> (threads (deq q t thr k)) |>)).
  { by apply (update_wf _ _ thr0); [|apply deq_thread|..]. }
  pose proof (enq_wf (q := Runq) Hu (lookup_insert_eq _ _ _) eq_refl eq_refl) as He.
  eapply sched_wf_ext; [| |exact He]; simpl; by rewrite ?insert_insert_eq.
Qed.

Lemma fifo_wake q t thr rest k q' :
  sched_wf k -> q <> Runq -> fifo k q = t :: rest ->
  fifo (wake q t thr k) q' = spec_wakeup q (fifo k) q'.
Proof.
  intros Hwf Hq Hf. unfold wake, spec_wakeup. rewrite fifo_enq, Hf. unfold spec_enqueue.
  rewrite fifo_deq. destruct (decide (q' = q)) as [->|]; [|done].
  by rewrite (fifo_cons_remove _ _ _ _ Hwf Hf).
Qed.

(** A queue other than the run queue never holds the running thread's woken peer twice:
    waking terminates, and what it does is [spec_broadcast]. *)
Lemma broadcast_run q n k :
  sched_wf k -> q <> Runq -> (length (fifo k q) < n)%nat ->
  exists k', broadcast_loop n q k = Ret tt k' /\ sched_wf k' /\ sched_frame k k' /\
    forall q', fifo k' q' = spec_broadcast q (fifo k) q'.
Proof.
  revert k. induction n as [|n IH]; intros k Hwf Hq Hn; [lia|].
  simpl. unfold sched_queue_empty, get, ret. unfold bind at 1 2. simpl.
  destruct (fifo k q) as [|t rest] eqn:Hf.
  - rewrite (fifo_nil_empty _ _ Hf). exists k. split_and!; try done.
    intros q'. unfold spec_broadcast. rewrite Hf, app_nil_r. by repeat case_decide; subst.
  - pose proof (fifo_cons_last _ _ _ _ Hf) as Hlast.
    destruct (fifo_cons_thread _ _ _ _ Hwf Hf) as (thr & Ht & Hw & _).
    destruct (tq_list (queue k q)) as [|x l] eqn:Hl0; [done|].
    erewrite bind_ret by (by eapply wakeup_run).
    assert (Hq' : fifo (wake q t thr k) q = rest).
    { erewrite fifo_wake by done. unfold spec_wakeup, spec_enqueue. rewrite Hf.
      by repeat case_decide. }
    destruct (IH (wake q t thr k)) as (k' & Hrun & Hwf' & Hfr & Hfifo).
    + by apply wake_wf.
    + done.
    + rewrite Hq'. simpl in Hn. lia.
    + exists k'. split_and!; try done; [etrans; [apply frame_wake|done]|].
      intros q'. rewrite Hfifo. unfold spec_broadcast. rewrite Hq'.
      repeat case_decide; subst; try done;
        erewrite fifo_wake by done; unfold spec_wakeup, spec_enqueue; rewrite Hf;
        repeat case_decide; try done. by rewrite <- app_assoc.
Qed.

Lemma sched_broadcast_run q k : sched_wf k -> q <> Runq ->
  exists k', sched_broadcast_on q k = Ret tt k' /\ sched_wf k' /\ sched_frame k k' /\
    forall q', fifo k' q' = spec_broadcast q (fifo k) q'.
Proof.
  intros Hwf Hq. unfold sched_broadcast_on. rewrite bind_get.
  apply broadcast_run; [done..|]. unfold fifo. rewrite length_reverse. lia.
Qed.
End specs.

(** ** Switching *)

(** The state in which thread [t], the oldest on the run queue, runs. *)
Definition switched (t : ptr) (thr : kthread) (k : kernel) : kernel :=
  (deq Runq t thr k) <| curthr := Some t |> <| curproc := kt_proc thr |>.

Section switching.
Context `{P : Platform, F : LoopFuel}.

Lemma switch_wait_ready n k :
  fifo k Runq <> [] -> switch_wait (S n) k = Ret tt k.
Proof.
  intros Hne. simpl. unfold sched_queue_empty, get, bind, ret. simpl.
  destruct (tq_list (queue k Runq)) eqn:Hl; [|done].
  exfalso. apply Hne. unfold fifo. by rewrite Hl.
Qed.

Lemma switch_wait_idle n k :
  fifo k Runq = [] ->
  switch_wait (S n) k =
    Wait IntrWait (k <| ipl := IPL_LOW |>) (fun s => switch_wait n (s <| ipl := IPL_HIGH |>)).
Proof.
  intros Hf. simpl. unfold sched_queue_empty, get, ret. unfold bind at 1 2. simpl.
  rewrite (fifo_nil_empty _ _ Hf). reflexivity.
Qed.

(** [sched_switch] once the run queue is known to be non-empty. *)
Lemma switch_tail (oldIPL : Z) k old o t rest thr :
  sched_wf k -> curthr k = Some old -> threads k !! old = Some o ->
  fifo k Runq = t :: rest -> threads k !! t = Some thr ->
  (oldThread ← gets curthr;
   new ← ktqueue_dequeue Runq;
   modify (fun k => k <| curthr := new |>);;
   thr ← nonnull new;
   t ← deref threads thr;
   modify (fun k => k <| curproc := kt_proc t |>);;
   intr_setipl oldIPL;;
   old ← nonnull oldThread;
   _ ← deref threads old;
   wait CtxSwitch;;
   intr_setipl oldIPL) k
  = Wait CtxSwitch ((switched t thr k) <| ipl := oldIPL |>) (fun s => Ret tt (s <| ipl := oldIPL |>)).
Proof.
  intros Hwf Hc Ho Hf Ht. pose proof (fifo_cons_last _ _ _ _ Hf) as Hlast.
  destruct (fifo_cons_thread _ _ _ _ Hwf Hf) as (thr' & Ht' & Hw & Hl).
  assert (thr' = thr) as -> by congruence.
  unfold gets. unfold bind at 1. simpl. rewrite Hc.
  erewrite bind_ret by (by apply (dequeue_run Ht)).
  unfold modify, intr_setipl, nonnull, ret, bind, deref. simpl.
  rewrite lookup_insert_eq. simpl.
  destruct (decide (old = t)) as [->|Hne].
  - rewrite lookup_insert_eq. reflexivity.
  - rewrite lookup_insert_ne, Ho by done. reflexivity.
Qed.

Lemma switch_run k old o t rest thr :
  sched_wf k -> curthr k = Some old -> threads k !! old = Some o ->
  fifo k Runq = t :: rest -> threads k !! t = Some thr -> (0 < loop_fuel)%nat ->
  sched_switch k = Wait CtxSwitch (switched t thr k) (fun s => Ret tt (s <| ipl := ipl k |>)).
Proof.
  intros Hwf Hc Ho Hf Ht Hfuel. unfold sched_switch, intr_getipl, gets. unfold bind at 1. simpl.
  unfold intr_setipl at 1, modify. unfold bind at 1. simpl.
  set (k1 := k <| ipl := IPL_HIGH |>).
  assert (Hwf1 : sched_wf k1) by (by eapply sched_wf_ext; [| |exact Hwf]).
  assert (Hf1 : fifo k1 Runq = t :: rest) by done.
  destruct loop_fuel as [|n]; [lia|].
  erewrite bind_ret by (apply switch_wait_ready; by rewrite Hf1).
  etrans; [by eapply (switch_tail (ipl k) k1)|]. by destruct k.
Qed.

(** With nothing to run, the processor waits for an interrupt at the low priority level;
    once handlers have filled the run queue, the switch goes on. *)
Lemma switch_idle k :
  fifo k Runq = [] -> (1 < loop_fuel)%nat ->
  exists kont, sched_switch k = Wait IntrWait (k <| ipl := IPL_LOW |>) kont /\
    forall k' old o t rest thr,
      sched_wf k' -> curthr k' = Some old -> threads k' !! old = Some o ->
      fifo k' Runq = t :: rest -> threads k' !! t = Some thr ->
      kont k' = Wait CtxSwitch ((switched t thr k') <| ipl := ipl k |>)
                  (fun s => Ret tt (s <| ipl := ipl k |>)).
Proof.
  intros Hf Hfuel. unfold sched_switch, intr_getipl, gets. unfold bind at 1. simpl.
  unfold intr_setipl at 1, modify. unfold bind at 1. simpl.
  destruct loop_fuel as [|[|n]]; [lia|lia|].
  erewrite bind_wait by (by apply switch_wait_idle). eexists. split; [reflexivity|].
  intros k' old o t rest thr Hwf Hc Ho Hf' Ht. cbv beta.
  set (k1 := k' <| ipl := IPL_HIGH |>).
  assert (Hwf1 : sched_wf k1) by (by eapply sched_wf_ext; [| |exact Hwf]).
  assert (Hf1 : fifo k1 Runq = t :: rest) by done.
  rewrite switch_wait_ready by (by rewrite Hf1).
  etrans; [by eapply (switch_tail (ipl k) k1)|]. by destruct k'.
Qed.

Lemma switched_wf t thr rest k :
  sched_wf k -> fifo k Runq = t :: rest -> threads k !! t = Some thr -> sched_wf (switched t thr k).
Proof.
  intros Hwf Hf Ht. destruct (fifo_cons_thread _ _ _ _ Hwf Hf) as (thr' & Ht' & Hw & _).
  assert (thr' = thr) as -> by congruence.
  eapply sched_wf_ext; [| |apply (deq_wf Hwf Ht Hw)]; done.
Qed.

Lemma fifo_switched t thr rest k q :
  sched_wf k -> fifo k Runq = t :: rest ->
  fifo (switched t thr k) q = if decide (q = Runq) then rest else fifo k q.
Proof.
  intros Hwf Hf. rewrite (fifo_ext (deq Runq t thr k)) by done. rewrite fifo_deq.
  destruct (decide (q = Runq)) as [->|]; [|done]. by apply fifo_cons_remove.
Qed.

Lemma threads_switched t thr k :
  threads (switched t thr k) = <[t := thr <| kt_qlink := None |> <| kt_wchan := None |>]> (threads k).
Proof. reflexivity. Qed.

(** ** Sleeping

    The state in which the current thread has gone to sleep on [q], before the switch. *)
Definition asleep (st : kthread_state) (q : wchan) (cur : ptr) (c : kthread) (k : kernel) : kernel :=
  enq q cur (c <| kt_state := st |>) k.

Lemma asleep_wf st q cur c k :
  sched_wf k -> threads k !! cur = Some c -> kt_wchan c = None ->
  state_on (Some q) st -> sched_wf (asleep st q cur c k).
Proof.
  intros Hwf Hc Hw Hst. set (c' := c <| kt_state := st |>).
  assert (Hu : sched_wf (k <| threads := <[cur := c']> (threads k) |>)).
  { apply (update_wf _ _ c); try done. by rewrite Hw. }
  eapply sched_wf_ext; [| |apply (enq_wf (q := q) Hu (lookup_insert_eq _ _ _) Hw Hst)];
    simpl; by rewrite ?insert_insert_eq.
Qed.

Lemma sleep_run q cur c k :
  sched_wf k -> curthr k = Some cur -> threads k !! cur = Some c -> kt_wchan c = None ->
  sched_sleep_on q k = sched_switch (asleep KT_SLEEP q cur c k).
Proof.
  intros Hwf Hcur Hc Hw. unfold sched_sleep_on, gets. unfold bind at 1. simpl. rewrite Hcur.
  rewrite bind_KASSERT by done. unfold nonnull. unfold bind at 1. simpl.
  rewrite (bind_assign threads _ _ _ _ _ Hc).
  erewrite bind_ret; [|apply (enqueue_run (lookup_insert_eq _ _ _)); simpl;
    [done|by rewrite (wf_link k Hwf _ _ Hc)]].
  f_equal. unfold enq, asleep, enq. simpl. by rewrite insert_insert_eq.
Qed.

Lemma csleep_run q cur c k :
  sched_wf k -> curthr k = Some cur -> threads k !! cur = Some c -> kt_wchan c = None ->
  kt_cancelled c <> 1 ->
  sched_cancellable_sleep_on q k =
    (sched_switch;;
     c' ← gets curthr;
     cur' ← nonnull c';
     t' ← deref threads cur';
     if kt_cancelled t' =? 1 then ret (- EINTR) else ret 0)
    (asleep KT_SLEEP_CANCELLABLE q cur c k).
Proof.
  intros Hwf Hcur Hc Hw Hcan. unfold sched_cancellable_sleep_on, gets at 1.
  unfold bind at 1. simpl. rewrite Hcur.
  rewrite bind_KASSERT by done. unfold nonnull at 1. unfold bind at 1. simpl.
  rewrite (bind_deref threads _ _ _ _ Hc).
  destruct (Z.eqb_spec (kt_cancelled c) 1) as [|_]; [done|].
  rewrite (bind_assign threads _ _ _ _ _ Hc).
  erewrite bind_ret; [|apply (enqueue_run (lookup_insert_eq _ _ _)); simpl;
    [done|by rewrite (wf_link k Hwf _ _ Hc)]].
  f_equal. unfold enq, asleep, enq. simpl. by rewrite insert_insert_eq.
Qed.
(** Going to sleep while another thread is ready: the oldest one runs, and the call returns when the
    sleeper is scheduled again. *)
Lemma sleep_on_run q k cur c t rest : sched_wf k -> q <> Runq -> (0 < loop_fuel)%nat ->
  curthr k = Some cur -> threads k !! cur = Some c -> kt_wchan c = None ->
  fifo k Runq = t :: rest ->
  exists k' thr, sched_sleep_on q k = Wait CtxSwitch k' (fun s => Ret tt (s <| ipl := ipl k |>)) /\
    sched_wf k' /\ threads k' !! t = Some thr /\ kt_wchan thr = None /\
    curthr k' = Some t /\ curproc k' = kt_proc thr /\ ipl k' = ipl k /\
    fifo k' Runq = rest /\ fifo k' q = fifo k q ++ [cur].
Proof.
  intros Hwf Hq Hfuel Hcur Hc Hw Hf. rewrite (sleep_run _ _ _ _ Hwf Hcur Hc Hw).
  set (k1 := asleep KT_SLEEP q cur c k).
  assert (Hwf1 : sched_wf k1) by (apply asleep_wf; try done; destruct q; by try left).
  assert (Hf1 : fifo k1 Runq = t :: rest).
  { unfold k1, asleep. rewrite fifo_enq. unfold spec_enqueue. by rewrite decide_False. }
  destruct (fifo_cons_thread _ _ _ _ Hwf1 Hf1) as (thr & Ht & _).
  assert (Ho : threads k1 !! cur = Some (c <| kt_state := KT_SLEEP |> <| kt_qlink := Some q |>
    <| kt_wchan := Some q |>)) by apply lookup_insert_eq.
  eexists (switched t thr k1), _.
  split_and!; [exact (switch_run k1 _ _ _ _ _ Hwf1 Hcur Ho Hf1 Ht Hfuel)|by eapply switched_wf|apply lookup_insert_eq|done..| |].
  - by rewrite (fifo_switched _ _ rest), decide_True.
  - rewrite (fifo_switched _ _ rest), decide_False by done. unfold k1, asleep. rewrite fifo_enq.
    unfold spec_enqueue. by rewrite decide_True.
Qed.

End switching.

(** ** The scheduler as a transition system

    Kernel threads are not preempted: between two scheduling points the current
    thread runs alone, except that interrupt handlers run while the processor
    waits in [intr_wait].  A handler wakes threads that sleep on a wait queue, but never
    those of a mutex: mutexes are unlocked in thread context only. *)
Section machine.
Context `{P : Platform, F : LoopFuel}.

Definition intr_queue (q : wchan) : Prop :=
  match q with Runq | MutexWait _ => False | _ => True end.

Inductive intr_step : kernel -> kernel -> Prop :=
| intr_wakeup q r k k' :
    intr_queue q -> sched_wakeup_on q k = Ret r k' -> intr_step k k'
| intr_broadcast q k k' :
    intr_queue q -> sched_broadcast_on q k = Ret tt k' -> intr_step k k'.

(** The next scheduling point a call leads to. *)
Inductive reaches {A : Type} : outcome kernel A -> kernel -> Prop :=
| reach_ret a k : reaches (Ret a k) k
| reach_switch k kont : reaches (Wait CtxSwitch k kont) k
| reach_intr k kont k1 k2 :
    rtc intr_step k k1 -> reaches (kont k1) k2 -> reaches (Wait IntrWait k kont) k2.

(** What the current thread may ask of the scheduler. *)
Inductive sched_call : Type :=
| CallWakeup (q : wchan)
| CallBroadcast (q : wchan)
| CallCancel (t : ptr)
| CallSleep (q : wchan)
| CallCancellableSleep (q : wchan)
| CallMakeRunnable (t : ptr)
| CallYield
| CallExit.

Definition exit_current : K unit :=
  c ← gets curthr; cur ← nonnull c;
  assign threads cur (fun t => t <| kt_state := KT_EXITED |>);; sched_switch.

Definition yield_current : K unit :=
  c ← gets curthr; cur ← nonnull c; sched_make_runnable cur;; sched_switch.

Definition run_call (c : sched_call) : K unit :=
  match c with
  | CallWakeup q => _ ← sched_wakeup_on q; ret tt
  | CallBroadcast q => sched_broadcast_on q
  | CallCancel t => sched_cancel t
  | CallSleep q => sched_sleep_on q
  | CallCancellableSleep q => _ ← sched_cancellable_sleep_on q; ret tt
  | CallMakeRunnable t => sched_make_runnable t
  | CallYield => yield_current
  | CallExit => exit_current
  end.

(** The preconditions the callers meet: nobody sleeps on the run queue, a thread that is
    cancelled waits on some queue, a thread that is started is new. *)
Definition call_ok (c : sched_call) (k : kernel) : Prop :=
  match c with
  | CallWakeup q | CallBroadcast q | CallSleep q | CallCancellableSleep q => q <> Runq
  | CallCancel t => exists thr, threads k !! t = Some thr /\ kt_wchan thr <> None
  | CallMakeRunnable t => exists thr, threads k !! t = Some thr /\ kt_state thr = KT_NO_STATE /\
      kt_wchan thr = None /\ curthr k <> Some t
  | CallYield | CallExit => True
  end.

Inductive sched_step : kernel -> kernel -> Prop :=
| step_call c k k' : call_ok c k -> reaches (run_call c k) k' -> sched_step k k'.

(** Every thread is on a queue, but for those that were not started or have exited. *)
Definition all_queued (k : kernel) : Prop :=
  forall t thr, threads k !! t = Some thr -> kt_wchan thr = None ->
    kt_state thr = KT_NO_STATE \/ kt_state thr = KT_EXITED.

Record sched_ok (k : kernel) : Prop := {
  ok_wf : sched_wf k;
  ok_cur : exists c thr, curthr k = Some c /\ threads k !! c = Some thr /\ kt_wchan thr = None;
  ok_queued t thr : threads k !! t = Some thr -> kt_wchan thr = None ->
    curthr k = Some t \/ kt_state thr = KT_NO_STATE \/ kt_state thr = KT_EXITED;
}.

(** *** Preservation *)

(** Waking a thread of a wait queue in [Q]: what every waking operation is made of. *)
Inductive wakes (Q : wchan -> Prop) : kernel -> kernel -> Prop :=
| wakes_one q t thr k : Q q -> threads k !! t = Some thr -> kt_wchan thr = Some q ->
    wakes Q k (wake q t thr k).

Definition any_queue (_ : wchan) : Prop := True.

Lemma wakes_wf Q k k' : wakes Q k k' -> sched_wf k -> sched_wf k'.
Proof. intros [q t thr k0 HQ Ht Hw] Hwf. by apply wake_wf. Qed.

Lemma wakes_frame Q k k' : wakes Q k k' -> sched_frame k k'.
Proof. intros []. auto with kernel. Qed.

(** A woken thread is queued; the others are as before. *)
Lemma wakes_unqueued Q k k' t thr :
  wakes Q k k' -> threads k' !! t = Some thr -> kt_wchan thr = None -> threads k !! t = Some thr.
Proof.
  intros [q t0 thr0 k0 HQ Ht Hw]. rewrite threads_wake, lookup_insert_Some.
  intros [[<- <-]|[_ ?]] Hnone; simpl in *; congruence.
Qed.

Lemma wakes_live Q k k' t : wakes Q k k' -> is_Some (threads k !! t) -> is_Some (threads k' !! t).
Proof.
  intros [q t0 thr0 k0 HQ Ht Hw] Hlive. rewrite threads_wake.
  destruct (decide (t = t0)) as [->|]; [by rewrite lookup_insert_eq|by rewrite lookup_insert_ne].
Qed.

(** Thread [c] keeps running (or stays off the queues) while others are woken. *)
Lemma wakes_other Q k k' c thr :
  wakes Q k k' -> threads k !! c = Some thr -> kt_wchan thr = None -> threads k' !! c = Some thr.
Proof.
  intros [q t0 thr0 k0 HQ Ht Hw] Hc Hnone. rewrite threads_wake_ne; [done|]. intros ->. congruence.
Qed.

Lemma wakes_all_queued Q k k' : rtc (wakes Q) k k' -> all_queued k -> all_queued k'.
Proof.
  induction 1 as [|k k1 k' Hw _ IH]; [done|]. intros Hall. apply IH.
  intros t thr Ht Hnone. eapply Hall; [|done]. by eapply wakes_unqueued.
Qed.

Lemma wakes_rtc_wf Q k k' : rtc (wakes Q) k k' -> sched_wf k -> sched_wf k'.
Proof. induction 1; eauto using wakes_wf. Qed.

Lemma wakes_rtc_frame Q k k' : rtc (wakes Q) k k' -> sched_frame k k'.
Proof. induction 1 as [|k k1 k' Hw _ IH]; [done|]. etrans; [by eapply wakes_frame|done]. Qed.

Lemma wakes_rtc_live Q k k' t : rtc (wakes Q) k k' -> is_Some (threads k !! t) -> is_Some (threads k' !! t).
Proof. induction 1; eauto using wakes_live. Qed.

Lemma wakes_ok Q k k' : rtc (wakes Q) k k' -> sched_ok k -> sched_ok k'.
Proof.
  induction 1 as [|k k1 k' Hw _ IH]; [done|]. intros [Hwf (c & thr & Hc & Hthr & Hnone) Hq].
  apply IH. pose proof (frame_curthr _ _ (wakes_frame _ _ _ Hw)) as Hcur. split.
  - by eapply wakes_wf.
  - exists c, thr. rewrite Hcur. split_and!; try done. by eapply wakes_other.
  - intros t thr' Ht Hn. rewrite Hcur. eapply Hq; [|done]. by eapply wakes_unqueued.
Qed.

Lemma wakeup_wakes (Q : wchan -> Prop) q r k k' :
  sched_wf k -> q <> Runq -> Q q -> sched_wakeup_on q k = Ret r k' -> rtc (wakes Q) k k'.
Proof.
  intros Hwf Hq HQ. destruct (fifo k q) as [|t rest] eqn:Hf.
  - unfold sched_wakeup_on, sched_queue_empty, get, ret. unfold bind at 1 2. simpl.
    rewrite (fifo_nil_empty _ _ Hf). by intros [= _ <-].
  - destruct (fifo_cons_thread _ _ _ _ Hwf Hf) as (thr & Ht & Hw & _).
    rewrite (wakeup_run _ _ _ _ _ Hwf Hq Hf Ht). intros [= _ <-].
    by apply rtc_once, (wakes_one _ q).
Qed.

Lemma broadcast_wakes (Q : wchan -> Prop) q n k k' :
  sched_wf k -> q <> Runq -> Q q -> broadcast_loop n q k = Ret tt k' -> rtc (wakes Q) k k'.
Proof.
  revert k. induction n as [|n IH]; intros k Hwf Hq HQ; [done|]. simpl.
  intros (e & k1 & He & Hrun)%bind_ret_inv.
  unfold sched_queue_empty, get, bind, ret in He. simpl in He. injection He as He <-.
  destruct e; [by injection Hrun as <-|].
  apply bind_ret_inv in Hrun as (r & k2 & Hwake & Hrun).
  pose proof (wakeup_wakes Q _ _ _ _ Hwf Hq HQ Hwake) as Hs. etrans; [exact Hs|].
  apply IH; eauto using wakes_rtc_wf.
Qed.

(** A thread that sleeps nowhere is not touched by a broadcast. *)
Lemma broadcast_keeps q k k' c thr : sched_wf k -> q <> Runq -> sched_broadcast_on q k = Ret tt k' ->
  threads k !! c = Some thr -> kt_wchan thr = None -> threads k' !! c = Some thr.
Proof.
  intros Hwf Hq Hrun Hc Hn.
  assert (Hw : rtc (wakes any_queue) k k') by (by eapply broadcast_wakes; [..|exact Hrun]).
  clear Hwf Hrun. induction Hw as [|k k1 k' Hw _ IH]; [done|]. by eapply IH, wakes_other.
Qed.

Lemma intr_wakes k k' : rtc intr_step k k' -> sched_wf k -> rtc (wakes intr_queue) k k'.
Proof.
  induction 1 as [|k k1 k' Hs _ IH]; [done|]. intros Hwf.
  assert (Hw : rtc (wakes intr_queue) k k1).
  { destruct Hs as [q r k k1 Hq Hs|q k k1 Hq Hs]; 
      [eapply (wakeup_wakes _ q); eauto; by intros ->|].
    change (broadcast_loop (S (length (tq_list (queue k q)))) q k = Ret tt k1) in Hs.
    eapply (broadcast_wakes _ q); eauto; by intros ->. }
  etrans; [exact Hw|]. apply IH. by eapply wakes_rtc_wf.
Qed.

(** A thread whose queue links and state do not change. *)
Lemma update_ok k t thr thr' :
  sched_ok k -> threads k !! t = Some thr -> kt_qlink thr' = kt_qlink thr ->
  kt_wchan thr' = kt_wchan thr -> kt_state thr' = kt_state thr ->
  sched_ok (k <| threads := <[t := thr']> (threads k) |>).
Proof.
  intros [Hwf (c & cthr & Hc & Hcthr & Hnone) Hq] Ht Hl Hw Hs. split.
  - apply (update_wf _ _ thr); try done. rewrite Hs. by apply (wf_state k Hwf t).
  - simpl. destruct (decide (c = t)) as [->|Hne].
    + exists t, thr'. rewrite lookup_insert_eq. split_and!; try done. congruence.
    + exists c, cthr. by rewrite lookup_insert_ne.
  - intros t' u. simpl. rewrite lookup_insert_Some. intros [[<- <-]|[_ ?]] Hn; [|by eauto].
    rewrite Hs. eapply Hq; [done|congruence].
Qed.

(** Cancelling: only a cancellable sleep ends. *)
Definition cancelled (thr : kthread) : kthread := thr <| kt_cancelled := 1 |>.

Lemma cancel_run t thr q k :
  sched_wf k -> threads k !! t = Some thr -> kt_wchan thr = Some q ->
  sched_cancel t k =
    (let k1 := k <| threads := <[t := cancelled thr]> (threads k) |> in
     if decide (kt_state thr = KT_SLEEP_CANCELLABLE)
     then Ret tt (wake q t (cancelled thr) k1) else Ret tt k1).
Proof.
  intros Hwf Ht Hw. unfold sched_cancel. rewrite (bind_deref threads _ _ _ _ Ht).
  rewrite bind_KASSERT by (rewrite Hw; done).
  case_decide.
  - rewrite (bind_assign threads _ _ _ _ _ Ht). unfold nonnull. rewrite Hw.
    unfold bind at 1. simpl.
    erewrite bind_ret; [by apply wake_run|].
    apply (remove_run (lookup_insert_eq _ _ _)). simpl. by rewrite (wf_link k Hwf _ _ Ht).
  - by rewrite (assign_Some threads _ _ _ _ Ht).
Qed.

Lemma cancel_ok t k k' :
  sched_ok k -> call_ok (CallCancel t) k -> sched_cancel t k = Ret tt k' -> sched_ok k'.
Proof.
  intros Hok (thr & Ht & Hw). pose proof (ok_wf k Hok) as Hwf.
  destruct (kt_wchan thr) as [q|] eqn:Hq; [|done].
  rewrite (cancel_run _ _ _ _ Hwf Ht Hq). simpl.
  assert (Hok1 : sched_ok (k <| threads := <[t := cancelled thr]> (threads k) |>))
    by (by apply (update_ok _ _ thr)).
  case_decide; intros [= <-]; [|done].
  eapply wakes_ok; [apply rtc_once, (wakes_one any_queue q)|done]; [done|apply lookup_insert_eq|done].
Qed.

(** After the switch the chosen thread runs and everybody else is accounted for. *)
Lemma switched_ok k t rest thr :
  sched_wf k -> all_queued k -> fifo k Runq = t :: rest -> threads k !! t = Some thr ->
  sched_ok (switched t thr k).
Proof.
  intros Hwf Hall Hf Ht. split.
  - by eapply switched_wf.
  - do 2 eexists. split; [reflexivity|]. rewrite threads_switched, lookup_insert_eq. done.
  - intros t' thr'. rewrite threads_switched, lookup_insert_Some.
    intros [[<- <-]|[_ Ht']] Hn; [by left|]. right. by eapply Hall.
Qed.

Lemma sched_ok_ipl k l : sched_ok k -> sched_ok (k <| ipl := l |>).
Proof. intros [H1 H2 H3]. split; [by eapply sched_wf_ext; [| |exact H1]|done|done]. Qed.

(** What happens while the processor waits: handlers wake threads, the IPL changes. *)
Inductive quiet_step : kernel -> kernel -> Prop :=
| quiet_wakes k k' : wakes intr_queue k k' -> quiet_step k k'
| quiet_ipl k l : quiet_step k (k <| ipl := l |>).

Lemma quiet_wf k k' : rtc quiet_step k k' -> sched_wf k -> sched_wf k'.
Proof.
  induction 1 as [|k k1 k' Hs _ IH]; [done|]. intros Hwf. apply IH.
  destruct Hs as [k k1 Hw|k l]; [by eapply wakes_wf|by eapply sched_wf_ext; [| |exact Hwf]].
Qed.

Lemma quiet_all_queued k k' : rtc quiet_step k k' -> all_queued k -> all_queued k'.
Proof.
  induction 1 as [|k k1 k' Hs _ IH]; [done|]. intros Hall. apply IH.
  destruct Hs as [k k1 Hw|k l]; [|exact Hall]. by eapply wakes_all_queued; [apply rtc_once|].
Qed.

Lemma quiet_curthr k k' : rtc quiet_step k k' -> curthr k' = curthr k.
Proof.
  induction 1 as [|k k1 k' Hs _ IH]; [done|]. rewrite IH.
  destruct Hs as [k k1 Hw|k l]; [|done]. by eapply frame_curthr, wakes_frame.
Qed.

Lemma quiet_live k k' t : rtc quiet_step k k' -> is_Some (threads k !! t) -> is_Some (threads k' !! t).
Proof.
  induction 1 as [|k k1 k' Hs _ IH]; [done|]. intros Hl. apply IH.
  destruct Hs as [k k1 Hw|k l]; [by eapply wakes_live|done].
Qed.

Lemma wakes_quiet k k' : rtc (wakes intr_queue) k k' -> rtc quiet_step k k'.
Proof. induction 1; [done|]. eapply rtc_l; [by constructor|done]. Qed.

(** [sched_switch] ends in a context switch to the oldest runnable thread, however many
    interrupts it waits for. *)
Lemma reaches_switched {A} (f : unit -> K A) k old k' :
  sched_wf k -> curthr k = Some old -> is_Some (threads k !! old) ->
  reaches (obind f (sched_switch k)) k' ->
  exists k1 t rest thr l, rtc quiet_step k k1 /\ sched_wf k1 /\ fifo k1 Runq = t :: rest /\
    threads k1 !! t = Some thr /\ k' = (switched t thr k1) <| ipl := l |>.
Proof.
  intros Hwf Hc Hold. unfold sched_switch, intr_getipl, gets. unfold bind at 1. simpl.
  unfold intr_setipl at 1, modify. unfold bind at 1. simpl. generalize (ipl k) as l. intros l.
  assert (Hk1 : rtc quiet_step k (k <| ipl := IPL_HIGH |>)) by (apply rtc_once; constructor).
  revert Hk1. generalize (k <| ipl := IPL_HIGH |>) as k1. generalize loop_fuel as n.
  induction n as [|n IH]; intros k1 Hk1.
  { intros Hr. inversion Hr. }
  pose proof (quiet_wf _ _ Hk1 Hwf) as Hwf1.
  destruct (fifo k1 Runq) as [|t rest] eqn:Hf.
  - erewrite bind_wait by (by apply switch_wait_idle). simpl. intros Hr.
    inversion Hr as [| |? ? k2 ? Hintr Hr' Heq]; subst. clear Hr. revert Hr'. apply IH.
    apply intr_wakes in Hintr; [|by eapply sched_wf_ext; [| |exact Hwf1]].
    etrans; [exact Hk1|]. eapply rtc_l; [apply quiet_ipl|].
    etrans; [by apply wakes_quiet|]. apply rtc_once, quiet_ipl.
  - destruct (fifo_cons_thread _ _ _ _ Hwf1 Hf) as (thr & Ht & _).
    destruct (quiet_live _ _ _ Hk1 Hold) as [o Ho].
    erewrite bind_ret by (by apply switch_wait_ready; rewrite Hf).
    erewrite (switch_tail l) by (try done; by rewrite (quiet_curthr _ _ Hk1)).
    simpl. intros Hr. inversion Hr; subst. by exists k1, t, rest, thr, l.
Qed.

Lemma reaches_switch {A} (f : unit -> K A) k old k' :
  sched_wf k -> all_queued k -> curthr k = Some old -> is_Some (threads k !! old) ->
  reaches (obind f (sched_switch k)) k' -> sched_ok k'.
Proof.
  intros Hwf Hall Hc Hold Hr.
  destruct (reaches_switched f k old k' Hwf Hc Hold Hr) as (k1 & t & rest & thr & l & Hq & Hwf1 & Hf & Ht & ->).
  apply sched_ok_ipl, (switched_ok _ _ rest); try done. by eapply quiet_all_queued.
Qed.

Lemma asleep_all_queued st q cur c k :
  sched_ok k -> curthr k = Some cur -> all_queued (asleep st q cur c k).
Proof.
  intros Hok Hcur t thr. unfold asleep, enq. simpl. rewrite lookup_insert_Some.
  intros [[<- <-]|[Hne Ht]] Hn; [done|].
  destruct (ok_queued k Hok t thr Ht Hn) as [|]; [congruence|done].
Qed.

(** Sequencing does not change where a call stops. *)
Lemma reaches_assoc {A B C} (f : A -> K B) (g : B -> K C) o k' :
  reaches (obind g (obind f o)) k' -> reaches (obind (fun a s => obind g (f a s)) o) k'.
Proof.
  induction o as [a s|e|w s kont IH|]; simpl; try done.
  inversion 1; subst; econstructor; eauto.
Qed.

Lemma reaches_unit (o : outcome kernel unit) k' :
  reaches o k' -> reaches (obind (fun _ => ret tt) o) k'.
Proof.
  induction o as [[] s|e|w s kont IH|]; simpl; try done.
  inversion 1; subst; econstructor; eauto.
Qed.

Lemma reaches_ret {A} (a : A) k k' : reaches (Ret a k) k' -> k' = k.
Proof. by inversion 1. Qed.

Section step.
Context {k k' : kernel} {cur : ptr} {cthr : kthread}.
Hypothesis Hok : sched_ok k.
Hypothesis Hcur : curthr k = Some cur.
Hypothesis Hcthr : threads k !! cur = Some cthr.
Hypothesis Hcw : kt_wchan cthr = None.

Lemma cthr_qlink : kt_qlink cthr = None.
Proof. by rewrite (wf_link _ (ok_wf _ Hok) _ _ Hcthr). Qed.

(** The current thread queues itself, then switches. *)
Lemma asleep_switch_ok {A} (f : unit -> K A) st q :
  state_on (Some q) st -> reaches (obind f (sched_switch (asleep st q cur cthr k))) k' -> sched_ok k'.
Proof.
  intros Hst. apply (reaches_switch _ _ cur).
  - apply asleep_wf; try done. by apply ok_wf.
  - by apply asleep_all_queued.
  - done.
  - unfold asleep, enq. simpl. by rewrite lookup_insert_eq.
Qed.

Lemma wakeup_ok q : q <> Runq -> reaches (run_call (CallWakeup q) k) k' -> sched_ok k'.
Proof.
  intros Hq Hr. pose proof (ok_wf _ Hok) as Hwf. simpl in Hr. unfold bind in Hr.
  destruct (fifo k q) as [|t rest] eqn:Hf.
  - unfold sched_wakeup_on, sched_queue_empty, get, ret, bind in Hr. simpl in Hr.
    rewrite (fifo_nil_empty _ _ Hf) in Hr. by apply reaches_ret in Hr as ->.
  - destruct (fifo_cons_thread _ _ _ _ Hwf Hf) as (thr & Ht & Hw & _).
    rewrite (wakeup_run _ _ _ _ _ Hwf Hq Hf Ht) in Hr.
    apply reaches_ret in Hr as ->. eapply (wakes_ok any_queue); [|done]. by apply rtc_once, (wakes_one _ q).
Qed.

Lemma broadcast_ok q : q <> Runq -> reaches (sched_broadcast_on q k) k' -> sched_ok k'.
Proof.
  intros Hq Hr. pose proof (ok_wf _ Hok) as Hwf.
  destruct (sched_broadcast_run q k) as (k1 & Hrun & _); [done..|].
  rewrite Hrun in Hr. apply reaches_ret in Hr as ->.
  eapply (wakes_ok any_queue); [|done]. by eapply broadcast_wakes; [..|exact Hrun].
Qed.

Lemma sleep_ok q : q <> Runq -> reaches (sched_sleep_on q k) k' -> sched_ok k'.
Proof.
  intros Hq. rewrite (sleep_run _ _ _ _ (ok_wf _ Hok) Hcur Hcthr Hcw). intros Hr.
  eapply (asleep_switch_ok (fun _ => ret tt)); [|by apply reaches_unit]. destruct q; by try left.
Qed.

Lemma csleep_ok q : q <> Runq -> reaches (run_call (CallCancellableSleep q) k) k' -> sched_ok k'.
Proof.
  intros Hq Hr. simpl in Hr. unfold bind in Hr.
  destruct (decide (kt_cancelled cthr = 1)) as [Hcan|Hcan].
  - unfold sched_cancellable_sleep_on, gets, bind, nonnull, ret in Hr. simpl in Hr.
    rewrite Hcur in Hr. simpl in Hr. unfold deref in Hr. rewrite Hcthr in Hr. simpl in Hr.
    rewrite Hcan in Hr. simpl in Hr. by apply reaches_ret in Hr as ->.
  - rewrite (csleep_run _ _ _ _ (ok_wf _ Hok) Hcur Hcthr Hcw Hcan) in Hr.
    unfold bind at 1 in Hr. apply reaches_assoc in Hr.
    eapply asleep_switch_ok; [|exact Hr]. destruct q; by try right.
Qed.

Lemma make_runnable_ok t :
  call_ok (CallMakeRunnable t) k -> reaches (sched_make_runnable t k) k' -> sched_ok k'.
Proof.
  intros (thr & Ht & Hst & Hw & Hne) Hr. pose proof (ok_wf _ Hok) as Hwf.
  rewrite (make_runnable_run _ _ _ Ht Hw) in Hr by (by rewrite (wf_link _ Hwf _ _ Ht)).
  apply reaches_ret in Hr as ->. split.
  - by apply asleep_wf.
  - exists cur, cthr. unfold enq. simpl. rewrite lookup_insert_ne by congruence. done.
  - intros t' thr'. unfold enq. simpl. rewrite lookup_insert_Some.
    intros [[<- <-]|[_ ?]] Hn; [done|by eapply ok_queued].
Qed.

Lemma yield_ok : reaches (yield_current k) k' -> sched_ok k'.
Proof.
  unfold yield_current, gets, bind at 1, nonnull. simpl. rewrite Hcur. unfold bind at 1. simpl.
  erewrite bind_ret by (apply (make_runnable_run _ _ _ Hcthr Hcw), cthr_qlink).
  intros Hr. apply (asleep_switch_ok (fun _ => ret tt) KT_RUN Runq); [done|by apply reaches_unit].
Qed.

Lemma exit_ok : reaches (exit_current k) k' -> sched_ok k'.
Proof.
  unfold exit_current, gets, bind at 1, nonnull. simpl. rewrite Hcur. unfold bind at 1. simpl.
  rewrite (bind_assign threads _ _ _ _ _ Hcthr). intros Hr%reaches_unit. revert Hr.
  apply (reaches_switch _ _ cur).
  - apply (update_wf _ _ cthr); try done; [by apply ok_wf|by rewrite Hcw].
  - intros t thr. simpl. rewrite lookup_insert_Some. intros [[<- <-]|[Hne Ht]] Hn; [by right|].
    destruct (ok_queued _ Hok t thr Ht Hn); [congruence|done].
  - done.
  - simpl. by rewrite lookup_insert_eq.
Qed.
End step.

Lemma cancel_step_ok t k k' :
  sched_ok k -> call_ok (CallCancel t) k -> reaches (sched_cancel t k) k' -> sched_ok k'.
Proof.
  intros Hok Hpre Hr. pose proof Hpre as (thr & Ht & Hw).
  destruct (kt_wchan thr) as [q|] eqn:Hq; [|done].
  pose proof (cancel_run _ _ _ _ (ok_wf _ Hok) Ht Hq) as Hrun. cbv zeta in Hrun.
  eapply cancel_ok; [done|exact Hpre|]. rewrite Hrun in Hr |- *.
  case_decide; by apply reaches_ret in Hr as ->.
Qed.

Lemma step_ok k k' : sched_step k k' -> sched_ok k -> sched_ok k'.
Proof.
  intros [c k0 k1 Hpre Hr] Hok.
  destruct (ok_cur _ Hok) as (cur & cthr & Hcur & Hcthr & Hcw).
  destruct c as [q|q|t|q|q|t| |].
  - exact (wakeup_ok Hok q Hpre Hr).
  - exact (broadcast_ok Hok q Hpre Hr).
  - exact (cancel_step_ok t _ _ Hok Hpre Hr).
  - exact (sleep_ok Hok Hcur Hcthr Hcw q Hpre Hr).
  - exact (csleep_ok Hok Hcur Hcthr Hcw q Hpre Hr).
  - exact (make_runnable_ok Hok Hcur Hcthr Hcw t Hpre Hr).
  - exact (yield_ok Hok Hcur Hcthr Hcw Hr).
  - exact (exit_ok Hok Hcur Hcthr Hcw Hr).
Qed.
End machine.

(** ** Checking the invariant on a concrete state *)
#[export] Instance state_on_dec q st : Decision (state_on q st).
Proof. destruct q as [[]|]; unfold state_on; apply _. Defined.

Definition sched_wf_check (k : kernel) : Prop :=
  map_Forall (fun t thr => kt_qlink thr = kt_wchan thr /\ state_on (kt_wchan thr) (kt_state thr) /\
    match kt_wchan thr with Some q => t ∈ tq_list (queue k q) | None => True end) (threads k) /\
  map_Forall (fun q tq => NoDup (tq_list tq) /\ tq_size tq = Z.of_nat (length (tq_list tq)) /\
    Forall (fun t => kt_wchan <$> threads k !! t = Some (Some q)) (tq_list tq)) (queues k).

#[export] Instance sched_wf_check_dec k : Decision (sched_wf_check k).
Proof.
  unfold sched_wf_check. apply and_dec; apply map_Forall_dec; intros ? x; [|apply _].
  repeat apply and_dec; try apply _. destruct (kt_wchan x); apply _.
Defined.

Lemma sched_wf_checked k : sched_wf_check k -> sched_wf k.
Proof.
  intros [Ht Hq].
  assert (Hqueue : forall q, NoDup (tq_list (queue k q)) /\
    tq_size (queue k q) = Z.of_nat (length (tq_list (queue k q))) /\
    Forall (fun t => kt_wchan <$> threads k !! t = Some (Some q)) (tq_list (queue k q))).
  { intros q. unfold queue. destruct (queues k !! q) eqn:E; simpl; [exact (Hq _ _ E)|].
    repeat constructor. }
  assert (Hin : forall q t, t ∈ tq_list (queue k q) -> kt_wchan <$> threads k !! t = Some (Some q)).
  { intros q t Hin. destruct (Hqueue q) as (_ & _ & HF). rewrite Forall_forall in HF. by apply HF. }
  split.
  - intros t thr Hthr. apply (Ht _ _ Hthr).
  - intros t thr q Hthr. split.
    + intros Hw. destruct (Ht _ _ Hthr) as (_ & _ & Hm). by rewrite Hw in Hm.
    + intros H%Hin. rewrite Hthr in H. by injection H.
  - intros q t H%Hin. destruct (threads k !! t); [done|discriminate].
  - intros q. apply Hqueue.
  - intros q. apply Hqueue.
  - intros t thr Hthr. apply (Ht _ _ Hthr).
Qed.

Ltac check_wf := apply sched_wf_checked; apply (bool_decide_unpack _); vm_compute; exact I.

(** Thread 1 runs, 2 is runnable, 3 and 4 wait for mutex 7, 4 cancellably. *)
Definition demo_thread (q : option wchan) (st : kthread_state) : kthread := {|
  kt_ctx := no_context; kt_kstack := Some 1%positive; kt_retval := 0; kt_errno := 0; kt_proc := Some 1%positive;
  kt_cancelled := 0; kt_wchan := q; kt_state := st; kt_qlink := q; kt_plink := Some 1%positive |}.

Definition demo : kernel :=
  boot <| threads := {[ 1%positive := demo_thread None KT_RUN;
                        2%positive := demo_thread (Some Runq) KT_RUN;
                        3%positive := demo_thread (Some (MutexWait 7)) KT_SLEEP;
                        4%positive := demo_thread (Some (MutexWait 7)) KT_SLEEP_CANCELLABLE ]} |>
       <| queues := {[ Runq := {| tq_list := [2%positive]; tq_size := 1 |};
                       MutexWait 7 := {| tq_list := [4%positive; 3%positive]; tq_size := 2 |} ]} |>
       <| mutexes := {[ 7%positive := {| km_holder := Some 1%positive |} ]} |>
       <| curthr := Some 1%positive |> <| curproc := Some 1%positive |>.

Lemma demo_wf : sched_wf demo.
Proof. check_wf. Qed.

(** Facts about every thread of a concrete state, by enumeration. *)
Lemma threads_forall k (P : ptr -> kthread -> Prop) :
  Forall (fun '(t, thr) => P t thr) (map_to_list (threads k)) ->
  forall t thr, threads k !! t = Some thr -> P t thr.
Proof.
  intros HF t thr Ht. rewrite Forall_forall in HF.
  apply (HF (t, thr)). by apply elem_of_map_to_list.
Qed.

Lemma demo_ok : sched_ok demo.
Proof.
  split; [apply demo_wf|by exists 1%positive, (demo_thread None KT_RUN)|].
  refine (threads_forall demo (fun t thr => kt_wchan thr = None -> curthr demo = Some t \/
    kt_state thr = KT_NO_STATE \/ kt_state thr = KT_EXITED) _).
  vm_compute. repeat constructor; by first [discriminate|left].
Qed.

(** The state in which a call returned or gave up the processor. *)
Definition after {A} (o : outcome kernel A) : kernel :=
  match o with Ret _ k | Wait _ k _ => k | _ => boot end.

Definition stops {A} (o : outcome kernel A) : bool :=
  match o with Ret _ _ | Wait CtxSwitch _ _ => true | _ => false end.

Lemma reaches_after `{Platform} {A} (o : outcome kernel A) : stops o = true -> reaches o (after o).
Proof. destruct o as [| |[]|]; try done; constructor. Qed.

(** ** Properties *)
Section properties.
Context `{P : Platform, F : LoopFuel}.

(** C1: In every state reachable by scheduler calls and interrupts from a good state, queues are
    well formed, exactly one thread runs, it is on no queue, and every other thread that was
    started and has not exited waits on some queue: no thread is ever lost. *)
Theorem sched_reachable_ok k k' : sched_ok k -> rtc sched_step k k' -> sched_ok k'.
Proof. intros Hok. induction 1 as [|k k1 k' Hs _ IH]; [done|]. apply IH. by eapply step_ok. Qed.

(** C19: The wait queues refine FIFO queues: enqueueing appends to the sequence of waiters,
    dequeueing takes its head and returns NULL exactly on an empty queue, no other queue
    changes and the invariant is kept. *)
Theorem ktqueue_refines_fifo k : sched_wf k ->
  (forall q t thr, threads k !! t = Some thr -> kt_wchan thr = None ->
     state_on (Some q) (kt_state thr) ->
     exists k', ktqueue_enqueue q t k = Ret tt k' /\ sched_wf k' /\ sched_frame k k' /\
       forall q', fifo k' q' = spec_enqueue q t (fifo k) q') /\
  (forall q, match fifo k q with
     | [] => ktqueue_dequeue q k = Ret None k
     | t :: rest => exists k', ktqueue_dequeue q k = Ret (Some t) k' /\ sched_wf k' /\
         sched_frame k k' /\ forall q', fifo k' q' = if decide (q' = q) then rest else fifo k q'
     end).
Proof.
  intros Hwf. split.
  - intros q t thr Ht Hw Hst. exists (enq q t thr k).
    rewrite (enqueue_run Ht Hw) by (by rewrite (wf_link k Hwf _ _ Ht)).
    split_and!; auto using frame_enq, fifo_enq. by apply enq_wf.
  - intros q. destruct (fifo k q) as [|t rest] eqn:Hf.
    + unfold ktqueue_dequeue, get, bind. simpl. by rewrite (fifo_nil_empty _ _ Hf).
    + destruct (fifo_cons_thread _ _ _ _ Hwf Hf) as (thr & Ht & Hw & Hl).
      exists (deq q t thr k). rewrite (dequeue_run Ht (fifo_cons_last _ _ _ _ Hf) Hl).
      split_and!; auto using frame_deq; [by apply deq_wf|].
      intros q'. rewrite fifo_deq. destruct (decide (q' = q)) as [->|]; [|done].
      by apply fifo_cons_remove.
Qed.

(** [sched_broadcast_on] returns after as many wake-ups as there are sleepers, leaves its
    queue empty and appends the sleepers to the run queue in the order they went to sleep. *)
Theorem sched_broadcast_on_spec q k : sched_wf k -> q <> Runq ->
  exists k', sched_broadcast_on q k = Ret tt k' /\ sched_wf k' /\ sched_frame k k' /\
    forall q', fifo k' q' = spec_broadcast q (fifo k) q'.
Proof. apply sched_broadcast_run. Qed.

(** [sched_wakeup_on] takes the thread that has slept longest, makes it runnable at the end
    of the run queue and returns it; it returns NULL and changes nothing on an empty queue. *)
Theorem sched_wakeup_on_spec q k : sched_wf k -> q <> Runq ->
  match fifo k q with
  | [] => sched_wakeup_on q k = Ret None k
  | t :: _ => exists k' thr, sched_wakeup_on q k = Ret (Some t) k' /\ sched_wf k' /\
      sched_frame k k' /\ (forall q', fifo k' q' = spec_wakeup q (fifo k) q') /\
      threads k' !! t = Some thr /\ kt_state thr = KT_RUN /\ kt_wchan thr = Some Runq
  end.
Proof.
  intros Hwf Hq. destruct (fifo k q) as [|t rest] eqn:Hf.
  - unfold sched_wakeup_on, sched_queue_empty, get, ret, bind. simpl.
    by rewrite (fifo_nil_empty _ _ Hf).
  - destruct (fifo_cons_thread _ _ _ _ Hwf Hf) as (thr & Ht & Hw & _).
    eexists (wake q t thr k), _. split_and!; auto using frame_wake; [by eapply wakeup_run|
      by apply wake_wf|intros q'; by eapply fifo_wake|rewrite threads_wake; apply lookup_insert_eq|
      done|done].
Qed.

(** [sched_sleep_on] with a runnable thread: the caller goes to the end of the wait queue,
    the thread that has been runnable longest becomes current together with its process, and
    the call returns to its caller when it is scheduled again, with the caller's IPL. *)
Theorem sched_sleep_on_spec q k cur c t rest : sched_wf k -> q <> Runq -> (0 < loop_fuel)%nat ->
  curthr k = Some cur -> threads k !! cur = Some c -> kt_wchan c = None ->
  fifo k Runq = t :: rest ->
  exists k' thr, sched_sleep_on q k = Wait CtxSwitch k' (fun s => Ret tt (s <| ipl := ipl k |>)) /\
    sched_wf k' /\ threads k' !! t = Some thr /\ kt_wchan thr = None /\
    curthr k' = Some t /\ curproc k' = kt_proc thr /\ ipl k' = ipl k /\
    fifo k' Runq = rest /\ fifo k' q = fifo k q ++ [cur].
Proof. apply sleep_on_run. Qed.

(** With an empty run queue [sched_switch] lowers the IPL to [IPL_LOW] while it waits for an
    interrupt, so that handlers can run; when a handler has made a thread runnable the switch
    to the oldest such thread is done and the caller's IPL is restored. *)
Theorem sched_switch_idle_spec k : fifo k Runq = [] -> (1 < loop_fuel)%nat ->
  exists k1 kont, sched_switch k = Wait IntrWait k1 kont /\ ipl k1 = IPL_LOW /\
    sched_frame (k <| ipl := IPL_LOW |>) k1 /\
    forall k2 old o t rest, sched_wf k2 -> curthr k2 = Some old -> threads k2 !! old = Some o ->
      fifo k2 Runq = t :: rest ->
      exists k3 kont', kont k2 = Wait CtxSwitch k3 kont' /\ curthr k3 = Some t /\
        ipl k3 = ipl k /\ sched_wf k3 /\ fifo k3 Runq = rest /\
        forall s, kont' s = Ret tt (s <| ipl := ipl k |>).
Proof.
  intros Hf Hfuel. destruct (switch_idle k Hf Hfuel) as (kont & Hrun & Hres).
  exists (k <| ipl := IPL_LOW |>), kont. split_and!; try done.
  intros k2 old o t rest Hwf Hc Ho Hf2.
  destruct (fifo_cons_thread _ _ _ _ Hwf Hf2) as (thr & Ht & _).
  do 2 eexists. split_and!; [by eapply Hres|done|done| | |done].
  - eapply sched_wf_ext; [| |by eapply (switched_wf t thr rest)]; done.
  - rewrite (fifo_ext (switched t thr k2)) by done. by rewrite (fifo_switched _ _ rest), decide_True.
Qed.

(** [sched_cancel] always sets [kt_cancelled]; it ends exactly the cancellable sleeps, by
    moving the thread from the queue it waits on to the end of the run queue. *)
Theorem sched_cancel_spec t thr q k :
  sched_wf k -> threads k !! t = Some thr -> kt_wchan thr = Some q ->
  exists k' thr', sched_cancel t k = Ret tt k' /\ sched_wf k' /\ sched_frame k k' /\
    threads k' !! t = Some thr' /\ kt_cancelled thr' = 1 /\
    if decide (kt_state thr = KT_SLEEP_CANCELLABLE)
    then kt_state thr' = KT_RUN /\ forall q',
           fifo k' q' = spec_enqueue Runq t (spec_remove t (fifo k)) q'
    else kt_state thr' = kt_state thr /\ forall q', fifo k' q' = fifo k q'.
Proof.
  intros Hwf Ht Hw. rewrite (cancel_run _ _ _ _ Hwf Ht Hw). cbv zeta.
  set (k1 := k <| threads := <[t := cancelled thr]> (threads k) |>).
  assert (Hwf1 : sched_wf k1).
  { apply (update_wf _ _ thr); try done. exact (wf_state k Hwf t thr Ht). }
  assert (Hfr1 : sched_frame k k1) by (by destruct k).
  case_decide as Hst.
  - do 2 eexists. split_and!; [done| | |rewrite threads_wake; apply lookup_insert_eq|done|done|].
    + apply wake_wf; [done|apply lookup_insert_eq|done].
    + etrans; [exact Hfr1|apply frame_wake].
    + intros q'. unfold wake. rewrite fifo_enq. unfold spec_enqueue, spec_remove. rewrite !fifo_deq.
      change (fifo k1 q') with (fifo k q').
      assert (q <> Runq).
      { intros ->. pose proof (wf_state k Hwf t thr Ht) as Hs. rewrite Hw, Hst in Hs. done. }
      destruct (decide (q' = q)) as [->|Hne]; [done|].
      rewrite remove_elem_not_in; [done|]. unfold fifo. rewrite elem_of_reverse.
      intros Hin. apply (wf_mem k Hwf t thr q' Ht) in Hin. congruence.
  - exists k1, (cancelled thr). split_and!; try done. apply lookup_insert_eq.
Qed.
End properties.

(** ** The properties at concrete states *)
Module Witness.
#[local] Instance fuel : LoopFuel := 4%nat.

Definition demo_slept : kernel := after (sched_sleep_on (MutexWait 7) demo).

Lemma sched_reachable_ok_witness :
  rtc sched_step demo demo_slept /\ curthr demo_slept = Some 2%positive /\ sched_ok demo_slept.
Proof.
  assert (Hs : rtc sched_step demo demo_slept).
  { apply rtc_once, (step_call (CallSleep (MutexWait 7))); [done|].
    change (reaches (sched_sleep_on (MutexWait 7) demo) demo_slept). unfold demo_slept.
    apply reaches_after. vm_compute. reflexivity. }
  split; [exact Hs|split; [reflexivity|]].
  exact (sched_reachable_ok demo demo_slept demo_ok Hs).
Defined.

Lemma ktqueue_refines_fifo_witness :
  fifo demo (MutexWait 7) = [3%positive; 4%positive] /\
  exists k', ktqueue_dequeue (MutexWait 7) demo = Ret (Some 3%positive) k' /\
    fifo k' (MutexWait 7) = [4%positive].
Proof.
  split; [reflexivity|].
  destruct (proj2 (ktqueue_refines_fifo demo demo_wf) (MutexWait 7)) as (k' & Hrun & _ & _ & Hf).
  exists k'. split; [exact Hrun|]. exact (Hf (MutexWait 7)).
Defined.

Lemma sched_broadcast_on_spec_witness :
  exists k', sched_broadcast_on (MutexWait 7) demo = Ret tt k' /\
    fifo k' Runq = [2%positive; 3%positive; 4%positive].
Proof.
  destruct (sched_broadcast_on_spec (MutexWait 7) demo demo_wf ltac:(discriminate))
    as (k' & Hrun & _ & _ & Hf).
  exists k'. split; [exact Hrun|]. exact (Hf Runq).
Defined.

Lemma sched_wakeup_on_spec_witness :
  exists k', sched_wakeup_on (MutexWait 7) demo = Ret (Some 3%positive) k' /\
    fifo k' Runq = [2%positive; 3%positive].
Proof.
  destruct (sched_wakeup_on_spec (MutexWait 7) demo demo_wf ltac:(discriminate))
    as (k' & thr & Hrun & _ & _ & Hf & _).
  exists k'. split; [exact Hrun|]. exact (Hf Runq).
Defined.

Lemma sched_sleep_on_spec_witness :
  exists k' kont, sched_sleep_on (MutexWait 7) demo = Wait CtxSwitch k' kont /\
    curthr k' = Some 2%positive /\ fifo k' (MutexWait 7) = [3%positive; 4%positive; 1%positive].
Proof.
  destruct (sched_sleep_on_spec (MutexWait 7) demo 1 (demo_thread None KT_RUN) 2 []
    demo_wf ltac:(discriminate) ltac:(vm_compute; lia) eq_refl eq_refl eq_refl eq_refl)
    as (k' & thr & Hrun & _ & _ & _ & Hc & _ & _ & _ & Hf).
  exists k'. eexists. split; [exact Hrun|]. split; [exact Hc|exact Hf].
Defined.

(** Thread 1 alone, on no queue. *)
Definition demo_alone : kernel := demo_slept <| queues := ∅ |>.

Lemma sched_switch_idle_spec_witness :
  exists k1 kont, sched_switch demo_alone = Wait IntrWait k1 kont /\ ipl k1 = 0 /\
    exists k3 kont', kont demo = Wait CtxSwitch k3 kont' /\ curthr k3 = Some 2%positive.
Proof.
  destruct (sched_switch_idle_spec (F := fuel) demo_alone eq_refl ltac:(vm_compute; lia))
    as (k1 & kont & Hrun & Hipl & _ & Hres).
  exists k1, kont. split; [exact Hrun|]. split; [exact Hipl|].
  destruct (Hres demo 1%positive (demo_thread None KT_RUN) 2%positive [] demo_wf eq_refl eq_refl
    eq_refl) as (k3 & kont' & Hk & Hc & _).
  exists k3, kont'. split; [exact Hk|exact Hc].
Defined.

Lemma sched_cancel_spec_witness :
  exists k', sched_cancel 4 demo = Ret tt k' /\
    fifo k' Runq = [2%positive; 4%positive] /\ fifo k' (MutexWait 7) = [3%positive].
Proof.
  destruct (sched_cancel_spec 4 (demo_thread (Some (MutexWait 7)) KT_SLEEP_CANCELLABLE)
    (MutexWait 7) demo demo_wf eq_refl eq_refl) as (k' & thr' & Hrun & _ & _ & _ & _ & Hif).
  destruct (decide _) as [_|Hn] in Hif; [|by destruct Hn].
  destruct Hif as [_ Hf]. exists k'. split; [exact Hrun|].
  split; [exact (Hf Runq)|exact (Hf (MutexWait 7))].
Defined.
End Witness.
