(* ===== verification/Kmutex.v ===== *)
(** * Kmutex

    [kernel/proc/kmutex.c]: blocking mutual exclusion with hand-off.  The wait
    queue of mutex [m] is the scheduler queue [MutexWait m].  The invariant
    [mutex_wf]: a free mutex has no waiters and the holder does not wait for
    the mutex it holds. *)

From S2P Require Import Prelude Platform State Sched.

Section kmutex.
Context `{P : Platform, F : LoopFuel}.

Definition kmutex_init (mtx : ptr) : K unit :=
  sched_queue_init (MutexWait mtx);;
  init_obj mutexes mtx {| km_holder := None |}.

Definition kmutex_lock (mtx : ptr) : K unit :=
  c ← gets curthr;
  m ← deref mutexes mtx;
  KASSERT (bool_decide (c <> None) && bool_decide (c <> km_holder m));;
  if decide (km_holder m = None) then
    assign mutexes mtx (fun m => m <| km_holder := c |>)
  else
    sched_sleep_on (MutexWait mtx).

Definition kmutex_lock_cancellable (mtx : ptr) : K Z :=
  c ← gets curthr;
  m ← deref mutexes mtx;
  KASSERT (bool_decide (c <> None) && bool_decide (c <> km_holder m));;
  if decide (km_holder m = None) then
    assign mutexes mtx (fun m => m <| km_holder := c |>);;
    ret 0
  else
    sched_cancellable_sleep_on (MutexWait mtx).

Definition kmutex_unlock (mtx : ptr) : K unit :=
  c ← gets curthr;
  m ← deref mutexes mtx;
  KASSERT (bool_decide (c <> None) && bool_decide (c = km_holder m));;
  e ← sched_queue_empty (MutexWait mtx);
  (if (e : bool) then
     assign mutexes mtx (fun m => m <| km_holder := None |>)
   else
     w ← sched_wakeup_on (MutexWait mtx);
     assign mutexes mtx (fun m => m <| km_holder := w |>));;
  m' ← deref mutexes mtx;
  KASSERT (bool_decide (c <> km_holder m')).
End kmutex.

(** ** Invariant *)
Definition holder (k : kernel) (m : ptr) : option (option ptr) := km_holder <$> mutexes k !! m.

Record mutex_wf (k : kernel) : Prop := {
  mwf_sched : sched_wf k;
  mwf_free m : holder k m = Some None -> fifo k (MutexWait m) = [];
  mwf_holder m h : holder k m = Some (Some h) -> h ∉ fifo k (MutexWait m);
}.

Lemma elem_of_fifo k q t : t ∈ fifo k q <-> t ∈ tq_list (queue k q).
Proof. unfold fifo. apply elem_of_reverse. Qed.

(** The waiters of [m] after it was handed to its first waiter. *)
Definition set_holder (m : ptr) (h : option ptr) (k : kernel) : kernel :=
  k <| mutexes := <[m := {| km_holder := h |}]> (mutexes k) |>.

Lemma holder_set m h k m' :
  holder (set_holder m h k) m' = if decide (m' = m) then Some h else holder k m'.
Proof.
  unfold holder, set_holder. simpl. destruct (decide (m' = m)) as [->|].
  - by rewrite lookup_insert_eq.
  - by rewrite lookup_insert_ne by done.
Qed.

Lemma set_holder_wf m h k : sched_wf k -> sched_wf (set_holder m h k).
Proof. apply sched_wf_ext; done. Qed.

Section runs.
Context `{P : Platform, F : LoopFuel}.
Context {k : kernel} {m cur : ptr}.
Hypothesis Hwf : mutex_wf k.
Hypothesis Hcur : curthr k = Some cur.

Lemma lock_free_run :
  holder k m = Some None -> kmutex_lock m k = Ret tt (set_holder m (Some cur) k).
Proof.
  unfold holder. intros Hh. destruct (mutexes k !! m) as [mt|] eqn:Hm; [|done].
  simpl in Hh. injection Hh as Hh. unfold kmutex_lock, gets. unfold bind at 1. simpl. rewrite Hcur.
  rewrite (bind_deref mutexes _ _ _ _ Hm), Hh, bind_KASSERT by done.
  rewrite decide_True by done. by rewrite (assign_Some mutexes _ _ _ _ Hm).
Qed.

Lemma lock_held_run h :
  holder k m = Some (Some h) -> h <> cur -> kmutex_lock m k = sched_sleep_on (MutexWait m) k.
Proof.
  unfold holder. intros Hh Hne. destruct (mutexes k !! m) as [mt|] eqn:Hm; [|done].
  simpl in Hh. injection Hh as Hh. unfold kmutex_lock, gets. unfold bind at 1. simpl. rewrite Hcur.
  rewrite (bind_deref mutexes _ _ _ _ Hm), Hh, bind_KASSERT.
  - by rewrite decide_False.
  - rewrite andb_true_iff, !bool_decide_eq_true. split; [done|congruence].
Qed.

Lemma lockc_held_run h :
  holder k m = Some (Some h) -> h <> cur ->
  kmutex_lock_cancellable m k = sched_cancellable_sleep_on (MutexWait m) k.
Proof.
  unfold holder. intros Hh Hne. destruct (mutexes k !! m) as [mt|] eqn:Hm; [|done].
  simpl in Hh. injection Hh as Hh. unfold kmutex_lock_cancellable, gets.
  unfold bind at 1. simpl. rewrite Hcur.
  rewrite (bind_deref mutexes _ _ _ _ Hm), Hh, bind_KASSERT.
  - by rewrite decide_False.
  - rewrite andb_true_iff, !bool_decide_eq_true. split; [done|congruence].
Qed.

(** Unlocking, without and with waiters. *)
Lemma unlock_free_run :
  holder k m = Some (Some cur) -> fifo k (MutexWait m) = [] ->
  kmutex_unlock m k = Ret tt (set_holder m None k).
Proof.
  unfold holder. intros Hh Hf. destruct (mutexes k !! m) as [mt|] eqn:Hm; [|done].
  simpl in Hh. injection Hh as Hh. unfold kmutex_unlock, gets. unfold bind at 1. simpl. rewrite Hcur.
  rewrite (bind_deref mutexes _ _ _ _ Hm), Hh, bind_KASSERT.
  2: { by rewrite bool_decide_true, bool_decide_true. }
  unfold sched_queue_empty, get, ret. unfold bind at 1 2. simpl.
  rewrite (fifo_nil_empty _ _ Hf).
  erewrite bind_ret by (by apply (assign_Some mutexes)).
  rewrite (bind_deref mutexes _ {| km_holder := None |}).
  - unfold KASSERT. by rewrite bool_decide_true.
  - simpl. by rewrite lookup_insert_eq.
Qed.

Lemma unlock_handoff_run t rest thr :
  holder k m = Some (Some cur) -> fifo k (MutexWait m) = t :: rest ->
  threads k !! t = Some thr ->
  kmutex_unlock m k = Ret tt (set_holder m (Some t) (wake (MutexWait m) t thr k)).
Proof.
  intros Hh Hf Ht.
  assert (Hne : cur <> t). { intros ->. apply (mwf_holder k Hwf m t Hh). rewrite Hf. by left. }
  revert Hh. unfold holder. intros Hh. destruct (mutexes k !! m) as [mt|] eqn:Hm; [|done].
  simpl in Hh. injection Hh as Hh. unfold kmutex_unlock, gets. unfold bind at 1. simpl. rewrite Hcur.
  rewrite (bind_deref mutexes _ _ _ _ Hm), Hh, bind_KASSERT.
  2: { by rewrite bool_decide_true, bool_decide_true. }
  unfold sched_queue_empty, get, ret. unfold bind at 1 2. simpl.
  pose proof (fifo_cons_last _ _ _ _ Hf) as Hlast.
  destruct (tq_list (queue k (MutexWait m))) eqn:Hl; [done|].
  pose proof (wakeup_run (MutexWait m) _ _ _ _ (mwf_sched k Hwf) ltac:(done) Hf Ht) as Hw.
  erewrite bind_ret.
  2: { erewrite bind_ret by exact Hw. apply (assign_Some mutexes). exact Hm. }
  rewrite (bind_deref mutexes _ {| km_holder := Some t |}).
  - simpl. rewrite bool_decide_true by congruence. unfold KASSERT, set_holder.
    by destruct mt.
  - simpl. rewrite lookup_insert_eq. by destruct mt.
Qed.
End runs.

(** ** What other activity does to a mutex

    Every scheduler call that does not touch a mutex is a sequence of [eff] steps: wake-ups
    that leave the uncancellable sleepers of mutexes alone, changes of thread members other
    than the queue links, queueing on other queues, IPL changes and context switches. *)
Definition not_mutex (q : wchan) : Prop := match q with MutexWait _ => False | _ => True end.

Inductive eff : kernel -> kernel -> Prop :=
| eff_wake q t thr k : threads k !! t = Some thr -> kt_wchan thr = Some q ->
    not_mutex q \/ kt_state thr = KT_SLEEP_CANCELLABLE -> eff k (wake q t thr k)
| eff_update t thr thr' k : threads k !! t = Some thr -> kt_wchan thr' = kt_wchan thr ->
    kt_state thr' = kt_state thr \/ kt_wchan thr = None ->
    eff k (k <| threads := <[t := thr']> (threads k) |>)
| eff_enq q t thr st k : threads k !! t = Some thr -> kt_wchan thr = None -> not_mutex q ->
    eff k (asleep st q t thr k)
| eff_ipl l k : eff k (k <| ipl := l |>)
| eff_switch t thr k : threads k !! t = Some thr -> kt_wchan thr = Some Runq ->
    eff k (switched t thr k).

(** The thread sleeps uncancellably for the mutex. *)
Definition waiting (k : kernel) (m t : ptr) : Prop :=
  exists thr, threads k !! t = Some thr /\ kt_wchan thr = Some (MutexWait m) /\
    kt_state thr = KT_SLEEP.

(** It waits for the mutex or holds it. *)
Definition claims (k : kernel) (m t : ptr) : Prop :=
  waiting k m t \/ holder k m = Some (Some t).

(** The waiters in front of [t]. *)
Fixpoint ahead (t : ptr) (l : list ptr) : list ptr :=
  match l with
  | [] => []
  | x :: l => if decide (x = t) then [] else x :: ahead t l
  end.

Lemma ahead_app t l1 l2 : t ∈ l1 -> ahead t (l1 ++ l2) = ahead t l1.
Proof.
  induction l1 as [|x l1 IH]; [set_solver|]. intros Hin. simpl. case_decide; [done|].
  f_equal. apply IH. set_solver.
Qed.

Lemma ahead_remove t x l : x <> t -> ahead t (remove_elem x l) = remove_elem x (ahead t l).
Proof.
  intros Hne. unfold remove_elem. induction l as [|y l IH]; [done|].
  destruct (decide (y = x)) as [->|Hy].
  - rewrite filter_cons_False by naive_solver. simpl. rewrite decide_False by done.
    rewrite filter_cons_False by naive_solver. done.
  - rewrite filter_cons_True by done. simpl. case_decide; [done|].
    rewrite filter_cons_True by done. by f_equal.
Qed.

Lemma remove_elem_sublist {A} `{EqDecision A} (x : A) l : sublist (remove_elem x l) l.
Proof. apply sublist_filter. Qed.

(** Nobody joins: the queue of the mutex can only shrink. *)
Lemma eff_fifo k k' m : eff k k' ->
  fifo k' (MutexWait m) = fifo k (MutexWait m) \/
  exists x, fifo k' (MutexWait m) = remove_elem x (fifo k (MutexWait m)).
Proof.
  intros [q t thr k0 Ht Hw _|t thr thr' k0 Ht Hw Hs|q t thr st k0 Ht Hw Hq|l k0|t thr k0 Ht Hw].
  - unfold wake. rewrite fifo_enq. unfold spec_enqueue. rewrite decide_False by done.
    rewrite fifo_deq. case_decide; [right; by exists t|by left].
  - by left.
  - left. unfold asleep. rewrite fifo_enq. unfold spec_enqueue. rewrite decide_False; [done|].
    by intros <-.
  - by left.
  - left. rewrite (fifo_ext (deq Runq t thr k0)) by done. by rewrite fifo_deq, decide_False.
Qed.

Lemma eff_mutexes k k' : eff k k' -> mutexes k' = mutexes k.
Proof. by intros []. Qed.

Lemma eff_holder k k' m : eff k k' -> holder k' m = holder k m.
Proof. unfold holder. by intros ->%eff_mutexes. Qed.

Lemma effs_holder k k' m : rtc eff k k' -> holder k' m = holder k m.
Proof. induction 1 as [|k k1 k' Hs _ IH]; [done|]. by rewrite IH, (eff_holder k). Qed.

Lemma effs_subset k k' m t : rtc eff k k' -> t ∈ fifo k' (MutexWait m) -> t ∈ fifo k (MutexWait m).
Proof.
  induction 1 as [|k k1 k' Hs _ IH]; [done|]. intros H%IH.
  destruct (eff_fifo k k1 m Hs) as [<-|[x Hx]]; [done|]. rewrite Hx in H.
  by apply elem_of_remove_elem in H as [_ ?].
Qed.

Lemma effs_wf k k' : rtc eff k k' -> sched_wf k' -> mutex_wf k -> mutex_wf k'.
Proof.
  intros He Hwf' [Hwf Hfree Hheld]. split; [done|intros m|intros m h];
    rewrite (effs_holder _ _ _ He).
  - intros Hm%Hfree. destruct (fifo k' (MutexWait m)) as [|x l] eqn:Hf; [done|].
    assert (Hx : x ∈ fifo k (MutexWait m)).
    { eapply effs_subset; [done|]. rewrite Hf. by left. }
    rewrite Hm in Hx. by apply not_elem_of_nil in Hx.
  - intros Hm Hin. eapply Hheld; [done|]. by eapply effs_subset.
Qed.

(** Whatever the others do, a waiter goes on waiting and nobody gets in front of it. *)
Lemma eff_waiting k k' m t : eff k k' -> waiting k m t ->
  waiting k' m t /\
  sublist (ahead t (fifo k' (MutexWait m))) (ahead t (fifo k (MutexWait m))).
Proof.
  intros [q t0 thr0 k0 Ht0 Hw0 Hq|t0 thr0 thr' k0 Ht0 Hw0 Hs|q t0 thr0 st k0 Ht0 Hw0 Hq|l k0|t0 thr0 k0 Ht0 Hw0];
    intros (thr & Ht & Hw & Hst).
  all: try (destruct (decide (t0 = t)) as [->|Hne]; [simplify_eq|]).
  - destruct Hq; [by simplify_eq|congruence].
  - split; [exists thr; by rewrite threads_wake_ne by done|].
    unfold wake. rewrite fifo_enq. unfold spec_enqueue. rewrite decide_False by done.
    rewrite fifo_deq. case_decide; [|done]. rewrite ahead_remove by done.
    apply remove_elem_sublist.
  - split; [|done]. exists thr'. simpl. rewrite lookup_insert_eq.
    destruct Hs; split_and!; congruence.
  - split; [|done]. exists thr. simpl. by rewrite lookup_insert_ne by done.
  - split; [exists thr; unfold asleep, enq; simpl; by rewrite lookup_insert_ne by done|].
    unfold asleep. rewrite fifo_enq. unfold spec_enqueue. rewrite decide_False; [done|].
    by intros <-.
  - split; [by exists thr|done].
  - split; [exists thr; rewrite threads_switched; by rewrite lookup_insert_ne by done|].
    rewrite (fifo_ext (deq Runq t0 thr0 k0)) by done. by rewrite fifo_deq, decide_False.
Qed.

Lemma effs_waiting k k' m t : rtc eff k k' -> waiting k m t ->
  waiting k' m t /\
  sublist (ahead t (fifo k' (MutexWait m))) (ahead t (fifo k (MutexWait m))).
Proof.
  induction 1 as [|k k1 k' Hs _ IH]; [done|]. intros Hw.
  destruct (eff_waiting _ _ _ _ Hs Hw) as [Hw1 Hs1]. destruct (IH Hw1) as [Hw2 Hs2].
  split; [done|]. by etrans.
Qed.

Lemma effs_claims k k' m t : rtc eff k k' -> claims k m t -> claims k' m t.
Proof.
  intros He [Hw|Hh]; [left; by eapply effs_waiting|right; by rewrite (effs_holder _ _ _ He)].
Qed.

(** ** Mutexes in the running kernel *)
Section machine.
Context `{P : Platform, F : LoopFuel}.

Lemma wakes_effs (Q : wchan -> Prop) k k' :
  (forall q, Q q -> not_mutex q) -> rtc (wakes Q) k k' -> rtc eff k k'.
Proof.
  intros HQ. induction 1 as [|k k1 k' [q t thr k0 Hq Ht Hw] _ IH]; [done|].
  eapply rtc_l; [|exact IH]. apply eff_wake; [done..|left; by apply HQ].
Qed.

Lemma quiet_effs k k' : rtc quiet_step k k' -> rtc eff k k'.
Proof.
  induction 1 as [|k k1 k' [k0 k1' Hw|k0 l] _ IH]; [done| |].
  - etrans; [|exact IH]. apply (wakes_effs intr_queue); [by intros []|by apply rtc_once].
  - eapply rtc_l; [apply eff_ipl|done].
Qed.

Lemma switch_effs {A} (f : unit -> K A) k old k' :
  sched_wf k -> curthr k = Some old -> is_Some (threads k !! old) ->
  reaches (obind f (sched_switch k)) k' -> rtc eff k k'.
Proof.
  intros Hwf Hc Hold Hr.
  destruct (reaches_switched f k old k' Hwf Hc Hold Hr)
    as (k1 & t & rest & thr & l & Hq & Hwf1 & Hf & Ht & ->).
  etrans; [by apply quiet_effs|]. eapply rtc_l; [|apply rtc_once, eff_ipl].
  destruct (fifo_cons_thread _ _ _ _ Hwf1 Hf) as (thr' & Ht' & Hw & _).
  apply eff_switch; congruence.
Qed.

(** The calls that leave mutexes alone: nobody but [kmutex.c] sleeps or wakes on a mutex. *)
Definition leaves_mutexes (c : sched_call) : Prop :=
  match c with
  | CallWakeup q | CallBroadcast q | CallSleep q | CallCancellableSleep q => not_mutex q
  | _ => True
  end.

Section step.
Context {k k' : kernel} {cur : ptr} {cthr : kthread}.
Hypothesis Hok : sched_ok k.
Hypothesis Hcur : curthr k = Some cur.
Hypothesis Hcthr : threads k !! cur = Some cthr.
Hypothesis Hcw : kt_wchan cthr = None.

Lemma asleep_switch_effs {A} (f : unit -> K A) st q :
  state_on (Some q) st -> reaches (obind f (sched_switch (asleep st q cur cthr k))) k' ->
  rtc eff (asleep st q cur cthr k) k'.
Proof.
  intros Hst. apply (switch_effs _ _ cur).
  - apply asleep_wf; try done. by apply ok_wf.
  - done.
  - unfold asleep, enq. simpl. by rewrite lookup_insert_eq.
Qed.

(** Both sleeps: queue, then switch. *)
Lemma sleep_effs q :
  q <> Runq -> reaches (sched_sleep_on q k) k' -> rtc eff (asleep KT_SLEEP q cur cthr k) k'.
Proof.
  intros Hq. rewrite (sleep_run _ _ _ _ (ok_wf _ Hok) Hcur Hcthr Hcw). intros Hr%reaches_unit.
  eapply asleep_switch_effs; [|exact Hr]. destruct q; by try left.
Qed.

Lemma csleep_effs q {A} (f : Z -> K A) :
  q <> Runq -> (forall z s, exists a, f z s = Ret a s) ->
  reaches (obind f (sched_cancellable_sleep_on q k)) k' ->
  k' = k \/ rtc eff (asleep KT_SLEEP_CANCELLABLE q cur cthr k) k'.
Proof.
  intros Hq Hf Hr. destruct (decide (kt_cancelled cthr = 1)) as [Hcan|Hcan].
  - left. unfold sched_cancellable_sleep_on, gets, bind, nonnull, ret in Hr. simpl in Hr.
    rewrite Hcur in Hr. simpl in Hr. unfold deref in Hr. rewrite Hcthr in Hr. simpl in Hr.
    rewrite Hcan in Hr. simpl in Hr. destruct (Hf (- EINTR) k) as [a Ha]. rewrite Ha in Hr.
    by apply reaches_ret in Hr.
  - right. rewrite (csleep_run _ _ _ _ (ok_wf _ Hok) Hcur Hcthr Hcw Hcan) in Hr.
    unfold bind at 1 in Hr. apply reaches_assoc in Hr.
    eapply asleep_switch_effs; [|exact Hr]. destruct q; by try right.
Qed.

Lemma wakeup_effs q :
  q <> Runq -> not_mutex q -> reaches (run_call (CallWakeup q) k) k' -> rtc eff k k'.
Proof.
  intros Hq Hm Hr. simpl in Hr. unfold bind in Hr. apply (wakes_effs not_mutex); [done|].
  destruct (sched_wakeup_on q k) as [r k1| |w s kont|] eqn:E; simpl in Hr.
  - apply reaches_ret in Hr as ->. eapply wakeup_wakes; eauto using ok_wf.
  - inversion Hr.
  - exfalso. pose proof (ok_wf _ Hok) as Hwf. destruct (fifo k q) as [|t rest] eqn:Hf.
    + unfold sched_wakeup_on, sched_queue_empty, get, ret, bind in E. simpl in E.
      by rewrite (fifo_nil_empty _ _ Hf) in E.
    + destruct (fifo_cons_thread _ _ _ _ Hwf Hf) as (thr & Ht & _).
      by rewrite (wakeup_run _ _ _ _ _ Hwf Hq Hf Ht) in E.
  - inversion Hr.
Qed.

Lemma broadcast_effs q :
  q <> Runq -> not_mutex q -> reaches (sched_broadcast_on q k) k' -> rtc eff k k'.
Proof.
  intros Hq Hm Hr. pose proof (ok_wf _ Hok) as Hwf. apply (wakes_effs not_mutex); [done|].
  destruct (broadcast_run q (S (length (fifo k q))) k) as (k1 & Hrun & _); [done..|lia|].
  change (reaches (broadcast_loop (S (length (tq_list (queue k q)))) q k) k') in Hr.
  unfold fifo in Hrun. rewrite length_reverse in Hrun.
  rewrite Hrun in Hr. apply reaches_ret in Hr as ->. by eapply broadcast_wakes.
Qed.

Lemma cancel_effs t :
  call_ok (CallCancel t) k -> reaches (sched_cancel t k) k' -> rtc eff k k'.
Proof.
  intros (thr & Ht & Hw) Hr. destruct (kt_wchan thr) as [q|] eqn:Hq; [|done].
  rewrite (cancel_run _ _ _ _ (ok_wf _ Hok) Ht Hq) in Hr. simpl in Hr.
  assert (He : eff k (k <| threads := <[t := cancelled thr]> (threads k) |>))
    by (apply (eff_update _ thr); by try left).
  case_decide; apply reaches_ret in Hr as ->; [|by apply rtc_once].
  eapply rtc_l; [exact He|]. apply rtc_once, eff_wake; [apply lookup_insert_eq|done|by right].
Qed.

Lemma call_effs c : call_ok c k -> leaves_mutexes c -> reaches (run_call c k) k' -> rtc eff k k'.
Proof.
  intros Hpre Hm Hr. destruct c as [q|q|t|q|q|t| |].
  - by apply (wakeup_effs q).
  - by apply (broadcast_effs q).
  - by apply (cancel_effs t).
  - eapply rtc_l; [|apply (sleep_effs q); done]. by apply eff_enq.
  - destruct (csleep_effs q (fun _ => ret tt) Hpre) as [->|He]; [by eexists|exact Hr|done|].
    eapply rtc_l; [|exact He]. by apply eff_enq.
  - destruct Hpre as (thr & Ht & Hst & Hw & Hne). simpl in Hr.
    rewrite (make_runnable_run _ _ _ Ht Hw) in Hr by (by rewrite (wf_link _ (ok_wf _ Hok) _ _ Ht)).
    apply reaches_ret in Hr as ->. by apply rtc_once, (eff_enq Runq t thr KT_RUN).
  - simpl in Hr. unfold yield_current, gets, bind at 1, nonnull in Hr. simpl in Hr.
    rewrite Hcur in Hr. unfold bind at 1 in Hr. simpl in Hr.
    erewrite bind_ret in Hr
      by (apply (make_runnable_run _ _ _ Hcthr Hcw), (cthr_qlink Hok Hcthr Hcw)).
    apply reaches_unit in Hr. eapply rtc_l; [apply (eff_enq Runq cur cthr KT_RUN); done|].
    by eapply asleep_switch_effs.
  - simpl in Hr. unfold exit_current, gets, bind at 1, nonnull in Hr. simpl in Hr.
    rewrite Hcur in Hr. unfold bind at 1 in Hr. simpl in Hr.
    rewrite (bind_assign threads _ _ _ _ _ Hcthr) in Hr. apply reaches_unit in Hr.
    eapply rtc_l; [apply (eff_update cur cthr (cthr <| kt_state := KT_EXITED |>)); by try right|].
    eapply (switch_effs _ _ cur); [|done| |exact Hr].
    + apply (update_wf _ _ cthr); try done; [by apply ok_wf|by rewrite Hcw].
    + simpl. by rewrite lookup_insert_eq.
Qed.
End step.

Record mutex_ok (k : kernel) : Prop := {
  mok_sched : sched_ok k;
  mok_wf : mutex_wf k;
}.

(** What a thread may do next, mutexes included. *)
Inductive mutex_step : kernel -> kernel -> Prop :=
| mstep_call c k k' : call_ok c k -> leaves_mutexes c -> reaches (run_call c k) k' -> mutex_step k k'
| mstep_lock m k k' : reaches (kmutex_lock m k) k' -> mutex_step k k'
| mstep_lock_cancellable m k k' : reaches (kmutex_lock_cancellable m k) k' -> mutex_step k k'
| mstep_unlock m k k' : reaches (kmutex_unlock m k) k' -> mutex_step k k'.

(** A step by a thread other than [t]. *)
Definition other_step (t : ptr) (k k' : kernel) : Prop := curthr k <> Some t /\ mutex_step k k'.

(** A new waiter of a mutex that another thread holds. *)
Lemma asleep_mutex_wf st m h cur c k :
  mutex_wf k -> threads k !! cur = Some c -> kt_wchan c = None -> state_on (Some (MutexWait m)) st ->
  holder k m = Some (Some h) -> h <> cur -> mutex_wf (asleep st (MutexWait m) cur c k).
Proof.
  intros [Hwf Hfree Hheld] Hc Hw Hst Hh Hne.
  assert (Hfifo : forall m', fifo (asleep st (MutexWait m) cur c k) (MutexWait m') =
    if decide (m' = m) then fifo k (MutexWait m') ++ [cur] else fifo k (MutexWait m')).
  { intros m'. unfold asleep. rewrite fifo_enq. unfold spec_enqueue.
    repeat case_decide; congruence. }
  split; [by apply asleep_wf|intros m'|intros m' h'];
    change (holder (asleep st (MutexWait m) cur c k) m') with (holder k m'); rewrite Hfifo;
    intros Hm; case_decide; subst; eauto; [congruence|].
  rewrite elem_of_app, list_elem_of_singleton. intros [Hin| ->]; [by eapply Hheld|congruence].
Qed.

Lemma reaches_bind_ret {A} (o : outcome kernel A) k' : reaches o k' -> reaches (obind ret o) k'.
Proof.
  induction o as [a s|e|w s kont IH|]; simpl; try done.
  inversion 1; subst; econstructor; eauto.
Qed.

Lemma reaches_then_ret {A} (o : outcome kernel A) k' :
  reaches o k' -> reaches (obind (fun _ => ret tt) o) k'.
Proof.
  induction o as [a s|e|w s kont IH|]; simpl; try done; inversion 1; subst; econstructor; eauto.
Qed.

Section ops.
Context {k k' : kernel} {m cur : ptr} {cthr : kthread}.
Hypothesis Hok : mutex_ok k.
Hypothesis Hcur : curthr k = Some cur.
Hypothesis Hcthr : threads k !! cur = Some cthr.
Hypothesis Hcw : kt_wchan cthr = None.

(** What became of the state after an attempt to lock. *)
Definition lock_effect (st : kthread_state) : Prop :=
  (holder k m = Some None /\ k' = set_holder m (Some cur) k) \/ k' = k \/
  (exists h, holder k m = Some (Some h) /\ h <> cur /\
     rtc eff (asleep st (MutexWait m) cur cthr k) k').

(** The assertion both lock operations start with. *)
Lemma lock_guard {A} (body : option ptr -> kmutex -> K A) :
  reaches ((c ← gets curthr;
            mt ← deref mutexes m;
            KASSERT (bool_decide (c <> None) && bool_decide (c <> km_holder mt));;
            body c mt) k) k' ->
  exists h, holder k m = Some h /\ h <> Some cur.
Proof.
  unfold gets. unfold bind at 1. simpl. rewrite Hcur. unfold bind at 1, deref, holder.
  destruct (mutexes k !! m) as [mt|]; simpl; [|by inversion 1].
  intros Hr. exists (km_holder mt). split; [done|]. intros Heq.
  unfold bind, KASSERT in Hr. rewrite Heq, (bool_decide_false (Some cur <> Some cur)) in Hr by naive_solver.
  simpl in Hr. inversion Hr.
Qed.

Lemma lock_cases : reaches (kmutex_lock m k) k' -> lock_effect KT_SLEEP.
Proof.
  intros Hr. destruct (lock_guard (fun c mt => if decide (km_holder mt = None)
    then assign mutexes m (fun mt => mt <| km_holder := c |>)
    else sched_sleep_on (MutexWait m)) Hr) as ([h|] & Hh & Hne).
  - right. right. exists h. split_and!; try done; [congruence|].
    rewrite (lock_held_run (m := m) Hcur h Hh) in Hr by congruence.
    eapply sleep_effs; eauto using mok_sched.
  - left. split; [done|]. rewrite (lock_free_run (m := m) Hcur Hh) in Hr. by apply reaches_ret in Hr.
Qed.

Lemma lockc_free_run :
  holder k m = Some None -> kmutex_lock_cancellable m k = Ret 0 (set_holder m (Some cur) k).
Proof.
  unfold holder. intros Hh. destruct (mutexes k !! m) as [mt|] eqn:Hm; [|done].
  simpl in Hh. injection Hh as Hh. unfold kmutex_lock_cancellable, gets. unfold bind at 1. simpl.
  rewrite Hcur, (bind_deref mutexes _ _ _ _ Hm), Hh, bind_KASSERT by done.
  rewrite decide_True by done. by rewrite (bind_assign mutexes _ _ _ _ _ Hm).
Qed.

Lemma lockc_cases :
  reaches (kmutex_lock_cancellable m k) k' -> lock_effect KT_SLEEP_CANCELLABLE.
Proof.
  intros Hr. destruct (lock_guard (fun c mt => if decide (km_holder mt = None)
    then assign mutexes m (fun mt => mt <| km_holder := c |>);; ret 0
    else sched_cancellable_sleep_on (MutexWait m)) Hr) as ([h|] & Hh & Hne).
  - right. rewrite (lockc_held_run (m := m) Hcur h Hh) in Hr by congruence.
    apply reaches_bind_ret in Hr.
    destruct (csleep_effs (mok_sched k Hok) Hcur Hcthr Hcw (MutexWait m) ret ltac:(done)
      ltac:(by eexists) Hr) as [?|He]; [by left|right].
    exists h. split_and!; try done. congruence.
  - left. split; [done|]. rewrite lockc_free_run in Hr by done. by apply reaches_ret in Hr.
Qed.

Lemma unlock_guard :
  reaches (kmutex_unlock m k) k' -> holder k m = Some (Some cur).
Proof.
  unfold kmutex_unlock, gets. unfold bind at 1. simpl. rewrite Hcur. unfold bind at 1, deref, holder.
  destruct (mutexes k !! m) as [mt|]; simpl; [|by inversion 1].
  intros Hr. destruct (decide (km_holder mt = Some cur)) as [->|Hne]; [done|].
  unfold bind, KASSERT in Hr. rewrite (bool_decide_false (Some cur = km_holder mt)) in Hr by congruence.
  simpl in Hr. inversion Hr.
Qed.

Lemma unlock_cases :
  reaches (kmutex_unlock m k) k' ->
  holder k m = Some (Some cur) /\
  match fifo k (MutexWait m) with
  | [] => k' = set_holder m None k
  | t :: _ => exists thr, threads k !! t = Some thr /\ kt_wchan thr = Some (MutexWait m) /\
      k' = set_holder m (Some t) (wake (MutexWait m) t thr k)
  end.
Proof.
  intros Hr. pose proof (unlock_guard Hr) as Hh. split; [done|].
  destruct (fifo k (MutexWait m)) as [|t rest] eqn:Hf.
  - rewrite (unlock_free_run (m := m) Hcur Hh Hf) in Hr. by apply reaches_ret in Hr.
  - destruct (fifo_cons_thread _ _ _ _ (mwf_sched _ (mok_wf _ Hok)) Hf) as (thr & Ht & Hw & _).
    rewrite (unlock_handoff_run (m := m) (mok_wf k Hok) Hcur t rest thr Hh Hf Ht) in Hr.
    apply reaches_ret in Hr. eauto.
Qed.

(** The holder of a mutex does not change by locking, and waiters keep their places. *)
Lemma lock_effect_ok st :
  st = KT_SLEEP \/ st = KT_SLEEP_CANCELLABLE -> sched_ok k' -> lock_effect st -> mutex_wf k'.
Proof.
  intros Hst Hok' [[Hh ->]|[->|(h & Hh & Hne & He)]].
  - destruct (mok_wf k Hok) as [Hwf Hfree Hheld]. split; [by apply set_holder_wf|intros m'|intros m' h];
      rewrite holder_set; change (fifo (set_holder m (Some cur) k) ?q) with (fifo k q).
    + case_decide; [done|apply Hfree].
    + case_decide; [|apply Hheld]. intros _. subst.
      rewrite (Hfree _ Hh). apply not_elem_of_nil.
  - apply (mok_wf _ Hok).
  - eapply effs_wf; [exact He|by apply ok_wf|]. eapply asleep_mutex_wf; eauto using mok_wf.
Qed.

Lemma lock_effect_waiting st m' t : t <> cur -> lock_effect st -> waiting k m' t ->
  waiting k' m' t /\
  sublist (ahead t (fifo k' (MutexWait m'))) (ahead t (fifo k (MutexWait m'))).
Proof.
  intros Ht [[Hh ->]|[->|(h & Hh & Hne & He)]] Hw; [done|done|].
  assert (Hw1 : waiting (asleep st (MutexWait m) cur cthr k) m' t).
  { destruct Hw as (thr & Hthr & Hw). exists thr. unfold asleep, enq. simpl.
    by rewrite lookup_insert_ne. }
  destruct (effs_waiting _ _ _ _ He Hw1) as [Hw2 Hs]. split; [done|]. etrans; [exact Hs|].
  unfold asleep. rewrite fifo_enq. unfold spec_enqueue. case_decide; [|done].
  rewrite ahead_app; [done|]. destruct Hw as (thr & Hthr & Hw & _).
  apply elem_of_fifo, (wf_mem _ (mwf_sched _ (mok_wf _ Hok)) t thr); done.
Qed.

Lemma lock_effect_claims st m' t : t <> cur -> lock_effect st -> claims k m' t -> claims k' m' t.
Proof.
  intros Ht Hl [Hw|Hh]; [left; by eapply lock_effect_waiting|right].
  destruct Hl as [[Hm ->]|[->|(h & Hm & Hne & He)]]; [|done|].
  - rewrite holder_set. case_decide; [congruence|done].
  - rewrite (effs_holder _ _ _ He). done.
Qed.

Lemma unlock_fifo t rest thr m' :
  fifo k (MutexWait m) = t :: rest ->
  fifo (set_holder m (Some t) (wake (MutexWait m) t thr k)) (MutexWait m') =
    if decide (m' = m) then rest else fifo k (MutexWait m').
Proof.
  intros Hf. rewrite (fifo_ext (wake (MutexWait m) t thr k)) by done.
  rewrite (fifo_wake (MutexWait m) t thr rest) by (try done; apply (mok_wf _ Hok)).
  unfold spec_wakeup, spec_enqueue. rewrite Hf, decide_False by done.
  repeat case_decide; congruence.
Qed.

Lemma unlock_wf : reaches (kmutex_unlock m k) k' -> mutex_wf k'.
Proof.
  intros Hr. destruct (unlock_cases Hr) as [Hh Hk'].
  pose proof (mok_wf _ Hok) as [Hwf Hfree Hheld].
  destruct (fifo k (MutexWait m)) as [|t rest] eqn:Hf.
  - subst k'. split; [by apply set_holder_wf|intros m'|intros m' h]; rewrite holder_set;
      change (fifo (set_holder m None k) ?q) with (fifo k q); case_decide; subst; try done; eauto.
  - destruct Hk' as (thr & Ht & Hw & ->).
    assert (Hnd : NoDup (t :: rest)). { rewrite <- Hf. unfold fifo. rewrite reverse_Permutation. apply (wf_nodup k Hwf). }
    split; [by apply set_holder_wf, wake_wf|intros m'|intros m' h]; rewrite holder_set;
      rewrite (unlock_fifo _ _ _ _ Hf); case_decide; subst; try done; eauto.
    intros [= <-]. by apply NoDup_cons in Hnd as [? _].
Qed.

Lemma unlock_sched_ok : reaches (kmutex_unlock m k) k' -> sched_ok k'.
Proof.
  intros Hr. destruct (unlock_cases Hr) as [Hh Hk'].
  assert (Hset : forall h k0, sched_ok k0 -> sched_ok (set_holder m h k0)).
  { intros h k0 [H1 H2 H3]. split; [by apply set_holder_wf|done|done]. }
  destruct (fifo k (MutexWait m)) as [|t rest]; [subst; apply Hset, Hok|].
  destruct Hk' as (thr & Ht & Hw & ->). apply Hset.
  eapply (wakes_ok any_queue); [|apply Hok]. by apply rtc_once, (wakes_one _ (MutexWait m)).
Qed.

Lemma unlock_waiting m' t : reaches (kmutex_unlock m k) k' -> waiting k m' t ->
  (m' = m /\ holder k' m = Some (Some t)) \/
  (waiting k' m' t /\ sublist (ahead t (fifo k' (MutexWait m'))) (ahead t (fifo k (MutexWait m')))).
Proof.
  intros Hr (thr & Ht & Hw & Hst). destruct (unlock_cases Hr) as [Hh Hk'].
  destruct (fifo k (MutexWait m)) as [|t0 rest] eqn:Hf.
  { subst k'. right. split; [by exists thr|done]. }
  destruct Hk' as (thr0 & Ht0 & Hw0 & ->). destruct (decide (t0 = t)) as [->|Hne].
  - left. assert (m' = m) as -> by congruence. by rewrite holder_set, decide_True.
  - right. split.
    + exists thr. change (threads (set_holder ?a ?b ?c)) with (threads c).
      by rewrite threads_wake_ne.
    + rewrite (unlock_fifo _ _ _ _ Hf). case_decide; [|done]. subst. rewrite Hf. simpl.
      rewrite decide_False by done. by constructor.
Qed.

Lemma unlock_claims m' t :
  t <> cur -> reaches (kmutex_unlock m k) k' -> claims k m' t -> claims k' m' t.
Proof.
  intros Ht Hr [Hw|Hh].
  - destruct (unlock_waiting m' t Hr Hw) as [[-> ?]|[? _]]; [by right|by left].
  - right. destruct (unlock_cases Hr) as [Hm Hk'].
    assert (m' <> m) by congruence.
    destruct (fifo k (MutexWait m)); [subst k'|destruct Hk' as (? & _ & _ & ->)];
      by rewrite holder_set, decide_False.
Qed.
End ops.

Lemma mutex_step_ok k k' : mutex_step k k' -> mutex_ok k -> mutex_ok k'.
Proof.
  intros Hs Hok. destruct (ok_cur _ (mok_sched _ Hok)) as (cur & cthr & Hcur & Hcthr & Hcw).
  destruct Hs as [c k k' Hpre Hm Hr|m k k' Hr|m k k' Hr|m k k' Hr].
  - assert (Hok' : sched_ok k') by (eapply step_ok; [by econstructor|apply Hok]).
    split; [done|]. eapply effs_wf; [|by apply ok_wf|apply Hok]. eapply call_effs; eauto using mok_sched.
  - pose proof (lock_cases Hok Hcur Hcthr Hcw Hr) as Hl.
    assert (Hok' : sched_ok k').
    { destruct Hl as [[_ ->]|[->|(h & Hh & Hne & He)]]; [|apply Hok|].
      - destruct (mok_sched _ Hok) as [H1 H2 H3]. split; [by apply set_holder_wf|done|done].
      - rewrite (lock_held_run (m := m) Hcur h Hh Hne) in Hr. 
        exact (sleep_ok (mok_sched _ Hok) Hcur Hcthr Hcw (MutexWait m) ltac:(done) Hr). }
    split; [done|]. eapply (lock_effect_ok Hok Hcthr Hcw); [|done|exact Hl]. by left.
  - pose proof (lockc_cases Hok Hcur Hcthr Hcw Hr) as Hl.
    assert (Hok' : sched_ok k').
    { destruct Hl as [[_ ->]|[->|(h & Hh & Hne & He)]]; [|apply Hok|].
      - destruct (mok_sched _ Hok) as [H1 H2 H3]. split; [by apply set_holder_wf|done|done].
      - rewrite (lockc_held_run (m := m) Hcur h Hh Hne) in Hr.
        eapply (csleep_ok (mok_sched k Hok) Hcur Hcthr Hcw (MutexWait m)); [done|].
        simpl. unfold bind. by apply reaches_then_ret. }
    split; [done|]. eapply (lock_effect_ok Hok Hcthr Hcw); [|done|exact Hl]. by right.
  - split; [by eapply unlock_sched_ok|by eapply unlock_wf].
Qed.

(** The steps of others leave a waiter in its place, or hand it the mutex. *)
Lemma other_step_waiting k k' m t : mutex_ok k -> other_step t k k' -> waiting k m t ->
  holder k' m = Some (Some t) \/
  (waiting k' m t /\ sublist (ahead t (fifo k' (MutexWait m))) (ahead t (fifo k (MutexWait m)))).
Proof.
  intros Hok [Ht Hs] Hw. destruct (ok_cur _ (mok_sched _ Hok)) as (cur & cthr & Hcur & Hcthr & Hcw).
  assert (Hne : t <> cur) by congruence.
  destruct Hs as [c k k' Hpre Hm Hr|m' k k' Hr|m' k k' Hr|m' k k' Hr].
  - right. eapply effs_waiting; [|done]. eapply call_effs; eauto using mok_sched.
  - right. eapply lock_effect_waiting; eauto. by apply (lock_cases Hok Hcur Hcthr Hcw).
  - right. eapply lock_effect_waiting; eauto. by apply (lockc_cases Hok Hcur Hcthr Hcw).
  - destruct (unlock_waiting Hok Hcur m t Hr Hw) as [[-> ?]|?]; [by left|by right].
Qed.

Lemma other_step_claims k k' m t : mutex_ok k -> other_step t k k' -> claims k m t -> claims k' m t.
Proof.
  intros Hok [Ht Hs]. destruct (ok_cur _ (mok_sched _ Hok)) as (cur & cthr & Hcur & Hcthr & Hcw).
  assert (Hne : t <> cur) by congruence.
  destruct Hs as [c k k' Hpre Hm Hr|m' k k' Hr|m' k k' Hr|m' k k' Hr].
  - apply effs_claims. eapply call_effs; eauto using mok_sched.
  - eapply lock_effect_claims; eauto. by apply (lock_cases Hok Hcur Hcthr Hcw).
  - eapply lock_effect_claims; eauto. by apply (lockc_cases Hok Hcur Hcthr Hcw).
  - exact (unlock_claims Hok Hcur m t Hne Hr).
Qed.
End machine.

(** ** Properties *)
Section properties.
Context `{P : Platform, F : LoopFuel}.

(** C2: Whatever sequence of scheduler calls, lock and unlock operations and interrupts the kernel
    goes through, a free mutex has no waiters (no lost wake-up) and the holder of a mutex is not
    among the threads that wait for it. *)
Theorem mutex_reachable_ok k k' : mutex_ok k -> rtc mutex_step k k' -> mutex_ok k'.
Proof. intros Hok. induction 1 as [|k k1 k' Hs _ IH]; [done|]. apply IH. by eapply mutex_step_ok. Qed.

(** C3: A thread that comes back from [kmutex_lock] holds the mutex: whatever the other threads
    and the interrupt handlers did since the call, when the caller runs again it is the
    holder. *)
Theorem kmutex_lock_acquires k m t k1 k2 :
  mutex_ok k -> curthr k = Some t -> reaches (kmutex_lock m k) k1 ->
  rtc (other_step t) k1 k2 -> curthr k2 = Some t -> holder k2 m = Some (Some t).
Proof.
  intros Hok Hcur Hr Hsteps Hcur2.
  destruct (ok_cur _ (mok_sched _ Hok)) as (c & cthr & Hc & Hcthr & Hcw).
  assert (c = t) as -> by congruence.
  assert (Hok1 : mutex_ok k1) by (eapply mutex_step_ok; [by apply (mstep_lock m)|done]).
  assert (Hclaim : claims k1 m t).
  { destruct (lock_guard Hcur (fun c mt => if decide (km_holder mt = None)
      then assign mutexes m (fun mt => mt <| km_holder := c |>)
      else sched_sleep_on (MutexWait m)) Hr) as ([h|] & Hh & Hne).
    - rewrite (lock_held_run (m := m) Hcur h Hh) in Hr by congruence.
      left. eapply effs_waiting;
        [exact (sleep_effs (mok_sched _ Hok) Hcur Hcthr Hcw (MutexWait m) ltac:(done) Hr)|].
      eexists. unfold asleep, enq. simpl. rewrite lookup_insert_eq. done.
    - right. rewrite (lock_free_run (m := m) Hcur Hh) in Hr. apply reaches_ret in Hr as ->.
      by rewrite holder_set, decide_True. }
  clear Hr Hcur Hc Hcthr Hok. revert Hok1 Hclaim Hcur2. induction Hsteps as [k2|k1 k2 k3 Hs _ IH].
  - intros Hok2 [(thr & Ht & Hw & _)|Hh] Hcur2; [|done].
    destruct (ok_cur _ (mok_sched _ Hok2)) as (c & thr' & Hc & Hthr' & Hn). congruence.
  - intros Hok1 Hclaim. apply IH; [by eapply mutex_step_ok; [apply Hs|]|by eapply other_step_claims].
Qed.


(** [kmutex_unlock] by the holder never blocks; it frees the mutex when nobody waits and
    otherwise hands it to the thread that has waited longest, which becomes runnable; the
    other waiters keep their places and the unlocking thread keeps running. *)
Theorem kmutex_unlock_spec k m cur :
  mutex_ok k -> curthr k = Some cur -> holder k m = Some (Some cur) ->
  exists k', kmutex_unlock m k = Ret tt k' /\ mutex_ok k' /\ curthr k' = Some cur /\
    match fifo k (MutexWait m) with
    | [] => holder k' m = Some None /\ forall q, fifo k' q = fifo k q
    | t :: rest => holder k' m = Some (Some t) /\ fifo k' (MutexWait m) = rest /\
        fifo k' Runq = fifo k Runq ++ [t]
    end.
Proof.
  intros Hok Hcur Hh. pose proof (mok_wf _ Hok) as Hwf.
  destruct (fifo k (MutexWait m)) as [|t rest] eqn:Hf.
  - pose proof (unlock_free_run (m := m) Hcur Hh Hf) as Hrun. eexists. split; [exact Hrun|].
    split_and!; [|done|by rewrite holder_set, decide_True|done].
    eapply mutex_step_ok; [apply (mstep_unlock m)|exact Hok]. rewrite Hrun. constructor.
  - destruct (fifo_cons_thread _ _ _ _ (mwf_sched _ Hwf) Hf) as (thr & Ht & Hw & _).
    pose proof (unlock_handoff_run (m := m) Hwf Hcur t rest thr Hh Hf Ht) as Hrun.
    eexists. split; [exact Hrun|]. split_and!.
    + eapply mutex_step_ok; [apply (mstep_unlock m)|exact Hok]. rewrite Hrun. constructor.
    + by rewrite <- Hcur.
    + by rewrite holder_set, decide_True.
    + by rewrite (unlock_fifo Hok _ _ _ _ Hf), decide_True.
    + rewrite (fifo_ext (wake (MutexWait m) t thr k)) by done.
      rewrite (fifo_wake (MutexWait m) t thr rest) by (try done; apply Hwf).
      unfold spec_wakeup, spec_enqueue. by rewrite Hf.
Qed.
End properties.

(** ** Concrete states *)
#[local] Instance fuel : LoopFuel := 4%nat.

Lemma mutex_ok_check k :
  sched_ok k ->
  map_Forall (fun m mt => match km_holder mt with
    | None => fifo k (MutexWait m) = []
    | Some h => h ∉ fifo k (MutexWait m)
    end) (mutexes k) -> mutex_ok k.
Proof.
  intros Hok Hall. split; [done|]. split; [by apply ok_wf|intros m|intros m h]; unfold holder;
    destruct (mutexes k !! m) as [mt|] eqn:Hm; try done; simpl; intros [= Hh];
    pose proof (Hall m mt Hm) as HP; simpl in HP; by rewrite Hh in HP.
Qed.

Lemma demo_mutex_ok : mutex_ok demo.
Proof.
  apply mutex_ok_check; [apply demo_ok|]. apply map_Forall_insert_2; [|apply map_Forall_empty].
  vm_compute. by intros [?%eq_sym|[?|?%not_elem_of_nil]%elem_of_cons]%elem_of_cons.
Qed.

(** Thread 1 runs, thread 2 is runnable and holds mutex 7. *)
Definition contend : kernel :=
  boot <| threads := {[ 1%positive := demo_thread None KT_RUN;
                        2%positive := demo_thread (Some Runq) KT_RUN ]} |>
       <| queues := {[ Runq := {| tq_list := [2%positive]; tq_size := 1 |} ]} |>
       <| mutexes := {[ 7%positive := {| km_holder := Some 2%positive |} ]} |>
       <| curthr := Some 1%positive |> <| curproc := Some 1%positive |>.

Lemma contend_ok : mutex_ok contend.
Proof.
  apply mutex_ok_check.
  - split; [check_wf|by exists 1%positive, (demo_thread None KT_RUN)|].
    refine (threads_forall contend (fun t thr => kt_wchan thr = None -> curthr contend = Some t \/
      kt_state thr = KT_NO_STATE \/ kt_state thr = KT_EXITED) _).
    vm_compute. repeat constructor; by first [discriminate|left].
  - apply map_Forall_insert_2; [|apply map_Forall_empty]. apply not_elem_of_nil.
Qed.

(** Thread 1 asks for the mutex cancellably, thread 2 hands it over, cancels thread 1 and
    goes to sleep. *)
Definition asked : kernel := after (kmutex_lock_cancellable 7 contend).
Definition handed : kernel := after (kmutex_unlock 7 asked).
Definition cancelled_late : kernel := after (sched_cancel 1 handed).
Definition back : kernel := after (sched_sleep_on (ProcWait 9) cancelled_late).

Lemma back_reached : rtc (other_step 1) asked back.
Proof.
  apply (rtc_l _ _ handed); [|apply (rtc_l _ _ cancelled_late); [|apply rtc_once]];
    (split; [vm_compute; discriminate|]).
  - apply (mstep_unlock 7). unfold handed. apply reaches_after. vm_compute. reflexivity.
  - apply (mstep_call (CallCancel 1)); [|done|].
    + destruct (threads handed !! 1%positive) as [thr|] eqn:E; [|vm_compute in E; discriminate].
      exists thr. split; [done|]. vm_compute in E. injection E as <-. discriminate.
    + change (reaches (sched_cancel 1 handed) cancelled_late). unfold cancelled_late.
      apply reaches_after. vm_compute. reflexivity.
  - apply (mstep_call (CallSleep (ProcWait 9))); [done|done|].
    change (reaches (sched_sleep_on (ProcWait 9) cancelled_late) back).
    unfold back. apply reaches_after. vm_compute. reflexivity.
Qed.

(** C32: [kmutex_lock_cancellable] can return -EINTR to a thread that holds the mutex: a
    cancellation that arrives between the hand-over and the moment the new holder runs is
    reported as an interrupted sleep, and the mutex stays locked. *)
Theorem kmutex_lock_cancellable_leak :
  exists m t k k1 k2 k3 kont, mutex_ok k /\ curthr k = Some t /\
    kmutex_lock_cancellable m k = Wait CtxSwitch k1 kont /\
    rtc (other_step t) k1 k2 /\ curthr k2 = Some t /\
    kont k2 = Ret (- EINTR) k3 /\ holder k3 m = Some (Some t).
Proof.
  destruct (kmutex_lock_cancellable 7 contend) as [| |w k1 kont|] eqn:E;
    try (vm_compute in E; discriminate).
  exists 7%positive, 1%positive, contend, k1, back, (back <| ipl := 0 |>), kont.
  assert (w = CtxSwitch) as -> by (vm_compute in E; congruence).
  assert (k1 = asked) as -> by (unfold asked; rewrite E; reflexivity).
  split_and!; [apply contend_ok|reflexivity|exact E|apply back_reached|vm_compute; reflexivity| |
    vm_compute; reflexivity].
  vm_compute in E. injection E as <-. vm_compute. reflexivity.
Qed.

(** ** The properties at concrete states *)
Module Witness.
Definition unlocked : kernel := after (kmutex_unlock 7 demo).

Lemma mutex_reachable_ok_witness :
  rtc mutex_step demo unlocked /\ holder unlocked 7 = Some (Some 3%positive) /\ mutex_ok unlocked.
Proof.
  assert (Hs : rtc mutex_step demo unlocked).
  { apply rtc_once, (mstep_unlock 7). unfold unlocked. apply reaches_after. vm_compute. reflexivity. }
  split; [exact Hs|]. split; [vm_compute; reflexivity|].
  exact (mutex_reachable_ok demo unlocked demo_mutex_ok Hs).
Defined.

Definition locking : kernel := after (kmutex_lock 7 contend).
Definition released : kernel := after (kmutex_unlock 7 locking).
Definition resumed : kernel := after (sched_sleep_on (ProcWait 9) released).

Lemma kmutex_lock_acquires_witness :
  curthr locking = Some 2%positive /\ holder locking 7 = Some (Some 2%positive) /\
  curthr resumed = Some 1%positive /\ holder resumed 7 = Some (Some 1%positive).
Proof.
  split; [vm_compute; reflexivity|]. split; [vm_compute; reflexivity|].
  split; [vm_compute; reflexivity|].
  refine (kmutex_lock_acquires contend 7 1 locking resumed contend_ok eq_refl _ _ _).
  - unfold locking. apply reaches_after. vm_compute. reflexivity.
  - apply (rtc_l _ _ released); [|apply rtc_once].
    + split; [vm_compute; discriminate|]. apply (mstep_unlock 7). unfold released.
      apply reaches_after. vm_compute. reflexivity.
    + split; [vm_compute; discriminate|]. apply (mstep_call (CallSleep (ProcWait 9))); [done|done|].
      change (reaches (sched_sleep_on (ProcWait 9) released) resumed).
      unfold resumed. apply reaches_after. vm_compute. reflexivity.
  - vm_compute. reflexivity.
Defined.

(** Threads 3, cancellably, and 4 wait for the mutex. *)
Definition two_waiters : kernel :=
  demo <| threads ::= <[3%positive := demo_thread (Some (MutexWait 7)) KT_SLEEP_CANCELLABLE]> |>
       <| threads ::= <[4%positive := demo_thread (Some (MutexWait 7)) KT_SLEEP]> |>.
Definition one_left : kernel := after (sched_cancel 3 two_waiters).

Lemma two_waiters_ok : mutex_ok two_waiters.
Proof.
  apply mutex_ok_check.
  - split; [check_wf|by exists 1%positive, (demo_thread None KT_RUN)|].
    refine (threads_forall two_waiters (fun t thr => kt_wchan thr = None ->
      curthr two_waiters = Some t \/ kt_state thr = KT_NO_STATE \/ kt_state thr = KT_EXITED) _).
    vm_compute. repeat constructor; by first [discriminate|left].
  - apply map_Forall_insert_2; [|apply map_Forall_empty].
    apply (mwf_holder _ (mok_wf _ demo_mutex_ok) 7). reflexivity.
Qed.


Lemma kmutex_unlock_spec_witness :
  exists k', kmutex_unlock 7 demo = Ret tt k' /\ holder k' 7 = Some (Some 3%positive) /\
    fifo k' (MutexWait 7) = [4%positive] /\ fifo k' Runq = [2%positive; 3%positive].
Proof.
  destruct (kmutex_unlock_spec demo 7 1 demo_mutex_ok eq_refl eq_refl)
    as (k' & Hrun & _ & _ & Hh & Hf & Hr).
  exists k'. split; [exact Hrun|]. split; [exact Hh|]. split; [exact Hf|exact Hr].
Defined.
End Witness.
