(* ===== verification/Mmobj.v ===== *)
(** * Mmobj

    Memory objects ([mm/mmobj.h]): the table of entry points every kind of
    object provides, as a class ([MmobjOps]) that the page cache, the address
    spaces and the page-fault handler are written against; the macros that find
    the bottom of a shadow chain, as parameters with laws; and the creation of
    anonymous and shadow objects ([vm/anon.c], [vm/shadow.c]). *)

From S2P Require Import Prelude Platform State.

(** [o->mmo_ops->ref(o)] and the other entry points, dispatched on the object. *)
Class MmobjOps := {
  mmo_ref : ptr -> K unit;
  mmo_put : ptr -> K unit;
  mmo_lookuppage : ptr -> Z -> Z -> K (Z * option ptr);
  mmo_fillpage : ptr -> ptr -> K Z;
  mmo_dirtypage : ptr -> ptr -> K Z;
  mmo_cleanpage : ptr -> ptr -> K Z;
}.

(** Macros of [mm/mmobj.h] and [mm/pframe.h]. *)
Class MmHeaders := {
  mmobj_bottom_obj : ptr -> mmobj -> option ptr;
  pframe_is_free : pframe -> bool;
}.

Class MmHeadersOk (H : MmHeaders) : Prop := {
  bottom_of_bottom o ob : mmo_shadowed ob = None -> mmobj_bottom_obj o ob = Some o;
  bottom_of_shadow o ob s b :
    mmo_shadowed ob = Some s -> mmo_un ob = MmoBottom b -> mmobj_bottom_obj o ob = b;
  owned_not_free pf o : pf_obj pf = Some o -> pframe_is_free pf = false;
}.

#[export] Instance weenix_mm : MmHeaders := {|
  mmobj_bottom_obj o ob :=
    match mmo_shadowed ob, mmo_un ob with
    | None, _ => Some o
    | Some _, MmoBottom b => b
    | Some _, MmoVmas _ => None
    end;
  pframe_is_free pf := match pf_obj pf with Some _ => false | None => true end;
|}.

#[export] Instance weenix_mm_ok : MmHeadersOk weenix_mm.
Proof.
  split; simpl.
  - by intros o ob ->.
  - by intros o ob s b -> ->.
  - by intros pf o ->.
Qed.

(** [pframe_is_busy] and its companions test members of [pf_flags] and the pin count. *)
Definition pframe_is_pinned (pf : pframe) : bool := 0 <? pf_pincount pf.

(** ** The list of areas of a bottom object *)
Definition mmo_vmas (ob : mmobj) : option (list ptr) :=
  match mmo_un ob with MmoVmas l => Some l | MmoBottom _ => None end.

(** [mmobj_bottom_vmas(o)]: the object whose list it is, and the list. *)
Definition mmobj_bottom_vmas `{MmHeaders} (o : ptr) : K (ptr * list ptr) :=
  ob ← deref mmobjs o;
  b ← nonnull (mmobj_bottom_obj o ob);
  bob ← deref mmobjs b;
  l ← nonnull (mmo_vmas bob);
  ret (b, l).

(** [list_insert_tail(&o->mmo_un.mmo_vmas, &vma->vma_olink)] *)
Definition olink_insert_tail (o vma : ptr) : K unit :=
  v ← deref vmareas vma;
  ob ← deref mmobjs o;
  l ← nonnull (mmo_vmas ob);
  match vma_olink v with
  | Some _ => fail ListCorrupt
  | None =>
      assign mmobjs o (fun ob => ob <| mmo_un := MmoVmas (l ++ [vma]) |>);;
      assign vmareas vma (fun v => v <| vma_olink := Some o |>)
  end.

(** [list_remove(&vma->vma_olink)]: it writes to the object whose list the area is on. *)
Definition olink_remove (vma : ptr) : K unit :=
  v ← deref vmareas vma;
  match vma_olink v with
  | None => fail ListCorrupt
  | Some o =>
      ob ← deref mmobjs o;
      l ← nonnull (mmo_vmas ob);
      assign mmobjs o (fun ob => ob <| mmo_un := MmoVmas (remove_elem vma l) |>);;
      assign vmareas vma (fun v => v <| vma_olink := None |>)
  end.

(** ** Creating objects *)
Section create.
Context `{P : Platform}.

Definition new_mmobj (ops : mmobj_ops_table) (un : mmo_union) : mmobj := {|
  mmo_ops := ops; mmo_refcount := 1; mmo_nrespages := 0; mmo_respages := [];
  mmo_un := un; mmo_shadowed := None |}.

(** [anon_create] does not check that the allocation succeeded. *)
Definition anon_create : K (option ptr) :=
  a ← slab_alloc mmobjs;
  o ← nonnull a;
  init_obj mmobjs o (new_mmobj anon_mmobj_ops (MmoVmas []));;
  ret (Some o).

Definition shadow_create : K (option ptr) :=
  a ← slab_alloc mmobjs;
  match a with
  | None => ret None
  | Some o =>
      init_obj mmobjs o (new_mmobj shadow_mmobj_ops (MmoBottom None));;
      ret (Some o)
  end.
End create.
