(* ===== verification/Vmmap.v ===== *)
(** * Vmmap

    [kernel/vm/vmmap.c]: address spaces as ordered lists of areas.  Page
    numbers and page counts are [uint32_t] and wrap around.

    The loops of the source walk a list with the successor saved before the
    body runs ([list_iterate_begin]), so that the body may unlink the current
    area or insert next to it: they are recursions on the list read at entry. *)

From S2P Require Import Prelude Platform State Mmobj.

(** ** Links *)

(** [list_remove(&vma->vma_plink)] *)
Definition plink_remove (vma : ptr) : K unit :=
  v ← deref vmareas vma;
  match vma_plink v with
  | None => fail ListCorrupt
  | Some map =>
      assign vmmaps map (fun m => m <| vmm_list ::= remove_elem vma |>);;
      assign vmareas vma (fun v => v <| vma_plink := None |>)
  end.

(** [list_insert_before(&old->vma_plink, &vma->vma_plink)] and [list_insert_tail]: the
    position is given by the areas that stay in front. *)
Definition plink_insert (map : ptr) (front back : list ptr) (vma : ptr) : K unit :=
  v ← deref vmareas vma;
  match vma_plink v with
  | Some _ => fail ListCorrupt
  | None =>
      assign vmmaps map (fun m => m <| vmm_list := front ++ vma :: back |>);;
      assign vmareas vma (fun v => v <| vma_plink := Some map |>)
  end.

Section vmmap.
Context `{P : Platform, O : MmobjOps, H : MmHeaders}.

(** Members of a fresh area: unlinked; the others are assigned by the callers. *)
Definition blank_vmarea : vmarea := {|
  vma_start := 0; vma_end := 0; vma_off := 0; vma_prot := 0; vma_flags := 0;
  vma_vmmap := None; vma_obj := None; vma_plink := None; vma_olink := None |}.

Definition vmarea_alloc : K (option ptr) :=
  a ← slab_alloc vmareas;
  match a with
  | None => ret None
  | Some vma => init_obj vmareas vma blank_vmarea;; ret (Some vma)
  end.

Definition vmarea_free (vma : ptr) : K unit := slab_free vmareas vma.

Definition vmmap_create : K (option ptr) :=
  a ← slab_alloc vmmaps;
  match a with
  | None => ret None
  | Some map => init_obj vmmaps map {| vmm_list := []; vmm_proc := None |};; ret (Some map)
  end.

(** [(flags & MAP_PRIVATE) == MAP_PRIVATE] *)
Definition is_private (flags : Z) : bool := Z.land flags MAP_PRIVATE =? MAP_PRIVATE.
Definition is_shared (flags : Z) : bool := Z.land flags MAP_SHARED =? MAP_SHARED.

(** [if (vma->vma_obj != NULL) put(vma->vma_obj)] *)
Definition put_obj (vma : ptr) : K unit :=
  v ← deref vmareas vma;
  match vma_obj v with Some o => mmo_put o | None => ret tt end.

Fixpoint destroy_loop (l : list ptr) : K unit :=
  match l with
  | [] => ret tt
  | vma :: l =>
      plink_remove vma;;
      v ← deref vmareas vma;
      (if is_private (vma_flags v) then olink_remove vma else ret tt);;
      put_obj vma;;
      vmarea_free vma;;
      destroy_loop l
  end.

Definition vmmap_destroy (map : ptr) : K unit :=
  m ← deref vmmaps map;
  destroy_loop (vmm_list m);;
  slab_free vmmaps map.

(** The areas that stay in front of a new one, and the others: the loop of [vmmap_insert]. *)
Fixpoint insert_position (l : list ptr) (start stop : Z) : K (list ptr * list ptr) :=
  match l with
  | [] => ret ([], [])
  | old :: l' =>
      v ← deref vmareas old;
      if (start <? vma_start v) && (stop <? vma_end v) then ret ([], l)
      else '(front, back) ← insert_position l' start stop; ret (old :: front, back)
  end.

Definition vmmap_insert (map newvma : ptr) : K unit :=
  m ← deref vmmaps map;
  n ← deref vmareas newvma;
  KASSERT (bool_decide (vma_vmmap n = None));;
  KASSERT (vma_start n <? vma_end n);;
  KASSERT ((ADDR_TO_PN USER_MEM_LOW <=? vma_start n) && (vma_end n <=? ADDR_TO_PN USER_MEM_HIGH));;
  assign vmareas newvma (fun n => n <| vma_vmmap := Some map |>);;
  '(front, back) ← insert_position (vmm_list m) (vma_start n) (vma_end n);
  plink_insert map front back newvma.

(** *** Searching *)

(** The gaps between consecutive areas, upwards from the area [prev]. *)
Fixpoint lohi_loop (l : list ptr) (prev : ptr) (npages : Z) : K (option Z * ptr) :=
  match l with
  | [] => ret (None, prev)
  | cur :: l =>
      if decide (prev = cur) then lohi_loop l prev npages
      else
        c ← deref vmareas cur;
        p ← deref vmareas prev;
        if npages <=? uint32 (vma_start c - vma_end p) then ret (Some (vma_end p), prev)
        else lohi_loop l cur npages
  end.

(** The same, downwards. *)
Fixpoint hilo_loop (l : list ptr) (prev : ptr) (npages : Z) : K (option Z * ptr) :=
  match l with
  | [] => ret (None, prev)
  | cur :: l =>
      if decide (prev = cur) then hilo_loop l cur npages
      else
        c ← deref vmareas cur;
        p ← deref vmareas prev;
        if npages <=? uint32 (vma_start p - vma_end c)
        then ret (Some (uint32 (vma_start p - npages)), prev)
        else hilo_loop l cur npages
  end.

Definition find_lohi (l : list ptr) (npages : Z) : K Z :=
  match l with
  | [] => ret (ADDR_TO_PN USER_MEM_LOW)
  | first :: _ =>
      f ← deref vmareas first;
      if negb (vma_start f =? ADDR_TO_PN USER_MEM_LOW) &&
         (npages <=? uint32 (vma_start f - ADDR_TO_PN USER_MEM_LOW))
      then ret (ADDR_TO_PN USER_MEM_LOW)
      else
        '(found, prev) ← lohi_loop l first npages;
        match found with
        | Some r => ret (int32 r)
        | None =>
            p ← deref vmareas prev;
            if npages <=? uint32 (ADDR_TO_PN USER_MEM_HIGH - vma_end p)
            then ret (int32 (vma_end p))
            else ret (-1)
        end
  end.

Definition find_hilo (l : list ptr) (npages : Z) : K Z :=
  match last l with
  | None => ret (int32 (ADDR_TO_PN USER_MEM_HIGH - npages))
  | Some top =>
      t ← deref vmareas top;
      if npages <=? uint32 (ADDR_TO_PN USER_MEM_HIGH - vma_end t)
      then ret (int32 (ADDR_TO_PN USER_MEM_HIGH - npages))
      else
        '(found, prev) ← hilo_loop (reverse l) top npages;
        match found with
        | Some r => ret (int32 r)
        | None =>
            p ← deref vmareas prev;
            if (npages <=? vma_start p) &&
               (ADDR_TO_PN USER_MEM_LOW <=? uint32 (vma_start p - npages))
            then ret (int32 (vma_start p - npages))
            else ret (-1)
        end
  end.

Definition vmmap_find_range (map : ptr) (npages dir : Z) : K Z :=
  m ← deref vmmaps map;
  KASSERT (0 <? npages);;
  if dir =? VMMAP_DIR_LOHI then find_lohi (vmm_list m) npages
  else if dir =? VMMAP_DIR_HILO then find_hilo (vmm_list m) npages
  else ret (-1).

Fixpoint lookup_loop (l : list ptr) (vfn : Z) : K (option ptr) :=
  match l with
  | [] => ret None
  | vma :: l =>
      v ← deref vmareas vma;
      if (vma_start v <=? vfn) && (vfn <? vma_end v) then ret (Some vma) else lookup_loop l vfn
  end.

Definition vmmap_lookup (map : ptr) (vfn : Z) : K (option ptr) :=
  m ← deref vmmaps map; lookup_loop (vmm_list m) vfn.

Fixpoint range_empty_loop (l : list ptr) (startvfn endvfn : Z) : K Z :=
  match l with
  | [] => ret 1
  | vma :: l =>
      v ← deref vmareas vma;
      if (vma_end v <=? startvfn) || (endvfn <=? vma_start v)
      then range_empty_loop l startvfn endvfn else ret 0
  end.

Definition vmmap_is_range_empty (map : ptr) (startvfn npages : Z) : K Z :=
  let endvfn := uint32 (startvfn + npages) in
  KASSERT ((startvfn <? endvfn) && (ADDR_TO_PN USER_MEM_LOW <=? startvfn) &&
           (endvfn <=? ADDR_TO_PN USER_MEM_HIGH));;
  m ← deref vmmaps map;
  range_empty_loop (vmm_list m) startvfn endvfn.

(** *** Cloning *)
Fixpoint clone_loop (l : list ptr) (new_map : ptr) : K (option ptr) :=
  match l with
  | [] => ret (Some new_map)
  | vma :: l =>
      a ← vmarea_alloc;
      match a with
      | None => vmmap_destroy new_map;; ret None
      | Some new_vma =>
          v ← deref vmareas vma;
          assign vmareas new_vma (fun n => n
            <| vma_start := vma_start v |> <| vma_end := vma_end v |> <| vma_off := vma_off v |>
            <| vma_prot := vma_prot v |> <| vma_flags := vma_flags v |>
            <| vma_vmmap := Some new_map |> <| vma_obj := None |>
            <| vma_plink := None |> <| vma_olink := None |>);;
          m ← deref vmmaps new_map;
          plink_insert new_map (vmm_list m) [] new_vma;;
          clone_loop l new_map
      end
  end.

Definition vmmap_clone (map : ptr) : K (option ptr) :=
  a ← vmmap_create;
  match a with
  | None => ret None
  | Some new_map => m ← deref vmmaps map; clone_loop (vmm_list m) new_map
  end.

(** *** Unmapping *)

(** [pt_unmap_range(curproc->p_pagedir, PN_TO_ADDR(lo), PN_TO_ADDR(hi))] *)
Definition unmap_pages (lo hi : Z) : K unit :=
  c ← gets curproc;
  cp ← nonnull c;
  p ← deref procs cp;
  pd ← nonnull (p_pagedir p);
  mmu_do (PtUnmapRange pd (PN_TO_ADDR lo) (PN_TO_ADDR hi)).

(** The two shadow objects of a private area that is split. *)
Definition split_private (vma new_vma : ptr) : K bool :=
  s1 ← shadow_create;
  match s1 with
  | None => vmarea_free new_vma;; ret false
  | Some shadow1 =>
      s2 ← shadow_create;
      match s2 with
      | None => vmarea_free new_vma;; ret false
      | Some shadow2 =>
          v ← deref vmareas vma;
          assign mmobjs shadow1 (fun o => o <| mmo_shadowed := vma_obj v |>);;
          assign mmobjs shadow2 (fun o => o <| mmo_shadowed := vma_obj v |>);;
          assign vmareas vma (fun v => v <| vma_obj := Some shadow1 |>);;
          assign vmareas new_vma (fun v => v <| vma_obj := Some shadow2 |>);;
          temp ← nonnull (vma_obj v);
          t ← deref mmobjs temp;
          assign mmobjs shadow1 (fun o => o <| mmo_un := MmoBottom (mmobj_bottom_obj temp t) |>);;
          assign mmobjs shadow2 (fun o => o <| mmo_un := MmoBottom (mmobj_bottom_obj temp t) |>);;
          '(b1, _) ← mmobj_bottom_vmas shadow1;
          olink_insert_tail b1 vma;;
          '(b2, _) ← mmobj_bottom_vmas shadow2;
          olink_insert_tail b2 new_vma;;
          mmo_ref temp;;
          ret true
      end
  end.

Definition split_shared (vma new_vma : ptr) : K unit :=
  v ← deref vmareas vma;
  assign vmareas new_vma (fun n => n <| vma_obj := vma_obj v |>);;
  o ← nonnull (vma_obj v);
  mmo_ref o.

(** Case 1: the region lies inside the area. *)
Definition remove_split (map vma : ptr) (startvfn endvfn : Z) : K bool :=
  a ← vmarea_alloc;
  match a with
  | None => ret false
  | Some new_vma =>
      v ← deref vmareas vma;
      assign vmareas vma (fun v => v <| vma_end := startvfn |>);;
      assign vmareas new_vma (fun n => n
        <| vma_start := endvfn |> <| vma_end := vma_end v |>
        <| vma_off := uint32 (vma_off v + endvfn - vma_start v) |>
        <| vma_prot := vma_prot v |> <| vma_flags := vma_flags v |> <| vma_vmmap := None |>);;
      ok ← (if is_private (vma_flags v) then split_private vma new_vma
            else (if is_shared (vma_flags v) then split_shared vma new_vma else ret tt);; ret true);
      if ok then
        vmmap_insert map new_vma;;
        unmap_pages startvfn endvfn;;
        ret true
      else ret false
  end.

(** Case 4: the region covers the area. *)
Definition remove_whole (vma : ptr) : K unit :=
  v ← deref vmareas vma;
  put_obj vma;;
  plink_remove vma;;
  (if is_private (vma_flags v) then olink_remove vma else ret tt);;
  vmarea_free vma;;
  unmap_pages (vma_start v) (vma_end v).

Fixpoint remove_loop (map : ptr) (l : list ptr) (startvfn endvfn : Z) : K Z :=
  match l with
  | [] => ret 0
  | vma :: l =>
      v ← deref vmareas vma;
      if (vma_start v <? startvfn) && (endvfn <? vma_end v) then
        ok ← remove_split map vma startvfn endvfn;
        if ok : bool then remove_loop map l startvfn endvfn else ret (-1)
      else if (vma_start v <? startvfn) && (startvfn <? vma_end v) && (vma_end v <=? endvfn) then
        assign vmareas vma (fun v => v <| vma_end := startvfn |>);;
        unmap_pages startvfn (vma_end v);;
        remove_loop map l startvfn endvfn
      else if (startvfn <=? vma_start v) && (vma_start v <? endvfn) && (endvfn <? vma_end v) then
        assign vmareas vma (fun v => v
          <| vma_off := uint32 (vma_off v + (endvfn - vma_start v)) |>
          <| vma_start := endvfn |>);;
        unmap_pages (vma_start v) endvfn;;
        remove_loop map l startvfn endvfn
      else if (startvfn <=? vma_start v) && (vma_end v <=? endvfn) then
        remove_whole vma;;
        remove_loop map l startvfn endvfn
      else remove_loop map l startvfn endvfn
  end.

Definition vmmap_remove (map : ptr) (lopage npages : Z) : K Z :=
  m ← deref vmmaps map;
  remove_loop map (vmm_list m) lopage (uint32 (lopage + npages)).

(** *** Mapping *)

(** [file->vn_ops->mmap(file, vma, &obj)] belongs to the file systems. *)
Context (vn_mmap : ptr -> ptr -> K (Z * option ptr)).

(** The start of the mapping: the region asked for, emptied, or one that is free. *)
Definition map_start (map : ptr) (lopage npages dir : Z) : K Z :=
  if negb (lopage =? 0) then
    e ← vmmap_is_range_empty map lopage npages;
    (if e =? 0 then _ ← vmmap_remove map lopage npages; ret tt else ret tt);;
    ret lopage
  else vmmap_find_range map npages dir.

(** The object to map, [inr] with the error when there is none. *)
Definition map_object (file : option ptr) (vma : ptr) : K (Z * option ptr) :=
  match file with
  | None => o ← anon_create; ret (0, o)
  | Some vn => vn_mmap vn vma
  end.

(** [MAP_PRIVATE] puts a shadow object between the area and the object. *)
Definition map_attach (vma o : ptr) (flags : Z) : K bool :=
  if is_private flags then
    s ← shadow_create;
    match s with
    | None => mmo_put o;; vmarea_free vma;; ret false
    | Some shadow =>
        assign mmobjs shadow (fun ob => ob <| mmo_shadowed := Some o |>);;
        assign vmareas vma (fun v => v <| vma_obj := Some shadow |>);;
        assign mmobjs shadow (fun ob => ob <| mmo_un := MmoBottom (Some o) |>);;
        olink_insert_tail o vma;;
        ret true
    end
  else
    (if is_shared flags then assign vmareas vma (fun v => v <| vma_obj := Some o |>) else ret tt);;
    ret true.

Definition vmmap_map (map : ptr) (file : option ptr) (lopage npages prot flags off dir : Z)
  : K (Z * option ptr) :=
  _ ← deref vmmaps map;
  KASSERT (0 <? npages);;
  KASSERT (Z.land (Z.lnot (Z.lor (Z.lor (Z.lor PROT_NONE PROT_READ) PROT_WRITE) PROT_EXEC)) prot =? 0);;
  KASSERT (negb (Z.land MAP_SHARED flags =? 0) || negb (Z.land MAP_PRIVATE flags =? 0));;
  KASSERT ((lopage =? 0) || (ADDR_TO_PN USER_MEM_LOW <=? lopage));;
  KASSERT ((lopage =? 0) || (uint32 (lopage + npages) <=? ADDR_TO_PN USER_MEM_HIGH));;
  KASSERT (PAGE_ALIGNED off);;
  start ← map_start map lopage npages dir;
  if start <? 0 then ret (-1, None)
  else
    a ← vmarea_alloc;
    match a with
    | None => ret (-1, None)
    | Some vma =>
        assign vmareas vma (fun v => v
          <| vma_start := start |> <| vma_end := uint32 (start + npages) |>
          <| vma_off := ADDR_TO_PN (uint32 off) |> <| vma_prot := prot |> <| vma_flags := flags |>);;
        '(retval, obj) ← map_object file vma;
        if retval <? 0 then vmarea_free vma;; ret (retval, None)
        else
          o ← nonnull obj;
          ob ← deref mmobjs o;
          (if mmo_refcount ob =? 0 then mmo_ref o else ret tt);;
          ok ← map_attach vma o flags;
          if ok : bool then
            vmmap_insert map vma;;
            ret (match file with None => if lopage =? 0 then start else 0 | Some _ => retval end,
                 Some vma)
          else ret (-1, None)
    end.
End vmmap.

(** ** Invariant

    The areas of an address space, read from memory. *)
Definition areas (k : kernel) (l : list ptr) (vs : list vmarea) : Prop :=
  Forall2 (fun a v => vmareas k !! a = Some v) l vs.

Definition covers (v : vmarea) (vfn : Z) : Prop := vma_start v <= vfn < vma_end v.
#[export] Instance covers_dec v vfn : Decision (covers v vfn).
Proof. unfold covers. apply _. Defined.

(** [npages] pages from [start] that no area covers. *)
Definition free_range (vs : list vmarea) (start npages : Z) : Prop :=
  Forall (fun v => vma_end v <= start \/ start + npages <= vma_start v) vs.

Section invariant.
Context `{P : Platform}.

Definition user_area (v : vmarea) : Prop :=
  user_lo <= vma_start v /\ vma_start v < vma_end v /\ vma_end v <= user_hi.

(** Areas are non-empty, lie in user memory, do not overlap, and are in ascending order. *)
Definition sorted_areas (vs : list vmarea) : Prop :=
  Forall user_area vs /\ StronglySorted (fun a b => vma_end a <= vma_start b) vs.

Record map_wf (k : kernel) (map : ptr) (l : list ptr) (vs : list vmarea) : Prop := {
  mw_map : exists m, vmmaps k !! map = Some m /\ vmm_list m = l;
  mw_areas : areas k l vs;
  mw_nodup : NoDup l;
  mw_links : Forall (fun v => vma_plink v = Some map /\ vma_vmmap v = Some map) vs;
  mw_sorted : sorted_areas vs;
}.

Definition vmmap_wf (k : kernel) (map : ptr) : Prop := exists l vs, map_wf k map l vs.

(** The area that maps a page. *)
Definition mapped (k : kernel) (map : ptr) (vfn : Z) (a : ptr) : Prop :=
  exists m v, vmmaps k !! map = Some m /\ a ∈ vmm_list m /\ vmareas k !! a = Some v /\ covers v vfn.

Lemma sorted_cons v vs :
  sorted_areas (v :: vs) <->
  user_area v /\ Forall (fun b => vma_end v <= vma_start b) vs /\ sorted_areas vs.
Proof.
  unfold sorted_areas. rewrite Forall_cons. split.
  - intros [[? ?] Hs]. inversion Hs; subst. done.
  - intros (? & ? & ? & ?). split; [done|]. by constructor.
Qed.

Lemma sorted_app vs1 vs2 :
  sorted_areas (vs1 ++ vs2) <->
  sorted_areas vs1 /\ sorted_areas vs2 /\
  Forall (fun a => Forall (fun b => vma_end a <= vma_start b) vs2) vs1.
Proof.
  induction vs1 as [|v vs1 IH]; simpl.
  - split; [intros H; split_and!; try done; by repeat constructor|naive_solver].
  - rewrite !sorted_cons, IH, Forall_app, Forall_cons. naive_solver.
Qed.

(** Page ranges. *)
Lemma free_range_covers vs start npages : 0 < npages -> sorted_areas vs ->
  free_range vs start npages <->
  Forall (fun v => forall x, start <= x < start + npages -> ~ covers v x) vs.
Proof.
  intros Hn [Hu _]. unfold free_range. rewrite !Forall_forall. split.
  - intros HF v Hv x Hx. destruct (HF v Hv); unfold covers; lia.
  - intros HF v Hv. rewrite Forall_forall in Hu. destruct (Hu v Hv) as (? & ? & ?).
    destruct (decide (vma_end v <= start)); [by left|right].
    destruct (decide (start + npages <= vma_start v)); [done|exfalso].
    apply (HF v Hv (Z.max start (vma_start v))); [lia|unfold covers; lia].
Qed.

(** Everything below page [b] is to the left of an area that starts at or after [b]. *)
Lemma free_above vs b start npages :
  Forall (fun v => b <= vma_start v) vs -> start + npages <= b -> free_range vs start npages.
Proof. intros HF Hb. eapply Forall_impl; [exact HF|]. simpl. intros; lia. Qed.

Lemma free_below vs b start npages :
  Forall (fun v => vma_end v <= b) vs -> b <= start -> free_range vs start npages.
Proof. intros HF Hb. eapply Forall_impl; [exact HF|]. simpl. intros; lia. Qed.
End invariant.

Section search.
Context `{PlatformOk}.
Context {k : kernel}.

Lemma user_area_bounds v : user_area v -> 0 < vma_start v < 2 ^ 20 /\ 0 < vma_end v < 2 ^ 20.
Proof. intros (? & ? & ?). pose proof user_pages. lia. Qed.

Lemma lookup_loop_run l vs vfn :
  areas k l vs -> NoDup l -> sorted_areas vs ->
  exists res, lookup_loop l vfn k = Ret res k /\
    forall a, res = Some a <-> a ∈ l /\ exists v, vmareas k !! a = Some v /\ covers v vfn.
Proof.
  intros Ha. induction Ha as [|a v l vs Hav Ha IH]; intros Hnd Hs.
  { exists None. split; [done|]. intros a. split; [done|]. by intros [?%not_elem_of_nil _]. }
  apply NoDup_cons in Hnd as [Hni Hnd]. apply sorted_cons in Hs as (Hu & Hlt & Hs).
  destruct (IH Hnd Hs) as (res & Hrun & Hres). simpl.
  rewrite (bind_deref vmareas _ _ _ _ Hav).
  destruct ((vma_start v <=? vfn) && (vfn <? vma_end v)) eqn:Hc.
  - to_prop. exists (Some a). split; [done|]. intros a'. split.
    + intros [= <-]. split; [by left|]. exists v. split; [done|]. unfold covers; lia.
    + intros [[->|Hin]%elem_of_cons (v' & Hv' & Hc')]; [done|exfalso].
      destruct (Forall2_elem_l _ _ _ _ Ha Hin) as (v2 & Hin2 & Hv2).
      simplify_eq. rewrite Forall_forall in Hlt. pose proof (Hlt _ Hin2). unfold covers in Hc'. lia.
  - exists res. split; [done|]. intros a'. rewrite Hres. split.
    + intros [? ?]. split; [by right|done].
    + intros [[->|Hin]%elem_of_cons (v' & Hv' & Hc')]; [exfalso|eauto].
      simplify_eq. apply andb_false_iff in Hc as [Hc|Hc]; to_prop; unfold covers in Hc'; lia.
Qed.

Lemma range_empty_run l vs s e :
  areas k l vs ->
  range_empty_loop l s e k =
    Ret (if decide (free_range vs s (e - s)) then 1 else 0) k.
Proof.
  unfold free_range. intros Ha. induction Ha as [|a v l vs Hav Ha IH]; [done|]. simpl.
  rewrite (bind_deref vmareas _ _ _ _ Hav).
  destruct ((vma_end v <=? s) || (e <=? vma_start v)) eqn:Hc.
  - rewrite IH. apply orb_true_iff in Hc as [Hc|Hc]; to_prop; apply f_equal2; try done;
      repeat case_decide; rewrite ?Forall_cons in *; naive_solver lia.
  - to_prop. rewrite decide_False; [done|]. rewrite Forall_cons. intros [? _]. lia.
Qed.

(** Lowest and highest ranges of [n] free pages in user memory. *)
Definition fits (vs : list vmarea) (n r : Z) : Prop :=
  user_lo <= r /\ r + n <= user_hi /\ free_range vs r n.
Definition lowest_fit (vs : list vmarea) (n r : Z) : Prop :=
  fits vs n r /\ forall r', r' < r -> ~ fits vs n r'.
Definition highest_fit (vs : list vmarea) (n r : Z) : Prop :=
  fits vs n r /\ forall r', r < r' -> ~ fits vs n r'.

(** An area in the way. *)
Lemma blocked v vs n r :
  v ∈ vs -> vma_start v < r + n -> r < vma_end v -> ~ free_range vs r n.
Proof.
  intros Hin H1 H2 HF. unfold free_range in HF. rewrite Forall_forall in HF.
  destruct (HF v Hin); lia.
Qed.

Lemma free_range_cons v vs r n :
  free_range (v :: vs) r n <-> (vma_end v <= r \/ r + n <= vma_start v) /\ free_range vs r n.
Proof. unfold free_range. by rewrite Forall_cons. Qed.

Section gaps.
Context (n : Z).
Hypothesis Hn : 0 < n < 2 ^ 32.

Lemma lohi_run l vs a p :
  vmareas k !! a = Some p -> areas k l vs -> NoDup (a :: l) -> sorted_areas (p :: vs) ->
  exists found prev, lohi_loop l a n k = Ret (found, prev) k /\
    match found with
    | Some r => vma_end p <= r /\ r + n <= user_hi /\ free_range vs r n /\
        forall r', vma_end p <= r' < r -> ~ free_range vs r' n
    | None => exists v, vmareas k !! prev = Some v /\ user_area v /\ vma_end p <= vma_end v /\
        Forall (fun b => vma_end b <= vma_end v) vs /\
        forall r', vma_end p <= r' < vma_end v -> ~ free_range vs r' n
    end.
Proof.
  intros Hp Ha. revert a p Hp. induction Ha as [|c cv l vs Hc Ha IH]; intros a p Hp Hnd Hs.
  { exists None, a. split; [done|]. exists p. apply sorted_cons in Hs as (Hu & _).
    split_and!; try done. intros; lia. }
  apply NoDup_cons in Hnd as [Hni Hnd]. apply sorted_cons in Hs as (Hu & Hlt & Hs). simpl.
  rewrite decide_False by set_solver.
  rewrite (bind_deref vmareas _ _ _ _ Hc), (bind_deref vmareas _ _ _ _ Hp).
  pose proof Hs as (Huc & Hltc & _)%sorted_cons.
  pose proof (user_area_bounds _ Hu) as Hbp. pose proof (user_area_bounds _ Huc) as Hbc.
  apply Forall_cons in Hlt as [Hpc Hlt].
  rewrite uint32_small by lia.
  destruct (Z.leb_spec n (vma_start cv - vma_end p)) as [Hgap|Hgap].
  - exists (Some (vma_end p)), a. split; [done|]. destruct Huc as (? & ? & ?).
    split_and!; [lia|lia| |intros; lia]. apply free_range_cons. split; [lia|].
    eapply free_above; [exact Hltc|lia].
  - destruct (IH c cv Hc Hnd Hs) as (found & prev & Hrun & Hres). exists found, prev.
    split; [done|]. destruct Huc as (? & ? & ?). destruct found as [r|].
    + destruct Hres as (? & ? & Hfree & Hlow). split_and!; [lia|lia| |].
      * apply free_range_cons. split; [by left|done].
      * intros r' Hr'. destruct (decide (r' < vma_end cv)).
        -- apply (blocked cv); [by left|lia|lia].
        -- rewrite free_range_cons. intros [_ ?]. by apply (Hlow r'); [lia|].
    + destruct Hres as (v & ? & ? & ? & HF & Hlow). exists v. split_and!; try done; [lia|by apply Forall_cons|].
      intros r' Hr'. destruct (decide (r' < vma_end cv)).
      * apply (blocked cv); [by left|lia|lia].
      * rewrite free_range_cons. intros [_ ?]. by apply (Hlow r'); [lia|].
Qed.

Lemma find_lohi_run l vs :
  areas k l vs -> NoDup l -> sorted_areas vs -> vs <> [] \/ n <= user_hi - user_lo ->
  exists r, find_lohi l n k = Ret r k /\
    (lowest_fit vs n r \/ r = -1 /\ forall r', ~ fits vs n r').
Proof.
  intros Ha Hnd Hs Hne. pose proof user_pages as Hup.
  destruct Ha as [|a v l vs Hav Ha]; simpl.
  { exists user_lo. split; [done|]. left. destruct Hne as [|Hne]; [done|].
    split; [split_and!; [lia|lia|constructor]|]. intros r' ? (? & _). lia. }
  rewrite (bind_deref vmareas _ _ _ _ Hav). fold user_lo. fold user_hi.
  pose proof Hs as (Hu & Hlt & _)%sorted_cons. pose proof (user_area_bounds _ Hu) as Hb.
  destruct Hu as (Hu1 & Hu2 & Hu3). rewrite uint32_small by lia.
  destruct (negb (vma_start v =? user_lo) && (n <=? vma_start v - user_lo)) eqn:Hc.
  - to_prop. exists user_lo. split; [done|]. left. split.
    + split_and!; [lia|lia|]. apply free_range_cons. split; [lia|].
      eapply free_above; [exact Hlt|lia].
    + intros r' ? (? & _). lia.
  - assert (Hfirst : forall r', user_lo <= r' < vma_end v -> ~ free_range (v :: vs) r' n).
    { intros r' Hr'. apply (blocked v); [by left| |lia].
      apply andb_false_iff in Hc as [Hc|Hc]; to_prop; lia. }
    rewrite decide_True by done.
    destruct (lohi_run l vs a v Hav Ha Hnd Hs) as (found & prev & Hrun & Hres).
    rewrite (bind_ret _ _ _ _ _ Hrun). destruct found as [r|].
    + destruct Hres as (? & ? & Hfree & Hlow). exists r.
      rewrite int32_small by lia. split; [done|]. left. split.
      * split_and!; [lia|lia|]. apply free_range_cons. split; [by left|done].
      * intros r' ? (? & ? & Hf). destruct (decide (r' < vma_end v)).
        -- by apply (Hfirst r').
        -- apply free_range_cons in Hf as [_ Hf]. by apply (Hlow r'); [lia|].
    + destruct Hres as (w & Hw & Huw & Hle & HF & Hlow).
      rewrite (bind_deref vmareas _ _ _ _ Hw). pose proof (user_area_bounds _ Huw) as Hbw.
      destruct Huw as (? & ? & ?). rewrite uint32_small by lia.
      assert (Hbelow : forall r', user_lo <= r' < vma_end w -> ~ free_range (v :: vs) r' n).
      { intros r' ?. destruct (decide (r' < vma_end v)); [apply Hfirst; lia|].
        intros [_ Hf]%free_range_cons. by apply (Hlow r'); [lia|]. }
      destruct (Z.leb_spec n (user_hi - vma_end w)) as [Hfit|Hfit].
      * exists (vma_end w). rewrite int32_small by lia. split; [done|]. left. split.
        -- split_and!; [lia|lia|]. apply (free_below _ (vma_end w)); [by apply Forall_cons|lia].
        -- intros r' ? (? & ? & Hf). by apply (Hbelow r').
      * exists (-1). split; [done|]. right. split; [done|]. intros r' (? & ? & Hf).
        destruct (decide (r' < vma_end w)); [by apply (Hbelow r')|lia].
Qed.

(** Downwards: the areas still to visit end before the previous one starts. *)
Definition descending (vs : list vmarea) : Prop :=
  Forall user_area vs /\ StronglySorted (fun a b => vma_end b <= vma_start a) vs.

Lemma descending_cons v vs :
  descending (v :: vs) <->
  user_area v /\ Forall (fun b => vma_end b <= vma_start v) vs /\ descending vs.
Proof.
  unfold descending. rewrite Forall_cons. split.
  - intros [[? ?] Hs]. inversion Hs; subst. done.
  - intros (? & ? & ? & ?). split; [done|]. by constructor.
Qed.

Lemma descending_reverse vs : sorted_areas vs -> descending (reverse vs).
Proof.
  induction vs as [|v vs IH] using rev_ind; [by repeat constructor|].
  intros (Hs & Hv & Hlt)%sorted_app. apply sorted_cons in Hv as (Hu & _ & _).
  rewrite reverse_snoc. apply descending_cons. split_and!; [done| |by apply IH].
  rewrite Forall_forall in Hlt |- *. intros x Hx. rewrite elem_of_reverse in Hx.
  pose proof (Hlt x Hx) as HF. by apply Forall_cons in HF as [? _].
Qed.

Lemma hilo_run l vs a p :
  vmareas k !! a = Some p -> areas k l vs -> NoDup (a :: l) -> descending (p :: vs) ->
  exists found prev, hilo_loop l a n k = Ret (found, prev) k /\
    match found with
    | Some r => user_lo <= r /\ r + n <= vma_start p /\ free_range vs r n /\
        forall r', r < r' -> r' + n <= vma_start p -> ~ free_range vs r' n
    | None => exists v, vmareas k !! prev = Some v /\ user_area v /\ vma_start v <= vma_start p /\
        Forall (fun b => vma_start v <= vma_start b) vs /\
        forall r', vma_start v < r' + n -> r' + n <= vma_start p -> ~ free_range vs r' n
    end.
Proof.
  intros Hp Ha. revert a p Hp. induction Ha as [|c cv l vs Hc Ha IH]; intros a p Hp Hnd Hs.
  { exists None, a. split; [done|]. exists p. apply descending_cons in Hs as (Hu & _).
    split_and!; try done. intros; lia. }
  apply NoDup_cons in Hnd as [Hni Hnd]. apply descending_cons in Hs as (Hu & Hlt & Hs). simpl.
  rewrite decide_False by set_solver.
  rewrite (bind_deref vmareas _ _ _ _ Hc), (bind_deref vmareas _ _ _ _ Hp).
  pose proof Hs as (Huc & Hltc & _)%descending_cons.
  pose proof (user_area_bounds _ Hu) as Hbp. pose proof (user_area_bounds _ Huc) as Hbc.
  apply Forall_cons in Hlt as [Hpc Hlt].
  rewrite (uint32_small (vma_start p - vma_end cv)) by lia. destruct Huc as (? & ? & ?).
  destruct (Z.leb_spec n (vma_start p - vma_end cv)) as [Hgap|Hgap].
  - exists (Some (uint32 (vma_start p - n))), a. rewrite uint32_small by lia. split; [done|].
    split_and!; [lia|lia| |intros; lia]. apply free_range_cons. split; [lia|].
    eapply free_below; [exact Hltc|lia].
  - destruct (IH c cv Hc Hnd Hs) as (found & prev & Hrun & Hres). exists found, prev.
    split; [done|]. destruct found as [r|].
    + destruct Hres as (? & ? & Hfree & Hhigh). split_and!; [lia|lia| |].
      * apply free_range_cons. split; [by right|done].
      * intros r' Hr' Hr''. destruct (decide (vma_start cv < r' + n)).
        -- apply (blocked cv); [by left|lia|lia].
        -- rewrite free_range_cons. intros [_ ?]. by apply (Hhigh r'); [lia|lia|].
    + destruct Hres as (v & ? & ? & ? & HF & Hhigh). exists v.
      split_and!; try done; [lia|by apply Forall_cons|].
      intros r' Hr' Hr''. destruct (decide (vma_start cv < r' + n)).
      * apply (blocked cv); [by left|lia|lia].
      * rewrite free_range_cons. intros [_ ?]. by apply (Hhigh r'); [lia|lia|].
Qed.

Lemma free_range_reverse vs r : free_range (reverse vs) r n <-> free_range vs r n.
Proof. unfold free_range. by rewrite Forall_reverse. Qed.

Lemma find_hilo_run l vs :
  areas k l vs -> NoDup l -> sorted_areas vs -> vs <> [] \/ n <= user_hi - user_lo ->
  exists r, find_hilo l n k = Ret r k /\
    (highest_fit vs n r \/ r = -1 /\ forall r', ~ fits vs n r').
Proof.
  intros Ha Hnd Hs Hne. pose proof user_pages as Hup. unfold find_hilo. fold user_lo. fold user_hi.
  destruct (last l) as [top|] eqn:Hlast.
  2: { apply last_None in Hlast as ->. inversion Ha; subst. exists (user_hi - n).
       destruct Hne as [|Hne]; [done|]. rewrite int32_small by lia. split; [done|]. left.
       split; [split_and!; [lia|lia|constructor]|]. intros r' ? (_ & ? & _). lia. }
  apply last_snoc_inv in Hlast as [l' ->].
  apply Forall2_app_inv_l in Ha as (vs' & tl & Ha' & Htl & ->).
  apply Forall2_cons_inv_l in Htl as (t & tl' & Ht & Htl & ->). inversion Htl; subst. clear Htl.
  rewrite (bind_deref vmareas _ _ _ _ Ht).
  pose proof (descending_reverse _ Hs) as Hd. rewrite reverse_snoc in Hd.
  pose proof Hd as (Hu & Hlt & _)%descending_cons. pose proof (user_area_bounds _ Hu) as Hb.
  destruct Hu as (Hu1 & Hu2 & Hu3). rewrite (uint32_small (user_hi - vma_end t)) by lia.
  assert (Hfr : forall r, free_range (vs' ++ [t]) r n <->
    (vma_end t <= r \/ r + n <= vma_start t) /\ free_range (reverse vs') r n).
  { intros r. by rewrite <- (free_range_reverse (vs' ++ [t])), reverse_snoc, free_range_cons. }
  assert (Ha2 : areas k (reverse l') (reverse vs')) by (by apply Forall2_reverse).
  assert (Hnd2 : NoDup (top :: reverse l')).
  { rewrite <- reverse_snoc, reverse_Permutation. done. }
  rewrite reverse_snoc. simpl. rewrite decide_True by done.
  destruct (Z.leb_spec n (user_hi - vma_end t)) as [Hgap|Hgap].
  - exists (user_hi - n). rewrite int32_small by lia. split; [done|]. left. split.
    + split_and!; [lia|lia|]. apply Hfr. split; [lia|]. eapply free_below; [exact Hlt|lia].
    + intros r' ? (_ & ? & _). lia.
  - assert (Htop : forall r', r' + n <= user_hi -> vma_start t < r' + n ->
      ~ free_range (vs' ++ [t]) r' n).
    { intros r' Hr' Hr''. rewrite Hfr. intros [? _]. lia. }
    destruct (hilo_run (reverse l') (reverse vs') top t Ht Ha2 Hnd2 Hd) as (found & prev & Hrun & Hres).
    rewrite (bind_ret _ _ _ _ _ Hrun). destruct found as [r|].
    + destruct Hres as (? & ? & Hfree & Hhigh). exists r. rewrite int32_small by lia.
      split; [done|]. left. split.
      * split_and!; [lia|lia|]. apply Hfr. split; [by right|done].
      * intros r' ? (? & ? & Hf). destruct (decide (vma_start t < r' + n)).
        -- by apply (Htop r').
        -- apply Hfr in Hf as [_ Hf]. by apply (Hhigh r'); [lia|lia|].
    + destruct Hres as (w & Hw & Huw & Hle & HF & Hhigh).
      rewrite (bind_deref vmareas _ _ _ _ Hw). pose proof (user_area_bounds _ Huw) as Hbw.
      destruct Huw as (? & ? & ?).
      assert (Habove : forall r', r' + n <= user_hi -> vma_start w < r' + n ->
        ~ free_range (vs' ++ [t]) r' n).
      { intros r' ? ? Hf. destruct (decide (vma_start t < r' + n)); [by apply (Htop r')|].
        apply Hfr in Hf as [_ Hf]. by apply (Hhigh r'); [lia|lia|]. }
      destruct ((n <=? vma_start w) && (user_lo <=? uint32 (vma_start w - n))) eqn:Hc.
      * to_prop. rewrite uint32_small in * by lia. exists (vma_start w - n).
        rewrite int32_small by lia. split; [done|]. left. split.
        -- split_and!; [lia|lia|]. apply Hfr. split; [lia|].
           apply (free_above _ (vma_start w)); [exact HF|lia].
        -- intros r' ? (? & ? & Hf). by apply (Habove r'); [lia|lia|].
      * exists (-1). split; [done|]. right. split; [done|]. intros r' (? & ? & Hf).
        destruct (decide (vma_start w < r' + n)); [by apply (Habove r')|].
        apply andb_false_iff in Hc as [Hc|Hc]; to_prop; [lia|].
        rewrite uint32_small in Hc by lia. lia.
Qed.
End gaps.
End search.

(** ** Inserting *)
Section inserting.
Context `{PlatformOk}.

Lemma map_wf_fresh k map l vs a v :
  map_wf k map l vs -> vmareas k !! a = Some v -> vma_plink v = None -> a ∉ l.
Proof.
  intros Hwf Ha Hn Hin. destruct (Forall2_elem_l _ _ _ _ (mw_areas _ _ _ _ Hwf) Hin) as (v' & Hv' & ?).
  pose proof (mw_links _ _ _ _ Hwf) as HF. rewrite Forall_forall in HF. destruct (HF v' Hv'). congruence.
Qed.

Lemma areas_insert_ne k l vs a v : a ∉ l -> areas k l vs ->
  Forall2 (fun b w => <[a := v]> (vmareas k) !! b = Some w) l vs.
Proof.
  intros Hni Ha. induction Ha as [|b w l vs Hb Ha IH]; constructor.
  - rewrite lookup_insert_ne; [done|]. set_solver.
  - apply IH. set_solver.
Qed.

(** The list splits where the new area belongs. *)
Lemma insert_position_run k l vs s e :
  areas k l vs -> sorted_areas vs -> s < e -> free_range vs s (e - s) ->
  exists front back vf vb, insert_position l s e k = Ret (front, back) k /\
    l = front ++ back /\ vs = vf ++ vb /\ areas k front vf /\ areas k back vb /\
    Forall (fun v => vma_end v <= s) vf /\ Forall (fun v => e <= vma_start v) vb.
Proof.
  intros Ha. induction Ha as [|a v l vs Hav Ha IH]; intros Hs Hlt Hfree.
  { exists [], [], [], []. split_and!; by try constructor. }
  apply sorted_cons in Hs as (Hu & Hord & Hs). apply free_range_cons in Hfree as [Hd Hfree].
  destruct Hu as (? & ? & ?). simpl. rewrite (bind_deref vmareas _ _ _ _ Hav).
  destruct ((s <? vma_start v) && (e <? vma_end v)) eqn:Hc.
  - to_prop. exists [], (a :: l), [], (v :: vs). split_and!; try done; [constructor|by constructor|].
    apply Forall_cons. split; [lia|]. eapply Forall_impl; [exact Hord|]. simpl. lia.
  - destruct (IH Hs Hlt Hfree) as (front & back & vf & vb & Hrun & -> & -> & Hf & Hb & HF & HB).
    exists (a :: front), back, (v :: vf), vb. erewrite bind_ret by exact Hrun.
    split_and!; try done; [by constructor|]. apply Forall_cons. split; [|done].
    apply andb_false_iff in Hc as [Hc|Hc]; to_prop; lia.
Qed.

Definition linked_area (map : ptr) (v : vmarea) : vmarea :=
  v <| vma_vmmap := Some map |> <| vma_plink := Some map |>.

Lemma sorted_insert vf v vb :
  sorted_areas (vf ++ vb) -> user_area v -> Forall (fun x => vma_end x <= vma_start v) vf ->
  Forall (fun x => vma_end v <= vma_start x) vb -> sorted_areas (vf ++ v :: vb).
Proof.
  intros (Hf & Hb & Hfb)%sorted_app Hu HF HB. apply sorted_app. split_and!; [done| |].
  - by apply sorted_cons.
  - rewrite Forall_forall in *. intros x Hx. apply Forall_cons. split; [by apply HF|by apply Hfb].
Qed.

Lemma insert_run k map l vs a v :
  map_wf k map l vs -> vmareas k !! a = Some v -> vma_vmmap v = None -> vma_plink v = None ->
  user_area v -> free_range vs (vma_start v) (vma_end v - vma_start v) ->
  exists front back vf vb k', l = front ++ back /\ vs = vf ++ vb /\
    vmmap_insert map a k = Ret tt k' /\
    map_wf k' map (front ++ a :: back) (vf ++ linked_area map v :: vb) /\
    vmareas k' = <[a := linked_area map v]> (vmareas k) /\
    (exists m', vmmaps k' = <[map := m']> (vmmaps k)) /\
    k' = k <| vmareas := vmareas k' |> <| vmmaps := vmmaps k' |>.
Proof.
  intros Hwf Ha Hm Hp Hu Hfree. pose proof Hu as (Hu1 & Hu2 & Hu3).
  pose proof (map_wf_fresh _ _ _ _ _ _ Hwf Ha Hp) as Hni.
  destruct (mw_map _ _ _ _ Hwf) as (m & Hmm & Hlist).
  set (v1 := v <| vma_vmmap := Some map |>).
  set (k1 := k <| vmareas := <[a := v1]> (vmareas k) |>).
  assert (Ha1 : areas k1 l vs) by (apply areas_insert_ne; [done|apply Hwf]).
  destruct (insert_position_run k1 _ _ _ _ Ha1 (mw_sorted _ _ _ _ Hwf) Hu2 Hfree)
    as (front & back & vf & vb & Hpos & -> & -> & Hf & Hb & HF & HB).
  exists front, back, vf, vb. eexists. split; [done|]. split; [done|]. split; [|split; [|split; [|split]]].
  - unfold vmmap_insert. rewrite (bind_deref vmmaps _ _ _ _ Hmm), (bind_deref vmareas _ _ _ _ Ha).
    rewrite !bind_KASSERT by (rewrite ?bool_decide_eq_true, ?andb_true_iff, ?Z.ltb_lt, ?Z.leb_le; done).
    rewrite (bind_assign vmareas _ _ _ _ _ Ha). rewrite Hlist.
    erewrite bind_ret by exact Hpos. unfold plink_insert.
    rewrite (bind_deref vmareas _ v1) by apply lookup_insert_eq. simpl. rewrite Hp.
    rewrite (bind_assign vmmaps _ m) by exact Hmm.
    apply (assign_Some vmareas _ v1). apply lookup_insert_eq.
  - split; simpl.
    + eexists. rewrite lookup_insert_eq. done.
    + unfold areas. simpl. rewrite insert_insert_eq.
      pose proof (mw_areas _ _ _ _ Hwf) as Ha0.
      apply Forall2_app_inv in Ha0 as [Hf0 Hb0]; [|by eapply Forall2_length].
      apply Forall2_app; [|constructor; [apply lookup_insert_eq|]];
        (apply areas_insert_ne; [set_solver|done]).
    + pose proof (mw_nodup _ _ _ _ Hwf) as Hnd. rewrite <- Permutation_middle.
      by apply NoDup_cons.
    + pose proof (mw_links _ _ _ _ Hwf) as Hl. rewrite Forall_app in Hl |- *.
      rewrite Forall_cons. naive_solver.
    + apply sorted_insert; try done. apply Hwf.
  - simpl. by rewrite insert_insert_eq.
  - by eexists.
  - by destruct k.
Qed.
End inserting.

(** ** What an address space needs of its memory objects

    The address space holds references to objects, counted with multiplicity.  [held k X]:
    the references [X] are held in state [k].  Releasing one never faults and gives it up,
    taking one needs one to begin with; neither touches the areas of the address space,
    also when releasing blocks and other threads run ([R]). *)
Definition vm_frame (map : ptr) (k k' : kernel) : Prop :=
  vmmaps k' !! map = vmmaps k !! map /\
  (forall a v, vmareas k !! a = Some v -> vma_vmmap v = Some map -> vmareas k' !! a = Some v) /\
  curproc k' = curproc k /\
  (forall p, curproc k = Some p -> procs k' !! p = procs k !! p).

(** Nothing but the bookkeeping of areas changed, and areas on the list of an object stay. *)
Definition vm_keeps (k k' : kernel) : Prop :=
  k' = k <| vmmaps := vmmaps k' |> <| vmareas := vmareas k' |> <| mmu := mmu k' |>
         <| alloc_count := alloc_count k' |> /\
  (forall a v o, vmareas k !! a = Some v -> vma_olink v = Some o ->
     exists v', vmareas k' !! a = Some v' /\ vma_olink v' = Some o /\ vma_vmmap v' = vma_vmmap v) /\
  (forall m, is_Some (vmmaps k !! m) -> is_Some (vmmaps k' !! m)).

Class VmObjects `{MmobjOps} (R : rely kernel) (map : ptr) := {
  held : kernel -> gmultiset ptr -> Prop;
  held_put k o X : held k ({[+ o +]} ⊎ X) ->
    wp R (mmo_put o k) (fun _ k' => held k' X /\ vm_frame map k k');
  held_ref k o X : held k ({[+ o +]} ⊎ X) ->
    exists k', mmo_ref o k = Ret tt k' /\ held k' ({[+ o +]} ⊎ ({[+ o +]} ⊎ X)) /\
      k' = k <| mmobjs := mmobjs k' |>;
  held_keeps k k' X : vm_keeps k k' -> held k X -> held k' X;
}.

Instance vm_keeps_refl : Reflexive vm_keeps.
Proof. intros k. split_and!; [by destruct k|eauto|done]. Qed.

Instance vm_keeps_trans : Transitive vm_keeps.
Proof.
  intros k1 k2 k3 (H1 & A1 & M1) (H2 & A2 & M2). split_and!; [|..].
  - rewrite H2, H1. by destruct k1.
  - intros a v o Ha Ho. destruct (A1 a v o Ha Ho) as (v' & Hv' & Ho' & Hm').
    destruct (A2 a v' o Hv' Ho') as (v2 & ? & ? & ?). exists v2. split_and!; congruence.
  - eauto.
Qed.

(** The object, offset within it, and permissions that a page is mapped with. *)
Definition page_of (v : vmarea) (vfn : Z) : Z * Z * Z :=
  (uint32 (vma_off v + (vfn - vma_start v)), vma_prot v, vma_flags v).

Definition maps_page (vs : list vmarea) (vfn : Z) (pg : option ptr * (Z * Z * Z)) : Prop :=
  exists v, v ∈ vs /\ covers v vfn /\ pg = (vma_obj v, page_of v vfn).

Definition objects (vs : list vmarea) : gmultiset ptr :=
  list_to_set_disj (omap vma_obj vs).

Lemma objects_app vs1 vs2 : objects (vs1 ++ vs2) = objects vs1 ⊎ objects vs2.
Proof. unfold objects. by rewrite omap_app, list_to_set_disj_app. Qed.

Lemma objects_cons v vs :
  objects (v :: vs) = match vma_obj v with Some o => {[+ o +]} ⊎ objects vs | None => objects vs end.
Proof. unfold objects. simpl. by destruct (vma_obj v). Qed.

Lemma objects_middle vf v vb : objects (vf ++ v :: vb) = objects (v :: vf ++ vb).
Proof.
  rewrite objects_app, !objects_cons, objects_app. destruct (vma_obj v); [|done]. multiset_solver.
Qed.

Lemma maps_page_middle vf v vb vfn pg :
  maps_page (vf ++ v :: vb) vfn pg <->
  maps_page (vf ++ vb) vfn pg \/ (covers v vfn /\ pg = (vma_obj v, page_of v vfn)).
Proof.
  unfold maps_page. split.
  - intros (w & Hin & ?). rewrite elem_of_app, elem_of_cons in Hin.
    destruct Hin as [?|[->|?]]; [left|by right|left]; exists w; rewrite elem_of_app; eauto.
  - intros [(w & Hin & ?)|?]; [exists w|exists v]; rewrite elem_of_app, elem_of_cons in *; naive_solver.
Qed.

(** ** Unmapping *)
Section removing.
Context `{PO : PlatformOk} `{MH : MmHeaders} `{O : MmobjOps} (R : rely kernel) (map : ptr) `{VO : !VmObjects R map}.
Context (s e : Z) (X : gmultiset ptr).
Hypothesis Hse : s < e.

Definition pagedir_ok (k : kernel) : Prop :=
  exists cp p pd, curproc k = Some cp /\ procs k !! cp = Some p /\ p_pagedir p = Some pd.

(** The address space with what it owns; [X] are references held by others. *)
Record vm_inv (k : kernel) (L : list ptr) (VS : list vmarea) : Prop := {
  vi_wf : map_wf k map L VS;
  vi_held : held k (objects VS ⊎ X);
  vi_pd : pagedir_ok k;
}.

Definition outside (v : vmarea) : Prop := vma_end v <= s \/ e <= vma_start v.

(** What the routine can do to an area: a private one is neither split nor dropped. *)
Definition manageable (v : vmarea) : Prop :=
  (vma_start v < s /\ e < vma_end v ->
     is_private (vma_flags v) = false /\ is_shared (vma_flags v) = true /\ vma_obj v <> None) /\
  (s <= vma_start v /\ vma_end v <= e ->
     is_private (vma_flags v) = false /\ vma_olink v = None).

(** One area has been dealt with. *)
Record advance (k : kernel) (L : list ptr) (VS : list vmarea) (a : ptr)
    (k1 : kernel) (L1 : list ptr) (VS1 : list vmarea) : Prop := {
  adv_inv : vm_inv k1 L1 VS1;
  adv_out x pg : ~ s <= x < e -> maps_page VS1 x pg <-> maps_page VS x pg;
  adv_in x pg : maps_page VS1 x pg -> maps_page VS x pg;
  adv_other b : b ∈ L -> b <> a -> b ∈ L1 /\ vmareas k1 !! b = vmareas k !! b;
  adv_new b w : b ∈ L1 -> vmareas k1 !! b = Some w -> (b ∈ L /\ b <> a) \/ outside w;
}.

Lemma unmap_pages_run k lo hi : pagedir_ok k ->
  exists c, unmap_pages lo hi k = Ret tt (k <| mmu ::= cons c |>).
Proof.
  intros (cp & p & pd & Hcp & Hp & Hpd). eexists. unfold unmap_pages, gets. unfold bind at 1. simpl.
  rewrite Hcp. unfold nonnull at 1. unfold bind at 1. simpl. rewrite (bind_deref procs _ _ _ _ Hp).
  rewrite Hpd. reflexivity.
Qed.

(** The area [a] within its address space. *)
Lemma map_wf_split k L VS a : map_wf k map L VS -> a ∈ L ->
  exists F B VF v VB, L = F ++ a :: B /\ VS = VF ++ v :: VB /\ vmareas k !! a = Some v /\
    areas k F VF /\ areas k B VB /\ a ∉ F /\ a ∉ B.
Proof.
  intros Hwf Hin. apply list_elem_of_split in Hin as (F & B & ->).
  pose proof (mw_areas _ _ _ _ Hwf) as Ha.
  apply Forall2_app_inv_l in Ha as (VF & VR & HF & HR & ->).
  apply Forall2_cons_inv_l in HR as (v & VB & Hv & HB & ->).
  exists F, B, VF, v, VB. split_and!; try done; pose proof (mw_nodup _ _ _ _ Hwf) as Hnd;
    apply NoDup_app in Hnd as (_ & Hd & [Hni _]%NoDup_cons); [|done].
  intros HinF. apply (Hd a HinF). by left.
Qed.

Lemma sorted_middle VF v VB :
  sorted_areas (VF ++ v :: VB) <->
  sorted_areas (VF ++ VB) /\ user_area v /\ Forall (fun x => vma_end x <= vma_start v) VF /\
  Forall (fun x => vma_end v <= vma_start x) VB.
Proof.
  rewrite !sorted_app, sorted_cons. rewrite !Forall_forall. setoid_rewrite Forall_cons. naive_solver.
Qed.

(** Moving the bounds of an area inwards. *)
Lemma shrink_inv k F B VF v VB a v' :
  vm_inv k (F ++ a :: B) (VF ++ v :: VB) -> vmareas k !! a = Some v ->
  areas k F VF -> areas k B VB -> a ∉ F -> a ∉ B ->
  vma_plink v' = vma_plink v -> vma_vmmap v' = vma_vmmap v -> vma_olink v' = vma_olink v ->
  vma_obj v' = vma_obj v -> vma_start v <= vma_start v' < vma_end v' -> vma_end v' <= vma_end v ->
  vm_inv (k <| vmareas := <[a := v']> (vmareas k) |>) (F ++ a :: B) (VF ++ v' :: VB).
Proof.
  intros [Hwf Hheld Hpd] Ha HF HB HnF HnB Hp Hm Ho Hobj Hst Hen. split.
  - destruct Hwf as [Hmap Hareas Hnd Hl Hs]. split; simpl; try done.
    + apply Forall2_app; [|constructor; [apply lookup_insert_eq|]]; by apply areas_insert_ne.
    + rewrite Forall_app, Forall_cons in Hl |- *. rewrite Hp, Hm. done.
    + apply sorted_middle in Hs as (Hs & (? & ? & ?) & HltF & HltB). apply sorted_middle.
      split_and!; [done|unfold user_area; lia|..]; (eapply Forall_impl; [eassumption|]); simpl; lia.
  - rewrite objects_middle, objects_cons, Hobj, <- (objects_cons v), <- objects_middle.
    eapply held_keeps; [|exact Hheld]. split_and!; simpl; [by destruct k| |done].
    intros b w o. destruct (decide (b = a)) as [->|Hne].
    + rewrite Ha, lookup_insert_eq. intros [= <-] Hw. exists v'. rewrite Ho, Hm. done.
    + intros Hb Hw. exists w. by rewrite lookup_insert_ne.
  - done.
Qed.

Lemma inv_mmu k L VS c : vm_inv k L VS -> vm_inv (k <| mmu ::= cons c |>) L VS.
Proof.
  intros [[H1 H2 H3 H4 H5] Hheld Hpd]. split; [by split|..|done].
  eapply held_keeps; [|exact Hheld]. split_and!; [by destruct k|eauto|done].
Qed.

(** Cases 2 and 3: the region overlaps one end of the area. *)
Lemma shrink_advance k F B VF v VB a v' c :
  vm_inv k (F ++ a :: B) (VF ++ v :: VB) -> vmareas k !! a = Some v ->
  areas k F VF -> areas k B VB -> a ∉ F -> a ∉ B ->
  vma_plink v' = vma_plink v -> vma_vmmap v' = vma_vmmap v -> vma_olink v' = vma_olink v ->
  vma_obj v' = vma_obj v -> vma_start v <= vma_start v' < vma_end v' -> vma_end v' <= vma_end v ->
  outside v' ->
  (forall x, covers v' x -> page_of v' x = page_of v x) ->
  (forall x, covers v x -> ~ s <= x < e -> covers v' x) ->
  advance k (F ++ a :: B) (VF ++ v :: VB) a
    (k <| vmareas := <[a := v']> (vmareas k) |> <| mmu ::= cons c |>) (F ++ a :: B) (VF ++ v' :: VB).
Proof.
  intros Hinv Ha HF HB HnF HnB Hp Hm Ho Hobj Hst Hen Hout Hpage Hcov. split.
  - apply inv_mmu. by apply (shrink_inv k F B VF v VB).
  - intros x pg Hx. rewrite !maps_page_middle. split; (intros [?|[Hc ->]]; [by left|right]).
    + rewrite Hobj, (Hpage x Hc). unfold covers in *. split; [lia|done].
    + split; [by apply Hcov|]. by rewrite Hobj, (Hpage x (Hcov x Hc Hx)).
  - intros x pg. rewrite !maps_page_middle. intros [?|[Hc ->]]; [by left|right].
    rewrite Hobj, (Hpage x Hc). unfold covers in *. split; [lia|done].
  - intros b Hb Hne. simpl. by rewrite lookup_insert_ne.
  - intros b w Hb. simpl. destruct (decide (b = a)) as [->|Hne]; [|by left].
    rewrite lookup_insert_eq. intros [= <-]. by right.
Qed.

(** Case 4: the region covers the area. *)
Lemma remove_whole_wp k F B VF v VB a :
  vm_inv k (F ++ a :: B) (VF ++ v :: VB) -> vmareas k !! a = Some v ->
  areas k F VF -> areas k B VB -> a ∉ F -> a ∉ B ->
  is_private (vma_flags v) = false -> vma_olink v = None ->
  s <= vma_start v -> vma_end v <= e ->
  wp R (remove_whole a k) (fun _ k1 =>
    advance k (F ++ a :: B) (VF ++ v :: VB) a k1 (F ++ B) (VF ++ VB)).
Proof.
  intros Hinv Ha HF HB HnF HnB Hpriv Holink Hst Hen. pose proof Hinv as [Hwf Hheld Hpd].
  pose proof (mw_links _ _ _ _ Hwf) as Hl.
  assert (Hlv : vma_plink v = Some map /\ vma_vmmap v = Some map).
  { rewrite Forall_app, Forall_cons in Hl. naive_solver. }
  unfold remove_whole. rewrite (bind_deref vmareas _ _ _ _ Ha). apply wp_bind.
  (* giving up the reference *)
  assert (Hput : wp R (put_obj a k) (fun _ k1 => held k1 (objects (VF ++ VB) ⊎ X) /\ vm_frame map k k1)).
  { unfold put_obj. rewrite (bind_deref vmareas _ _ _ _ Ha).
    rewrite objects_middle, objects_cons in Hheld. destruct (vma_obj v) as [o|].
    - apply held_put. by rewrite (assoc_L (⊎)).
    - split; [done|]. repeat split; auto. }
  eapply wp_mono; [exact Hput|]. intros _ k1 (Hheld1 & Hm1 & Ha1 & Hc1 & Hp1).
  destruct (mw_map _ _ _ _ Hwf) as (m & Hm & HL).
  assert (Hav1 : vmareas k1 !! a = Some v) by (apply Ha1; [done|apply Hlv]).
  assert (Hkeep : forall b w, b ∈ F ++ a :: B -> vmareas k !! b = Some w -> vmareas k1 !! b = Some w).
  { intros b w Hb Hw. apply Ha1; [done|].
    destruct (Forall2_elem_l _ _ _ _ (mw_areas _ _ _ _ Hwf) Hb) as (w' & Hin & ?).
    rewrite Forall_forall in Hl. destruct (Hl w' Hin). congruence. }
  unfold plink_remove. rewrite bind_unfold.
  rewrite (bind_deref vmareas _ _ _ _ Hav1). rewrite (proj1 Hlv).
  rewrite (bind_assign vmmaps _ m) by congruence.
  rewrite (assign_Some vmareas _ v) by done. simpl.
  rewrite Hpriv. unfold ret at 1. rewrite bind_unfold. simpl.
  unfold vmarea_free, slab_free. rewrite bind_unfold. simpl. rewrite lookup_insert_eq. simpl.
  set (k2 := k1 <| vmmaps := _ |> <| vmareas := _ |> <| vmareas := _ |>).
  assert (Hpd2 : pagedir_ok k2).
  { destruct Hpd as (cp & p & pd & Hcp & Hp & Hpd). exists cp, p, pd. simpl.
    rewrite Hc1, Hp1; done. }
  destruct (unmap_pages_run k2 (vma_start v) (vma_end v) Hpd2) as [c ->]. simpl.
  assert (Hdel : delete a (<[a := v <| vma_plink := None |>]> (vmareas k1)) = delete a (vmareas k1))
    by apply delete_insert_eq.
  assert (Hareas : forall l vs, areas k l vs -> a ∉ l -> (forall b, b ∈ l -> b ∈ F ++ a :: B) ->
    areas k2 l vs).
  { intros l vs Hl' Hni Hsub. unfold areas, k2. simpl. rewrite Hdel.
    induction Hl' as [|b w l vs Hb _ IH]; constructor.
    - rewrite lookup_delete_ne by set_solver. apply Hkeep; [apply Hsub; by left|done].
    - apply IH; [set_solver|]. intros; apply Hsub; by right. }
  split.
  - apply inv_mmu. split; [|..|done].
    + split.
      * eexists. unfold k2. simpl. rewrite lookup_insert_eq. split; [reflexivity|]. simpl.
        rewrite HL, remove_elem_app. unfold remove_elem at 2.
        rewrite filter_cons_False by naive_solver. change (filter _ B) with (remove_elem a B).
        by rewrite !remove_elem_not_in.
      * apply Forall2_app; apply Hareas; try done; set_solver.
      * pose proof (mw_nodup _ _ _ _ Hwf) as Hnd. rewrite <- Permutation_middle in Hnd.
        by apply NoDup_cons in Hnd as [_ ?].
      * rewrite Forall_app, Forall_cons in Hl. rewrite Forall_app. naive_solver.
      * pose proof (mw_sorted _ _ _ _ Hwf) as Hs. by apply sorted_middle in Hs as [? _].
    + eapply held_keeps; [|exact Hheld1]. split_and!; [by destruct k1| |].
      * intros b w o Hb Ho. unfold k2. simpl. rewrite Hdel.
        destruct (decide (b = a)) as [->|Hne]; [|exists w; by rewrite lookup_delete_ne].
        congruence.
      * intros m'. unfold k2. simpl. intros ?.
        destruct (decide (m' = map)) as [->|]; [by rewrite lookup_insert_eq|by rewrite lookup_insert_ne].
  - intros x pg Hx. rewrite maps_page_middle. split; [by left|].
    intros [?|[Hc _]]; [done|]. unfold covers in Hc. lia.
  - intros x pg. rewrite maps_page_middle. by left.
  - intros b Hb Hne. split; [set_solver|]. unfold k2. simpl. rewrite Hdel, lookup_delete_ne by done.
    destruct (Forall2_elem_l _ _ _ _ (mw_areas _ _ _ _ Hwf) Hb) as (w & _ & Hw).
    rewrite Hw. by apply Hkeep.
  - intros b w Hb Hw. left. split; [set_solver|]. intros ->. set_solver.
Qed.

(** Case 1: the region lies inside a shared area, which is split. *)
Definition lower_part (v : vmarea) : vmarea := v <| vma_end := s |>.
Definition upper_part (v : vmarea) : vmarea := {|
  vma_start := e; vma_end := vma_end v; vma_off := uint32 (vma_off v + e - vma_start v);
  vma_prot := vma_prot v; vma_flags := vma_flags v; vma_vmmap := None; vma_obj := vma_obj v;
  vma_plink := None; vma_olink := None |}.

(** The state in which the two parts have been set up, before the upper one is linked. *)
Definition split_state (k : kernel) (a n : ptr) (v : vmarea) : kernel :=
  k <| alloc_count ::= S |>
    <| vmareas := <[n := upper_part v]> (<[a := lower_part v]> (vmareas k)) |>.

Lemma eq_by_vmareas k1 k2 :
  vmareas k1 = vmareas k2 -> k1 <| vmareas := ∅ |> = k2 <| vmareas := ∅ |> -> k1 = k2.
Proof. destruct k1, k2. cbn. intros -> Heq. injection Heq. intros. by subst. Qed.

Lemma vmarea_alloc_run k :
  vmarea_alloc k = match slab_obj_alloc (alloc_count k) (dom (vmareas k)) with
    | None => Ret None (k <| alloc_count ::= S |>)
    | Some n => Ret (Some n) (k <| alloc_count ::= S |>
                                <| vmareas := <[n := blank_vmarea]> (vmareas k) |>)
    end.
Proof.
  unfold vmarea_alloc, slab_alloc, init_obj, modify, bind, ret. simpl.
  by destruct (slab_obj_alloc _ _).
Qed.

Lemma remove_split_run k a v o k1 :
  vmareas k !! a = Some v -> is_private (vma_flags v) = false -> is_shared (vma_flags v) = true ->
  vma_obj v = Some o ->
  match slab_obj_alloc (alloc_count k) (dom (vmareas k)) with
  | None => remove_split map a s e k = Ret false (k <| alloc_count ::= S |>)
  | Some n => mmo_ref o (split_state k a n v) = Ret tt k1 ->
      remove_split map a s e k =
      (vmmap_insert map n;; unmap_pages s e;; ret true) k1
  end.
Proof.
  intros Ha Hpriv Hsh Ho. pose proof (vmarea_alloc_run k) as Hva. unfold remove_split.
  destruct (slab_obj_alloc _ _) as [n|] eqn:Halloc; rewrite (bind_ret _ _ _ _ _ Hva); [|done].
  assert (Hne : n <> a).
  { intros ->. apply slab_obj_alloc_fresh in Halloc. apply Halloc. by apply elem_of_dom. }
  intros Href. rewrite (bind_deref vmareas _ v) by (by simpl; rewrite lookup_insert_ne).
  rewrite (bind_assign vmareas _ v) by (by simpl; rewrite lookup_insert_ne).
  rewrite (bind_assign vmareas _ blank_vmarea)
    by (by simpl; rewrite lookup_insert_ne, lookup_insert_eq).
  rewrite Hpriv, Hsh. unfold split_shared. rewrite bind_unfold.
  rewrite bind_unfold, (bind_deref vmareas _ (lower_part v))
    by (by simpl; rewrite lookup_insert_ne, lookup_insert_eq).
  erewrite bind_assign by (simpl; apply lookup_insert_eq).
  simpl. rewrite Ho. unfold nonnull, ret. rewrite bind_unfold. cbn [obind].
  match goal with |- obind _ (obind _ (mmo_ref o ?st)) = _ =>
    assert (st = split_state k a n v) as -> end.
  { apply eq_by_vmareas; [|by destruct k]. simpl. rewrite !insert_insert_eq.
    rewrite (insert_insert_ne _ a n) by done. rewrite insert_insert_eq. f_equal.
    unfold upper_part. by rewrite Ho. }
  rewrite Href. reflexivity.
Qed.

Lemma map_wf_ext k k' L VS :
  map_wf k map L VS -> vmmaps k' !! map = vmmaps k !! map ->
  (forall b, b ∈ L -> vmareas k' !! b = vmareas k !! b) -> map_wf k' map L VS.
Proof.
  intros [Hm Ha Hnd Hl Hs] Hmap Heq. split; try done; [by rewrite Hmap|].
  unfold areas in *. clear -Ha Heq. induction Ha as [|b w l vs Hb _ IH]; constructor.
  - rewrite Heq; [done|by left].
  - apply IH. intros; apply Heq; by right.
Qed.

Lemma uint32_add_l a b : uint32 (uint32 a + b) = uint32 (a + b).
Proof. unfold uint32. by rewrite Zplus_mod_idemp_l. Qed.

Lemma upper_page v x : page_of (upper_part v) x = page_of v x.
Proof. unfold page_of, upper_part. simpl. rewrite uint32_add_l. do 3 f_equal. lia. Qed.

(** After the allocation: the lower part in place, the references doubled. *)
Lemma split_prepared k F B VF v VB a n o :
  vm_inv k (F ++ a :: B) (VF ++ v :: VB) -> vmareas k !! a = Some v ->
  areas k F VF -> areas k B VB -> a ∉ F -> a ∉ B -> vma_start v < s -> e < vma_end v ->
  vma_obj v = Some o -> n ∉ dom (vmareas k) ->
  exists k1, mmo_ref o (split_state k a n v) = Ret tt k1 /\
    map_wf k1 map (F ++ a :: B) (VF ++ lower_part v :: VB) /\
    held k1 ({[+ o +]} ⊎ (objects (VF ++ lower_part v :: VB) ⊎ X)) /\ pagedir_ok k1 /\
    vmareas k1 = <[n := upper_part v]> (<[a := lower_part v]> (vmareas k)).
Proof.
  intros Hinv Ha HF HB HnF HnB Hst Hen Ho Hn. pose proof Hinv as [_ _ Hpd].
  assert (Hlow : vm_inv (k <| vmareas := <[a := lower_part v]> (vmareas k) |>)
    (F ++ a :: B) (VF ++ lower_part v :: VB)).
  { apply (shrink_inv k F B VF v VB); simpl; try done; lia. }
  destruct Hlow as [Hwf Hheld _].
  assert (HnL : n ∉ F ++ a :: B).
  { intros Hin. destruct (Forall2_elem_l _ _ _ _ (mw_areas _ _ _ _ (vi_wf _ _ _ Hinv)) Hin) as (w & _ & Hw).
    apply Hn, elem_of_dom. eauto. }
  assert (Hh0 : held (split_state k a n v)
    ({[+ o +]} ⊎ (objects (VF ++ VB) ⊎ X))).
  { assert (objects (VF ++ lower_part v :: VB) ⊎ X = {[+ o +]} ⊎ (objects (VF ++ VB) ⊎ X)) as <-.
    { rewrite objects_middle, objects_cons. simpl. rewrite Ho. by rewrite (assoc_L (⊎)). }
    eapply held_keeps; [|exact Hheld]. split_and!; [by destruct k| |done].
    intros b w o' Hb Hw. simpl in Hb. exists w. simpl. split; [|done].
    rewrite lookup_insert_ne; [done|]. intros ->. apply lookup_insert_Some in Hb as [[-> _]|[_ Hb]].
    - apply Hn, elem_of_dom. eauto.
    - apply Hn, elem_of_dom. eauto. }
  destruct (held_ref _ _ _ Hh0) as (k1 & Href & Hh1 & Hk1).
  assert (Hva : vmareas k1 = <[n := upper_part v]> (<[a := lower_part v]> (vmareas k)))
    by (by rewrite Hk1).
  exists k1. split_and!; try done.
  - eapply map_wf_ext; [exact Hwf|by rewrite Hk1|]. intros b Hb. rewrite Hva. simpl.
    rewrite lookup_insert_ne; [done|]. set_solver.
  - rewrite objects_middle, objects_cons. simpl. rewrite Ho.
    rewrite <- (assoc_L (⊎) {[+ o +]} (objects (VF ++ VB)) X). exact Hh1.
  - rewrite Hk1. exact Hpd.
Qed.

(** The two parts of a split area map what the area mapped, but for the region. *)
Lemma split_advance k F B VF v VB a n k1 front back vf vb :
  vm_inv k (F ++ a :: B) (VF ++ v :: VB) -> vmareas k !! a = Some v -> a ∉ F -> a ∉ B ->
  n ∉ dom (vmareas k) -> vma_start v < s -> e < vma_end v ->
  front ++ back = F ++ a :: B -> vf ++ vb = VF ++ lower_part v :: VB ->
  vm_inv k1 (front ++ n :: back) (vf ++ linked_area map (upper_part v) :: vb) ->
  vmareas k1 = <[n := linked_area map (upper_part v)]> (<[a := lower_part v]> (vmareas k)) ->
  advance k (F ++ a :: B) (VF ++ v :: VB) a k1 (front ++ n :: back)
    (vf ++ linked_area map (upper_part v) :: vb).
Proof.
  intros Hinv Ha HnF HnB Hn Hst Hen HL HVS Hinv1 Hva.
  assert (Hmaps : forall x pg, maps_page (vf ++ linked_area map (upper_part v) :: vb) x pg <->
    maps_page (VF ++ VB) x pg \/
    ((covers (lower_part v) x \/ covers (upper_part v) x) /\ pg = (vma_obj v, page_of v x))).
  { intros x pg. rewrite maps_page_middle, HVS, maps_page_middle.
    change (page_of (linked_area map (upper_part v)) x) with (page_of (upper_part v) x).
    rewrite upper_page. unfold covers. simpl. naive_solver. }
  assert (HnL : forall b, b ∈ F ++ a :: B -> b <> n).
  { intros b Hb ->. destruct (Forall2_elem_l _ _ _ _ (mw_areas _ _ _ _ (vi_wf _ _ _ Hinv)) Hb)
      as (w & _ & Hw). apply Hn, elem_of_dom. eauto. }
  split; [done|..].
  - intros x pg Hx. rewrite Hmaps, maps_page_middle. unfold covers. simpl.
    split; (intros [?|[Hc ->]]; [by left|right]); (split; [|done]); lia.
  - intros x pg. rewrite Hmaps, maps_page_middle. unfold covers. simpl.
    intros [?|[Hc ->]]; [by left|right]. split; [lia|done].
  - intros b Hb Hne. split.
    + rewrite <- HL in Hb. rewrite elem_of_app, elem_of_cons in *. naive_solver.
    + rewrite Hva, !lookup_insert_ne; [done|done|]. symmetry. by apply HnL.
  - intros b w Hb. rewrite Hva. destruct (decide (b = n)) as [->|Hbn].
    { rewrite lookup_insert_eq. intros [= <-]. right. unfold outside. simpl. lia. }
    rewrite lookup_insert_ne by done. destruct (decide (b = a)) as [->|Hba].
    { rewrite lookup_insert_eq. intros [= <-]. right. unfold outside. simpl. lia. }
    intros _. left. split; [|done]. rewrite <- HL. rewrite elem_of_app, elem_of_cons in *. naive_solver.
Qed.

Lemma remove_split_advance k F B VF v VB a :
  vm_inv k (F ++ a :: B) (VF ++ v :: VB) -> vmareas k !! a = Some v ->
  areas k F VF -> areas k B VB -> a ∉ F -> a ∉ B -> vma_start v < s -> e < vma_end v ->
  manageable v ->
  exists ok k1, remove_split map a s e k = Ret ok k1 /\
    if ok : bool
    then exists L1 VS1, advance k (F ++ a :: B) (VF ++ v :: VB) a k1 L1 VS1
    else k1 = k <| alloc_count ::= S |>.
Proof.
  intros Hinv Ha HF HB HnF HnB Hst Hen [Hman _].
  destruct (Hman ltac:(lia)) as (Hpriv & Hsh & Hobj). destruct (vma_obj v) as [o|] eqn:Ho; [|done].
  destruct (slab_obj_alloc (alloc_count k) (dom (vmareas k))) as [n|] eqn:Halloc.
  2: { exists false. eexists. pose proof (remove_split_run k a v o k Ha Hpriv Hsh Ho) as Hrun.
       by rewrite Halloc in Hrun. }
  pose proof (slab_obj_alloc_fresh _ _ _ Halloc) as Hn.
  destruct (split_prepared k F B VF v VB a n o) as (k1 & Href & Hwf1 & Hheld1 & Hpd1 & Hva1); try done.
  pose proof (remove_split_run k a v o k1 Ha Hpriv Hsh Ho) as Hrun. rewrite Halloc in Hrun.
  pose proof (mw_sorted _ _ _ _ (vi_wf _ _ _ Hinv)) as (_ & (? & ? & ?) & HltF & HltB)%sorted_middle.
  destruct (insert_run k1 map _ _ n (upper_part v) Hwf1)
    as (front & back & vf & vb & k2 & HL & HVS & Hins & Hwf2 & Hva2 & (m2 & Hm2) & Hk2); try done.
  { rewrite Hva1. apply lookup_insert_eq. }
  { unfold user_area. simpl. lia. }
  { simpl. apply Forall_app. split; [|apply Forall_cons; split; [simpl; lia|]];
      (eapply Forall_impl; [eassumption|]); simpl; lia. }
  assert (Hheld2 : held k2 (objects (vf ++ linked_area map (upper_part v) :: vb) ⊎ X)).
  { rewrite objects_middle, objects_cons. simpl. rewrite Ho, <- HVS.
    rewrite <- (assoc_L (⊎) {[+ o +]}).
    eapply held_keeps; [|exact Hheld1]. rewrite Hk2. split_and!; simpl; [by destruct k1| |].
    - intros b w o' Hb Hw. rewrite Hva2. destruct (decide (b = n)) as [->|Hne].
      + rewrite Hva1, lookup_insert_eq in Hb. injection Hb as <-. done.
      + exists w. by rewrite lookup_insert_ne.
    - intros m' Hm'. rewrite Hm2. destruct (decide (m' = map)) as [->|Hne].
      + by rewrite lookup_insert_eq.
      + by rewrite lookup_insert_ne. }
  assert (Hpd2 : pagedir_ok k2) by (by rewrite Hk2).
  destruct (unmap_pages_run k2 s e Hpd2) as [c Hunmap].
  exists true. eexists. split.
  { rewrite (Hrun Href). erewrite bind_ret by exact Hins. by erewrite bind_ret by exact Hunmap. }
  exists (front ++ n :: back), (vf ++ linked_area map (upper_part v) :: vb).
  apply (split_advance k F B VF v VB a n); try done.
  - by apply inv_mmu.
  - simpl. rewrite Hva2, Hva1. by rewrite insert_insert_eq.
Qed.

(** What [vmmap_remove] achieves: pages outside the region keep their mapping; on success
    nothing in the region is mapped, and on failure nothing new is. *)
Definition removed (VS : list vmarea) (r : Z) (k' : kernel) : Prop :=
  exists L' VS', vm_inv k' L' VS' /\
    (forall x pg, ~ s <= x < e -> maps_page VS' x pg <-> maps_page VS x pg) /\
    ((r = 0 /\ forall x pg, s <= x < e -> ~ maps_page VS' x pg) \/
     (r = -1 /\ forall x pg, maps_page VS' x pg -> maps_page VS x pg)).

Lemma advance_removed k L VS a k1 L1 VS1 r k' :
  advance k L VS a k1 L1 VS1 -> removed VS1 r k' -> removed VS r k'.
Proof.
  intros [_ Hout Hin _ _] (L' & VS' & Hinv & Hsame & Hr). exists L', VS'. split_and!; [done| |].
  - intros x pg Hx. by rewrite Hsame, Hout.
  - destruct Hr as [?|[? Hr]]; [by left|right]. split; [done|]. intros x pg Hm. by apply Hin, Hr.
Qed.

Lemma inv_alloc k L VS : vm_inv k L VS -> vm_inv (k <| alloc_count ::= S |>) L VS.
Proof.
  intros [[H1 H2 H3 H4 H5] Hheld Hpd]. split; [by split| |done].
  eapply held_keeps; [|exact Hheld]. split_and!; [by destruct k|eauto|done].
Qed.

(** One iteration. *)
Lemma remove_step_wp k L VS a l :
  vm_inv k L VS -> a ∈ L -> (forall v, vmareas k !! a = Some v -> manageable v) ->
  (forall k1 L1 VS1, advance k L VS a k1 L1 VS1 ->
     wp R (remove_loop map l s e k1) (removed VS1)) ->
  wp R (remove_loop map (a :: l) s e k) (removed VS).
Proof.
  intros Hinv Hin Hman Hrest.
  destruct (map_wf_split _ _ _ _ (vi_wf _ _ _ Hinv) Hin)
    as (F & B & VF & v & VB & -> & -> & Ha & HF & HB & HnF & HnB).
  assert (Hgo : forall k1 L1 VS1, advance k (F ++ a :: B) (VF ++ v :: VB) a k1 L1 VS1 ->
    wp R (remove_loop map l s e k1) (removed (VF ++ v :: VB))).
  { intros k1 L1 VS1 Hadv. eapply wp_mono; [by eapply Hrest|]. intros r k'. by eapply advance_removed. }
  pose proof (mw_sorted _ _ _ _ (vi_wf _ _ _ Hinv)) as (_ & (? & Hlt & ?) & _)%sorted_middle.
  cbn [remove_loop]. rewrite (bind_deref vmareas _ _ _ _ Ha).
  destruct ((vma_start v <? s) && (e <? vma_end v)) eqn:C1; to_prop.
  { destruct (remove_split_advance k F B VF v VB a) as (ok & k1 & Hrun & Hok); eauto.
    rewrite (bind_ret _ _ _ _ _ Hrun). destruct ok.
    - destruct Hok as (L1 & VS1 & Hadv). by eapply Hgo.
    - subst k1. exists (F ++ a :: B), (VF ++ v :: VB). split_and!; [by apply inv_alloc|done|by right]. }
  destruct (((vma_start v <? s) && (s <? vma_end v)) && (vma_end v <=? e)) eqn:C2; to_prop.
  { rewrite (bind_assign vmareas _ _ _ _ _ Ha).
    destruct (unmap_pages_run (k <| vmareas := <[a := v <| vma_end := s |>]> (vmareas k) |>)
      s (vma_end v)) as [c Hun]; [apply Hinv|].
    rewrite (bind_ret _ _ _ _ _ Hun). eapply Hgo, (shrink_advance k F B VF v VB); try done; simpl.
    all: unfold outside, covers; simpl; lia. }
  destruct (((s <=? vma_start v) && (vma_start v <? e)) && (e <? vma_end v)) eqn:C3; to_prop.
  { rewrite (bind_assign vmareas _ _ _ _ _ Ha). 
    match goal with |- context [<[a := ?v']> (vmareas k)] => set (w := v') end.
    destruct (unmap_pages_run (k <| vmareas := <[a := w]> (vmareas k) |>) (vma_start v) e)
      as [c Hun]; [apply Hinv|].
    rewrite (bind_ret _ _ _ _ _ Hun). eapply Hgo, (shrink_advance k F B VF v VB); try done; simpl.
    all: try (unfold outside, covers; simpl; lia).
    intros x _. unfold page_of. simpl. rewrite uint32_add_l. do 3 f_equal. lia. }
  destruct ((s <=? vma_start v) && (vma_end v <=? e)) eqn:C4; to_prop.
  { destruct (Hman v Ha) as [_ Hm]. destruct (Hm ltac:(lia)) as [Hpriv Hol]. apply wp_bind.
    eapply wp_mono.
    - apply (remove_whole_wp k F B VF v VB); try done.
    - intros u k1 Hadv. exact (Hgo _ _ _ Hadv). }
  assert (Hout : outside v).
  { unfold outside. repeat match goal with Hb : _ && _ = false |- _ =>
      apply andb_false_iff in Hb as [Hb|Hb]; to_prop end; lia. }
  eapply (Hgo k (F ++ a :: B) (VF ++ v :: VB)). split; try done.
  intros b w Hb Hw. destruct (decide (b = a)) as [->|]; [right; congruence|by left].
Qed.

Lemma remove_loop_wp l : forall k L VS,
  vm_inv k L VS -> NoDup l -> (forall a, a ∈ l -> a ∈ L) ->
  (forall a v, a ∈ L -> vmareas k !! a = Some v -> a ∉ l -> outside v) ->
  (forall a v, a ∈ l -> vmareas k !! a = Some v -> manageable v) ->
  wp R (remove_loop map l s e k) (removed VS).
Proof.
  induction l as [|a l IH]; intros k L VS Hinv Hnd Hsub Hdone Hman.
  - exists L, VS. split_and!; [done|done|left]. split; [done|].
    intros x pg Hx (v & Hv & Hc & _).
    destruct (Forall2_elem_r _ _ _ _ (mw_areas _ _ _ _ (vi_wf _ _ _ Hinv)) Hv) as (a & Ha & Hav).
    destruct (Hdone a v Ha Hav ltac:(apply not_elem_of_nil)); unfold covers in Hc; lia.
  - apply NoDup_cons in Hnd as [Hni Hnd]. apply (remove_step_wp k L VS a l); [done|..].
    + apply Hsub. by left.
    + intros v. apply Hman. by left.
    + intros k1 L1 VS1 [Hinv1 _ _ Hother Hnew]. eapply IH; [done|done|..].
      * intros b Hb. apply Hother; [apply Hsub; by right|by intros ->].
      * intros b w Hb Hw Hbl. destruct (Hnew b w Hb Hw) as [[HbL Hne]|?]; [|done].
        destruct (Hother b HbL Hne) as [_ Heq]. rewrite Heq in Hw.
        eapply Hdone; [done|done|]. by intros [?|?]%elem_of_cons.
      * intros b w Hb Hw. assert (b <> a) by (by intros ->).
        destruct (Hother b) as [_ Heq]; [apply Hsub; by right|done|]. rewrite Heq in Hw.
        eapply Hman; [by right|done].
Qed.
End removing.

(** ** Cloning *)
Section cloning.
Context `{PO : PlatformOk} `{MH : MmHeaders} `{O : MmobjOps}.
Hypothesis slab_succeeds : forall n live, is_Some (slab_obj_alloc n live).

(** A copy of an area: the same pages, no object, on no object's list. *)
Definition copy_of (v w : vmarea) : Prop :=
  vma_start w = vma_start v /\ vma_end w = vma_end v /\ vma_off w = vma_off v /\
  vma_prot w = vma_prot v /\ vma_flags w = vma_flags v /\ vma_obj w = None /\ vma_olink w = None.

Lemma sorted_copy vs ws : Forall2 copy_of vs ws -> sorted_areas vs -> sorted_areas ws.
Proof.
  induction 1 as [|v w vs ws (Hs & He & _) HF IH]; [done|]. rewrite !sorted_cons.
  intros (Hu & Hlt & Hsorted). split_and!; [|..].
  - unfold user_area in *. by rewrite Hs, He.
  - clear -HF Hlt He. induction HF as [|x y vs ws (Hx & _) HF IH]; [done|].
    apply Forall_cons in Hlt as [? ?]. apply Forall_cons. split; [by rewrite He, Hx|by apply IH].
  - by apply IH.
Qed.

Lemma vmmap_create_run k :
  vmmap_create k = match slab_obj_alloc (alloc_count k) (dom (vmmaps k)) with
    | None => Ret None (k <| alloc_count ::= S |>)
    | Some m => Ret (Some m) (k <| alloc_count ::= S |>
        <| vmmaps := <[m := {| vmm_list := []; vmm_proc := None |}]> (vmmaps k) |>)
    end.
Proof.
  unfold vmmap_create, slab_alloc, init_obj, modify, bind, ret. simpl.
  by destruct (slab_obj_alloc _ _).
Qed.

(** Adding a copy at the tail of the new map. *)
Definition copy_area (new : ptr) (v : vmarea) : vmarea := {|
  vma_start := vma_start v; vma_end := vma_end v; vma_off := vma_off v; vma_prot := vma_prot v;
  vma_flags := vma_flags v; vma_vmmap := Some new; vma_obj := None; vma_plink := Some new;
  vma_olink := None |}.

Lemma clone_step new a l k v m n :
  vmareas k !! a = Some v -> vmmaps k !! new = Some m ->
  slab_obj_alloc (alloc_count k) (dom (vmareas k)) = Some n ->
  clone_loop (a :: l) new k = clone_loop l new
    (k <| alloc_count ::= S |> <| vmareas := <[n := copy_area new v]> (vmareas k) |>
       <| vmmaps := <[new := m <| vmm_list ::= fun l => l ++ [n] |>]> (vmmaps k) |>).
Proof.
  intros Ha Hm Halloc. cbn [clone_loop]. pose proof (vmarea_alloc_run k) as Hva. rewrite Halloc in Hva.
  assert (Hne : n <> a).
  { intros ->. apply slab_obj_alloc_fresh in Halloc. apply Halloc. by apply elem_of_dom. }
  rewrite (bind_ret _ _ _ _ _ Hva).
  rewrite (bind_deref vmareas _ v) by (by simpl; rewrite lookup_insert_ne).
  rewrite (bind_assign vmareas _ blank_vmarea) by (by simpl; rewrite lookup_insert_eq).
  rewrite (bind_deref vmmaps _ m) by done. unfold plink_insert. rewrite bind_unfold.
  erewrite bind_deref by (simpl; apply lookup_insert_eq). simpl.
  rewrite (bind_assign vmmaps _ m) by done.
  erewrite assign_Some by (simpl; apply lookup_insert_eq). simpl. f_equal.
  apply eq_by_vmareas; [|destruct k, m; reflexivity]. simpl. by rewrite !insert_insert_eq.
Qed.

Lemma clone_loop_run l vs : forall k new done dvs,
  areas k l vs -> map_wf k new done dvs -> sorted_areas (dvs ++ vs) ->
  exists k' done' cvs, clone_loop l new k = Ret (Some new) k' /\
    map_wf k' new (done ++ done') (dvs ++ cvs) /\ Forall2 copy_of vs cvs /\
    vmareas k ⊆ vmareas k' /\
    (forall m, m <> new -> vmmaps k' !! m = vmmaps k !! m) /\
    k' = k <| alloc_count := alloc_count k' |> <| vmareas := vmareas k' |> <| vmmaps := vmmaps k' |>.
Proof.
  revert vs. induction l as [|a l IH]; intros vs k new dn dvs Ha Hwf Hs.
  { inversion Ha; subst. exists k, [], []. rewrite !app_nil_r. split_and!; try done. by destruct k. }
  apply Forall2_cons_inv_l in Ha as (v & vs' & Hav & Ha & ->).
  destruct (slab_succeeds (alloc_count k) (dom (vmareas k))) as [n Halloc].
  destruct (mw_map _ _ _ _ Hwf) as (m & Hm & Hl). rewrite (clone_step _ _ _ _ _ _ _ Hav Hm Halloc).
  apply slab_obj_alloc_fresh in Halloc. apply not_elem_of_dom in Halloc.
  set (k1 := k <| alloc_count ::= S |> <| vmareas := _ |> <| vmmaps := _ |>).
  assert (Hsub : vmareas k ⊆ vmareas k1) by (by apply insert_subseteq).
  assert (Hup : forall l vs, areas k l vs -> areas k1 l vs).
  { intros l0 vs0 H0. eapply Forall2_impl; [exact H0|]. simpl. intros b w Hb.
    by eapply lookup_weaken. }
  assert (Hnin : n ∉ dn).
  { intros Hin. destruct (Forall2_elem_l _ _ _ _ (mw_areas _ _ _ _ Hwf) Hin) as (w & _ & Hw). congruence. }
  assert (Hs1 : sorted_areas ((dvs ++ [copy_area new v]) ++ vs')).
  { rewrite <- app_assoc. simpl. by apply sorted_middle in Hs; apply sorted_middle. }
  assert (Hwf1 : map_wf k1 new (dn ++ [n]) (dvs ++ [copy_area new v])).
  { split.
    - eexists. unfold k1. simpl. rewrite lookup_insert_eq. split; [reflexivity|]. simpl. by rewrite Hl.
    - apply Forall2_app; [apply Hup, Hwf|]. constructor; [apply lookup_insert_eq|constructor].
    - rewrite <- Permutation_cons_append. apply NoDup_cons. split; [done|apply Hwf].
    - apply Forall_app. split; [apply Hwf|by repeat constructor].
    - by apply sorted_app in Hs1 as [? _]. }
  destruct (IH vs' k1 new (dn ++ [n]) (dvs ++ [copy_area new v])) as
    (k' & done' & cvs & Hrun & Hwf' & Hc & Hsub' & Hm' & Hk'); [by apply Hup|done|done|].
  exists k', (n :: done'), (copy_area new v :: cvs).
  rewrite <- !app_assoc in Hwf'. split_and!; try done.
  - constructor; [done|exact Hc].
  - by etrans.
  - intros m' Hne. rewrite Hm' by done. unfold k1. simpl. by rewrite lookup_insert_ne.
Qed.
(** The new address space next to the original. *)
Lemma vmmap_clone_run k map l vs : map_wf k map l vs ->
  exists k' new l' vs', vmmap_clone map k = Ret (Some new) k' /\ new <> map /\
    map_wf k' new l' vs' /\ Forall2 copy_of vs vs' /\ map_wf k' map l vs /\
    vmareas k ⊆ vmareas k' /\
    k' = k <| alloc_count := alloc_count k' |> <| vmareas := vmareas k' |> <| vmmaps := vmmaps k' |> /\
    vmmaps k !! new = None /\ forall m, m <> new -> vmmaps k' !! m = vmmaps k !! m.
Proof.
  intros Hwf. destruct (mw_map _ _ _ _ Hwf) as (m & Hm & Hl).
  destruct (slab_succeeds (alloc_count k) (dom (vmmaps k))) as [new Halloc].
  assert (Hne : new <> map).
  { intros ->. apply slab_obj_alloc_fresh in Halloc. apply Halloc. by apply elem_of_dom. }
  set (k0 := k <| alloc_count ::= S |>
    <| vmmaps := <[new := {| vmm_list := []; vmm_proc := None |}]> (vmmaps k) |>).
  assert (Hwf0 : map_wf k0 new [] []).
  { split; [|constructor|constructor|constructor|by split; constructor].
    eexists. unfold k0. simpl. by rewrite lookup_insert_eq. }
  destruct (clone_loop_run l vs k0 new [] []) as
    (k' & l' & vs' & Hrun & Hwf' & Hc & Hsub & Hother & Hk'); [apply Hwf|done|apply Hwf|].
  exists k', new, l', vs'. split_and!; try done.
  - unfold vmmap_clone. pose proof (vmmap_create_run k) as Hc0. rewrite Halloc in Hc0.
    rewrite (bind_ret _ _ _ _ _ Hc0). rewrite (bind_deref vmmaps _ m).
    + by rewrite Hl.
    + simpl. by rewrite lookup_insert_ne.
  - apply (map_wf_ext map k); [done| |].
    + rewrite Hother by done. unfold k0. simpl. by rewrite lookup_insert_ne.
    + intros b Hb. destruct (Forall2_elem_l _ _ _ _ (mw_areas _ _ _ _ Hwf) Hb) as (w & _ & Hw).
      rewrite Hw. by eapply lookup_weaken.
  - by apply slab_obj_alloc_fresh, not_elem_of_dom in Halloc.
  - intros m' Hm'. rewrite Hother by done. unfold k0. simpl. by rewrite lookup_insert_ne.
Qed.

Lemma vmmap_destroy_empty k map m : vmmaps k !! map = Some m -> vmm_list m = [] ->
  vmmap_destroy map k = Ret tt (k <| vmmaps := delete map (vmmaps k) |>).
Proof.
  intros Hm Hl. unfold vmmap_destroy. rewrite (bind_deref vmmaps _ _ _ _ Hm), Hl. cbn [destroy_loop].
  rewrite bind_ret_l. exact (slab_free_Some vmmaps _ _ _ Hm).
Qed.
End cloning.

(** ** Splitting a private area *)
Section corrupt.
Context `{PO : PlatformOk} `{MHO : MmHeadersOk} `{O : MmobjOps}.

Lemma shadow_create_run k :
  shadow_create k = match slab_obj_alloc (alloc_count k) (dom (mmobjs k)) with
    | None => Ret None (k <| alloc_count ::= S |>)
    | Some o => Ret (Some o) (k <| alloc_count ::= S |>
        <| mmobjs := <[o := new_mmobj shadow_mmobj_ops (MmoBottom None)]> (mmobjs k) |>)
    end.
Proof.
  unfold shadow_create, slab_alloc, init_obj, modify, bind, ret. simpl.
  by destruct (slab_obj_alloc _ _).
Qed.

(** Lookups in the heap after assignments. *)
Ltac heap := simpl; repeat first
  [ rewrite lookup_insert_eq | rewrite lookup_insert_ne by congruence | progress simpl ]; eauto.

Lemma split_private_corrupts k map a v s e o ob b bob bl :
  vmareas k !! a = Some v -> is_private (vma_flags v) = true -> vma_olink v <> None ->
  vma_obj v = Some o -> mmobjs k !! o = Some ob -> mmobj_bottom_obj o ob = Some b ->
  mmobjs k !! b = Some bob -> mmo_un bob = MmoVmas bl ->
  (forall n live, is_Some (slab_obj_alloc n live)) ->
  remove_split map a s e k = Fault ListCorrupt.
Proof.
  intros Ha Hpriv Hol Ho Hob Hb Hbob Hbl Hslab. unfold remove_split.
  pose proof (vmarea_alloc_run k) as Hva.
  destruct (Hslab (alloc_count k) (dom (vmareas k))) as [n Hn]. rewrite Hn in Hva.
  apply slab_obj_alloc_fresh, not_elem_of_dom in Hn. assert (Hna : n <> a) by congruence.
  rewrite (bind_ret _ _ _ _ _ Hva).
  rewrite (bind_deref vmareas _ v) by heap.
  rewrite (bind_assign vmareas _ v) by heap.
  erewrite bind_assign by heap. rewrite Hpriv. apply bind_fault. unfold split_private.
  match goal with |- bind shadow_create _ ?k1 = _ => set (k1' := k1) end.
  pose proof (shadow_create_run k1') as Hs1.
  destruct (Hslab (alloc_count k1') (dom (mmobjs k1'))) as [s1 Hf1]. rewrite Hf1 in Hs1.
  apply slab_obj_alloc_fresh, not_elem_of_dom in Hf1. change (mmobjs k1') with (mmobjs k) in *.
  rewrite (bind_ret _ _ _ _ _ Hs1). clear Hs1.
  match goal with |- bind shadow_create _ ?k2 = _ => set (k2' := k2) end.
  pose proof (shadow_create_run k2') as Hs2.
  destruct (Hslab (alloc_count k2') (dom (mmobjs k2'))) as [s2 Hf2]. rewrite Hf2 in Hs2.
  apply slab_obj_alloc_fresh, not_elem_of_dom in Hf2. unfold k2' in Hf2. simpl in Hf2.
  apply lookup_insert_None in Hf2 as [Hf2 Hne]. rewrite (bind_ret _ _ _ _ _ Hs2). clear Hs2.
  assert (s1 <> o /\ s1 <> b /\ s2 <> o /\ s2 <> b) as (? & ? & ? & ?) by (split_and!; congruence).
  unfold k2', k1'. clear k2' k1'.
  erewrite bind_deref by heap. simpl. rewrite Ho.
  erewrite bind_assign by heap.
  erewrite bind_assign by heap.
  erewrite bind_assign by heap.
  erewrite bind_assign by heap.
  unfold nonnull at 1. unfold ret at 1. unfold bind at 1. cbn [obind].
  erewrite bind_deref by heap. rewrite Hb.
  erewrite bind_assign by heap.
  erewrite bind_assign by heap.
  match goal with |- bind (mmobj_bottom_vmas s1) _ ?k3 = _ => set (k3' := k3) end.
  assert (Hbv : mmobj_bottom_vmas s1 k3' = Ret (b, bl) k3').
  { unfold mmobj_bottom_vmas. erewrite bind_deref by (unfold k3'; heap).
    erewrite (bottom_of_shadow s1); [|reflexivity|reflexivity].
    unfold nonnull at 1. unfold ret at 1. unfold bind at 1. cbn [obind].
    erewrite bind_deref by (unfold k3'; heap). unfold mmo_vmas. by rewrite Hbl. }
  rewrite (bind_ret _ _ _ _ _ Hbv). apply bind_fault. unfold olink_insert_tail.
  erewrite bind_deref by (unfold k3'; heap). erewrite bind_deref by (unfold k3'; heap).
  unfold mmo_vmas. rewrite Hbl. unfold nonnull, ret, bind. simpl.
  by destruct (vma_olink v).
Qed.
End corrupt.

(** ** Properties *)
Section properties.
Context `{PO : PlatformOk} `{MH : MmHeaders} `{O : MmobjOps}.

(** [vmmap_lookup] on a well-formed address space finds the area that maps a page, which is
    unique, and returns NULL exactly when the page is unmapped; it changes nothing. *)
Theorem vmmap_lookup_spec k map vfn : vmmap_wf k map ->
  exists res, vmmap_lookup map vfn k = Ret res k /\
    forall a, res = Some a <-> mapped k map vfn a.
Proof.
  intros (l & vs & Hwf). destruct (mw_map _ _ _ _ Hwf) as (m & Hm & Hl).
  destruct (lookup_loop_run (k := k) l vs vfn) as (res & Hrun & Hres); [apply Hwf..|].
  exists res. unfold vmmap_lookup. rewrite (bind_deref vmmaps _ _ _ _ Hm), Hl. split; [done|].
  intros a. rewrite Hres. unfold mapped. split.
  - intros (Hin & v & ? & ?). exists m, v. by rewrite Hl.
  - intros (m' & v & Hm' & Hin & ? & ?). rewrite Hm in Hm'. injection Hm' as <-.
    rewrite Hl in Hin. eauto.
Qed.

(** [vmmap_is_range_empty] on a range of user pages returns 1 when no page of the range is
    mapped and 0 otherwise. *)
Theorem vmmap_is_range_empty_spec k map start npages : vmmap_wf k map ->
  user_lo <= start -> 0 < npages -> start + npages <= user_hi ->
  exists r, vmmap_is_range_empty map start npages k = Ret r k /\ (r = 0 \/ r = 1) /\
    (r = 1 <-> forall vfn a, start <= vfn < start + npages -> ~ mapped k map vfn a).
Proof.
  intros (l & vs & Hwf) Hlo Hn Hhi. destruct (mw_map _ _ _ _ Hwf) as (m & Hm & Hl).
  pose proof user_pages as Hup. unfold vmmap_is_range_empty. rewrite uint32_small by lia.
  rewrite bind_KASSERT by (rewrite !andb_true_iff, Z.ltb_lt, !Z.leb_le; fold user_lo user_hi; lia).
  rewrite (bind_deref vmmaps _ _ _ _ Hm), Hl.
  rewrite (range_empty_run (k := k) l vs) by apply Hwf.
  replace (start + npages - start) with npages by lia. eexists. split; [done|].
  pose proof (free_range_covers vs start npages Hn (mw_sorted _ _ _ _ Hwf)) as Hfree.
  assert (Hmapped : free_range vs start npages <->
    forall vfn a, start <= vfn < start + npages -> ~ mapped k map vfn a).
  { rewrite Hfree, Forall_forall. unfold mapped. split.
    - intros HF vfn a Hvfn (m' & v & Hm' & Hin & Hav & Hc). simplify_eq.
      destruct (Forall2_elem_l _ _ _ _ (mw_areas _ _ _ _ Hwf) Hin) as (w & Hw & Haw).
      simplify_eq. by apply (HF v Hw vfn).
    - intros HF v Hv vfn Hvfn Hc.
      destruct (Forall2_elem_r _ _ _ _ (mw_areas _ _ _ _ Hwf) Hv) as (a & Hin & Hav).
      apply (HF vfn a Hvfn). exists m, v. by rewrite Hl. }
  case_decide as Hd; (split; [lia|]); rewrite <- Hmapped; [done|]. by split.
Qed.


(** [vmmap_find_range] downwards returns the highest range of [npages] free pages of user
    memory, and -1 exactly when there is none. *)
Theorem vmmap_find_range_hilo_spec k map l vs npages : map_wf k map l vs ->
  0 < npages < 2 ^ 32 -> vs <> [] \/ npages <= user_hi - user_lo ->
  exists r, vmmap_find_range map npages VMMAP_DIR_HILO k = Ret r k /\
    (highest_fit vs npages r \/ r = -1 /\ forall r', ~ fits vs npages r').
Proof.
  intros Hwf Hn Hne. destruct (mw_map _ _ _ _ Hwf) as (m & Hm & Hl).
  unfold vmmap_find_range. rewrite (bind_deref vmmaps _ _ _ _ Hm), Hl.
  rewrite bind_KASSERT by (apply Z.ltb_lt; lia). rewrite Z.eqb_refl.
  destruct (Z.eqb_spec VMMAP_DIR_HILO VMMAP_DIR_LOHI) as [Heq|_];
    [pose proof vmmap_dirs; congruence|].
  apply (find_hilo_run npages Hn l vs); [apply Hwf..|done].
Qed.

(** In an empty address space [vmmap_find_range] upwards returns the first user page whatever
    the size of the request: it does not report -1 for more pages than user memory has. *)
Theorem vmmap_find_range_empty_unchecked k map m npages :
  vmmaps k !! map = Some m -> vmm_list m = [] -> user_hi - user_lo < npages < 2 ^ 32 ->
  vmmap_find_range map npages VMMAP_DIR_LOHI k = Ret user_lo k /\ forall r, ~ fits [] npages r.
Proof.
  intros Hm Hl Hn. pose proof user_pages as Hup. split.
  - unfold vmmap_find_range. rewrite (bind_deref vmmaps _ _ _ _ Hm), Hl.
    rewrite bind_KASSERT by (apply Z.ltb_lt; lia). by rewrite Z.eqb_refl.
  - intros r (? & ? & _). lia.
Qed.

(** [vmmap_insert] of a fresh area that overlaps no other keeps the address space ordered and
    disjoint, maps the pages of the area, and changes the mapping of no other page. *)
Theorem vmmap_insert_spec k map l vs a v : map_wf k map l vs ->
  vmareas k !! a = Some v -> vma_vmmap v = None -> vma_plink v = None -> user_area v ->
  free_range vs (vma_start v) (vma_end v - vma_start v) ->
  exists k' l' vs', vmmap_insert map a k = Ret tt k' /\ map_wf k' map l' vs' /\ l' ≡ₚ a :: l /\
    forall vfn pg, maps_page vs' vfn pg <->
      maps_page vs vfn pg \/ (covers v vfn /\ pg = (vma_obj v, page_of v vfn)).
Proof.
  intros Hwf Ha Hm Hp Hu Hfree.
  destruct (insert_run k map l vs a v Hwf Ha Hm Hp Hu Hfree)
    as (front & back & vf & vb & k' & -> & -> & Hrun & Hwf' & _).
  exists k'. eexists _, _. split_and!; [exact Hrun|exact Hwf'|by rewrite Permutation_middle|].
  intros vfn pg. by rewrite maps_page_middle.
Qed.


(** C38: Splitting a private area whose object is on the list of its bottom object inserts the
    list link a second time: the list of areas of the bottom object is corrupted. *)
Theorem vmmap_remove_private_split_corrupts `{!MmHeadersOk MH} k map a v s e o ob b bob bl :
  vmareas k !! a = Some v -> is_private (vma_flags v) = true -> vma_olink v <> None ->
  vma_obj v = Some o -> mmobjs k !! o = Some ob -> mmobj_bottom_obj o ob = Some b ->
  mmobjs k !! b = Some bob -> mmo_un bob = MmoVmas bl ->
  (forall n live, is_Some (slab_obj_alloc n live)) -> vma_start v < s -> e < vma_end v ->
  remove_loop map [a] s e k = Fault ListCorrupt.
Proof.
  intros Ha Hpriv Hol Ho Hob Hb Hbob Hbl Hslab Hst Hen. cbn [remove_loop].
  rewrite (bind_deref vmareas _ _ _ _ Ha).
  assert ((vma_start v <? s) && (e <? vma_end v) = true) as -> by (rewrite andb_true_iff, !Z.ltb_lt; lia).
  apply bind_fault. by apply (split_private_corrupts k map a v s e o ob b bob bl).
Qed.

(** [vmmap_clone] with memory available gives a new address space that has a copy of every
    area, with the same pages, offsets and permissions and without an object, and leaves the
    original and every other area untouched. *)
Theorem vmmap_clone_spec k map l vs : map_wf k map l vs ->
  (forall n live, is_Some (slab_obj_alloc n live)) ->
  exists k' new l' vs', vmmap_clone map k = Ret (Some new) k' /\ new <> map /\
    map_wf k' new l' vs' /\ Forall2 copy_of vs vs' /\ map_wf k' map l vs /\
    vmareas k ⊆ vmareas k'.
Proof.
  intros Hwf Hslab. destruct (vmmap_clone_run Hslab k map l vs Hwf) as (k' & new & l' & vs' & ? & ? & ? & ? & ? & ? & _).
  exists k', new, l', vs'. by split_and!.
Qed.
End properties.

(** ** The properties at concrete states *)
Module Witness.
(** Objects that only count their references. *)
#[local] Instance counted : MmobjOps := {|
  mmo_ref o := assign mmobjs o (fun ob => ob <| mmo_refcount ::= Z.succ |>);
  mmo_put o := assign mmobjs o (fun ob => ob <| mmo_refcount ::= Z.pred |>);
  mmo_lookuppage _ _ _ := ret (-1, None);
  mmo_fillpage _ _ := ret (-1);
  mmo_dirtypage _ _ := ret (-1);
  mmo_cleanpage _ _ := ret (-1);
|}.

Definition alone : rely kernel := fun _ k k' => k' = k.

#[local] Program Instance counted_objects map : VmObjects alone map := {|
  held k X := forall o, o ∈ X -> is_Some (mmobjs k !! o);
|}.
Next Obligation.
  intros map k o X HX. simpl. destruct (HX o) as [ob Hob]; [multiset_solver|].
  rewrite (assign_Some mmobjs _ _ _ _ Hob). simpl. split; [|by split_and!].
  intros o' Ho'. destruct (decide (o' = o)) as [->|Hne]; [by rewrite lookup_insert_eq|].
  rewrite lookup_insert_ne by done. apply HX. multiset_solver.
Qed.
Next Obligation.
  intros map k o X HX. simpl. destruct (HX o) as [ob Hob]; [multiset_solver|].
  rewrite (assign_Some mmobjs _ _ _ _ Hob). eexists. split_and!; [reflexivity| |by destruct k].
  intros o' Ho'. simpl. destruct (decide (o' = o)) as [->|Hne]; [by rewrite lookup_insert_eq|].
  rewrite lookup_insert_ne by done. apply HX. multiset_solver.
Qed.
Next Obligation. intros map k k' X (-> & _) HX. exact HX. Qed.

(** Pages 1024-1039 and 1056-1087, shared mappings of objects 1 and 2. *)
Definition area (start stop off : Z) (o : option ptr) (m : option ptr) (flags : Z) : vmarea := {|
  vma_start := start; vma_end := stop; vma_off := off; vma_prot := 3; vma_flags := flags;
  vma_vmmap := m; vma_obj := o; vma_plink := m; vma_olink := None |}.
Definition area1 : vmarea := area 1024 1040 0 (Some 1%positive) (Some 1%positive) 1.
Definition area2 : vmarea := area 1056 1088 5 (Some 2%positive) (Some 1%positive) 1.
Definition area3 : vmarea := area 1040 1048 0 (Some 1%positive) None 1.

Definition vm_proc : proc := {|
  p_pid := 1; p_comm := ""; p_threads := []; p_children := []; p_pproc := None; p_status := 0;
  p_state := PROC_RUNNING; p_pagedir := Some 1%positive; p_list_link := true; p_child_link := None;
  p_files := []; p_cwd := None; p_vmmap := Some 1%positive; p_brk := 0; p_start_brk := 0 |}.

Definition vm : kernel :=
  boot <| vmmaps := {[ 1%positive := {| vmm_list := [1%positive; 2%positive]; vmm_proc := None |} ]} |>
       <| vmareas := {[ 1%positive := area1; 2%positive := area2; 3%positive := area3 ]} |>
       <| mmobjs := {[ 1%positive := new_mmobj anon_mmobj_ops (MmoVmas []);
                       2%positive := new_mmobj anon_mmobj_ops (MmoVmas []) ]} |>
       <| procs := {[ 1%positive := vm_proc ]} |> <| curproc := Some 1%positive |>.

Lemma vm_sorted : sorted_areas [area1; area2].
Proof.
  split; [|by repeat constructor].
  rewrite !Forall_cons. unfold user_area, user_lo, user_hi. simpl. split_and!; try done; lia.
Qed.

Lemma vm_map_wf : map_wf vm 1 [1%positive; 2%positive] [area1; area2].
Proof.
  split; [by eexists|by repeat constructor| |by repeat constructor|apply vm_sorted].
  apply (bool_decide_unpack _). vm_compute. exact I.
Qed.

Lemma vmmap_lookup_spec_witness :
  exists res, vmmap_lookup 1 1058 vm = Ret res vm /\ res = Some 2%positive.
Proof.
  destruct (vmmap_lookup_spec vm 1 1058 (ex_intro _ _ (ex_intro _ _ vm_map_wf)))
    as (res & Hrun & Hres).
  exists res. split; [exact Hrun|]. apply Hres.
  exists {| vmm_list := [1%positive; 2%positive]; vmm_proc := None |}, area2.
  split; [reflexivity|]. split; [by right; left|]. split; [reflexivity|]. unfold covers. simpl. lia.
Defined.

Lemma vmmap_is_range_empty_spec_witness :
  exists r, vmmap_is_range_empty 1 1040 16 vm = Ret r vm /\ r = 1.
Proof.
  destruct (vmmap_is_range_empty_spec vm 1 1040 16 (ex_intro _ _ (ex_intro _ _ vm_map_wf)))
    as (r & Hrun & _ & _); [vm_compute; discriminate|lia|vm_compute; discriminate|].
  exists r. split; [exact Hrun|]. vm_compute in Hrun. by injection Hrun as <-.
Defined.


Lemma vmmap_find_range_hilo_spec_witness :
  exists r, vmmap_find_range 1 20 VMMAP_DIR_HILO vm = Ret r vm /\ r = 786412.
Proof.
  destruct (vmmap_find_range_hilo_spec vm 1 _ _ 20 vm_map_wf) as (r & Hrun & _); [lia|by left|].
  exists r. split; [exact Hrun|]. vm_compute in Hrun. by injection Hrun as <-.
Defined.

Definition empty_vm : kernel := vm <| vmmaps := {[ 1%positive := {| vmm_list := []; vmm_proc := None |} ]} |>.

Lemma vmmap_find_range_empty_unchecked_witness :
  vmmap_find_range 1 1000000 VMMAP_DIR_LOHI empty_vm = Ret 1024 empty_vm.
Proof.
  refine (proj1 (vmmap_find_range_empty_unchecked empty_vm 1 {| vmm_list := []; vmm_proc := None |}
    1000000 eq_refl eq_refl _)).
  split; vm_compute; reflexivity.
Defined.

Lemma vmmap_insert_spec_witness :
  exists k' l' vs', vmmap_insert 1 3 vm = Ret tt k' /\ map_wf k' 1 l' vs' /\
    l' ≡ₚ [3%positive; 1%positive; 2%positive].
Proof.
  destruct (vmmap_insert_spec vm 1 _ _ 3 area3 vm_map_wf eq_refl eq_refl eq_refl)
    as (k' & l' & vs' & Hrun & Hwf & Hp & _).
  - split_and!; [vm_compute; discriminate|reflexivity|vm_compute; discriminate].
  - unfold free_range. rewrite !Forall_cons. simpl. split_and!; try done; lia.
  - exists k', l', vs'. split; [exact Hrun|]. split; [exact Hwf|exact Hp].
Defined.


(** A private mapping of pages 1024-1039: area 4, its shadow object 3 over object 1. *)
Definition private_vm : kernel :=
  vm <| vmareas ::= <[4%positive := (area 1024 1040 0 (Some 3%positive) (Some 1%positive) 2)
                        <| vma_olink := Some 1%positive |>]> |>
     <| mmobjs ::= <[3%positive := (new_mmobj shadow_mmobj_ops (MmoBottom (Some 1%positive)))
                        <| mmo_shadowed := Some 1%positive |>]> |>.

Lemma vmmap_remove_private_split_corrupts_witness :
  remove_loop 1 [4%positive] 1028 1030 private_vm = Fault ListCorrupt.
Proof.
  refine (vmmap_remove_private_split_corrupts private_vm 1 4
    ((area 1024 1040 0 (Some 3%positive) (Some 1%positive) 2) <| vma_olink := Some 1%positive |>)
    1028 1030 3 _ 1 _ [] eq_refl eq_refl _ eq_refl eq_refl eq_refl eq_refl eq_refl _ _ _);
    [discriminate|by eexists|simpl; lia|simpl; lia].
Defined.

Lemma vmmap_clone_spec_witness :
  exists k' new, vmmap_clone 1 vm = Ret (Some new) k' /\ vmmap_wf k' new.
Proof.
  destruct (vmmap_clone_spec vm 1 _ _ vm_map_wf) as (k' & new & l' & vs' & Hrun & _ & Hwf & _);
    [by eexists|].
  exists k', new. split; [exact Hrun|]. by exists l', vs'.
Defined.
End Witness.
