(* ===== verification/Pframe.v ===== *)
(** * Pframe

    [kernel/mm/pframe.c]: the cache of resident pages.  A page is identified by
    a memory object and a page number; it is on the list of allocated pages or
    on the list of pinned pages, on one chain of the hash table, and on its
    object's list of resident pages.  The routines call the entry points of
    the object ([MmobjOps]). *)

From S2P Require Import Prelude Platform State Sched Mmobj.

(** ** Links *)

(** [list_remove(&pf->pf_link)] *)
Definition pf_link_remove (pf : ptr) : K unit :=
  p ← deref pframes pf;
  match pf_link p with
  | None => fail ListCorrupt
  | Some AllocList => modify (fun k => k <| alloc_list ::= remove_elem pf |>)
  | Some PinnedList => modify (fun k => k <| pinned_list ::= remove_elem pf |>)
  end;;
  assign pframes pf (fun p => p <| pf_link := None |>).

(** [list_insert_tail(&alloc_list, &pf->pf_link)], or on [pinned_list]. *)
Definition pf_link_insert_tail (l : page_list) (pf : ptr) : K unit :=
  p ← deref pframes pf;
  match pf_link p with
  | Some _ => fail ListCorrupt
  | None =>
      match l with
      | AllocList => modify (fun k => k <| alloc_list ::= fun l => l ++ [pf] |>)
      | PinnedList => modify (fun k => k <| pinned_list ::= fun l => l ++ [pf] |>)
      end;;
      assign pframes pf (fun p => p <| pf_link := Some l |>)
  end.

Definition chain (k : kernel) (h : Z) : list ptr := default [] (pframe_hash k !! h).

(** [list_remove(&pf->pf_hlink)] and [list_insert_head(&pframe_hash[h], &pf->pf_hlink)] *)
Definition hlink_remove (pf : ptr) : K unit :=
  p ← deref pframes pf;
  match pf_hlink p with
  | None => fail ListCorrupt
  | Some h =>
      modify (fun k => k <| pframe_hash := <[h := remove_elem pf (chain k h)]> (pframe_hash k) |>);;
      assign pframes pf (fun p => p <| pf_hlink := None |>)
  end.

Definition hlink_insert_head (h : Z) (pf : ptr) : K unit :=
  p ← deref pframes pf;
  match pf_hlink p with
  | Some _ => fail ListCorrupt
  | None =>
      modify (fun k => k <| pframe_hash := <[h := pf :: chain k h]> (pframe_hash k) |>);;
      assign pframes pf (fun p => p <| pf_hlink := Some h |>)
  end.

(** [list_insert_head(&o->mmo_respages, &pf->pf_olink)] and [list_remove(&pf->pf_olink)] *)
Definition respages_insert_head (o pf : ptr) : K unit :=
  p ← deref pframes pf;
  match pf_olink p with
  | Some _ => fail ListCorrupt
  | None =>
      assign mmobjs o (fun ob => ob <| mmo_respages ::= cons pf |>);;
      assign pframes pf (fun p => p <| pf_olink := Some o |>)
  end.

Definition respages_remove (pf : ptr) : K unit :=
  p ← deref pframes pf;
  match pf_olink p with
  | None => fail ListCorrupt
  | Some o =>
      assign mmobjs o (fun ob => ob <| mmo_respages ::= remove_elem pf |>);;
      assign pframes pf (fun p => p <| pf_olink := None |>)
  end.

Definition pframe_set_busy (pf : ptr) : K unit := assign pframes pf (fun p => p <| pf_busy := true |>).
Definition pframe_clear_busy (pf : ptr) : K unit := assign pframes pf (fun p => p <| pf_busy := false |>).
Definition pframe_set_dirty (pf : ptr) : K unit := assign pframes pf (fun p => p <| pf_dirty := true |>).
Definition pframe_clear_dirty (pf : ptr) : K unit := assign pframes pf (fun p => p <| pf_dirty := false |>).

Section pframe.
Context `{P : Platform, F : LoopFuel, Ops : MmobjOps, MH : MmHeaders}.

Definition hash_page (o : ptr) (pagenum : Z) : Z := uint32 (uint32 (Zpos o) + pagenum) mod PF_HASH_SIZE.

(** The initialisation of one chain after another is an empty table. *)
Definition pframe_init : K unit :=
  modify (fun k => k <| npinned := 0 |> <| pinned_list := [] |> <| nallocated := 0 |>
                     <| alloc_list := [] |> <| pframe_hash := ∅ |>
                     <| nfreepages_target := Z.shiftr (page_free_count (dom (pages k))) 1 |>
                     <| nfreepages_min := 0 |>);;
  sched_queue_init AllocWait.

Fixpoint resident_loop (l : list ptr) (o : ptr) (pagenum : Z) : K (option ptr) :=
  match l with
  | [] => ret None
  | pf :: l =>
      p ← deref pframes pf;
      if bool_decide (pf_obj p = Some o) && (pf_pagenum p =? pagenum) then
        (if pframe_is_pinned p then ret tt
         else pf_link_remove pf;; pf_link_insert_tail AllocList pf);;
        ret (Some pf)
      else resident_loop l o pagenum
  end.

Definition pframe_get_resident (o : ptr) (pagenum : Z) : K (option ptr) :=
  k ← get; resident_loop (chain k (hash_page o pagenum)) o pagenum.

(** [page_alloc]: a page frame with arbitrary content. *)
Definition page_alloc : K (option ptr) :=
  fun k => let r := page_alloc_n (alloc_count k) (dom (pages k)) in
           Ret r (k <| alloc_count ::= S |>
                    <| pages ::= fun m => match r with
                         | Some a => <[a := page_content (alloc_count k)]> m
                         | None => m end |>).

Definition page_free (a : ptr) : K unit := slab_free pages a.

Definition pframe_alloc (o : ptr) (pagenum : Z) : K (option ptr) :=
  s ← slab_alloc pframes;
  match s with
  | None => ret None
  | Some pf =>
      init_obj pframes pf {| pf_obj := None; pf_pagenum := 0; pf_addr := 1; pf_busy := false;
        pf_dirty := false; pf_pincount := 0; pf_link := None; pf_hlink := None; pf_olink := None |};;
      a ← page_alloc;
      match a with
      | None => slab_free pframes pf;; ret None
      | Some addr =>
          assign pframes pf (fun p => p <| pf_addr := addr |>);;
          modify (fun k => k <| nallocated ::= Z.succ |>);;
          pf_link_insert_tail AllocList pf;;
          assign pframes pf (fun p => p <| pf_obj := Some o |> <| pf_pagenum := pagenum |>
            <| pf_busy := false |> <| pf_dirty := false |>);;
          sched_queue_init (PframeWait pf);;
          assign pframes pf (fun p => p <| pf_pincount := 0 |>);;
          hlink_insert_head (hash_page o pagenum) pf;;
          mmo_ref o;;
          assign mmobjs o (fun ob => ob <| mmo_nrespages ::= Z.succ |>);;
          respages_insert_head o pf;;
          ret (Some pf)
      end
  end.

Definition pframe_fill (pf : ptr) : K Z :=
  pframe_set_busy pf;;
  p ← deref pframes pf;
  o ← nonnull (pf_obj p);
  r ← mmo_fillpage o pf;
  pframe_clear_busy pf;;
  sched_broadcast_on (PframeWait pf);;
  ret r.

(** [pageoutd_needed()] *)
Definition pageoutd_needed : K bool :=
  k ← get; ret ((page_free_count (dom (pages k)) <=? nfreepages_min k) &&
                match alloc_list k with [] => false | _ => true end).

Definition pageoutd_wakeup : K unit := sched_broadcast_on PageoutdWait.

(** A page that is busy is waited for and asked for again. *)
Fixpoint pframe_get_loop (fuel : nat) (o : ptr) (pagenum : Z) : K (Z * option ptr) :=
  match fuel with
  | O => no_fuel
  | S fuel =>
      t ← pframe_get_resident o pagenum;
      match t with
      | Some pf =>
          p ← deref pframes pf;
          if pf_busy p then
            sched_sleep_on (PframeWait pf);;
            pframe_get_loop fuel o pagenum
          else ret (0, Some pf)
      | None =>
          need ← pageoutd_needed;
          (if need : bool then pageoutd_wakeup;; sched_sleep_on AllocWait else ret tt);;
          a ← pframe_alloc o pagenum;
          match a with
          | None => ret (-1, None)
          | Some pf =>
              r ← pframe_fill pf;
              if r <? 0 then ret (r, None) else ret (0, Some pf)
          end
      end
  end.

Definition pframe_get (o : ptr) (pagenum : Z) : K (Z * option ptr) :=
  pframe_get_loop loop_fuel o pagenum.

Definition pframe_lookup (o : option ptr) (pagenum forwrite : Z) : K (Z * option ptr) :=
  KASSERT (bool_decide (o <> None));;
  o ← nonnull o;
  mmo_lookuppage o pagenum forwrite.

(** Pinning and unpinning; an empty list is an error that is not reported. *)
Definition pframe_pin (pf : ptr) : K unit :=
  p ← deref pframes pf;
  KASSERT (negb (pframe_is_free p));;
  KASSERT (0 <=? pf_pincount p);;
  k ← get;
  if pframe_is_pinned p then
    assign pframes pf (fun p => p <| pf_pincount ::= Z.succ |>)
  else
    match alloc_list k with
    | [] => ret tt
    | _ =>
        pf_link_remove pf;;
        modify (fun k => k <| nallocated ::= Z.pred |>);;
        pf_link_insert_tail PinnedList pf;;
        modify (fun k => k <| npinned ::= Z.succ |>);;
        assign pframes pf (fun p => p <| pf_pincount ::= Z.succ |>)
    end.

Definition pframe_unpin (pf : ptr) : K unit :=
  p ← deref pframes pf;
  KASSERT (negb (pframe_is_free p));;
  KASSERT (0 <? pf_pincount p);;
  assign pframes pf (fun p => p <| pf_pincount ::= Z.pred |>);;
  p' ← deref pframes pf;
  k ← get;
  if pf_pincount p' =? 0 then
    match pinned_list k with
    | [] => ret tt
    | _ =>
        pf_link_remove pf;;
        modify (fun k => k <| npinned ::= Z.pred |>);;
        pf_link_insert_tail AllocList pf;;
        modify (fun k => k <| nallocated ::= Z.succ |>)
    end
  else ret tt.

Definition pframe_dirty (pf : ptr) : K Z :=
  p ← deref pframes pf;
  KASSERT (negb (pf_busy p));;
  pframe_set_busy pf;;
  o ← nonnull (pf_obj p);
  r ← mmo_dirtypage o pf;
  (if r =? 0 then pframe_set_dirty pf else ret tt);;
  pframe_clear_busy pf;;
  sched_broadcast_on (PframeWait pf);;
  ret r.

(** The page tables of the processes that map the page. *)
Fixpoint remove_from_pts_loop (l : list ptr) (pagenum : Z) : K unit :=
  match l with
  | [] => ret tt
  | vma :: l =>
      v ← deref vmareas vma;
      (if (vma_off v <=? pagenum) && (pagenum <? uint32 (vma_off v + uint32 (vma_end v - vma_start v)))
       then
         map ← nonnull (vma_vmmap v);
         m ← deref vmmaps map;
         match vmm_proc m with
         | None => ret tt
         | Some pr =>
             p ← deref procs pr;
             pd ← nonnull (p_pagedir p);
             mmu_do (PtUnmap pd (PN_TO_ADDR (uint32 (vma_start v + pagenum - vma_off v))))
         end
       else ret tt);;
      remove_from_pts_loop l pagenum
  end.

Definition pframe_remove_from_pts (pf : ptr) : K unit :=
  p ← deref pframes pf;
  o ← nonnull (pf_obj p);
  '(_, l) ← mmobj_bottom_vmas o;
  remove_from_pts_loop l (pf_pagenum p).

Definition pframe_clean (pf : ptr) : K Z :=
  p ← deref pframes pf;
  KASSERT (pf_dirty p);;
  KASSERT (pf_pincount p =? 0);;
  pframe_clear_dirty pf;;
  mmu_do (TlbFlushPage (pf_addr p));;
  pframe_remove_from_pts pf;;
  pframe_set_busy pf;;
  o ← nonnull (pf_obj p);
  r ← mmo_cleanpage o pf;
  (if r <? 0 then pframe_set_dirty pf else ret tt);;
  pframe_clear_busy pf;;
  sched_broadcast_on (PframeWait pf);;
  ret r.

(** The frame is unlinked from its object after its memory was given back; nothing is
    allocated in between, so the link is still what it was. *)
Definition pframe_free (pf : ptr) : K unit :=
  p ← deref pframes pf;
  KASSERT (negb (pframe_is_pinned p));;
  KASSERT (negb (pframe_is_free p));;
  KASSERT (negb (pf_busy p));;
  o ← nonnull (pf_obj p);
  mmu_do (TlbFlushPage (pf_addr p));;
  pframe_remove_from_pts pf;;
  hlink_remove pf;;
  assign pframes pf (fun p => p <| pf_obj := None |>);;
  modify (fun k => k <| nallocated ::= Z.pred |>);;
  pf_link_remove pf;;
  page_free (pf_addr p);;
  slab_free pframes pf;;
  assign mmobjs o (fun ob => ob <| mmo_nrespages ::= Z.pred |>);;
  assign mmobjs o (fun ob => ob <| mmo_respages ::= remove_elem pf |>);;
  mmo_put o.

Definition pframe_migrate (pf dest : ptr) : K unit :=
  p ← deref pframes pf;
  KASSERT (negb (pf_busy p));;
  t ← pframe_get_resident dest (pf_pagenum p);
  match t with
  | Some _ =>
      pframe_unpin pf;;
      _ ← pframe_clean pf;
      pframe_free pf
  | None =>
      src ← nonnull (pf_obj p);
      assign pframes pf (fun p => p <| pf_obj := Some dest |>);;
      hlink_remove pf;;
      respages_remove pf;;
      assign mmobjs src (fun ob => ob <| mmo_nrespages ::= Z.pred |>);;
      mmo_put src;;
      hlink_insert_head (hash_page dest (pf_pagenum p)) pf;;
      respages_insert_head dest pf;;
      assign mmobjs dest (fun ob => ob <| mmo_nrespages ::= Z.succ |>);;
      mmo_ref dest
  end.

(** [pframe_clean_all]: the loop starts over whenever it may have blocked. *)
Fixpoint clean_pass (l : list ptr) : K bool :=
  match l with
  | [] => ret true
  | pf :: l =>
      p ← deref pframes pf;
      KASSERT (negb (pframe_is_pinned p));;
      KASSERT (negb (pframe_is_free p));;
      if pf_busy p then sched_sleep_on (PframeWait pf);; ret false
      else if pf_dirty p then _ ← pframe_clean pf; ret false
      else clean_pass l
  end.

Fixpoint clean_all_loop (fuel : nat) : K unit :=
  match fuel with
  | O => no_fuel
  | S fuel =>
      k ← get;
      finished ← clean_pass (alloc_list k);
      if finished : bool then ret tt else clean_all_loop fuel
  end.

Definition pframe_clean_all : K unit := clean_all_loop loop_fuel.

(** One round of the pageout daemon: reclaim until enough pages are free. *)
Definition pageoutd_target_met : K bool :=
  k ← get; ret (nfreepages_target k <=? page_free_count (dom (pages k))).

Fixpoint pageoutd_round (fuel : nat) : K unit :=
  match fuel with
  | O => no_fuel
  | S fuel =>
      met ← pageoutd_target_met;
      k ← get;
      match (met : bool), alloc_list k with
      | true, _ | _, [] => ret tt
      | false, pf :: _ =>
          p ← deref pframes pf;
          (if pf_busy p then sched_sleep_on (PframeWait pf)
           else if pf_dirty p then _ ← pframe_clean pf; ret tt
           else pframe_free pf);;
          pageoutd_round fuel
      end
  end.
End pframe.

(** ** Invariant of the page lists *)
Definition on_list (k : kernel) (l : page_list) : list ptr :=
  match l with AllocList => alloc_list k | PinnedList => pinned_list k end.

(** Every resident page is on one of the two lists, on the pinned list exactly when its pin
    count is positive, and the counters count the lists. *)
Record lists_wf (k : kernel) : Prop := {
  lw_nalloc : nallocated k = Z.of_nat (length (alloc_list k));
  lw_npinned : npinned k = Z.of_nat (length (pinned_list k));
  lw_nodup l : NoDup (on_list k l);
  lw_live l pf : pf ∈ on_list k l -> is_Some (pframes k !! pf);
  lw_mem l pf p : pframes k !! pf = Some p -> pf_link p = Some l <-> pf ∈ on_list k l;
  lw_pin pf p : pframes k !! pf = Some p ->
    0 <= pf_pincount p /\
    pf_link p = Some (if pframe_is_pinned p then PinnedList else AllocList);
}.

(** The state after page [pf] moved to the tail of list [l] with pin count [n]. *)
Definition moved (pf : ptr) (p : pframe) (l : page_list) (n : Z) (k : kernel) : kernel :=
  k <| pframes := <[pf := p <| pf_link := Some l |> <| pf_pincount := n |>]> (pframes k) |>
    <| alloc_list := match l with AllocList => remove_elem pf (alloc_list k) ++ [pf]
                                | PinnedList => remove_elem pf (alloc_list k) end |>
    <| pinned_list := match l with PinnedList => remove_elem pf (pinned_list k) ++ [pf]
                                 | AllocList => remove_elem pf (pinned_list k) end |>
    <| nallocated := nallocated k + (if l is AllocList then 1 else 0)
                     - (if pf_link p is Some AllocList then 1 else 0) |>
    <| npinned := npinned k + (if l is PinnedList then 1 else 0)
                  - (if pf_link p is Some PinnedList then 1 else 0) |>.

Section lists.
Context {k : kernel} {pf : ptr} {p : pframe}.
Hypothesis Hwf : lists_wf k.
Hypothesis Hpf : pframes k !! pf = Some p.

Lemma not_on_other l : pf_link p = Some l -> forall l', l' <> l -> pf ∉ on_list k l'.
Proof. intros Hl l' Hne Hin. apply (lw_mem k Hwf l' pf p Hpf) in Hin. congruence. Qed.

Lemma on_list_moved l n l' :
  on_list (moved pf p l n k) l' =
    if decide (l' = l) then remove_elem pf (on_list k l') ++ [pf] else remove_elem pf (on_list k l').
Proof. by destruct l, l'. Qed.

Lemma moved_count l n :
  nallocated (moved pf p l n k) = Z.of_nat (length (alloc_list (moved pf p l n k))) /\
  npinned (moved pf p l n k) = Z.of_nat (length (pinned_list (moved pf p l n k))).
Proof.
  destruct (lw_pin k Hwf pf p Hpf) as [_ Hlink].
  assert (Hlen : forall l', Z.of_nat (length (remove_elem pf (on_list k l'))) =
    Z.of_nat (length (on_list k l')) - (if decide (pf_link p = Some l') then 1 else 0)).
  { intros l'. case_decide as Hl.
    - rewrite (length_remove_elem pf (on_list k l'));
        [lia|apply Hwf|by apply (lw_mem k Hwf l' pf p Hpf)].
    - rewrite remove_elem_not_in; [lia|]. intros Hin. by apply (lw_mem k Hwf l' pf p Hpf) in Hin. }
  pose proof (Hlen AllocList) as HA. pose proof (Hlen PinnedList) as HP.
  pose proof (lw_nalloc k Hwf). pose proof (lw_npinned k Hwf). simpl in *.
  destruct l; simpl; rewrite ?length_app; simpl;
    destruct (pframe_is_pinned p); rewrite Hlink in *; simpl in *; lia.
Qed.

Lemma moved_wf l n :
  0 <= n -> l = (if 0 <? n then PinnedList else AllocList) -> lists_wf (moved pf p l n k).
Proof.
  intros Hn Hl. destruct (moved_count l n) as [HcA HcP]. split; try done.
  - intros l'. rewrite on_list_moved. pose proof (lw_nodup k Hwf l') as Hnd.
    pose proof (NoDup_remove_elem pf _ Hnd) as Hr. case_decide; [|done].
    apply NoDup_app. split_and!; [done| |apply NoDup_singleton].
    intros x Hx ->%list_elem_of_singleton. by apply elem_of_remove_elem in Hx as [? _].
  - intros l' x. rewrite on_list_moved. simpl. intros Hx.
    destruct (decide (x = pf)) as [->|Hne]; [by rewrite lookup_insert_eq|].
    rewrite lookup_insert_ne by done. apply (lw_live k Hwf l').
    case_decide; rewrite ?elem_of_app, ?elem_of_remove_elem, ?list_elem_of_singleton in Hx; naive_solver.
  - intros l' x q. rewrite on_list_moved. simpl. destruct (decide (x = pf)) as [->|Hne].
    + rewrite lookup_insert_eq. intros [= <-]. simpl. case_decide;
        rewrite ?elem_of_app, ?elem_of_remove_elem, ?list_elem_of_singleton; naive_solver.
    + rewrite lookup_insert_ne by done. intros Hx. rewrite (lw_mem k Hwf l' x q Hx).
      case_decide; rewrite ?elem_of_app, ?elem_of_remove_elem, ?list_elem_of_singleton; naive_solver.
  - intros x q. simpl. destruct (decide (x = pf)) as [->|Hne].
    + rewrite lookup_insert_eq. intros [= <-]. simpl. split; [done|]. by rewrite Hl.
    + rewrite lookup_insert_ne by done. apply (lw_pin k Hwf).
Qed.
End lists.

(** Running the link operations. *)
Definition set_list (l : page_list) (g : list ptr -> list ptr) (k : kernel) : kernel :=
  match l with
  | AllocList => k <| alloc_list ::= g |>
  | PinnedList => k <| pinned_list ::= g |>
  end.

Lemma pframes_set_list l g k : pframes (set_list l g k) = pframes k.
Proof. by destruct l. Qed.

Lemma pf_link_remove_run k pf p l :
  pframes k !! pf = Some p -> pf_link p = Some l ->
  pf_link_remove pf k = Ret tt ((set_list l (remove_elem pf) k)
    <| pframes := <[pf := p <| pf_link := None |>]> (pframes k) |>).
Proof.
  intros Hpf Hl. unfold pf_link_remove. rewrite (bind_deref pframes _ _ _ _ Hpf), Hl.
  destruct l; rewrite bind_modify; by rewrite (assign_Some pframes _ p).
Qed.

Lemma pf_link_insert_run k pf p l :
  pframes k !! pf = Some p -> pf_link p = None ->
  pf_link_insert_tail l pf k = Ret tt ((set_list l (fun m => m ++ [pf]) k)
    <| pframes := <[pf := p <| pf_link := Some l |>]> (pframes k) |>).
Proof.
  intros Hpf Hl. unfold pf_link_insert_tail. rewrite (bind_deref pframes _ _ _ _ Hpf), Hl.
  destruct l; rewrite bind_modify; by rewrite (assign_Some pframes _ p).
Qed.

Section pinning.
Context `{P : Platform, MHO : MmHeadersOk}.
Context {k : kernel} {pf : ptr} {p : pframe}.
Hypothesis Hwf : lists_wf k.
Hypothesis Hpf : pframes k !! pf = Some p.
Hypothesis Hobj : pf_obj p <> None.

Lemma owned : pframe_is_free p = false.
Proof. destruct (pf_obj p) as [o|] eqn:Ho; [|done]. by apply (owned_not_free p o). Qed.

Ltac pfheap := simpl; rewrite ?lookup_insert_eq; done.

Lemma pin_run :
  pframe_pin pf k = Ret tt (if pframe_is_pinned p
    then k <| pframes := <[pf := p <| pf_pincount := pf_pincount p + 1 |>]> (pframes k) |>
    else moved pf p PinnedList 1 k).
Proof.
  destruct (lw_pin k Hwf pf p Hpf) as [Hn Hlink].
  unfold pframe_pin. rewrite (bind_deref pframes _ _ _ _ Hpf), owned, !bind_KASSERT
    by (try apply Z.leb_le; done).
  rewrite bind_get. destruct (pframe_is_pinned p) eqn:Hpin.
  { by rewrite (assign_Some pframes _ _ _ _ Hpf). }
  assert (Hin : pf ∈ alloc_list k) by (by apply (lw_mem k Hwf AllocList pf p Hpf)).
  destruct (alloc_list k) as [|x l] eqn:Hal; [by apply not_elem_of_nil in Hin|].
  assert (Hzero : pf_pincount p = 0).
  { unfold pframe_is_pinned in Hpin. apply Z.ltb_ge in Hpin. lia. }
  assert (Hother : remove_elem pf (pinned_list k) = pinned_list k).
  { apply remove_elem_not_in. by apply (not_on_other Hwf Hpf AllocList Hlink PinnedList). }
  erewrite bind_ret by (by apply pf_link_remove_run). rewrite bind_modify.
  erewrite bind_ret by (apply pf_link_insert_run; pfheap). rewrite bind_modify.
  erewrite assign_Some by pfheap. f_equal. unfold moved. rewrite Hlink.
  kernel_ext; rewrite ?Hal, ?Hother, ?insert_insert_eq; try done; try lia.
  f_equal. destruct p; cbn in *. by subst.
Qed.

Lemma unpin_run : 0 < pf_pincount p ->
  pframe_unpin pf k = Ret tt (if pf_pincount p =? 1 then moved pf p AllocList 0 k
    else k <| pframes := <[pf := p <| pf_pincount := pf_pincount p - 1 |>]> (pframes k) |>).
Proof.
  intros Hpos. destruct (lw_pin k Hwf pf p Hpf) as [Hn Hlink].
  assert (Hpin : pframe_is_pinned p = true) by (by apply Z.ltb_lt). rewrite Hpin in Hlink.
  unfold pframe_unpin. rewrite (bind_deref pframes _ _ _ _ Hpf), owned, !bind_KASSERT
    by (try apply Z.ltb_lt; done).
  rewrite (bind_assign pframes _ _ _ _ _ Hpf). erewrite bind_deref by pfheap. rewrite bind_get.
  change (pf_pincount (p <| pf_pincount ::= Z.pred |>)) with (Z.pred (pf_pincount p)).
  destruct (Z.eqb_spec (pf_pincount p) 1) as [H1|H1].
  2: { destruct (Z.eqb_spec (Z.pred (pf_pincount p)) 0) as [|_]; [lia|].
       done. }
  destruct (Z.eqb_spec (Z.pred (pf_pincount p)) 0) as [_|]; [|lia]. simpl.
  assert (Hin : pf ∈ pinned_list k) by (by apply (lw_mem k Hwf PinnedList pf p Hpf)).
  destruct (pinned_list k) as [|x l] eqn:Hal; [by apply not_elem_of_nil in Hin|].
  assert (Hother : remove_elem pf (alloc_list k) = alloc_list k).
  { apply remove_elem_not_in. by apply (not_on_other Hwf Hpf PinnedList Hlink AllocList). }
  erewrite bind_ret by (apply pf_link_remove_run; [pfheap|done]). rewrite bind_modify.
  erewrite bind_ret by (apply pf_link_insert_run; pfheap). unfold modify. f_equal.
  unfold moved. rewrite Hlink.
  kernel_ext; rewrite ?Hal, ?Hother, ?insert_insert_eq; try done; try lia.
  f_equal. destruct p; cbn in *. by subst.
Qed.
End pinning.

(** ** Freeing a page *)

(** The areas on the list of the bottom object are in address spaces whose process, if any,
    has a page directory. *)
Definition pts_ok (k : kernel) (l : list ptr) : Prop :=
  Forall (fun vma => exists v map m, vmareas k !! vma = Some v /\ vma_vmmap v = Some map /\
    vmmaps k !! map = Some m /\
    match vmm_proc m with
    | None => True
    | Some pr => exists p pd, procs k !! pr = Some p /\ p_pagedir p = Some pd
    end) l.

Section freeing.
Context `{P : Platform, MH : MmHeaders}.

Lemma remove_from_pts_loop_run l pagenum : forall k, pts_ok k l ->
  exists cs, remove_from_pts_loop l pagenum k = Ret tt (k <| mmu := cs ++ mmu k |>).
Proof.
  induction l as [|vma l IH]; intros k Hok.
  { exists []. simpl. unfold ret. f_equal. by kernel_ext. }
  apply Forall_cons in Hok as [(v & map & m & Hv & Hmap & Hm & Hp) Hok]. simpl.
  rewrite (bind_deref vmareas _ _ _ _ Hv).
  assert (Hgo : forall cs, exists cs', remove_from_pts_loop l pagenum (k <| mmu := cs ++ mmu k |>)
    = Ret tt (k <| mmu := cs' ++ mmu k |>)).
  { intros cs. destruct (IH (k <| mmu := cs ++ mmu k |>)) as [cs' Hcs']; [exact Hok|].
    exists (cs' ++ cs). etrans; [exact Hcs'|]. f_equal. kernel_ext. by rewrite app_assoc. }
  assert (Hnil : k = k <| mmu := [] ++ mmu k |>) by (by kernel_ext).
  destruct (_ && _).
  2: { rewrite bind_ret_l, Hnil. apply Hgo. }
  rewrite bind_unfold, Hmap, bind_nonnull, (bind_deref vmmaps _ _ _ _ Hm).
  destruct (vmm_proc m) as [pr|]; simpl; [|rewrite Hnil; apply Hgo].
  destruct Hp as (p & pd & Hp & Hpd). rewrite (bind_deref procs _ _ _ _ Hp), Hpd, bind_nonnull. simpl.
  match goal with |- context [k <| mmu ::= cons ?c |>] =>
    assert (k <| mmu ::= cons c |> = k <| mmu := [c] ++ mmu k |>) as -> by (by kernel_ext) end.
  apply Hgo.
Qed.

(** The state in which page [pf] of object [o] is no longer cached. *)
Definition uncached (pf : ptr) (p : pframe) (h : Z) (o : ptr) (ob : mmobj) (cs : list mmu_call)
    (k : kernel) : kernel :=
  k <| mmu := cs ++ mmu k |>
    <| pframe_hash := <[h := remove_elem pf (chain k h)]> (pframe_hash k) |>
    <| nallocated ::= Z.pred |> <| alloc_list ::= remove_elem pf |>
    <| pages ::= delete (pf_addr p) |> <| pframes ::= delete pf |>
    <| mmobjs ::= <[o := ob <| mmo_nrespages ::= Z.pred |> <| mmo_respages ::= remove_elem pf |>]> |>.

Lemma free_run k pf p h o ob b bob l :
  pframes k !! pf = Some p -> pf_obj p = Some o -> pframe_is_free p = false ->
  pf_pincount p = 0 -> pf_busy p = false -> pf_hlink p = Some h -> pf_link p = Some AllocList ->
  is_Some (pages k !! pf_addr p) -> mmobjs k !! o = Some ob -> mmobj_bottom_obj o ob = Some b ->
  mmobjs k !! b = Some bob -> mmo_un bob = MmoVmas l -> pts_ok k l ->
  exists cs, forall Ops : MmobjOps, pframe_free pf k = mmo_put o (uncached pf p h o ob cs k).
Proof.
  intros Hpf Ho Hfree Hpin Hbusy Hh Hl [data Hpg] Hob Hb Hbob Hun Hpts.
  destruct (remove_from_pts_loop_run l (pf_pagenum p) (k <| mmu ::= cons (TlbFlushPage (pf_addr p)) |>))
    as [cs Hcs]; [exact Hpts|].
  exists (cs ++ [TlbFlushPage (pf_addr p)]).
  assert (Hpt : pframe_remove_from_pts pf (k <| mmu ::= cons (TlbFlushPage (pf_addr p)) |>) =
    Ret tt (k <| mmu := (cs ++ [TlbFlushPage (pf_addr p)]) ++ mmu k |>)).
  { unfold pframe_remove_from_pts. rewrite (bind_deref pframes _ p) by done. rewrite Ho, bind_nonnull.
    erewrite bind_ret.
    2: { unfold mmobj_bottom_vmas. rewrite (bind_deref mmobjs _ ob) by done.
         rewrite Hb, bind_nonnull, (bind_deref mmobjs _ bob) by done.
         unfold mmo_vmas. rewrite Hun. reflexivity. }
    simpl. rewrite Hcs. f_equal. kernel_ext. by rewrite <- app_assoc. }
  intros Ops. unfold pframe_free. rewrite (bind_deref pframes _ _ _ _ Hpf).
  rewrite !bind_KASSERT by (unfold pframe_is_pinned; rewrite ?Hpin, ?Hfree, ?Hbusy; done).
  rewrite Ho, bind_nonnull. unfold mmu_do at 1. rewrite bind_modify.
  rewrite (bind_ret _ _ _ _ _ Hpt). unfold hlink_remove. rewrite bind_unfold.
  rewrite (bind_deref pframes _ p), Hh, bind_modify by done.
  rewrite (assign_Some pframes _ p) by done. cbn [obind].
  erewrite bind_assign by (simpl; apply lookup_insert_eq). rewrite bind_modify.
  erewrite bind_ret by (apply pf_link_remove_run; [simpl; apply lookup_insert_eq|exact Hl]).
  unfold page_free, slab_free at 1. rewrite bind_unfold. simpl. rewrite Hpg. simpl.
  unfold slab_free. rewrite bind_unfold. simpl. rewrite !lookup_insert_eq. simpl.
  rewrite (bind_assign mmobjs _ ob) by done.
  erewrite bind_assign by (simpl; apply lookup_insert_eq). f_equal.
  unfold uncached. kernel_ext; rewrite ?insert_insert_eq, ?delete_insert_eq; done.
Qed.
End freeing.

(** ** Identity of pages *)
Section identity.
Context `{P : Platform}.

(** Page [pagenum] of object [o] is resident as [pf]. *)
Definition resident (k : kernel) (o : ptr) (pagenum : Z) (pf : ptr) : Prop :=
  exists p, pframes k !! pf = Some p /\ pf_obj p = Some o /\ pf_pagenum p = pagenum.

(** The hash table indexes exactly the pages owned by an object, and a page has one frame. *)
Record cache_wf (k : kernel) : Prop := {
  cw_lists : lists_wf k;
  cw_chain h pf : pf ∈ chain k h -> exists p o, pframes k !! pf = Some p /\ pf_obj p = Some o;
  cw_hash o pagenum pf : resident k o pagenum pf -> pf ∈ chain k (hash_page o pagenum);
  cw_unique o pagenum pf1 pf2 : resident k o pagenum pf1 -> resident k o pagenum pf2 -> pf1 = pf2;
}.

(** A page that was asked for goes to the tail of the list of allocated pages. *)
Definition touched (k k' : kernel) : Prop :=
  pframes k' = pframes k /\ pframe_hash k' = pframe_hash k /\ pinned_list k' = pinned_list k /\
  alloc_list k' ≡ₚ alloc_list k /\
  k' = k <| pframes := pframes k' |> <| alloc_list := alloc_list k' |>.

Lemma resident_loop_run k o pagenum l :
  lists_wf k -> (forall pf, pf ∈ l -> exists p, pframes k !! pf = Some p) ->
  exists r k', resident_loop l o pagenum k = Ret r k' /\ touched k k' /\ lists_wf k' /\
    match r with
    | Some pf => pf ∈ l /\ resident k o pagenum pf /\
        (pf ∈ pinned_list k \/ last (alloc_list k') = Some pf)
    | None => k' = k /\ forall pf, pf ∈ l -> ~ resident k o pagenum pf
    end.
Proof.
  intros Hwf. induction l as [|pf l IH]; intros Hl.
  { exists None, k. split_and!; try done; [by split_and!; try done; kernel_ext|].
    by intros pf ?%not_elem_of_nil. }
  destruct (Hl pf) as [p Hp]; [by left|]. simpl. rewrite (bind_deref pframes _ _ _ _ Hp).
  destruct (bool_decide (pf_obj p = Some o) && (pf_pagenum p =? pagenum)) eqn:Hid.
  2: { destruct IH as (r & k' & Hrun & Htouch & Hwf' & Hr); [intros; apply Hl; by right|].
       exists r, k'. split_and!; try done. destruct r as [pf'|].
       - destruct Hr as (? & ? & ?). split_and!; [by right|done|done].
       - destruct Hr as [-> Hr]. split; [done|]. intros x [->|Hx]%elem_of_cons; [|by apply Hr].
         intros (q & Hq & Ho & Hn). simplify_eq.
         apply andb_false_iff in Hid as [Hid|Hid]; to_prop; congruence. }
  to_prop. assert (Hres : resident k o pagenum pf) by (by exists p).
  destruct (lw_pin k Hwf pf p Hp) as [Hn Hlink]. destruct (pframe_is_pinned p) eqn:Hpin.
  - exists (Some pf), k. rewrite bind_ret_l. split_and!; try done;
      [by split_and!; try done; kernel_ext|by left|].
    left. by apply (lw_mem k Hwf PinnedList pf p Hp).
  - assert (Hin : pf ∈ alloc_list k) by (by apply (lw_mem k Hwf AllocList pf p Hp)).
    assert (Hni : pf ∉ pinned_list k) by (by apply (not_on_other Hwf Hp AllocList Hlink PinnedList)).
    exists (Some pf), (moved pf p AllocList 0 k).
    assert (Hzero : pf_pincount p = 0).
    { unfold pframe_is_pinned in Hpin. apply Z.ltb_ge in Hpin. lia. }
    assert (Hsame : p <| pf_link := Some AllocList |> <| pf_pincount := 0 |> = p).
    { destruct p; cbn in *. by subst. }
    split_and!.
    + rewrite bind_unfold. erewrite bind_ret by (by apply pf_link_remove_run).
      erewrite pf_link_insert_run by (simpl; rewrite ?lookup_insert_eq; done). simpl.
      unfold ret. f_equal. unfold moved. rewrite Hlink.
      kernel_ext; rewrite ?insert_insert_eq, ?remove_elem_not_in; try done; try lia.
      f_equal. destruct p; cbn in *. by subst.
    + unfold touched, moved. simpl. rewrite Hsame, insert_id, remove_elem_not_in by done.
      split_and!; try done.
      * rewrite <- Permutation_cons_append. symmetry. by apply remove_elem_perm; [apply (lw_nodup k Hwf AllocList)|].
      * rewrite Hlink. kernel_ext; rewrite ?remove_elem_not_in; try done; lia.
    + apply (moved_wf Hwf Hp); [lia|done].
    + by left.
    + done.
    + right. simpl. by rewrite last_snoc.
Qed.
End identity.

(** Pinning and unpinning one step, whatever the pin count. *)
Section steps.
Context `{P : Platform, MHO : MmHeadersOk}.
Context {k : kernel} {pf : ptr} {p : pframe}.
Hypothesis Hwf : lists_wf k.
Hypothesis Hpf : pframes k !! pf = Some p.

Lemma recount_wf n :
  0 < pf_pincount p -> 0 < n ->
  lists_wf (k <| pframes := <[pf := p <| pf_pincount := n |>]> (pframes k) |>).
Proof.
  intros Hpos Hn. destruct (lw_pin k Hwf pf p Hpf) as [_ Hlink].
  assert (Hpin : pframe_is_pinned p = true) by (by apply Z.ltb_lt). rewrite Hpin in Hlink.
  destruct Hwf as [H1 H2 H3 H4 H5 H6]. split; simpl; try done.
  - intros l x Hx. destruct (decide (x = pf)) as [->|]; [by rewrite lookup_insert_eq|].
    rewrite lookup_insert_ne by done. by apply (H4 l).
  - intros l x q. destruct (decide (x = pf)) as [->|].
    + rewrite lookup_insert_eq. intros [= <-]. by apply (H5 l pf p).
    + rewrite lookup_insert_ne by done. apply H5.
  - intros x q. destruct (decide (x = pf)) as [->|].
    + rewrite lookup_insert_eq. intros [= <-]. simpl. unfold pframe_is_pinned. simpl.
      destruct (Z.ltb_spec 0 n); [|lia]. split; [lia|done].
    + rewrite lookup_insert_ne by done. apply H6.
Qed.

Lemma pinned_iff :
  (pf ∈ pinned_list k <-> 0 < pf_pincount p) /\ (pf ∈ alloc_list k <-> pf_pincount p = 0).
Proof.
  destruct (lw_pin k Hwf pf p Hpf) as [Hn Hlink].
  rewrite <- (lw_mem k Hwf PinnedList pf p Hpf), <- (lw_mem k Hwf AllocList pf p Hpf), Hlink.
  unfold pframe_is_pinned. destruct (Z.ltb_spec 0 (pf_pincount p)); split; split; try done; lia.
Qed.

Lemma pin_step : pf_obj p <> None ->
  exists k1 p1, pframe_pin pf k = Ret tt k1 /\ lists_wf k1 /\ pframes k1 !! pf = Some p1 /\
    pf_pincount p1 = pf_pincount p + 1 /\ pf_obj p1 = pf_obj p.
Proof.
  intros Hobj. destruct (lw_pin k Hwf pf p Hpf) as [Hn _]. pose proof (pin_run Hwf Hpf Hobj) as Hrun.
  unfold pframe_is_pinned in Hrun. destruct (Z.ltb_spec 0 (pf_pincount p));
    do 2 eexists; (split; [exact Hrun|]).
  - split_and!; [apply recount_wf; lia|simpl; apply lookup_insert_eq|done|done].
  - split_and!; [by apply (moved_wf Hwf Hpf)|simpl; apply lookup_insert_eq|simpl; lia|done].
Qed.

Lemma unpin_step : pf_obj p <> None -> 0 < pf_pincount p ->
  exists k1 p1, pframe_unpin pf k = Ret tt k1 /\ lists_wf k1 /\ pframes k1 !! pf = Some p1 /\
    pf_pincount p1 = pf_pincount p - 1.
Proof.
  intros Hobj Hpos. pose proof (unpin_run Hwf Hpf Hobj Hpos) as Hrun.
  destruct (Z.eqb_spec (pf_pincount p) 1); do 2 eexists; (split; [exact Hrun|]).
  - split_and!; [by apply (moved_wf Hwf Hpf)|simpl; apply lookup_insert_eq|simpl; lia].
  - split_and!; [apply recount_wf; lia|simpl; apply lookup_insert_eq|done].
Qed.
End steps.

(** ** Looking up *)
Section lookup.
Context `{P : Platform}.

(** Looking a page up: the page is found exactly when it is resident. *)
Lemma get_resident_run k o pagenum : cache_wf k ->
  exists r k', pframe_get_resident o pagenum k = Ret r k' /\ cache_wf k' /\ touched k k' /\
    (forall pf, r = Some pf <-> resident k o pagenum pf) /\
    (forall pf, r = Some pf -> pf ∈ pinned_list k \/ last (alloc_list k') = Some pf) /\
    (r = None -> k' = k).
Proof.
  intros [Hlists Hchain Hhash Huniq].
  destruct (resident_loop_run k o pagenum (chain k (hash_page o pagenum)) Hlists)
    as (r & k' & Hrun & Htouch & Hwf' & Hr).
  { intros pf Hin. destruct (Hchain _ _ Hin) as (p & ? & ? & _). eauto. }
  pose proof Htouch as (Hpf & Hh & _ & _ & _).
  assert (Hresid : forall o' n' x, resident k' o' n' x <-> resident k o' n' x).
  { intros o' n' x. unfold resident. by rewrite Hpf. }
  exists r, k'. split_and!; [exact Hrun| |exact Htouch| | |].
  - split; [done|..].
    + intros h pf. unfold chain. rewrite Hh, Hpf. apply Hchain.
    + intros o' n' x Hx%Hresid. unfold chain. rewrite Hh. by apply Hhash.
    + intros o' n' x y Hx%Hresid Hy%Hresid. by eapply Huniq.
  - intros pf. destruct r as [pf'|].
    + destruct Hr as (_ & Hres & _). split; [by intros [= <-]|].
      intros Hx. f_equal. by eapply Huniq.
    + destruct Hr as [_ Hno]. split; [done|]. intros Hx. by destruct (Hno pf (Hhash _ _ _ Hx)).
  - intros pf ->. apply Hr.
  - intros ->. apply Hr.
Qed.
End lookup.

(** ** Properties *)
Section properties.
Context `{P : Platform, MHO : MmHeadersOk}.

(** [pframe_get_resident] returns the frame of the page exactly when the page is resident,
    does not block, and keeps the cache well formed; a page that is not pinned becomes the most
    recently requested one and nothing else changes. *)
Theorem pframe_get_resident_spec k o pagenum : cache_wf k ->
  exists r k', pframe_get_resident o pagenum k = Ret r k' /\ cache_wf k' /\ touched k k' /\
    (forall pf, r = Some pf <-> resident k o pagenum pf) /\
    (forall pf, r = Some pf -> pf ∈ pinned_list k \/ last (alloc_list k') = Some pf).
Proof.
  intros Hwf. destruct (get_resident_run k o pagenum Hwf) as (r & k' & ? & ? & ? & ? & ? & _).
  exists r, k'. by split_and!.
Qed.

(** [pframe_pin] and [pframe_unpin] on a page that is owned by an object keep the page lists
    and their counters consistent; the page is on the pinned list exactly while its pin count is
    positive, and an unpin undoes a pin. *)
Theorem pframe_pin_unpin_spec k pf p : lists_wf k -> pframes k !! pf = Some p -> pf_obj p <> None ->
  exists k1 k2 p1 p2,
    pframe_pin pf k = Ret tt k1 /\ lists_wf k1 /\ pframes k1 !! pf = Some p1 /\
    pf_pincount p1 = pf_pincount p + 1 /\ pf ∈ pinned_list k1 /\ pf ∉ alloc_list k1 /\
    pframe_unpin pf k1 = Ret tt k2 /\ lists_wf k2 /\ pframes k2 !! pf = Some p2 /\
    pf_pincount p2 = pf_pincount p /\ (pf ∈ pinned_list k2 <-> 0 < pf_pincount p) /\
    (pf ∈ alloc_list k2 <-> pf_pincount p = 0).
Proof.
  intros Hwf Hp Hobj.
  destruct (pin_step Hwf Hp Hobj) as (k1 & p1 & Hrun1 & Hwf1 & Hp1 & Hn1 & Hobj1).
  destruct (lw_pin k Hwf pf p Hp) as [Hn _].
  destruct (unpin_step Hwf1 Hp1) as (k2 & p2 & Hrun2 & Hwf2 & Hp2 & Hn2); [congruence|lia|].
  destruct (pinned_iff Hwf1 Hp1) as [Hpin1 Hal1]. destruct (pinned_iff Hwf2 Hp2) as [Hpin2 Hal2].
  exists k1, k2, p1, p2. split_and!; try done; try lia.
  - apply Hpin1. lia.
  - rewrite Hal1. lia.
  - rewrite Hpin2. lia.
  - rewrite Hal2. lia.
Qed.
End properties.

(** ** The properties at concrete states *)
Module Witness.
(** Pages 0 and 7 of object 1; the first is pinned. *)
Definition page (n pin : Z) (addr : ptr) : pframe := {|
  pf_obj := Some 1%positive; pf_pagenum := n; pf_addr := addr; pf_busy := false; pf_dirty := false;
  pf_pincount := pin; pf_link := Some (if 0 <? pin then PinnedList else AllocList);
  pf_hlink := Some (hash_page 1 n); pf_olink := Some 1%positive |}.

Definition cache : kernel :=
  boot <| pframes := {[ 1%positive := page 0 1 1; 2%positive := page 7 0 2;
                        3%positive := page 9 0 3 ]} |>
       <| pinned_list := [1%positive] |> <| alloc_list := [2%positive; 3%positive] |>
       <| nallocated := 2 |> <| npinned := 1 |>
       <| pframe_hash := {[ 1 := [1%positive]; 8 := [2%positive]; 10 := [3%positive] ]} |>.

(** Facts about the three pages. *)
Lemma cache_forall (Q : ptr -> pframe -> Prop) :
  Q 1%positive (page 0 1 1) -> Q 2%positive (page 7 0 2) -> Q 3%positive (page 9 0 3) ->
  forall pf p, pframes cache !! pf = Some p -> Q pf p.
Proof.
  intros H1 H2 H3 pf p. simpl. rewrite !lookup_insert_Some, lookup_singleton_Some. naive_solver.
Qed.

Lemma cache_lists : lists_wf cache.
Proof.
  split; try done.
  - intros l. apply (bool_decide_unpack _). destruct l; vm_compute; exact I.
  - intros l pf. destruct l; simpl; rewrite !elem_of_cons; intros Hin;
      destruct_or?; subst; try (by eexists); by apply not_elem_of_nil in Hin.
  - intros l. apply (cache_forall (fun pf p => pf_link p = Some l <-> pf ∈ on_list cache l));
      destruct l; simpl; rewrite ?elem_of_cons; split; try done; try naive_solver;
      intros Hin; destruct_or?; try done; by apply not_elem_of_nil in Hin.
  - apply (cache_forall (fun pf p => 0 <= pf_pincount p /\
      pf_link p = Some (if pframe_is_pinned p then PinnedList else AllocList))); done.
Qed.

Lemma cache_resident o n pf : resident cache o n pf ->
  o = 1%positive /\ ((n = 0 /\ pf = 1%positive) \/ (n = 7 /\ pf = 2%positive) \/ (n = 9 /\ pf = 3%positive)).
Proof.
  intros (p & Hp & Ho & Hn). revert Hp Ho Hn.
  apply (cache_forall (fun pf p => pf_obj p = Some o -> pf_pagenum p = n -> o = 1%positive /\
    ((n = 0 /\ pf = 1%positive) \/ (n = 7 /\ pf = 2%positive) \/ (n = 9 /\ pf = 3%positive))));
    simpl; intros [= <-] <-; tauto.
Qed.

Lemma cache_ok : cache_wf cache.
Proof.
  split; [apply cache_lists|..].
  - intros h pf. unfold chain. simpl.
    destruct (_ !! h) as [l|] eqn:Hl; simpl; [|by intros ?%not_elem_of_nil].
    rewrite !lookup_insert_Some, lookup_singleton_Some in Hl.
    destruct Hl as [[<- <-]|[_ [[<- <-]|[_ [<- <-]]]]];
      intros ->%list_elem_of_singleton; by do 2 eexists.
  - intros o n pf [-> [[-> ->]|[[-> ->]|[-> ->]]]]%cache_resident; by left.
  - intros o n pf1 pf2 [_ H1]%cache_resident [_ H2]%cache_resident. naive_solver lia.
Qed.

Lemma pframe_get_resident_spec_witness :
  exists r k', pframe_get_resident 1 7 cache = Ret r k' /\ r = Some 2%positive /\
    alloc_list k' = [3%positive; 2%positive].
Proof.
  destruct (pframe_get_resident_spec cache 1 7 cache_ok) as (r & k' & Hrun & _ & _ & Hr & _).
  exists r, k'. split; [exact Hrun|]. split.
  - apply Hr. by exists (page 7 0 2).
  - vm_compute in Hrun. by injection Hrun as _ <-.
Defined.

Lemma pframe_pin_unpin_spec_witness :
  exists k1 k2, pframe_pin 2 cache = Ret tt k1 /\ npinned k1 = 2 /\
    pframe_unpin 2 k1 = Ret tt k2 /\ 2%positive ∈ alloc_list k2.
Proof.
  destruct (pframe_pin_unpin_spec cache 2 (page 7 0 2) cache_lists eq_refl ltac:(discriminate))
    as (k1 & k2 & p1 & p2 & Hrun1 & _ & _ & _ & _ & _ & Hrun2 & _ & _ & _ & _ & Hal).
  exists k1, k2. split; [exact Hrun1|]. split; [|split; [exact Hrun2|by apply Hal]].
  vm_compute in Hrun1. by injection Hrun1 as <-.
Defined.
End Witness.
