(* ===== verification/Anon.v ===== *)
(** * Anon

    [kernel/vm/anon.c] and [kernel/vm/shadow.c]: the entry points of anonymous
    and of shadow memory objects, and the table that dispatches an entry point
    on the object ([mm_ops]).  The entry points call each other through the
    page cache: releasing an object frees its pages, and freeing a page
    releases its object.  [mm_ops n] allows [n] nested calls. *)

From S2P Require Import Prelude Platform State Sched Mmobj Pframe.

Section objects.
Context `{P : Platform, F : LoopFuel, Ops : MmobjOps, MH : MmHeaders}.

(** [while (pframe_is_pinned(pf)) pframe_unpin(pf);] *)
Fixpoint unpin_loop (fuel : nat) (pf : ptr) : K unit :=
  match fuel with
  | O => no_fuel
  | S fuel =>
      p ← deref pframes pf;
      if pframe_is_pinned p then pframe_unpin pf;; unpin_loop fuel pf else ret tt
  end.

Definition unpin_all (pf : ptr) : K unit :=
  p ← deref pframes pf; unpin_loop (S (Z.to_nat (pf_pincount p))) pf.

(** The loop that unpins and uncaches the pages of an object; [false] when the routine
    returns from within it. *)
Fixpoint uncache_loop (fuel : nat) (o : ptr) (refcount : Z) : K bool :=
  match fuel with
  | O => no_fuel
  | S fuel =>
      ob ← deref mmobjs o;
      match last (mmo_respages ob) with
      | None => ret true
      | Some pf =>
          unpin_all pf;;
          pframe_free pf;;
          if refcount =? 0 then uncache_loop fuel o refcount else ret false
      end
  end.

(** The body that [anon_put] and [shadow_put] share. *)
Definition put_body (ops : mmobj_ops_table) (o : ptr) : K unit :=
  ob ← deref mmobjs o;
  KASSERT ((0 <? mmo_refcount ob) && bool_decide (mmo_ops ob = ops));;
  assign mmobjs o (fun ob => ob <| mmo_refcount ::= Z.pred |>);;
  let refcount := mmo_refcount ob - 1 in
  let nrespages := mmo_nrespages ob in
  if refcount =? nrespages then
    done ← uncache_loop (S (length (mmo_respages ob))) o refcount;
    if (done : bool) && (refcount =? 0) && (nrespages =? 0) then
      ob' ← deref mmobjs o;
      match mmo_shadowed ob' with Some s => mmo_put s | None => ret tt end;;
      slab_free mmobjs o
    else ret tt
  else ret tt.

Definition anon_put (o : ptr) : K unit := put_body anon_mmobj_ops o.
Definition shadow_put (o : ptr) : K unit := put_body shadow_mmobj_ops o.

Definition ref_body (ops : mmobj_ops_table) (o : ptr) : K unit :=
  ob ← deref mmobjs o;
  KASSERT ((0 <? mmo_refcount ob) && bool_decide (mmo_ops ob = ops));;
  assign mmobjs o (fun ob => ob <| mmo_refcount ::= Z.succ |>).

Definition anon_ref (o : ptr) : K unit := ref_body anon_mmobj_ops o.
Definition shadow_ref (o : ptr) : K unit := ref_body shadow_mmobj_ops o.

Definition anon_lookuppage (o : ptr) (pagenum forwrite : Z) : K (Z * option ptr) :=
  pframe_get o pagenum.

Definition anon_fillpage (o pf : ptr) : K Z :=
  p ← deref pframes pf;
  KASSERT (pf_busy p);;
  KASSERT (negb (pframe_is_pinned p));;
  assign pages (pf_addr p) (fun _ => replicate (Z.to_nat PAGE_SIZE) 0);;
  pframe_pin pf;;
  ret 0.

Definition dirty_body (pf : ptr) : K Z :=
  p ← deref pframes pf;
  (if pf_dirty p then ret tt else pframe_set_dirty pf);;
  p' ← deref pframes pf;
  ret (if pf_dirty p' then 0 else -1).

Definition anon_dirtypage (o pf : ptr) : K Z := dirty_body pf.
Definition shadow_dirtypage (o pf : ptr) : K Z := dirty_body pf.

Definition anon_cleanpage (o pf : ptr) : K Z := pframe_clear_dirty pf;; ret 0.
Definition shadow_cleanpage (o pf : ptr) : K Z := pframe_clear_dirty pf;; ret 0.

(** The first object of the shadow chain that has the page resident. *)
Fixpoint chain_lookup (fuel : nat) (o : option ptr) (pagenum : Z) : K (option ptr) :=
  match fuel with
  | O => no_fuel
  | S fuel =>
      match o with
      | None => ret None
      | Some o =>
          r ← pframe_get_resident o pagenum;
          match r with
          | Some pf =>
              p ← deref pframes pf;
              (if pf_busy p then sched_sleep_on (PframeWait pf) else ret tt);;
              ret (Some pf)
          | None => ob ← deref mmobjs o; chain_lookup fuel (mmo_shadowed ob) pagenum
          end
      end
  end.

Definition shadow_lookuppage (o : ptr) (pagenum forwrite : Z) : K (Z * option ptr) :=
  if forwrite =? 0 then
    r ← chain_lookup loop_fuel (Some o) pagenum;
    match r with
    | Some pf => ret (0, Some pf)
    | None =>
        ob ← deref mmobjs o;
        b ← nonnull (match mmo_un ob with MmoBottom b => b | MmoVmas _ => None end);
        '(r, pf) ← mmo_lookuppage b pagenum forwrite;
        if r <? 0 then ret (-1, pf) else ret (0, pf)
    end
  else
    '(r, pf) ← pframe_get o pagenum;
    if r <? 0 then ret (-1, pf) else ret (0, pf).

Definition shadow_fillpage (o pf : ptr) : K Z :=
  p ← deref pframes pf;
  KASSERT (pf_busy p);;
  KASSERT (negb (pframe_is_pinned p));;
  ob ← deref mmobjs o;
  s ← nonnull (mmo_shadowed ob);
  '(r, old) ← mmo_lookuppage s (pf_pagenum p) 0;
  if r <? 0 then ret (-1)
  else
    pframe_pin pf;;
    oldpf ← nonnull old;
    q ← deref pframes oldpf;
    data ← deref pages (pf_addr q);
    assign pages (pf_addr p) (fun _ => data);;
    ret 0.
End objects.

(** ** Dispatch *)

(** The entry points of the object embedded in a vnode ([fs/vnode.c]), given the table
    their nested calls go through. *)
Class VnodeMm := {
  vo_vref : ptr -> K unit;
  vo_vput : MmobjOps -> ptr -> K unit;
  vlookuppage : MmobjOps -> ptr -> Z -> Z -> K (Z * option ptr);
  vreadpage : ptr -> ptr -> K Z;
  vdirtypage : ptr -> ptr -> K Z;
  vcleanpage : ptr -> ptr -> K Z;
}.

Section dispatch.
Context `{P : Platform, F : LoopFuel, MH : MmHeaders, VM : VnodeMm}.

Definition stuck_ops : MmobjOps := {|
  mmo_ref _ := no_fuel; mmo_put _ := no_fuel; mmo_lookuppage _ _ _ := no_fuel;
  mmo_fillpage _ _ := no_fuel; mmo_dirtypage _ _ := no_fuel; mmo_cleanpage _ _ := no_fuel |}.

(** [o->mmo_ops->f(o, ...)] *)
Definition via {A} (o : ptr) (anon shadow : K A) (vnode : ptr -> K A) : K A :=
  ob ← deref mmobjs o;
  match mmo_ops ob with
  | anon_mmobj_ops => anon
  | shadow_mmobj_ops => shadow
  | vnode_mmobj_ops vn => vnode vn
  end.

Definition next_ops (Ops : MmobjOps) : MmobjOps := {|
  mmo_ref o := via o (anon_ref o) (shadow_ref o) vo_vref;
  mmo_put o := via o (anon_put o) (shadow_put o) (vo_vput Ops);
  mmo_lookuppage o pagenum w :=
    via o (anon_lookuppage o pagenum w) (shadow_lookuppage o pagenum w)
      (fun vn => vlookuppage Ops vn pagenum w);
  mmo_fillpage o pf := via o (anon_fillpage o pf) (shadow_fillpage o pf) (fun vn => vreadpage vn pf);
  mmo_dirtypage o pf := via o (anon_dirtypage o pf) (shadow_dirtypage o pf) (fun vn => vdirtypage vn pf);
  mmo_cleanpage o pf := via o (anon_cleanpage o pf) (shadow_cleanpage o pf) (fun vn => vcleanpage vn pf);
|}.

Fixpoint mm_ops (n : nat) : MmobjOps :=
  match n with
  | O => stuck_ops
  | S n => next_ops (mm_ops n)
  end.
End dispatch.

(** ** Releasing an object *)

(** Only the page lists and pin counts changed. *)
Definition lists_only (k k' : kernel) : Prop :=
  k' = k <| pframes := pframes k' |> <| alloc_list := alloc_list k' |>
         <| pinned_list := pinned_list k' |> <| nallocated := nallocated k' |>
         <| npinned := npinned k' |>.

Definition same_page (p p' : pframe) : Prop :=
  p' = p <| pf_link := pf_link p' |> <| pf_pincount := pf_pincount p' |>.

(** [o] owns the resident pages [ps], none of which is busy. *)
Record owns (k : kernel) (o : ptr) (ob : mmobj) (ps : list ptr) : Prop := {
  ow_ob : mmobjs k !! o = Some ob;
  ow_res : mmo_respages ob = ps;
  ow_n : mmo_nrespages ob = Z.of_nat (length ps);
  ow_nodup : NoDup ps;
  ow_page pf : pf ∈ ps -> exists p, pframes k !! pf = Some p /\ pf_obj p = Some o /\
    pf_busy p = false /\ pf_hlink p <> None /\ is_Some (pages k !! pf_addr p);
  ow_inj pf1 pf2 p1 p2 : pf1 ∈ ps -> pf2 ∈ ps -> pframes k !! pf1 = Some p1 ->
    pframes k !! pf2 = Some p2 -> pf_addr p1 = pf_addr p2 -> pf1 = pf2;
  ow_lists : lists_wf k;
  ow_bottom :
    (mmo_shadowed ob = None /\ exists l, mmo_un ob = MmoVmas l /\ pts_ok k l) \/
    (exists s b bob l, mmo_shadowed ob = Some s /\ mmo_un ob = MmoBottom (Some b) /\ b <> o /\
       mmobjs k !! b = Some bob /\ mmo_un bob = MmoVmas l /\ pts_ok k l);
}.

Section releasing.
Context `{P : Platform, F : LoopFuel, MHO : MmHeadersOk}.

Lemma unpin_loop_run n : forall k pf p,
  lists_wf k -> pframes k !! pf = Some p -> pf_obj p <> None -> pf_pincount p = Z.of_nat n ->
  exists k' p', unpin_loop (S n) pf k = Ret tt k' /\ lists_wf k' /\ lists_only k k' /\
    pframes k' = <[pf := p']> (pframes k) /\ same_page p p' /\ pf_pincount p' = 0.
Proof.
  induction n as [|n IH]; intros k pf p Hwf Hpf Hobj Hn.
  { exists k, p. cbn [unpin_loop]. rewrite (bind_deref pframes _ _ _ _ Hpf).
    unfold pframe_is_pinned. rewrite Hn. split_and!; try done.
    - by kernel_ext.
    - by rewrite insert_id.
    - by destruct p. }
  change (unpin_loop (S (S n)) pf k) with ((p ← deref pframes pf;
    if pframe_is_pinned p then pframe_unpin pf;; unpin_loop (S n) pf else ret tt) k).
  rewrite (bind_deref pframes _ _ _ _ Hpf).
  assert (pframe_is_pinned p = true) as -> by (apply Z.ltb_lt; lia).
  pose proof (unpin_run Hwf Hpf Hobj ltac:(lia)) as Hrun.
  assert (exists k1 p1, pframe_unpin pf k = Ret tt k1 /\ lists_wf k1 /\ lists_only k k1 /\
    pframes k1 = <[pf := p1]> (pframes k) /\ same_page p p1 /\ pf_pincount p1 = Z.of_nat n)
    as (k1 & p1 & Hrun1 & Hwf1 & Honly1 & Hpf1 & Hsame1 & Hn1).
  { destruct (Z.eqb_spec (pf_pincount p) 1); do 2 eexists; (split; [exact Hrun|]); split_and!.
    - by apply (moved_wf Hwf Hpf).
    - unfold lists_only, moved. by kernel_ext.
    - done.
    - by destruct p.
    - simpl. lia.
    - apply (recount_wf Hwf Hpf); lia.
    - unfold lists_only. by kernel_ext.
    - done.
    - by destruct p.
    - simpl. lia. }
  rewrite (bind_ret _ _ _ _ _ Hrun1).
  destruct (IH k1 pf p1) as (k' & p' & Hrun' & Hwf' & Honly' & Hpf' & Hsame' & Hn'); [done| |
    by rewrite Hsame1|done|].
  { rewrite Hpf1. apply lookup_insert_eq. }
  exists k', p'. split_and!; try done.
  - unfold lists_only in *. rewrite Honly', Honly1. by kernel_ext.
  - rewrite Hpf', Hpf1. by rewrite insert_insert_eq.
  - unfold same_page in *. rewrite Hsame', Hsame1. by destruct p.
Qed.

(** A page that was uncached is on no list. *)
Lemma uncached_lists k pf p h o ob cs :
  lists_wf k -> pframes k !! pf = Some p -> pf_link p = Some AllocList ->
  lists_wf (uncached pf p h o ob cs k).
Proof.
  intros Hwf Hpf Hl. pose proof (not_on_other Hwf Hpf AllocList Hl PinnedList ltac:(done)) as Hnp.
  assert (Hin : pf ∈ alloc_list k) by (by apply (lw_mem k Hwf AllocList pf p Hpf)).
  pose proof (length_remove_elem pf (alloc_list k) (lw_nodup k Hwf AllocList) Hin) as Hlen.
  assert (Hon : forall l, on_list (uncached pf p h o ob cs k) l = remove_elem pf (on_list k l)).
  { intros []; [done|]. simpl. by rewrite remove_elem_not_in. }
  split.
  - simpl. rewrite (lw_nalloc k Hwf). lia.
  - simpl. apply Hwf.
  - intros l. rewrite Hon. apply NoDup_remove_elem, Hwf.
  - intros l x. rewrite Hon, elem_of_remove_elem. simpl. intros [Hne Hx].
    rewrite lookup_delete_ne by done. by apply (lw_live k Hwf l).
  - intros l x q. rewrite Hon, elem_of_remove_elem. simpl.
    rewrite lookup_delete_Some. intros [Hne Hx]. rewrite (lw_mem k Hwf l x q Hx). naive_solver.
  - intros x q. simpl. rewrite lookup_delete_Some. intros [Hne Hx]. by apply (lw_pin k Hwf x).
Qed.

(** The pages [ps] of [o] and their memory were given back, and nothing else was. *)
Record released (o : ptr) (ps : list ptr) (k k' : kernel) : Prop := {
  rl_gone pf : pf ∈ ps -> pframes k' !! pf = None;
  rl_kept pf : pf ∉ ps -> pframes k' !! pf = pframes k !! pf;
  rl_mem pf p : pf ∈ ps -> pframes k !! pf = Some p -> pages k' !! pf_addr p = None;
  rl_pages a : pages k' !! a = pages k !! a \/
    (pages k' !! a = None /\ exists pf p, pf ∈ ps /\ pframes k !! pf = Some p /\ pf_addr p = a);
  rl_objs x : x <> o -> mmobjs k' !! x = mmobjs k !! x;
  rl_vm : vmareas k' = vmareas k /\ vmmaps k' = vmmaps k /\ procs k' = procs k;
  rl_vfs : vnodes k' = vnodes k /\ vnode_inuse_list k' = vnode_inuse_list k;
  rl_threads : threads k' = threads k /\ queues k' = queues k /\ curthr k' = curthr k /\
    mutexes k' = mutexes k /\ ipl k' = ipl k;
}.

Lemma released_nil o k : released o [] k k.
Proof. split; try done; try (by intros ? ?%not_elem_of_nil); [by intros ? ? ?%not_elem_of_nil|by left]. Qed.

Lemma released_snoc o ps pf k k1 k2 :
  pf ∉ ps -> released o [pf] k k1 -> released o ps k1 k2 -> released o (ps ++ [pf]) k k2.
Proof.
  intros Hni [G1 K1 M1 P1 O1 V1 F1 T1] [G2 K2 M2 P2 O2 V2 F2 T2].
  assert (Hsub : forall x, x ∈ ps -> pframes k1 !! x = pframes k !! x).
  { intros x Hx. apply K1. rewrite list_elem_of_singleton. by intros ->. }
  split.
  - intros x [Hx|Hx]%elem_of_app; [by apply G2|]. apply list_elem_of_singleton in Hx as ->.
    rewrite K2 by done. apply G1. by left.
  - intros x [Hx Hne]%not_elem_of_app. by rewrite K2, K1.
  - intros x p [Hx|Hx]%elem_of_app Hp; [apply (M2 x); [done|by rewrite Hsub]|].
    apply list_elem_of_singleton in Hx as ->.
    destruct (P2 (pf_addr p)) as [->|[-> _]]; [|done]. eapply M1; [by left|done].
  - intros a. destruct (P2 a) as [->|(-> & x & p & Hx & Hp & Ha)].
    + destruct (P1 a) as [->|(-> & x & p & Hx & Hp & Ha)]; [by left|right].
      split; [done|]. exists x, p. rewrite elem_of_app. naive_solver.
    + right. split; [done|]. exists x, p. rewrite Hsub in Hp by done. rewrite elem_of_app. naive_solver.
  - intros x Hx. by rewrite O2, O1.
  - naive_solver congruence.
  - naive_solver congruence.
  - naive_solver congruence.
Qed.

(** The areas of the bottom object. *)
Lemma bottom_vmas k o ob ps : owns k o ob ps ->
  exists b bob l, mmobj_bottom_obj o ob = Some b /\ mmobjs k !! b = Some bob /\
    mmo_un bob = MmoVmas l /\ pts_ok k l.
Proof.
  intros [Hob _ _ _ _ _ _ [(Hs & l & Hu & Hl)|(s & b & bob & l & Hs & Hu & _ & Hb & Hbu & Hl)]].
  - exists o, ob, l. split_and!; eauto. by apply bottom_of_bottom.
  - exists b, bob, l. split_and!; eauto. by eapply bottom_of_shadow.
Qed.

(** Ownership depends on the pages through their identity, flags and memory. *)
Lemma unpinned_owns k k1 o ob ps pf p p1 :
  owns k o ob ps -> lists_wf k1 -> lists_only k k1 -> pframes k !! pf = Some p ->
  pframes k1 = <[pf := p1]> (pframes k) -> same_page p p1 -> owns k1 o ob ps.
Proof.
  intros [Hob Hres Hn Hnd Hpage Hinj Hlists Hbot] Hwf1 Honly Hp Hpf1 Hsame.
  assert (Hfields : pf_obj p1 = pf_obj p /\ pf_busy p1 = pf_busy p /\ pf_hlink p1 = pf_hlink p /\
    pf_addr p1 = pf_addr p) by (by rewrite Hsame).
  destruct Hfields as (Ho1 & Hb1 & Hh1 & Ha1).
  assert (Hlook : forall x q1, pframes k1 !! x = Some q1 -> exists q, pframes k !! x = Some q /\
    pf_addr q1 = pf_addr q).
  { intros x q1. rewrite Hpf1, lookup_insert_Some. intros [[<- <-]|[_ ?]]; eauto. }
  split; try done.
  - by rewrite Honly.
  - intros x Hx. destruct (Hpage x Hx) as (q & Hq & Hrest). rewrite Hpf1.
    assert (pages k1 = pages k) as -> by (by rewrite Honly).
    destruct (decide (x = pf)) as [->|Hne].
    + rewrite lookup_insert_eq. exists p1. simplify_eq. rewrite Ho1, Hb1, Hh1, Ha1. done.
    + rewrite lookup_insert_ne by done. eauto.
  - intros x y q r Hx Hy Hq Hr Heq. destruct (Hlook _ _ Hq) as (q' & Hq' & Hqa).
    destruct (Hlook _ _ Hr) as (r' & Hr' & Hra). eapply Hinj; eauto. congruence.
  - rewrite Honly. exact Hbot.
Qed.

Lemma uncached_owns k o ob ps1 ps2 pf p h cs :
  owns k o ob (ps1 ++ pf :: ps2) -> pframes k !! pf = Some p -> pf_link p = Some AllocList ->
  owns (uncached pf p h o ob cs k) o
    (ob <| mmo_nrespages ::= Z.pred |> <| mmo_respages ::= remove_elem pf |>) (ps1 ++ ps2).
Proof.
  intros [Hob Hres Hn Hnd Hpage Hinj Hlists Hbot] Hp Hl.
  pose proof (remove_elem_middle pf ps1 ps2 Hnd) as Hrem.
  assert (Hin : forall x, x ∈ ps1 ++ ps2 -> x ∈ ps1 ++ pf :: ps2 /\ x <> pf).
  { intros x. rewrite <- Hrem, elem_of_remove_elem. tauto. }
  split; simpl; try done.
  - apply lookup_insert_eq.
  - by rewrite Hres.
  - rewrite Hn, !length_app. simpl. lia.
  - rewrite <- Hrem. by apply NoDup_remove_elem.
  - intros x [Hx Hne]%Hin. destruct (Hpage x Hx) as (q & Hq & Ho & Hb & Hh & Hpg). exists q.
    rewrite lookup_delete_ne by done. split_and!; try done.
    rewrite lookup_delete_ne; [done|]. intros Heq. apply Hne.
    eapply Hinj; [done|apply elem_of_app; right; by left|done|done|done].
  - intros x y q r [Hx _]%Hin [Hy _]%Hin [_ Hq]%lookup_delete_Some [_ Hr]%lookup_delete_Some.
    by eapply Hinj.
  - by apply uncached_lists.
  - destruct Hbot as [?|(s & b & bob & l & ? & ? & Hne & ? & ? & ?)]; [by left|right].
    exists s, b, bob, l. by rewrite lookup_insert_ne.
Qed.

Lemma uncached_released k k1 o ob pf p p1 h cs :
  lists_only k k1 -> pframes k !! pf = Some p -> pframes k1 = <[pf := p1]> (pframes k) ->
  same_page p p1 -> released o [pf] k (uncached pf p1 h o ob cs k1).
Proof.
  intros Honly Hp Hpf1 Hsame. assert (Ha : pf_addr p1 = pf_addr p) by (by rewrite Hsame).
  assert (Hparts : mmobjs k1 = mmobjs k /\ pages k1 = pages k /\ vmareas k1 = vmareas k /\
    vmmaps k1 = vmmaps k /\ procs k1 = procs k) by (by rewrite Honly).
  destruct Hparts as (HO & HP & HA & HM & HR). split; simpl.
  - intros x ->%list_elem_of_singleton. apply lookup_delete_eq.
  - intros x Hx. rewrite list_elem_of_singleton in Hx.
    by rewrite lookup_delete_ne, Hpf1, lookup_insert_ne.
  - intros x q ->%list_elem_of_singleton Hq. simplify_eq. rewrite Ha. apply lookup_delete_eq.
  - intros a. rewrite HP. destruct (decide (a = pf_addr p1)) as [->|Hne].
    + right. rewrite lookup_delete_eq. split; [done|]. exists pf, p. split; [by left|done].
    + left. by rewrite lookup_delete_ne.
  - intros x Hx. by rewrite HO, lookup_insert_ne.
  - done.
  - by rewrite Honly.
  - by rewrite Honly.
Qed.

Lemma lists_only_refl k : lists_only k k.
Proof. unfold lists_only. by kernel_ext. Qed.

(** Uncaching a page that is not pinned: what is left to do is to release the object. *)
Lemma uncache_unpinned k o ob ps1 ps2 pf p :
  owns k o ob (ps1 ++ pf :: ps2) -> pframes k !! pf = Some p -> pf_pincount p = 0 ->
  exists h cs, let k2 := uncached pf p h o ob cs k in
    let ob2 := ob <| mmo_nrespages ::= Z.pred |> <| mmo_respages ::= remove_elem pf |> in
    (forall Ops : MmobjOps, pframe_free pf k = mmo_put o k2) /\ owns k2 o ob2 (ps1 ++ ps2) /\
    released o [pf] k k2.
Proof.
  intros Hown Hp Hn. destruct (ow_page _ _ _ _ Hown pf) as (p' & Hp' & Ho & Hb & Hh & Hpg);
    [apply elem_of_app; right; by left|]. simplify_eq.
  destruct (pf_hlink p) as [h|] eqn:Hhl; [|done]. exists h.
  assert (Hlink : pf_link p = Some AllocList).
  { destruct (lw_pin k (ow_lists _ _ _ _ Hown) pf p Hp) as [_ ->]. unfold pframe_is_pinned. by rewrite Hn. }
  destruct (bottom_vmas _ _ _ _ Hown) as (b & bob & l & Hbo & Hbob & Hbun & Hbl).
  destruct (free_run k pf p h o ob b bob l) as [cs Hfree]; try done.
  { by eapply owned_not_free. }
  { apply Hown. }
  exists cs. split_and!; [exact Hfree|by apply uncached_owns|].
  eapply uncached_released; [apply lists_only_refl|done|by rewrite insert_id|by destruct p].
Qed.

(** Unpinning and uncaching the last page of the list. *)
Lemma uncache_page k o ob ps pf :
  owns k o ob (ps ++ [pf]) ->
  exists k1 k2 ob2, unpin_all pf k = Ret tt k1 /\
    (forall Ops : MmobjOps, pframe_free pf k1 = mmo_put o k2) /\
    owns k2 o ob2 ps /\ released o [pf] k k2 /\ mmo_refcount ob2 = mmo_refcount ob /\
    mmo_ops ob2 = mmo_ops ob /\ mmo_shadowed ob2 = mmo_shadowed ob.
Proof.
  intros Hown. destruct (ow_page _ _ _ _ Hown pf) as (p & Hp & Ho & _ & _ & _);
    [apply elem_of_app; right; by left|].
  destruct (lw_pin k (ow_lists _ _ _ _ Hown) pf p Hp) as [Hpos _].
  destruct (unpin_loop_run (Z.to_nat (pf_pincount p)) k pf p) as
    (k1 & p1 & Hrun1 & Hwf1 & Honly1 & Hpf1 & Hsame1 & Hn1); [apply Hown|done|congruence|lia|].
  pose proof (unpinned_owns _ _ _ _ _ _ _ _ Hown Hwf1 Honly1 Hp Hpf1 Hsame1) as Hown1.
  assert (Hp1 : pframes k1 !! pf = Some p1) by (by rewrite Hpf1, lookup_insert_eq).
  destruct (uncache_unpinned k1 o ob ps [] pf p1 Hown1 Hp1 Hn1) as (h & cs & Hfree & Hown2 & _).
  rewrite app_nil_r in Hown2. eexists k1, _, _. split; [|split; [exact Hfree|split; [exact Hown2|split; [|done]]]].
  - unfold unpin_all. by rewrite (bind_deref pframes _ _ _ _ Hp), Hrun1.
  - by eapply uncached_released.
Qed.

(** *** Through the table of entry points *)
Context `{VM : VnodeMm}.

Definition put (n : nat) (o : ptr) : K unit := @mmo_put (mm_ops n) o.

Definition anon_or_shadow (ob : mmobj) : Prop :=
  mmo_ops ob = anon_mmobj_ops \/ mmo_ops ob = shadow_mmobj_ops.

Lemma put_unfold n o k ob :
  mmobjs k !! o = Some ob -> anon_or_shadow ob ->
  put (S n) o k = put_body (Ops := mm_ops n) (mmo_ops ob) o k.
Proof.
  intros Hob Hops. unfold put. simpl. unfold via. rewrite (bind_deref mmobjs _ _ _ _ Hob).
  unfold anon_put, shadow_put. by destruct Hops as [-> | ->].
Qed.

Lemma owns_recount k o ob ps r :
  owns k o ob ps ->
  owns (k <| mmobjs := <[o := ob <| mmo_refcount := r |>]> (mmobjs k) |>) o
    (ob <| mmo_refcount := r |>) ps.
Proof.
  intros [Hob Hres Hn Hnd Hpage Hinj [] Hbot]. split; simpl; try done.
  - apply lookup_insert_eq.
  - destruct Hbot as [?|(s & b & bob & l & ? & ? & Hne & ? & ? & ?)]; [by left|right].
    exists s, b, bob, l. by rewrite lookup_insert_ne.
Qed.

(** The start of [put_body] when the object is about to go away. *)
Lemma put_body_last `{Ops : MmobjOps} k o ob ps :
  owns k o ob ps -> mmo_refcount ob = Z.of_nat (length ps) + 1 ->
  put_body (mmo_ops ob) o k =
    (done ← uncache_loop (S (length ps)) o (Z.of_nat (length ps));
     if (done : bool) && (Z.of_nat (length ps) =? 0) && (Z.of_nat (length ps) =? 0) then
       ob' ← deref mmobjs o;
       match mmo_shadowed ob' with Some s => mmo_put s | None => ret tt end;;
       slab_free mmobjs o
     else ret tt)
    (k <| mmobjs := <[o := ob <| mmo_refcount := Z.of_nat (length ps) |>]> (mmobjs k) |>).
Proof.
  intros Hown Hr. pose proof (ow_ob _ _ _ _ Hown) as Hob. unfold put_body.
  rewrite (bind_deref mmobjs _ _ _ _ Hob).
  rewrite bind_KASSERT by (rewrite andb_true_iff, Z.ltb_lt, bool_decide_eq_true; split; [lia|done]).
  rewrite (bind_assign mmobjs _ _ _ _ _ Hob), (ow_n _ _ _ _ Hown), (ow_res _ _ _ _ Hown).
  rewrite Hr. replace (Z.of_nat (length ps) + 1 - 1) with (Z.of_nat (length ps)) by lia.
  rewrite Z.eqb_refl.
  assert (ob <| mmo_refcount ::= Z.pred |> = ob <| mmo_refcount := Z.of_nat (length ps) |>) as ->;
    [|done].
  transitivity (ob <| mmo_refcount := Z.pred (mmo_refcount ob) |>); [done|]. rewrite Hr. do 2 f_equal.
  by rewrite Z.add_1_r, Z.pred_succ.
Qed.

Lemma put_step k o ob ps pf :
  owns k o ob (ps ++ [pf]) -> anon_or_shadow ob ->
  mmo_refcount ob = Z.of_nat (length (ps ++ [pf])) + 1 ->
  exists k2 ob2, owns k2 o ob2 ps /\ mmo_refcount ob2 = Z.of_nat (length ps) + 1 /\
    mmo_ops ob2 = mmo_ops ob /\ mmo_shadowed ob2 = mmo_shadowed ob /\ released o [pf] k k2 /\
    forall n kz, put n o k2 = Ret tt kz -> put (S n) o k = Ret tt kz.
Proof.
  intros Hown Hops Hr.
  pose proof (owns_recount _ _ _ _ (Z.of_nat (length ps + 1)) Hown) as Hown0.
  set (k0 := k <| mmobjs := _ |>) in Hown0.
  destruct (uncache_page _ _ _ _ _ Hown0)
    as (k1 & k2 & ob2 & Hun & Hfree & Hown2 & Hrel & Hr2 & Hops2 & Hsh2).
  rewrite length_app in *. simpl in *.
  exists k2, ob2. split_and!; try done.
  - rewrite Hr2. lia.
  - destruct Hrel as [H1 H2 H3 H4 H5 H6]. split; try done.
    intros x Hx. rewrite H5 by done. unfold k0. simpl. by rewrite lookup_insert_ne.
  - intros n kz Hkz. rewrite (put_unfold n o k ob) by (try apply Hown; done).
    rewrite (put_body_last (Ops := mm_ops n) k o ob (ps ++ [pf])) by (rewrite ?length_app; done).
    rewrite length_app. simpl length. fold k0.
    erewrite bind_ret.
    2: { cbn [uncache_loop]. rewrite (bind_deref mmobjs _ _ _ _ (ow_ob _ _ _ _ Hown0)).
         change (mmo_respages (ob <| mmo_refcount := ?r |>)) with (mmo_respages ob).
         rewrite (ow_res _ _ _ _ Hown), last_snoc. rewrite (bind_ret _ _ _ _ _ Hun).
         rewrite bind_unfold, Hfree. unfold put in Hkz. rewrite Hkz. cbn [obind].
         destruct (Z.eqb_spec (Z.of_nat (length ps + 1)) 0); [lia|reflexivity]. }
    done.
Qed.

(** All pages go, then the object is left with one reference and no page. *)
Lemma put_pages o : forall ps k ob,
  owns k o ob ps -> anon_or_shadow ob -> mmo_refcount ob = Z.of_nat (length ps) + 1 ->
  exists kf obf, owns kf o obf [] /\ mmo_refcount obf = 1 /\ mmo_ops obf = mmo_ops ob /\
    mmo_shadowed obf = mmo_shadowed ob /\ released o ps k kf /\
    forall n kz, put (S n) o kf = Ret tt kz -> put (length ps + S n) o k = Ret tt kz.
Proof.
  induction ps as [|pf ps IH] using rev_ind; intros k ob Hown Hops Hr.
  { exists k, ob. split_and!; try done. apply released_nil. }
  destruct (put_step k o ob ps pf Hown Hops Hr) as (k2 & ob2 & Hown2 & Hr2 & Hops2 & Hsh2 & Hrel & Hgo).
  assert (Hops2' : anon_or_shadow ob2) by (unfold anon_or_shadow; by rewrite Hops2).
  destruct (IH k2 ob2 Hown2 Hops2' Hr2) as (kf & obf & Hownf & Hrf & Hopsf & Hshf & Hrelf & Hput).
  exists kf, obf. split_and!; try done; try congruence.
  - eapply released_snoc; [|exact Hrel|exact Hrelf].
    pose proof (ow_nodup _ _ _ _ Hown) as (_ & Hdis & _)%NoDup_app. intros Hin. apply (Hdis pf Hin). by left.
  - intros n kz Hkz. rewrite length_app. simpl. rewrite Nat.add_1_r. by apply Hgo, Hput.
Qed.

(** The last step: the object goes, after the reference to the object it shadows. *)
Lemma put_empty n k o ob :
  owns k o ob [] -> anon_or_shadow ob -> mmo_refcount ob = 1 ->
  put (S n) o k =
    (match mmo_shadowed ob with Some s => put n s | None => ret tt end;; slab_free mmobjs o)
    (k <| mmobjs := <[o := ob <| mmo_refcount := 0 |>]> (mmobjs k) |>).
Proof.
  intros Hown Hops Hr. rewrite (put_unfold n o k ob) by (try apply Hown; done).
  rewrite (put_body_last (Ops := mm_ops n) k o ob []) by done. simpl length. simpl Z.of_nat.
  pose proof (ow_ob _ _ _ _ (owns_recount _ _ _ _ 0 Hown)) as Hob.
  erewrite bind_ret.
  2: { cbn [uncache_loop]. rewrite (bind_deref mmobjs _ _ _ _ Hob). simpl.
       rewrite (ow_res _ _ _ _ Hown). reflexivity. }
  simpl. by rewrite (bind_deref mmobjs _ _ _ _ Hob).
Qed.

(** A reference that is not the last one. *)
Lemma put_shared n k o ob :
  mmobjs k !! o = Some ob -> anon_or_shadow ob -> 0 < mmo_refcount ob ->
  mmo_refcount ob - 1 <> mmo_nrespages ob ->
  put (S n) o k = Ret tt (k <| mmobjs := <[o := ob <| mmo_refcount ::= Z.pred |>]> (mmobjs k) |>).
Proof.
  intros Hob Hops Hpos Hne. rewrite (put_unfold n o k ob) by done. unfold put_body.
  rewrite (bind_deref mmobjs _ _ _ _ Hob).
  rewrite bind_KASSERT by (rewrite andb_true_iff, Z.ltb_lt, bool_decide_eq_true; done).
  rewrite (bind_assign mmobjs _ _ _ _ _ Hob).
  by destruct (Z.eqb_spec (mmo_refcount ob - 1) (mmo_nrespages ob)).
Qed.
End releasing.

(** ** Properties *)
Section properties.
Context `{P : Platform, F : LoopFuel, MHO : MmHeadersOk, VM : VnodeMm}.

(** C21: Releasing the last reference to an anonymous object terminates, although freeing a page
    releases the object again: every resident page of the object, pinned or not, is freed with
    its memory exactly once, then the object itself; no other page or object changes. *)
Theorem anon_put_frees k o ob ps n :
  owns k o ob ps -> mmo_ops ob = anon_mmobj_ops -> mmo_shadowed ob = None ->
  mmo_refcount ob = Z.of_nat (length ps) + 1 -> (length ps < n)%nat ->
  exists k', put n o k = Ret tt k' /\ released o ps k k' /\ mmobjs k' !! o = None.
Proof.
  intros Hown Hops Hsh Hr Hn.
  destruct (put_pages o ps k ob Hown (or_introl Hops) Hr)
    as (kf & obf & Hownf & Hrf & Hopsf & Hshf & Hrel & Hput).
  assert (Hopsf' : anon_or_shadow obf) by (left; congruence).
  pose proof (put_empty (n - length ps - 1) kf o obf Hownf Hopsf' Hrf) as Hlast.
  rewrite Hshf, Hsh, bind_ret_l in Hlast. unfold slab_free in Hlast. simpl in Hlast.
  rewrite lookup_insert_eq in Hlast. apply Hput in Hlast.
  replace (length ps + S (n - length ps - 1))%nat with n in Hlast by lia.
  eexists. split; [exact Hlast|]. split.
  - destruct Hrel as [H1 H2 H3 H4 H5 H6]. split; try done.
    intros x Hx. simpl. by rewrite lookup_delete_ne, lookup_insert_ne, H5.
  - simpl. apply lookup_delete_eq.
Qed.

(** Releasing the last reference to a shadow object frees its private copies of pages and the
    object, and gives up exactly one reference to the object below, which others still use. *)
Theorem shadow_put_frees k o ob ps s sob n :
  owns k o ob ps -> mmo_ops ob = shadow_mmobj_ops -> mmo_shadowed ob = Some s -> s <> o ->
  mmo_refcount ob = Z.of_nat (length ps) + 1 ->
  mmobjs k !! s = Some sob -> anon_or_shadow sob -> 0 < mmo_refcount sob ->
  mmo_refcount sob - 1 <> mmo_nrespages sob -> (S (length ps) < n)%nat ->
  exists k', put n o k = Ret tt k' /\ mmobjs k' !! o = None /\
    mmobjs k' !! s = Some (sob <| mmo_refcount ::= Z.pred |>) /\
    (forall pf, pf ∈ ps -> pframes k' !! pf = None) /\
    (forall pf, pf ∉ ps -> pframes k' !! pf = pframes k !! pf).
Proof.
  intros Hown Hops Hsh Hne Hr Hs Hsops Hspos Hslast Hn.
  destruct (put_pages o ps k ob Hown (or_intror Hops) Hr)
    as (kf & obf & Hownf & Hrf & Hopsf & Hshf & Hrel & Hput).
  assert (Hopsf' : anon_or_shadow obf) by (right; congruence).
  pose proof (put_empty (n - length ps - 1) kf o obf Hownf Hopsf' Hrf) as Hlast.
  rewrite Hshf, Hsh in Hlast.
  assert (Hsf : mmobjs kf !! s = Some sob) by (by rewrite (rl_objs _ _ _ _ Hrel)).
  replace (n - length ps - 1)%nat with (S (n - length ps - 2)) in Hlast by lia.
  erewrite bind_ret in Hlast.
  2: { apply (put_shared _ _ s sob); try done. simpl. by rewrite lookup_insert_ne. }
  unfold slab_free in Hlast. simpl in Hlast.
  rewrite lookup_insert_ne, lookup_insert_eq in Hlast by done. apply Hput in Hlast.
  replace (length ps + S (S (n - length ps - 2)))%nat with n in Hlast by lia.
  eexists. split; [exact Hlast|]. simpl. split_and!.
  - apply lookup_delete_eq.
  - by rewrite lookup_delete_ne, lookup_insert_eq.
  - apply Hrel.
  - apply Hrel.
Qed.
End properties.

(** ** The properties at concrete states *)
Module Witness.
Import Pframe.Witness.

(** No vnode is involved. *)
#[local] Instance no_vnodes : VnodeMm := {|
  vo_vref _ := no_fuel; vo_vput _ _ := no_fuel; vlookuppage _ _ _ _ := no_fuel;
  vreadpage _ _ := no_fuel; vdirtypage _ _ := no_fuel; vcleanpage _ _ := no_fuel |}.
#[local] Instance fuel : LoopFuel := 10%nat.

(** The three pages of [cache], with their memory, belong to object 1, which has one more
    reference than pages. *)
Definition owner (ops : mmobj_ops_table) (un : mmo_union) (s : option ptr) : mmobj := {|
  mmo_ops := ops; mmo_refcount := 4; mmo_nrespages := 3;
  mmo_respages := [1%positive; 2%positive; 3%positive]; mmo_un := un; mmo_shadowed := s |}.

Definition with_objects (k : kernel) (objs : gmap ptr mmobj) : kernel :=
  k <| mmobjs := objs |>
    <| pages := {[ 1%positive := [0]; 2%positive := [0]; 3%positive := [0] ]} |>.

Lemma with_objects_lists k objs : lists_wf k -> lists_wf (with_objects k objs).
Proof. intros []. by split. Qed.

Lemma with_objects_pframes k objs : pframes (with_objects k objs) = pframes k.
Proof. reflexivity. Qed.

Definition owned (objs : gmap ptr mmobj) : kernel := with_objects cache objs.

Lemma owned_pages objs pf p : pframes (owned objs) !! pf = Some p ->
  pf_addr p = pf /\ pf_obj p = Some 1%positive /\ pf_busy p = false /\ pf_hlink p <> None.
Proof.
  unfold owned. rewrite with_objects_pframes. revert pf p.
  apply (cache_forall (fun pf p => pf_addr p = pf /\ pf_obj p = Some 1%positive /\
    pf_busy p = false /\ pf_hlink p <> None)); done.
Qed.

Lemma owned_live objs pf : pf ∈ [1%positive; 2%positive; 3%positive] ->
  is_Some (pframes (owned objs) !! pf) /\ is_Some (pages (owned objs) !! pf).
Proof.
  rewrite !elem_of_cons.
  intros [->|[->|[->|[]%not_elem_of_nil]]]; split; vm_compute; by eexists.
Qed.

Lemma owned_owns objs ops un s :
  objs !! 1%positive = Some (owner ops un s) ->
  (s = None /\ un = MmoVmas []) \/
  (s = Some 2%positive /\ un = MmoBottom (Some 2%positive) /\
   exists b, objs !! 2%positive = Some b /\ mmo_un b = MmoVmas []) ->
  owns (owned objs) 1 (owner ops un s) [1%positive; 2%positive; 3%positive].
Proof.
  intros Hobj Hbot.
  assert (Hpts : pts_ok (owned objs) []) by constructor.
  split; try done.
  - rewrite !NoDup_cons. split_and!; try apply NoDup_nil_2; rewrite ?elem_of_cons, ?elem_of_nil; naive_solver.
  - intros pf [[p Hp] Hmem]%(owned_live objs). exists p. split; [exact Hp|].
    destruct (owned_pages _ _ _ Hp) as (-> & ? & ? & ?). done.
  - intros pf1 pf2 p1 p2 _ _ [<- _]%owned_pages [<- _]%owned_pages. done.
  - apply with_objects_lists, cache_lists.
  - destruct Hbot as [(-> & ->)|(-> & -> & b & Hb & Hun)]; [left|right].
    + split; [done|]. by exists [].
    + exists 2%positive, 2%positive, b, []. by split_and!.
Qed.

Definition anon_state : kernel :=
  owned {[ 1%positive := owner anon_mmobj_ops (MmoVmas []) None ]}.

Lemma anon_put_frees_witness :
  exists k', put 4 1 anon_state = Ret tt k' /\ pframes k' = ∅ /\ pages k' = ∅ /\ mmobjs k' = ∅.
Proof.
  destruct (anon_put_frees anon_state 1 (owner anon_mmobj_ops (MmoVmas []) None)
    [1%positive; 2%positive; 3%positive] 4) as (k' & Hrun & _ & _).
  - apply owned_owns; [reflexivity|by left].
  - reflexivity.
  - reflexivity.
  - reflexivity.
  - simpl. lia.
  - exists k'. split; [exact Hrun|]. vm_compute in Hrun. injection Hrun as <-. done.
Defined.

(** Object 1 shadows the anonymous object 2, which has another user. *)
Definition below : mmobj := {|
  mmo_ops := anon_mmobj_ops; mmo_refcount := 2; mmo_nrespages := 0; mmo_respages := [];
  mmo_un := MmoVmas []; mmo_shadowed := None |}.

Definition shadow_state : kernel :=
  owned {[ 1%positive := owner shadow_mmobj_ops (MmoBottom (Some 2%positive)) (Some 2%positive);
           2%positive := below ]}.

Lemma shadow_put_frees_witness :
  exists k', put 5 1 shadow_state = Ret tt k' /\ pframes k' = ∅ /\
    mmobjs k' = {[ 2%positive := below <| mmo_refcount := 1 |> ]}.
Proof.
  destruct (shadow_put_frees shadow_state 1
    (owner shadow_mmobj_ops (MmoBottom (Some 2%positive)) (Some 2%positive))
    [1%positive; 2%positive; 3%positive] 2 below 5) as (k' & Hrun & _).
  - apply owned_owns; [reflexivity|]. right. split_and!; try done. by exists below.
  - reflexivity.
  - reflexivity.
  - discriminate.
  - reflexivity.
  - reflexivity.
  - by left.
  - reflexivity.
  - simpl. lia.
  - simpl. lia.
  - exists k'. split; [exact Hrun|]. vm_compute in Hrun. injection Hrun as <-. done.
Defined.
End Witness.
