(* ===== verification/Proc.v ===== *)
(** * Proc

    [kernel/proc/proc.c] and [kernel/proc/kthread.c]: processes and kernel
    threads, their creation, cancellation, exit and reaping.  The calls into
    the file system are an interface ([VfsCalls]); what the process code needs
    of it is stated as laws ([VfsOk]). *)

From S2P Require Import Prelude Platform State Sched Mmobj Vmmap.

(** The file-system routines that process code calls. *)
Class VfsCalls := {
  vfs_do_close : Z -> K Z;
  vfs_vref : ptr -> K unit;
  vfs_vput : ptr -> K unit;
}.

(** [config.h] and the context code: the stack size and [context_setup(c, func, arg1, arg2,
    kstack, kstacksz, pagedir)]. *)
Class ContextCode := {
  DEFAULT_STACK_SIZE : Z;
  context_setup : Z -> Z -> Z -> option ptr -> Z -> option ptr -> context;
}.

(** ** Links *)

(** [list_insert_tail(&p->p_threads, &thr->kt_plink)] and [list_remove(&thr->kt_plink)] *)
Definition plink_thread (p thr : ptr) : K unit :=
  t ← deref threads thr;
  match kt_plink t with
  | Some _ => fail ListCorrupt
  | None =>
      assign procs p (fun pr => pr <| p_threads ::= fun l => l ++ [thr] |>);;
      assign threads thr (fun t => t <| kt_plink := Some p |>)
  end.

Definition unplink_thread (thr : ptr) : K unit :=
  t ← deref threads thr;
  match kt_plink t with
  | None => fail ListCorrupt
  | Some p =>
      assign procs p (fun pr => pr <| p_threads ::= remove_elem thr |>);;
      assign threads thr (fun t => t <| kt_plink := None |>)
  end.

(** [list_insert_tail(&par->p_children, &c->p_child_link)] and [list_remove(&c->p_child_link)] *)
Definition link_child (par c : ptr) : K unit :=
  p ← deref procs c;
  match p_child_link p with
  | Some _ => fail ListCorrupt
  | None =>
      assign procs par (fun p => p <| p_children ::= fun l => l ++ [c] |>);;
      assign procs c (fun p => p <| p_child_link := Some par |>)
  end.

Definition unlink_child (c : ptr) : K unit :=
  p ← deref procs c;
  match p_child_link p with
  | None => fail ListCorrupt
  | Some par =>
      assign procs par (fun p => p <| p_children ::= remove_elem c |>);;
      assign procs c (fun p => p <| p_child_link := None |>)
  end.

(** [list_insert_tail(&_proc_list, &p->p_list_link)] and [list_remove(&p->p_list_link)] *)
Definition link_proc (p : ptr) : K unit :=
  pr ← deref procs p;
  if p_list_link pr then fail ListCorrupt
  else
    modify (fun k => k <| proc_list ::= fun l => l ++ [p] |>);;
    assign procs p (fun pr => pr <| p_list_link := true |>).

Definition unlink_proc (p : ptr) : K unit :=
  pr ← deref procs p;
  if p_list_link pr then
    modify (fun k => k <| proc_list ::= remove_elem p |>);;
    assign procs p (fun pr => pr <| p_list_link := false |>)
  else fail ListCorrupt.

(** [curproc->...] *)
Definition the_curproc : K ptr := c ← gets curproc; nonnull c.

Section proc.
Context `{P : Platform, F : LoopFuel, Ops : MmobjOps, MH : MmHeaders, V : VfsCalls, C : ContextCode}.

(** ** Process identifiers *)
Fixpoint pid_in_use (l : list ptr) (pid : Z) : K bool :=
  match l with
  | [] => ret false
  | p :: l => pr ← deref procs p; if p_pid pr =? pid then ret true else pid_in_use l pid
  end.

Fixpoint getid_loop (fuel : nat) (pid : Z) : K Z :=
  match fuel with
  | O => no_fuel
  | S fuel =>
      k ← get;
      used ← pid_in_use (proc_list k) pid;
      if used : bool then
        let pid' := (pid + 1) mod PROC_MAX_COUNT in
        if pid' =? next_pid k then ret (-1) else getid_loop fuel pid'
      else
        modify (fun k => k <| next_pid := (pid + 1) mod PROC_MAX_COUNT |>);;
        ret pid
  end.

(** The scan visits each identifier at most once. *)
Definition _proc_getid : K Z :=
  k ← get; getid_loop (Z.to_nat PROC_MAX_COUNT) (next_pid k).

(** ** Creation *)
Definition proc_init : K unit := modify (fun k => k <| proc_list := [] |>).

(** [pt_create_pagedir()] and [pt_destroy_pagedir()] *)
Definition pt_create_pagedir : K (option ptr) :=
  fun k => let r := pt_new_pagedir (alloc_count k) (pagedirs k) in
           Ret r (k <| alloc_count ::= S |>
                    <| pagedirs ::= fun s => match r with Some d => {[d]} ∪ s | None => s end |>).

Definition pt_destroy_pagedir (pd : ptr) : K unit :=
  fun k => if decide (pd ∈ pagedirs k) then Ret tt (k <| pagedirs ::= fun s => s ∖ {[pd]} |>)
           else Fault BadPtr.

Definition proc_create (name : string) : K (option ptr) :=
  a ← slab_alloc procs;
  newProc ← nonnull a;
  pid ← _proc_getid;
  k ← get;
  KASSERT (negb (pid =? PID_IDLE) || match proc_list k with [] => true | _ => false end);;
  (if pid =? PID_INIT then
     c ← the_curproc; cp ← deref procs c; KASSERT (p_pid cp =? PID_IDLE)
   else ret tt);;
  (if pid =? PID_INIT then modify (fun k => k <| proc_initproc := Some newProc |>) else ret tt);;
  init_obj procs newProc {|
    p_pid := pid; p_comm := String.substring 0 PROC_NAME_LEN name; p_threads := []; p_children := [];
    p_pproc := if pid =? PID_IDLE then None else curproc k;
    p_status := 0; p_state := PROC_RUNNING; p_pagedir := None; p_list_link := false;
    p_child_link := None; p_files := []; p_cwd := None; p_vmmap := None;
    p_brk := uninit (alloc_count k); p_start_brk := uninit (alloc_count k) |};;
  sched_queue_init (ProcWait newProc);;
  pd ← pt_create_pagedir;
  assign procs newProc (fun p => p <| p_pagedir := pd |>);;
  link_proc newProc;;
  (if pid =? PID_IDLE then ret tt else c ← the_curproc; link_child c newProc);;
  assign procs newProc (fun p => p <| p_files := replicate NFILES None |>);;
  cwd ← (if pid =? PID_IDLE then gets vfs_root_vn
         else c ← the_curproc; cp ← deref procs c; ret (p_cwd cp));
  assign procs newProc (fun p => p <| p_cwd := cwd |>);;
  match cwd with
  | Some vn => if (pid =? PID_IDLE) || (pid =? PID_INIT) then ret tt else vfs_vref vn
  | None => ret tt
  end;;
  m ← vmmap_create;
  match m with
  | None => slab_free procs newProc;; ret None
  | Some newVMmap =>
      assign procs newProc (fun p => p <| p_vmmap := Some newVMmap |>);;
      assign vmmaps newVMmap (fun m => m <| vmm_proc := Some newProc |>);;
      ret (Some newProc)
  end.

(** ** Threads *)
Definition alloc_stack : K (option ptr) :=
  fun k => let r := page_alloc_n (alloc_count k) (kstacks k) in
           Ret r (k <| alloc_count ::= S |>
                    <| kstacks ::= fun s => match r with Some a => {[a]} ∪ s | None => s end |>).

Definition free_stack (stack : ptr) : K unit :=
  fun k => if decide (stack ∈ kstacks k) then Ret tt (k <| kstacks ::= fun s => s ∖ {[stack]} |>)
           else Fault BadPtr.

Definition kthread_create (p : option ptr) (func arg1 arg2 : Z) : K (option ptr) :=
  KASSERT (bool_decide (p <> None));;
  p ← nonnull p;
  a ← slab_alloc threads;
  newThr ← nonnull a;
  stack ← alloc_stack;
  init_obj threads newThr {|
    kt_ctx := no_context; kt_kstack := stack; kt_retval := 0; kt_errno := 0; kt_proc := Some p;
    kt_cancelled := 0; kt_wchan := None; kt_state := KT_NO_STATE; kt_qlink := None;
    kt_plink := None |};;
  plink_thread p newThr;;
  pr ← deref procs p;
  assign threads newThr (fun t => t <| kt_ctx :=
    context_setup func (int32 arg1) arg2 stack DEFAULT_STACK_SIZE (p_pagedir pr) |>);;
  ret (Some newThr).

Definition kthread_destroy (t : ptr) : K unit :=
  thr ← deref threads t;
  KASSERT (bool_decide (kt_kstack thr <> None));;
  stack ← nonnull (kt_kstack thr);
  free_stack stack;;
  (if decide (kt_plink thr <> None) then unplink_thread t else ret tt);;
  slab_free threads t.

Definition kthread_clone (thr : ptr) : K (option ptr) :=
  t ← deref threads thr;
  KASSERT (bool_decide (kt_state t = KT_RUN));;
  a ← slab_alloc threads;
  newThr ← nonnull a;
  stack ← alloc_stack;
  init_obj threads newThr {|
    kt_ctx := no_context; kt_kstack := stack; kt_retval := kt_retval t; kt_errno := kt_errno t;
    kt_proc := None; kt_cancelled := kt_cancelled t; kt_wchan := None; kt_state := kt_state t;
    kt_qlink := None; kt_plink := None |};;
  t' ← deref threads newThr;
  KASSERT (bool_decide (kt_state t' = KT_RUN));;
  ret (Some newThr).

(** ** Exit *)

(** [for (fileDes = 0; fileDes < NFILES; fileDes++)]: the descriptors [fds]. *)
Fixpoint close_loop (fds : list nat) : K unit :=
  match fds with
  | [] => ret tt
  | fd :: fds =>
      c ← the_curproc;
      p ← deref procs c;
      match p_files p !! fd with
      | Some (Some _) => _ ← vfs_do_close (Z.of_nat fd); ret tt
      | _ => ret tt
      end;;
      close_loop fds
  end.

(** The loop saves the next link before it moves a child, so it visits the children that
    there were when it started. *)
Fixpoint reparent_loop (l : list ptr) : K unit :=
  match l with
  | [] => ret tt
  | childProc :: l =>
      init ← gets proc_initproc;
      assign procs childProc (fun p => p <| p_pproc := init |>);;
      unlink_child childProc;;
      i ← nonnull init;
      link_child i childProc;;
      reparent_loop l
  end.

Definition proc_cleanup (status : Z) : K unit :=
  k ← get;
  KASSERT (bool_decide (proc_initproc k <> None));;
  c ← the_curproc;
  p ← deref procs c;
  KASSERT (1 <=? p_pid p);;
  KASSERT (bool_decide (p_pproc p <> None));;
  close_loop (seq 0 NFILES);;
  c ← the_curproc;
  p ← deref procs c;
  match p_cwd p with
  | Some vn =>
      vfs_vput vn;;
      c ← the_curproc; assign procs c (fun p => p <| p_cwd := None |>)
  | None => ret tt
  end;;
  c ← the_curproc;
  p ← deref procs c;
  match p_vmmap p with Some map => vmmap_destroy map | None => ret tt end;;
  c ← the_curproc;
  p ← deref procs c;
  par ← nonnull (p_pproc p);
  _ ← deref procs par;
  e ← sched_queue_empty (ProcWait par);
  (if e : bool then ret tt else _ ← sched_wakeup_on (ProcWait par); ret tt);;
  init ← gets proc_initproc;
  (if decide (Some c = init) then ret tt else p ← deref procs c; reparent_loop (p_children p));;
  assign procs c (fun p => p <| p_status := status |> <| p_state := PROC_DEAD |>);;
  p ← deref procs c;
  KASSERT (bool_decide (p_pproc p <> None)).

Definition proc_thread_exited (retval : Z) : K unit :=
  proc_cleanup (int32 retval);;
  sched_switch.

Definition kthread_exit (retval : Z) : K unit :=
  c ← gets curthr;
  cur ← nonnull c;
  t ← deref threads cur;
  KASSERT (bool_decide (kt_wchan t = None));;
  KASSERT (bool_decide (kt_qlink t = None));;
  pc ← gets curproc;
  KASSERT (bool_decide (kt_proc t = pc));;
  assign threads cur (fun t => t <| kt_retval := retval |>);;
  assign threads cur (fun t => t <| kt_state := KT_EXITED |>);;
  proc_thread_exited retval.

Definition kthread_cancel (kthr : option ptr) (retval : Z) : K unit :=
  KASSERT (bool_decide (kthr <> None));;
  t ← nonnull kthr;
  c ← gets curthr;
  if decide (Some t = c) then kthread_exit retval
  else
    assign threads t (fun t => t <| kt_cancelled := 1 |>);;
    assign threads t (fun t => t <| kt_retval := retval |>);;
    thr ← deref threads t;
    if decide (kt_state thr = KT_SLEEP_CANCELLABLE) then sched_cancel t else ret tt.

(** Cancel the threads of the list, but for the current one when [spare] is set. *)
Fixpoint cancel_loop (spare : bool) (l : list ptr) (status : Z) : K unit :=
  match l with
  | [] => ret tt
  | thr :: l =>
      c ← gets curthr;
      (if spare && bool_decide (Some thr = c) then ret tt else kthread_cancel (Some thr) status);;
      cancel_loop spare l status
  end.

Definition do_exit (status : Z) : K unit :=
  c ← the_curproc;
  p ← deref procs c;
  cancel_loop true (p_threads p) status;;
  kthread_exit status.

Definition proc_kill (p : ptr) (status : Z) : K unit :=
  c ← gets curproc;
  if decide (Some p = c) then do_exit status
  else pr ← deref procs p; cancel_loop false (p_threads pr) status.

(** Whether the parent of [p] is the idle process. *)
Definition parent_is_idle (p : ptr) : K bool :=
  pr ← deref procs p;
  par ← nonnull (p_pproc pr);
  q ← deref procs par;
  ret (p_pid q =? PID_IDLE).

Fixpoint kill_all_loop (l : list ptr) : K unit :=
  match l with
  | [] => ret tt
  | oneProc :: l =>
      c ← gets curproc;
      pr ← deref procs oneProc;
      (if bool_decide (Some oneProc <> c) && negb (p_pid pr =? PID_IDLE) then
         idle ← parent_is_idle oneProc;
         if idle : bool then ret tt else proc_kill oneProc (p_status pr)
       else ret tt);;
      kill_all_loop l
  end.

Definition proc_kill_all : K unit :=
  k ← get;
  kill_all_loop (proc_list k);;
  c ← the_curproc;
  idle ← parent_is_idle c;
  p ← deref procs c;
  if idle : bool then ret tt else proc_kill c (p_status p).

Fixpoint proc_lookup_loop (l : list ptr) (pid : Z) : K (option ptr) :=
  match l with
  | [] => ret None
  | p :: l => pr ← deref procs p; if p_pid pr =? pid then ret (Some p) else proc_lookup_loop l pid
  end.

Definition proc_lookup (pid : Z) : K (option ptr) :=
  k ← get; proc_lookup_loop (proc_list k) pid.

(** ** Waiting *)
Fixpoint destroy_threads (l : list ptr) : K unit :=
  match l with
  | [] => ret tt
  | thr :: l =>
      t ← deref threads thr;
      KASSERT (bool_decide (kt_state t = KT_EXITED));;
      kthread_destroy thr;;
      destroy_threads l
  end.

(** Disposing of an exited child: its identifier and status. *)
Definition reap (pid : Z) (childP : ptr) : K (Z * Z) :=
  c ← deref procs childP;
  KASSERT ((pid =? -1) || (p_pid c =? pid));;
  destroy_threads (p_threads c);;
  unlink_child childP;;
  unlink_proc childP;;
  KASSERT (bool_decide (p_pagedir c <> None));;
  pd ← nonnull (p_pagedir c);
  pt_destroy_pagedir pd;;
  slab_free procs childP;;
  ret (p_pid c, p_status c).

(** The first exited child of the list that [pid] asks for. *)
Fixpoint find_exited (l : list ptr) (pid : Z) : K (option ptr) :=
  match l with
  | [] => ret None
  | childP :: l =>
      c ← deref procs childP;
      if ((pid =? -1) || (p_pid c =? pid)) && bool_decide (p_state c = PROC_DEAD)
      then ret (Some childP) else find_exited l pid
  end.

Fixpoint has_child (l : list ptr) (pid : Z) : K bool :=
  match l with
  | [] => ret false
  | childP :: l =>
      c ← deref procs childP;
      r ← has_child l pid;
      ret ((p_pid c =? pid) || r)
  end.

Fixpoint wait_loop (fuel : nat) (pid : Z) : K (Z * Z) :=
  match fuel with
  | O => no_fuel
  | S fuel =>
      c ← the_curproc;
      p ← deref procs c;
      r ← find_exited (p_children p) pid;
      match r with
      | Some childP => reap pid childP
      | None => sched_sleep_on (ProcWait c);; wait_loop fuel pid
      end
  end.

(** The result, and what is stored through [status] unless it is NULL. *)
Definition do_waitpid (pid options : Z) (status : bool) : K (Z * option Z) :=
  KASSERT ((pid =? -1) || (0 <? pid));;
  KASSERT (options =? 0);;
  c ← the_curproc;
  p ← deref procs c;
  match p_children p with
  | [] => ret (- ECHILD, None)
  | l =>
      has ← (if pid =? -1 then ret true else has_child l pid);
      if has : bool then
        '(r, st) ← wait_loop loop_fuel pid;
        ret (r, if status then Some st else None)
      else ret (- ECHILD, None)
  end.
End proc.

(** ** Identifiers *)
Definition used_pid (k : kernel) (pid : Z) : Prop :=
  exists p pr, p ∈ proc_list k /\ procs k !! p = Some pr /\ p_pid pr = pid.

(** The processes of the list exist. *)
Definition procs_live (k : kernel) (l : list ptr) : Prop := Forall (fun p => is_Some (procs k !! p)) l.

Section getid.
Context `{PO : PlatformOk}.

Lemma pid_in_use_run k l pid : procs_live k l ->
  exists b, pid_in_use l pid k = Ret b k /\
    (b = true <-> exists p pr, p ∈ l /\ procs k !! p = Some pr /\ p_pid pr = pid).
Proof.
  induction 1 as [|p l [pr Hp] _ (b & IH & Hb)]; simpl.
  { exists false. split; [done|]. split; [done|]. by intros (? & ? & ?%not_elem_of_nil & _). }
  rewrite (bind_deref procs _ _ _ _ Hp). setoid_rewrite elem_of_cons.
  destruct (Z.eqb_spec (p_pid pr) pid) as [<-|Hne].
  - exists true. split; [done|]. split; [|done]. intros _. exists p, pr. auto.
  - exists b. split; [done|]. rewrite Hb. naive_solver.
Qed.

(** Steps around the circle of identifiers. *)
Lemma next_on_circle next i : 0 <= next < PROC_MAX_COUNT ->
  ((next + i) mod PROC_MAX_COUNT + 1) mod PROC_MAX_COUNT = (next + (i + 1)) mod PROC_MAX_COUNT.
Proof.
  intros Hn. rewrite (Z.add_mod_idemp_l (next + i) 1) by lia. f_equal. lia.
Qed.

Lemma back_on_circle next i : 0 <= next < PROC_MAX_COUNT -> 0 < i <= PROC_MAX_COUNT ->
  (next + i) mod PROC_MAX_COUNT = next <-> i = PROC_MAX_COUNT.
Proof.
  intros Hn Hi. split.
  - intros He. assert (Hm : PROC_MAX_COUNT <> 0) by lia.
    pose proof (Z.div_mod (next + i) PROC_MAX_COUNT Hm) as Hd. rewrite He in Hd.
    assert (i = PROC_MAX_COUNT * ((next + i) / PROC_MAX_COUNT)) as Hq by lia.
    assert ((next + i) / PROC_MAX_COUNT = 1); [|nia].
    assert (0 < (next + i) / PROC_MAX_COUNT < 2); [nia|lia].
  - intros ->. rewrite Z.add_mod, Z_mod_same_full, Z.add_0_r, Z.mod_mod by lia. by apply Z.mod_small.
Qed.

Lemma getid_loop_run k next n : forall i,
  procs_live k (proc_list k) -> next_pid k = next -> 0 <= next < PROC_MAX_COUNT ->
  0 <= i -> i + Z.of_nat (S n) = PROC_MAX_COUNT ->
  (forall j, 0 <= j < i -> used_pid k ((next + j) mod PROC_MAX_COUNT)) ->
  exists r k', getid_loop (S n) ((next + i) mod PROC_MAX_COUNT) k = Ret r k' /\
    ((r = -1 /\ k' = k /\
      forall j, 0 <= j < PROC_MAX_COUNT -> used_pid k ((next + j) mod PROC_MAX_COUNT)) \/
     (exists d, 0 <= d < PROC_MAX_COUNT /\ r = (next + d) mod PROC_MAX_COUNT /\ ~ used_pid k r /\
        (forall j, 0 <= j < d -> used_pid k ((next + j) mod PROC_MAX_COUNT)) /\
        k' = k <| next_pid := (r + 1) mod PROC_MAX_COUNT |>)).
Proof.
  induction n as [|n IH]; intros i Hl Hnext Hrange Hi Hin Hused;
    cbn [getid_loop]; rewrite bind_get;
    destruct (pid_in_use_run k (proc_list k) ((next + i) mod PROC_MAX_COUNT) Hl) as ([] & Hrun & Hb);
    rewrite (bind_ret _ _ _ _ _ Hrun).
  2, 4: do 2 eexists; (split; [reflexivity|right]); exists i; split_and!; try done; try lia;
    intros Hu; by apply Hb in Hu.
  - cbv zeta. rewrite next_on_circle, Hnext by done.
    assert ((next + (i + 1)) mod PROC_MAX_COUNT = next) as -> by (apply back_on_circle; lia).
    rewrite Z.eqb_refl. do 2 eexists. split; [reflexivity|left]. split_and!; try done.
    intros j Hj. destruct (decide (j < i)); [apply Hused; lia|]. replace j with i by lia. by apply Hb.
  - cbv zeta. rewrite next_on_circle, Hnext by done.
    destruct (Z.eqb_spec ((next + (i + 1)) mod PROC_MAX_COUNT) next) as [He|_].
    { apply back_on_circle in He; lia. }
    apply IH; try done; try lia.
    intros j Hj. destruct (decide (j < i)); [apply Hused; lia|]. replace j with i by lia. by apply Hb.
Qed.
End getid.

(** ** The process tree

    The invariant, on the processes [ps], the list [l] of all processes and the identifier
    [next] from which the next search starts. *)
Section tree.
Context `{P : Platform}.

Record tree_wf (ps : gmap ptr proc) (l : list ptr) (next : Z) : Prop := {
  tw_nodup : NoDup l;
  tw_listed p pr : ps !! p = Some pr -> p ∈ l /\ p_list_link pr = true;
  tw_live p : p ∈ l -> is_Some (ps !! p);
  tw_pid p q pr qr : ps !! p = Some pr -> ps !! q = Some qr -> p_pid pr = p_pid qr -> p = q;
  tw_range p pr : ps !! p = Some pr -> 0 <= p_pid pr < PROC_MAX_COUNT;
  tw_next : 0 <= next < PROC_MAX_COUNT;
  tw_children p pr c : ps !! p = Some pr ->
    c ∈ p_children pr <-> exists cr, ps !! c = Some cr /\ p_pproc cr = Some p;
  tw_unique p pr : ps !! p = Some pr -> NoDup (p_children pr);
  tw_link c cr : ps !! c = Some cr -> p_child_link cr = p_pproc cr;
  tw_root c cr : ps !! c = Some cr -> p_pproc cr = None <-> p_pid cr = PID_IDLE;
  tw_parent c cr p : ps !! c = Some cr -> p_pproc cr = Some p -> p <> c /\ is_Some (ps !! p);
}.

Definition proc_wf (k : kernel) : Prop := tree_wf (procs k) (proc_list k) (next_pid k).

Lemma wf_procs_live k : proc_wf k -> procs_live k (proc_list k).
Proof. intros Hwf. apply Forall_forall. apply (tw_live _ _ _ Hwf). Qed.

(** A new process [nr] at [n] joins the children of [c]. *)
Definition tree_with (ps : gmap ptr proc) (n : ptr) (nr : proc) (c : ptr) (cp : proc) : gmap ptr proc :=
  <[n := nr]> (<[c := cp <| p_children ::= fun l => l ++ [n] |>]> ps).

Section adding.
Context (ps : gmap ptr proc) (l : list ptr) (next : Z) (n c : ptr) (nr cp : proc).
Hypotheses (Hwf : tree_wf ps l next) (Hn : ps !! n = None) (Hc : ps !! c = Some cp).

Definition child_added (q : ptr) (qr : proc) : proc :=
  qr <| p_children := p_children qr ++ (if decide (q = c) then [n] else []) |>.

Lemma with_inv q qr : tree_with ps n nr c cp !! q = Some qr ->
  q = n /\ qr = nr \/ q <> n /\ exists qr0, ps !! q = Some qr0 /\ qr = child_added q qr0.
Proof.
  unfold tree_with, child_added. rewrite !lookup_insert_Some.
  intros [[<- <-]|[Hqn [[<- <-]|[Hqc Hq]]]]; [by left|right|right]; (split; [done|]).
  - exists cp. by rewrite decide_True by done.
  - exists qr. rewrite decide_False, app_nil_r by done. split; [done|]. by destruct qr.
Qed.

Lemma with_new : tree_with ps n nr c cp !! n = Some nr.
Proof. apply lookup_insert_eq. Qed.

Lemma with_old q qr : ps !! q = Some qr -> tree_with ps n nr c cp !! q = Some (child_added q qr).
Proof.
  intros Hq. unfold tree_with, child_added. rewrite lookup_insert_ne by congruence.
  destruct (decide (q = c)) as [->|].
  - rewrite lookup_insert_eq. by simplify_eq.
  - rewrite lookup_insert_ne, app_nil_r by done. rewrite Hq. by destruct qr.
Qed.

Hypotheses (Hpar : p_pproc nr = Some c) (Hch : p_children nr = []).

Lemma with_children p pr x : tree_with ps n nr c cp !! p = Some pr ->
  x ∈ p_children pr <-> exists cr, tree_with ps n nr c cp !! x = Some cr /\ p_pproc cr = Some p.
Proof.
  intros [[-> ->]|(Hp & pr0 & Hp0 & ->)]%with_inv.
  - rewrite Hch. split; [by intros ?%not_elem_of_nil|].
    intros (cr & [[-> ->]|(Hx & cr0 & Hx0 & ->)]%with_inv & Hcp); [congruence|].
    destruct (tw_parent _ _ _ Hwf _ _ _ Hx0 Hcp) as [_ [? ?]]. congruence.
  - simpl. rewrite elem_of_app. rewrite (tw_children _ _ _ Hwf p pr0 x Hp0). split.
    + intros [(cr & Hx & Hcp)|Hx].
      * exists (child_added x cr). by rewrite (with_old _ _ Hx).
      * destruct (decide (p = c)) as [->|]; [|by apply not_elem_of_nil in Hx].
        apply list_elem_of_singleton in Hx as ->. exists nr. by rewrite with_new.
    + intros (cr & [[-> ->]|(Hx & cr0 & Hx0 & ->)]%with_inv & Hcp); [right|left; by exists cr0].
      rewrite decide_True by congruence. by left.
Qed.

Lemma with_unique p pr : tree_with ps n nr c cp !! p = Some pr -> NoDup (p_children pr).
Proof.
  intros [[-> ->]|(Hp & pr0 & Hp0 & ->)]%with_inv; [rewrite Hch; constructor|].
  simpl. apply NoDup_app. split_and!; [by apply (tw_unique _ _ _ Hwf p)| |].
  - intros x Hx. destruct (decide (p = c)); [|by intros ?%not_elem_of_nil].
    intros ->%list_elem_of_singleton. rewrite (tw_children _ _ _ Hwf p pr0 _ Hp0) in Hx.
    destruct Hx as (? & ? & _). congruence.
  - destruct (decide (p = c)); [apply NoDup_singleton|constructor].
Qed.

Lemma tree_add next' :
  p_list_link nr = true -> p_child_link nr = Some c ->
  0 <= p_pid nr < PROC_MAX_COUNT -> p_pid nr <> PID_IDLE -> 0 <= next' < PROC_MAX_COUNT ->
  (forall q qr, ps !! q = Some qr -> p_pid qr <> p_pid nr) ->
  tree_wf (tree_with ps n nr c cp) (l ++ [n]) next'.
Proof.
  intros Hlink Hclink Hpid Hidle Hnext Hfresh. split; try done.
  - apply NoDup_app. split_and!; [apply Hwf| |apply NoDup_singleton].
    intros x Hx ->%list_elem_of_singleton. destruct (tw_live _ _ _ Hwf _ Hx). congruence.
  - intros q qr [[-> ->]|(Hq & qr0 & Hq0 & ->)]%with_inv; rewrite elem_of_app.
    + split; [right; by left|done].
    + destruct (tw_listed _ _ _ Hwf _ _ Hq0). auto.
  - intros q [Hq| ->%list_elem_of_singleton]%elem_of_app; [|rewrite with_new; by eexists].
    destruct (tw_live _ _ _ Hwf _ Hq) as [qr Hqr]. rewrite (with_old _ _ Hqr). by eexists.
  - intros p q pr qr [[-> ->]|(Hp & pr0 & Hp0 & ->)]%with_inv [[-> ->]|(Hq & qr0 & Hq0 & ->)]%with_inv;
      simpl; intros Heq; try done.
    + by destruct (Hfresh _ _ Hq0).
    + by destruct (Hfresh _ _ Hp0).
    + by eapply (tw_pid _ _ _ Hwf).
  - intros p pr [[-> ->]|(Hp & pr0 & Hp0 & ->)]%with_inv; [done|]. by apply (tw_range _ _ _ Hwf p pr0).
  - apply with_children.
  - apply with_unique.
  - intros p pr [[-> ->]|(Hp & pr0 & Hp0 & ->)]%with_inv; [congruence|]. by apply (tw_link _ _ _ Hwf p pr0).
  - intros p pr [[-> ->]|(Hp & pr0 & Hp0 & ->)]%with_inv; [split; congruence|].
    by apply (tw_root _ _ _ Hwf p pr0).
  - intros p pr q [[-> ->]|(Hp & pr0 & Hp0 & ->)]%with_inv Hq.
    + rewrite Hpar in Hq. injection Hq as <-. split; [congruence|]. rewrite (with_old _ _ Hc). by eexists.
    + destruct (tw_parent _ _ _ Hwf _ _ _ Hp0 Hq) as [? [qr Hqr]]. split; [done|].
      rewrite (with_old _ _ Hqr). by eexists.
Qed.
End adding.

(** A process [x] moves from the children of [c] to those of [i]. *)
Section moving.
Context (ps : gmap ptr proc) (l : list ptr) (next : Z) (x c i : ptr) (xr cr ir : proc).
Hypotheses (Hwf : tree_wf ps l next) (Hx : ps !! x = Some xr) (Hc : ps !! c = Some cr)
  (Hi : ps !! i = Some ir) (Hpar : p_pproc xr = Some c) (Hic : i <> c) (Hix : i <> x).

Definition tree_move : gmap ptr proc :=
  <[x := xr <| p_pproc := Some i |> <| p_child_link := Some i |>]>
    (<[i := ir <| p_children ::= fun l => l ++ [x] |>]>
      (<[c := cr <| p_children ::= remove_elem x |>]> ps)).

Definition move_node (q : ptr) (qr : proc) : proc :=
  if decide (q = x) then qr <| p_pproc := Some i |> <| p_child_link := Some i |>
  else if decide (q = i) then qr <| p_children ::= fun l => l ++ [x] |>
  else if decide (q = c) then qr <| p_children ::= remove_elem x |>
  else qr.

Lemma move_lookup q : tree_move !! q = move_node q <$> ps !! q.
Proof.
  unfold tree_move, move_node.
  destruct (decide (q = x)) as [->|]; [by rewrite lookup_insert_eq, Hx|].
  rewrite lookup_insert_ne by done.
  destruct (decide (q = i)) as [->|]; [by rewrite lookup_insert_eq, Hi|].
  rewrite lookup_insert_ne by done.
  destruct (decide (q = c)) as [->|]; [by rewrite lookup_insert_eq, Hc|].
  rewrite lookup_insert_ne by done. by destruct (ps !! q).
Qed.

Lemma move_self : tree_move !! x = Some (xr <| p_pproc := Some i |> <| p_child_link := Some i |>).
Proof. apply lookup_insert_eq. Qed.

Lemma move_to : tree_move !! i = Some (ir <| p_children ::= fun l => l ++ [x] |>).
Proof. unfold tree_move. rewrite lookup_insert_ne by done. apply lookup_insert_eq. Qed.

Lemma move_from l' : p_children cr = x :: l' -> tree_move !! c = Some (cr <| p_children := l' |>).
Proof.
  intros Hch. destruct (tw_parent _ _ _ Hwf _ _ _ Hx Hpar) as [Hcx _].
  pose proof (tw_unique _ _ _ Hwf _ _ Hc) as Hnd. rewrite Hch in Hnd. apply NoDup_cons in Hnd as [Hxl _].
  unfold tree_move. rewrite !lookup_insert_ne, lookup_insert_eq by done.
  unfold update_field. f_equal. simpl. rewrite Hch. f_equal.
  unfold remove_elem. rewrite filter_cons_False by naive_solver.
  change (filter _ l') with (remove_elem x l'). by apply remove_elem_not_in.
Qed.

Lemma move_other q : q <> x -> q <> c -> q <> i -> tree_move !! q = ps !! q.
Proof. intros. unfold tree_move. by rewrite !lookup_insert_ne. Qed.

Lemma move_inv q qr : tree_move !! q = Some qr -> exists qr0, ps !! q = Some qr0 /\ qr = move_node q qr0.
Proof. rewrite move_lookup, fmap_Some. done. Qed.

Lemma move_fields q qr : p_pid (move_node q qr) = p_pid qr /\ p_list_link (move_node q qr) = p_list_link qr.
Proof. unfold move_node. by repeat destruct (decide _). Qed.

Lemma move_parent q qr : p_pproc (move_node q qr) = if decide (q = x) then Some i else p_pproc qr.
Proof. unfold move_node. by repeat destruct (decide _). Qed.

Lemma move_link q qr : p_child_link (move_node q qr) = if decide (q = x) then Some i else p_child_link qr.
Proof. unfold move_node. by repeat destruct (decide _). Qed.

Lemma move_live q : is_Some (tree_move !! q) <-> is_Some (ps !! q).
Proof. by rewrite move_lookup, fmap_is_Some. Qed.

Lemma move_children_node q qr y : ps !! q = Some qr ->
  y ∈ p_children (move_node q qr) <->
    (y <> x /\ y ∈ p_children qr) \/ (y = x /\ q = i).
Proof.
  intros Hq.
  assert (Hxq : x ∈ p_children qr <-> q = c).
  { rewrite (tw_children _ _ _ Hwf q qr x Hq). split; [|intros ->; eauto].
    intros (xr' & ? & ?). simplify_eq. congruence. }
  assert (Hxc : c <> x) by (intros ->; by destruct (tw_parent _ _ _ Hwf _ _ _ Hx Hpar)).
  unfold move_node. repeat destruct (decide _); subst; simpl;
    rewrite ?elem_of_app, ?list_elem_of_singleton, ?elem_of_remove_elem;
    destruct (decide (y = x)) as [->|]; naive_solver.
Qed.

Lemma move_children q qr y : tree_move !! q = Some qr ->
  y ∈ p_children qr <-> exists yr, tree_move !! y = Some yr /\ p_pproc yr = Some q.
Proof.
  intros (qr0 & Hq & ->)%move_inv. rewrite (move_children_node _ _ _ Hq), (tw_children _ _ _ Hwf q qr0 y Hq).
  split.
  - intros [[Hyx (yr & Hy & Hyp)]|[-> ->]].
    + exists (move_node y yr). rewrite move_lookup, Hy, move_parent. by rewrite decide_False.
    + exists (move_node x xr). rewrite move_lookup, Hx, move_parent. by rewrite decide_True.
  - intros (yr & (yr0 & Hy & ->)%move_inv & Hyp). rewrite move_parent in Hyp.
    destruct (decide (y = x)) as [->|]; [right; split; congruence|left; eauto].
Qed.

Lemma tree_moved : tree_wf tree_move l next.
Proof.
  split.
  - apply Hwf.
  - intros q qr (qr0 & Hq & ->)%move_inv. rewrite (proj2 (move_fields _ _)). by apply Hwf.
  - intros q Hq. apply move_live. by apply Hwf.
  - intros p q pr qr (pr0 & Hp & ->)%move_inv (qr0 & Hq & ->)%move_inv.
    rewrite !(proj1 (move_fields _ _)). by apply (tw_pid _ _ _ Hwf).
  - intros q qr (qr0 & Hq & ->)%move_inv. rewrite (proj1 (move_fields _ _)). by apply (tw_range _ _ _ Hwf q).
  - apply Hwf.
  - apply move_children.
  - intros q qr (qr0 & Hq & ->)%move_inv. pose proof (tw_unique _ _ _ Hwf _ _ Hq) as Hnd.
    unfold move_node. repeat destruct (decide _); subst; simpl; auto using NoDup_remove_elem.
    apply NoDup_app. split_and!; [done| |apply NoDup_singleton].
    intros y Hy ->%list_elem_of_singleton. apply (tw_children _ _ _ Hwf i qr0 x Hq) in Hy as (? & ? & ?).
    congruence.
  - intros q qr (qr0 & Hq & ->)%move_inv. rewrite move_link, move_parent.
    destruct (decide _); [done|]. by apply (tw_link _ _ _ Hwf q).
  - intros q qr (qr0 & Hq & ->)%move_inv. rewrite move_parent, (proj1 (move_fields _ _)).
    rewrite <- (tw_root _ _ _ Hwf q qr0 Hq). destruct (decide _); [subst|done]. split; congruence.
  - intros q qr p (qr0 & Hq & ->)%move_inv. rewrite move_parent, move_live. destruct (decide _) as [->|].
    + intros [= <-]. split; [done|]. by eexists.
    + by apply (tw_parent _ _ _ Hwf).
Qed.
End moving.

(** A process [x] without children leaves its parent [c] and the list. *)
Section removing_leaf.
Context (ps : gmap ptr proc) (l : list ptr) (next : Z) (x c : ptr) (xr cr : proc).
Hypotheses (Hwf : tree_wf ps l next) (Hx : ps !! x = Some xr) (Hc : ps !! c = Some cr)
  (Hpar : p_pproc xr = Some c) (Hleaf : p_children xr = []).

Definition tree_without : gmap ptr proc :=
  delete x (<[c := cr <| p_children ::= remove_elem x |>]> ps).

Definition drop_node (q : ptr) (qr : proc) : proc :=
  if decide (q = c) then qr <| p_children ::= remove_elem x |> else qr.

Lemma without_inv q qr : tree_without !! q = Some qr ->
  q <> x /\ exists qr0, ps !! q = Some qr0 /\ qr = drop_node q qr0.
Proof.
  unfold tree_without, drop_node. rewrite lookup_delete_Some, lookup_insert_Some.
  intros [Hqx [[<- <-]|[Hqc Hq]]]; (split; [done|]).
  - exists cr. by rewrite decide_True.
  - exists qr. by rewrite decide_False.
Qed.

Lemma without_old q qr : q <> x -> ps !! q = Some qr -> tree_without !! q = Some (drop_node q qr).
Proof.
  intros Hqx Hq. unfold tree_without, drop_node. rewrite lookup_delete_ne by done.
  destruct (decide (q = c)) as [->|]; [rewrite lookup_insert_eq; by simplify_eq|by rewrite lookup_insert_ne].
Qed.

Lemma drop_fields q qr : p_pid (drop_node q qr) = p_pid qr /\ p_list_link (drop_node q qr) = p_list_link qr /\
  p_pproc (drop_node q qr) = p_pproc qr /\ p_child_link (drop_node q qr) = p_child_link qr.
Proof. unfold drop_node. by destruct (decide _). Qed.

Lemma drop_children q qr y : ps !! q = Some qr ->
  y ∈ p_children (drop_node q qr) <-> y <> x /\ y ∈ p_children qr.
Proof.
  intros Hq. unfold drop_node. destruct (decide (q = c)) as [->|Hne]; simpl.
  - by rewrite elem_of_remove_elem.
  - split; [|naive_solver]. intros Hy. split; [intros ->|done].
    apply (tw_children _ _ _ Hwf q qr x Hq) in Hy as (? & ? & ?). congruence.
Qed.

Lemma without_children q qr y : tree_without !! q = Some qr ->
  y ∈ p_children qr <-> exists yr, tree_without !! y = Some yr /\ p_pproc yr = Some q.
Proof.
  intros (Hqx & qr0 & Hq & ->)%without_inv.
  rewrite (drop_children _ _ _ Hq), (tw_children _ _ _ Hwf q qr0 y Hq). split.
  - intros [Hyx (yr & Hy & Hyp)]. exists (drop_node y yr).
    rewrite (without_old _ _ Hyx Hy). by destruct (drop_fields y yr) as (_ & _ & -> & _).
  - intros (yr & (Hyx & yr0 & Hy & ->)%without_inv & Hyp).
    destruct (drop_fields y yr0) as (_ & _ & Hpp & _). rewrite Hpp in Hyp. eauto.
Qed.

Lemma tree_removed : tree_wf tree_without (remove_elem x l) next.
Proof.
  assert (Hnochild : forall q qr, ps !! q = Some qr -> p_pproc qr <> Some x).
  { intros q qr Hq Hqp. apply (not_elem_of_nil q). rewrite <- Hleaf.
    apply (tw_children _ _ _ Hwf x xr q Hx). eauto. }
  split.
  - apply NoDup_remove_elem, Hwf.
  - intros q qr (Hqx & qr0 & Hq & ->)%without_inv. rewrite elem_of_remove_elem.
    destruct (drop_fields q qr0) as (_ & -> & _ & _). destruct (tw_listed _ _ _ Hwf _ _ Hq). done.
  - intros q [Hqx Hq]%elem_of_remove_elem. destruct (tw_live _ _ _ Hwf _ Hq) as [qr Hqr].
    rewrite (without_old _ _ Hqx Hqr). by eexists.
  - intros p q pr qr (_ & pr0 & Hp & ->)%without_inv (_ & qr0 & Hq & ->)%without_inv.
    destruct (drop_fields p pr0) as (-> & _). destruct (drop_fields q qr0) as (-> & _).
    by apply (tw_pid _ _ _ Hwf).
  - intros q qr (_ & qr0 & Hq & ->)%without_inv. destruct (drop_fields q qr0) as (-> & _).
    by apply (tw_range _ _ _ Hwf q).
  - apply Hwf.
  - apply without_children.
  - intros q qr (_ & qr0 & Hq & ->)%without_inv. pose proof (tw_unique _ _ _ Hwf _ _ Hq) as Hnd.
    unfold drop_node. destruct (decide _); simpl; auto using NoDup_remove_elem.
  - intros q qr (_ & qr0 & Hq & ->)%without_inv. destruct (drop_fields q qr0) as (_ & _ & -> & ->).
    by apply (tw_link _ _ _ Hwf q).
  - intros q qr (_ & qr0 & Hq & ->)%without_inv. destruct (drop_fields q qr0) as (-> & _ & -> & _).
    by apply (tw_root _ _ _ Hwf q).
  - intros q qr p (_ & qr0 & Hq & ->)%without_inv. destruct (drop_fields q qr0) as (_ & _ & -> & _).
    intros Hqp. destruct (tw_parent _ _ _ Hwf _ _ _ Hq Hqp) as [? [pr Hp]]. split; [done|].
    assert (p <> x) by (intros ->; by apply (Hnochild q qr0)). rewrite (without_old p pr) by done. by eexists.
Qed.
End removing_leaf.

(** Members that are not part of the tree. *)
Lemma tree_update ps l next p pr pr' :
  tree_wf ps l next -> ps !! p = Some pr ->
  p_pid pr' = p_pid pr -> p_list_link pr' = p_list_link pr -> p_children pr' = p_children pr ->
  p_pproc pr' = p_pproc pr -> p_child_link pr' = p_child_link pr ->
  tree_wf (<[p := pr']> ps) l next.
Proof.
  intros Hwf Hp E1 E2 E3 E4 E5.
  assert (Hinv : forall q qr', <[p := pr']> ps !! q = Some qr' -> exists qr, ps !! q = Some qr /\
    p_pid qr' = p_pid qr /\ p_list_link qr' = p_list_link qr /\ p_children qr' = p_children qr /\
    p_pproc qr' = p_pproc qr /\ p_child_link qr' = p_child_link qr).
  { intros q qr'. rewrite lookup_insert_Some. intros [[<- <-]|[_ Hq]]; eauto 10. }
  assert (Hold : forall q qr, ps !! q = Some qr -> exists qr', <[p := pr']> ps !! q = Some qr' /\
    p_pproc qr' = p_pproc qr).
  { intros q qr Hq. destruct (decide (q = p)) as [->|].
    - exists pr'. rewrite lookup_insert_eq. split; congruence.
    - exists qr. by rewrite lookup_insert_ne. }
  split; try apply Hwf.
  - intros q qr (? & ? & _ & -> & _)%Hinv. by apply Hwf.
  - intros q [qr Hq]%(tw_live _ _ _ Hwf). destruct (Hold _ _ Hq) as (? & -> & _). by eexists.
  - intros q1 q2 qr1 qr2 (? & ? & -> & _)%Hinv (? & ? & -> & _)%Hinv. by apply (tw_pid _ _ _ Hwf).
  - intros q qr (? & ? & -> & _)%Hinv. by apply (tw_range _ _ _ Hwf q).
  - intros q qr y (? & Hq & _ & _ & -> & _)%Hinv. rewrite (tw_children _ _ _ Hwf _ _ y Hq). split.
    + intros (yr & Hy & ?). destruct (Hold _ _ Hy) as (yr' & ? & ?). exists yr'. split; congruence.
    + intros (yr & (yr0 & ? & _ & _ & _ & Hpp & _)%Hinv & ?). exists yr0. split; congruence.
  - intros q qr (? & ? & _ & _ & -> & _)%Hinv. by apply (tw_unique _ _ _ Hwf q).
  - intros q qr (? & ? & _ & _ & _ & -> & ->)%Hinv. by apply (tw_link _ _ _ Hwf q).
  - intros q qr (? & ? & -> & _ & _ & -> & _)%Hinv. by apply (tw_root _ _ _ Hwf q).
  - intros q qr r (? & Hq & _ & _ & _ & -> & _)%Hinv Hr.
    destruct (tw_parent _ _ _ Hwf _ _ _ Hq Hr) as [? [rr Hrr]]. split; [done|].
    destruct (Hold _ _ Hrr) as (? & -> & _). by eexists.
Qed.
End tree.

(** ** How the link operations run *)
Lemma link_proc_run k p pr : procs k !! p = Some pr -> p_list_link pr = false ->
  link_proc p k = Ret tt (k <| proc_list := proc_list k ++ [p] |>
    <| procs := <[p := pr <| p_list_link := true |>]> (procs k) |>).
Proof.
  intros Hp Hl. unfold link_proc. rewrite (bind_deref procs _ _ _ _ Hp), Hl, bind_modify.
  by rewrite (assign_Some procs _ pr).
Qed.

Lemma unlink_proc_run k p pr : procs k !! p = Some pr -> p_list_link pr = true ->
  unlink_proc p k = Ret tt (k <| proc_list := remove_elem p (proc_list k) |>
    <| procs := <[p := pr <| p_list_link := false |>]> (procs k) |>).
Proof.
  intros Hp Hl. unfold unlink_proc. rewrite (bind_deref procs _ _ _ _ Hp), Hl, bind_modify.
  by rewrite (assign_Some procs _ pr).
Qed.

Lemma link_child_run k par pr c cr : procs k !! c = Some cr -> procs k !! par = Some pr -> par <> c ->
  p_child_link cr = None ->
  link_child par c k = Ret tt (k <| procs := <[c := cr <| p_child_link := Some par |>]>
    (<[par := pr <| p_children ::= fun l => l ++ [c] |>]> (procs k)) |>).
Proof.
  intros Hc Hp Hne Hl. unfold link_child. rewrite (bind_deref procs _ _ _ _ Hc), Hl.
  rewrite (bind_assign procs _ pr) by done.
  rewrite (assign_Some procs _ cr) by (simpl; by rewrite lookup_insert_ne). done.
Qed.

Lemma unlink_child_run k par pr c cr : procs k !! c = Some cr -> procs k !! par = Some pr -> par <> c ->
  p_child_link cr = Some par ->
  unlink_child c k = Ret tt (k <| procs := <[c := cr <| p_child_link := None |>]>
    (<[par := pr <| p_children ::= remove_elem c |>]> (procs k)) |>).
Proof.
  intros Hc Hp Hne Hl. unfold unlink_child. rewrite (bind_deref procs _ _ _ _ Hc), Hl.
  rewrite (bind_assign procs _ pr) by done.
  rewrite (assign_Some procs _ cr) by (simpl; by rewrite lookup_insert_ne). done.
Qed.

Lemma bind_curproc {B} k c (f : ptr -> K B) : curproc k = Some c -> bind the_curproc f k = f c k.
Proof. intros Hc. unfold the_curproc, bind, gets. simpl. by rewrite Hc. Qed.

(** ** What process code needs of the file system *)
Class VfsOk (V : VfsCalls) := {
  (* the vnode is in use *)
  vnode_active : kernel -> ptr -> Prop;
  vfs_vref_run k vn : vnode_active k vn ->
    exists k', vfs_vref vn k = Ret tt k' /\ k' = k <| mmobjs := mmobjs k' |> /\ vnode_active k' vn;
  vnode_active_ext k k' vn : mmobjs k' = mmobjs k -> vnodes k' = vnodes k ->
    vnode_active k vn -> vnode_active k' vn;
}.

Section creating.
Context `{PO : PlatformOk, MH : MmHeaders, Ops : MmobjOps, V : VfsCalls, VO : !VfsOk V}.

(** The process that [proc_create] makes, but for its page directory and address space. *)
Definition new_process (pid : Z) (name : string) (c : ptr) (cwd : option ptr) (brk : Z) : proc := {|
  p_pid := pid; p_comm := String.substring 0 PROC_NAME_LEN name; p_threads := []; p_children := [];
  p_pproc := Some c; p_status := 0; p_state := PROC_RUNNING; p_pagedir := None; p_list_link := true;
  p_child_link := Some c; p_files := replicate NFILES None; p_cwd := cwd; p_vmmap := None;
  p_brk := brk; p_start_brk := brk |}.

(** A free identifier is found, and it is not that of a live process. *)
Lemma getid_fresh k : proc_wf k -> (exists pid, 0 <= pid < PROC_MAX_COUNT /\ ~ used_pid k pid) ->
  exists pid next, _proc_getid k = Ret pid (k <| next_pid := next |>) /\ ~ used_pid k pid /\
    0 <= pid < PROC_MAX_COUNT /\ 0 <= next < PROC_MAX_COUNT /\
    (~ used_pid k (next_pid k) -> pid = next_pid k) /\ next = (pid + 1) mod PROC_MAX_COUNT.
Proof.
  intros Hwf (pid0 & Hr0 & Hfree). pose proof (tw_next _ _ _ Hwf) as Hnext.
  unfold _proc_getid. rewrite bind_get.
  assert (H0 : (next_pid k + 0) mod PROC_MAX_COUNT = next_pid k)
    by (rewrite Z.add_0_r; by apply Z.mod_small).
  destruct (Z.to_nat PROC_MAX_COUNT) as [|n] eqn:Hn; [lia|].
  destruct (getid_loop_run k (next_pid k) n 0) as
    (r & k' & Hrun & [(-> & -> & Hall)|(d & Hd & Hr & Hnew & Hprev & ->)]);
    try done; try lia; [by apply wf_procs_live|..].
  - destruct Hfree. destruct (decide (next_pid k <= pid0)).
    + specialize (Hall (pid0 - next_pid k) ltac:(lia)).
      replace (next_pid k + (pid0 - next_pid k)) with pid0 in Hall by lia. by rewrite Z.mod_small in Hall.
    + assert (Hx : 0 <= pid0 - next_pid k + PROC_MAX_COUNT < PROC_MAX_COUNT) by lia.
      apply Hall in Hx. clear Hall. rename Hx into Hall.
      replace (next_pid k + (pid0 - next_pid k + PROC_MAX_COUNT)) with (pid0 + 1 * PROC_MAX_COUNT) in Hall by lia.
      rewrite Z.mod_add in Hall by lia. by rewrite Z.mod_small in Hall.
  - exists r, ((r + 1) mod PROC_MAX_COUNT). rewrite H0 in Hrun. rewrite Hrun. split_and!; try done.
    all: try (rewrite ?Hr; apply Z.mod_pos_bound; lia).
    intros Hn0. destruct (decide (d = 0)) as [->|]; [congruence|]. destruct Hn0.
    rewrite <- H0. apply Hprev. lia.
Qed.

(** The init process is recorded, and only the idle process creates it. *)
Lemma record_init {B} k c cp pid n (f : unit -> K B) :
  curproc k = Some c -> procs k !! c = Some cp -> (pid = PID_INIT -> p_pid cp = PID_IDLE) ->
  bind (if pid =? PID_INIT then
          c ← the_curproc; cp ← deref procs c; KASSERT (p_pid cp =? PID_IDLE)
        else ret tt)
    (fun _ => bind (if pid =? PID_INIT then modify (fun k => k <| proc_initproc := Some n |>) else ret tt) f) k
  = f tt (k <| proc_initproc := if pid =? PID_INIT then Some n else proc_initproc k |>).
Proof.
  intros Hc Hcp Hinit. destruct (Z.eqb_spec pid PID_INIT) as [Heq|Hne].
  - erewrite bind_ret; [|rewrite (bind_curproc _ _ _ Hc); kstep; rewrite Hinit, Z.eqb_refl; done].
    by rewrite bind_modify.
  - rewrite !bind_ret_l. by destruct k.
Qed.

(** The page directory [r] was taken. *)
Definition new_pagedir (k k' : kernel) (r : option ptr) : Prop :=
  (exists n, r = pt_new_pagedir n (pagedirs k)) /\
  pagedirs k' = match r with Some d => {[d]} ∪ pagedirs k | None => pagedirs k end.

Lemma bind_pagedir {B} k (f : option ptr -> K B) :
  exists r k', bind pt_create_pagedir f k = f r k' /\
    k' = k <| pagedirs := pagedirs k' |> <| alloc_count := alloc_count k' |> /\ new_pagedir k k' r.
Proof. eexists _, _. split; [reflexivity|]. split; [by destruct k|]. split; [by eexists|done]. Qed.

(** Linking the new process [n], whose members are [r], into the list and below [c]. *)
Lemma link_new {B} k n r c cp (f : unit -> K B) :
  procs k !! n = Some r -> procs k !! c = Some cp -> n <> c -> curproc k = Some c ->
  p_list_link r = false -> p_child_link r = None ->
  bind (link_proc n) (fun _ => bind (c ← the_curproc; link_child c n) f) k =
  f tt (k <| proc_list := proc_list k ++ [n] |>
          <| procs := tree_with (procs k) n (r <| p_list_link := true |> <| p_child_link := Some c |>) c cp |>).
Proof.
  intros Hn Hc Hne Hcur Hl Hcl. rewrite (bind_ret _ _ _ _ _ (link_proc_run _ _ _ Hn Hl)).
  erewrite bind_ret.
  2: { rewrite (bind_curproc _ c) by done.
       apply (link_child_run _ c cp n (r <| p_list_link := true |>)); try done.
       - lookup_solve.
       - simpl. by rewrite lookup_insert_ne. }
  f_equal. unfold tree_with. kernel_ext.
  rewrite (insert_insert_ne _ n c), insert_insert_eq by done. by rewrite insert_insert_ne.
Qed.

(** The state that making a process does not concern. *)
Definition elsewhere (k : kernel) :=
  (mutexes k, kstacks k, ipl k, vmareas k, pframes k, pages k, mmu k, vnodes k, vnode_inuse_list k, files k, vfs_root_vn k).

(** What process code changes when it makes a process. *)
Definition proc_globals (k k' : kernel) : Prop :=
  proc_list k' = proc_list k /\ next_pid k' = next_pid k /\ proc_initproc k' = proc_initproc k /\
  threads k' = threads k /\ curproc k' = curproc k /\ curthr k' = curthr k /\ queues k' = queues k /\
  pagedirs k' = pagedirs k /\ elsewhere k' = elsewhere k.

Lemma with_set ps n r r' c cp : <[n := r']> (tree_with ps n r c cp) = tree_with ps n r' c cp.
Proof. unfold tree_with. by rewrite insert_insert_eq. Qed.

Lemma with_shadow ps n r r' c cp : n <> c -> tree_with (<[n := r']> ps) n r c cp = tree_with ps n r c cp.
Proof. intros Hne. unfold tree_with. by rewrite insert_insert_ne, insert_insert_eq, insert_insert_ne. Qed.

(** The reference to the working directory. *)
Lemma cwd_ref k cwd (special : bool) : (forall vn, cwd = Some vn -> vnode_active k vn) ->
  exists k', match cwd with
      | Some vn => if special then ret tt else vfs_vref vn
      | None => ret tt
      end k = Ret tt k' /\ k' = k <| mmobjs := mmobjs k' |> /\ (forall vn, cwd = Some vn -> vnode_active k' vn).
Proof.
  intros Hact. destruct cwd as [vn|]; [destruct special|].
  2: { destruct (vfs_vref_run k vn) as (k' & ? & ? & ?); [by apply Hact|]. exists k'. by split_and!; [..|intros ? [= <-]]. }
  all: exists k; split; [done|split; [by destruct k|done]].
Qed.

(** The rest of [proc_create]: file table and working directory, then the address space. *)
Definition create_space (n : ptr) : K (option ptr) :=
  m ← vmmap_create;
  match m with
  | None => slab_free procs n;; ret None
  | Some newVMmap =>
      assign procs n (fun p => p <| p_vmmap := Some newVMmap |>);;
      assign vmmaps newVMmap (fun m => m <| vmm_proc := Some n |>);;
      ret (Some n)
  end.

Lemma create_files k ps n r c cp special :
  procs k = tree_with ps n r c cp -> ps !! n = None -> ps !! c = Some cp -> curproc k = Some c ->
  (forall vn, p_cwd cp = Some vn -> vnode_active k vn) ->
  exists k',
    (assign procs n (fun p => p <| p_files := replicate NFILES None |>);;
     cwd ← (c ← the_curproc; cp ← deref procs c; ret (p_cwd cp));
     assign procs n (fun p => p <| p_cwd := cwd |>);;
     match cwd with
     | Some vn => if special : bool then ret tt else vfs_vref vn
     | None => ret tt
     end;;
     create_space n) k = create_space n k' /\
    procs k' = tree_with ps n (r <| p_files := replicate NFILES None |> <| p_cwd := p_cwd cp |>) c cp /\
    vmmaps k' = vmmaps k /\ (forall vn, p_cwd cp = Some vn -> vnode_active k' vn) /\ proc_globals k k'.
Proof.
  intros Hps Hn Hc Hcur Hact. assert (Hnc : c <> n) by congruence.
  rewrite (bind_assign procs _ r) by (rewrite Hps; apply with_new).
  rewrite Hps, with_set. erewrite (bind_ret _ _ _ (p_cwd cp)).
  2: { rewrite (bind_curproc _ c) by done. erewrite (bind_deref procs) by (apply with_old; eassumption).
       done. }
  erewrite (bind_assign procs) by apply with_new. change (procs (_ <| procs := ?m |>)) with m. rewrite with_set.
  match goal with |- context [bind (match p_cwd cp with _ => _ end) _ ?k] =>
    destruct (cwd_ref k (p_cwd cp) special) as (k2 & Hrun & Hk2 & Hact2) end.
  { intros vn Hvn. by apply (vnode_active_ext k), Hact. }
  rewrite (bind_ret _ _ _ _ _ Hrun). clear Hrun.
  exists k2. split; [reflexivity|]. unfold proc_globals. rewrite Hk2. split_and!; try done. by rewrite <- Hk2.
Qed.

(** Up to the allocation of the address space. *)
Lemma create_prefix k name c cp n :
  proc_wf k -> curproc k = Some c -> procs k !! c = Some cp ->
  slab_obj_alloc (alloc_count k) (dom (procs k)) = Some n ->
  (exists pid, 0 <= pid < PROC_MAX_COUNT /\ ~ used_pid k pid) ->
  used_pid k PID_IDLE -> used_pid k PID_INIT \/ p_pid cp = PID_IDLE ->
  (forall vn, p_cwd cp = Some vn -> vnode_active k vn) ->
  exists k' nr pid brk, proc_create name k = create_space n k' /\
    procs k !! n = None /\ ~ used_pid k pid /\ 0 <= pid < PROC_MAX_COUNT /\
    procs k' = tree_with (procs k) n nr c cp /\ proc_list k' = proc_list k ++ [n] /\
    0 <= next_pid k' < PROC_MAX_COUNT /\
    nr = (new_process pid name c (p_cwd cp) brk) <| p_pagedir := p_pagedir nr |> /\
    vmmaps k' = vmmaps k /\ proc_initproc k' = (if pid =? PID_INIT then Some n else proc_initproc k) /\
    (~ used_pid k (next_pid k) -> pid = next_pid k) /\ threads k' = threads k /\ curproc k' = curproc k /\
    curthr k' = curthr k /\ queues k' = <[ProcWait n := empty_ktqueue]> (queues k) /\
    (forall vn, p_cwd cp = Some vn -> vnode_active k' vn) /\ elsewhere k' = elsewhere k /\
    new_pagedir k k' (p_pagedir nr).
Proof.
  intros Hwf Hc Hcp Hn Hfree Hidle Hinit Hcwd. unfold proc_create.
  rewrite bind_slab_alloc, Hn.
  apply slab_obj_alloc_fresh in Hn. rewrite not_elem_of_dom in Hn. rewrite bind_nonnull.
  set (k1 := k <| alloc_count ::= S |>).
  destruct (getid_fresh k1 Hwf Hfree) as (pid & next & Hget & Hnew & Hpid & Hnext & Hfirst & _).
  rewrite (bind_ret _ _ _ _ _ Hget), bind_get.
  assert (Hnidle : pid <> PID_IDLE) by (intros ->; by apply Hnew).
  rewrite bind_KASSERT by (rewrite (proj2 (Z.eqb_neq _ _) Hnidle); done).
  assert (Hnc : n <> c) by congruence.
  rewrite (record_init _ c cp) by (try done; intros ->; by destruct Hinit as [?| ->]).
  rewrite (proj2 (Z.eqb_neq _ _) Hnidle).
  rewrite bind_init_obj, bind_queue_init.
  match goal with |- context [bind pt_create_pagedir ?f ?k] =>
    destruct (bind_pagedir k f) as (pd & k2 & -> & Hk2 & Hpd) end.
  rewrite Hk2. clear Hk2. kstep.
  match goal with |- context [bind (link_proc n) ?f ?k] => set (k3 := k) end.
  rewrite (link_new k3 n _ c cp) by (try done; unfold k3; lookup_solve).
  match goal with |- context [bind (assign procs n _) _ ?k] => set (k4 := k) end.
  assert (Hps4 : procs k4 = tree_with (procs k) n ((new_process pid name c (p_cwd cp)
    (uninit (S (alloc_count k)))) <| p_pagedir := pd |> <| p_files := [] |> <| p_cwd := None |>) c cp).
  { unfold k4, k3. simpl. rewrite !with_shadow by done. by rewrite Hc. }
  destruct (create_files k4 (procs k) n _ c cp (pid =? PID_INIT) Hps4)
    as (k' & Hrun & Hps & Hmaps & Hact & Hl & Hnx & Hi & Ht & Hcu & Hth & Hq & Hds & Hel); try done.
  { intros vn Hvn. by apply (vnode_active_ext k), Hcwd. }
  eexists k', _, pid, (uninit (S (alloc_count k))).
  split; [exact Hrun|]. split; [done|]. split; [exact Hnew|]. split; [done|]. split; [exact Hps|].
  split_and!; try done; try (rewrite Hnx; apply Hnext).
  destruct Hpd as [Hn' Hd']. split; [exact Hn'|]. rewrite Hds. exact Hd'.
Qed.

(** The address space is allocated, or it is not. *)
Lemma create_space_run k ps n r c cp : procs k = tree_with ps n r c cp ->
  match slab_obj_alloc (alloc_count k) (dom (vmmaps k)) with
  | Some map => exists k', create_space n k = Ret (Some n) k' /\
      procs k' = tree_with ps n (r <| p_vmmap := Some map |>) c cp /\ vmmaps k !! map = None /\
      vmmaps k' = <[map := {| vmm_list := []; vmm_proc := Some n |}]> (vmmaps k) /\ proc_globals k k' /\
      mmobjs k' = mmobjs k /\ vnodes k' = vnodes k
  | None => exists k', create_space n k = Ret None k' /\ procs k' = delete n (procs k) /\ proc_globals k k'
  end.
Proof.
  intros Hps. unfold create_space, vmmap_create. rewrite bind_unfold, bind_slab_alloc.
  destruct (slab_obj_alloc _ _) as [map|] eqn:Hmap.
  - apply slab_obj_alloc_fresh in Hmap. rewrite not_elem_of_dom in Hmap. rewrite bind_init_obj. simpl obind.
    rewrite (bind_assign procs _ r) by (simpl; rewrite Hps; apply with_new).
    erewrite (bind_assign vmmaps) by (simpl; apply lookup_insert_eq).
    eexists. split; [reflexivity|]. split_and!; try done; simpl.
    + rewrite Hps. apply with_set.
    + apply insert_insert_eq.
  - simpl obind. rewrite (bind_slab_free procs _ r) by (simpl; rewrite Hps; apply with_new).
    eexists. split; [reflexivity|]. by split_and!.
Qed.

(** [proc_create] when there is memory and an identifier. *)
Lemma proc_create_run k name c cp :
  proc_wf k -> curproc k = Some c -> procs k !! c = Some cp ->
  (forall n live, is_Some (slab_obj_alloc n live)) ->
  (exists pid, 0 <= pid < PROC_MAX_COUNT /\ ~ used_pid k pid) ->
  used_pid k PID_IDLE -> used_pid k PID_INIT \/ p_pid cp = PID_IDLE ->
  (forall vn, p_cwd cp = Some vn -> vnode_active k vn) ->
  exists k' n pid pd map brk, proc_create name k = Ret (Some n) k' /\ proc_wf k' /\
    procs k !! n = None /\ ~ used_pid k pid /\
    procs k' !! n = Some ((new_process pid name c (p_cwd cp) brk) <| p_pagedir := pd |> <| p_vmmap := Some map |>) /\
    procs k' !! c = Some (cp <| p_children ::= fun l => l ++ [n] |>) /\
    (forall q, q <> n -> q <> c -> procs k' !! q = procs k !! q) /\
    vmmaps k !! map = None /\ vmmaps k' = <[map := {| vmm_list := []; vmm_proc := Some n |}]> (vmmaps k) /\
    proc_initproc k' = (if pid =? PID_INIT then Some n else proc_initproc k) /\
    (~ used_pid k (next_pid k) -> pid = next_pid k) /\ threads k' = threads k /\ curproc k' = curproc k /\
    curthr k' = curthr k /\ queues k' = <[ProcWait n := empty_ktqueue]> (queues k) /\
    proc_list k' = proc_list k ++ [n] /\ (forall vn, p_cwd cp = Some vn -> vnode_active k' vn) /\
    new_pagedir k k' pd /\ elsewhere k' = elsewhere k.
Proof.
  intros Hwf Hc Hcp Hmem Hfree Hidle Hinit Hcwd.
  destruct (Hmem (alloc_count k) (dom (procs k))) as [n Halloc].
  destruct (create_prefix k name c cp n Hwf Hc Hcp Halloc Hfree Hidle Hinit Hcwd) as
    (k1 & nr & pid & brk & Hrun & Hn & Hnew & Hpid & Hps & Hl & Hnx & Hnr & Hm & Hi & Hfst & Hth & Hcu & Hct & Hqs & Hact & Hel & Hpd).
  pose proof (create_space_run k1 _ _ _ _ _ Hps) as Hspace.
  destruct (Hmem (alloc_count k1) (dom (vmmaps k1))) as [map Hmap]. rewrite Hmap in Hspace.
  destruct Hspace as (k' & Hrun' & Hps' & Hmap' & Hmaps' & (Hl' & Hnx' & Hi' & Hth' & Hcu' & Hct' & Hqs' & Hds' & Hel') & Hmm' & Hvn').
  exists k', n, pid, (p_pagedir nr), map, brk. rewrite <- Hnr. split_and!; try done; try congruence.
  - unfold proc_wf. rewrite Hps', Hl', Hl. apply (tree_add _ _ (next_pid k)); try done; try (by rewrite Hnr).
    + rewrite Hnr. simpl. intros ->. by apply Hnew.
    + by rewrite Hnx'.
    + intros q qr Hq Heq. apply Hnew. exists q, qr. split; [by apply (tw_listed _ _ _ Hwf q qr)|].
      split; [done|]. by rewrite Heq, Hnr.
  - rewrite Hps'. apply with_new.
  - rewrite Hps'. unfold tree_with. by rewrite lookup_insert_ne, lookup_insert_eq by congruence.
  - intros q Hqn Hqc. rewrite Hps'. unfold tree_with. by rewrite !lookup_insert_ne.
  - intros vn Hvn. by apply (vnode_active_ext k1), Hact.
  - destruct Hpd as [Hex Hd]. split; [exact Hex|]. by rewrite Hds'.
Qed.

(** *** The search over a list whose last process was freed *)
Lemma pid_in_use_dangling k l n pid : procs_live k l -> procs k !! n = None ->
  pid_in_use (l ++ [n]) pid k = Fault BadPtr \/
  (pid_in_use (l ++ [n]) pid k = Ret true k /\
   exists p pr, p ∈ l /\ procs k !! p = Some pr /\ p_pid pr = pid).
Proof.
  intros Hl Hn. induction Hl as [|p l [pr Hp] _ IH]; simpl.
  { left. apply bind_fault. unfold deref. by rewrite Hn. }
  rewrite (bind_deref procs _ _ _ _ Hp). setoid_rewrite elem_of_cons.
  destruct (Z.eqb_spec (p_pid pr) pid); [right; naive_solver|].
  destruct IH as [IH|[IH ?]]; [by left|right]. split; [done|]. naive_solver.
Qed.

Lemma getid_dangling k l n next m : forall i, procs_live k l -> procs k !! n = None ->
  proc_list k = l ++ [n] -> next_pid k = next -> 0 <= next < PROC_MAX_COUNT -> 0 <= i ->
  i + Z.of_nat m = PROC_MAX_COUNT ->
  (exists j, i <= j < PROC_MAX_COUNT /\ forall p pr, p ∈ l -> procs k !! p = Some pr ->
     p_pid pr <> (next + j) mod PROC_MAX_COUNT) ->
  getid_loop m ((next + i) mod PROC_MAX_COUNT) k = Fault BadPtr.
Proof.
  induction m as [|m IH]; intros i Hl Hn Hlist Hnext Hrange Hi Hm (j & Hj & Hfree); [lia|].
  cbn [getid_loop]. rewrite bind_get, Hlist.
  destruct (pid_in_use_dangling k l n ((next + i) mod PROC_MAX_COUNT) Hl Hn)
    as [Hf|[Hr (p & pr & Hp & Hpr & Heq)]]; [by apply bind_fault|].
  rewrite (bind_ret _ _ _ _ _ Hr). cbv zeta. rewrite next_on_circle, Hnext by done.
  assert (Hne : j <> i) by (intros ->; by apply (Hfree p pr)).
  destruct (Z.eqb_spec ((next + (i + 1)) mod PROC_MAX_COUNT) next) as [He|_].
  { apply back_on_circle in He; lia. }
  apply IH; try done; try lia. exists j. split; [lia|done].
Qed.
End creating.

(** ** Reparenting *)
Section reparenting.
Context `{P : Platform}.

Lemma reparent_step {B} k x c i xr cr ir (f : unit -> K B) :
  procs k !! x = Some xr -> procs k !! c = Some cr -> procs k !! i = Some ir ->
  p_child_link xr = Some c -> proc_initproc k = Some i -> i <> c -> i <> x -> c <> x ->
  bind (assign procs x (fun p => p <| p_pproc := proc_initproc k |>)) (fun _ =>
    bind (unlink_child x) (fun _ => bind (nonnull (proc_initproc k)) (fun i => bind (link_child i x) f))) k =
  f tt (k <| procs := tree_move (procs k) x c i xr cr ir |>).
Proof.
  intros Hx Hc Hi Hl Hinit Hic Hix Hcx. rewrite Hinit.
  rewrite (bind_assign procs _ _ _ _ _ Hx).
  erewrite bind_ret.
  2: { apply (unlink_child_run _ c cr x (xr <| p_pproc := Some i |>)); try done; lookup_solve. }
  rewrite bind_nonnull.
  erewrite bind_ret.
  2: { apply (link_child_run _ i ir x (xr <| p_pproc := Some i |> <| p_child_link := None |>));
         try done; lookup_solve. }
  f_equal. kernel_ext. unfold tree_move.
  rewrite !(insert_insert_ne _ x i), !(insert_insert_ne _ x c) by done. by rewrite !insert_insert_eq.
Qed.

Lemma reparent_run c i : i <> c -> forall l k cr ir,
  proc_wf k -> proc_initproc k = Some i -> procs k !! c = Some cr -> p_children cr = l ->
  procs k !! i = Some ir -> i ∉ l ->
  exists k', reparent_loop l k = Ret tt k' /\ proc_wf k' /\ k' = k <| procs := procs k' |> /\
    procs k' !! c = Some (cr <| p_children := [] |>) /\
    procs k' !! i = Some (ir <| p_children ::= fun old => old ++ l |>) /\
    (forall x xr, x ∈ l -> procs k !! x = Some xr ->
       procs k' !! x = Some (xr <| p_pproc := Some i |> <| p_child_link := Some i |>)) /\
    (forall q, q ∉ l -> q <> c -> q <> i -> procs k' !! q = procs k !! q).
Proof.
  intros Hic. induction l as [|x l IH]; intros k cr ir Hwf Hinit Hc Hch Hi Hil.
  { exists k. split_and!; try done.
    - by destruct k.
    - rewrite Hc. f_equal. destruct cr; simpl in *; by subst.
    - rewrite Hi. f_equal. destruct ir. unfold update_field. simpl. by rewrite app_nil_r.
    - by intros ? ? ?%not_elem_of_nil. }
  assert (Hxin : x ∈ p_children cr) by (rewrite Hch; by left).
  apply (tw_children _ _ _ Hwf c cr x Hc) in Hxin as (xr & Hx & Hxp).
  destruct (tw_parent _ _ _ Hwf _ _ _ Hx Hxp) as [Hcx _].
  assert (Hix : i <> x) by set_solver.
  pose proof (tw_unique _ _ _ Hwf _ _ Hc) as Hnd. rewrite Hch in Hnd. apply NoDup_cons in Hnd as [Hxl Hnd].
  cbn [reparent_loop]. rewrite bind_gets.
  rewrite (reparent_step k x c i xr cr ir) by (try done; rewrite (tw_link _ _ _ Hwf _ _ Hx); done).
  set (k1 := k <| procs := _ |>).
  assert (Hc1 : procs k1 !! c = Some (cr <| p_children := l |>)) by (eapply move_from; eauto).
  assert (Hi1 : procs k1 !! i = Some (ir <| p_children ::= fun old => old ++ [x] |>)) by (by apply move_to).
  destruct (IH k1 (cr <| p_children := l |>) (ir <| p_children ::= fun old => old ++ [x] |>))
    as (k' & Hrun & Hwf' & Hk' & Hc' & Hi' & Hmoved & Hother); try done.
  { by apply tree_moved. }
  { set_solver. }
  exists k'. split; [exact Hrun|]. split; [done|]. split_and!.
  - rewrite Hk'. by destruct k.
  - done.
  - rewrite Hi'. f_equal. unfold update_field. simpl. by rewrite <- app_assoc.
  - intros y yr [->|Hy]%elem_of_cons Hyr.
    + rewrite Hother by (done || congruence). simplify_eq. apply move_self.
    + apply Hmoved; [done|]. rewrite <- Hyr. apply move_other; [congruence| |set_solver].
      intros ->. assert (Hcc : c ∈ p_children cr) by (rewrite Hch; by right).
      apply (tw_children _ _ _ Hwf c cr c Hc) in Hcc as (cr' & Hcc & Hp).
      by destruct (tw_parent _ _ _ Hwf _ _ _ Hcc Hp).
  - intros q [Hqx Hq]%not_elem_of_cons Hqc Hqi. rewrite Hother by done. by apply move_other.
Qed.
End reparenting.

(** ** Reaping *)
Section reaping.
Context `{P : Platform}.

(** The threads [l] of process [x] have exited, and each has a stack of its own. *)
Record exited_threads (k : kernel) (x : ptr) (l : list ptr) : Prop := {
  et_nodup : NoDup l;
  et_thread t : t ∈ l -> exists thr st, threads k !! t = Some thr /\ kt_state thr = KT_EXITED /\
    kt_kstack thr = Some st /\ st ∈ kstacks k /\ kt_plink thr = Some x;
  et_stacks t u thr uthr : t ∈ l -> u ∈ l -> threads k !! t = Some thr -> threads k !! u = Some uthr ->
    kt_kstack thr = kt_kstack uthr -> t = u;
}.

Definition stack_of (k : kernel) (l : list ptr) (st : ptr) : Prop :=
  exists t thr, t ∈ l /\ threads k !! t = Some thr /\ kt_kstack thr = Some st.

Lemma kthread_destroy_run k t thr st x xr :
  threads k !! t = Some thr -> kt_kstack thr = Some st -> st ∈ kstacks k -> kt_plink thr = Some x ->
  procs k !! x = Some xr ->
  kthread_destroy t k = Ret tt (k <| kstacks := kstacks k ∖ {[st]} |>
    <| procs := <[x := xr <| p_threads ::= remove_elem t |>]> (procs k) |>
    <| threads := delete t (threads k) |>).
Proof.
  intros Ht Hst Hin Hp Hx. unfold kthread_destroy. rewrite (bind_deref threads _ _ _ _ Ht), Hst.
  rewrite bind_KASSERT by done. rewrite bind_nonnull.
  erewrite bind_ret by (unfold free_stack; by rewrite decide_True). rewrite Hp, decide_True by done.
  erewrite bind_ret.
  2: { unfold unplink_thread. rewrite (bind_deref threads _ thr) by done. rewrite Hp.
       rewrite (bind_assign procs _ xr) by done. by rewrite (assign_Some threads _ thr). }
  erewrite slab_free_Some by lookup_solve. f_equal. kernel_ext. by rewrite delete_insert_eq.
Qed.

(** The state after thread [t] of [x], with stack [st], was destroyed. *)
Definition destroyed (t st x : ptr) (xr : proc) (k : kernel) : kernel :=
  k <| kstacks := kstacks k ∖ {[st]} |>
    <| procs := <[x := xr <| p_threads ::= remove_elem t |>]> (procs k) |>
    <| threads := delete t (threads k) |>.

Lemma destroyed_threads k t st x xr u : u <> t -> threads (destroyed t st x xr k) !! u = threads k !! u.
Proof. intros Hu. simpl. by rewrite lookup_delete_ne. Qed.

Lemma exited_tail k t thr st x xr l :
  exited_threads k x (t :: l) -> threads k !! t = Some thr -> kt_kstack thr = Some st ->
  exited_threads (destroyed t st x xr k) x l.
Proof.
  intros Het Ht Hst. pose proof (et_nodup _ _ _ Het) as [Htl Hnd]%NoDup_cons.
  assert (Hsub : forall u, u ∈ l -> u ∈ t :: l /\ u <> t).
  { intros u Hu. split; [by right|]. by intros ->. }
  split; [done|..].
  - intros u [Hu Hut]%Hsub. destruct (et_thread _ _ _ Het u Hu) as (ur & ust & Hur & ? & Hust & ? & ?).
    exists ur, ust. rewrite destroyed_threads by done. split_and!; try done. simpl.
    apply elem_of_difference. split; [done|]. rewrite elem_of_singleton. intros ->. apply Hut.
    eapply (et_stacks _ _ _ Het); eauto; [by left|congruence].
  - intros u v ur vr [Hu Hut]%Hsub [Hv Hvt]%Hsub. rewrite !destroyed_threads by done.
    by apply (et_stacks _ _ _ Het).
Qed.

Lemma destroy_threads_run x : forall l k xr,
  procs k !! x = Some xr -> p_threads xr = l -> exited_threads k x l ->
  exists k', destroy_threads l k = Ret tt k' /\
    k' = k <| procs := <[x := xr <| p_threads := [] |>]> (procs k) |> <| threads := threads k' |>
           <| kstacks := kstacks k' |> /\
    (forall t, threads k' !! t = if decide (t ∈ l) then None else threads k !! t) /\
    (forall st, st ∈ kstacks k' <-> st ∈ kstacks k /\ ~ stack_of k l st).
Proof.
  induction l as [|t l IH]; intros k xr Hx Hl Het.
  { exists k. split_and!; try done.
    - assert (xr <| p_threads := [] |> = xr) as -> by (destruct xr; simpl in Hl; by subst).
      rewrite insert_id by done. by destruct k.
    - intros st. split; [|by intros []]. intros ?. split; [done|]. by intros (? & ? & ?%not_elem_of_nil & _). }
  destruct (et_thread _ _ _ Het t) as (thr & st & Ht & Hex & Hst & Hin & Hp); [by left|].
  pose proof (et_nodup _ _ _ Het) as [Htl Hnd]%NoDup_cons.
  cbn [destroy_threads]. rewrite (bind_deref threads _ _ _ _ Ht).
  rewrite bind_KASSERT by (by rewrite Hex).
  rewrite (bind_ret _ _ _ _ _ (kthread_destroy_run k t thr st x xr Ht Hst Hin Hp Hx)).
  fold (destroyed t st x xr k). set (k1 := destroyed t st x xr k).
  assert (Hthr1 : forall u, u <> t -> threads k1 !! u = threads k !! u) by (intros; by apply destroyed_threads).
  destruct (IH k1 (xr <| p_threads := l |>)) as (k' & Hrun & Hk' & Hthr & Hstk); try done.
  { unfold k1. simpl. rewrite lookup_insert_eq. unfold update_field. simpl. rewrite Hl.
    unfold remove_elem. rewrite filter_cons_False by naive_solver.
    change (filter _ l) with (remove_elem t l). by rewrite remove_elem_not_in. }
  { by eapply exited_tail. }
  exists k'. split; [exact Hrun|]. split_and!.
  - rewrite Hk'. unfold k1. kernel_ext. by rewrite insert_insert_eq.
  - intros u. rewrite Hthr. destruct (decide (u ∈ l)); [by rewrite decide_True by (by right)|].
    destruct (decide (u = t)) as [->|]; [rewrite decide_True by (by left)|rewrite decide_False by set_solver].
    + unfold k1. simpl. apply lookup_delete_eq.
    + by apply Hthr1.
  - intros s. rewrite Hstk. unfold k1 at 1. simpl. rewrite elem_of_difference, elem_of_singleton.
    split.
    + intros [[Hs Hne] Hno]. split; [done|]. intros (u & ur & [->|Hu]%elem_of_cons & Hur & Hus); [congruence|].
      apply Hno. exists u, ur. rewrite Hthr1; [done|by intros ->].
    + intros [Hs Hno]. split_and!; [done| |].
      * intros ->. apply Hno. exists t, thr. split; [by left|done].
      * intros (u & ur & Hu & Hur & Hus). apply Hno. exists u, ur.
        rewrite Hthr1 in Hur by (by intros ->). split_and!; [by right|done..].
Qed.

(** [pid] asks for the process [xr]. *)
Definition asked (pid : Z) (xr : proc) : Prop := pid = -1 \/ p_pid xr = pid.

Lemma asked_bool pid xr : (pid =? -1) || (p_pid xr =? pid) = true <-> asked pid xr.
Proof. unfold asked. by rewrite orb_true_iff, !Z.eqb_eq. Qed.

Lemma reap_run k pid x xr c cr pd :
  procs k !! x = Some xr -> procs k !! c = Some cr -> c <> x ->
  p_child_link xr = Some c -> p_list_link xr = true ->
  exited_threads k x (p_threads xr) -> p_pagedir xr = Some pd -> pd ∈ pagedirs k -> asked pid xr ->
  exists k', reap pid x k = Ret (p_pid xr, p_status xr) k' /\
    k' = k <| procs := tree_without (procs k) x c cr |> <| proc_list := remove_elem x (proc_list k) |>
           <| pagedirs := pagedirs k ∖ {[pd]} |> <| threads := threads k' |> <| kstacks := kstacks k' |> /\
    (forall t, threads k' !! t = if decide (t ∈ p_threads xr) then None else threads k !! t) /\
    (forall st, st ∈ kstacks k' <-> st ∈ kstacks k /\ ~ stack_of k (p_threads xr) st).
Proof.
  intros Hx Hc Hcx Hlink Hlist Het Hpd Hpdin Hask. unfold reap. rewrite (bind_deref procs _ _ _ _ Hx).
  rewrite bind_KASSERT by (by apply asked_bool).
  destruct (destroy_threads_run x _ k xr Hx eq_refl Het) as (k1 & Hrun & Hk1 & Hthr & Hstk).
  rewrite (bind_ret _ _ _ _ _ Hrun), Hk1. clear Hrun.
  erewrite bind_ret.
  2: { apply (unlink_child_run _ c cr x (xr <| p_threads := [] |>)); try done; lookup_solve. }
  erewrite bind_ret.
  2: { apply (unlink_proc_run _ x (xr <| p_threads := [] |> <| p_child_link := None |>)); [lookup_solve|done]. }
  rewrite Hpd, bind_KASSERT by done. rewrite bind_nonnull.
  erewrite bind_ret by (unfold pt_destroy_pagedir; by rewrite decide_True).
  erewrite bind_slab_free by lookup_solve.
  eexists. split; [reflexivity|]. split_and!; [|done..].
  kernel_ext. unfold tree_without.
  rewrite !delete_insert_eq. rewrite insert_insert_ne by done. by rewrite delete_insert_eq.
Qed.

Lemma find_exited_run k l pid : procs_live k l ->
  exists r, find_exited l pid k = Ret r k /\
    match r with
    | None => forall x xr, x ∈ l -> procs k !! x = Some xr -> asked pid xr -> p_state xr <> PROC_DEAD
    | Some x => exists l1 l2 xr, l = l1 ++ x :: l2 /\ procs k !! x = Some xr /\ asked pid xr /\
        p_state xr = PROC_DEAD /\
        forall y yr, y ∈ l1 -> procs k !! y = Some yr -> asked pid yr -> p_state yr <> PROC_DEAD
    end.
Proof.
  induction 1 as [|x l [xr Hx] _ (r & Hrun & Hr)]; cbn [find_exited].
  { exists None. split; [done|]. by intros ? ? ?%not_elem_of_nil. }
  rewrite (bind_deref procs _ _ _ _ Hx).
  destruct (_ && _) eqn:Hb.
  - apply andb_true_iff in Hb as [Hask%asked_bool Hdead%bool_decide_eq_true].
    exists (Some x). split; [done|]. exists [], l, xr. split_and!; try done.
    by intros ? ? ?%not_elem_of_nil.
  - exists r. split; [done|].
    assert (Hno : asked pid xr -> p_state xr <> PROC_DEAD).
    { intros Ha Hd. apply asked_bool in Ha. by rewrite Ha, Hd in Hb. }
    destruct r as [y|].
    + destruct Hr as (l1 & l2 & yr & -> & Hy & Ha & Hd & Hbefore). exists (x :: l1), l2, yr.
      split_and!; try done. intros z zr [->|Hz]%elem_of_cons Hzr; [by simplify_eq|eauto].
    + intros z zr [->|Hz]%elem_of_cons Hzr; [by simplify_eq|eauto].
Qed.

Lemma has_child_run k l pid : procs_live k l ->
  exists b, has_child l pid k = Ret b k /\
    (b = true <-> exists x xr, x ∈ l /\ procs k !! x = Some xr /\ p_pid xr = pid).
Proof.
  induction 1 as [|x l [xr Hx] _ (b & Hrun & Hb)]; cbn [has_child].
  { exists false. split; [done|]. split; [done|]. by intros (? & ? & ?%not_elem_of_nil & _). }
  rewrite (bind_deref procs _ _ _ _ Hx), (bind_ret _ _ _ _ _ Hrun).
  eexists. split; [reflexivity|]. rewrite orb_true_iff, Z.eqb_eq, Hb. setoid_rewrite elem_of_cons.
  naive_solver.
Qed.

Lemma children_live k p pr : proc_wf k -> procs k !! p = Some pr -> procs_live k (p_children pr).
Proof.
  intros Hwf Hp. apply Forall_forall. intros x Hx.
  apply (tw_children _ _ _ Hwf p pr x Hp) in Hx as (xr & -> & _). by eexists.
Qed.
End reaping.

Section waiting.
Context `{P : Platform, F : LoopFuel}.

(** An exited process without children, whose threads and page directory can be given back. *)
Definition reapable (k : kernel) (y : ptr) (yr : proc) : Prop :=
  p_children yr = [] /\ exited_threads k y (p_threads yr) /\
  exists pd, p_pagedir yr = Some pd /\ pd ∈ pagedirs k.

Lemma wait_loop_reaps n k c cr x xr pid :
  proc_wf k -> curproc k = Some c -> procs k !! c = Some cr -> x ∈ p_children cr ->
  (forall y yr, y ∈ p_children cr -> procs k !! y = Some yr -> asked pid yr -> p_state yr = PROC_DEAD -> reapable k y yr) ->
  procs k !! x = Some xr -> asked pid xr -> p_state xr = PROC_DEAD ->
  exists k' l1 y l2 yr pd, p_children cr = l1 ++ y :: l2 /\ procs k !! y = Some yr /\
    asked pid yr /\ p_state yr = PROC_DEAD /\
    (forall z zr, z ∈ l1 -> procs k !! z = Some zr -> asked pid zr -> p_state zr <> PROC_DEAD) /\
    wait_loop (S n) pid k = Ret (p_pid yr, p_status yr) k' /\ proc_wf k' /\
    k' = k <| procs := tree_without (procs k) y c cr |> <| proc_list := remove_elem y (proc_list k) |>
           <| pagedirs := pagedirs k ∖ {[pd]} |> <| threads := threads k' |> <| kstacks := kstacks k' |> /\
    p_pagedir yr = Some pd /\
    (forall t, threads k' !! t = if decide (t ∈ p_threads yr) then None else threads k !! t) /\
    (forall s, s ∈ kstacks k' <-> s ∈ kstacks k /\ ~ stack_of k (p_threads yr) s).
Proof.
  intros Hwf Hc Hcr Hx Hdead Hxr Hask Hxd. pose proof (children_live _ _ _ Hwf Hcr) as Hlive.
  destruct (find_exited_run k (p_children cr) pid Hlive) as ([y|] & Hfind & Hr);
    [|by destruct (Hr x xr Hx Hxr Hask)].
  destruct Hr as (l1 & l2 & yr & Hl & Hy & Hya & Hyd & Hfirst).
  assert (Hyin : y ∈ p_children cr) by (rewrite Hl; apply elem_of_app; right; by left).
  destruct (Hdead y yr Hyin Hy Hya Hyd) as (Hleaf & Het & pd & Hpd & Hpdin).
  assert (Hyp : p_pproc yr = Some c).
  { apply (tw_children _ _ _ Hwf _ _ _ Hcr) in Hyin as (yr' & ? & ?). congruence. }
  destruct (tw_parent _ _ _ Hwf _ _ _ Hy Hyp) as [Hcy _].
  destruct (reap_run k pid y yr c cr pd) as (k' & Hreap & Hk' & Hthr & Hstk); try done.
  { by rewrite (tw_link _ _ _ Hwf _ _ Hy). }
  { by apply (tw_listed _ _ _ Hwf _ _ Hy). }
  exists k', l1, y, l2, yr, pd. split_and!; try done.
  - cbn [wait_loop]. rewrite (bind_curproc _ c) by done. rewrite (bind_deref procs _ _ _ _ Hcr).
    by rewrite (bind_ret _ _ _ _ _ Hfind).
  - unfold proc_wf. rewrite Hk'. by apply (tree_removed _ _ _ y c yr).
Qed.
End waiting.

(** ** Exit

    [exiting c k]: process [c] runs and may exit: it is not the idle process, and the init
    process exists as a child of the idle process. *)
Section exiting.
Context `{P : Platform, F : LoopFuel, MH : MmHeaders, Ops : MmobjOps, V : VfsCalls}.

Record exiting (c : ptr) (k : kernel) : Prop := {
  ex_wf : proc_wf k;
  ex_sched : sched_wf k;
  ex_cur : curproc k = Some c;
  ex_self : exists cr, procs k !! c = Some cr /\ 1 <= p_pid cr;
  ex_init : exists i ir d dr, proc_initproc k = Some i /\ procs k !! i = Some ir /\
    p_pproc ir = Some d /\ procs k !! d = Some dr /\ p_pid dr = 0;
}.

(** What closing files and releasing the directory and the address space promise: they may
    block, other threads may run ([R]), and the process still can exit afterwards. *)
Class ExitCalls (R : rely kernel) (c : ptr) := {
  ec_ready : kernel -> Prop;
  ec_exiting k : ec_ready k -> exiting c k;
  ec_close k fd : ec_ready k -> wp R (vfs_do_close fd k) (fun _ => ec_ready);
  ec_vput k cr vn : ec_ready k -> procs k !! c = Some cr -> p_cwd cr = Some vn ->
    wp R (vfs_vput vn k) (fun _ k' => exiting c k' /\
      forall cr', procs k' !! c = Some cr' ->
        ec_ready (k' <| procs := <[c := cr' <| p_cwd := None |>]> (procs k') |>));
  ec_destroy k cr map : ec_ready k -> procs k !! c = Some cr -> p_vmmap cr = Some map ->
    wp R (vmmap_destroy map k) (fun _ => exiting c);
}.

(** What the exit of [c] changes, from the moment its parent is woken. *)
Record exited (c : ptr) (status : Z) (k k' : kernel) : Prop := {
  xt_wf : proc_wf k';
  xt_sched : sched_wf k';
  xt_dead cr : procs k !! c = Some cr -> exists cr', procs k' !! c = Some cr' /\
    p_state cr' = PROC_DEAD /\ p_status cr' = status /\ p_pid cr' = p_pid cr /\
    p_pproc cr' = p_pproc cr /\ p_threads cr' = p_threads cr /\
    p_children cr' = if decide (proc_initproc k = Some c) then p_children cr else [];
  xt_orphans cr i ir : procs k !! c = Some cr -> proc_initproc k = Some i -> i <> c ->
    procs k !! i = Some ir ->
    procs k' !! i = Some (ir <| p_children ::= fun l => l ++ p_children cr |>) /\
    forall x xr, x ∈ p_children cr -> procs k !! x = Some xr ->
      procs k' !! x = Some (xr <| p_pproc := Some i |> <| p_child_link := Some i |>);
  xt_wakes cr par q : procs k !! c = Some cr -> p_pproc cr = Some par ->
    fifo k' q = spec_wakeup (ProcWait par) (fifo k) q;
}.

Lemma exiting_parent c k cr : exiting c k -> procs k !! c = Some cr ->
  PID_IDLE = 0 -> exists par pr, p_pproc cr = Some par /\ procs k !! par = Some pr.
Proof.
  intros Hex Hc Hidle. destruct (ex_self _ _ Hex) as (cr' & Hc' & Hpid). simplify_eq.
  destruct (p_pproc cr) as [par|] eqn:Hp.
  - destruct (tw_parent _ _ _ (ex_wf _ _ Hex) _ _ _ Hc Hp) as [_ [pr Hpr]]. eauto.
  - apply (tw_root _ _ _ (ex_wf _ _ Hex) _ _ Hc) in Hp. lia.
Qed.

(** The init process is not a child of an exiting process. *)
Lemma init_not_child c k cr i : exiting c k -> procs k !! c = Some cr -> proc_initproc k = Some i ->
  i ∉ p_children cr.
Proof.
  intros Hex Hc Hi Hin. destruct (ex_init _ _ Hex) as (i' & ir & d & dr & Hi' & Hir & Hd & Hdr & Hpid).
  simplify_eq. apply (tw_children _ _ _ (ex_wf _ _ Hex) _ _ _ Hc) in Hin as (ir' & Hir' & Hc').
  simplify_eq. destruct (ex_self _ _ Hex) as (cr' & ? & ?). simplify_eq. lia.
Qed.

(** Waking the parent if it waits. *)
Lemma wake_parent {B} c k par (f : unit -> K B) : exiting c k ->
  exists k1, (forall q, fifo k1 q = spec_wakeup (ProcWait par) (fifo k) q) /\ exiting c k1 /\
    procs k1 = procs k /\ proc_initproc k1 = proc_initproc k /\ rtc (wakes (eq (ProcWait par))) k k1 /\
    bind (sched_queue_empty (ProcWait par)) (fun e =>
      bind (if e : bool then ret tt else _ ← sched_wakeup_on (ProcWait par); ret tt) f) k = f tt k1.
Proof.
  intros Hex. pose proof (ex_sched _ _ Hex) as Hwf. destruct (fifo k (ProcWait par)) as [|t rest] eqn:Hf.
  - exists k. split_and!; try done.
    + intros q. unfold spec_wakeup. by rewrite Hf.
    + unfold sched_queue_empty, get, ret. unfold bind at 1 2. simpl. by rewrite (fifo_nil_empty _ _ Hf).
  - destruct (fifo_cons_thread _ _ _ _ Hwf Hf) as (thr & Ht & Hw & _).
    exists (wake (ProcWait par) t thr k). split_and!; try done.
    + intros q. by eapply fifo_wake.
    + destruct Hex. split; try done. by apply wake_wf.
    + by apply rtc_once, (wakes_one _ (ProcWait par)).
    + unfold sched_queue_empty, get, ret. unfold bind at 1 2. simpl.
      pose proof (fifo_cons_last _ _ _ _ Hf) as Hlast.
      destruct (tq_list (queue k (ProcWait par))) as [|y l] eqn:Hl0; [done|].
      erewrite bind_ret; [done|]. by erewrite bind_ret by (by eapply wakeup_run).
Qed.

(** The children go to the init process, unless [c] is the init process. *)
Lemma reparent_all c k cr : exiting c k -> procs k !! c = Some cr ->
  exists k1 cr1, (if decide (Some c = proc_initproc k) then ret tt
             else p ← deref procs c; reparent_loop (p_children p)) k = Ret tt k1 /\
    proc_wf k1 /\ k1 = k <| procs := procs k1 |> /\ procs k1 !! c = Some cr1 /\
    cr1 = cr <| p_children := if decide (proc_initproc k = Some c) then p_children cr else [] |> /\
    forall i ir, proc_initproc k = Some i -> i <> c -> procs k !! i = Some ir ->
      procs k1 !! i = Some (ir <| p_children ::= fun l => l ++ p_children cr |>) /\
      forall x xr, x ∈ p_children cr -> procs k !! x = Some xr ->
        procs k1 !! x = Some (xr <| p_pproc := Some i |> <| p_child_link := Some i |>).
Proof.
  intros Hex Hc. destruct (decide (Some c = proc_initproc k)) as [Heq|Hne].
  - exists k, cr. rewrite decide_True by done. split_and!; try done; try apply Hex.
    + by destruct k.
    + by destruct cr.
    + congruence.
  - destruct (ex_init _ _ Hex) as (i & ir & d & dr & Hi & Hir & _).
    rewrite (bind_deref procs _ _ _ _ Hc).
    destruct (reparent_run c i ltac:(congruence) (p_children cr) k cr ir)
      as (k1 & Hrun & Hwf1 & Hk1 & Hc1 & Hi1 & Hmoved & _); try done; try apply Hex.
    { by eapply init_not_child. }
    exists k1, (cr <| p_children := [] |>). rewrite decide_False by congruence. split_and!; try done.
    intros i' ir' Hi' _ Hir'. simplify_eq. eauto.
Qed.

Lemma cleanup_tail c k cr status : PID_IDLE = 0 -> exiting c k -> procs k !! c = Some cr ->
  exists k',
    (c ← the_curproc;
     p ← deref procs c;
     par ← nonnull (p_pproc p);
     _ ← deref procs par;
     e ← sched_queue_empty (ProcWait par);
     (if e : bool then ret tt else _ ← sched_wakeup_on (ProcWait par); ret tt);;
     init ← gets proc_initproc;
     (if decide (Some c = init) then ret tt else p ← deref procs c; reparent_loop (p_children p));;
     assign procs c (fun p => p <| p_status := status |> <| p_state := PROC_DEAD |>);;
     p ← deref procs c;
     KASSERT (bool_decide (p_pproc p <> None))) k = Ret tt k' /\ exited c status k k'.
Proof.
  intros Hidle Hex Hc. destruct (exiting_parent _ _ _ Hex Hc Hidle) as (par & pr & Hpar & Hpr).
  rewrite (bind_curproc _ c) by apply Hex. rewrite (bind_deref procs _ _ _ _ Hc), Hpar, bind_nonnull.
  rewrite (bind_deref procs _ _ _ _ Hpr).
  match goal with |- context [bind (sched_queue_empty _) (fun e => bind _ ?f) k] =>
    destruct (wake_parent c k par f Hex) as (k1 & Hfifo & Hex1 & Hps1 & Hi1 & _ & ->) end.
  rewrite bind_gets. rewrite <- Hps1 in Hc.
  destruct (reparent_all c k1 cr Hex1 Hc) as (k2 & cr2 & Hrun & Hwf2 & Hk2 & Hc2 & Hcr2 & Hor).
  rewrite (bind_ret _ _ _ _ _ Hrun), (bind_assign procs _ _ _ _ _ Hc2).
  erewrite bind_deref by lookup_solve. eexists. split.
  { rewrite Hcr2. simpl. by rewrite Hpar. }
  assert (Hself : forall x xr, x ∈ p_children cr -> procs k1 !! x = Some xr -> x <> c).
  { intros x xr Hx _ ->. apply (tw_children _ _ _ (ex_wf _ _ Hex1) _ _ _ Hc) in Hx as (cr' & Hcr' & Hp).
    by destruct (tw_parent _ _ _ (ex_wf _ _ Hex1) _ _ _ Hcr' Hp). }
  split.
  - unfold proc_wf. simpl. eapply tree_update; [exact Hwf2|exact Hc2|by rewrite Hcr2..].
  - rewrite Hk2. eapply sched_wf_ext; [| |apply Hex1]; done.
  - intros cr0 Hc0. rewrite <- Hps1, Hc in Hc0. injection Hc0 as <-. eexists. simpl.
    rewrite lookup_insert_eq. split; [done|]. rewrite <- Hi1. by split_and!.
  - intros cr0 i ir Hc0 Hi Hic Hir. rewrite <- Hps1, Hc in Hc0. injection Hc0 as <-.
    rewrite <- Hps1 in Hir. rewrite <- Hi1 in Hi.
    destruct (Hor i ir Hi Hic Hir) as [Hii Hxx]. simpl. rewrite lookup_insert_ne by done. split; [done|].
    intros x xr Hx Hxr. rewrite <- Hps1 in Hxr. rewrite lookup_insert_ne by (symmetry; by eapply Hself). eauto.
  - intros cr0 par0 q Hc0 Hp0. rewrite <- Hps1, Hc in Hc0. injection Hc0 as <-. rewrite Hpar in Hp0.
    injection Hp0 as <-. rewrite Hk2. rewrite <- Hfifo. by apply fifo_ext.
Qed.

(** The calls that may block. *)
Section blocking.
Context (R : rely kernel) (c : ptr) `{EC : !ExitCalls R c}.

Lemma close_loop_wp fds k : ec_ready k -> wp R (close_loop fds k) (fun _ => ec_ready).
Proof.
  revert k. induction fds as [|fd fds IH]; intros k Hk; [done|]. cbn [close_loop].
  destruct (ex_self _ _ (ec_exiting k Hk)) as (cr & Hcr & _).
  rewrite (bind_curproc _ c) by apply (ec_exiting k Hk). rewrite (bind_deref procs _ _ _ _ Hcr).
  apply wp_bind. destruct (p_files cr !! fd) as [[f|]|]; [|by apply IH..].
  apply wp_bind. eapply wp_mono; [by apply ec_close|]. intros ? k1 Hk1. by apply IH.
Qed.

Lemma cwd_put_wp k cr : ec_ready k -> procs k !! c = Some cr ->
  wp R (match p_cwd cr with
        | Some vn => vfs_vput vn;; c ← the_curproc; assign procs c (fun p => p <| p_cwd := None |>)
        | None => ret tt
        end k) (fun _ => ec_ready).
Proof.
  intros Hk Hcr. destruct (p_cwd cr) as [vn|] eqn:Hcwd; [|done].
  apply wp_bind. eapply wp_mono; [by eapply ec_vput|]. intros ? k1 [Hex1 Hready].
  rewrite (bind_curproc _ c) by apply Hex1. destruct (ex_self _ _ Hex1) as (cr1 & Hcr1 & _).
  rewrite (assign_Some procs _ cr1) by done. by apply Hready.
Qed.

Lemma vmmap_put_wp k cr : ec_ready k -> procs k !! c = Some cr ->
  wp R (match p_vmmap cr with Some map => vmmap_destroy map | None => ret tt end k) (fun _ => exiting c).
Proof.
  intros Hk Hcr. destruct (p_vmmap cr) as [map|] eqn:Hm; [by eapply ec_destroy|]. by apply ec_exiting.
Qed.

Lemma proc_cleanup_wp k status : PID_IDLE = 0 -> ec_ready k ->
  wp R (proc_cleanup status k) (fun _ k' => exists k1, exiting c k1 /\ exited c status k1 k').
Proof.
  intros Hidle Hk. pose proof (ec_exiting k Hk) as Hex. unfold proc_cleanup. rewrite bind_get.
  destruct (ex_self _ _ Hex) as (cr & Hcr & Hpid).
  destruct (ex_init _ _ Hex) as (i & ir & d & dr & Hi & _).
  destruct (exiting_parent _ _ _ Hex Hcr Hidle) as (par & pr & Hpar & Hpr).
  rewrite bind_KASSERT by (by rewrite Hi). rewrite (bind_curproc _ c) by apply Hex.
  rewrite (bind_deref procs _ _ _ _ Hcr). rewrite bind_KASSERT by (by apply Z.leb_le).
  rewrite bind_KASSERT by (by rewrite Hpar).
  apply wp_bind. eapply wp_mono; [by apply close_loop_wp|]. intros ? k1 Hk1. simpl.
  destruct (ex_self _ _ (ec_exiting k1 Hk1)) as (cr1 & Hcr1 & _).
  rewrite (bind_curproc _ c) by apply (ec_exiting k1 Hk1). rewrite (bind_deref procs _ _ _ _ Hcr1).
  apply wp_bind. eapply wp_mono; [by apply cwd_put_wp|]. intros ? k2 Hk2. simpl.
  destruct (ex_self _ _ (ec_exiting k2 Hk2)) as (cr2 & Hcr2 & _).
  rewrite (bind_curproc _ c) by apply (ec_exiting k2 Hk2). rewrite (bind_deref procs _ _ _ _ Hcr2).
  apply wp_bind. eapply wp_mono; [by apply vmmap_put_wp|]. intros ? k3 Hex3. simpl.
  destruct (ex_self _ _ Hex3) as (cr3 & Hcr3 & _).
  destruct (cleanup_tail c k3 cr3 status Hidle Hex3 Hcr3) as (k' & Hrun & Hexited).
  rewrite Hrun. by exists k3.
Qed.
End blocking.
End exiting.

(** ** Properties *)
Section properties.
Context `{PO : PlatformOk, F : LoopFuel, MH : MmHeaders, Ops : MmobjOps, V : VfsCalls, C : ContextCode}.

(** [_proc_getid] terminates.  It returns the first identifier from [next_pid] on, around the
    circle, that no process has, and the next search starts behind it; it returns -1 exactly
    when every identifier is taken, and then changes nothing. *)
Theorem proc_getid_spec k : proc_wf k ->
  exists r k', _proc_getid k = Ret r k' /\
    ((r = -1 /\ k' = k /\ forall j, 0 <= j < PROC_MAX_COUNT ->
        used_pid k ((next_pid k + j) mod PROC_MAX_COUNT)) \/
     (exists d, 0 <= d < PROC_MAX_COUNT /\ r = (next_pid k + d) mod PROC_MAX_COUNT /\ ~ used_pid k r /\
        (forall j, 0 <= j < d -> used_pid k ((next_pid k + j) mod PROC_MAX_COUNT)) /\
        k' = k <| next_pid := (r + 1) mod PROC_MAX_COUNT |>)).
Proof.
  intros Hwf. pose proof (tw_next _ _ _ Hwf) as Hnext. unfold _proc_getid. rewrite bind_get.
  destruct (Z.to_nat PROC_MAX_COUNT) as [|n] eqn:Hn; [lia|].
  assert (H0 : (next_pid k + 0) mod PROC_MAX_COUNT = next_pid k)
    by (rewrite Z.add_0_r; by apply Z.mod_small).
  destruct (getid_loop_run k (next_pid k) n 0) as (r & k' & Hrun & Hr); try done; try lia.
  { by apply wf_procs_live. }
  rewrite H0 in Hrun. by exists r, k'.
Qed.

(** [proc_create] with memory and an identifier available makes a running process with an
    identifier no other process has, no threads, no open files, the working directory of its
    parent and an empty address space of its own, as the last child of the current process;
    the process tree stays well formed and no other process changes. *)
Theorem proc_create_spec `{VO : !VfsOk V} k name c cp :
  proc_wf k -> curproc k = Some c -> procs k !! c = Some cp ->
  (forall n live, is_Some (slab_obj_alloc n live)) ->
  (exists pid, 0 <= pid < PROC_MAX_COUNT /\ ~ used_pid k pid) ->
  used_pid k PID_IDLE -> used_pid k PID_INIT \/ p_pid cp = PID_IDLE ->
  (forall vn, p_cwd cp = Some vn -> vnode_active k vn) ->
  exists k' n pid pd map brk, proc_create name k = Ret (Some n) k' /\ proc_wf k' /\
    procs k !! n = None /\ ~ used_pid k pid /\
    procs k' !! n = Some ((new_process pid name c (p_cwd cp) brk) <| p_pagedir := pd |> <| p_vmmap := Some map |>) /\
    procs k' !! c = Some (cp <| p_children ::= fun l => l ++ [n] |>) /\
    (forall q, q <> n -> q <> c -> procs k' !! q = procs k !! q) /\
    vmmaps k !! map = None /\ vmmaps k' = <[map := {| vmm_list := []; vmm_proc := Some n |}]> (vmmaps k) /\
    proc_initproc k' = (if pid =? PID_INIT then Some n else proc_initproc k).
Proof.
  intros Hwf Hc Hcp Hmem Hfree Hidle Hinit Hcwd.
  destruct (proc_create_run k name c cp) as
    (k' & n & pid & pd & map & brk & Hrun & Hw & Hn & Hnew & Hps & Hpar & Hoth & Hm & Hms & Hi & _); [done..|].
  by exists k', n, pid, pd, map, brk.
Qed.


(** [do_waitpid], when an exited child is asked for, returns at once the identifier and the
    status of the first such child in the order of creation, and disposes of it: the process,
    its threads and their stacks and its page directory are gone, nothing else changed, and the
    process tree is well formed. *)
Theorem do_waitpid_reaps k c cr x pid st :
  proc_wf k -> curproc k = Some c -> procs k !! c = Some cr -> pid = -1 \/ 0 < pid ->
  (0 < loop_fuel)%nat -> x ∈ p_children cr ->
  (forall y yr, y ∈ p_children cr -> procs k !! y = Some yr -> asked pid yr -> p_state yr = PROC_DEAD -> reapable k y yr) ->
  (exists xr, procs k !! x = Some xr /\ asked pid xr /\ p_state xr = PROC_DEAD) ->
  exists k' l1 y l2 yr pd, p_children cr = l1 ++ y :: l2 /\ procs k !! y = Some yr /\
    asked pid yr /\ p_state yr = PROC_DEAD /\
    (forall z zr, z ∈ l1 -> procs k !! z = Some zr -> asked pid zr -> p_state zr <> PROC_DEAD) /\
    do_waitpid pid 0 st k = Ret (p_pid yr, if st then Some (p_status yr) else None) k' /\ proc_wf k' /\
    procs k' = tree_without (procs k) y c cr /\ pagedirs k' = pagedirs k ∖ {[pd]} /\ p_pagedir yr = Some pd /\
    (forall t, threads k' !! t = if decide (t ∈ p_threads yr) then None else threads k !! t) /\
    (forall s, s ∈ kstacks k' <-> s ∈ kstacks k /\ ~ stack_of k (p_threads yr) s).
Proof.
  intros Hwf Hc Hcr Hpid Hfuel Hx Hdead (xr & Hxr & Hask & Hxd).
  pose proof (children_live _ _ _ Hwf Hcr) as Hlive.
  destruct loop_fuel as [|n] eqn:Hn; [lia|].
  destruct (wait_loop_reaps n k c cr x xr pid) as
    (k' & l1 & y & l2 & yr & pd & Hl & Hy & Hya & Hyd & Hfirst & Hrun & Hwf' & Hk' & Hpd & Hthr & Hstk); try done.
  exists k', l1, y, l2, yr, pd. split_and!; try done; try (by rewrite Hk').
  unfold do_waitpid.
  rewrite bind_KASSERT by (rewrite orb_true_iff, Z.eqb_eq, Z.ltb_lt; done). rewrite bind_KASSERT by done.
  rewrite (bind_curproc _ c) by done. rewrite (bind_deref procs _ _ _ _ Hcr).
  destruct (p_children cr) as [|z zs]; [by apply not_elem_of_nil in Hx|].
  erewrite (bind_ret _ _ _ true).
  2: { destruct (Z.eqb_spec pid (-1)) as [|Hne]; [done|].
       destruct (has_child_run k (z :: zs) pid Hlive) as (b & Hb & Hbt). rewrite Hb. f_equal.
       apply Hbt. exists x, xr. destruct Hask; done. }
  rewrite Hn. by rewrite (bind_ret _ _ _ _ _ Hrun).
Qed.

(** [do_waitpid] without a child to wait for returns -ECHILD and changes nothing; when all
    children asked for are still running, the caller goes to sleep on its own queue. *)
Theorem do_waitpid_waits k c cr pid st :
  proc_wf k -> curproc k = Some c -> procs k !! c = Some cr -> pid = -1 \/ 0 < pid ->
  (0 < loop_fuel)%nat ->
  (forall x xr, x ∈ p_children cr -> procs k !! x = Some xr -> asked pid xr -> p_state xr <> PROC_DEAD) ->
  ((forall x xr, x ∈ p_children cr -> procs k !! x = Some xr -> ~ asked pid xr) ->
     do_waitpid pid 0 st k = Ret (- ECHILD, None) k) /\
  ((exists x xr, x ∈ p_children cr /\ procs k !! x = Some xr /\ asked pid xr) ->
     do_waitpid pid 0 st k =
       ('(r, s) ← (sched_sleep_on (ProcWait c);; wait_loop (pred loop_fuel) pid);
        ret (r, if st then Some s else None)) k).
Proof.
  intros Hwf Hc Hcr Hpid Hfuel Hrunning. pose proof (children_live _ _ _ Hwf Hcr) as Hlive.
  unfold do_waitpid.
  rewrite bind_KASSERT by (rewrite orb_true_iff, Z.eqb_eq, Z.ltb_lt; done). rewrite bind_KASSERT by done.
  rewrite (bind_curproc _ c) by done. rewrite (bind_deref procs _ _ _ _ Hcr).
  destruct (p_children cr) as [|z zs] eqn:Hch.
  { split; [done|]. by intros (? & ? & ?%not_elem_of_nil & _). }
  destruct (has_child_run k (z :: zs) pid Hlive) as (b & Hb & Hbt). split.
  - intros Hnone. apply Forall_cons in Hlive as [[zr Hz] _].
    pose proof (Hnone z zr ltac:(by left) Hz) as Hz'. unfold asked in Hz'.
    destruct (Z.eqb_spec pid (-1)); [tauto|]. rewrite (bind_ret _ _ _ _ _ Hb).
    destruct b; [|done]. destruct (proj1 Hbt eq_refl) as (x & xr & Hx & Hxr & <-).
    destruct (Hnone x xr Hx Hxr). by right.
  - intros (x & xr & Hx & Hxr & Hask).
    erewrite (bind_ret _ _ _ true).
    2: { destruct (Z.eqb_spec pid (-1)) as [|Hne]; [done|]. rewrite Hb. f_equal.
         apply Hbt. exists x, xr. destruct Hask; done. }
    destruct loop_fuel as [|n]; [lia|]. cbn [pred].
    assert (Hw : wait_loop (S n) pid k = (sched_sleep_on (ProcWait c);; wait_loop n pid) k).
    { cbn [wait_loop]. rewrite (bind_curproc _ c) by done. rewrite (bind_deref procs _ _ _ _ Hcr), Hch.
      destruct (find_exited_run k (z :: zs) pid Hlive) as ([y|] & Hfind & Hr).
      - destruct Hr as (l1 & l2 & yr & Hl & Hy & Hya & Hyd & _).
        destruct (Hrunning y yr); try done. rewrite Hl. apply elem_of_app. right. by left.
      - by rewrite (bind_ret _ _ _ _ _ Hfind). }
    unfold bind at 1. rewrite Hw. done.
Qed.

(** C39: When [proc_create] cannot allocate an address space it frees the process but leaves it on
    the list of processes: it returns NULL, and the next search for an identifier dereferences
    freed memory. *)
Theorem proc_create_dangling `{VO : !VfsOk V} k name c cp n :
  proc_wf k -> curproc k = Some c -> procs k !! c = Some cp ->
  slab_obj_alloc (alloc_count k) (dom (procs k)) = Some n ->
  (forall i, slab_obj_alloc i (dom (vmmaps k)) = None) ->
  (exists pid, 0 <= pid < PROC_MAX_COUNT /\ ~ used_pid k pid) ->
  used_pid k PID_IDLE -> used_pid k PID_INIT \/ p_pid cp = PID_IDLE ->
  (forall vn, p_cwd cp = Some vn -> vnode_active k vn) ->
  exists k', proc_create name k = Ret None k' /\ n ∈ proc_list k' /\ procs k' !! n = None /\
    _proc_getid k' = Fault BadPtr.
Proof.
  intros Hwf Hc Hcp Halloc Hnomem (free & Hfr & Hfree) Hidle Hinit Hcwd.
  destruct (create_prefix k name c cp n Hwf Hc Hcp Halloc ltac:(eauto) Hidle Hinit Hcwd) as
    (k1 & nr & pid & brk & Hrun & Hn & Hnew & Hpid & Hps & Hl & Hnx & Hnr & Hm & Hi & _).
  pose proof (create_space_run k1 _ _ _ _ _ Hps) as Hspace. rewrite Hm, Hnomem in Hspace.
  destruct Hspace as (k' & Hrun' & Hps' & Hl' & Hnx' & _).
  assert (Hold : forall p pr', procs k' !! p = Some pr' -> exists pr, procs k !! p = Some pr /\ p_pid pr' = p_pid pr).
  { intros p pr'. rewrite Hps', Hps, lookup_delete_Some. intros [Hpn Hp].
    destruct (with_inv _ _ _ _ _ Hcp _ _ Hp) as [[-> _]|(_ & pr & Hpr & ->)]; [done|]. by exists pr. }
  assert (Hgone : procs k' !! n = None) by (rewrite Hps'; apply lookup_delete_eq).
  exists k'. split_and!; [congruence|rewrite Hl', Hl; apply elem_of_app; right; by left|done|].
  unfold _proc_getid. rewrite bind_get.
  replace (next_pid k') with ((next_pid k' + 0) mod PROC_MAX_COUNT)
    by (rewrite Z.add_0_r; apply Z.mod_small; by rewrite Hnx').
  apply (getid_dangling _ (proc_list k) n (next_pid k')); try done; try lia; try congruence.
  - apply Forall_forall. intros p Hp. destruct (tw_live _ _ _ Hwf _ Hp) as [pr Hpr].
    rewrite Hps', Hps, lookup_delete_ne by congruence.
    rewrite (with_old _ _ _ _ _ Hn Hcp _ _ Hpr). by eexists.
  - exists ((free - next_pid k') mod PROC_MAX_COUNT). split; [apply Z.mod_pos_bound; lia|].
    intros p pr' Hp Hpr'. destruct (Hold _ _ Hpr') as (pr & Hpr & ->).
    rewrite Z.add_mod_idemp_r by lia. replace (next_pid k' + (free - next_pid k')) with free by lia.
    rewrite Z.mod_small by done. intros Heq. apply Hfree. by exists p, pr.
Qed.
End properties.

(** ** The properties at concrete states *)

(** A process tree that is checked by evaluation. *)
Section checking.
Context `{P : Platform}.

Definition node_check (ps : gmap ptr proc) (l : list ptr) (p : ptr) (pr : proc) : Prop :=
  p ∈ l /\ p_list_link pr = true /\ 0 <= p_pid pr < PROC_MAX_COUNT /\ NoDup (p_children pr) /\
  p_child_link pr = p_pproc pr /\ (p_pproc pr = None <-> p_pid pr = PID_IDLE) /\
  Forall (fun c => p_pproc <$> ps !! c = Some (Some p)) (p_children pr) /\
  match p_pproc pr with
  | Some q => bool_decide (q <> p /\ p ∈ default [] (p_children <$> ps !! q) /\ is_Some (ps !! q))
  | None => true
  end = true.

Definition tree_check (ps : gmap ptr proc) (l : list ptr) (next : Z) : Prop :=
  NoDup l /\ Forall (fun p => is_Some (ps !! p)) l /\ 0 <= next < PROC_MAX_COUNT /\
  map_Forall (fun p pr => map_Forall (fun q qr => p_pid pr = p_pid qr -> p = q) ps) ps /\
  map_Forall (node_check ps l) ps.

#[export] Instance node_check_dec ps l p pr : Decision (node_check ps l p pr).
Proof. unfold node_check. apply _. Defined.
#[export] Instance tree_check_dec ps l next : Decision (tree_check ps l next).
Proof. unfold tree_check. apply _. Defined.

Lemma tree_checked ps l next : tree_check ps l next -> tree_wf ps l next.
Proof.
  intros (Hnd & Hlive & Hnext & Hpids & Hnodes). rewrite Forall_forall in Hlive.
  assert (Hparent : forall c cr p, ps !! c = Some cr -> p_pproc cr = Some p ->
    p <> c /\ c ∈ default [] (p_children <$> ps !! p) /\ is_Some (ps !! p)).
  { intros c cr p Hc Hp. destruct (Hnodes _ _ Hc) as (_ & _ & _ & _ & _ & _ & _ & Hb).
    rewrite Hp in Hb. by apply bool_decide_eq_true in Hb. }
  split; try done.
  - intros p pr Hp. destruct (Hnodes _ _ Hp) as (? & ? & _). done.
  - intros p q pr qr Hp Hq. by apply (Hpids p pr Hp q qr).
  - intros p pr Hp. by destruct (Hnodes _ _ Hp) as (_ & _ & ? & _).
  - intros p pr c Hp. destruct (Hnodes _ _ Hp) as (_ & _ & _ & _ & _ & _ & Hch & _).
    rewrite Forall_forall in Hch. split.
    + intros Hc. pose proof (Hch c Hc) as Hc'. destruct (ps !! c) as [cr|]; simplify_eq/=. eauto.
    + intros (cr & Hc & Hcp). destruct (Hparent _ _ _ Hc Hcp) as (_ & Hin & _). by rewrite Hp in Hin.
  - intros p pr Hp. by destruct (Hnodes _ _ Hp) as (_ & _ & _ & ? & _).
  - intros p pr Hp. by destruct (Hnodes _ _ Hp) as (_ & _ & _ & _ & ? & _).
  - intros p pr Hp. by destruct (Hnodes _ _ Hp) as (_ & _ & _ & _ & _ & ? & _).
  - intros c cr p Hc Hp. by destruct (Hparent _ _ _ Hc Hp) as (? & _ & ?).
Qed.
End checking.

Module Witness.
#[local] Instance fuel : LoopFuel := 10%nat.

(** A file system whose vnodes only count their references. *)
#[local] Instance counting_vfs : VfsCalls := {|
  vfs_do_close _ := ret 0;
  vfs_vref vn := assign mmobjs vn (fun ob => ob <| mmo_refcount ::= Z.succ |>);
  vfs_vput _ := ret tt |}.

#[local] Program Instance counting_vfs_ok : VfsOk counting_vfs := {|
  vnode_active k vn := is_Some (mmobjs k !! vn) |}.
Next Obligation.
  intros k vn [ob Hob]. eexists. split; [apply (assign_Some mmobjs _ _ _ _ Hob)|]. split; [done|]. simpl; by rewrite lookup_insert_eq.
Qed.
Next Obligation. intros k k' vn Hm _ Ha. simpl in *. by rewrite Hm. Qed.

(** The idle process, init, a shell with a running and an exited child. *)
Definition node (pid : Z) (par : option ptr) (ch : list ptr) (st : proc_state) (ths : list ptr) : proc := {|
  p_pid := pid; p_comm := "p"%string; p_threads := ths; p_children := ch; p_pproc := par;
  p_status := 7; p_state := st; p_pagedir := Some 1%positive; p_list_link := true;
  p_child_link := par; p_files := [None; None]; p_cwd := Some 9%positive; p_vmmap := Some 1%positive;
  p_brk := 0; p_start_brk := 0 |}.

Definition shell : proc := node 2 (Some 2%positive) [4%positive; 5%positive] PROC_RUNNING [].
Definition zombie : proc := node 4 (Some 3%positive) [] PROC_DEAD [5%positive].

Definition tree : gmap ptr proc :=
  {[ 1%positive := node 0 None [2%positive] PROC_RUNNING [];
     2%positive := node 1 (Some 1%positive) [3%positive] PROC_RUNNING [];
     3%positive := shell;
     4%positive := node 3 (Some 3%positive) [] PROC_RUNNING [];
     5%positive := zombie ]}.

Definition zombie_thread : kthread := {|
  kt_ctx := no_context; kt_kstack := Some 8%positive; kt_retval := 7; kt_errno := 0;
  kt_proc := Some 5%positive; kt_cancelled := 0; kt_wchan := None; kt_state := KT_EXITED;
  kt_qlink := None; kt_plink := Some 5%positive |}.

Definition world : kernel :=
  boot <| procs := tree |> <| proc_list := [1%positive; 2%positive; 3%positive; 4%positive; 5%positive] |>
       <| next_pid := 0 |> <| curproc := Some 3%positive |> <| proc_initproc := Some 2%positive |>
       <| pagedirs := {[ 1%positive ]} |> <| threads := {[ 5%positive := zombie_thread ]} |>
       <| kstacks := {[ 8%positive ]} |>
       <| mmobjs := {[ 9%positive := new_mmobj anon_mmobj_ops (MmoVmas []) ]} |>
       <| vmmaps := {[ 1%positive := {| vmm_list := []; vmm_proc := Some 3%positive |} ]} |>.

Ltac by_eval := apply (bool_decide_unpack _); vm_compute; exact I.

Lemma world_tree : tree_check (procs world) (proc_list world) (next_pid world).
Proof. by_eval. Qed.

Lemma world_wf : proc_wf world.
Proof. apply tree_checked, world_tree. Qed.

Lemma world_sched : sched_wf world.
Proof. apply sched_wf_checked. by_eval. Qed.

Lemma world_forall (Q : proc -> Prop) : Forall (fun '(_, pr) => Q pr) (map_to_list tree) ->
  forall p pr, tree !! p = Some pr -> Q pr.
Proof.
  intros HF p pr Hp. rewrite Forall_forall in HF. apply (HF (p, pr)). by apply elem_of_map_to_list.
Qed.

Lemma world_free pid : 5 <= pid -> ~ used_pid world pid.
Proof.
  intros Hpid (p & pr & _ & Hp & Heq). assert (p_pid pr < 5); [|lia].
  refine (world_forall (fun pr => p_pid pr < 5) _ p pr Hp). by_eval.
Qed.

Lemma proc_getid_spec_witness :
  exists r k', _proc_getid world = Ret r k' /\ ~ used_pid world r /\ r = 5.
Proof.
  destruct (proc_getid_spec world world_wf) as (r & k' & Hrun & Hr). exists r, k'.
  split; [exact Hrun|]. assert (r = 5) as -> by (vm_compute in Hrun; congruence).
  destruct Hr as [[? _]|(d & _ & _ & Hfree & _)]; [discriminate|]. done.
Defined.

Lemma world_used p pr : tree !! p = Some pr -> used_pid world (p_pid pr).
Proof. intros Hp. exists p, pr. split; [by apply (tw_listed _ _ _ world_wf p pr)|done]. Qed.

Lemma proc_create_spec_witness :
  exists k' n, proc_create "child" world = Ret (Some n) k' /\ proc_wf k' /\ n ∈ proc_list k'.
Proof.
  destruct (proc_create_spec world "child" 3 shell) as (k' & n & pid & pd & map & brk & Hrun & Hwf & _ & _ & Hn & _).
  - apply world_wf.
  - reflexivity.
  - reflexivity.
  - intros i live. by eexists.
  - exists 5. split; [by vm_compute|]. by apply world_free.
  - apply (world_used 1 (node 0 None [2%positive] PROC_RUNNING [])). reflexivity.
  - left. apply (world_used 2 (node 1 (Some 1%positive) [3%positive] PROC_RUNNING [])). reflexivity.
  - intros vn [= <-]. by eexists.
  - exists k', n. split; [exact Hrun|]. split; [exact Hwf|]. by apply (tw_listed _ _ _ Hwf _ _ Hn).
Defined.

(** The process 3 exits; nothing else runs meanwhile. *)
Definition alone : rely kernel := fun _ k k' => k' = k.

#[local] Instance no_objects : MmobjOps := {|
  mmo_ref _ := ret tt; mmo_put _ := ret tt; mmo_lookuppage _ _ _ := ret (-1, None);
  mmo_fillpage _ _ := ret (-1); mmo_dirtypage _ _ := ret (-1); mmo_cleanpage _ _ := ret (-1) |}.

(** The process can exit and its address space is empty. *)
Definition ready (k : kernel) : Prop :=
  exiting 3 k /\ forall cr map, procs k !! 3%positive = Some cr -> p_vmmap cr = Some map ->
    exists m, vmmaps k !! map = Some m /\ vmm_list m = [].

Lemma exiting_cwd k cr : exiting 3 k -> procs k !! 3%positive = Some cr ->
  exiting 3 (k <| procs := <[3%positive := cr <| p_cwd := None |>]> (procs k) |>).
Proof.
  intros [Hwf Hs Hc (cr' & Hcr' & Hpid) (i & ir & d & dr & Hi & Hir & Hd & Hdr & Hd0)] Hcr.
  assert (cr' = cr) as -> by congruence.
  split; simpl; try done.
  - by apply (tree_update _ _ _ _ cr).
  - eapply sched_wf_ext; [| |exact Hs]; done.
  - eexists. rewrite lookup_insert_eq. split; [reflexivity|done].
  - assert (Hup : forall p pr, procs k !! p = Some pr -> exists pr',
      <[3%positive := cr <| p_cwd := None |>]> (procs k) !! p = Some pr' /\
      p_pproc pr' = p_pproc pr /\ p_pid pr' = p_pid pr).
    { intros p pr Hp. destruct (decide (p = 3%positive)) as [->|].
      - rewrite lookup_insert_eq. eexists. split; [reflexivity|]. by simplify_eq.
      - rewrite lookup_insert_ne by done. eauto. }
    destruct (Hup _ _ Hir) as (ir' & Hir' & Hp & _). destruct (Hup _ _ Hdr) as (dr' & Hdr' & _ & Hq).
    exists i, ir', d, dr'. split_and!; congruence.
Qed.

#[local] Program Instance exit_alone : ExitCalls alone 3 := {| ec_ready := ready |}.
Next Obligation. by intros k [? _]. Qed.
Next Obligation. done. Qed.
Next Obligation.
  intros k cr vn [Hex Hm] Hcr _. simpl. split; [done|]. intros cr' Hcr'.
  assert (cr' = cr) as -> by congruence. split.
  - by apply exiting_cwd.
  - intros cr0 map. simpl. rewrite lookup_insert_eq. intros [= <-] Hp. exact (Hm cr map Hcr Hp).
Qed.
Next Obligation.
  intros k cr map [Hex Hm] Hcr Hmap. destruct (Hm cr map Hcr Hmap) as (m & Hlook & Hl).
  rewrite (vmmap_destroy_empty k map m) by done. destruct Hex as [? Hs ? ? ?].
  split; try done. eapply sched_wf_ext; [| |exact Hs]; done.
Qed.

Lemma world_ready : ready world.
Proof.
  split.
  - split; [apply world_wf|apply world_sched|done|by exists shell|].
    exists 2%positive, (node 1 (Some 1%positive) [3%positive] PROC_RUNNING []), 1%positive,
      (node 0 None [2%positive] PROC_RUNNING []). by split_and!.
  - intros cr map Hcr Hmap. assert (procs world !! 3%positive = Some shell) by reflexivity.
    assert (cr = shell) as -> by congruence.
    injection Hmap as <-. by eexists.
Qed.


(** The exited child 5 of process 3. *)
Lemma zombie_exited : exited_threads world 5 (p_threads zombie).
Proof.
  split.
  - apply NoDup_singleton.
  - intros t ->%list_elem_of_singleton. exists zombie_thread, 8%positive. split_and!; try done.
  - by intros t u thr uthr ->%list_elem_of_singleton ->%list_elem_of_singleton.
Qed.

Lemma do_waitpid_reaps_witness :
  exists k', do_waitpid (-1) 0 true world = Ret (4, Some 7) k' /\ procs k' !! 5%positive = None.
Proof.
  destruct (do_waitpid_reaps world 3 shell 5 (-1) true) as (k' & l1 & y & l2 & yr & pd & _ & Hy & _ & _ & _ & Hrun & _ & Hps & _).
  - apply world_wf.
  - reflexivity.
  - reflexivity.
  - by left.
  - unfold loop_fuel, fuel. lia.
  - right. by left.
  - intros y yr Hy Hyr _ Hd. change (y ∈ [4%positive; 5%positive]) in Hy. rewrite !elem_of_cons in Hy. destruct Hy as [->|[->|[]%not_elem_of_nil]].
    + vm_compute in Hyr. injection Hyr as <-. discriminate.
    + assert (procs world !! 5%positive = Some zombie) by reflexivity.
      assert (yr = zombie) as -> by congruence. split_and!; try done.
      * apply zombie_exited.
      * exists 1%positive. split; [done|]. done.
  - exists zombie. split_and!; try done. by left.
  - assert (exists k0, do_waitpid (-1) 0 true world = Ret (4, Some 7) k0 /\ procs k0 !! 5%positive = None)
      as (k0 & Hrun0 & Hgone) by (eexists; split; vm_compute; reflexivity).
    rewrite Hrun in Hrun0. injection Hrun0 as Hpid Hst <-. exists k'. by rewrite Hrun, Hpid, Hst.
Defined.

Lemma do_waitpid_waits_witness : do_waitpid 8 0 true world = Ret (- ECHILD, None) world.
Proof.
  destruct (do_waitpid_waits world 3 shell 8 true) as [Hnone _].
  - apply world_wf.
  - reflexivity.
  - reflexivity.
  - right. lia.
  - unfold loop_fuel, fuel. lia.
  - intros x xr _ Hx [?|Heq]; [lia|]. exfalso. apply (world_free 8); [lia|]. rewrite <- Heq. by apply (world_used x).
  - apply Hnone. intros x xr _ Hx [?|Heq]; [lia|]. apply (world_free 8); [lia|]. rewrite <- Heq. by apply (world_used x).
Defined.

(** An allocator that cannot extend a set of one object. *)
Definition tight_alloc (_ : nat) (live : gset ptr) : option ptr :=
  if decide (size live = 1%nat) then None else Some (fresh live).

Lemma tight_alloc_ok n live p : tight_alloc n live = Some p -> p ∉ live.
Proof. unfold tight_alloc. destruct (decide _); [done|]. intros [= <-]. apply is_fresh. Qed.

Lemma proc_create_dangling_witness :
  exists k' n, @proc_create (weenix_with tight_alloc) counting_vfs "child" world = Ret None k' /\
    n ∈ proc_list k' /\ @_proc_getid (weenix_with tight_alloc) k' = Fault BadPtr.
Proof.
  destruct (@proc_create_dangling (weenix_with tight_alloc) (weenix_with_ok _ tight_alloc_ok)
    counting_vfs counting_vfs_ok world "child" 3 shell 6) as (k' & Hrun & Hin & _ & Hfault).
  - apply (tree_checked (P := weenix_with tight_alloc)). by_eval.
  - reflexivity.
  - reflexivity.
  - reflexivity.
  - intros i. reflexivity.
  - exists 5. split; [by vm_compute|]. by apply world_free.
  - apply (world_used 1 (node 0 None [2%positive] PROC_RUNNING [])). reflexivity.
  - left. apply (world_used 2 (node 1 (Some 1%positive) [3%positive] PROC_RUNNING [])). reflexivity.
  - intros vn [= <-]. by eexists.
  - exists k', 6%positive. by split_and!.
Defined.
End Witness.
