(* ===== verification/Lifecycle.v ===== *)
(** * Lifecycle

    The end of a process, across [do_exit] and [kthread_exit] of the child and [do_waitpid] of its
    parent ([kernel/proc/proc.c], [kernel/proc/kthread.c]): the two calls run in different
    threads, and the scheduler passes the processor from one to the other.  What the exit needs of
    the file system and of the address space is an interface ([QuietExit]). *)

From S2P Require Import Prelude Platform State Sched Mmobj Vmmap Proc.

(** The state of [sched.c], [kthread.c] and [proc.c], but for the processes themselves. *)
Definition tasks (k : kernel) :=
  (threads k, queues k, kstacks k, curthr k, ipl k, proc_list k, proc_initproc k, next_pid k, curproc k, pagedirs k).

(** A process whose files and directory were given back, and an exited one. *)
Definition emptied (fl : list (option ptr)) (xr : proc) : proc := xr <| p_files := fl |> <| p_cwd := None |>.
Definition dead (s : Z) (xr : proc) : proc := xr <| p_status := s |> <| p_state := PROC_DEAD |>.

Lemma emptied_no_cwd fl xr : p_cwd xr = None -> xr <| p_files := fl |> = emptied fl xr.
Proof. destruct xr. simpl. by intros ->. Qed.

Section lifecycle.
Context `{PO : PlatformOk, F : LoopFuel, MH : MmHeaders, Ops : MmobjOps, V : VfsCalls}.

(** Closing the files of process [x] and releasing its directory and its address space does not
    block, touches no other process and no thread, and does not depend on the threads. *)
Class QuietExit (x : ptr) := {
  qe_ok : kernel -> Prop;
  qe_threads k ts : qe_ok k -> qe_ok (k <| threads := ts |>);
  qe_close k xr fd f : qe_ok k -> curproc k = Some x -> procs k !! x = Some xr -> p_files xr !! fd = Some (Some f) ->
    exists r k' fl, vfs_do_close (Z.of_nat fd) k = Ret r k' /\ tasks k' = tasks k /\
      procs k' = <[x := xr <| p_files := fl |>]> (procs k) /\ qe_ok k';
  qe_vput k xr vn : qe_ok k -> procs k !! x = Some xr -> p_cwd xr = Some vn ->
    exists k', vfs_vput vn k = Ret tt k' /\ tasks k' = tasks k /\ procs k' = procs k /\
      qe_ok (k' <| procs := <[x := xr <| p_cwd := None |>]> (procs k') |>);
  qe_destroy k xr map : qe_ok k -> procs k !! x = Some xr -> p_vmmap xr = Some map ->
    exists k', vmmap_destroy map k = Ret tt k' /\ tasks k' = tasks k /\ procs k' = procs k;
}.

(** A process without open files and with an empty address space, such as a process that runs
    kernel code, needs of the file system that it can give back its working directory. *)
Class QuietPut := {
  can_put : kernel -> ptr -> Prop;
  can_put_run k vn : can_put k vn -> exists k', vfs_vput vn k = Ret tt k' /\ tasks k' = tasks k /\
    procs k' = procs k /\ vmmaps k' = vmmaps k;
  can_put_threads k ts vn : can_put k vn -> can_put (k <| threads := ts |>) vn;
}.

Record bare (x : ptr) `{QP : !QuietPut} (k : kernel) (xr : proc) : Prop := {
  br_files fd f : p_files xr !! fd <> Some (Some f);
  br_cwd vn : p_cwd xr = Some vn -> can_put k vn;
  br_space map : p_vmmap xr = Some map -> exists m, vmmaps k !! map = Some m /\ vmm_list m = [];
}.

#[export] Program Instance bare_quiet x `{QP : !QuietPut} : QuietExit x := {|
  qe_ok k := forall xr, procs k !! x = Some xr -> bare x k xr |}.
Next Obligation.
  intros x QP k ts Hok xr Hx. destruct (Hok xr Hx) as [Hf Hd Hm]. split; try done.
  intros vn Hvn. apply can_put_threads. by apply Hd.
Qed.
Next Obligation. intros x QP k xr fd f Hok _ Hx Hfd. by destruct (br_files _ _ _ (Hok xr Hx) fd f). Qed.
Next Obligation.
  intros x QP k xr vn Hok Hx Hvn. destruct (Hok xr Hx) as [Hf Hd Hm].
  destruct (can_put_run k vn (Hd vn Hvn)) as (k' & Hrun & Ht & Hps & Hms). exists k'. split_and!; try done.
  intros xr'. simpl. rewrite lookup_insert_eq. intros [= <-]. split; try done. simpl. by rewrite Hms.
Qed.
Next Obligation.
  intros x QP k xr map Hok Hx Hmap. destruct (br_space _ _ _ (Hok xr Hx) map Hmap) as (m & Hm & Hl).
  eexists. by rewrite (vmmap_destroy_empty k map m).
Qed.

(** ** The child

    An exiting process stays one when it loses its files and its directory. *)
Lemma exiting_ext x k k' xr xr' : exiting x k -> procs k !! x = Some xr -> tasks k' = tasks k ->
  procs k' = <[x := xr']> (procs k) -> (exists fl, xr' = xr <| p_files := fl |> \/ xr' = emptied fl xr) -> exiting x k'.
Proof.
  intros [Hwf Hs Hc (xr0 & Hx0 & Hpid) (i & ir & d & dr & Hi & Hir & Hd & Hdr & Hd0)] Hx Ht Hps Heq.
  injection Ht as H1 H2 H3 H4 H5 H6 H7 H8 H9 H10. assert (xr0 = xr) as -> by congruence.
  assert (Hsame : p_pid xr' = p_pid xr /\ p_pproc xr' = p_pproc xr /\ p_children xr' = p_children xr /\
    p_list_link xr' = p_list_link xr /\ p_child_link xr' = p_child_link xr) by (by destruct Heq as [fl [-> | ->]]).
  destruct Hsame as (E1 & E2 & E3 & E4 & E5).
  assert (Hup : forall p pr, procs k !! p = Some pr -> exists pr', procs k' !! p = Some pr' /\
    p_pproc pr' = p_pproc pr /\ p_pid pr' = p_pid pr).
  { intros p pr Hp. rewrite Hps. destruct (decide (p = x)) as [->|].
    - rewrite lookup_insert_eq. eexists. split; [done|]. by simplify_eq.
    - rewrite lookup_insert_ne by done. eauto. }
  split; try congruence.
  - unfold proc_wf. rewrite Hps, H6, H8. by apply (tree_update _ _ _ _ xr).
  - by apply (sched_wf_ext k).
  - exists xr'. rewrite Hps, lookup_insert_eq, E1. done.
  - destruct (Hup _ _ Hir) as (ir' & Hir' & Hp & _). destruct (Hup _ _ Hdr) as (dr' & Hdr' & _ & Hq).
    exists i, ir', d, dr'. split_and!; congruence.
Qed.

Section exit.
Context (x : ptr) `{QE : !QuietExit x}.

Lemma close_quiet fds : forall k xr, qe_ok k -> curproc k = Some x -> procs k !! x = Some xr ->
  exists k' fl, close_loop fds k = Ret tt k' /\ tasks k' = tasks k /\
    procs k' = <[x := xr <| p_files := fl |>]> (procs k) /\ qe_ok k'.
Proof.
  induction fds as [|fd fds IH]; intros k xr Hok Hc Hx.
  { exists k, (p_files xr). split_and!; try done. rewrite insert_id; [done|]. rewrite Hx. by destruct xr. }
  cbn [close_loop]. rewrite (bind_curproc _ x), (bind_deref procs _ _ _ _ Hx) by done.
  destruct (p_files xr !! fd) as [[f|]|] eqn:Hfd; [|rewrite bind_ret_l; by apply IH..].
  destruct (qe_close k xr fd f Hok Hc Hx Hfd) as (r & k1 & fl & Hrun & Ht & Hps & Hok1).
  erewrite bind_ret by (by rewrite (bind_ret _ _ _ _ _ Hrun)).
  destruct (IH k1 (xr <| p_files := fl |>)) as (k' & fl' & Hrun' & Ht' & Hps' & Hok'); try done.
  { injection Ht. congruence. }
  { rewrite Hps. apply lookup_insert_eq. }
  exists k', fl'. split_and!; try done; [congruence|]. rewrite Hps', Hps. by rewrite insert_insert_eq.
Qed.

(** Closing files and releasing the directory and the address space. *)
Lemma release_quiet {B} k xr (f : ptr -> K B) : qe_ok k -> curproc k = Some x -> procs k !! x = Some xr ->
  exists k' fl, tasks k' = tasks k /\ procs k' = <[x := emptied fl xr]> (procs k) /\
    (close_loop (seq 0 NFILES);;
     c ← the_curproc;
     p ← deref procs c;
     match p_cwd p with
     | Some vn => vfs_vput vn;; c ← the_curproc; assign procs c (fun p => p <| p_cwd := None |>)
     | None => ret tt
     end;;
     c ← the_curproc;
     p ← deref procs c;
     match p_vmmap p with Some map => vmmap_destroy map | None => ret tt end;;
     bind the_curproc f) k = bind the_curproc f k'.
Proof.
  intros Hok Hc Hx. destruct (close_quiet (seq 0 NFILES) k xr Hok Hc Hx) as (k1 & fl & Hrun & Ht1 & Hps1 & Hok1).
  rewrite (bind_ret _ _ _ _ _ Hrun). clear Hrun.
  assert (Hc1 : curproc k1 = Some x) by (injection Ht1; congruence).
  assert (Hx1 : procs k1 !! x = Some (xr <| p_files := fl |>)) by (rewrite Hps1; apply lookup_insert_eq).
  rewrite (bind_curproc _ x), (bind_deref procs _ _ _ _ Hx1) by done.
  assert (Hput : exists k2, match p_cwd (xr <| p_files := fl |>) with
     | Some vn => vfs_vput vn;; c ← the_curproc; assign procs c (fun p => p <| p_cwd := None |>)
     | None => ret tt
     end k1 = Ret tt k2 /\ tasks k2 = tasks k1 /\ procs k2 = <[x := emptied fl xr]> (procs k) /\ qe_ok k2).
  { change (p_cwd (xr <| p_files := fl |>)) with (p_cwd xr). destruct (p_cwd xr) as [vn|] eqn:Hcwd.
    - destruct (qe_vput k1 _ vn Hok1 Hx1 Hcwd) as (k2 & Hrun & Ht2 & Hps2 & Hok2).
      rewrite (bind_ret _ _ _ _ _ Hrun), (bind_curproc _ x) by (injection Ht2; congruence).
      eexists. split; [apply (assign_Some procs); by rewrite Hps2|]. simpl. split_and!; [exact Ht2| |exact Hok2].
      by rewrite Hps2, Hps1, insert_insert_eq.
    - exists k1. split_and!; try done. by rewrite Hps1, emptied_no_cwd. }
  destruct Hput as (k2 & Hrun & Ht2 & Hps2 & Hok2). rewrite (bind_ret _ _ _ _ _ Hrun). clear Hrun.
  assert (Hc2 : curproc k2 = Some x) by (injection Ht2; congruence).
  assert (Hx2 : procs k2 !! x = Some (emptied fl xr)) by (rewrite Hps2; apply lookup_insert_eq).
  rewrite (bind_curproc _ x), (bind_deref procs _ _ _ _ Hx2) by done.
  destruct (p_vmmap (emptied fl xr)) as [map|] eqn:Hm.
  - destruct (qe_destroy k2 _ map Hok2 Hx2 Hm) as (k3 & Hrun & Ht3 & Hps3).
    exists k3, fl. rewrite (bind_ret _ _ _ _ _ Hrun). split_and!; congruence.
  - exists k2, fl. rewrite bind_ret_l. split_and!; congruence.
Qed.

(** Waking the parent [par]: the state of the tasks before and after. *)
Record woke (par : ptr) (k k' : kernel) : Prop := {
  wk_sched : sched_wf k';
  wk_fifo q : fifo k' q = spec_wakeup (ProcWait par) (fifo k) q;
  wk_thread u thr : threads k !! u = Some thr -> exists thr', threads k' !! u = Some thr' /\
    kt_proc thr' = kt_proc thr /\ (kt_wchan thr = None -> thr' = thr);
  wk_live u : is_Some (threads k' !! u) <-> is_Some (threads k !! u);
  wk_rest : tasks (k' <| threads := threads k |> <| queues := queues k |>) = tasks k;
}.

Lemma wakes_keep Q k k' u thr : rtc (wakes Q) k k' -> threads k !! u = Some thr ->
  exists thr', threads k' !! u = Some thr' /\ kt_proc thr' = kt_proc thr /\ (kt_wchan thr = None -> thr' = thr).
Proof.
  intros Hr. revert thr. induction Hr as [|k k1 k' Hw _ IH]; intros thr Hu; [by exists thr|].
  destruct Hw as [q t thr0 k HQ Ht Hq]. destruct (decide (u = t)) as [->|Hne].
  - destruct (IH _ ltac:(rewrite threads_wake; apply lookup_insert_eq)) as (thr' & Hu' & Hp & _).
    exists thr'. simpl in Hp. simplify_eq. split_and!; [done|by rewrite Hp|congruence].
  - apply IH. by rewrite threads_wake_ne.
Qed.

Lemma wakes_same_live Q k k' u : rtc (wakes Q) k k' -> is_Some (threads k' !! u) <-> is_Some (threads k !! u).
Proof.
  induction 1 as [|k k1 k' Hw _ IH]; [done|]. rewrite IH. destruct Hw as [q t thr0 k HQ Ht Hq].
  rewrite threads_wake, lookup_insert_is_Some'. split; [|by right]. intros [->|]; [by eexists|done].
Qed.

(** The exit of a process without children: it is dead with its status, its parent is woken if
    it waits, and no other process has changed. *)
Lemma leaf_cleanup k xr par s : exiting x k -> qe_ok k -> procs k !! x = Some xr -> p_children xr = [] ->
  p_pproc xr = Some par ->
  exists k' fl, proc_cleanup s k = Ret tt k' /\ procs k' = <[x := dead s (emptied fl xr)]> (procs k) /\ woke par k k'.
Proof.
  intros Hex Hok Hx Hleaf Hpar. unfold proc_cleanup. rewrite bind_get.
  destruct (ex_self _ _ Hex) as (xr0 & Hx0 & Hpid). assert (xr0 = xr) as -> by congruence.
  destruct (ex_init _ _ Hex) as (i & ir & d & dr & Hi & _).
  rewrite bind_KASSERT by (by rewrite Hi). rewrite (bind_curproc _ x) by apply Hex.
  rewrite (bind_deref procs _ _ _ _ Hx). rewrite bind_KASSERT by (by apply Z.leb_le).
  rewrite bind_KASSERT by (by rewrite Hpar).
  edestruct (release_quiet (B := unit) k xr) as (k1 & fl & Ht1 & Hps1 & Hrel); [done|apply Hex|done|].
  rewrite Hrel. clear Hrel.
  assert (Hex1 : exiting x k1) by (eapply exiting_ext; try done; by exists fl; right).
  destruct (tw_parent _ _ _ (ex_wf _ _ Hex) _ _ _ Hx Hpar) as [Hne [pr Hpr]].
  assert (Hpr1 : procs k1 !! par = Some pr) by (by rewrite Hps1, lookup_insert_ne).
  assert (Hx1 : procs k1 !! x = Some (emptied fl xr)) by (rewrite Hps1; apply lookup_insert_eq).
  rewrite (bind_curproc _ x) by apply Hex1. rewrite (bind_deref procs _ _ _ _ Hx1).
  change (p_pproc (emptied fl xr)) with (p_pproc xr). rewrite Hpar, bind_nonnull, (bind_deref procs _ _ _ _ Hpr1).
  match goal with |- context [bind (sched_queue_empty _) (fun e => bind _ ?f) k1] =>
    destruct (wake_parent x k1 par f Hex1) as (k2 & Hf2 & Hex2 & Hps2 & Hi2 & Hw2 & ->) end.
  rewrite bind_gets. rewrite <- Hps2 in Hx1.
  erewrite bind_ret.
  2: { instantiate (1 := k2). instantiate (1 := tt). destruct (decide _); [done|].
       rewrite (bind_deref procs _ _ _ _ Hx1). change (p_children (emptied fl xr)) with (p_children xr). by rewrite Hleaf. }
  rewrite (bind_assign procs _ _ _ _ _ Hx1). erewrite bind_deref by lookup_solve.
  eexists _, fl. split; [simpl; by rewrite Hpar|]. split.
  { simpl. rewrite Hps2, Hps1. by rewrite insert_insert_eq. }
  injection Ht1 as E1 E2 E3 E4 E5 E6 E7 E8 E9 E10. split.
  - eapply sched_wf_ext; [| |apply Hex2]; done.
  - intros q. rewrite (fifo_ext k2) by done. rewrite Hf2. unfold spec_wakeup, fifo, queue. by rewrite E2.
  - intros u thr Hu. simpl. eapply wakes_keep; [exact Hw2|]. congruence.
  - intros u. simpl. by rewrite (wakes_same_live _ _ _ _ Hw2), E1.
  - pose proof (wakes_rtc_frame _ _ _ Hw2) as Hfr. unfold sched_frame in Hfr.
    unfold tasks. simpl. rewrite <- E3, <- E4, <- E5, <- E6, <- E7, <- E8, <- E9, <- E10. rewrite <- Hfr. done.
Qed.

(** Process [x] has no children and one thread [t], which runs. *)
Record leaving (k : kernel) (t : ptr) (xr : proc) (thr : kthread) : Prop := {
  lv_exiting : exiting x k;
  lv_proc : procs k !! x = Some xr;
  lv_leaf : p_children xr = [];
  lv_threads : p_threads xr = [t];
  lv_cur : curthr k = Some t;
  lv_thread : threads k !! t = Some thr;
  lv_free : kt_wchan thr = None;
  lv_owner : kt_proc thr = Some x;
}.

Definition exited_thread (s : Z) (thr : kthread) : kthread := thr <| kt_retval := s |> <| kt_state := KT_EXITED |>.

(** The state in which the thread is marked, before the process is cleaned up. *)
Definition marked (t : ptr) (thr : kthread) (s : Z) (k : kernel) : kernel :=
  k <| threads := <[t := exited_thread s thr]> (threads k) |>.

Lemma exiting_marked k t xr thr s : leaving k t xr thr -> exiting x (marked t thr s k).
Proof.
  intros [[Hwf Hs Hc Hself Hi] _ _ _ _ Ht Hw _]. split; try done. apply (update_wf _ _ thr); try done. by rewrite Hw.
Qed.

(** Up to the switch, [do_exit] is the clean-up of the process with its thread marked. *)
Lemma do_exit_marked k t xr thr s : leaving k t xr thr ->
  do_exit s k = (proc_cleanup (int32 s);; sched_switch) (marked t thr s k).
Proof.
  intros [Hex Hx Hleaf Hths Hcur Ht Hw Hp]. unfold do_exit.
  rewrite (bind_curproc _ x), (bind_deref procs _ _ _ _ Hx), Hths by apply Hex. cbn [cancel_loop].
  erewrite bind_ret.
  2: { rewrite bind_gets. by rewrite Hcur, bool_decide_true. }
  unfold kthread_exit. rewrite bind_gets, Hcur, bind_nonnull, (bind_deref threads _ _ _ _ Ht).
  rewrite bind_KASSERT by (by rewrite Hw).
  rewrite bind_KASSERT by (by rewrite (wf_link _ (ex_sched _ _ Hex) _ _ Ht), Hw).
  rewrite bind_gets, bind_KASSERT by (apply bool_decide_eq_true; rewrite Hp; symmetry; apply Hex).
  rewrite (bind_assign threads _ _ _ _ _ Ht). erewrite bind_assign by lookup_solve.
  unfold proc_thread_exited, marked. f_equal. kernel_ext. by rewrite insert_insert_eq.
Qed.

(** The exit of a process: its thread never returns from the call; the processor goes to the
    oldest runnable thread, behind which the parent was put if it waits. *)
Lemma do_exit_run k t xr thr par s u rest : leaving k t xr thr -> qe_ok k -> p_pproc xr = Some par ->
  (0 < loop_fuel)%nat -> fifo k Runq ++ take 1 (fifo k (ProcWait par)) = u :: rest ->
  exists k' k1 fl uthr, do_exit s k = Wait CtxSwitch k' (fun s' => Ret tt (s' <| ipl := ipl k |>)) /\
    procs k1 = <[x := dead (int32 s) (emptied fl xr)]> (procs k) /\ woke par (marked t thr s k) k1 /\
    threads k1 !! u = Some uthr /\ fifo k1 Runq = u :: rest /\ k' = switched u uthr k1.
Proof.
  intros Hlv Hok Hpar Hfuel Hq. rewrite (do_exit_marked _ _ _ _ _ Hlv).
  destruct (leaf_cleanup (marked t thr s k) xr par (int32 s)) as (k1 & fl & Hrun & Hps & Hwk); try apply Hlv; try done.
  { by eapply exiting_marked. }
  { by apply qe_threads. }
  rewrite (bind_ret _ _ _ _ _ Hrun). clear Hrun.
  assert (Hf : fifo k1 Runq = u :: rest).
  { rewrite (wk_fifo _ _ _ Hwk). unfold spec_wakeup. rewrite (fifo_ext k) by done. rewrite <- Hq.
    destruct (fifo k (ProcWait par)) as [|w l]; [by rewrite app_nil_r|]. unfold spec_enqueue.
    rewrite decide_True by done. by rewrite decide_False. }
  destruct (fifo_cons_thread _ _ _ _ (wk_sched _ _ _ Hwk) Hf) as (uthr & Hu & _).
  destruct (wk_thread _ _ _ Hwk t (exited_thread s thr)) as (t1 & Ht1 & _); [apply lookup_insert_eq|].
  pose proof (wk_rest _ _ _ Hwk) as Hrest. injection Hrest as E3 E4 E5 E6 E7 E8 E9 E10.
  exists (switched u uthr k1), k1, fl, uthr. split_and!; try done.
  rewrite (switch_run k1 t t1 u rest uthr); try done; [|apply Hwk|by rewrite E4; apply Hlv].
  by rewrite E5.
Qed.

(** ** The parent

    Thread [cur] of process [c] waits for its children, and [x] is the only one that is about to
    exit: [stk] is the stack of its thread [t] and [pd] its page directory. *)
Record rendezvous (k : kernel) (pid : Z) (c cur t stk pd : ptr) (xr cr : proc) (thr : kthread) : Prop := {
  rv_leaving : leaving k t xr thr;
  rv_parent : p_pproc xr = Some c;
  rv_asked : asked pid xr;
  rv_proc : procs k !! c = Some cr;
  rv_others y yr : y ∈ p_children cr -> y <> x -> procs k !! y = Some yr -> asked pid yr -> p_state yr <> PROC_DEAD;
  rv_waits : fifo k (ProcWait c) = [cur];
  rv_waiter : exists w, threads k !! cur = Some w /\ kt_proc w = Some c;
  rv_runq : fifo k Runq = [];
  rv_stack : kt_kstack thr = Some stk /\ stk ∈ kstacks k /\ kt_plink thr = Some x;
  rv_pagedir : p_pagedir xr = Some pd /\ pd ∈ pagedirs k;
}.

(** Process [x] with its thread [t] was disposed of by its parent [c]; nothing else was. *)
Record disposed (k k' : kernel) (c t stk pd : ptr) (cr : proc) : Prop := {
  ds_tree : proc_wf k';
  ds_sched : sched_wf k';
  ds_proc : procs k' !! x = None;
  ds_parent : procs k' !! c = Some (cr <| p_children ::= remove_elem x |>);
  ds_others q : q <> x -> q <> c -> procs k' !! q = procs k !! q;
  ds_list : proc_list k' = remove_elem x (proc_list k);
  ds_thread : threads k' !! t = None;
  ds_threads u : u <> t -> is_Some (threads k' !! u) <-> is_Some (threads k !! u);
  ds_stacks : kstacks k' = kstacks k ∖ {[stk]};
  ds_pagedirs : pagedirs k' = pagedirs k ∖ {[pd]};
}.

(** Threads that are on no queue can be forgotten. *)
Lemma forget_threads_wf k k' (l : list ptr) : sched_wf k -> queues k' = queues k ->
  (forall t, threads k' !! t = if decide (t ∈ l) then None else threads k !! t) ->
  (forall t thr, t ∈ l -> threads k !! t = Some thr -> kt_wchan thr = None) -> sched_wf k'.
Proof.
  intros [H1 H2 H3 H4 H5 H6] Hq Ht Hl.
  assert (Hold : forall t thr, threads k' !! t = Some thr -> threads k !! t = Some thr).
  { intros t thr. rewrite Ht. by destruct (decide _). }
  split; intros *; rewrite ?(queue_ext k k') by done; eauto.
  intros Hin. destruct (H3 _ _ Hin) as [thr Hthr]. rewrite Ht, decide_False; [by exists thr|].
  intros Htl. apply (H2 _ _ q Hthr) in Hin. pose proof (Hl _ _ Htl Hthr). congruence.
Qed.

(** The state in which the exited child is found. *)
Lemma exit_to_parent k pid c cur t stk pd xr cr thr s : rendezvous k pid c cur t stk pd xr cr thr -> qe_ok k ->
  (0 < loop_fuel)%nat ->
  exists k' fl, do_exit s k = Wait CtxSwitch k' (fun s' => Ret tt (s' <| ipl := ipl k |>)) /\
    procs k' = <[x := dead (int32 s) (emptied fl xr)]> (procs k) /\ sched_wf k' /\
    curthr k' = Some cur /\ curproc k' = Some c /\ threads k' !! t = Some (exited_thread s thr) /\
    (forall u, is_Some (threads k' !! u) <-> is_Some (threads k !! u)) /\
    kstacks k' = kstacks k /\ pagedirs k' = pagedirs k /\ proc_list k' = proc_list k /\ next_pid k' = next_pid k.
Proof.
  intros Hrv Hok Hfuel. destruct Hrv as [Hlv Hpar Hask Hcr Hoth Hwt (w & Hw & Hwp) Hrq Hstk Hpd].
  destruct (do_exit_run k t xr thr c s cur []) as (k' & k1 & fl & uthr & Hrun & Hps & Hwk & Hu & Hf & ->); try done.
  { by rewrite Hrq, Hwt. }
  pose proof (wk_rest _ _ _ Hwk) as Hrest. injection Hrest as E3 E4 E5 E6 E7 E8 E9 E10.
  pose proof (lv_thread _ _ _ _ Hlv) as Ht. pose proof (lv_free _ _ _ _ Hlv) as Hfree.
  destruct (fifo_cons_thread k (ProcWait c) cur []) as (w' & Hw' & Hq & _); [apply Hlv|done|].
  assert (w' = w) as -> by congruence. assert (Hne : cur <> t) by congruence.
  destruct (wk_thread _ _ _ Hwk cur w) as (w1 & Hw1 & Hp1 & _); [by unfold marked; simpl; rewrite lookup_insert_ne|].
  destruct (wk_thread _ _ _ Hwk t (exited_thread s thr)) as (t1 & Ht1 & _ & Heq); [apply lookup_insert_eq|].
  rewrite Heq in Ht1 by done.
  exists (switched cur uthr k1), fl. split; [done|]. split; [done|].
  split; [by eapply switched_wf; [apply Hwk|..]|]. split_and!; try done.
  - simpl. assert (uthr = w1) as -> by congruence. congruence.
  - rewrite threads_switched, lookup_insert_ne by done. done.
  - intros v. rewrite threads_switched, lookup_insert_is_Some', (wk_live _ _ _ Hwk). unfold marked. simpl.
    rewrite lookup_insert_is_Some'. split; [|by right; right]. intros [->|[->|]]; [by eexists..|done].
Qed.

(** The parent goes on and finds the child. *)
Lemma wait_disposes n k k' pid c cur t stk pd xr cr thr s fl i : rendezvous k pid c cur t stk pd xr cr thr ->
  procs k' = <[x := dead s (emptied fl xr)]> (procs k) -> sched_wf k' -> curproc k' = Some c ->
  threads k' !! t = Some (exited_thread i thr) -> (forall u, is_Some (threads k' !! u) <-> is_Some (threads k !! u)) ->
  kstacks k' = kstacks k -> pagedirs k' = pagedirs k -> proc_list k' = proc_list k -> next_pid k' = next_pid k ->
  exists k2, wait_loop (S n) pid k' = Ret (p_pid xr, s) k2 /\ disposed k k2 c t stk pd cr.
Proof.
  intros [Hlv Hpar Hask Hcr Hoth _ _ _ (Hstk & Hstkin & Hpl) (Hpd & Hpdin)] Hps Hs Hc Ht Hlive Hks Hpds Hl Hnx.
  pose proof (lv_proc _ _ _ _ Hlv) as Hx. pose proof (ex_wf _ _ (lv_exiting _ _ _ _ Hlv)) as Hwf.
  destruct (tw_parent _ _ _ Hwf _ _ _ Hx Hpar) as [Hne _].
  assert (Hxin : x ∈ p_children cr) by (apply (tw_children _ _ _ Hwf _ _ _ Hcr); by exists xr).
  set (dr := dead s (emptied fl xr)).
  assert (Hx' : procs k' !! x = Some dr) by (rewrite Hps; apply lookup_insert_eq).
  assert (Hcr' : procs k' !! c = Some cr) by (by rewrite Hps, lookup_insert_ne).
  assert (Hwf' : proc_wf k') by (unfold proc_wf; rewrite Hps, Hl, Hnx; by apply (tree_update _ _ _ _ xr)).
  pose proof (lv_threads _ _ _ _ Hlv) as Hths. change (p_threads xr) with (p_threads dr) in Hths.
  assert (Honly : forall y yr, y ∈ p_children cr -> procs k' !! y = Some yr -> asked pid yr -> p_state yr = PROC_DEAD -> y = x).
  { intros y yr Hy Hyr Ha Hd. destruct (decide (y = x)) as [|Hyx]; [done|]. rewrite Hps, lookup_insert_ne in Hyr by done.
    by destruct (Hoth y yr). }
  destruct (wait_loop_reaps n k' c cr x dr pid) as
    (k2 & l1 & y & l2 & yr & pd' & Hsplit & Hy & Hya & Hyd & _ & Hrun & Hwf2 & Hk2 & Hpd' & Hthr & Hkst); try done.
  { intros y yr Hy Hyr Ha Hd. assert (y = x) as -> by eauto. assert (yr = dr) as -> by congruence. split; [apply Hlv|]. split.
    - rewrite Hths. split; [apply NoDup_singleton|..].
      + intros u ->%list_elem_of_singleton. exists (exited_thread i thr), stk. rewrite Hks. by split_and!.
      + by intros u v ? ? ->%list_elem_of_singleton ->%list_elem_of_singleton.
    - exists pd. by rewrite Hpds. }
  assert (y = x) as -> by (eapply Honly; [rewrite Hsplit; apply elem_of_app; right; by left|done..]).
  assert (yr = dr) as -> by congruence. assert (pd' = pd) as -> by (change (p_pagedir dr) with (p_pagedir xr) in Hpd'; congruence).
  exists k2. split; [exact Hrun|]. rewrite Hths in Hthr, Hkst.
  assert (Hps2 : procs k2 = tree_without (procs k') x c cr) by (by rewrite Hk2).
  split; [done|..].
  - apply (forget_threads_wf k' k2 [t]); try done; [by rewrite Hk2|].
    intros u thr' ->%list_elem_of_singleton Hu. rewrite Ht in Hu. injection Hu as <-. apply Hlv.
  - rewrite Hps2. unfold tree_without. by rewrite lookup_delete_eq.
  - rewrite Hps2. unfold tree_without. by rewrite lookup_delete_ne, lookup_insert_eq.
  - intros q Hqx Hqc. rewrite Hps2, Hps. unfold tree_without. by rewrite lookup_delete_ne, !lookup_insert_ne by done.
  - rewrite Hk2. simpl. by rewrite Hl.
  - rewrite Hthr. by rewrite decide_True by (by apply list_elem_of_singleton).
  - intros u Hu. rewrite Hthr, decide_False by (by rewrite list_elem_of_singleton). apply Hlive.
  - apply set_eq. intros st. rewrite Hkst, Hks, elem_of_difference, elem_of_singleton. split; intros [Hin Hno]; (split; [done|]).
    + intros ->. apply Hno. exists t, (exited_thread i thr). by split; [left|].
    + intros (u & uthr & ->%list_elem_of_singleton & Hu & Hus). rewrite Ht in Hu. injection Hu as <-. apply Hno.
      change (kt_kstack (exited_thread i thr)) with (kt_kstack thr) in Hus. congruence.
  - rewrite Hk2. simpl. by rewrite Hpds.
Qed.
End exit.

(** ** Properties *)

(** [do_exit] of a process without children, with one thread: the thread has exited with the
    status as its result, the process is dead with the status as an [int], its parent is woken if
    it waits, and the processor goes to the oldest runnable thread.  The call does not return to
    the thread, which is on no queue; every other process is unchanged and the process tree stays
    well formed. *)
Theorem do_exit_spec x `{QE : !QuietExit x} k t xr thr par s u rest :
  leaving x k t xr thr -> qe_ok k -> p_pproc xr = Some par -> (0 < loop_fuel)%nat ->
  fifo k Runq ++ take 1 (fifo k (ProcWait par)) = u :: rest ->
  exists k' kont xr', do_exit s k = Wait CtxSwitch k' kont /\ proc_wf k' /\ sched_wf k' /\
    curthr k' = Some u /\ fifo k' Runq = rest /\ fifo k' (ProcWait par) = drop 1 (fifo k (ProcWait par)) /\
    procs k' = <[x := xr']> (procs k) /\ p_state xr' = PROC_DEAD /\ p_status xr' = int32 s /\
    p_pid xr' = p_pid xr /\ p_threads xr' = [t] /\
    threads k' !! t = Some (exited_thread s thr) /\ (forall q, t ∉ fifo k' q).
Proof.
  intros Hlv Hok Hpar Hfuel Hq. pose proof Hlv as [Hex Hx Hleaf Hths Hcur Ht Hw Hp].
  destruct (do_exit_run x k t xr thr par s u rest) as (k' & k1 & fl & uthr & Hrun & Hps & Hwk & Hu & Hf & ->); try done.
  pose proof (wk_rest _ _ _ Hwk) as Hrest. injection Hrest as E3 E4 E5 E6 E7 E8 E9 E10.
  destruct (wk_thread _ _ _ Hwk t (exited_thread s thr)) as (t1 & Ht1 & _ & Heq); [apply lookup_insert_eq|].
  rewrite Heq in Ht1 by done. clear Heq.
  destruct (fifo_cons_thread _ _ _ _ (wk_sched _ _ _ Hwk) Hf) as (w & Hwu & Hwq & _).
  assert (Hne : u <> t) by (intros ->; rewrite Ht1 in Hwu; injection Hwu as <-; simpl in Hwq; congruence).
  assert (Hs : sched_wf (switched u uthr k1)) by (eapply switched_wf; [apply Hwk|done..]).
  assert (Ht' : threads (switched u uthr k1) !! t = Some (exited_thread s thr)) by (by rewrite threads_switched, lookup_insert_ne).
  eexists (switched u uthr k1), _, _. split; [exact Hrun|]. split_and!; try done.
  - unfold proc_wf. simpl. rewrite Hps, E6, E8. apply (tree_update _ _ _ _ xr); try done. apply Hex.
  - rewrite (fifo_switched _ _ rest), decide_True by (done || apply Hwk). done.
  - rewrite (fifo_switched _ _ rest), decide_False by (done || apply Hwk). rewrite (wk_fifo _ _ _ Hwk). unfold spec_wakeup.
    rewrite (fifo_ext k (marked t thr s k)) by done.
    destruct (fifo k (ProcWait par)) as [|v l] eqn:Hl; [by rewrite (fifo_ext k)|]. unfold spec_enqueue.
    rewrite decide_False, decide_True by done. done.
  - intros q Hin. unfold fifo in Hin. rewrite elem_of_reverse in Hin. apply (wf_mem _ Hs _ _ _ Ht') in Hin. simpl in Hin. congruence.
Qed.

End lifecycle.

(** ** The properties at a concrete state *)
Module Witness.
Import Sched.Witness Proc.Witness.
#[local] Existing Instance Proc.Witness.fuel.
#[local] Existing Instance Proc.Witness.counting_vfs.
#[local] Existing Instance Proc.Witness.no_objects.

#[local] Program Instance counting_put : QuietPut := {| can_put _ _ := True |}.
Next Obligation. intros k vn _. by exists k. Qed.
Next Obligation. done. Qed.

(** The shell, process 3, runs in thread 1; its child 4, with identifier 3, has the runnable thread 4. *)
Definition worker : proc := (node 3 (Some 3%positive) [] PROC_RUNNING [4%positive]) <| p_pagedir := Some 4%positive |>.
Definition idle_thread (p : ptr) (q : option wchan) (stk : ptr) : kthread := {|
  kt_ctx := no_context; kt_kstack := Some stk; kt_retval := 0; kt_errno := 0; kt_proc := Some p;
  kt_cancelled := 0; kt_wchan := q; kt_state := KT_RUN; kt_qlink := q; kt_plink := Some p |}.
Definition family : kernel :=
  world <| procs := <[4%positive := worker]> tree |>
        <| threads := {[ 1%positive := idle_thread 3 None 6; 4%positive := idle_thread 4 (Some Runq) 7;
                         5%positive := zombie_thread ]} |>
        <| queues := {[ Runq := {| tq_list := [4%positive]; tq_size := 1 |} ]} |>
        <| kstacks := {[ 6%positive; 7%positive; 8%positive ]} |> <| pagedirs := {[ 1%positive; 4%positive ]} |>
        <| curthr := Some 1%positive |>.
Definition waited : kernel := after (do_waitpid 3 0 true family).

Lemma family_wf : proc_wf family.
Proof. apply tree_checked. by_eval. Qed.
Lemma family_sched : sched_wf family.
Proof. apply sched_wf_checked. by_eval. Qed.
Lemma waited_wf : proc_wf waited.
Proof. apply tree_checked. by_eval. Qed.
Lemma waited_sched : sched_wf waited.
Proof. apply sched_wf_checked. by_eval. Qed.
Lemma waited_procs : procs waited = procs family.
Proof. vm_compute. reflexivity. Qed.

Lemma waited_leaving : leaving 4 waited 4 worker (idle_thread 4 None 7).
Proof.
  split; [|vm_compute; reflexivity..]. split; [apply waited_wf|apply waited_sched|vm_compute; reflexivity|..].
  - exists worker. split; [vm_compute; reflexivity|done].
  - exists 2%positive, (node 1 (Some 1%positive) [3%positive] PROC_RUNNING []), 1%positive,
      (node 0 None [2%positive] PROC_RUNNING []). split_and!; vm_compute; reflexivity.
Qed.

Lemma waited_bare : qe_ok (x := 4) waited.
Proof.
  intros xr Hx. assert (Hw : procs waited !! 4%positive = Some worker) by (vm_compute; reflexivity).
  rewrite Hw in Hx. injection Hx as <-. split; [|done|].
  - intros fd f. by destruct fd as [|[|fd]].
  - intros map [= <-]. eexists. split; vm_compute; reflexivity.
Qed.

Lemma do_exit_spec_witness :
  exists k' kont, do_exit 5 waited = Wait CtxSwitch k' kont /\ curthr k' = Some 1%positive /\ proc_wf k'.
Proof.
  destruct (do_exit_spec 4 waited 4 worker (idle_thread 4 None 7) 3 5 1 []) as (k' & kont & xr & Hrun & Hwf & _ & Hcur & _).
  - exact waited_leaving.
  - exact waited_bare.
  - reflexivity.
  - apply Nat.lt_0_succ.
  - vm_compute. reflexivity.
  - exists k', kont. split; [exact Hrun|]. split; [exact Hcur|exact Hwf].
Defined.

(** The children of the shell in a state where nothing happened to the processes. *)
Lemma family_children k y yr : procs k = procs family -> y ∈ [4%positive; 5%positive] -> procs k !! y = Some yr ->
  asked 3 yr -> y = 4%positive /\ p_state yr = PROC_RUNNING.
Proof.
  intros -> Hy Hyr [?|Hpid]; [lia|]. rewrite !elem_of_cons in Hy. destruct Hy as [->|[->|[]%not_elem_of_nil]].
  - assert (Hw : procs family !! 4%positive = Some worker) by reflexivity. rewrite Hw in Hyr. by injection Hyr as <-.
  - assert (Hw : procs family !! 5%positive = Some zombie) by reflexivity. rewrite Hw in Hyr. injection Hyr as <-. discriminate.
Qed.

Lemma waited_rendezvous : rendezvous 4 waited 3 3 1 4 7 4 worker shell (idle_thread 4 None 7).
Proof.
  split; [apply waited_leaving|reflexivity|by right|vm_compute; reflexivity| |vm_compute; reflexivity| |vm_compute; reflexivity|..].
  - intros y yr Hy Hne Hyr Ha. by destruct (family_children waited y yr waited_procs Hy Hyr Ha).
  - exists ((idle_thread 3 None 6) <| kt_state := KT_SLEEP |> <| kt_qlink := Some (ProcWait 3) |> <| kt_wchan := Some (ProcWait 3) |>).
    split; vm_compute; reflexivity.
  - split_and!; [reflexivity|by_eval|reflexivity].
  - split; [reflexivity|by_eval].
Qed.

End Witness.

(** ** An exit that sleeps

    [vput] of the last reference to a directory may wait for the disk; here it sleeps once on the
    queue of the vnode. *)
Module SleepingExit.
Import Proc.Witness Witness.
#[local] Existing Instance Proc.Witness.fuel.
#[local] Existing Instance Proc.Witness.counting_vfs.
#[local] Existing Instance Proc.Witness.no_objects.

Definition sleepy_vfs : VfsCalls := {|
  vfs_do_close _ := ret 0; vfs_vref _ := ret tt; vfs_vput vn := sched_sleep_on (VnodeWait vn) |}.

Definition resume {A} (o : outcome kernel A) (k : kernel) : outcome kernel A :=
  match o with Wait _ _ kont => kont k | _ => o end.

(** As before, with a third thread that is runnable. *)
Definition crowd : kernel :=
  family <| threads ::= <[9%positive := idle_thread 2 (Some Runq) 9]> |>
         <| queues := {[ Runq := {| tq_list := [9%positive; 4%positive]; tq_size := 2 |} ]} |>.

Definition wait_call := do_waitpid 3 0 true crowd.
Definition exit_call := do_exit (V := sleepy_vfs) 0 (after wait_call).
Definition other_call := (_ ← sched_wakeup_on (VnodeWait 9); sched_sleep_on (MutexWait 1)) (after exit_call).
Definition exit_rest := resume exit_call (after other_call).

End SleepingExit.
