(* ===== verification/UserMem.v ===== *)
(** * UserMem

    Access to the memory of processes: [vmmap_read] and [vmmap_write] of
    [kernel/vm/vmmap.c], and the checks and copies of [kernel/api/access.c].
    Buffers of the kernel are lists of bytes; the memory of a page is in the
    heap [pages], at the address of its frame. *)

From S2P Require Import Prelude Platform State Sched Mmobj Vmmap Pframe.

(** [memcpy] out of and into a page. *)
Definition mem_slice (off n : Z) (d : list Z) : list Z := take (Z.to_nat n) (drop (Z.to_nat off) d).
Definition mem_store (off : Z) (bs d : list Z) : list Z :=
  take (Z.to_nat off) d ++ bs ++ drop (Z.to_nat off + length bs) d.

Section usermem.
Context `{P : Platform, F : LoopFuel, Ops : MmobjOps, MH : MmHeaders}.

(** Where in page [i], whose memory is at [addr], the copy starts and how many bytes it has. *)
Definition chunk (addr : ptr) (i first_vfn last_vfn last_vaddr vaddr_offset count : Z) : Z * Z :=
  if i =? first_vfn then
    let start_addr := uint32 (Zpos addr + vaddr_offset) in
    let page_end_addr := uint32 (Zpos addr + PAGE_SIZE) in
    (vaddr_offset, if uint32 (start_addr + count) <? page_end_addr then count
                   else uint32 (page_end_addr - start_addr))
  else if i =? last_vfn then (0, uint32 (last_vaddr - PN_TO_ADDR last_vfn))
  else (0, PAGE_SIZE).

(** The frame of page [i] of the address space. *)
Definition find_page (map : ptr) (i : Z) : K (Z * option ptr) :=
  a ← vmmap_lookup map i;
  vma ← nonnull a;
  v ← deref vmareas vma;
  pframe_lookup (vma_obj v) (uint32 (vma_off v + (i - vma_start v))) 0.

(** [for (i = first_vfn; i <= last_vfn; i++)]: the result and the bytes copied so far. *)
Fixpoint read_loop (l : list Z) (map : ptr) (first_vfn last_vfn last_vaddr vaddr_offset count : Z)
    (buf : list Z) : K (Z * list Z) :=
  match l with
  | [] => ret (0, buf)
  | i :: l =>
      '(r, res) ← find_page map i;
      if r <? 0 then ret (r, buf)
      else
        pf ← nonnull res;
        p ← deref pframes pf;
        data ← deref pages (pf_addr p);
        let '(off, n) := chunk (pf_addr p) i first_vfn last_vfn last_vaddr vaddr_offset count in
        let buf' := buf ++ mem_slice off n data in
        if (i =? first_vfn) && (first_vfn =? last_vfn) then ret (0, buf')
        else read_loop l map first_vfn last_vfn last_vaddr vaddr_offset count buf'
  end.

(** The pages that an access to [count] bytes at [vaddr] touches. *)
Definition last_address (vaddr count : Z) : Z := uint32 (vaddr + count - 1).
Definition touched (vaddr count : Z) : list Z :=
  seqZ (ADDR_TO_PN vaddr) (ADDR_TO_PN (last_address vaddr count) - ADDR_TO_PN vaddr + 1).

Definition vmmap_read (map : ptr) (vaddr count : Z) : K (Z * list Z) :=
  read_loop (touched vaddr count) map (ADDR_TO_PN vaddr) (ADDR_TO_PN (last_address vaddr count))
    (last_address vaddr count) (PAGE_OFFSET vaddr) count [].

(** [buf] are the bytes still to be written. *)
Fixpoint write_loop (l : list Z) (map : ptr) (first_vfn last_vfn last_vaddr vaddr_offset count : Z)
    (buf : list Z) : K Z :=
  match l with
  | [] => ret 0
  | i :: l =>
      '(r, res) ← find_page map i;
      if r <? 0 then ret r
      else
        pf ← nonnull res;
        _ ← pframe_dirty pf;
        p ← deref pframes pf;
        let '(off, n) := chunk (pf_addr p) i first_vfn last_vfn last_vaddr vaddr_offset count in
        assign pages (pf_addr p) (mem_store off (take (Z.to_nat n) buf));;
        if (i =? first_vfn) && (first_vfn =? last_vfn) then ret 0
        else write_loop l map first_vfn last_vfn last_vaddr vaddr_offset count (drop (Z.to_nat n) buf)
  end.

Definition vmmap_write (map : ptr) (vaddr : Z) (buf : list Z) (count : Z) : K Z :=
  write_loop (touched vaddr count) map (ADDR_TO_PN vaddr) (ADDR_TO_PN (last_address vaddr count))
    (last_address vaddr count) (PAGE_OFFSET vaddr) count buf.

(** ** [access.c] *)
Definition addr_perm (p : ptr) (vaddr perm : Z) : K Z :=
  pr ← deref procs p;
  map ← nonnull (p_vmmap pr);
  a ← vmmap_lookup map (ADDR_TO_PN vaddr);
  match a with
  | None => ret 0
  | Some vma =>
      v ← deref vmareas vma;
      ret (if Z.land (vma_prot v) perm =? perm then 1 else 0)
  end.

Fixpoint range_perm_loop (l : list Z) (p : ptr) (perm : Z) : K Z :=
  match l with
  | [] => ret 1
  | i :: l =>
      r ← addr_perm p (PN_TO_ADDR i) perm;
      if r =? 0 then ret 0 else range_perm_loop l p perm
  end.

Definition range_perm (p : ptr) (avaddr len perm : Z) : K Z :=
  range_perm_loop (touched avaddr len) p perm.

(** [curproc->p_vmmap] *)
Definition cur_vmmap : K ptr :=
  c ← gets curproc; p ← nonnull c; pr ← deref procs p; nonnull (p_vmmap pr).

Definition copy_from_user (uaddr nbytes : Z) : K (Z * list Z) :=
  c ← gets curproc;
  p ← nonnull c;
  ok ← range_perm p uaddr nbytes PROT_READ;
  if ok =? 0 then ret (- EFAULT, [])
  else map ← cur_vmmap; vmmap_read map uaddr nbytes.

Definition copy_to_user (uaddr : Z) (kaddr : list Z) (nbytes : Z) : K Z :=
  c ← gets curproc;
  p ← nonnull c;
  ok ← range_perm p uaddr nbytes PROT_WRITE;
  if ok =? 0 then ret (- EFAULT)
  else map ← cur_vmmap; vmmap_write map uaddr kaddr nbytes.

(** [curthr->kt_errno = e] *)
Definition set_errno (e : Z) : K unit :=
  c ← gets curthr; t ← nonnull c; assign threads t (fun t => t <| kt_errno := e |>).

(** [kmalloc] belongs to the slab allocator: whether the n-th request for so many bytes is met. *)
Context (kmalloc_ok : nat -> Z -> bool).

Definition kmalloc (size : Z) : K bool :=
  fun k => Ret (kmalloc_ok (alloc_count k) size) (k <| alloc_count ::= S |>).

Definition user_strdup (as_str as_len : Z) : K (option (list Z)) :=
  ok ← kmalloc (uint32 (as_len + 1));
  if ok : bool then
    '(r, kstr) ← copy_from_user as_str (uint32 (as_len + 1));
    if r <? 0 then set_errno (- r);; ret None else ret (Some kstr)
  else set_errno ENOMEM;; ret None.
End usermem.

(** ** Reading *)
Section reading.
Context `{PO : PlatformOk, F : LoopFuel, Ops : MmobjOps, MH : MmHeaders}.
Context (k : kernel) (map : ptr).

(** Page [i] of the address space is mapped and resident, with content [d]; an access of
    [count] bytes stays clear of the end of the kernel's memory. *)
Definition page_data (count i : Z) (d : list Z) : Prop :=
  exists a v o pf p, mapped k map i a /\ vmareas k !! a = Some v /\ vma_obj v = Some o /\
    mmo_lookuppage o (uint32 (vma_off v + (i - vma_start v))) 0 k = Ret (0, Some pf) k /\
    pframes k !! pf = Some p /\ pages k !! pf_addr p = Some d /\
    Z.of_nat (length d) = PAGE_SIZE /\ Zpos (pf_addr p) + PAGE_SIZE + count < 2 ^ 32.

Lemma vmmap_lookup_run vfn a : vmmap_wf k map -> mapped k map vfn a ->
  vmmap_lookup map vfn k = Ret (Some a) k.
Proof.
  intros (l & vs & Hwf) Hm. destruct (mw_map _ _ _ _ Hwf) as (m & Hmap & Hl).
  destruct (lookup_loop_run (k := k) l vs vfn) as (res & Hrun & Hres); [apply Hwf..|].
  unfold vmmap_lookup. rewrite (bind_deref vmmaps _ _ _ _ Hmap), Hl, Hrun. f_equal.
  apply Hres. destruct Hm as (m' & v & Hm' & Hin & Hv & Hc). simplify_eq. eauto.
Qed.

Lemma find_page_run count i d : vmmap_wf k map -> page_data count i d ->
  exists pf p, find_page map i k = Ret (0, Some pf) k /\ pframes k !! pf = Some p /\
    pages k !! pf_addr p = Some d /\ Zpos (pf_addr p) + PAGE_SIZE + count < 2 ^ 32.
Proof.
  intros Hwf (a & v & o & pf & p & Hm & Hv & Ho & Hlook & Hpf & Hpg & _ & Hlim).
  exists pf, p. split_and!; try done.
  unfold find_page. rewrite (bind_ret _ _ _ _ _ (vmmap_lookup_run i a Hwf Hm)), bind_nonnull.
  rewrite (bind_deref vmareas _ _ _ _ Hv), Ho. unfold pframe_lookup.
  rewrite bind_KASSERT by done. by rewrite bind_nonnull.
Qed.

Lemma page_length count i d : page_data count i d -> Z.of_nat (length d) = PAGE_SIZE.
Proof. by intros (a & v & o & pf & p & _ & _ & _ & _ & _ & _ & ? & _). Qed.

(** One page of the loop. *)
Lemma read_step l i first last la off count buf d : vmmap_wf k map -> page_data count i d ->
  exists addr, Zpos addr + PAGE_SIZE + count < 2 ^ 32 /\
  read_loop (i :: l) map first last la off count buf k =
    (let '(o, n) := chunk addr i first last la off count in
     let buf' := buf ++ mem_slice o n d in
     if (i =? first) && (first =? last) then ret (0, buf')
     else read_loop l map first last la off count buf') k.
Proof.
  intros Hwf Hd. destruct (find_page_run count i d Hwf Hd) as (pf & p & Hfind & Hpf & Hpg & Hlim).
  exists (pf_addr p). split; [done|]. cbn [read_loop]. rewrite (bind_ret _ _ _ _ _ Hfind). cbn beta iota.
  change (0 <? 0) with false. cbn iota.
  rewrite bind_nonnull, (bind_deref pframes _ _ _ _ Hpf). by rewrite (bind_deref pages _ _ _ _ Hpg).
Qed.

(** The pages behind the first one: whole pages, and the start of the last one. *)
Lemma read_rest first last la off count n : forall i ds buf,
  vmmap_wf k map -> first < i -> i + Z.of_nat n = last ->
  0 <= la - PN_TO_ADDR last < PAGE_SIZE ->
  Forall2 (page_data count) (seqZ i (Z.of_nat (S n))) ds ->
  read_loop (seqZ i (Z.of_nat (S n))) map first last la off count buf k =
    Ret (0, buf ++ take (n * Z.to_nat PAGE_SIZE + Z.to_nat (la - PN_TO_ADDR last)) (concat ds)) k.
Proof.
  pose proof page_size_4k as H4k.
  induction n as [|n IH]; intros i ds buf Hwf Hfi Hil Hla HF; rewrite seqZ_cons in * by lia;
    apply Forall2_cons_inv_l in HF as (d & ds' & Hd & HF & ->);
    match goal with |- context [read_loop (i :: ?l)] =>
      destruct (read_step l i first last la off count buf d Hwf Hd) as (addr & _ & ->) end;
    pose proof (page_length _ _ _ Hd) as Hlen;
    unfold chunk; assert (i =? first = false) as -> by (apply Z.eqb_neq; lia); cbn [andb].
  - assert (i =? last = true) as -> by (apply Z.eqb_eq; lia).
    replace (Z.pred (Z.of_nat 1)) with 0 by lia. cbn. f_equal. f_equal. f_equal.
    unfold mem_slice. rewrite drop_0, uint32_small by lia. rewrite take_app_le; [done|lia].
  - assert (i =? last = false) as -> by (apply Z.eqb_neq; lia).
    replace (Z.pred (Z.of_nat (S (S n)))) with (Z.of_nat (S n)) in * by lia. cbv zeta.
    rewrite (IH _ ds') by (done || lia). f_equal. f_equal. rewrite <- app_assoc. f_equal.
    unfold mem_slice. rewrite drop_0, take_ge by lia. cbn [concat].
    rewrite take_app_ge by lia. f_equal. f_equal. lia.
Qed.

(** The part of the first page. *)
Lemma chunk_first addr i last la off count :
  Zpos addr + PAGE_SIZE + count < 2 ^ 32 -> 0 <= off < PAGE_SIZE -> 0 < count ->
  chunk addr i i last la off count = (off, Z.min count (PAGE_SIZE - off)).
Proof.
  intros Hlim Hoff Hcount. unfold chunk. rewrite Z.eqb_refl. cbv zeta.
  rewrite !(uint32_small (Zpos addr + _)), (uint32_small (_ + count)) by lia.
  destruct (Z.ltb_spec (Zpos addr + off + count) (Zpos addr + PAGE_SIZE)); f_equal; [lia|].
  rewrite uint32_small by lia. lia.
Qed.

Lemma vmmap_read_run vaddr count ds :
  vmmap_wf k map -> 0 <= vaddr -> 0 < count -> vaddr + count <= 2 ^ 32 ->
  Forall2 (page_data count) (touched vaddr count) ds ->
  vmmap_read map vaddr count k =
    Ret (0, mem_slice (PAGE_OFFSET vaddr)
              (if ADDR_TO_PN vaddr =? ADDR_TO_PN (vaddr + count - 1) then count else count - 1)
              (concat ds)) k.
Proof.
  intros Hwf Hva Hcount Hlim HF. unfold vmmap_read, touched, last_address in *.
  rewrite uint32_small in * by lia. pose proof page_size_4k as H4k.
  rewrite page_offset_spec, !addr_to_pn_spec, ?H4k in *. set (la := vaddr + count - 1) in *.
  pose proof (Z.div_mod vaddr 4096 ltac:(lia)) as Hdv. pose proof (Z.mod_pos_bound vaddr 4096 ltac:(lia)) as Hmv.
  pose proof (Z.div_mod la 4096 ltac:(lia)) as Hdl. pose proof (Z.mod_pos_bound la 4096 ltac:(lia)) as Hml.
  set (off := vaddr mod 4096) in *. set (f := vaddr / 4096) in *. set (l := la / 4096) in *.
  assert (Hfl : f <= l) by (apply Z.div_le_mono; lia).
  rewrite seqZ_cons in * by lia. apply Forall2_cons_inv_l in HF as (d & ds' & Hd & HF & ->).
  destruct (read_step (seqZ (Z.succ f) (Z.pred (l - f + 1))) f f l la off count [] d Hwf Hd)
    as (addr & Haddr & ->).
  pose proof (page_length _ _ _ Hd) as Hlen. rewrite H4k in *.
  rewrite chunk_first by (rewrite ?H4k; lia). rewrite Z.eqb_refl, H4k. cbn [andb app].
  destruct (Z.eqb_spec f l) as [Heq|Hne].
  - replace (l - f + 1) with 1 in HF by lia. apply Forall2_nil_inv_l in HF as ->.
    unfold ret. cbn [concat]. rewrite app_nil_r. do 2 f_equal. f_equal. lia.
  - replace (Z.pred (l - f + 1)) with (Z.of_nat (S (Z.to_nat (l - f - 1)))) in * by lia.
    rewrite (read_rest f l la off count _ _ ds') by (rewrite ?pn_to_addr_spec, ?H4k; done || lia).
    f_equal. f_equal. rewrite pn_to_addr_spec, H4k. unfold mem_slice. cbn [concat].
    rewrite drop_app_le by lia. rewrite take_app_ge by (rewrite length_drop; lia).
    f_equal; [rewrite take_ge by (rewrite length_drop; lia); done|]. f_equal.
    rewrite length_drop. lia.
Qed.
End reading.

(** ** Permissions *)
Section permissions.
Context `{PO : PlatformOk, F : LoopFuel, Ops : MmobjOps, MH : MmHeaders}.

(** Page [vfn] is mapped with at least the permissions [perm]. *)
Definition allowed (k : kernel) (map : ptr) (perm vfn : Z) : Prop :=
  exists a v, mapped k map vfn a /\ vmareas k !! a = Some v /\ Z.land (vma_prot v) perm = perm.

Context (k : kernel) (p map : ptr) (pr : proc).
Hypotheses (Hp : procs k !! p = Some pr) (Hmap : p_vmmap pr = Some map) (Hwf : vmmap_wf k map).

Lemma addr_perm_run vaddr perm :
  exists r, addr_perm p vaddr perm k = Ret r k /\ (r = 0 \/ r = 1) /\
    (r = 1 <-> allowed k map perm (ADDR_TO_PN vaddr)).
Proof.
  unfold addr_perm. rewrite (bind_deref procs _ _ _ _ Hp), Hmap, bind_nonnull.
  destruct Hwf as (l & vs & Hw). destruct (mw_map _ _ _ _ Hw) as (m & Hm & Hl).
  destruct (lookup_loop_run (k := k) l vs (ADDR_TO_PN vaddr)) as (res & Hrun & Hres); [apply Hw..|].
  assert (Hrun' : vmmap_lookup map (ADDR_TO_PN vaddr) k = Ret res k).
  { unfold vmmap_lookup. by rewrite (bind_deref vmmaps _ _ _ _ Hm), Hl. }
  rewrite (bind_ret _ _ _ _ _ Hrun').
  assert (Hmapped : forall a, mapped k map (ADDR_TO_PN vaddr) a <-> res = Some a).
  { intros a. rewrite Hres. split.
    - intros (m' & v & Hm' & Hin & ? & ?). simplify_eq. eauto.
    - intros (Hin & v & ? & ?). exists m, v. by rewrite Hl. }
  destruct res as [a|].
  - destruct (proj1 (Hres a) eq_refl) as (_ & v & Hv & _). rewrite (bind_deref vmareas _ _ _ _ Hv).
    eexists. split; [reflexivity|]. destruct (Z.eqb_spec (Z.land (vma_prot v) perm) perm) as [He|He];
      (split; [by auto|]); split; try done.
    + intros _. exists a, v. by rewrite Hmapped.
    + intros (a' & v' & [= <-]%Hmapped & ? & ?). congruence.
  - exists 0. split; [done|]. split; [by left|]. split; [done|]. by intros (a & v & ?%Hmapped & _).
Qed.

Lemma range_perm_loop_run l perm : (forall i, i ∈ l -> 0 <= i) ->
  exists r, range_perm_loop l p perm k = Ret r k /\ (r = 0 \/ r = 1) /\
    (r = 1 <-> forall i, i ∈ l -> allowed k map perm i).
Proof.
  induction l as [|i l IH]; intros Hl.
  { exists 1. split_and!; [done|by right|]. split; [|done]. intros _ i []%not_elem_of_nil. }
  cbn [range_perm_loop]. destruct (addr_perm_run (PN_TO_ADDR i) perm) as (r & Hrun & Hr & Hra).
  assert (ADDR_TO_PN (PN_TO_ADDR i) = i) as Hi.
  { rewrite addr_to_pn_spec, pn_to_addr_spec, page_size_4k. apply Z.div_mul. lia. }
  rewrite (bind_ret _ _ _ _ _ Hrun). rewrite Hi in Hra. destruct (Z.eqb_spec r 0) as [->|Hne].
  - exists 0. split; [done|]. split; [by left|]. split; [done|]. intros Hall.
    assert (0 = 1); [|done]. apply Hra, Hall. by left.
  - destruct IH as (r' & Hrun' & Hr' & Hra'); [set_solver|]. exists r'. split; [done|]. split; [done|].
    rewrite Hra'. assert (r = 1) as -> by naive_solver. setoid_rewrite elem_of_cons. naive_solver.
Qed.

Lemma touched_elem vaddr len i : 0 <= vaddr -> 0 < len -> vaddr + len <= 2 ^ 32 ->
  i ∈ touched vaddr len <-> ADDR_TO_PN vaddr <= i <= ADDR_TO_PN (vaddr + len - 1).
Proof.
  intros Hva Hlen Hlim. unfold touched, last_address. rewrite uint32_small by lia.
  rewrite elem_of_seqZ. lia.
Qed.

Lemma range_perm_run vaddr len perm : 0 <= vaddr -> 0 < len -> vaddr + len <= 2 ^ 32 ->
  exists r, range_perm p vaddr len perm k = Ret r k /\ (r = 0 \/ r = 1) /\
    (r = 1 <-> forall i, ADDR_TO_PN vaddr <= i <= ADDR_TO_PN (vaddr + len - 1) -> allowed k map perm i).
Proof.
  intros Hva Hlen Hlim. unfold range_perm.
  destruct (range_perm_loop_run (touched vaddr len) perm) as (r & Hrun & Hr & Hra).
  { intros i. rewrite touched_elem by done. rewrite addr_to_pn_spec, page_size_4k.
    pose proof (Z.div_pos vaddr 4096 Hva). lia. }
  exists r. split; [done|]. split; [done|]. rewrite Hra. by setoid_rewrite touched_elem.
Qed.
End permissions.

(** ** Properties *)
Section properties.
Context `{PO : PlatformOk, F : LoopFuel, Ops : MmobjOps, MH : MmHeaders}.

(** [vmmap_read] of mapped and resident memory does not fault and copies the bytes of the
    address space in order; when the range ends in a later page than it begins, the last byte
    is missing. *)
Theorem vmmap_read_spec k map vaddr count ds :
  vmmap_wf k map -> 0 <= vaddr -> 0 < count -> vaddr + count <= 2 ^ 32 ->
  Forall2 (page_data k map count) (touched vaddr count) ds ->
  vmmap_read map vaddr count k =
    Ret (0, mem_slice (PAGE_OFFSET vaddr)
              (if ADDR_TO_PN vaddr =? ADDR_TO_PN (vaddr + count - 1) then count else count - 1)
              (concat ds)) k.
Proof. apply vmmap_read_run. Qed.

(** [range_perm] answers whether every page of the range is mapped with the permissions. *)
Theorem range_perm_spec k p map pr vaddr len perm :
  procs k !! p = Some pr -> p_vmmap pr = Some map -> vmmap_wf k map ->
  0 <= vaddr -> 0 < len -> vaddr + len <= 2 ^ 32 ->
  exists r, range_perm p vaddr len perm k = Ret r k /\ (r = 0 \/ r = 1) /\
    (r = 1 <-> forall i, ADDR_TO_PN vaddr <= i <= ADDR_TO_PN (vaddr + len - 1) -> allowed k map perm i).
Proof. intros Hp Hm Hwf. by apply (range_perm_run k p map pr). Qed.

(** A range that wraps around the end of the address space passes [range_perm] although no
    page of it was looked at, whatever the process maps. *)
Theorem range_perm_wraps k p avaddr len perm :
  0 <= avaddr < 2 ^ 32 -> 2 ^ 32 <= avaddr + len - 1 < 2 ^ 33 ->
  ADDR_TO_PN (avaddr + len - 1 - 2 ^ 32) < ADDR_TO_PN avaddr ->
  range_perm p avaddr len perm k = Ret 1 k.
Proof.
  intros Ha Hl Hpn. unfold range_perm, touched, last_address.
  assert (uint32 (avaddr + len - 1) = avaddr + len - 1 - 2 ^ 32) as ->.
  { unfold uint32. symmetry. apply Z.mod_unique with 1; lia. }
  rewrite seqZ_nil by lia. done.
Qed.
End properties.

(** ** The properties at concrete states *)
Module Witness.
Import Vmmap.Witness.
#[local] Instance fuel : LoopFuel := 10%nat.

(** The first two pages of object 1 are resident. *)
#[local] Instance resident_ops : MmobjOps := {|
  mmo_ref _ := ret tt; mmo_put _ := ret tt;
  mmo_lookuppage _ n _ := ret (0, Some (if n =? 0 then 1%positive else 2%positive));
  mmo_fillpage _ _ := ret 0; mmo_dirtypage _ _ := ret 0; mmo_cleanpage _ _ := ret 0 |}.

Definition frame (n : Z) (addr : ptr) : pframe := {|
  pf_obj := Some 1%positive; pf_pagenum := n; pf_addr := addr; pf_busy := false; pf_dirty := false;
  pf_pincount := 0; pf_link := None; pf_hlink := None; pf_olink := None |}.

Definition with_pages (k : kernel) : kernel :=
  k <| pframes := {[ 1%positive := frame 0 1; 2%positive := frame 1 2 ]} |>
    <| pages := {[ 1%positive := replicate 4096 5; 2%positive := replicate 4096 6 ]} |>.
Definition loaded : kernel := with_pages vm.

Lemma with_pages_wf k l vs : map_wf k 1 l vs -> map_wf (with_pages k) 1 l vs.
Proof. intros Hwf. by apply (map_wf_ext 1 k). Qed.

Lemma loaded_wf : vmmap_wf loaded 1.
Proof. exists [1%positive; 2%positive], [area1; area2]. apply with_pages_wf, vm_map_wf. Qed.

Lemma loaded_mapped i : 1024 <= i < 1040 -> mapped loaded 1 i 1.
Proof. intros Hi. eexists _, area1. split_and!; [reflexivity|by left|reflexivity|apply Hi..]. Qed.

Lemma loaded_page i addr b : 1024 <= i <= 1025 -> (addr, b) = (if i =? 1024 then (1%positive, 5) else (2%positive, 6)) ->
  page_data loaded 1 10 i (replicate 4096 b).
Proof.
  intros Hi Heq. exists 1%positive, area1, 1%positive, addr, (frame (i - 1024) addr).
  destruct (Z.eqb_spec i 1024) as [->|Hne]; injection Heq as -> ->.
  - split_and!; try done. apply loaded_mapped. lia.
  - replace i with 1025 in * by lia. split_and!; try done. apply loaded_mapped. lia.
Qed.

(** Ten bytes from the end of the first page: six and three of them arrive. *)
Lemma vmmap_read_spec_witness :
  vmmap_read 1 (1024 * 4096 + 4090) 10 loaded = Ret (0, replicate 6 5 ++ replicate 3 6) loaded.
Proof.
  rewrite (vmmap_read_spec loaded 1 (1024 * 4096 + 4090) 10 [replicate 4096 5; replicate 4096 6]).
  - reflexivity.
  - apply loaded_wf.
  - lia.
  - lia.
  - lia.
  - change (touched (1024 * 4096 + 4090) 10) with [1024; 1025].
    repeat constructor; [apply (loaded_page 1024 1)|apply (loaded_page 1025 2)]; done.
Defined.

Lemma range_perm_spec_witness :
  exists r, range_perm 1 (1024 * 4096) 8192 PROT_WRITE loaded = Ret r loaded /\ r = 1.
Proof.
  destruct (range_perm_spec loaded 1 1 vm_proc (1024 * 4096) 8192 PROT_WRITE) as (r & Hrun & _ & Hr).
  - reflexivity.
  - reflexivity.
  - apply loaded_wf.
  - lia.
  - lia.
  - lia.
  - exists r. split; [exact Hrun|]. apply Hr. intros i Hi. exists 1%positive, area1.
    split_and!; try done. apply loaded_mapped. change (1024 <= i <= 1025) in Hi. lia.
Defined.

(** Nothing is mapped at this address. *)
Lemma range_perm_wraps_witness : range_perm 1 0x80000000 0x80000001 PROT_WRITE loaded = Ret 1 loaded.
Proof. apply range_perm_wraps; vm_compute; split; congruence || reflexivity. Defined.
End Witness.
