(* ===== verification/UserPages.v ===== *)
(** * UserPages

    The contents of user memory.  [vmmap_write] of [kernel/vm/vmmap.c] stores into the frames in
    which the pages of an address space are resident; what it stores is what [vmmap_read] finds
    there, through the same address space or through another that has the same frames.

    [PageOps] is what the copy routines need of memory objects: a page that is resident is found
    without waiting, and marking it dirty succeeds.  [object_pages] proves it of anonymous objects
    and of shadow objects, whose pages may be those of an object further down. *)

From S2P Require Import Prelude Platform State Sched Mmobj Vmmap Pframe Anon UserMem.

(** ** What a write may change

    The contents of pages, the dirty marks of frames, and who waits for a frame. *)
Definition unmarked (p : pframe) : pframe := p <| pf_dirty := false |>.

Record mem_step (k k' : kernel) : Prop := {
  ms_only : k' = k <| pframes := pframes k' |> <| pages := pages k' |>
                   <| threads := threads k' |> <| queues := queues k' |>;
  ms_frames : unmarked <$> pframes k' = unmarked <$> pframes k;
}.

#[export] Instance mem_step_equivalence : Equivalence mem_step.
Proof.
  split.
  - intros k. split; [by kernel_ext|done].
  - intros k k' [H1 H2]. split; [|done]. rewrite H1. by kernel_ext.
  - intros k1 k2 k3 [H1 H2] [H3 H4]. split; [|congruence]. rewrite H3, H1. by kernel_ext.
Qed.

Lemma mem_step_same {X} (f : kernel -> X) k k' :
  (forall k ps gs ts qs, f (k <| pframes := ps |> <| pages := gs |> <| threads := ts |> <| queues := qs |>) = f k) ->
  mem_step k k' -> f k' = f k.
Proof. intros Hf [-> _]. apply Hf. Qed.

(** What the pages of an address space depend on. *)
Record same_space (k k' : kernel) : Prop := {
  ss_maps : vmmaps k' = vmmaps k;
  ss_areas : vmareas k' = vmareas k;
  ss_objects : mmobjs k' = mmobjs k;
  ss_hash : pframe_hash k' = pframe_hash k;
  ss_frames : unmarked <$> pframes k' = unmarked <$> pframes k;
}.

Lemma mem_step_space k k' : mem_step k k' -> same_space k k'.
Proof. intros Hs. split; [by apply (mem_step_same _ k k')..|apply Hs]. Qed.

Lemma same_space_frame k k' pf p : same_space k k' -> pframes k !! pf = Some p ->
  exists p', pframes k' !! pf = Some p' /\ unmarked p' = unmarked p.
Proof.
  intros Hs Hp. pose proof (f_equal (lookup pf) (ss_frames _ _ Hs)) as Hf.
  rewrite !lookup_fmap, Hp in Hf. apply fmap_Some in Hf as (p' & ? & ?). by exists p'.
Qed.

(** ** What is needed of memory objects *)
Class PageOps `{Ops : MmobjOps} (live : kernel -> ptr -> Z -> ptr -> Prop) : Prop := {
  po_lookup k o n pf : live k o n pf -> mmo_lookuppage o n 0 k = Ret (0, Some pf) k;
  po_stable k k' o n pf : live k o n pf -> same_space k k' -> live k' o n pf;
  po_frame k o n pf : live k o n pf ->
    exists p o', pframes k !! pf = Some p /\ pf_obj p = Some o' /\ pf_busy p = false;
  po_dirty k o n pf p o' : live k o n pf -> pframes k !! pf = Some p -> pf_obj p = Some o' ->
    mmo_dirtypage o' pf (k <| pframes := <[pf := p <| pf_busy := true |>]> (pframes k) |>) =
      Ret 0 (k <| pframes := <[pf := p <| pf_busy := true |> <| pf_dirty := true |>]> (pframes k) |>);
}.

Section writing.
Context `{PO : PlatformOk, F : LoopFuel, MH : MmHeaders, PG : PageOps}.

(** Page [i] of the address space is resident at the physical address [addr], clear of the end of
    the kernel's memory. *)
Definition page_at (k : kernel) (map : ptr) (count i : Z) (addr : ptr) : Prop :=
  exists a v o pf p, mapped k map i a /\ vmareas k !! a = Some v /\ vma_obj v = Some o /\
    live k o (uint32 (vma_off v + (i - vma_start v))) pf /\ pframes k !! pf = Some p /\
    pf_addr p = addr /\ Zpos addr + PAGE_SIZE + count < 2 ^ 32.

Definition contents (k : kernel) (addrs : list ptr) (ds : list (list Z)) : Prop :=
  Forall2 (fun a d => pages k !! a = Some d /\ Z.of_nat (length d) = PAGE_SIZE) addrs ds.

Section same_space.
Context (k k' : kernel) (Hs : same_space k k').

Lemma mapped_stable map i a : mapped k map i a -> mapped k' map i a.
Proof. unfold mapped. by rewrite (ss_maps _ _ Hs), (ss_areas _ _ Hs). Qed.

Lemma vmmap_wf_stable map : vmmap_wf k map -> vmmap_wf k' map.
Proof.
  intros (l & vs & Hwf). exists l, vs. apply (map_wf_ext map k); [done|..].
  - by rewrite (ss_maps _ _ Hs).
  - intros b _. by rewrite (ss_areas _ _ Hs).
Qed.

Lemma page_at_stable map count i addr : page_at k map count i addr -> page_at k' map count i addr.
Proof.
  intros (a & v & o & pf & p & Hm & Hv & Ho & Hl & Hp & Ha & Hlim).
  destruct (same_space_frame k k' pf p Hs Hp) as (p' & Hp' & Heq). exists a, v, o, pf, p'.
  split_and!; try done.
  - by apply mapped_stable.
  - by rewrite (ss_areas _ _ Hs).
  - by eapply po_stable.
  - rewrite <- Ha. by destruct p, p'; injection Heq.
Qed.

Lemma pages_at_stable map count ns addrs : Forall2 (page_at k map count) ns addrs -> Forall2 (page_at k' map count) ns addrs.
Proof. intros HF. eapply Forall2_impl; [exact HF|]. intros i addr. apply page_at_stable. Qed.

(** The permissions do not change either. *)
Lemma allowed_stable map perm i : allowed k map perm i -> allowed k' map perm i.
Proof.
  intros (a & v & Hm & Hv & Hp). exists a, v. split; [by apply mapped_stable|].
  by rewrite (ss_areas _ _ Hs).
Qed.
End same_space.

(** A resident page can be read. *)
Lemma page_at_data k map count i addr d : page_at k map count i addr ->
  pages k !! addr = Some d -> Z.of_nat (length d) = PAGE_SIZE -> page_data k map count i d.
Proof.
  intros (a & v & o & pf & p & Hm & Hv & Ho & Hl & Hp & <- & Hlim) Hd Hlen.
  exists a, v, o, pf, p. split_and!; try done. by apply po_lookup.
Qed.

Lemma pages_at_data k map count ns addrs ds : Forall2 (page_at k map count) ns addrs ->
  contents k addrs ds -> Forall2 (page_data k map count) ns ds.
Proof.
  intros HF. revert ds. induction HF as [|i addr ns addrs Hi _ IH]; intros ds Hc.
  - apply Forall2_nil_inv_l in Hc as ->. constructor.
  - apply Forall2_cons_inv_l in Hc as (d & ds' & (Hd & Hlen) & Hc & ->).
    constructor; [by eapply page_at_data|by apply IH].
Qed.

(** ** Marking a page dirty *)
Lemma dirty_run k o n pf : live k o n pf -> sched_wf k ->
  exists k', pframe_dirty pf k = Ret 0 k' /\ mem_step k k' /\ pages k' = pages k /\ sched_wf k'.
Proof.
  intros Hl Hwf. destruct (po_frame k o n pf Hl) as (p & o' & Hp & Ho & Hb).
  unfold pframe_dirty, pframe_set_busy, pframe_set_dirty, pframe_clear_busy.
  rewrite (bind_deref pframes _ _ _ _ Hp). rewrite bind_KASSERT by (by rewrite Hb).
  rewrite (bind_assign pframes _ _ _ _ _ Hp), Ho, bind_nonnull.
  rewrite (bind_ret _ _ _ _ _ (po_dirty k o n pf p o' Hl Hp Ho)). cbn beta. rewrite Z.eqb_refl.
  set (p3 := p <| pf_busy := true |> <| pf_dirty := true |> <| pf_dirty := true |> <| pf_busy := false |>).
  set (k3 := k <| pframes := <[pf := p3]> (pframes k) |>).
  destruct (sched_broadcast_run (PframeWait pf) k3) as (k' & Hrun & Hwf' & Hfr & _);
    [by eapply sched_wf_ext; [..|exact Hwf]|done|].
  exists k'. split_and!; try done.
  - repeat (erewrite bind_assign by apply lookup_insert_eq). simpl. rewrite !insert_insert_eq.
    erewrite bind_ret; [|exact Hrun]. done.
  - assert (pframes k' = pframes k3) as Hpf' by (by rewrite <- Hfr). split.
    + unfold sched_frame in Hfr. destruct k'. unfold k3 in Hfr. cbn in Hfr. destruct k. by simplify_eq.
    + rewrite Hpf'. unfold k3. simpl. rewrite fmap_insert. rewrite insert_id; [done|].
      rewrite lookup_fmap, Hp. simpl. f_equal. unfold p3, unmarked. destruct p. cbn in *. by subst.
  - change (pages k) with (pages k3). by rewrite <- Hfr.
Qed.

(** ** The loop over the pages *)
Lemma contents_other k k' addrs ds : (forall a, a ∈ addrs -> pages k' !! a = pages k !! a) ->
  contents k addrs ds -> contents k' addrs ds.
Proof.
  intros Hsame Hc. induction Hc as [|a d addrs ds (Hd & Hlen) _ IH]; [constructor|].
  constructor; [rewrite Hsame by (by left); done|]. apply IH. intros b Hb. apply Hsame. by right.
Qed.

Lemma length_store off bs d : 0 <= off -> off + Z.of_nat (length bs) <= Z.of_nat (length d) ->
  length (mem_store off bs d) = length d.
Proof. intros H1 H2. unfold mem_store. rewrite !length_app, length_take, length_drop. lia. Qed.

Section loop.
Context (map : ptr) (first last la off count : Z).

Lemma write_step k l i addr d buf :
  vmmap_wf k map -> sched_wf k -> page_at k map count i addr -> pages k !! addr = Some d ->
  exists k', mem_step k k' /\ sched_wf k' /\
    (let '(o, n) := chunk addr i first last la off count in
     pages k' = <[addr := mem_store o (take (Z.to_nat n) buf) d]> (pages k) /\
     write_loop (i :: l) map first last la off count buf k =
       (if (i =? first) && (first =? last) then ret 0
        else write_loop l map first last la off count (drop (Z.to_nat n) buf)) k').
Proof.
  intros Hwf Hs (a & v & o & pf & p & Hm & Hv & Ho & Hl & Hp & <- & Hlim) Hd.
  destruct (dirty_run _ _ _ _ Hl Hs) as (k1 & Hrun & Hstep & Hpg & Hs1).
  destruct (same_space_frame k k1 pf p (mem_step_space _ _ Hstep) Hp) as (p' & Hp' & Heq).
  assert (Ha : pf_addr p' = pf_addr p) by (by destruct p, p'; injection Heq).
  destruct (chunk (pf_addr p) i first last la off count) as [o' n] eqn:Hch.
  exists (k1 <| pages := <[pf_addr p := mem_store o' (take (Z.to_nat n) buf) d]> (pages k1) |>).
  split_and!.
  - etrans; [exact Hstep|]. split; [by kernel_ext|done].
  - by eapply sched_wf_ext; [..|exact Hs1].
  - simpl. by rewrite Hpg.
  - assert (Hfind : find_page map i k = Ret (0, Some pf) k).
    { unfold find_page. rewrite (bind_ret _ _ _ _ _ (vmmap_lookup_run k map i a Hwf Hm)), bind_nonnull.
      rewrite (bind_deref vmareas _ _ _ _ Hv), Ho. unfold pframe_lookup.
      rewrite bind_KASSERT, bind_nonnull by done. by apply po_lookup. }
    cbn [write_loop]. rewrite (bind_ret _ _ _ _ _ Hfind). cbn beta iota. change (0 <? 0) with false.
    cbn iota. rewrite bind_nonnull, (bind_ret _ _ _ _ _ Hrun). cbn beta.
    rewrite (bind_deref pframes _ _ _ _ Hp'), Ha, Hch.
    rewrite (bind_assign pages _ d) by (by rewrite Hpg). by destruct (_ && _).
Qed.

(** The pages behind the first one: whole pages, and the start of the last one. *)
Lemma write_rest n : forall k i addrs ds buf,
  vmmap_wf k map -> sched_wf k -> first < i -> i + Z.of_nat n = last ->
  0 <= la - PN_TO_ADDR last < PAGE_SIZE -> NoDup addrs ->
  Forall2 (page_at k map count) (seqZ i (Z.of_nat (S n))) addrs -> contents k addrs ds ->
  let m := (n * Z.to_nat PAGE_SIZE + Z.to_nat (la - PN_TO_ADDR last))%nat in
  (m <= length buf)%nat ->
  exists k' ds', write_loop (seqZ i (Z.of_nat (S n))) map first last la off count buf k = Ret 0 k' /\
    mem_step k k' /\ sched_wf k' /\ contents k' addrs ds' /\
    concat ds' = take m buf ++ drop m (concat ds) /\
    (forall a, a ∉ addrs -> pages k' !! a = pages k !! a).
Proof.
  pose proof page_size_4k as H4k.
  induction n as [|n IH]; intros k i addrs ds buf Hwf Hs Hfi Hil Hla Hnd HF Hc m Hm;
    rewrite seqZ_cons in * by lia;
    apply Forall2_cons_inv_l in HF as (addr & addrs' & Hat & HF & ->);
    apply Forall2_cons_inv_l in Hc as (d & ds' & (Hd & Hlen) & Hc & ->);
    apply NoDup_cons in Hnd as [Hni Hnd];
    match goal with |- context [write_loop (i :: ?l)] =>
      destruct (write_step k l i addr d buf Hwf Hs Hat Hd) as (k1 & Hstep & Hs1 & Hrun) end;
    unfold chunk in Hrun; assert (i =? first = false) as Hif by (apply Z.eqb_neq; lia);
    rewrite Hif in Hrun; cbn [andb] in Hrun.
  - assert (i =? last = true) as Hl by (apply Z.eqb_eq; lia). rewrite Hl in Hrun.
    rewrite uint32_small in Hrun by lia. destruct Hrun as [Hpg Hrun].
    replace (Z.pred (Z.of_nat 1)) with 0 in * by lia. apply Forall2_nil_inv_l in HF as ->.
    apply Forall2_nil_inv_l in Hc as ->. cbn [Nat.mul Nat.add] in m. fold m in Hpg.
    exists k1, [mem_store 0 (take m buf) d]. split_and!; try done.
    + constructor; [|constructor]. rewrite Hpg, lookup_insert_eq. split; [done|].
      rewrite length_store; [done|lia|]. rewrite length_take. lia.
    + cbn. rewrite !app_nil_r. unfold mem_store. cbn. by rewrite length_take, Nat.min_l by lia.
    + intros a Ha. rewrite Hpg. apply lookup_insert_ne. set_solver.
  - assert (i =? last = false) as Hl by (apply Z.eqb_neq; lia). rewrite Hl in Hrun.
    destruct Hrun as [Hpg Hrun].
    replace (Z.pred (Z.of_nat (S (S n)))) with (Z.of_nat (S n)) in * by lia.
    destruct (IH k1 (Z.succ i) addrs' ds' (drop (Z.to_nat PAGE_SIZE) buf))
      as (k' & ds1 & Hrun' & Hstep' & Hs' & Hc' & Hcat & Hout); try done; try lia.
    + by apply (vmmap_wf_stable _ _ (mem_step_space _ _ Hstep)).
    + by apply (pages_at_stable _ _ (mem_step_space _ _ Hstep)).
    + apply (contents_other k); [|done]. intros a Ha. rewrite Hpg. apply lookup_insert_ne. set_solver.
    + rewrite length_drop. unfold m in Hm. lia.
    + exists k', (mem_store 0 (take (Z.to_nat PAGE_SIZE) buf) d :: ds1).
      assert (mem_store 0 (take (Z.to_nat PAGE_SIZE) buf) d = take (Z.to_nat PAGE_SIZE) buf) as Hst.
      { unfold mem_store. cbn. rewrite length_take, drop_ge by (unfold m in Hm; lia). by rewrite app_nil_r. }
      split_and!.
      * by rewrite Hrun.
      * by etrans.
      * done.
      * constructor; [|done]. rewrite Hout, Hpg, lookup_insert_eq, Hst by done. split; [done|].
        rewrite length_take. unfold m in Hm. lia.
      * cbn [concat]. rewrite Hcat, Hst.
        replace m with (Z.to_nat PAGE_SIZE + (n * Z.to_nat PAGE_SIZE + Z.to_nat (la - PN_TO_ADDR last)))%nat by lia.
        rewrite app_assoc, take_take_drop, (drop_app_ge d) by lia. do 2 f_equal. lia.
      * intros a Ha. rewrite Hout, Hpg by set_solver. apply lookup_insert_ne. set_solver.
Qed.
End loop.

(** How many of [count] bytes at [vaddr] are copied: the last one is missing when the range ends in
    a later page than it begins. *)
Definition copied (vaddr count : Z) : Z :=
  if ADDR_TO_PN vaddr =? ADDR_TO_PN (vaddr + count - 1) then count else count - 1.

Lemma vmmap_write_run k map vaddr count buf addrs ds :
  vmmap_wf k map -> sched_wf k -> 0 <= vaddr -> 0 < count -> vaddr + count <= 2 ^ 32 ->
  Forall2 (page_at k map count) (touched vaddr count) addrs -> NoDup addrs -> contents k addrs ds ->
  count <= Z.of_nat (length buf) ->
  exists k' ds', vmmap_write map vaddr buf count k = Ret 0 k' /\ mem_step k k' /\ sched_wf k' /\
    contents k' addrs ds' /\
    concat ds' = mem_store (PAGE_OFFSET vaddr) (take (Z.to_nat (copied vaddr count)) buf) (concat ds) /\
    (forall a, a ∉ addrs -> pages k' !! a = pages k !! a).
Proof.
  intros Hwf Hs Hva Hcount Hlim HF Hnd Hc Hbuf. unfold vmmap_write, touched, last_address, copied in *.
  rewrite uint32_small in * by lia. pose proof page_size_4k as H4k.
  rewrite page_offset_spec, !addr_to_pn_spec, ?H4k in *. set (la := vaddr + count - 1) in *.
  pose proof (Z.div_mod vaddr 4096 ltac:(lia)) as Hdv. pose proof (Z.mod_pos_bound vaddr 4096 ltac:(lia)) as Hmv.
  pose proof (Z.div_mod la 4096 ltac:(lia)) as Hdl. pose proof (Z.mod_pos_bound la 4096 ltac:(lia)) as Hml.
  set (off := vaddr mod 4096) in *. set (f := vaddr / 4096) in *. set (l := la / 4096) in *.
  assert (Hfl : f <= l) by (apply Z.div_le_mono; lia).
  rewrite seqZ_cons in * by lia. apply Forall2_cons_inv_l in HF as (addr & addrs' & Hat & HF & ->).
  apply Forall2_cons_inv_l in Hc as (d & ds' & (Hd & Hlen) & Hc & ->). apply NoDup_cons in Hnd as [Hni Hnd].
  change (contents k addrs' ds') in Hc.
  destruct (write_step map f l la off count k (seqZ (Z.succ f) (Z.pred (l - f + 1))) f addr d buf)
    as (k1 & Hstep & Hs1 & Hrun); [done..|].
  rewrite chunk_first in Hrun by (rewrite ?H4k; destruct Hat as (? & ? & ? & ? & ? & _ & _ & _ & _ & _ & _ & ?); lia).
  rewrite Z.eqb_refl in Hrun. cbn [andb] in Hrun. destruct Hrun as [Hpg ->]. rewrite H4k in *.
  destruct (Z.eqb_spec f l) as [Heq|Hne].
  - replace (l - f + 1) with 1 in HF by lia. apply Forall2_nil_inv_l in HF as ->.
    apply Forall2_nil_inv_l in Hc as ->. rewrite Z.min_l in Hpg by lia.
    exists k1, [mem_store off (take (Z.to_nat count) buf) d]. split_and!; try done.
    + constructor; [|constructor]. rewrite Hpg, lookup_insert_eq, H4k. split; [done|].
      rewrite length_store; [done|lia|]. rewrite length_take. lia.
    + cbn. by rewrite !app_nil_r.
    + intros a Ha. rewrite Hpg. apply lookup_insert_ne. set_solver.
  - replace (Z.pred (l - f + 1)) with (Z.of_nat (S (Z.to_nat (l - f - 1)))) in * by lia.
    rewrite Z.min_r in * by lia. set (b := Z.to_nat (4096 - off)) in *.
    assert (Hb : length (take b buf) = b) by (rewrite length_take; unfold b; lia).
    destruct (write_rest map f l la off count (Z.to_nat (l - f - 1)) k1 (Z.succ f) addrs' ds' (drop b buf))
      as (k' & ds1 & Hrun' & Hstep' & Hs' & Hc' & Hcat & Hout); rewrite ?pn_to_addr_spec, ?H4k; try done; try lia.
    + by apply (vmmap_wf_stable _ _ (mem_step_space _ _ Hstep)).
    + by apply (pages_at_stable _ _ (mem_step_space _ _ Hstep)).
    + apply (contents_other k); [|done]. intros a Ha. rewrite Hpg. apply lookup_insert_ne. set_solver.
    + rewrite length_drop. unfold b. lia.
    + exists k', (mem_store off (take b buf) d :: ds1). split_and!; try done.
      * by etrans.
      * constructor; [|done]. rewrite Hout, Hpg, lookup_insert_eq, H4k by done. split; [done|].
        rewrite length_store; [done|lia|]. rewrite Hb. unfold b. lia.
      * cbn [concat]. rewrite Hcat, pn_to_addr_spec, H4k.
        set (m := (Z.to_nat (l - f - 1) * Z.to_nat 4096 + Z.to_nat (la - l * 4096))%nat).
        assert (Hm : Z.to_nat (count - 1) = (b + m)%nat) by (unfold b, m; lia).
        unfold mem_store. rewrite Hm, <- take_take_drop, length_app, Hb, length_take, length_drop.
        rewrite Nat.min_l by lia. rewrite (drop_ge d) by (unfold b; lia).
        rewrite (take_app_le d) by lia. rewrite (drop_app_ge d) by (unfold b; lia).
        rewrite app_nil_r, <- !app_assoc. do 4 f_equal. unfold b. lia.
      * intros a Ha. rewrite Hout, Hpg by set_solver. apply lookup_insert_ne. set_solver.
Qed.

Lemma slice_store off n bs d : 0 <= off -> 0 <= n -> off + n <= Z.of_nat (length d) -> n = Z.of_nat (length bs) ->
  mem_slice off n (mem_store off bs d) = bs.
Proof.
  intros H1 H2 H3 ->. unfold mem_slice, mem_store.
  rewrite drop_app_ge by (rewrite length_take; lia). rewrite length_take, Nat.min_l by lia.
  rewrite Nat.sub_diag, drop_0, Nat2Z.id. apply take_app_length.
Qed.

Lemma contents_length k addrs ds : contents k addrs ds ->
  Z.of_nat (length (concat ds)) = Z.of_nat (length addrs) * PAGE_SIZE.
Proof.
  induction 1 as [|a d addrs ds (_ & Hlen) _ IH]; [done|]. cbn [concat length]. rewrite length_app. lia.
Qed.

Lemma touched_room vaddr count : 0 <= vaddr -> 0 < count -> vaddr + count <= 2 ^ 32 ->
  PAGE_OFFSET vaddr + count <= Z.of_nat (length (touched vaddr count)) * PAGE_SIZE.
Proof.
  intros Hva Hcount Hlim. unfold touched, last_address. rewrite length_seqZ, uint32_small by lia.
  rewrite page_offset_spec, !addr_to_pn_spec, page_size_4k.
  pose proof (Z.div_mod vaddr 4096 ltac:(lia)). pose proof (Z.div_mod (vaddr + count - 1) 4096 ltac:(lia)).
  pose proof (Z.mod_pos_bound (vaddr + count - 1) 4096 ltac:(lia)).
  pose proof (Z.div_le_mono vaddr (vaddr + count - 1) 4096). lia.
Qed.

(** What was written through one address space is read back through every address space that has the
    same pages resident at these addresses. *)
Lemma write_read_run k map map' vaddr count buf addrs ds :
  vmmap_wf k map -> vmmap_wf k map' -> sched_wf k ->
  0 <= vaddr -> 0 < count -> vaddr + count <= 2 ^ 32 ->
  Forall2 (page_at k map count) (touched vaddr count) addrs ->
  Forall2 (page_at k map' count) (touched vaddr count) addrs -> NoDup addrs -> contents k addrs ds ->
  count <= Z.of_nat (length buf) ->
  exists k', vmmap_write map vaddr buf count k = Ret 0 k' /\ mem_step k k' /\
    vmmap_read map' vaddr count k' = Ret (0, take (Z.to_nat (copied vaddr count)) buf) k'.
Proof.
  intros Hwf Hwf' Hs Hva Hcount Hlim HF HF' Hnd Hc Hbuf.
  destruct (vmmap_write_run k map vaddr count buf addrs ds)
    as (k' & ds' & Hrun & Hstep & _ & Hc' & Hcat & _); [done..|].
  exists k'. split; [exact Hrun|]. split; [exact Hstep|].
  rewrite (vmmap_read_run k' map' vaddr count ds'); try done.
  - fold (copied vaddr count). rewrite Hcat.
    assert (0 <= copied vaddr count <= count) by (unfold copied; destruct (_ =? _); lia).
    pose proof (touched_room vaddr count Hva Hcount Hlim) as Hroom.
    rewrite (Forall2_length _ _ _ HF), <- (contents_length _ _ _ Hc) in Hroom.
    rewrite slice_store; [done| |lia|lia|rewrite length_take; lia].
    rewrite page_offset_spec, page_size_4k. apply Z.mod_pos_bound. lia.
  - by apply (vmmap_wf_stable _ _ (mem_step_space _ _ Hstep)).
  - eapply pages_at_data; [|exact Hc']. by apply (pages_at_stable _ _ (mem_step_space _ _ Hstep)).
Qed.

Lemma cur_vmmap_run k p pr map : curproc k = Some p -> procs k !! p = Some pr -> p_vmmap pr = Some map ->
  cur_vmmap k = Ret map k.
Proof.
  intros Hc Hp Hm. unfold cur_vmmap. rewrite bind_gets, Hc, bind_nonnull.
  by rewrite (bind_deref procs _ _ _ _ Hp), Hm.
Qed.

Lemma range_allowed k p pr map vaddr len perm :
  procs k !! p = Some pr -> p_vmmap pr = Some map -> vmmap_wf k map ->
  0 <= vaddr -> 0 < len -> vaddr + len <= 2 ^ 32 ->
  (forall i, ADDR_TO_PN vaddr <= i <= ADDR_TO_PN (vaddr + len - 1) -> allowed k map perm i) ->
  range_perm p vaddr len perm k = Ret 1 k.
Proof.
  intros Hp Hm Hwf H1 H2 H3 Hall.
  destruct (range_perm_run k p map pr Hp Hm Hwf vaddr len perm H1 H2 H3) as (r & -> & _ & Hr).
  f_equal. by apply Hr.
Qed.
(** A copy that is permitted is the copy of [vmmap_read] or [vmmap_write]. *)
Section permitted.
Context (k : kernel) (p : ptr) (pr : proc) (map : ptr) (vaddr len : Z).
Hypotheses (Hc : curproc k = Some p) (Hp : procs k !! p = Some pr) (Hm : p_vmmap pr = Some map)
  (Hwf : vmmap_wf k map) (H1 : 0 <= vaddr) (H2 : 0 < len) (H3 : vaddr + len <= 2 ^ 32).

Lemma copy_to_user_allowed buf :
  (forall i, ADDR_TO_PN vaddr <= i <= ADDR_TO_PN (vaddr + len - 1) -> allowed k map PROT_WRITE i) ->
  copy_to_user vaddr buf len k = vmmap_write map vaddr buf len k.
Proof.
  intros Hw. unfold copy_to_user. rewrite bind_gets, Hc, bind_nonnull.
  rewrite (bind_ret _ _ _ _ _ (range_allowed k p pr map vaddr len _ Hp Hm Hwf H1 H2 H3 Hw)).
  cbn [Z.eqb]. by rewrite (bind_ret _ _ _ _ _ (cur_vmmap_run k p pr map Hc Hp Hm)).
Qed.

Lemma copy_from_user_allowed :
  (forall i, ADDR_TO_PN vaddr <= i <= ADDR_TO_PN (vaddr + len - 1) -> allowed k map PROT_READ i) ->
  copy_from_user vaddr len k = vmmap_read map vaddr len k.
Proof.
  intros Hr. unfold copy_from_user. rewrite bind_gets, Hc, bind_nonnull.
  rewrite (bind_ret _ _ _ _ _ (range_allowed k p pr map vaddr len _ Hp Hm Hwf H1 H2 H3 Hr)).
  cbn [Z.eqb]. by rewrite (bind_ret _ _ _ _ _ (cur_vmmap_run k p pr map Hc Hp Hm)).
Qed.
End permitted.
End writing.
Arguments page_at {_} live k map count i addr.

(** ** Pages of anonymous and shadow objects *)
Section objects.
Context `{P : Platform, F : LoopFuel, MH : MmHeaders, VM : VnodeMm}.

Definition other_page (k : kernel) (o : ptr) (n : Z) (x : ptr) : Prop :=
  exists q, pframes k !! x = Some q /\ ~ (pf_obj q = Some o /\ pf_pagenum q = n).

Definition own_memory (k : kernel) (o : ptr) : Prop :=
  exists ob, mmobjs k !! o = Some ob /\ (mmo_ops ob = anon_mmobj_ops \/ mmo_ops ob = shadow_mmobj_ops).

(** Page [n] of [o] is resident as [pf], pinned and not busy. *)
Record hit (k : kernel) (o : ptr) (n : Z) (pf : ptr) : Prop := {
  hit_chain : exists front back, chain k (hash_page o n) = front ++ pf :: back /\ Forall (other_page k o n) front;
  hit_frame : exists p, pframes k !! pf = Some p /\ pf_obj p = Some o /\ pf_pagenum p = n /\
    pf_busy p = false /\ 0 < pf_pincount p;
  hit_own : own_memory k o;
}.

Definition miss (k : kernel) (o : ptr) (n : Z) : Prop := Forall (other_page k o n) (chain k (hash_page o n)).

(** The first object of the chain from [o] that has the page is [d] steps down. *)
Fixpoint found (d : nat) (k : kernel) (n : Z) (o pf : ptr) : Prop :=
  match d with
  | O => hit k o n pf
  | S d => miss k o n /\
      exists ob s, mmobjs k !! o = Some ob /\ mmo_shadowed ob = Some s /\ found d k n s pf
  end.

Definition object_live (k : kernel) (o : ptr) (n : Z) (pf : ptr) : Prop :=
  exists ob, mmobjs k !! o = Some ob /\
    ((mmo_ops ob = anon_mmobj_ops /\ hit k o n pf /\ (0 < loop_fuel)%nat) \/
     (mmo_ops ob = shadow_mmobj_ops /\ exists d, (d < loop_fuel)%nat /\ found d k n o pf)).

Lemma resident_loop_other k o n l l' : Forall (other_page k o n) l ->
  resident_loop (l ++ l') o n k = resident_loop l' o n k.
Proof.
  induction 1 as [|x l (q & Hq & Hne) _ IH]; [done|]. cbn [app resident_loop].
  rewrite (bind_deref pframes _ _ _ _ Hq).
  destruct (bool_decide (pf_obj q = Some o) && (pf_pagenum q =? n)) eqn:Hid; [|done].
  to_prop. by destruct Hne.
Qed.

Lemma get_resident_hit k o n pf : hit k o n pf -> pframe_get_resident o n k = Ret (Some pf) k.
Proof.
  intros [(front & back & Hch & Hfront) (p & Hp & Ho & Hn & _ & Hpin) _].
  unfold pframe_get_resident. rewrite bind_get, Hch, resident_loop_other by done.
  cbn [resident_loop]. rewrite (bind_deref pframes _ _ _ _ Hp), Hn, Z.eqb_refl, bool_decide_true by done.
  assert (pframe_is_pinned p = true) as Hp1 by (by apply Z.ltb_lt). cbn [andb]. by rewrite Hp1.
Qed.

Lemma get_resident_miss k o n : miss k o n -> pframe_get_resident o n k = Ret None k.
Proof.
  intros Hm. unfold pframe_get_resident. rewrite bind_get.
  by rewrite <- (app_nil_r (chain k _)), resident_loop_other.
Qed.

(** The consistent page cache finds every page it has. *)
Lemma cache_hit k o n pf p : cache_wf k -> pframes k !! pf = Some p -> pf_obj p = Some o ->
  pf_pagenum p = n -> pf_busy p = false -> 0 < pf_pincount p -> own_memory k o -> hit k o n pf.
Proof.
  intros Hwf Hp Ho Hn Hb Hpin Hown.
  assert (Hres : resident k o n pf) by (by exists p).
  split; [|by exists p|done]. pose proof (cw_hash k Hwf o n pf Hres) as Hin.
  apply list_elem_of_split_l in Hin as (front & back & Heq & Hfront). exists front, back.
  split; [done|]. apply Forall_forall. intros x Hx.
  destruct (cw_chain k Hwf (hash_page o n) x) as (q & o' & Hq & Ho'); [rewrite Heq; set_solver|].
  exists q. split; [done|]. intros [He1 He2].
  assert (x = pf) as ->; [|done]. apply (cw_unique k Hwf o n); [by exists q|done].
Qed.

Lemma found_hit d k n o pf : found d k n o pf -> exists o', hit k o' n pf.
Proof. revert o. induction d as [|d IH]; intros o; [by exists o|]. intros (_ & ob & s & _ & _ & Hf). by eapply IH. Qed.

Lemma chain_lookup_found d fuel k n o pf : (d < fuel)%nat -> found d k n o pf ->
  chain_lookup fuel (Some o) n k = Ret (Some pf) k.
Proof.
  revert fuel o. induction d as [|d IH]; intros [|fuel] o Hlt; try lia; cbn [chain_lookup found].
  - intros Hh. rewrite (bind_ret _ _ _ _ _ (get_resident_hit k o n pf Hh)).
    destruct (hit_frame _ _ _ _ Hh) as (p & Hp & _ & _ & Hb & _).
    rewrite (bind_deref pframes _ _ _ _ Hp), Hb. done.
  - intros (Hm & ob & s & Hob & Hsh & Hf). rewrite (bind_ret _ _ _ _ _ (get_resident_miss k o n Hm)).
    rewrite (bind_deref mmobjs _ _ _ _ Hob), Hsh. apply IH; [lia|done].
Qed.

(** None of this depends on the contents of pages or on dirty marks. *)
Section stable.
Context (k k' : kernel).
Hypothesis (Hs : same_space k k').

Lemma chain_stable h : chain k' h = chain k h.
Proof. unfold chain. by rewrite (ss_hash k k'). Qed.

Lemma other_stable o n l : Forall (other_page k o n) l -> Forall (other_page k' o n) l.
Proof.
  intros HF. eapply Forall_impl; [exact HF|]. intros x (q & Hq & Hne).
  destruct (same_space_frame k k' x q Hs Hq) as (q' & Hq' & Heq). exists q'. split; [done|].
  intros [Ho Hn]. apply Hne. by destruct q, q'; injection Heq; cbn in *; intros; subst.
Qed.

Lemma own_stable o : own_memory k o -> own_memory k' o.
Proof. unfold own_memory. by rewrite (ss_objects k k'). Qed.

Lemma hit_stable o n pf : hit k o n pf -> hit k' o n pf.
Proof.
  intros [(front & back & Hch & Hfront) (p & Hp & Ho & Hn & Hb & Hpin) Hown].
  destruct (same_space_frame k k' pf p Hs Hp) as (p' & Hp' & Heq). split.
  - exists front, back. rewrite chain_stable. split; [done|by apply other_stable].
  - exists p'. destruct p, p'; injection Heq; cbn in *; intros; subst. by split_and!.
  - by apply own_stable.
Qed.

Lemma found_stable d n o pf : found d k n o pf -> found d k' n o pf.
Proof.
  revert o. induction d as [|d IH]; intros o; cbn [found]; [apply hit_stable|].
  intros (Hm & ob & s & Hob & Hsh & Hf). split; [unfold miss; rewrite chain_stable; by apply other_stable|].
  exists ob, s. rewrite (ss_objects k k') by done. split_and!; try done. by apply IH.
Qed.
End stable.

Lemma dirty_body_run k pf p :
  dirty_body pf (k <| pframes := <[pf := p <| pf_busy := true |>]> (pframes k) |>) =
    Ret 0 (k <| pframes := <[pf := p <| pf_busy := true |> <| pf_dirty := true |>]> (pframes k) |>).
Proof.
  unfold dirty_body, pframe_set_dirty. erewrite bind_deref by apply lookup_insert_eq.
  change (pf_dirty (p <| pf_busy := true |>)) with (pf_dirty p). destruct (pf_dirty p) eqn:Hd.
  - rewrite bind_ret_l. erewrite bind_deref by apply lookup_insert_eq.
    change (pf_dirty (p <| pf_busy := true |>)) with (pf_dirty p). rewrite Hd. unfold ret.
    do 4 f_equal. destruct p. cbn in *. by subst.
  - erewrite bind_assign by apply lookup_insert_eq. erewrite bind_deref by apply lookup_insert_eq.
    simpl. unfold ret. f_equal. kernel_ext. by rewrite insert_insert_eq.
Qed.

(** The objects of the kernel satisfy the interface. *)
#[export] Instance object_pages (n : nat) : PageOps (Ops := mm_ops (S n)) object_live.
Proof.
  split.
  - intros k o i pf (ob & Hob & Hcase). cbn [mm_ops next_ops mmo_lookuppage]. unfold via.
    rewrite (bind_deref mmobjs _ _ _ _ Hob). destruct Hcase as [(-> & Hh & Hfuel)|(-> & d & Hd & Hf)].
    + unfold anon_lookuppage, pframe_get. destruct loop_fuel as [|fuel]; [lia|]. cbn [pframe_get_loop].
      rewrite (bind_ret _ _ _ _ _ (get_resident_hit k o i pf Hh)).
      destruct (hit_frame _ _ _ _ Hh) as (p & Hp & _ & _ & Hb & _).
      by rewrite (bind_deref pframes _ _ _ _ Hp), Hb.
    + unfold shadow_lookuppage. cbn [Z.eqb].
      by rewrite (bind_ret _ _ _ _ _ (chain_lookup_found d loop_fuel k i o pf Hd Hf)).
  - intros k k' o i pf (ob & Hob & Hcase) Hs. exists ob. rewrite (ss_objects k k') by done.
    split; [done|]. destruct Hcase as [(? & Hh & ?)|(? & d & ? & Hf)].
    + left. split_and!; try done. by apply (hit_stable k).
    + right. split; [done|]. exists d. split; [done|]. by apply (found_stable k).
  - intros k o i pf (ob & _ & Hcase).
    assert (exists o', hit k o' i pf) as (o' & Hh).
    { destruct Hcase as [(_ & ? & _)|(_ & d & _ & Hf)]; [eauto|by eapply found_hit]. }
    destruct (hit_frame _ _ _ _ Hh) as (p & ? & ? & _ & ? & _). eauto.
  - intros k o i pf p o' (ob & _ & Hcase) Hp Ho.
    assert (Hown : own_memory k o').
    { assert (exists o1, hit k o1 i pf) as (o1 & [_ (p1 & Hp1 & Ho1 & _) Hown]).
      { destruct Hcase as [(_ & ? & _)|(_ & d & _ & Hf)]; [eauto|by eapply found_hit]. }
      by simplify_eq. }
    destruct Hown as (ob' & Hob' & Hops). cbn [mm_ops next_ops mmo_dirtypage]. unfold via.
    erewrite bind_deref by exact Hob'. destruct Hops as [-> | ->]; apply dirty_body_run.
Qed.
End objects.

(** ** Properties *)
Section properties.
Context `{PO : PlatformOk, F : LoopFuel, MH : MmHeaders, PG : PageOps}.

(** C14: [vmmap_write] to resident memory succeeds without blocking and stores the bytes in order
    into the pages of the range, the last one missing when the range crosses a page boundary; no
    other page of the machine changes, nor anything but dirty marks and the threads it wakes. *)
Theorem vmmap_write_spec k map vaddr count buf addrs ds :
  vmmap_wf k map -> sched_wf k -> 0 <= vaddr -> 0 < count -> vaddr + count <= 2 ^ 32 ->
  Forall2 (page_at live k map count) (touched vaddr count) addrs -> NoDup addrs -> contents k addrs ds ->
  count <= Z.of_nat (length buf) ->
  exists k' ds', vmmap_write map vaddr buf count k = Ret 0 k' /\ mem_step k k' /\ sched_wf k' /\
    contents k' addrs ds' /\
    concat ds' = mem_store (PAGE_OFFSET vaddr) (take (Z.to_nat (copied vaddr count)) buf) (concat ds) /\
    (forall a, a ∉ addrs -> pages k' !! a = pages k !! a).
Proof. apply vmmap_write_run. Qed.

(** C11: bytes that [copy_to_user] stored in resident memory of the current process, which allows
    writing and reading, are those that [copy_from_user] then brings back (but for the last one of a
    range over a page boundary); without the permission to write, [copy_to_user] changes nothing
    and returns -EFAULT. *)
Theorem user_copy_roundtrip k p pr map vaddr count buf addrs ds :
  curproc k = Some p -> procs k !! p = Some pr -> p_vmmap pr = Some map ->
  vmmap_wf k map -> sched_wf k -> 0 <= vaddr -> 0 < count -> vaddr + count <= 2 ^ 32 ->
  Forall2 (page_at live k map count) (touched vaddr count) addrs -> NoDup addrs -> contents k addrs ds ->
  count <= Z.of_nat (length buf) ->
  let range perm := forall i, ADDR_TO_PN vaddr <= i <= ADDR_TO_PN (vaddr + count - 1) -> allowed k map perm i in
  (range PROT_WRITE -> range PROT_READ -> exists k', copy_to_user vaddr buf count k = Ret 0 k' /\
     copy_from_user vaddr count k' = Ret (0, take (Z.to_nat (copied vaddr count)) buf) k') /\
  (~ range PROT_WRITE -> copy_to_user vaddr buf count k = Ret (- EFAULT) k).
Proof.
  intros Hc Hp Hm Hwf Hs H1 H2 H3 HF Hnd Hcont Hbuf range. split.
  - intros Hw Hr.
    destruct (write_read_run k map map vaddr count buf addrs ds) as (k' & Hrun & Hstep & Hread); [done..|].
    assert (Hc' : curproc k' = Some p) by (by rewrite (mem_step_same curproc k k')).
    assert (Hp' : procs k' !! p = Some pr) by (by rewrite (mem_step_same procs k k')).
    exists k'. split.
    + by rewrite (copy_to_user_allowed k p pr map).
    + rewrite (copy_from_user_allowed k' p pr map); try done.
      * by apply (vmmap_wf_stable _ _ (mem_step_space _ _ Hstep)).
      * intros i Hi. by apply (allowed_stable _ _ (mem_step_space _ _ Hstep)), Hr.
  - intros Hno. unfold copy_to_user. rewrite bind_gets, Hc, bind_nonnull.
    destruct (range_perm_run k p map pr Hp Hm Hwf vaddr count PROT_WRITE H1 H2 H3) as (r & Hrun & Hr01 & Hr).
    rewrite (bind_ret _ _ _ _ _ Hrun). destruct Hr01 as [-> | ->]; [done|]. destruct (Hno (proj1 Hr eq_refl)).
Qed.
End properties.

(** Page [i] of the address space belongs to a private area whose own object does not have it:
    it is still the page [n] of the object [b] below, as fork leaves it. *)
Section copy_on_write.
Context `{PO : PlatformOk, F : LoopFuel, MH : MmHeaders, VM : VnodeMm}.

Definition still_shared (k : kernel) (map : ptr) (i : Z) (b : ptr) (n : Z) : Prop :=
  exists a v s sob, mapped k map i a /\ vmareas k !! a = Some v /\ vma_obj v = Some s /\
    uint32 (vma_off v + (i - vma_start v)) = n /\ mmobjs k !! s = Some sob /\
    mmo_ops sob = shadow_mmobj_ops /\ mmo_shadowed sob = Some b /\ miss k s n.

Lemma shared_at k map i b n pf p count : still_shared k map i b n -> hit k b n pf ->
  pframes k !! pf = Some p -> Zpos (pf_addr p) + PAGE_SIZE + count < 2 ^ 32 -> (1 < loop_fuel)%nat ->
  page_at object_live k map count i (pf_addr p).
Proof.
  intros (a & v & s & sob & Hm & Hv & Ho & Hn & Hs & Hops & Hsh & Hmiss) Hh Hp Hlim Hfuel.
  exists a, v, s, pf, p. split_and!; try done. exists sob. split; [done|]. right. split; [done|].
  exists 1%nat. split; [done|]. rewrite Hn. split; [done|]. by exists sob, b.
Qed.

(** C34: fork leaves the private pages of parent and child in the object below both; [vmmap_write]
    asks for them as if it only read, so that what it stores for one process is seen by the other. *)
Theorem vmmap_write_breaks_cow n0 k map map' vaddr count buf b n pf p d :
  vmmap_wf k map -> vmmap_wf k map' -> sched_wf k -> (1 < loop_fuel)%nat ->
  0 <= vaddr -> 0 < count -> vaddr + count <= 2 ^ 32 ->
  ADDR_TO_PN (vaddr + count - 1) = ADDR_TO_PN vaddr ->
  still_shared k map (ADDR_TO_PN vaddr) b n -> still_shared k map' (ADDR_TO_PN vaddr) b n ->
  hit k b n pf -> pframes k !! pf = Some p -> pages k !! pf_addr p = Some d ->
  Z.of_nat (length d) = PAGE_SIZE -> Zpos (pf_addr p) + PAGE_SIZE + count < 2 ^ 32 ->
  count <= Z.of_nat (length buf) ->
  exists k', vmmap_write (Ops := mm_ops (S n0)) map vaddr buf count k = Ret 0 k' /\
    vmmap_read (Ops := mm_ops (S n0)) map' vaddr count k' = Ret (0, take (Z.to_nat count) buf) k'.
Proof.
  intros Hwf Hwf' Hs Hfuel H1 H2 H3 Hone Hsh Hsh' Hh Hp Hd Hlen Hlim Hbuf.
  assert (Ht : touched vaddr count = [ADDR_TO_PN vaddr]).
  { unfold touched, last_address. rewrite uint32_small by lia. rewrite Hone.
    replace (_ - _ + 1) with 1 by lia. done. }
  destruct (write_read_run (live := object_live) (Ops := mm_ops (S n0)) k map map' vaddr count buf [pf_addr p] [d])
    as (k' & Hrun & _ & Hread); rewrite ?Ht; try done.
  - repeat constructor. by eapply shared_at.
  - repeat constructor. by eapply shared_at.
  - apply NoDup_singleton.
  - by repeat constructor.
  - exists k'. split; [exact Hrun|]. rewrite Hread. unfold copied. by rewrite Hone, Z.eqb_refl.
Qed.
End copy_on_write.

(** ** The properties at concrete states *)
Module Witness.
Import Vmmap.Witness.
#[local] Instance fuel : LoopFuel := 10%nat.
#[local] Instance no_vnodes : VnodeMm := {|
  vo_vref _ := no_fuel; vo_vput _ _ := no_fuel; vlookuppage _ _ _ _ := no_fuel;
  vreadpage _ _ := no_fuel; vdirtypage _ _ := no_fuel; vcleanpage _ _ := no_fuel |}.

(** Address space 1 maps the anonymous object 1; after a fork address spaces 2 and 3 map the shadow
    objects 2 and 3 above it.  Two pages of object 1 are resident. *)
Definition frame (n : Z) (addr : ptr) : pframe := {|
  pf_obj := Some 1%positive; pf_pagenum := n; pf_addr := addr; pf_busy := false; pf_dirty := false;
  pf_pincount := 1; pf_link := Some PinnedList; pf_hlink := Some (n + 1); pf_olink := Some 1%positive |}.
Definition shadow : mmobj :=
  (new_mmobj shadow_mmobj_ops (MmoBottom (Some 1%positive))) <| mmo_shadowed := Some 1%positive |>.
Definition space (m : ptr) : vmarea := area 1024 1040 0 (Some m) (Some m) 2.

Definition shared_vm : kernel :=
  boot <| vmmaps := {[ 1%positive := {| vmm_list := [1%positive]; vmm_proc := None |};
                       2%positive := {| vmm_list := [2%positive]; vmm_proc := None |};
                       3%positive := {| vmm_list := [3%positive]; vmm_proc := None |} ]} |>
       <| vmareas := {[ 1%positive := space 1; 2%positive := space 2; 3%positive := space 3 ]} |>
       <| mmobjs := {[ 1%positive := new_mmobj anon_mmobj_ops (MmoVmas []);
                       2%positive := shadow; 3%positive := shadow ]} |>
       <| pframes := {[ 1%positive := frame 0 1; 2%positive := frame 1 2 ]} |>
       <| pages := {[ 1%positive := replicate 4096 5; 2%positive := replicate 4096 6 ]} |>
       <| pframe_hash := {[ 1 := [1%positive]; 2 := [2%positive] ]} |>
       <| procs := {[ 1%positive := vm_proc ]} |> <| curproc := Some 1%positive |>.

Lemma shared_wf m : m ∈ [1%positive; 2%positive; 3%positive] -> vmmap_wf shared_vm m.
Proof.
  intros Hm. exists [m], [space m]. rewrite !elem_of_cons, elem_of_nil in Hm.
  assert (sorted_areas [space m]) as Hs.
  { split; [|by repeat constructor]. apply Forall_singleton. by split_and!. }
  destruct Hm as [->|[->|[->|[]]]]; (split; [by eexists|by repeat constructor|apply NoDup_singleton|by repeat constructor|exact Hs]).
Qed.

Lemma shared_sched : sched_wf shared_vm.
Proof. apply sched_wf_checked. apply (bool_decide_unpack _). vm_compute. exact I. Qed.

Lemma shared_mapped m i : m ∈ [1%positive; 2%positive; 3%positive] -> 1024 <= i < 1040 -> mapped shared_vm m i m.
Proof.
  intros Hm Hi. rewrite !elem_of_cons, elem_of_nil in Hm.
  destruct Hm as [->|[->|[->|[]]]]; (eexists _, (space _); split_and!; [reflexivity|by left|reflexivity|apply Hi..]).
Qed.

Lemma shared_hit n pf : (n, pf) ∈ [(0, 1%positive); (1, 2%positive)] -> hit shared_vm 1 n pf.
Proof.
  intros Hn. rewrite !elem_of_cons, elem_of_nil in Hn. destruct Hn as [[= -> ->]|[[= -> ->]|[]]].
  - split; [by exists [], []|by exists (frame 0 1)|]. eexists. split; [reflexivity|by left].
  - split; [by exists [], []|by exists (frame 1 2)|]. eexists. split; [reflexivity|by left].
Qed.

Lemma shared_pages :
  Forall2 (page_at object_live shared_vm 1 10) (touched (1024 * 4096 + 4090) 10) [1%positive; 2%positive].
Proof.
  change (touched (1024 * 4096 + 4090) 10) with [1024; 1025].
  assert (forall i n pf, i = 1024 + n -> (n, pf) ∈ [(0, 1%positive); (1, 2%positive)] ->
    pframes shared_vm !! pf = Some (frame n pf) -> page_at object_live shared_vm 1 10 i pf) as Hat.
  { intros i n pf -> Hn Hpf. exists 1%positive, (space 1), 1%positive, pf, (frame n pf).
    assert (0 <= n <= 1) by (rewrite !elem_of_cons, elem_of_nil in Hn; naive_solver lia).
    split_and!; try done.
    - apply shared_mapped; [by left|lia].
    - eexists. split; [reflexivity|]. left. split_and!; [done| |by vm_compute; lia].
      cbn [vma_off vma_start space area]. rewrite uint32_small by lia.
      replace (0 + (1024 + n - 1024)) with n by lia. by apply shared_hit.
    - cbn. rewrite !elem_of_cons, elem_of_nil in Hn. naive_solver lia. }
  repeat constructor; [apply (Hat 1024 0)|apply (Hat 1025 1)]; try done; set_solver.
Qed.

Lemma shared_contents :
  contents shared_vm [1%positive; 2%positive] [replicate 4096 5; replicate 4096 6].
Proof. by repeat constructor. Qed.

Lemma two_pages : NoDup [1%positive; 2%positive].
Proof. apply (bool_decide_unpack _). vm_compute. exact I. Qed.

(** Ten bytes to the end of the first page: six and three of them are stored. *)
Lemma vmmap_write_spec_witness :
  exists k', vmmap_write (Ops := mm_ops 1) 1 (1024 * 4096 + 4090) [1; 2; 3; 4; 5; 6; 7; 8; 9; 10] 10 shared_vm
      = Ret 0 k' /\
    pages k' !! 2%positive = Some ([7; 8; 9] ++ replicate 4093 6).
Proof.
  destruct (vmmap_write_spec (Ops := mm_ops 1) (PG := object_pages 0) shared_vm 1 (1024 * 4096 + 4090) 10
    [1; 2; 3; 4; 5; 6; 7; 8; 9; 10] [1%positive; 2%positive] [replicate 4096 5; replicate 4096 6])
    as (k' & ds' & Hrun & _ & _ & Hc & Hcat & _).
  - apply shared_wf. by left.
  - apply shared_sched.
  - lia.
  - lia.
  - lia.
  - apply shared_pages.
  - apply two_pages.
  - apply shared_contents.
  - cbn. lia.
  - exists k'. split; [exact Hrun|].
    apply Forall2_cons_inv_l in Hc as (d1 & ds1 & (_ & Hl1) & Hc & ->).
    apply Forall2_cons_inv_l in Hc as (d2 & ds2 & (Hd2 & _) & Hc & ->).
    apply Forall2_nil_inv_l in Hc as ->. rewrite Hd2. f_equal.
    apply (f_equal (drop 4096)) in Hcat. cbn [concat] in Hcat.
    change (Z.of_nat (length d1) = 4096) in Hl1.
    rewrite drop_app_ge in Hcat by lia. replace (4096 - length d1)%nat with 0%nat in Hcat by lia.
    rewrite drop_0, app_nil_r in Hcat. rewrite Hcat. vm_compute. reflexivity.
Defined.

Lemma user_copy_roundtrip_witness :
  exists k', copy_to_user (Ops := mm_ops 1) (1024 * 4096 + 4090) [1; 2; 3; 4; 5; 6; 7; 8; 9; 10] 10 shared_vm
      = Ret 0 k' /\
    copy_from_user (Ops := mm_ops 1) (1024 * 4096 + 4090) 10 k' = Ret (0, [1; 2; 3; 4; 5; 6; 7; 8; 9]) k'.
Proof.
  destruct (user_copy_roundtrip (Ops := mm_ops 1) (PG := object_pages 0) shared_vm 1 vm_proc 1 (1024 * 4096 + 4090) 10
    [1; 2; 3; 4; 5; 6; 7; 8; 9; 10] [1%positive; 2%positive] [replicate 4096 5; replicate 4096 6])
    as [Hok _].
  - reflexivity.
  - reflexivity.
  - reflexivity.
  - apply shared_wf. by left.
  - apply shared_sched.
  - lia.
  - lia.
  - lia.
  - apply shared_pages.
  - apply two_pages.
  - apply shared_contents.
  - cbn. lia.
  - apply Hok; intros i Hi; exists 1%positive, (space 1); (split_and!; try done);
      apply shared_mapped; try (by left); change (1024 <= i <= 1025) in Hi; lia.
Defined.

Lemma shared_still m : m ∈ [2%positive; 3%positive] -> still_shared shared_vm m 1024 1 0.
Proof.
  intros Hm. exists m, (space m), m, shadow.
  assert (mapped shared_vm m 1024 m) by (apply shared_mapped; [by right|lia]).
  rewrite !elem_of_cons, elem_of_nil in Hm. destruct Hm as [->|[->|[]]]; split_and!; try done.
  - apply Forall_singleton. exists (frame 1 2). split; [done|]. by intros [_ [=]].
  - apply Forall_nil. done.
Qed.

(** The bytes stored for the process with address space 2 appear in address space 3. *)
Lemma vmmap_write_breaks_cow_witness :
  exists k', vmmap_write (Ops := mm_ops 1) 2 (1024 * 4096) [1; 2; 3] 3 shared_vm = Ret 0 k' /\
    vmmap_read (Ops := mm_ops 1) 3 (1024 * 4096) 3 k' = Ret (0, [1; 2; 3]) k'.
Proof.
  apply (vmmap_write_breaks_cow 0 shared_vm 2 3 (1024 * 4096) 3 [1; 2; 3] 1 0 1 (frame 0 1) (replicate 4096 5)).
  - apply shared_wf. set_solver.
  - apply shared_wf. set_solver.
  - apply shared_sched.
  - vm_compute. lia.
  - lia.
  - lia.
  - lia.
  - reflexivity.
  - apply shared_still. by left.
  - apply shared_still. set_solver.
  - apply shared_hit. by left.
  - reflexivity.
  - reflexivity.
  - reflexivity.
  - reflexivity.
  - cbn. lia.
Defined.
End Witness.
