(* ===== verification/PageGet.v ===== *)
(** * PageGet

    Bringing pages in: [pframe_get], [pframe_alloc] and [pframe_fill] of [kernel/mm/pframe.c] with
    the objects of [kernel/vm/anon.c].  A page that is resident is found; any other gets a new frame,
    which joins the cache and is filled by its object.  Two cases in which the cache ends up wrong
    are proved as such: a page that could not be filled stays in the cache, and a page that was
    brought in by another thread while this one waited for memory gets a second frame. *)

From S2P Require Import Prelude Platform State Sched Mmobj Pframe Anon.

(** The state in the goal, member by member. *)
Ltac compact := match goal with |- _ ?k = _ => let k' := eval cbn in k in change k with k' end.

(** ** The cache with a new page *)
Section adding.
Context `{PO : PlatformOk}.

Definition new_frame (o : ptr) (n : Z) (addr : ptr) : pframe := {|
  pf_obj := Some o; pf_pagenum := n; pf_addr := addr; pf_busy := false; pf_dirty := false;
  pf_pincount := 0; pf_link := Some AllocList; pf_hlink := Some (hash_page o n); pf_olink := Some o |}.

(** [pf], with the physical page [addr], holds page [n] of [o]; two requests for memory were made. *)
Definition added (pf addr o : ptr) (n : Z) (ob : mmobj) (k : kernel) : kernel :=
  k <| alloc_count := S (S (alloc_count k)) |>
    <| pframes := <[pf := new_frame o n addr]> (pframes k) |>
    <| pages := <[addr := page_content (S (alloc_count k))]> (pages k) |>
    <| nallocated ::= Z.succ |> <| alloc_list ::= fun l => l ++ [pf] |>
    <| queues := <[PframeWait pf := empty_ktqueue]> (queues k) |>
    <| pframe_hash := <[hash_page o n := pf :: chain k (hash_page o n)]> (pframe_hash k) |>
    <| mmobjs := <[o := ob <| mmo_refcount ::= Z.succ |> <| mmo_nrespages ::= Z.succ |>
                           <| mmo_respages ::= cons pf |>]> (mmobjs k) |>.

Lemma added_lists k pf addr o n ob : lists_wf k -> pframes k !! pf = None -> lists_wf (added pf addr o n ob k).
Proof.
  intros Hwf Hpf. assert (Hni : forall l, pf ∉ on_list k l).
  { intros l Hin. by destruct (lw_live k Hwf l pf Hin) as [? ?]; simplify_eq. }
  assert (Hon : forall l x, x ∈ on_list (added pf addr o n ob k) l <->
    x ∈ on_list k l \/ (l = AllocList /\ x = pf)).
  { intros [] x; simpl; [rewrite elem_of_app, list_elem_of_singleton|]; naive_solver. }
  split.
  - simpl. rewrite (lw_nalloc k Hwf), length_app. simpl. lia.
  - apply Hwf.
  - intros []; simpl; [|apply (lw_nodup k Hwf PinnedList)]. apply NoDup_app. split_and!.
    + apply (lw_nodup k Hwf AllocList).
    + intros x Hx ->%list_elem_of_singleton. by apply (Hni AllocList).
    + apply NoDup_singleton.
  - intros l x [Hx|[_ ->]]%Hon; simpl; [|by rewrite lookup_insert_eq].
    rewrite lookup_insert_ne by (intros ->; by apply (Hni l)). by apply (lw_live k Hwf l).
  - intros l x q. rewrite Hon. simpl. destruct (decide (x = pf)) as [->|Hne].
    + rewrite lookup_insert_eq. intros [= <-]. simpl. split; [intros [= <-]; by right|].
      intros [Hx|[-> _]]; [by apply Hni in Hx|done].
    + rewrite lookup_insert_ne by done. intros Hq. rewrite (lw_mem k Hwf l x q Hq). naive_solver.
  - intros x q. simpl. destruct (decide (x = pf)) as [->|Hne].
    + rewrite lookup_insert_eq. by intros [= <-].
    + rewrite lookup_insert_ne by done. apply (lw_pin k Hwf).
Qed.

Lemma added_resident k pf addr o n ob o' n' x : pframes k !! pf = None ->
  resident (added pf addr o n ob k) o' n' x <-> resident k o' n' x \/ (x = pf /\ o' = o /\ n' = n).
Proof.
  intros Hpf. unfold resident. simpl. destruct (decide (x = pf)) as [->|Hne].
  - rewrite lookup_insert_eq, Hpf. split; [|naive_solver]. intros (p & [= <-] & [= ->] & <-). by right.
  - rewrite lookup_insert_ne by done. naive_solver.
Qed.

(** The cache stays consistent when the page was not resident. *)
Lemma added_wf k pf addr o n ob : cache_wf k -> pframes k !! pf = None ->
  (forall x, ~ resident k o n x) -> cache_wf (added pf addr o n ob k).
Proof.
  intros [Hlists Hchain Hhash Huniq] Hpf Hno.
  assert (Hch : forall h x, x ∈ chain (added pf addr o n ob k) h <->
    x ∈ chain k h \/ (x = pf /\ h = hash_page o n)).
  { intros h x. unfold chain at 1. simpl. destruct (decide (h = hash_page o n)) as [->|Hne].
    - rewrite lookup_insert_eq. simpl. rewrite elem_of_cons. naive_solver.
    - rewrite lookup_insert_ne by done. fold (chain k h). naive_solver. }
  split.
  - by apply added_lists.
  - intros h x [Hx|[-> _]]%Hch; simpl.
    + destruct (Hchain h x Hx) as (p & o' & Hp & Ho). exists p, o'. split; [|done].
      rewrite lookup_insert_ne; [done|]. congruence.
    + eexists _, o. by rewrite lookup_insert_eq.
  - intros o' n' x Hx. apply Hch. apply added_resident in Hx as [Hx|(-> & -> & ->)]; [left; by apply Hhash|by right|done].
  - intros o' n' x y Hx Hy. apply added_resident in Hx; [|done]. apply added_resident in Hy; [|done].
    destruct Hx as [Hx|(? & ? & ?)], Hy as [Hy|(? & ? & ?)]; subst; try done.
    + by eapply Huniq.
    + by apply Hno in Hx.
    + by apply Hno in Hy.
Qed.

Lemma cache_wf_ext k k' : cache_wf k -> pframes k' = pframes k -> pframe_hash k' = pframe_hash k ->
  alloc_list k' = alloc_list k -> pinned_list k' = pinned_list k -> nallocated k' = nallocated k ->
  npinned k' = npinned k -> cache_wf k'.
Proof.
  intros [[] ] E1 E2 E3 E4 E5 E6. split; [split|..]; unfold on_list, chain, resident in *;
    rewrite ?E1, ?E2, ?E3, ?E4, ?E5, ?E6; done.
Qed.

Lemma cache_wf_frame k k' : cache_wf k -> sched_frame k k' -> cache_wf k'.
Proof. intros Hwf Hfr. apply (cache_wf_ext k); [done|..]; by rewrite <- Hfr. Qed.

(** The cache does not depend on the marks of its frames. *)
Lemma remark_wf k pf p p' : cache_wf k -> pframes k !! pf = Some p ->
  pf_obj p' = pf_obj p -> pf_pagenum p' = pf_pagenum p -> pf_link p' = pf_link p ->
  pf_pincount p' = pf_pincount p ->
  cache_wf (k <| pframes := <[pf := p']> (pframes k) |>).
Proof.
  intros [[L1 L2 L3 L4 L5 L6] Hchain Hhash Huniq] Hp Ho Hn Hl Hc.
  assert (Hlook : forall x q, <[pf := p']> (pframes k) !! x = Some q -> exists q0, pframes k !! x = Some q0 /\
    pf_obj q = pf_obj q0 /\ pf_pagenum q = pf_pagenum q0 /\ pf_link q = pf_link q0 /\ pf_pincount q = pf_pincount q0).
  { intros x q. destruct (decide (x = pf)) as [->|].
    - rewrite lookup_insert_eq. intros [= <-]. by exists p.
    - rewrite lookup_insert_ne by done. intros Hq. by exists q. }
  assert (Hlive : forall x, is_Some (pframes k !! x) -> is_Some (<[pf := p']> (pframes k) !! x))
    by (intros x Hx; apply lookup_insert_is_Some'; by right).
  assert (Hres : forall o n x, resident (k <| pframes := <[pf := p']> (pframes k) |>) o n x -> resident k o n x).
  { intros o n x (q & (q0 & Hq0 & E1 & E2 & _)%Hlook & Hqo & Hqn). exists q0. split_and!; congruence. }
  split; [split|..]; simpl; try done.
  - intros l x Hx. by apply Hlive, (L4 l).
  - intros l x q (q0 & Hq0 & _ & _ & -> & _)%Hlook. by apply L5.
  - intros x q (q0 & Hq0 & _ & _ & Hlq & Hcq)%Hlook. unfold pframe_is_pinned. rewrite Hlq, Hcq. by apply (L6 x q0).
  - intros h x Hx. destruct (Hchain h x Hx) as (q & o & Hq & Hqo). destruct (decide (x = pf)) as [->|].
    + rewrite lookup_insert_eq. exists p', o. split; [done|]. congruence.
    + rewrite lookup_insert_ne by done. eauto.
  - intros o n x Hx%Hres. by apply Hhash.
  - intros o n x y Hx%Hres Hy%Hres. by eapply Huniq.
Qed.

(** Nor on the list a page is on, as long as the lists are consistent. *)
Lemma moved_cache_wf k pf p l m : cache_wf k -> pframes k !! pf = Some p ->
  lists_wf (moved pf p l m k) -> cache_wf (moved pf p l m k).
Proof.
  intros [_ Hchain Hhash Huniq] Hp Hl.
  assert (Hres : forall o n x, resident (moved pf p l m k) o n x -> resident k o n x).
  { intros o n x (q & Hq & Ho & Hn). simpl in Hq. destruct (decide (x = pf)) as [->|].
    - rewrite lookup_insert_eq in Hq. injection Hq as <-. by exists p.
    - rewrite lookup_insert_ne in Hq by done. by exists q. }
  split; [done|..].
  - intros h x Hx. destruct (Hchain h x Hx) as (q & o & Hq & Hqo). simpl. destruct (decide (x = pf)) as [->|].
    + rewrite lookup_insert_eq. eexists _, o. split; [done|]. simpl. congruence.
    + rewrite lookup_insert_ne by done. eauto.
  - intros o n x Hx%Hres. by apply Hhash.
  - intros o n x y Hx%Hres Hy%Hres. by eapply Huniq.
Qed.
End adding.

(** ** Allocating *)
Section alloc.
Context `{PO : PlatformOk, F : LoopFuel, Ops : MmobjOps, MH : MmHeaders}.

(** A reference to the object, whose members are [ob], is counted. *)
Definition counts_ref (o : ptr) (ob : mmobj) : Prop :=
  forall k, mmobjs k !! o = Some ob ->
    mmo_ref o k = Ret tt (k <| mmobjs := <[o := ob <| mmo_refcount ::= Z.succ |>]> (mmobjs k) |>).

Lemma bind_page_alloc {B} k addr (f : option ptr -> K B) :
  page_alloc_n (alloc_count k) (dom (pages k)) = Some addr ->
  bind page_alloc f k = f (Some addr) (k <| alloc_count ::= S |>
    <| pages := <[addr := page_content (alloc_count k)]> (pages k) |>).
Proof. intros Ha. unfold page_alloc, bind. rewrite Ha. done. Qed.

Lemma hlink_insert_run k h pf p : pframes k !! pf = Some p -> pf_hlink p = None ->
  hlink_insert_head h pf k = Ret tt (k <| pframe_hash := <[h := pf :: chain k h]> (pframe_hash k) |>
    <| pframes := <[pf := p <| pf_hlink := Some h |>]> (pframes k) |>).
Proof.
  intros Hp Hh. unfold hlink_insert_head. rewrite (bind_deref pframes _ _ _ _ Hp), Hh, bind_modify.
  by rewrite (assign_Some pframes _ p).
Qed.

Lemma respages_insert_run k o pf p ob : pframes k !! pf = Some p -> pf_olink p = None -> mmobjs k !! o = Some ob ->
  respages_insert_head o pf k = Ret tt (k <| mmobjs := <[o := ob <| mmo_respages ::= cons pf |>]> (mmobjs k) |>
    <| pframes := <[pf := p <| pf_olink := Some o |>]> (pframes k) |>).
Proof.
  intros Hp Hl Ho. unfold respages_insert_head. rewrite (bind_deref pframes _ _ _ _ Hp), Hl.
  rewrite (bind_assign mmobjs _ _ _ _ _ Ho). by rewrite (assign_Some pframes _ p).
Qed.

Lemma alloc_run k o n ob pf addr : mmobjs k !! o = Some ob -> counts_ref o ob ->
  slab_obj_alloc (alloc_count k) (dom (pframes k)) = Some pf ->
  page_alloc_n (S (alloc_count k)) (dom (pages k)) = Some addr ->
  pframe_alloc o n k = Ret (Some pf) (added pf addr o n ob k).
Proof.
  intros Ho Href Hpf Ha. unfold pframe_alloc. rewrite bind_slab_alloc, Hpf, bind_init_obj.
  rewrite (bind_page_alloc _ addr) by exact Ha.
  compact. kstep. kstep. compact. erewrite bind_ret by (apply pf_link_insert_run; [lookup_solve|reflexivity]).
  compact. kstep. rewrite bind_queue_init. compact. kstep. compact.
  erewrite bind_ret by (apply hlink_insert_run; [lookup_solve|reflexivity]). compact.
  erewrite bind_ret by (apply Href; exact Ho). compact. kstep. compact.
  erewrite bind_ret by (apply respages_insert_run; [lookup_solve|reflexivity|lookup_solve]). compact.
  unfold ret. rewrite !insert_insert_eq. reflexivity.
Qed.

(** Without memory for the frame or for the page nothing is added. *)
Lemma alloc_fails k o n :
  slab_obj_alloc (alloc_count k) (dom (pframes k)) = None \/
  (is_Some (slab_obj_alloc (alloc_count k) (dom (pframes k))) /\
   page_alloc_n (S (alloc_count k)) (dom (pages k)) = None) ->
  exists c, pframe_alloc o n k = Ret None (k <| alloc_count := c |>).
Proof.
  unfold pframe_alloc. rewrite bind_slab_alloc. intros [->|[[pf Hpf] Ha]]; [by eexists|].
  rewrite Hpf, bind_init_obj. exists (S (S (alloc_count k))).
  apply slab_obj_alloc_fresh, not_elem_of_dom in Hpf. unfold page_alloc, bind at 1. simpl. rewrite Ha. simpl.
  erewrite bind_slab_free by lookup_solve. unfold ret. f_equal. kernel_ext. by apply delete_insert_id.
Qed.
End alloc.

(** ** Pages of anonymous objects *)
Section anonymous.
Context `{PO : PlatformOk, F : LoopFuel, MHO : MmHeadersOk, VM : VnodeMm}.
Context (d : nat).
#[local] Instance anon_ops : MmobjOps := mm_ops (S d).

Definition anonymous (ob : mmobj) : Prop := mmo_ops ob = anon_mmobj_ops /\ 0 < mmo_refcount ob.

Lemma anon_counts o ob : anonymous ob -> counts_ref o ob.
Proof.
  intros [Hops Hr] k Ho. cbn [mmo_ref anon_ops mm_ops next_ops]. unfold via.
  rewrite (bind_deref mmobjs _ _ _ _ Ho), Hops. unfold anon_ref, ref_body.
  rewrite (bind_deref mmobjs _ _ _ _ Ho), Hops. rewrite bind_KASSERT; [by apply assign_Some|].
  apply andb_true_iff. split; [by apply Z.ltb_lt|by apply bool_decide_eq_true].
Qed.

Definition zero_page : list Z := replicate (Z.to_nat PAGE_SIZE) 0.

(** Filling the page: it is zeroed and pinned. *)
Lemma anon_fillpage_run k pf p o ob : cache_wf k -> pframes k !! pf = Some p -> pf_obj p = Some o ->
  pf_pincount p = 0 -> pf_busy p = true -> is_Some (pages k !! pf_addr p) ->
  mmobjs k !! o = Some ob -> anonymous ob ->
  let k' := moved pf p PinnedList 1 (k <| pages := <[pf_addr p := zero_page]> (pages k) |>) in
  mmo_fillpage o pf k = Ret 0 k' /\ cache_wf k'.
Proof.
  intros Hwf Hp Ho Hpin Hb [data Hd] Hob [Hops _] k'.
  set (k1 := k <| pages := <[pf_addr p := zero_page]> (pages k) |>) in *.
  assert (Hwf1 : cache_wf k1) by (by apply (cache_wf_ext k)).
  assert (Hnp : pframe_is_pinned p = false) by (unfold pframe_is_pinned; by rewrite Hpin).
  split.
  - cbn [mmo_fillpage anon_ops mm_ops next_ops]. unfold via. rewrite (bind_deref mmobjs _ _ _ _ Hob), Hops.
    unfold anon_fillpage. rewrite (bind_deref pframes _ _ _ _ Hp), !bind_KASSERT by (by rewrite ?Hnp).
    rewrite (bind_assign pages _ _ _ _ _ Hd).
    assert (Hrun : pframe_pin pf k1 = Ret tt k').
    { pose proof (pin_run (cw_lists k1 Hwf1) Hp ltac:(congruence)) as Hrun. by rewrite Hnp in Hrun. }
    by rewrite (bind_ret _ _ _ _ _ Hrun).
  - apply moved_cache_wf; [done..|]. by apply (moved_wf (cw_lists k1 Hwf1) Hp).
Qed.

Lemma anon_fill_run k pf p o ob : cache_wf k -> sched_wf k -> pframes k !! pf = Some p -> pf_obj p = Some o ->
  pf_pincount p = 0 -> pf_busy p = false -> is_Some (pages k !! pf_addr p) ->
  mmobjs k !! o = Some ob -> anonymous ob ->
  exists k' p', pframe_fill pf k = Ret 0 k' /\ cache_wf k' /\ sched_wf k' /\
    pframes k' = <[pf := p']> (pframes k) /\ pf_obj p' = Some o /\ pf_pagenum p' = pf_pagenum p /\
    pf_addr p' = pf_addr p /\ pf_busy p' = false /\ pf_pincount p' = 1 /\
    pages k' = <[pf_addr p := zero_page]> (pages k) /\ mmobjs k' = mmobjs k.
Proof.
  intros Hwf Hs Hp Ho Hpin Hb Hd Hob Hanon.
  set (pb := p <| pf_busy := true |>). set (k1 := k <| pframes := <[pf := pb]> (pframes k) |>).
  assert (Hp1 : pframes k1 !! pf = Some pb) by apply lookup_insert_eq.
  destruct (anon_fillpage_run k1 pf pb o ob) as [Hfill Hwf2]; try done; [by apply (remark_wf k pf p)|].
  set (k2 := moved pf pb PinnedList 1 _) in *.
  set (p2 := pb <| pf_link := Some PinnedList |> <| pf_pincount := 1 |>).
  assert (Hp2 : pframes k2 !! pf = Some p2) by apply lookup_insert_eq.
  set (k3 := k2 <| pframes := <[pf := p2 <| pf_busy := false |>]> (pframes k2) |>).
  assert (Hwf3 : cache_wf k3) by (by apply (remark_wf k2 pf p2)).
  destruct (sched_broadcast_run (PframeWait pf) k3) as (k' & Hrun & Hs' & Hfr & _);
    [by eapply sched_wf_ext; [..|exact Hs]|done|].
  exists k', (p2 <| pf_busy := false |>). split.
  { unfold pframe_fill, pframe_set_busy, pframe_clear_busy. rewrite (bind_assign pframes _ _ _ _ _ Hp).
    rewrite (bind_deref pframes _ _ _ _ Hp1). change (pf_obj pb) with (pf_obj p). rewrite Ho, bind_nonnull.
    rewrite (bind_ret _ _ _ _ _ Hfill), (bind_assign pframes _ _ _ _ _ Hp2). by rewrite (bind_ret _ _ _ _ _ Hrun). }
  split_and!; try done; [by eapply cache_wf_frame|..].
  - transitivity (pframes k3); [by rewrite <- Hfr|]. simpl. by rewrite !insert_insert_eq.
  - transitivity (pages k3); [by rewrite <- Hfr|]. done.
  - transitivity (mmobjs k3); [by rewrite <- Hfr|]. done.
Qed.

(** There is no need to wait for the pageout daemon. *)
Definition enough_memory (k : kernel) : Prop :=
  nfreepages_min k < page_free_count (dom (pages k)) \/ alloc_list k = [].

Lemma no_pageout k : enough_memory k -> pageoutd_needed k = Ret false k.
Proof.
  unfold pageoutd_needed. rewrite bind_get. unfold ret. intros [Hn| ->]; f_equal; [|apply andb_false_r].
  destruct (Z.leb_spec (page_free_count (dom (pages k))) (nfreepages_min k)); [lia|done].
Qed.

(** No thread waits for a frame that does not exist. *)
Definition waiters_live (k : kernel) : Prop :=
  forall pf, pframes k !! pf = None -> tq_list (queue k (PframeWait pf)) = [].

(** What a request for page [n] of [o] leads to. *)
Definition got_page (k : kernel) (o : ptr) (n : Z) (ob : mmobj) (res : option ptr) (k' : kernel) : Prop :=
  match res with
  | Some pf =>
      resident k' o n pf /\ (forall o' n' x, resident k o' n' x -> resident k' o' n' x) /\
      ((resident k o n pf /\ pframes k' = pframes k /\ pages k' = pages k /\ mmobjs k' = mmobjs k) \/
       ((forall x, ~ resident k o n x) /\ pframes k !! pf = None /\
        exists p', pframes k' = <[pf := p']> (pframes k) /\ pf_busy p' = false /\ pf_pincount p' = 1 /\
          pages k !! pf_addr p' = None /\ pages k' = <[pf_addr p' := zero_page]> (pages k) /\
          mmobjs k' = <[o := ob <| mmo_refcount ::= Z.succ |> <| mmo_nrespages ::= Z.succ |>
                                <| mmo_respages ::= cons pf |>]> (mmobjs k)))
  | None => (forall x, ~ resident k o n x) /\ pframes k' = pframes k /\ pages k' = pages k /\ mmobjs k' = mmobjs k
  end.

(** A page that is not resident. *)
Lemma anon_bring_in k o n ob : cache_wf k -> sched_wf k -> waiters_live k -> mmobjs k !! o = Some ob ->
  anonymous ob -> (forall x, ~ resident k o n x) ->
  exists res k', (a ← pframe_alloc o n;
     match a with
     | None => ret (-1, None)
     | Some pf => r ← pframe_fill pf; if r <? 0 then ret (r, None) else ret (0, Some pf)
     end) k = Ret (match res with Some _ => 0 | None => -1 end, res) k' /\
    cache_wf k' /\ sched_wf k' /\ got_page k o n ob res k'.
Proof.
  intros Hwf Hs Hw Hob Hanon Hno.
  assert (Hfail : forall c, pframe_alloc o n k = Ret None (k <| alloc_count := c |>) ->
    exists res k', (a ← pframe_alloc o n;
      match a with
      | None => ret (-1, None)
      | Some pf => r ← pframe_fill pf; if r <? 0 then ret (r, None) else ret (0, Some pf)
      end) k = Ret (match res with Some _ => 0 | None => -1 end, res) k' /\
      cache_wf k' /\ sched_wf k' /\ got_page k o n ob res k').
  { intros c Hrun. exists None, (k <| alloc_count := c |>). rewrite (bind_ret _ _ _ _ _ Hrun). split; [done|].
    split_and!; try done; [by apply (cache_wf_ext k)|by eapply sched_wf_ext; [..|exact Hs]]. }
  destruct (slab_obj_alloc (alloc_count k) (dom (pframes k))) as [pf|] eqn:Hpf.
  2: { destruct (alloc_fails k o n) as [c Hc]; [by left|by eapply Hfail]. }
  destruct (page_alloc_n (S (alloc_count k)) (dom (pages k))) as [addr|] eqn:Ha.
  2: { destruct (alloc_fails k o n) as [c Hc]; [right; split; [by eexists|done]|by eapply Hfail]. }
  clear Hfail. rewrite (bind_ret _ _ _ _ _ (alloc_run k o n ob pf addr Hob (anon_counts o ob Hanon) Hpf Ha)).
  apply slab_obj_alloc_fresh, not_elem_of_dom in Hpf. apply page_alloc_n_fresh, not_elem_of_dom in Ha.
  set (k1 := added pf addr o n ob k).
  destruct (anon_fill_run k1 pf (new_frame o n addr) o
    (ob <| mmo_refcount ::= Z.succ |> <| mmo_nrespages ::= Z.succ |> <| mmo_respages ::= cons pf |>))
    as (k' & p' & Hrun & Hwf' & Hs' & Hpfs & Ho' & Hn' & Ha' & Hb' & Hc' & Hpg & Hmm); try done.
  - by apply added_wf.
  - unfold k1, added. eapply sched_wf_ext; [| |apply (queue_init_wf k (PframeWait pf) Hs (Hw pf Hpf))]; done.
  - apply lookup_insert_eq.
  - eexists. apply lookup_insert_eq.
  - apply lookup_insert_eq.
  - destruct Hanon as [? ?]. split; [done|]. simpl. lia.
  - exists (Some pf), k'. rewrite (bind_ret _ _ _ _ _ Hrun). split; [done|]. split; [done|]. split; [done|].
    simpl in Hpfs, Hpg, Ha', Hn', Hmm. rewrite insert_insert_eq in Hpfs. rewrite insert_insert_eq, <- Ha' in Hpg. rewrite <- Ha' in Ha.
    cbn [got_page]. split_and!.
    + exists p'. rewrite Hpfs, lookup_insert_eq. by split_and!.
    + intros o' n' x (q & Hq & Hqo & Hqn). exists q. rewrite Hpfs, lookup_insert_ne by congruence. by split_and!.
    + right. split; [done|]. split; [done|]. exists p'. by split_and!.
Qed.
End anonymous.

(** ** Objects that fill a page at once

    [fillpage] writes to memory only and returns [r], without waiting. *)
Section plain.
Context `{PO : PlatformOk, F : LoopFuel, Ops : MmobjOps, MH : MmHeaders}.

Definition fills_at_once (o : ptr) (r : Z) : Prop :=
  forall pf k, exists pgs, mmo_fillpage o pf k = Ret r (k <| pages := pgs |>).

Lemma plain_fill_run k pf p o r : fills_at_once o r -> sched_wf k -> pframes k !! pf = Some p ->
  pf_obj p = Some o -> pf_busy p = false ->
  exists k' pgs, pframe_fill pf k = Ret r k' /\ sched_wf k' /\ sched_frame (k <| pages := pgs |>) k'.
Proof.
  intros Hfill Hs Hp Ho Hb. set (pb := p <| pf_busy := true |>).
  set (k1 := k <| pframes := <[pf := pb]> (pframes k) |>). destruct (Hfill pf k1) as [pgs Hrun].
  assert (Hk : k1 <| pages := pgs |> <| pframes := <[pf := pb <| pf_busy := false |>]> (pframes k1) |>
             = k <| pages := pgs |>).
  { kernel_ext. rewrite insert_insert_eq. apply insert_id. rewrite Hp. f_equal. destruct p. cbn in *. by subst. }
  destruct (sched_broadcast_run (PframeWait pf) (k <| pages := pgs |>)) as (k' & Hb' & Hs' & Hfr & _);
    [by eapply sched_wf_ext; [..|exact Hs]|done|].
  exists k', pgs. split; [|done]. unfold pframe_fill, pframe_set_busy, pframe_clear_busy.
  rewrite (bind_assign pframes _ _ _ _ _ Hp). erewrite bind_deref by apply lookup_insert_eq.
  change (pf_obj (p <| pf_busy := true |>)) with (pf_obj p). rewrite Ho, bind_nonnull.
  rewrite (bind_ret _ _ _ _ _ Hrun). erewrite bind_assign by apply lookup_insert_eq.
  erewrite bind_ret; [reflexivity|]. etrans; [|exact Hb']. f_equal. exact Hk.
Qed.

(** A new frame for the page, resident or not. *)
Lemma plain_bring_in k o n ob r pf addr : mmobjs k !! o = Some ob -> counts_ref o ob -> fills_at_once o r ->
  sched_wf k -> waiters_live k ->
  slab_obj_alloc (alloc_count k) (dom (pframes k)) = Some pf ->
  page_alloc_n (S (alloc_count k)) (dom (pages k)) = Some addr ->
  exists k' pgs, (a ← pframe_alloc o n;
     match a with
     | None => ret (-1, None)
     | Some pf => r ← pframe_fill pf; if r <? 0 then ret (r, None) else ret (0, Some pf)
     end) k = Ret (if r <? 0 then (r, None) else (0, Some pf)) k' /\
    sched_wf k' /\ sched_frame ((added pf addr o n ob k) <| pages := pgs |>) k'.
Proof.
  intros Hob Href Hfill Hs Hw Hpf Ha. rewrite (bind_ret _ _ _ _ _ (alloc_run k o n ob pf addr Hob Href Hpf Ha)).
  apply slab_obj_alloc_fresh, not_elem_of_dom in Hpf.
  destruct (plain_fill_run (added pf addr o n ob k) pf (new_frame o n addr) o r) as (k' & pgs & Hrun & Hs' & Hfr); try done.
  - eapply sched_wf_ext; [| |apply (queue_init_wf k (PframeWait pf) Hs (Hw pf Hpf))]; done.
  - apply lookup_insert_eq.
  - exists k', pgs. rewrite (bind_ret _ _ _ _ _ Hrun). split; [|done]. by destruct (r <? 0).
Qed.
End plain.

(** ** Properties *)
Section properties.
Context `{PO : PlatformOk, F : LoopFuel, MHO : MmHeadersOk, VM : VnodeMm}.


(** A page that its object fails to fill: [pframe_get] returns the error, but leaves the frame in
    the cache, where the next request for the page finds it and reports success. *)
Theorem pframe_get_unfilled `{Ops : MmobjOps} k o n ob r pf addr :
  cache_wf k -> sched_wf k -> waiters_live k -> enough_memory k -> (0 < loop_fuel)%nat ->
  mmobjs k !! o = Some ob -> counts_ref o ob -> fills_at_once o r -> r < 0 -> (forall x, ~ resident k o n x) ->
  slab_obj_alloc (alloc_count k) (dom (pframes k)) = Some pf ->
  page_alloc_n (S (alloc_count k)) (dom (pages k)) = Some addr ->
  exists k1 k2, pframe_get o n k = Ret (r, None) k1 /\ pframe_get o n k1 = Ret (0, Some pf) k2.
Proof.
  intros Hwf Hs Hw Hmem Hfuel Hob Href Hfill Hr Hno Hpf Ha.
  destruct (plain_bring_in k o n ob r pf addr) as (k1 & pgs & Hrun & _ & Hfr); [done..|].
  apply slab_obj_alloc_fresh, not_elem_of_dom in Hpf.
  assert (Hwf1 : cache_wf k1).
  { apply (cache_wf_frame ((added pf addr o n ob k) <| pages := pgs |>)); [|exact Hfr].
    apply (cache_wf_ext (added pf addr o n ob k)); [by apply added_wf|cbn; reflexivity..]. }
  assert (Hp1 : pframes k1 !! pf = Some (new_frame o n addr)).
  { transitivity (pframes ((added pf addr o n ob k) <| pages := pgs |>) !! pf); [by rewrite <- Hfr|]. apply lookup_insert_eq. }
  destruct (get_resident_run k o n Hwf) as (res & k0 & Hget & _ & _ & Hres & _ & Hsame).
  assert (res = None) as ->. { destruct res as [x|]; [|done]. by destruct (Hno x (proj1 (Hres x) eq_refl)). }
  rewrite (Hsame eq_refl) in *. destruct (get_resident_run k1 o n Hwf1) as (res1 & k2 & Hget1 & _ & (Hps & _) & Hres1 & _).
  assert (res1 = Some pf) as -> by (apply Hres1; by exists (new_frame o n addr)).
  exists k1, k2. unfold pframe_get. destruct loop_fuel as [|fuel]; [lia|]. cbn [pframe_get_loop]. split.
  - rewrite (bind_ret _ _ _ _ _ Hget), (bind_ret _ _ _ _ _ (no_pageout k Hmem)), bind_ret_l.
    rewrite Hrun. destruct (Z.ltb_spec r 0); [done|lia].
  - rewrite (bind_ret _ _ _ _ _ Hget1). rewrite <- Hps in Hp1. by rewrite (bind_deref pframes _ _ _ _ Hp1).
Qed.

(** C40: when memory is short [pframe_get] waits for the pageout daemon and then allocates a frame without
    looking for the page again: in whatever state it is scheduled, if the page has been brought in
    meanwhile the cache ends up with two frames for it. *)
Theorem pframe_get_second_frame `{Ops : MmobjOps} k o n cur c t rest :
  cache_wf k -> sched_wf k -> ~ enough_memory k -> (0 < loop_fuel)%nat -> (forall x, ~ resident k o n x) ->
  curthr k = Some cur -> threads k !! cur = Some c -> kt_wchan c = None ->
  fifo k Runq ++ fifo k PageoutdWait = t :: rest ->
  exists ks cont, pframe_get o n k = Wait CtxSwitch ks cont /\
    forall k1 ob pf1 pf2 addr, sched_wf k1 -> waiters_live k1 -> mmobjs k1 !! o = Some ob -> counts_ref o ob ->
      fills_at_once o 0 -> resident k1 o n pf1 ->
      slab_obj_alloc (alloc_count k1) (dom (pframes k1)) = Some pf2 ->
      page_alloc_n (S (alloc_count k1)) (dom (pages k1)) = Some addr ->
      exists k2, cont k1 = Ret (0, Some pf2) k2 /\ pf1 <> pf2 /\ resident k2 o n pf1 /\ resident k2 o n pf2.
Proof.
  intros Hwf Hs Hlow Hfuel Hno Hcur Hc Hch Hrun. unfold pframe_get.
  destruct loop_fuel as [|fuel] eqn:Hf; [lia|]. cbn [pframe_get_loop].
  destruct (get_resident_run k o n Hwf) as (res & k0 & Hget & _ & _ & Hres & _ & Hsame).
  assert (res = None) as ->. { destruct res as [x|]; [|done]. by destruct (Hno x (proj1 (Hres x) eq_refl)). }
  rewrite (Hsame eq_refl) in *. rewrite (bind_ret _ _ _ _ _ Hget).
  assert (Hneed : pageoutd_needed k = Ret true k).
  { unfold pageoutd_needed. rewrite bind_get. unfold ret. f_equal. unfold enough_memory in Hlow.
    destruct (Z.leb_spec (page_free_count (dom (pages k))) (nfreepages_min k)); [|lia].
    destruct (alloc_list k); [|done]. destruct Hlow. by right. }
  rewrite (bind_ret _ _ _ _ _ Hneed). unfold pageoutd_wakeup.
  destruct (sched_broadcast_run PageoutdWait k Hs ltac:(done)) as (kb & Hbrun & Hsb & Hfr & Hq).
  assert (Hcb : threads kb !! cur = Some c) by (by apply (broadcast_keeps PageoutdWait k kb)).
  assert (Hcurb : curthr kb = Some cur) by (transitivity (curthr k); [by rewrite <- Hfr|done]).
  destruct (sleep_on_run AllocWait kb cur c t rest) as (ks & thr & Hsleep & _); try done; [by rewrite Hf|by rewrite Hq|].
  eexists ks, _. split.
  { rewrite (bind_unfold (bind _ _)), (bind_ret _ _ _ _ _ Hbrun), Hsleep. reflexivity. }
  intros k1 ob pf1 pf2 addr Hs1 Hw1 Hob Href Hfill (p1 & Hp1 & Ho1 & Hn1) Hpf Ha. cbn [obind].
  destruct (plain_bring_in (k1 <| ipl := ipl kb |>) o n ob 0 pf2 addr) as (k2 & pgs & Hrun2 & _ & Hfr2); try done;
    [by eapply sched_wf_ext; [..|exact Hs1]|].
  apply slab_obj_alloc_fresh, not_elem_of_dom in Hpf.
  assert (Hps : pframes k2 = <[pf2 := new_frame o n addr]> (pframes k1)).
  { transitivity (pframes ((added pf2 addr o n ob (k1 <| ipl := ipl kb |>)) <| pages := pgs |>)); [by rewrite <- Hfr2|].
    cbn. reflexivity. }
  assert (Hne : pf1 <> pf2) by congruence.
  exists k2. split; [exact Hrun2|]. split; [done|]. split.
  - exists p1. rewrite Hps, lookup_insert_ne by done. by split_and!.
  - exists (new_frame o n addr). rewrite Hps, lookup_insert_eq. by split_and!.
Qed.
End properties.

(** ** The properties at concrete states *)
Module Witness.
Import Pframe.Witness.
#[local] Instance fuel : LoopFuel := 10%nat.
#[local] Instance no_vnodes : VnodeMm := {|
  vo_vref _ := no_fuel; vo_vput _ _ := no_fuel; vlookuppage _ _ _ _ := no_fuel;
  vreadpage _ _ := no_fuel; vdirtypage _ _ := no_fuel; vcleanpage _ _ := no_fuel |}.

(** Object 1 with the pages 0, 7 and 9; two threads, the second of which is ready to run. *)
Definition thread (st : kthread_state) (q : option wchan) : kthread := {|
  kt_ctx := no_context; kt_kstack := None; kt_retval := 0; kt_errno := 0; kt_proc := None; kt_cancelled := 0;
  kt_wchan := q; kt_state := st; kt_qlink := q; kt_plink := None |}.
Definition object : mmobj := new_mmobj anon_mmobj_ops (MmoVmas []).

Definition system_on (k : kernel) (min : Z) : kernel :=
  k <| mmobjs := {[ 1%positive := object ]} |> <| nfreepages_min := min |>
    <| threads := {[ 1%positive := thread KT_RUN None; 2%positive := thread KT_RUN (Some Runq) ]} |>
    <| queues := {[ Runq := {| tq_list := [2%positive]; tq_size := 1 |} ]} |> <| curthr := Some 1%positive |>.
Definition system (min : Z) : kernel := system_on cache min.

Lemma system_on_cache k min : cache_wf k -> cache_wf (system_on k min).
Proof. intros Hwf. by apply (cache_wf_ext k). Qed.

Lemma system_cache min : cache_wf (system min).
Proof. apply system_on_cache, cache_ok. Qed.

Lemma system_sched min : sched_wf (system min).
Proof. apply (sched_wf_ext (system 0)); [done..|]. apply sched_wf_checked. apply (bool_decide_unpack _). vm_compute. exact I. Qed.

Lemma system_waiters min : waiters_live (system min).
Proof. intros pf _. reflexivity. Qed.

Lemma not_resident min n : n ∉ [0; 7; 9] -> forall x, ~ resident (system min) 1 n x.
Proof.
  intros Hn x Hx. assert (Hc : forall k, resident (system_on k min) 1 n x -> resident k 1 n x) by done.
  unfold system in Hx. apply Hc, cache_resident in Hx as [_ Hx].
  apply Hn. rewrite !elem_of_cons. naive_solver.
Qed.


(** An object whose pages are filled with the result [r]. *)
Definition filler (r : Z) : MmobjOps := {|
  mmo_ref o := assign mmobjs o (fun ob => ob <| mmo_refcount ::= Z.succ |>); mmo_put _ := ret tt;
  mmo_lookuppage _ _ _ := ret (-1, None); mmo_fillpage _ _ := ret r; mmo_dirtypage _ _ := ret (-1);
  mmo_cleanpage _ _ := ret (-1) |}.

Lemma filler_counts r o ob : counts_ref (Ops := filler r) o ob.
Proof. intros k Ho. by apply assign_Some. Qed.

Lemma filler_fills r o : fills_at_once (Ops := filler r) o r.
Proof. intros pf k. exists (pages k). cbn. unfold ret. f_equal. by kernel_ext. Qed.

Lemma pframe_get_unfilled_witness :
  exists k1 k2, pframe_get (Ops := filler (-5)) 1 20 (system 0) = Ret (-5, None) k1 /\
    pframe_get (Ops := filler (-5)) 1 20 k1 = Ret (0, Some 4%positive) k2.
Proof.
  apply (pframe_get_unfilled (Ops := filler (-5)) (system 0) 1 20 object (-5) 4 1).
  - apply system_cache.
  - apply system_sched.
  - apply system_waiters.
  - left. vm_compute. reflexivity.
  - apply Nat.lt_0_succ.
  - reflexivity.
  - apply filler_counts.
  - apply filler_fills.
  - lia.
  - apply not_resident. set_solver.
  - vm_compute. reflexivity.
  - vm_compute. reflexivity.
Defined.

(** Memory is short; while the thread waits, page 20 arrives as frame 4. *)
Lemma pframe_get_second_frame_witness :
  exists ks cont, pframe_get (Ops := filler 0) 1 20 (system 65536) = Wait CtxSwitch ks cont /\
    exists pf2 k2, cont (added 4 1 1 20 object (system 65536)) = Ret (0, Some pf2) k2 /\
      resident k2 1 20 4 /\ resident k2 1 20 pf2 /\ pf2 <> 4%positive.
Proof.
  destruct (pframe_get_second_frame (Ops := filler 0) (system 65536) 1 20 1 (thread KT_RUN None) 2 [])
    as (ks & cont & Hrun & Hcont).
  - apply system_cache.
  - apply system_sched.
  - intros [H|H]; [vm_compute in H; discriminate|discriminate].
  - apply Nat.lt_0_succ.
  - apply not_resident. set_solver.
  - reflexivity.
  - reflexivity.
  - reflexivity.
  - reflexivity.
  - exists ks, cont. split; [exact Hrun|].
    destruct (Hcont (added 4 1 1 20 object (system 65536))
      (object <| mmo_refcount ::= Z.succ |> <| mmo_nrespages ::= Z.succ |> <| mmo_respages ::= cons 4%positive |>) 4%positive 5%positive 2%positive)
      as (k2 & Hk2 & Hne & H1 & H2).
    + apply (sched_wf_ext ((system 65536) <| queues := <[PframeWait 4%positive := empty_ktqueue]> (queues (system 65536)) |>));
        [done..|]. by apply queue_init_wf; [apply system_sched|].
    + intros pf Hpf. change (tq_list (queue ((system 65536) <| queues :=
        <[PframeWait 4%positive := empty_ktqueue]> (queues (system 65536)) |>) (PframeWait pf)) = []).
      unfold queue. simpl. destruct (decide (pf = 4%positive)) as [->|].
      * by rewrite lookup_insert_eq.
      * rewrite lookup_insert_ne by congruence. reflexivity.
    + reflexivity.
    + apply filler_counts.
    + apply filler_fills.
    + by exists (new_frame 1 20 1).
    + vm_compute. reflexivity.
    + vm_compute. reflexivity.
    + exists 5%positive, k2. split; [exact Hk2|]. split; [exact H1|]. split; [exact H2|]. congruence.
Defined.
End Witness.
