(* ===== verification/Vmsys.v ===== *)
(** * Vmsys

    The virtual-memory system calls and the page-fault handler:
    [kernel/vm/brk.c], [kernel/vm/mmap.c] and [kernel/vm/pagefault.c].  File
    descriptors are resolved by [fget] and [fput] of [fs/file.c], an interface
    ([FileCalls]). *)

From S2P Require Import Prelude Platform State Sched Mmobj Vmmap Proc.

(** [fs/file.c]: [fget(-1)] makes a file, [fget(fd)] takes a reference to an open one. *)
Class FileCalls := {
  fget : Z -> K (option ptr);
  fput : ptr -> K unit;
  fref : ptr -> K unit;
}.

(** [fs/file.h] *)
Class FileHeaders := {
  FMODE_READ : Z; FMODE_WRITE : Z; FMODE_APPEND : Z;
}.

(** [mm/mman.h], [vm/pagefault.h], [mm/pagetable.h] *)
Class VmHeaders := {
  MAP_FAILED : Z;
  FAULT_WRITE : Z; FAULT_RESERVED : Z; FAULT_EXEC : Z;
  PD_PRESENT : Z; PD_USER : Z; PD_WRITE : Z;
  PT_PRESENT : Z; PT_USER : Z; PT_WRITE : Z;
  PAGE_ALIGN_DOWN : Z -> Z;
  (* the word that is read as vma_start when the head of a map's list is taken for an area *)
  head_as_vma_start : ptr -> Z;
}.

(** The element behind [a]; [None] when [a] is the last one. *)
Fixpoint next_in (a : ptr) (l : list ptr) : option ptr :=
  match l with
  | [] => None
  | x :: l' => if decide (x = a) then head l' else next_in a l'
  end.

Section vmsys.
Context `{P : Platform, F : LoopFuel, Ops : MmobjOps, MH : MmHeaders, V : VfsCalls}.
Context `{FC : FileCalls, FH : FileHeaders, VH : VmHeaders}.
Context (vn_mmap : ptr -> ptr -> K (Z * option ptr)).

(** ** [brk.c] *)

(** [list_item(vma->vma_plink.l_next, vmarea_t, vma_plink)->vma_start]; behind the last area the
    head of the list is read as if it was an area. *)
Definition next_segment_start (vma : ptr) : K Z :=
  v ← deref vmareas vma;
  map ← nonnull (vma_plink v);
  m ← deref vmmaps map;
  match next_in vma (vmm_list m) with
  | Some n => w ← deref vmareas n; ret (vma_start w)
  | None => ret (head_as_vma_start map)
  end.

Definition set_brk (addr : Z) : K (Z * option Z) :=
  c ← the_curproc;
  assign procs c (fun p => p <| p_brk := addr |>);;
  ret (0, Some addr).

(** The result, and the new break that is returned through [ret]. *)
Definition do_brk (addr : Z) : K (Z * option Z) :=
  c ← the_curproc;
  p ← deref procs c;
  if addr =? 0 then ret (0, Some (p_brk p))
  else
    map ← nonnull (p_vmmap p);
    let start_brk_vfn := ADDR_TO_PN (uint32 (p_start_brk p - 1)) in
    let prev_brk_vfn := ADDR_TO_PN (uint32 (p_brk p - 1)) in
    let target_brk_vfn := ADDR_TO_PN (uint32 (addr - 1)) in
    start_vma ← vmmap_lookup map start_brk_vfn;
    prev ← vmmap_lookup map prev_brk_vfn;
    _ ← vmmap_lookup map target_brk_vfn;
    prev_vma ← nonnull prev;
    next ← next_segment_start prev_vma;
    let next_addr := uint32 (PN_TO_ADDR next) in
    let break_upper_limit := if next_addr <? USER_MEM_HIGH then next_addr else USER_MEM_HIGH in
    if (addr <? p_start_brk p) || (break_upper_limit <? addr) then ret (- ENOMEM, None)
    else if target_brk_vfn =? prev_brk_vfn then set_brk addr
    else if prev_brk_vfn <? target_brk_vfn then
      if decide (Some prev_vma = start_vma) then
        '(retval, _) ← vmmap_map vn_mmap map None (uint32 (start_brk_vfn + 1))
          (int32 (target_brk_vfn - start_brk_vfn)) (Z.lor PROT_WRITE PROT_READ)
          (Z.lor MAP_PRIVATE MAP_FIXED) 0 VMMAP_DIR_LOHI;
        if retval <? 0 then fail KPanic else set_brk addr
      else
        assign vmareas prev_vma (fun v => v <| vma_end := uint32 (target_brk_vfn + 1) |>);;
        set_brk addr
    else
      _ ← vmmap_remove map (int32 (target_brk_vfn + 1)) (int32 (prev_brk_vfn - target_brk_vfn));
      set_brk addr.

(** ** [mmap.c] *)
Definition has_flag (flags f : Z) : bool := Z.land flags f =? f.

(** The checks on the mode of an open file; [true] when the mapping is allowed. *)
Definition mmap_mode_ok (mode prot flags : Z) : bool :=
  negb (has_flag flags MAP_PRIVATE && negb (has_flag mode FMODE_READ)) &&
  negb (has_flag flags MAP_SHARED && has_flag prot PROT_WRITE && negb (has_flag mode FMODE_WRITE)) &&
  negb (has_flag prot PROT_WRITE && (mode =? FMODE_APPEND)).

(** The pages from [addr] for [len] bytes: the first one and how many. *)
Definition page_range (addr len : Z) : Z * Z :=
  let lopage := ADDR_TO_PN addr in
  let hipage := uint32 (ADDR_TO_PN (uint32 (addr + len - 1)) + 1) in
  (lopage, uint32 (hipage - lopage)).

(** The result, and what is stored through [ret]. *)
Definition mmap_map (file : option ptr) (addr len prot flags off : Z) : K (Z * option Z) :=
  c ← the_curproc;
  p ← deref procs c;
  map ← nonnull (p_vmmap p);
  let '(lopage, npages) := page_range addr len in
  vn ← match file with
       | Some f => fl ← deref files f; vn ← nonnull (f_vnode fl); ret (Some vn)
       | None => ret None
       end;
  '(retval, vma) ← vmmap_map vn_mmap map vn lopage npages prot flags off VMMAP_DIR_HILO;
  if retval <? 0 then
    match file with Some f => fput f | None => ret tt end;;
    ret (MAP_FAILED, Some 0)
  else
    a ← nonnull vma;
    v ← deref vmareas a;
    mmu_do (TlbFlushRange (PN_TO_ADDR (vma_start v)) npages);;
    match file with Some f => fput f | None => ret tt end;;
    ret (0, Some (PN_TO_ADDR (vma_start v))).

Definition do_mmap (addr len prot flags fd off : Z) : K (Z * option Z) :=
  if has_flag flags MAP_FIXED && ((addr <? USER_MEM_LOW) || (USER_MEM_HIGH <=? addr)) then ret (MAP_FAILED, None)
  else if negb (PAGE_ALIGNED addr) || negb (PAGE_ALIGNED off) then ret (MAP_FAILED, None)
  else if (len <=? 0) || (USER_MEM_HIGH - USER_MEM_LOW <=? len) then ret (MAP_FAILED, None)
  else if negb (has_flag flags MAP_PRIVATE || has_flag flags MAP_SHARED) then ret (MAP_FAILED, None)
  else if ((Z.of_nat NFILES <=? fd) || (fd <? 0)) && negb (has_flag flags MAP_ANON) then ret (MAP_FAILED, None)
  else if has_flag flags MAP_ANON then mmap_map None addr len prot flags off
  else
    r ← fget fd;
    match r with
    | None => ret (MAP_FAILED, None)
    | Some f =>
        fl ← deref files f;
        if mmap_mode_ok (f_mode fl) prot flags then
          vn ← nonnull (f_vnode fl);
          v ← deref vnodes vn;
          if vn_busy v then fput f;; ret (MAP_FAILED, None)
          else mmap_map (Some f) addr len prot flags off
        else fput f;; ret (MAP_FAILED, None)
    end.

Definition do_munmap (addr len : Z) : K Z :=
  if (addr <? USER_MEM_LOW) || (USER_MEM_HIGH <=? addr) then ret (- EINVAL)
  else if negb (PAGE_ALIGNED addr) then ret (- EINVAL)
  else if (len <=? 0) || (USER_MEM_HIGH - USER_MEM_LOW <=? len) then ret (- EINVAL)
  else
    c ← the_curproc;
    p ← deref procs c;
    map ← nonnull (p_vmmap p);
    let '(lopage, npages) := page_range addr len in
    retval ← vmmap_remove map lopage npages;
    if retval <? 0 then ret retval
    else mmu_do (TlbFlushRange addr npages);; ret 0.

(** ** [pagefault.c] *)
Definition kill_current : K unit := c ← the_curproc; proc_kill c EFAULT.

(** Whether the permissions of the area forbid the access. *)
Definition fault_denied (prot cause : Z) : bool :=
  (Z.land prot PROT_READ =? 0) ||
  (negb (Z.land cause FAULT_WRITE =? 0) && (Z.land prot PROT_WRITE =? 0)) ||
  negb (Z.land cause FAULT_RESERVED =? 0) ||
  (negb (Z.land cause FAULT_EXEC =? 0) && (Z.land prot PROT_EXEC =? 0)).

Definition handle_pagefault (vaddr cause : Z) : K unit :=
  let vfn := ADDR_TO_PN vaddr in
  c ← the_curproc;
  p ← deref procs c;
  map ← nonnull (p_vmmap p);
  r ← vmmap_lookup map vfn;
  match r with None => kill_current | Some _ => ret tt end;;
  vma ← nonnull r;
  v ← deref vmareas vma;
  (if fault_denied (vma_prot v) cause then kill_current else ret tt);;
  v ← deref vmareas vma;
  let pagenum := uint32 (vma_off v + (vfn - vma_start v)) in
  let write := has_flag cause FAULT_WRITE in
  let pdflags := Z.lor (Z.lor PD_PRESENT PD_USER) (if write then PD_WRITE else 0) in
  let ptflags := Z.lor (Z.lor PT_PRESENT PT_USER) (if write then PT_WRITE else 0) in
  o ← nonnull (vma_obj v);
  '(ret_, res) ← mmo_lookuppage o pagenum (if write then 1 else 0);
  if ret_ <? 0 then kill_current
  else
    c ← the_curproc;
    p ← deref procs c;
    pd ← nonnull (p_pagedir p);
    pf ← nonnull res;
    f ← deref pframes pf;
    mmu_do (PtMap pd (PAGE_ALIGN_DOWN vaddr) (pf_addr f) pdflags ptflags).
End vmsys.

(** ** Page faults *)
Section faults.
Context `{PO : PlatformOk, F : LoopFuel, Ops : MmobjOps, MH : MmHeaders, V : VfsCalls, VH : VmHeaders}.
Context (k : kernel) (c : ptr) (p : proc) (map : ptr).
Hypotheses (Hc : curproc k = Some c) (Hp : procs k !! c = Some p) (Hmap : p_vmmap p = Some map)
  (Hwf : vmmap_wf k map).

(** Looking up the area of an address, with the result of the lookup characterised. *)
Lemma lookup_area vfn : exists res, vmmap_lookup map vfn k = Ret res k /\
  forall a, res = Some a <-> mapped k map vfn a.
Proof.
  destruct Hwf as (l & vs & Hw). destruct (mw_map _ _ _ _ Hw) as (m & Hm & Hl).
  destruct (lookup_loop_run (k := k) l vs vfn) as (res & Hrun & Hres); [apply Hw..|].
  exists res. unfold vmmap_lookup. rewrite (bind_deref vmmaps _ _ _ _ Hm), Hl. split; [done|].
  intros a. rewrite Hres. split.
  - intros (Hin & v & ? & ?). exists m, v. by rewrite Hl.
  - intros (m' & v & Hm' & Hin & ? & ?). simplify_eq. eauto.
Qed.

(** The access is allowed by the area that maps the address, if there is one. *)
Definition fault_allowed (vaddr cause : Z) : Prop :=
  exists a v, mapped k map (ADDR_TO_PN vaddr) a /\ vmareas k !! a = Some v /\
    fault_denied (vma_prot v) cause = false.

Lemma kill_current_run : kill_current k = proc_kill c EFAULT k.
Proof. unfold kill_current. by rewrite (bind_curproc _ c). Qed.

Lemma pagefault_denied vaddr cause : ~ fault_allowed vaddr cause ->
  exists f : K unit, handle_pagefault vaddr cause k = (kill_current;; f) k.
Proof.
  intros Hdenied. unfold handle_pagefault. cbv zeta.
  rewrite (bind_curproc _ c), (bind_deref procs _ _ _ _ Hp), Hmap, bind_nonnull by done.
  destruct (lookup_area (ADDR_TO_PN vaddr)) as ([a|] & Hlook & Hres); rewrite (bind_ret _ _ _ _ _ Hlook).
  - destruct (proj1 (Hres a) eq_refl) as (m & v & Hm & Hin & Hv & Hcov).
    rewrite bind_ret_l, bind_nonnull, (bind_deref vmareas _ _ _ _ Hv).
    destruct (fault_denied (vma_prot v) cause) eqn:Hden; [by eexists|].
    destruct Hdenied. exists a, v. split_and!; [by apply Hres|done..].
  - by eexists.
Qed.

Lemma pagefault_maps vaddr cause a v o k1 pf f p1 pd :
  mapped k map (ADDR_TO_PN vaddr) a -> vmareas k !! a = Some v ->
  fault_denied (vma_prot v) cause = false -> vma_obj v = Some o ->
  mmo_lookuppage o (uint32 (vma_off v + (ADDR_TO_PN vaddr - vma_start v)))
    (if has_flag cause FAULT_WRITE then 1 else 0) k = Ret (0, Some pf) k1 ->
  curproc k1 = Some c -> procs k1 !! c = Some p1 -> p_pagedir p1 = Some pd -> pframes k1 !! pf = Some f ->
  handle_pagefault vaddr cause k = Ret tt (k1 <| mmu ::= cons (PtMap pd (PAGE_ALIGN_DOWN vaddr) (pf_addr f)
    (Z.lor (Z.lor PD_PRESENT PD_USER) (if has_flag cause FAULT_WRITE then PD_WRITE else 0))
    (Z.lor (Z.lor PT_PRESENT PT_USER) (if has_flag cause FAULT_WRITE then PT_WRITE else 0))) |>).
Proof.
  intros Hm Hv Hok Ho Hpage Hc1 Hp1 Hpd Hpf. unfold handle_pagefault. cbv zeta.
  rewrite (bind_curproc _ c), (bind_deref procs _ _ _ _ Hp), Hmap, bind_nonnull by done.
  destruct (lookup_area (ADDR_TO_PN vaddr)) as (res & Hlook & Hres); rewrite (bind_ret _ _ _ _ _ Hlook).
  rewrite (proj2 (Hres a) Hm), bind_ret_l, bind_nonnull, (bind_deref vmareas _ _ _ _ Hv), Hok, bind_ret_l.
  rewrite (bind_deref vmareas _ _ _ _ Hv), Ho, bind_nonnull.
  rewrite (bind_ret _ _ _ _ _ Hpage). cbn beta iota. change (0 <? 0) with false. cbn iota.
  rewrite (bind_curproc _ c), (bind_deref procs _ _ _ _ Hp1), Hpd, !bind_nonnull by done.
  by rewrite (bind_deref pframes _ _ _ _ Hpf).
Qed.

End faults.

(** ** The process break *)
Section breaks.
Context `{PO : PlatformOk, F : LoopFuel, Ops : MmobjOps, MH : MmHeaders, VH : VmHeaders}.
Context (vn_mmap : ptr -> ptr -> K (Z * option ptr)).

Lemma next_in_middle a n l1 l2 : a ∉ l1 -> next_in a (l1 ++ a :: n :: l2) = Some n.
Proof.
  induction l1 as [|x l1 IH]; simpl; intros Ha; [by rewrite decide_True|].
  rewrite decide_False by set_solver. apply IH. set_solver.
Qed.

(** Extending an area up to the next one keeps the address space well formed. *)
Lemma extend_wf k map l1 l2 a n vs1 vs2 v w stop :
  map_wf k map (l1 ++ a :: n :: l2) (vs1 ++ v :: w :: vs2) -> vmareas k !! a = Some v ->
  length l1 = length vs1 ->
  vma_start v < stop <= vma_start w ->
  map_wf (k <| vmareas := <[a := v <| vma_end := stop |>]> (vmareas k) |>) map (l1 ++ a :: n :: l2)
    (vs1 ++ v <| vma_end := stop |> :: w :: vs2).
Proof.
  intros [Hm Ha Hnd Hl Hs] Hv Hlen Hstop.
  assert (Hnin : a ∉ l1 /\ a ∉ n :: l2).
  { apply NoDup_app in Hnd as (_ & Hd & [? _]%NoDup_cons). split; [|done].
    intros Hin. apply (Hd a Hin). by left. }
  apply Forall2_app_inv in Ha as [HF HB]; [|done]. apply Forall2_cons in HB as [_ HB].
  split; simpl; try done.
  - apply Forall2_app; [|constructor; [apply lookup_insert_eq|]];
      [apply areas_insert_ne, HF; apply Hnin|apply areas_insert_ne, HB; apply Hnin].
  - rewrite Forall_app, Forall_cons in Hl |- *. simpl. naive_solver.
  - apply sorted_middle in Hs as (Hs & (? & ? & ?) & HltF & HltB). apply sorted_middle.
    pose proof Hs as [Hu _]. rewrite Forall_app, Forall_cons in Hu. destruct Hu as (_ & (? & ? & ?) & _).
    split_and!; [done|unfold user_area; simpl; lia|done|].
    apply sorted_app in Hs as (_ & Hs2 & _). apply sorted_cons in Hs2 as (_ & Hlt & _).
    apply Forall_cons. simpl. split; [lia|]. eapply Forall_impl; [exact Hlt|]. simpl. lia.
Qed.

(** A well-formed address space in which the area [a] that holds the break is followed by [n]. *)
Context (k : kernel) (c : ptr) (p : proc) (map a n : ptr) (l1 l2 : list ptr).
Context (v w : vmarea) (vs1 vs2 : list vmarea).
Hypotheses (Hc : curproc k = Some c) (Hp : procs k !! c = Some p) (Hmap : p_vmmap p = Some map)
  (Hwf : map_wf k map (l1 ++ a :: n :: l2) (vs1 ++ v :: w :: vs2)) (Hlen : length l1 = length vs1)
  (Hbrk : 0 < p_brk p < 2 ^ 32) (Hstart : 0 < p_start_brk p < 2 ^ 32)
  (Hheap : covers v (ADDR_TO_PN (p_brk p - 1))) (Hdata : ~ covers v (ADDR_TO_PN (p_start_brk p - 1))).

Lemma breaks_areas : vmareas k !! a = Some v /\ vmareas k !! n = Some w /\ vma_plink v = Some map /\ a ∉ l1.
Proof.
  destruct Hwf as [_ Ha Hnd Hl _].
  apply Forall2_app_inv in Ha as [_ Ha]; [|done].
  apply Forall2_cons in Ha as [? Ha]. apply Forall2_cons in Ha as [? _].
  rewrite Forall_app, Forall_cons in Hl. apply NoDup_app in Hnd as (_ & Hd & _).
  split_and!; try done; [apply Hl|]. intros Hin. apply (Hd a Hin). by left.
Qed.

Lemma next_below_high : 0 <= PN_TO_ADDR (vma_start w) < USER_MEM_HIGH.
Proof.
  destruct Hwf as [_ _ _ _ [Hu _]]. rewrite Forall_app, !Forall_cons in Hu.
  destruct Hu as (_ & _ & (Hlo & Hlt & Hhi) & _). destruct user_pages as [[? _] _].
  rewrite pn_to_addr_spec, page_size_4k. unfold user_hi in Hhi. rewrite addr_to_pn_spec, page_size_4k in Hhi.
  pose proof (Z.mul_div_le USER_MEM_HIGH 4096). lia.
Qed.

(** The lookups and the limits, with the decisions that follow left as they are. *)
Lemma do_brk_decide addr : 0 < addr < 2 ^ 32 ->
  let prev := ADDR_TO_PN (p_brk p - 1) in
  let target := ADDR_TO_PN (addr - 1) in
  do_brk vn_mmap addr k =
    (if (addr <? p_start_brk p) || (PN_TO_ADDR (vma_start w) <? addr) then ret (- ENOMEM, None)
     else if target =? prev then set_brk addr
     else if prev <? target then
       assign vmareas a (fun v => v <| vma_end := uint32 (target + 1) |>);; set_brk addr
     else
       _ ← vmmap_remove map (int32 (target + 1)) (int32 (prev - target)); set_brk addr) k.
Proof.
  intros Haddr prev target. destruct breaks_areas as (Hv & Hw & Hlink & Hni).
  assert (Hvw : vmmap_wf k map) by (eexists _, _; exact Hwf).
  destruct (mw_map _ _ _ _ Hwf) as (m & Hm & Hl).
  unfold do_brk. rewrite (bind_curproc _ c), (bind_deref procs _ _ _ _ Hp) by done.
  destruct (Z.eqb_spec addr 0); [lia|]. rewrite Hmap, bind_nonnull. cbv zeta.
  rewrite !(uint32_small (_ - 1)) by lia.
  destruct (lookup_area k map Hvw (ADDR_TO_PN (p_start_brk p - 1))) as (r1 & H1 & Hr1).
  destruct (lookup_area k map Hvw (ADDR_TO_PN (p_brk p - 1))) as (r2 & H2 & Hr2).
  destruct (lookup_area k map Hvw (ADDR_TO_PN (addr - 1))) as (r3 & H3 & _).
  rewrite (bind_ret _ _ _ _ _ H1), (bind_ret _ _ _ _ _ H2), (bind_ret _ _ _ _ _ H3).
  assert (Ha : a ∈ vmm_list m) by (rewrite Hl; apply elem_of_app; right; by left).
  rewrite (proj2 (Hr2 a)), bind_nonnull by (exists m, v; done).
  assert (Hnext : next_segment_start a k = Ret (vma_start w) k).
  { unfold next_segment_start. rewrite (bind_deref vmareas _ _ _ _ Hv), Hlink, bind_nonnull.
    rewrite (bind_deref vmmaps _ _ _ _ Hm), Hl, next_in_middle by done.
    by rewrite (bind_deref vmareas _ _ _ _ Hw). }
  rewrite (bind_ret _ _ _ _ _ Hnext).
  rewrite decide_False; [|intros Heq; apply Hdata].
  2:{ destruct (proj1 (Hr1 a)) as (m' & v' & ? & ? & ? & ?); [done|]. by simplify_eq. }
  destruct next_below_high as [Hlo Hhi].
  rewrite (uint32_small (PN_TO_ADDR (vma_start w))) by (pose proof user_mem_high_32; lia).
  destruct (Z.ltb_spec (PN_TO_ADDR (vma_start w)) USER_MEM_HIGH); [done|lia].
Qed.

Lemma set_brk_run k0 p0 addr : curproc k0 = Some c -> procs k0 !! c = Some p0 ->
  set_brk addr k0 = Ret (0, Some addr) (k0 <| procs := <[c := p0 <| p_brk := addr |>]> (procs k0) |>).
Proof.
  intros Hc0 Hp0. unfold set_brk. rewrite (bind_curproc _ c) by done.
  by rewrite (bind_assign procs _ _ _ _ _ Hp0).
Qed.

(** The pages up to the target lie before the next area. *)
Lemma target_page addr : 0 < addr <= PN_TO_ADDR (vma_start w) ->
  0 <= ADDR_TO_PN (addr - 1) < vma_start w /\ vma_start w < 2 ^ 32.
Proof.
  destruct next_below_high as [Hlo Hhi]. pose proof user_mem_high_32.
  rewrite pn_to_addr_spec, addr_to_pn_spec, page_size_4k in *. intros Ha.
  split; [split|]; [apply Z.div_pos; lia|apply Z.div_lt_upper_bound; lia|lia].
Qed.

End breaks.

(** ** The properties at concrete states *)
Module Witness.
#[local] Instance fuel : LoopFuel := 10%nat.

(** The flag bits of the i386 page tables and fault codes. *)
#[local] Instance i386 : VmHeaders := {|
  MAP_FAILED := -1; FAULT_WRITE := 2; FAULT_RESERVED := 8; FAULT_EXEC := 16;
  PD_PRESENT := 1; PD_USER := 4; PD_WRITE := 2; PT_PRESENT := 1; PT_USER := 4; PT_WRITE := 2;
  PAGE_ALIGN_DOWN a := a - a mod 4096; head_as_vma_start _ := 0 |}.

(** Process 3 of the process tree runs in thread 6, with an empty address space. *)
Definition runner : kthread := {|
  kt_ctx := no_context; kt_kstack := Some 7%positive; kt_retval := 0; kt_errno := 0;
  kt_proc := Some 3%positive; kt_cancelled := 0; kt_wchan := None; kt_state := KT_RUN;
  kt_qlink := None; kt_plink := Some 3%positive |}.

Definition running (k : kernel) : kernel :=
  k <| threads := <[6%positive := runner]> (threads k) |> <| curthr := Some 6%positive |>.
Definition faulting : kernel := running Proc.Witness.world.

Lemma running_empty k m : vmmaps k !! 1%positive = Some m -> vmm_list m = [] -> vmmap_wf (running k) 1.
Proof.
  intros Hm Hl. exists [], []. split; [by exists m|constructor..|].
  split; constructor.
Qed.

#[local] Existing Instance Proc.Witness.no_objects.
#[local] Existing Instance Proc.Witness.counting_vfs.

(** Why a call gives up the processor, and the state of process 3 then. *)
Definition gives_up (o : outcome kernel unit) : option (wait_reason * option proc_state) :=
  match o with Wait w k1 _ => Some (w, p_state <$> procs k1 !! 3%positive) | _ => None end.

Lemma gives_up_inv o w st : gives_up o = Some (w, st) ->
  exists k1 rest, o = Wait w k1 rest /\ p_state <$> procs k1 !! 3%positive = st.
Proof. destruct o as [| |w' k1 rest|]; simpl; intros [= <- <-]. by exists k1, rest. Qed.

Lemma faulting_denied : ~ fault_allowed faulting 1 0x500000 2.
Proof.
  intros (a & v & (m & v' & Hm & Hin & _) & _).
  assert (m = {| vmm_list := []; vmm_proc := Some 3%positive |}) as ->; [|by apply not_elem_of_nil in Hin].
  cut (Some m = Some {| vmm_list := []; vmm_proc := Some 3%positive |}); [congruence|].
  rewrite <- Hm. reflexivity.
Qed.


(** The heap is the area at pages 1024-1039; the break is in its last page and the next area
    begins at page 1056. *)
Definition heap_proc : proc :=
  Vmmap.Witness.vm_proc <| p_start_brk := 1024 * 4096 |> <| p_brk := 1040 * 4096 - 8 |>.
Definition with_heap (k : kernel) : kernel := k <| procs := <[1%positive := heap_proc]> (procs k) |>.
Definition heap : kernel := with_heap Vmmap.Witness.vm.

Lemma with_heap_wf k l vs : map_wf k 1 l vs -> map_wf (with_heap k) 1 l vs.
Proof. intros Hwf. by apply (map_wf_ext 1 k). Qed.

End Witness.
