(* ===== verification/Fork.v ===== *)
(** * Fork

    [kernel/proc/fork.c]: the copy-on-write duplication of a process.  The registers saved at
    the system call ([regs_t]) and the entry point of userland come from the architecture code
    ([ForkArch]); kernel stacks have no contents in the state, so what [fork_setup_stack] writes
    to the new one is part of its result. *)

From S2P Require Import Prelude Platform State Sched Mmobj Vmmap Pframe Anon Proc Vmsys.

(** [regs_t], the value of [&userland_entry], and [sizeof(regs_t)]. *)
Class ForkArch := {
  regs : Type;
  r_eax : regs -> Z;
  r_edx : regs -> Z;
  set_eax : Z -> regs -> regs;
  sizeof_regs : Z;
  userland_entry : Z;
}.

(** What is written to a new kernel stack: the argument word, and the registers it points to. *)
Record stack_frame `{ForkArch} := {
  sf_arg_at : Z;
  sf_arg : Z;
  sf_regs_at : Z;
  sf_regs : regs;
}.

(** The result, the registers of the caller afterwards, and the stack of the new thread. *)
Record fork_result `{ForkArch} := {
  fk_ret : Z;
  fk_regs : regs;
  fk_stack : option stack_frame;
}.

Section fork.
Context `{P : Platform, F : LoopFuel, Ops : MmobjOps, MH : MmHeaders, V : VfsCalls, C : ContextCode}.
Context `{FC : FileCalls, FA : ForkArch}.

Definition fork_setup_stack (r : regs) (kstack : ptr) : Z * stack_frame :=
  let esp := uint32 (Z.pos kstack + DEFAULT_STACK_SIZE - (sizeof_regs + 12)) in
  (esp, {| sf_arg_at := uint32 (esp + 4); sf_arg := uint32 (esp + 8);
           sf_regs_at := uint32 (esp + 8); sf_regs := r |}).

(** The two loops that install shadow objects; [false] when memory runs out.  The first walks
    the areas of the new map and, with [link], those of the old one. *)
Definition share_area (new_vma old_vma : ptr) : K bool :=
  nv ← deref vmareas new_vma;
  (if is_private (vma_flags nv) then
     s ← shadow_create;
     match s with
     | None => ret false
     | Some shadow =>
         ov ← deref vmareas old_vma;
         assign mmobjs shadow (fun ob => ob <| mmo_shadowed := vma_obj ov |>);;
         o ← nonnull (vma_obj ov);
         ob ← deref mmobjs o;
         assign mmobjs shadow (fun s => s <| mmo_un := MmoBottom (mmobj_bottom_obj o ob) |>);;
         '(b, _) ← mmobj_bottom_vmas o;
         olink_insert_tail b new_vma;;
         assign vmareas new_vma (fun v => v <| vma_obj := Some shadow |>);;
         mmo_ref o;;
         ret true
     end
   else
     ov ← deref vmareas old_vma;
     (if is_shared (vma_flags nv) then assign vmareas new_vma (fun v => v <| vma_obj := vma_obj ov |>)
      else ret tt);;
     o ← nonnull (vma_obj ov);
     mmo_ref o;;
     ret true).

Fixpoint share_loop (news olds : list ptr) : K bool :=
  match news with
  | [] => ret true
  | new_vma :: news =>
      match olds with
      | [] => fail BadPtr
      | old_vma :: olds =>
          ok ← share_area new_vma old_vma;
          if ok : bool then share_loop news olds else ret false
      end
  end.

Fixpoint shadow_loop (olds : list ptr) : K bool :=
  match olds with
  | [] => ret true
  | old_vma :: olds =>
      ov ← deref vmareas old_vma;
      if is_private (vma_flags ov) then
        s ← shadow_create;
        match s with
        | None => ret false
        | Some shadow =>
            assign mmobjs shadow (fun ob => ob <| mmo_shadowed := vma_obj ov |>);;
            o ← nonnull (vma_obj ov);
            ob ← deref mmobjs o;
            assign mmobjs shadow (fun s => s <| mmo_un := MmoBottom (mmobj_bottom_obj o ob) |>);;
            assign vmareas old_vma (fun v => v <| vma_obj := Some shadow |>);;
            shadow_loop olds
        end
      else shadow_loop olds
  end.

(** Steps 2 and 3: the new map, with the private areas of both maps behind shadow objects. *)
Definition copy_on_write (old_map : ptr) : K (option ptr) :=
  nm ← vmmap_clone old_map;
  new_map ← nonnull nm;
  n ← deref vmmaps new_map;
  o ← deref vmmaps old_map;
  ok ← share_loop (vmm_list n) (vmm_list o);
  if ok : bool then
    ok2 ← shadow_loop (vmm_list o);
    if ok2 : bool then ret (Some new_map)
    else vmmap_destroy new_map;; ret None
  else vmmap_destroy new_map;; ret None.

(** [for (i = 0; i < NFILES; i++)] *)
Fixpoint file_loop (new_proc : ptr) (fds : list nat) : K unit :=
  match fds with
  | [] => ret tt
  | i :: fds =>
      c ← the_curproc;
      cp ← deref procs c;
      match p_files cp !! i with
      | Some (Some f) =>
          assign procs new_proc (fun p => p <| p_files ::= <[i := Some f]> |>);;
          fref f
      | _ => ret tt
      end;;
      file_loop new_proc fds
  end.

(** Step 5: the process and the thread, which is not runnable yet. *)
Definition fork_process (new_map : ptr) : K ptr :=
  a ← proc_create "forked_process";
  new_proc ← nonnull a;
  np ← deref procs new_proc;
  KASSERT (bool_decide (p_state np = PROC_RUNNING));;
  KASSERT (bool_decide (p_pagedir np <> None));;
  empty ← nonnull (p_vmmap np);
  vmmap_destroy empty;;
  assign procs new_proc (fun p => p <| p_vmmap := Some new_map |>);;
  assign vmmaps new_map (fun m => m <| vmm_proc := Some new_proc |>);;
  ret new_proc.

Definition fork_thread (new_proc : ptr) (r : regs) : K (ptr * stack_frame) :=
  cur ← gets curthr;
  thr ← nonnull cur;
  a ← kthread_clone thr;
  new_thr ← nonnull a;
  nt ← deref threads new_thr;
  KASSERT (bool_decide (kt_kstack nt <> None));;
  kstack ← nonnull (kt_kstack nt);
  assign threads new_thr (fun t => t <| kt_proc := Some new_proc |>);;
  plink_thread new_proc new_thr;;
  np ← deref procs new_proc;
  let '(esp, frame) := fork_setup_stack r kstack in
  t ← deref threads thr;
  assign threads new_thr (fun n => n <| kt_ctx := {|
    c_pdptr := p_pagedir np; c_eip := userland_entry; c_esp := esp;
    c_kstack := kt_kstack nt; c_kstacksz := c_kstacksz (kt_ctx t) |} |>);;
  ret (new_thr, frame).

Definition do_fork (regs : option regs) : K fork_result :=
  KASSERT (bool_decide (regs <> None));;
  r ← nonnull regs;
  k ← get;
  KASSERT (bool_decide (curproc k <> None));;
  c ← the_curproc;
  cp ← deref procs c;
  KASSERT (bool_decide (p_state cp = PROC_RUNNING));;
  old_map ← nonnull (p_vmmap cp);
  nm ← copy_on_write old_map;
  match nm with
  | None => ret {| fk_ret := -1; fk_regs := r; fk_stack := None |}
  | Some new_map =>
      c ← the_curproc;
      cp ← deref procs c;
      pd ← nonnull (p_pagedir cp);
      mmu_do (PtUnmapRange pd USER_MEM_LOW USER_MEM_HIGH);;
      mmu_do TlbFlushAll;;
      new_proc ← fork_process new_map;
      let r' := set_eax 0 r in
      '(new_thr, frame) ← fork_thread new_proc r';
      file_loop new_proc (seq 0 NFILES);;
      sched_make_runnable new_thr;;
      c ← the_curproc;
      cp ← deref procs c;
      assign procs new_proc (fun p => p <| p_status := p_status cp |>
        <| p_brk := p_brk cp |> <| p_start_brk := p_start_brk cp |>);;
      np ← deref procs new_proc;
      ret {| fk_ret := p_pid np; fk_regs := r'; fk_stack := Some frame |}
  end.
End fork.

(** ** What fork needs of memory objects *)

(** Taking a reference to a live object counts it; every kind of object does ([vnode.c] counts
    the references of the embedded object). *)
Class RefCounts `{MmobjOps} : Prop := ref_counts k o ob :
  mmobjs k !! o = Some ob -> 0 < mmo_refcount ob ->
  mmo_ref o k = Ret tt (k <| mmobjs := <[o := ob <| mmo_refcount ::= Z.succ |>]> (mmobjs k) |>).

(** ** Copy on write *)
Section cow.
Context `{PO : PlatformOk, MHO : MmHeadersOk, RC : RefCounts}.
Hypothesis slab_succeeds : forall n live, is_Some (slab_obj_alloc n live).

(** [b] is the bottom of the chain of the live object [o]; [m] are the objects. *)
Definition bottom_of (m : gmap ptr mmobj) (o b : ptr) : Prop :=
  exists ob bob l, m !! o = Some ob /\ 0 < mmo_refcount ob /\
    (mmo_shadowed ob = None /\ b = o \/
     exists s, mmo_shadowed ob = Some s /\ mmo_un ob = MmoBottom (Some b)) /\
    m !! b = Some bob /\ mmo_un bob = MmoVmas l.

(** Objects keep their pages and their place in the chains; the count of [o] grows by the number
    of occurrences of [o] in [n]. *)
Definition union_grows (u u' : mmo_union) : Prop :=
  match u with MmoBottom b => u' = MmoBottom b | MmoVmas l => exists l2, u' = MmoVmas (l ++ l2) end.

Record grows (n : gmultiset ptr) (o : ptr) (ob ob' : mmobj) : Prop := {
  gr_count : mmo_refcount ob' = mmo_refcount ob + Z.of_nat (multiplicity o n);
  gr_ops : mmo_ops ob' = mmo_ops ob;
  gr_pages : mmo_respages ob' = mmo_respages ob /\ mmo_nrespages ob' = mmo_nrespages ob;
  gr_shadowed : mmo_shadowed ob' = mmo_shadowed ob;
  gr_union : union_grows (mmo_un ob) (mmo_un ob');
}.

Definition objects_grow (n : gmultiset ptr) (m m' : gmap ptr mmobj) : Prop :=
  forall o ob, m !! o = Some ob -> exists ob', m' !! o = Some ob' /\ grows n o ob ob'.

Lemma grows_refl o ob : grows ∅ o ob ob.
Proof.
  split; try done; [rewrite multiplicity_empty; lia|].
  unfold union_grows. destruct (mmo_un ob) as [l|]; [exists []; by rewrite app_nil_r|done].
Qed.

Lemma objects_grow_refl m : objects_grow ∅ m m.
Proof. intros o ob Hob. exists ob. split; [done|apply grows_refl]. Qed.

Lemma objects_grow_trans n1 n2 m1 m2 m3 :
  objects_grow n1 m1 m2 -> objects_grow n2 m2 m3 -> objects_grow (n1 ⊎ n2) m1 m3.
Proof.
  intros H1 H2 o ob Hob. destruct (H1 o ob Hob) as (ob2 & Hob2 & [C1 O1 [P1 Q1] S1 U1]).
  destruct (H2 o ob2 Hob2) as (ob3 & Hob3 & [C2 O2 [P2 Q2] S2 U2]). exists ob3. split; [done|].
  split; [|congruence|split; congruence|congruence|].
  - rewrite C2, C1, multiplicity_disj_union. lia.
  - unfold union_grows in *. destruct (mmo_un ob) as [l|b].
    + destruct U1 as [l2 U1]. rewrite U1 in U2. destruct U2 as [l3 U2]. exists (l2 ++ l3).
      by rewrite U2, app_assoc.
    + rewrite U1 in U2. done.
Qed.

(** The chain of an object does not change. *)
Lemma bottom_of_grow n m m' o b : objects_grow n m m' -> bottom_of m o b -> bottom_of m' o b.
Proof.
  intros Hg (ob & bob & l & Hob & Hpos & Hc & Hb & Hl).
  destruct (Hg o ob Hob) as (ob' & Hob' & [C _ _ S U]).
  destruct (Hg b bob Hb) as (bob' & Hb' & [_ _ _ _ UB]).
  unfold union_grows in UB. rewrite Hl in UB. destruct UB as [l2 UB].
  exists ob', bob', (l ++ l2). split_and!; try done; [lia|].
  destruct Hc as [[Hs ->]|(s & Hs & Hun)]; [left; by rewrite S|].
  right. exists s. rewrite S. unfold union_grows in U. by rewrite Hun in U.
Qed.

Lemma bottom_of_macro m o b ob : bottom_of m o b -> m !! o = Some ob -> mmobj_bottom_obj o ob = Some b.
Proof.
  intros (ob0 & bob & l & Hob0 & _ & Hc & _) Hob. simplify_eq.
  destruct Hc as [[Hs ->]|(s & Hs & Hun)]; [by apply bottom_of_bottom|by eapply bottom_of_shadow].
Qed.

Lemma bottom_of_vmas k o b : bottom_of (mmobjs k) o b -> exists l, mmobj_bottom_vmas o k = Ret (b, l) k.
Proof.
  intros Hb. pose proof Hb as (ob & bob & l & Hob & _ & _ & Hbob & Hl). exists l.
  unfold mmobj_bottom_vmas. rewrite (bind_deref mmobjs _ _ _ _ Hob).
  rewrite (bottom_of_macro _ _ _ _ Hb Hob), bind_nonnull, (bind_deref mmobjs _ _ _ _ Hbob).
  unfold mmo_vmas. by rewrite Hl.
Qed.

(** A shadow object in front of [o]. *)
Definition shadow_over (o b : ptr) : mmobj := {|
  mmo_ops := shadow_mmobj_ops; mmo_refcount := 1; mmo_nrespages := 0; mmo_respages := [];
  mmo_un := MmoBottom (Some b); mmo_shadowed := Some o |}.

(** A shadow object stays as it is while nobody takes a reference to it. *)
Lemma grows_shadow n s o b ob' : grows n s (shadow_over o b) ob' -> s ∉ n -> ob' = shadow_over o b.
Proof.
  intros [Hc Ho [Hp Hq] Hs Hu] Hn. apply not_elem_of_multiplicity in Hn. rewrite Hn in Hc.
  destruct ob'. simpl in *. unfold shadow_over. f_equal; congruence || (simpl in *; lia).
Qed.

Lemma shadow_stays n m m' s o b : objects_grow n m m' -> m !! s = Some (shadow_over o b) -> s ∉ n ->
  m' !! s = Some (shadow_over o b).
Proof.
  intros Hg Hs Hn. destruct (Hg s _ Hs) as (ob' & -> & Hgr). f_equal. by eapply grows_shadow.
Qed.

(** What fork changes before it creates the process. *)
Definition cow_only (k k' : kernel) : Prop :=
  k' = k <| alloc_count := alloc_count k' |> <| vmareas := vmareas k' |> <| mmobjs := mmobjs k' |>.

Lemma cow_only_trans k1 k2 k3 : cow_only k1 k2 -> cow_only k2 k3 -> cow_only k1 k3.
Proof. unfold cow_only. intros -> ->. by destruct k1. Qed.

Lemma objects_grow_new m s ob : m !! s = None -> objects_grow ∅ m (<[s := ob]> m).
Proof.
  intros Hs o oob Ho. exists oob. split; [|apply grows_refl]. by rewrite lookup_insert_ne by congruence.
Qed.

Lemma objects_grow_ref m o ob : m !! o = Some ob ->
  objects_grow {[+ o +]} m (<[o := ob <| mmo_refcount ::= Z.succ |>]> m).
Proof.
  intros Ho p pb Hp. destruct (decide (p = o)) as [->|Hne].
  - rewrite lookup_insert_eq. eexists. split; [done|]. assert (pb = ob) as -> by congruence.
    destruct (grows_refl o ob) as [_ _ _ _ U]. split; try done.
    rewrite multiplicity_singleton, decide_True by done. simpl. lia.
  - rewrite lookup_insert_ne by done. exists pb. split; [done|].
    destruct (grows_refl p pb) as [C _ _ _ U]. split; try done.
    rewrite multiplicity_singleton, decide_False by done. simpl. lia.
Qed.

Lemma objects_grow_vmas m b bob l x : m !! b = Some bob -> mmo_un bob = MmoVmas l ->
  objects_grow ∅ m (<[b := bob <| mmo_un := MmoVmas (l ++ x) |>]> m).
Proof.
  intros Hb Hl p pb Hp. destruct (decide (p = b)) as [->|Hne].
  - rewrite lookup_insert_eq. eexists. split; [done|]. assert (pb = bob) as -> by congruence.
    destruct (grows_refl b bob) as [C _ _ _ _]. split; try done. simpl. rewrite Hl. by exists x.
  - rewrite lookup_insert_ne by done. exists pb. split; [done|apply grows_refl].
Qed.

(** The state with the shadow object [s] over [o] installed. *)
Definition with_shadow_obj (k : kernel) (s o b : ptr) : kernel :=
  k <| alloc_count ::= S |> <| mmobjs := <[s := shadow_over o b]> (mmobjs k) |>.

(** The assignments that turn a new shadow object into one over [o]. *)
Lemma make_shadow {B} k s o b (f : ptr -> K B) : mmobjs k !! s = None -> bottom_of (mmobjs k) o b ->
  (assign mmobjs s (fun ob => ob <| mmo_shadowed := Some o |>);;
   o ← nonnull (Some o);
   ob ← deref mmobjs o;
   assign mmobjs s (fun s => s <| mmo_un := MmoBottom (mmobj_bottom_obj o ob) |>);;
   f o) (k <| alloc_count ::= S |>
            <| mmobjs := <[s := new_mmobj shadow_mmobj_ops (MmoBottom None)]> (mmobjs k) |>) =
  f o (with_shadow_obj k s o b).
Proof.
  intros Hs Hb. pose proof Hb as (ob & _ & _ & Hob & _). assert (o <> s) by congruence.
  do 3 kstep. rewrite (bottom_of_macro _ _ _ _ Hb Hob). kstep. f_equal.
  unfold with_shadow_obj. kernel_ext. by rewrite !insert_insert_eq.
Qed.

(** Putting an area on the list of the bottom object. *)
Lemma olink_insert_run k o b a v : bottom_of (mmobjs k) o b -> vmareas k !! a = Some v -> vma_olink v = None ->
  exists objs, olink_insert_tail b a k = Ret tt (k <| mmobjs := objs |>
      <| vmareas := <[a := v <| vma_olink := Some b |>]> (vmareas k) |>) /\
    objects_grow ∅ (mmobjs k) objs.
Proof.
  intros (_ & bob & l & _ & _ & _ & Hb & Hl) Ha Hv. eexists. unfold olink_insert_tail. split.
  - kstep. kstep. unfold mmo_vmas at 1. rewrite Hl, bind_nonnull, Hv. kstep.
    by rewrite (assign_Some vmareas _ v).
  - by eapply objects_grow_vmas.
Qed.

(** The object of the area [v] has been shared between the objects [m] and [m']: for a private area
    through a new shadow object [s] over it, with [x'] the area [priv s b] that uses it; otherwise
    [x'] is [shared o]. *)
Definition attached (priv : ptr -> ptr -> vmarea) (shared : ptr -> vmarea) (m m' : gmap ptr mmobj)
    (v x' : vmarea) : Prop :=
  exists o b, vma_obj v = Some o /\ bottom_of m o b /\
    if is_private (vma_flags v) then
      exists s, m !! s = None /\ m' !! s = Some (shadow_over o b) /\ x' = priv s b
    else x' = shared o.

(** The area [w] of the child that copies the area [v] has become [w']: a private one is behind a
    shadow object of its own over the object of [v], a shared one maps that object. *)
Definition child_of (m m' : gmap ptr mmobj) (v w w' : vmarea) : Prop :=
  attached (fun s b => w <| vma_olink := Some b |> <| vma_obj := Some s |>)
    (fun o => w <| vma_obj := Some o |>) m m' v w'.

(** The area [v] of the parent has become [v']: a private one is behind a shadow object too. *)
Definition parent_of (m m' : gmap ptr mmobj) (v v' : vmarea) : Prop :=
  attached (fun s _ => v <| vma_obj := Some s |>) (fun _ => v) m m' v v'.

(** An area that can be shared: its object is live, and it is private or shared. *)
Definition shareable (m : gmap ptr mmobj) (v : vmarea) : Prop :=
  (is_private (vma_flags v) = false -> is_shared (vma_flags v) = true) /\
  exists o b, vma_obj v = Some o /\ bottom_of m o b.

Lemma take_ref k o b : bottom_of (mmobjs k) o b -> exists objs,
  mmo_ref o k = Ret tt (k <| mmobjs := objs |>) /\ objects_grow {[+ o +]} (mmobjs k) objs.
Proof.
  intros (ob & _ & _ & Hob & Hpos & _). eexists. split; [by apply ref_counts|].
  by eapply objects_grow_ref.
Qed.

Lemma share_area_run k new old v w :
  vmareas k !! old = Some v -> vmareas k !! new = Some w -> vma_flags w = vma_flags v ->
  vma_olink w = None -> shareable (mmobjs k) v ->
  exists k' w' o, share_area new old k = Ret true k' /\ vma_obj v = Some o /\
    child_of (mmobjs k) (mmobjs k') v w w' /\ vmareas k' = <[new := w']> (vmareas k) /\
    objects_grow {[+ o +]} (mmobjs k) (mmobjs k') /\ cow_only k k'.
Proof.
  intros Hv Hw Hflags Hol (Hsh & o & b & Ho & Hb). unfold share_area.
  rewrite (bind_deref vmareas _ _ _ _ Hw), Hflags. destruct (is_private (vma_flags v)) eqn:Hpriv.
  - destruct (slab_succeeds (alloc_count k) (dom (mmobjs k))) as [s Hs].
    pose proof (shadow_create_run k) as Hsc. rewrite Hs in Hsc. rewrite (bind_ret _ _ _ _ _ Hsc).
    apply slab_obj_alloc_fresh, not_elem_of_dom in Hs.
    rewrite (bind_deref vmareas _ v) by done. rewrite Ho. erewrite (make_shadow k s o b) by done.
    pose proof (objects_grow_new _ _ (shadow_over o b) Hs) as Hg1.
    pose proof (bottom_of_grow _ _ _ _ _ Hg1 Hb) as Hb1. set (k1 := with_shadow_obj k s o b) in *.
    destruct (bottom_of_vmas k1 _ _ Hb1) as [l Hl]. rewrite (bind_ret _ _ _ _ _ Hl).
    destruct (olink_insert_run k1 o b new w Hb1 Hw Hol) as (objs & Hins & Hg2).
    pose proof (bottom_of_grow _ _ _ _ _ Hg2 Hb1) as Hb2. rewrite (bind_ret _ _ _ _ _ Hins). kstep.
    match goal with |- context [bind (mmo_ref o) _ ?k2] => destruct (take_ref k2 o b Hb2) as (objs3 & Href & Hg3) end.
    rewrite (bind_ret _ _ _ _ _ Href). eexists _, _, o. split; [reflexivity|]. split; [done|].
    pose proof (objects_grow_trans _ _ _ _ _ Hg2 Hg3) as Hg23.
    pose proof (objects_grow_trans _ _ _ _ _ Hg1 Hg23) as Hg. rewrite !(left_id_L ∅ (⊎)) in *.
    split_and!; [| |exact Hg|by destruct k].
    + exists o, b. rewrite Hpriv. split_and!; [done..|]. exists s. split_and!; [done| |done].
      eapply shadow_stays; [exact Hg23|apply lookup_insert_eq|].
      destruct Hb as (ob & _ & _ & Hob & _). assert (s <> o) by congruence. multiset_solver.
    + simpl. by rewrite insert_insert_eq.
  - rewrite (bind_deref vmareas _ v) by done. rewrite (Hsh eq_refl). kstep. rewrite Ho. kstep.
    match goal with |- context [bind (mmo_ref o) _ ?k2] => destruct (take_ref k2 o b Hb) as (objs & Href & Hg) end.
    rewrite (bind_ret _ _ _ _ _ Href). eexists _, (w <| vma_obj := Some o |>), o.
    split_and!; [reflexivity|done| |done|exact Hg|by destruct k].
    exists o, b. by rewrite Hpriv.
Qed.

Lemma bottom_of_unique m o b b' : bottom_of m o b -> bottom_of m o b' -> b = b'.
Proof.
  intros Hb Hb'. pose proof Hb as (ob & _ & _ & Hob & _).
  pose proof (bottom_of_macro _ _ _ _ Hb Hob). pose proof (bottom_of_macro _ _ _ _ Hb' Hob). congruence.
Qed.

Lemma grow_fresh n m m' s : objects_grow n m m' -> m' !! s = None -> m !! s = None.
Proof.
  intros Hg Hs. destruct (m !! s) as [ob|] eqn:Hob; [|done].
  destruct (Hg s ob Hob) as (ob' & ? & _). congruence.
Qed.

Lemma shareable_grow n m m' v : objects_grow n m m' -> shareable m v -> shareable m' v.
Proof.
  intros Hg (Hsh & o & b & Ho & Hb). split; [done|]. exists o, b. split; [done|]. by eapply bottom_of_grow.
Qed.

(** The relation survives later steps, and holds from an earlier state on. *)
Lemma attached_later pr sh n m m1 m2 v x : attached pr sh m m1 v x -> objects_grow n m1 m2 ->
  (forall o, o ∈ n -> is_Some (m !! o)) -> attached pr sh m m2 v x.
Proof.
  intros (o & b & Ho & Hb & Hc) Hg Hn. exists o, b. split_and!; [done..|].
  destruct (is_private _); [|done]. destruct Hc as (s & Hs & Hs1 & ->). exists s. split_and!; [done| |done].
  eapply shadow_stays; [exact Hg|done|]. intros Hin. destruct (Hn s Hin) as [? ?]. congruence.
Qed.

Lemma attached_earlier pr sh n m m1 m2 v x : attached pr sh m1 m2 v x -> objects_grow n m m1 ->
  shareable m v -> attached pr sh m m2 v x.
Proof.
  intros (o & b & Ho & Hb & Hc) Hg (_ & o' & b' & Ho' & Hb'). assert (o' = o) as -> by congruence.
  assert (b' = b) as ->. { eapply bottom_of_unique; [|exact Hb]. by eapply bottom_of_grow. }
  exists o, b. split_and!; [done..|]. destruct (is_private _); [|done].
  destruct Hc as (s & Hs & ?). exists s. split; [by eapply grow_fresh|done].
Qed.

(** The same for all areas. *)
Lemma parents_earlier n m m1 m2 vs vs' : Forall2 (parent_of m1 m2) vs vs' -> objects_grow n m m1 ->
  Forall (shareable m) vs -> Forall2 (parent_of m m2) vs vs'.
Proof.
  intros HF Hg. induction HF as [|v v' vs vs' Hv _ IH]; intros Hsh; constructor;
    apply Forall_cons in Hsh as [? ?]; [by eapply attached_earlier|by apply IH].
Qed.

Lemma children_earlier n m m1 m2 vs ws ws' : Forall3 (child_of m1 m2) vs ws ws' -> objects_grow n m m1 ->
  Forall (shareable m) vs -> Forall3 (child_of m m2) vs ws ws'.
Proof.
  intros HF Hg. induction HF as [|v w w' vs ws ws' Hv _ IH]; intros Hsh; constructor;
    apply Forall_cons in Hsh as [? ?]; [by eapply attached_earlier|by apply IH].
Qed.

Lemma children_later n m m1 m2 vs ws ws' : Forall3 (child_of m m1) vs ws ws' -> objects_grow n m1 m2 ->
  (forall o, o ∈ n -> is_Some (m !! o)) -> Forall3 (child_of m m2) vs ws ws'.
Proof.
  intros HF Hg Hn. induction HF as [|v w w' vs ws ws' Hv _ IH]; constructor; [|done].
  by eapply attached_later.
Qed.

Lemma objects_live m vs : Forall (shareable m) vs -> forall o, o ∈ objects vs -> is_Some (m !! o).
Proof.
  induction 1 as [|v vs (_ & o & b & Ho & ob & _ & _ & Hob & _) _ IH]; intros p; [multiset_solver|].
  rewrite objects_cons, Ho. rewrite gmultiset_elem_of_disj_union, gmultiset_elem_of_singleton.
  intros [->|Hin]; [by exists ob|by apply IH].
Qed.

(** The shadow objects in front of private areas. *)
Definition private_objects (vs : list vmarea) : list ptr :=
  omap (fun v => if is_private (vma_flags v) then vma_obj v else None) vs.

(** An area and its copy, before the copy has an object. *)
Definition blank_copy (v w : vmarea) : Prop := vma_flags w = vma_flags v /\ vma_olink w = None.

(** The objects of private areas that are new with respect to [m]. *)
Definition fresh_objects (m : gmap ptr mmobj) (vs : list vmarea) : Prop :=
  NoDup (private_objects vs) /\ forall s, s ∈ private_objects vs -> m !! s = None.

Lemma fresh_objects_cons n m m1 v vs : objects_grow n m m1 -> fresh_objects m1 vs ->
  (is_private (vma_flags v) = true -> exists s, vma_obj v = Some s /\ m !! s = None /\ is_Some (m1 !! s)) ->
  fresh_objects m (v :: vs).
Proof.
  intros Hg [Hnd Hfr] Hv. unfold fresh_objects, private_objects in *. simpl.
  assert (Hfr' : forall s, s ∈ private_objects vs -> m !! s = None).
  { intros s Hs. eapply grow_fresh; [exact Hg|]. by apply Hfr. }
  destruct (is_private (vma_flags v)); [|done].
  destruct (Hv eq_refl) as (s & -> & Hs & [ob Hs1]). split.
  - apply NoDup_cons. split; [|done]. intros Hin. specialize (Hfr s Hin). congruence.
  - intros s' [->|Hin]%elem_of_cons; [done|by apply Hfr'].
Qed.

Lemma share_loop_run olds : forall vs news ws k,
  areas k olds vs -> areas k news ws -> NoDup news -> (forall a, a ∈ news -> a ∉ olds) ->
  Forall2 blank_copy vs ws -> Forall (shareable (mmobjs k)) vs ->
  exists k' ws', share_loop news olds k = Ret true k' /\ areas k' news ws' /\
    Forall3 (child_of (mmobjs k) (mmobjs k')) vs ws ws' /\ fresh_objects (mmobjs k) ws' /\
    (forall a, a ∉ news -> vmareas k' !! a = vmareas k !! a) /\
    objects_grow (objects vs) (mmobjs k) (mmobjs k') /\ cow_only k k'.
Proof.
  induction olds as [|old olds IH]; intros vs news ws k Ho Hn Hnd Hdis Hcopy Hsh.
  { inversion Ho; subst. inversion Hcopy; subst. inversion Hn; subst. exists k, [].
    split_and!; [done|done|constructor| |done|apply objects_grow_refl|by destruct k].
    split; [constructor|]. intros s []%elem_of_nil. }
  apply Forall2_cons_inv_l in Ho as (v & vs' & Hov & Ho & ->).
  apply Forall2_cons_inv_l in Hcopy as (w & ws0 & [Hfl Hol] & Hcopy & ->).
  apply Forall2_cons_inv_r in Hn as (new & news' & Hnw & Hn & ->).
  apply NoDup_cons in Hnd as [Hni Hnd]. apply Forall_cons in Hsh as [Hsv Hsh].
  destruct (share_area_run k new old v w) as (k1 & w1 & o & Hrun & Hobj & Hc & Hva & Hg & Hk1); [done..|].
  assert (Hne : new ∉ old :: olds) by (apply Hdis; by left).
  assert (Hkeep : forall l xs, new ∉ l -> areas k l xs -> areas k1 l xs).
  { intros l xs Hl Hx. unfold areas. rewrite Hva. by apply areas_insert_ne. }
  destruct (IH vs' news' ws0 k1) as (k2 & ws2 & Hrun2 & Ha2 & Hc2 & Hfr & Hoth & Hg2 & Hk2).
  { apply Hkeep; [set_solver|done]. }
  { by apply Hkeep. }
  { done. }
  { intros a Ha. assert (a ∉ old :: olds) by (apply Hdis; by right). set_solver. }
  { done. }
  { eapply Forall_impl; [exact Hsh|]. intros x. by apply (shareable_grow _ _ _ _ Hg). }
  pose proof (objects_grow_trans _ _ _ _ _ Hg Hg2) as Hg12.
  exists k2, (w1 :: ws2). split_and!.
  - simpl. by rewrite (bind_ret _ _ _ _ _ Hrun).
  - constructor; [|done]. rewrite Hoth, Hva by done. apply lookup_insert_eq.
  - constructor; [eapply attached_later; [exact Hc|exact Hg2|by apply objects_live]|].
    by eapply children_earlier.
  - eapply fresh_objects_cons; [exact Hg|done|].
    destruct Hc as (o' & b & _ & _ & Hc). intros Hpriv. destruct (is_private (vma_flags v)) eqn:Hv.
    + destruct Hc as (s & ? & Hs & ->). exists s. by split_and!.
    + subst w1. simpl in Hpriv. congruence.
  - intros a [Hna Hni']%not_elem_of_cons. rewrite Hoth, Hva by done. by rewrite lookup_insert_ne.
  - by rewrite objects_cons, Hobj.
  - by eapply cow_only_trans.
Qed.

(** The second loop. *)
Lemma shadow_step k old olds v o b : vmareas k !! old = Some v -> is_private (vma_flags v) = true ->
  vma_obj v = Some o -> bottom_of (mmobjs k) o b ->
  exists k1 v1, shadow_loop (old :: olds) k = shadow_loop olds k1 /\
    parent_of (mmobjs k) (mmobjs k1) v v1 /\ vmareas k1 = <[old := v1]> (vmareas k) /\
    objects_grow ∅ (mmobjs k) (mmobjs k1) /\ cow_only k k1.
Proof.
  intros Hv Hpriv Ho Hb. cbn [shadow_loop]. rewrite (bind_deref vmareas _ _ _ _ Hv), Hpriv, Ho.
  destruct (slab_succeeds (alloc_count k) (dom (mmobjs k))) as [s Hs].
  pose proof (shadow_create_run k) as Hsc. rewrite Hs in Hsc. rewrite (bind_ret _ _ _ _ _ Hsc).
  apply slab_obj_alloc_fresh, not_elem_of_dom in Hs. erewrite (make_shadow k s o b) by done. kstep.
  eexists _, _. split; [reflexivity|].
  split_and!; [|done|by apply objects_grow_new|by destruct k].
  exists o, b. rewrite Hpriv. split_and!; [done..|]. exists s. split_and!; [done| |done].
  apply lookup_insert_eq.
Qed.

Lemma shadow_loop_run olds : forall vs k,
  areas k olds vs -> NoDup olds -> Forall (shareable (mmobjs k)) vs ->
  exists k' vs', shadow_loop olds k = Ret true k' /\ areas k' olds vs' /\
    Forall2 (parent_of (mmobjs k) (mmobjs k')) vs vs' /\ fresh_objects (mmobjs k) vs' /\
    (forall a, a ∉ olds -> vmareas k' !! a = vmareas k !! a) /\
    objects_grow ∅ (mmobjs k) (mmobjs k') /\ cow_only k k'.
Proof.
  induction olds as [|old olds IH]; intros vs k Ho Hnd Hsh.
  { inversion Ho; subst. exists k, [].
    split_and!; [done|done|constructor| |done|apply objects_grow_refl|by destruct k].
    split; [constructor|]. intros s []%elem_of_nil. }
  apply Forall2_cons_inv_l in Ho as (v & vs' & Hov & Ho & ->).
  apply NoDup_cons in Hnd as [Hni Hnd]. apply Forall_cons in Hsh as [Hsv Hsh].
  pose proof Hsv as (_ & o & b & Hobj & Hb).
  assert (Hstep : exists k1 v1, shadow_loop (old :: olds) k = shadow_loop olds k1 /\
    parent_of (mmobjs k) (mmobjs k1) v v1 /\ vmareas k1 = <[old := v1]> (vmareas k) /\
    objects_grow ∅ (mmobjs k) (mmobjs k1) /\ cow_only k k1).
  { destruct (is_private (vma_flags v)) eqn:Hpriv; [by eapply shadow_step|].
    exists k, v. cbn [shadow_loop]. rewrite (bind_deref vmareas _ _ _ _ Hov), Hpriv.
    split_and!; [done| |by rewrite insert_id|apply objects_grow_refl|by destruct k].
    exists o, b. by rewrite Hpriv. }
  destruct Hstep as (k1 & v1 & Hrun & Hp & Hva & Hg & Hk1).
  destruct (IH vs' k1) as (k2 & vs2 & Hrun2 & Ha2 & Hp2 & Hfr & Hoth & Hg2 & Hk2).
  { unfold areas. rewrite Hva. by apply areas_insert_ne. }
  { done. }
  { eapply Forall_impl; [exact Hsh|]. intros x. by apply (shareable_grow _ _ _ _ Hg). }
  exists k2, (v1 :: vs2). split_and!.
  - by rewrite Hrun.
  - constructor; [|done]. rewrite Hoth, Hva by done. apply lookup_insert_eq.
  - constructor; [eapply attached_later; [exact Hp|exact Hg2|multiset_solver]|].
    by eapply parents_earlier.
  - eapply fresh_objects_cons; [exact Hg|done|].
    destruct Hp as (o' & b' & _ & _ & Hp). intros Hpriv. destruct (is_private (vma_flags v)) eqn:Hv.
    + destruct Hp as (s & ? & Hs & ->). exists s. by split_and!.
    + subst v1. congruence.
  - intros a [Hna Hni']%not_elem_of_cons. rewrite Hoth, Hva by done. by rewrite lookup_insert_ne.
  - pose proof (objects_grow_trans _ _ _ _ _ Hg Hg2) as Hg12. by rewrite (left_id_L ∅ (⊎)) in Hg12.
  - by eapply cow_only_trans.
Qed.

(** Areas at the same place of the same address space. *)
Definition same_place (v v' : vmarea) : Prop :=
  vma_start v' = vma_start v /\ vma_end v' = vma_end v /\ vma_plink v' = vma_plink v /\
  vma_vmmap v' = vma_vmmap v.

Lemma sorted_same_place vs vs' : Forall2 same_place vs vs' -> sorted_areas vs -> sorted_areas vs'.
Proof.
  induction 1 as [|v w vs ws (Hs & He & _) HF IH]; [done|]. rewrite !sorted_cons.
  intros (Hu & Hlt & Hsorted). split_and!; [| |by apply IH].
  - unfold user_area in *. by rewrite Hs, He.
  - clear -HF Hlt He. induction HF as [|x y vs ws (Hx & _) HF IH]; [done|].
    apply Forall_cons in Hlt as [? ?]. apply Forall_cons. split; [by rewrite He, Hx|by apply IH].
Qed.

Lemma map_wf_same_place k k' map l vs vs' : map_wf k map l vs -> vmmaps k' !! map = vmmaps k !! map ->
  areas k' l vs' -> Forall2 same_place vs vs' -> map_wf k' map l vs'.
Proof.
  intros [Hm Ha Hnd Hl Hs] Hk Ha' Hp. split; [by rewrite Hk|done|done| |by eapply sorted_same_place].
  clear -Hl Hp. induction Hp as [|v v' vs vs' (_ & _ & Hpl & Hvm) _ IH]; [constructor|].
  apply Forall_cons in Hl as [? ?]. apply Forall_cons. rewrite Hpl, Hvm. split; [done|by apply IH].
Qed.

Lemma parents_same_place m m' vs vs' : Forall2 (parent_of m m') vs vs' -> Forall2 same_place vs vs'.
Proof.
  intros HF. eapply Forall2_impl; [exact HF|]. intros v v' (o & b & _ & _ & H').
  destruct (is_private _); [destruct H' as (s & _ & _ & ->)|subst v']; by split_and!.
Qed.

Lemma children_same_place m m' vs ws ws' : Forall3 (child_of m m') vs ws ws' -> Forall2 same_place ws ws'.
Proof.
  induction 1 as [|v w w' vs ws ws' (o & b & _ & _ & H') _ IH]; constructor; [|done].
  destruct (is_private _); [destruct H' as (s & _ & _ & ->)|subst w']; by split_and!.
Qed.

(** The areas of different address spaces are different. *)
Lemma areas_disjoint k m1 m2 l1 l2 vs1 vs2 : map_wf k m1 l1 vs1 -> map_wf k m2 l2 vs2 -> m1 <> m2 ->
  forall a, a ∈ l1 -> a ∉ l2.
Proof.
  intros H1 H2 Hne a Ha1 Ha2.
  destruct (Forall2_elem_l _ _ _ _ (mw_areas _ _ _ _ H1) Ha1) as (v & Hv & Hav).
  destruct (Forall2_elem_l _ _ _ _ (mw_areas _ _ _ _ H2) Ha2) as (w & Hw & Haw).
  assert (w = v) as -> by congruence.
  pose proof (proj1 (Forall_forall _ _) (mw_links _ _ _ _ H1) v Hv) as [? _].
  pose proof (proj1 (Forall_forall _ _) (mw_links _ _ _ _ H2) v Hw) as [? _]. congruence.
Qed.

Lemma copies_blank vs ws : Forall2 copy_of vs ws -> Forall2 blank_copy vs ws.
Proof.
  intros HF. eapply Forall2_impl; [exact HF|]. intros v w (_ & _ & _ & _ & Hf & _ & Hol). by split.
Qed.

(** Shadow objects of the children are new, and those of the parent are newer. *)
Lemma shadows_distinct m m1 vs ws ws' vs' : Forall3 (child_of m m1) vs ws ws' ->
  Forall2 blank_copy vs ws -> fresh_objects m ws' -> fresh_objects m1 vs' ->
  NoDup (private_objects ws' ++ private_objects vs').
Proof.
  intros Hc Hcopy [Hnd _] [Hnd' Hfr']. apply NoDup_app. split_and!; [done| |done].
  intros s Hs Hs'. specialize (Hfr' s Hs'). clear -Hs Hfr' Hc Hcopy.
  revert Hs. induction Hc as [|v w w' vs ws ws' (o & b & _ & _ & Hx) _ IH]; [by intros ?%not_elem_of_nil|].
  apply Forall2_cons in Hcopy as [[Hfl _] Hcopy]. unfold private_objects in *. simpl.
  destruct (is_private (vma_flags v)) eqn:Hv.
  - destruct Hx as (s' & _ & Hs' & ->). simpl. rewrite Hfl, Hv.
    intros [->|Hin]%elem_of_cons; [congruence|by apply IH].
  - subst w'. simpl. rewrite Hfl, Hv. by apply IH.
Qed.

(** The address space of the child next to that of the parent. *)
Lemma copy_on_write_run k map l vs : map_wf k map l vs -> Forall (shareable (mmobjs k)) vs ->
  exists k' new l' vs' ws ws', copy_on_write map k = Ret (Some new) k' /\ new <> map /\
    map_wf k' map l vs' /\ map_wf k' new l' ws' /\ Forall2 copy_of vs ws /\
    Forall2 (parent_of (mmobjs k) (mmobjs k')) vs vs' /\
    Forall3 (child_of (mmobjs k) (mmobjs k')) vs ws ws' /\
    NoDup (private_objects ws' ++ private_objects vs') /\
    objects_grow (objects vs) (mmobjs k) (mmobjs k') /\
    k' = k <| alloc_count := alloc_count k' |> <| vmareas := vmareas k' |> <| vmmaps := vmmaps k' |>
           <| mmobjs := mmobjs k' |> /\
    vmmaps k !! new = None /\ forall m, m <> new -> vmmaps k' !! m = vmmaps k !! m.
Proof.
  intros Hwf Hsh.
  destruct (vmmap_clone_run slab_succeeds k map l vs Hwf) as
    (k1 & new & l' & ws & Hclone & Hne & Hnew & Hcopy & Hold & _ & Hk1 & Hfresh & Hother).
  assert (Hm1 : mmobjs k1 = mmobjs k) by (by rewrite Hk1).
  destruct (share_loop_run l vs l' ws k1) as (k2 & ws' & Hrun2 & Ha2 & Hc2 & Hfr2 & Hoth2 & Hg2 & Hk2).
  { apply Hold. } { apply Hnew. } { apply Hnew. } { by eapply areas_disjoint. }
  { by apply copies_blank. } { by rewrite Hm1. }
  assert (Hdis : forall a, a ∈ l -> a ∉ l') by (intros a Ha Ha'; by eapply (areas_disjoint k1 new map)).
  destruct (shadow_loop_run l vs k2) as (k3 & vs' & Hrun3 & Ha3 & Hp3 & Hfr3 & Hoth3 & Hg3 & Hk3).
  { clear -Hold Hoth2 Hdis. destruct Hold as [_ Ha _ _ _]. revert Hdis.
    induction Ha as [|a v l vs Hav _ IH]; intros Hdis; [constructor|].
    constructor; [rewrite Hoth2; [done|]; apply Hdis; by left|]. apply IH. intros b Hb. apply Hdis. by right. }
  { apply Hwf. }
  { rewrite <- Hm1 in Hsh. eapply Forall_impl; [exact Hsh|]. intros x. by apply (shareable_grow _ _ _ _ Hg2). }
  rewrite Hm1 in *.
  assert (Hv3 : forall m, vmmaps k3 !! m = vmmaps k1 !! m) by (intros m; by rewrite Hk3, Hk2).
  exists k3, new, l', vs', ws, ws'. split_and!; try done.
  - unfold copy_on_write. rewrite (bind_ret _ _ _ _ _ Hclone), bind_nonnull.
    destruct (mw_map _ _ _ _ Hnew) as (nm & Hnm & Hnl). destruct (mw_map _ _ _ _ Hold) as (om & Hom & Homl).
    rewrite (bind_deref vmmaps _ _ _ _ Hnm), (bind_deref vmmaps _ _ _ _ Hom), Hnl, Homl.
    by rewrite (bind_ret _ _ _ _ _ Hrun2), (bind_ret _ _ _ _ _ Hrun3).
  - eapply map_wf_same_place; [exact Hold|done|done|by eapply parents_same_place].
  - eapply map_wf_same_place; [exact Hnew|done| |by eapply children_same_place].
    clear -Ha2 Hoth3 Hdis. induction Ha2 as [|a v l' vs Hav _ IH]; [constructor|].
    constructor; [rewrite Hoth3; [done|]; intros Hin; by apply (Hdis a Hin); left|].
    apply IH. intros b Hb Hb'. apply (Hdis b Hb). by right.
  - by eapply parents_earlier.
  - eapply children_later; [exact Hc2|exact Hg3|multiset_solver].
  - eapply (shadows_distinct (mmobjs k) (mmobjs k2)); [exact Hc2|by apply copies_blank|done..].
  - pose proof (objects_grow_trans _ _ _ _ _ Hg2 Hg3) as Hg23. by rewrite (right_id_L ∅ (⊎)) in Hg23.
  - unfold cow_only in Hk2, Hk3. rewrite Hk3, Hk2, Hk1. by destruct k.
  - intros m Hm. rewrite Hv3. by apply Hother.
Qed.

(** C16: Copy on write: with memory available, fork duplicates the address space.  Both spaces are
    well formed; every area of the child has the pages, offset and permissions of the parent's;
    shared areas map the same object; behind each private area, of the parent and of the child,
    there is a shadow object of its own, new and different from all others, over the object that
    the area had; and each object gains exactly one reference for every area of the parent that
    mapped it. *)
Theorem copy_on_write_spec k map l vs : map_wf k map l vs -> Forall (shareable (mmobjs k)) vs ->
  exists k' new l' vs' ws ws', copy_on_write map k = Ret (Some new) k' /\ new <> map /\
    map_wf k' map l vs' /\ map_wf k' new l' ws' /\ Forall2 copy_of vs ws /\
    Forall2 (parent_of (mmobjs k) (mmobjs k')) vs vs' /\
    Forall3 (child_of (mmobjs k) (mmobjs k')) vs ws ws' /\
    NoDup (private_objects ws' ++ private_objects vs') /\
    objects_grow (objects vs) (mmobjs k) (mmobjs k').
Proof.
  intros Hwf Hsh. destruct (copy_on_write_run k map l vs Hwf Hsh) as
    (k' & new & l' & vs' & ws & ws' & Hrun & Hne & H1 & H2 & H3 & H4 & H5 & H6 & H7 & _).
  exists k', new, l', vs', ws, ws'. by split_and!.
Qed.
End cow.

(** The objects of [anon.c] and [shadow.c] count their references; so does every object when those
    embedded in vnodes do. *)
Section mm_ops_count.
Context `{P : Platform, F : LoopFuel, MH : MmHeaders, VM : VnodeMm}.
Hypothesis vnode_counts : forall k o ob vn,
  mmobjs k !! o = Some ob -> mmo_ops ob = vnode_mmobj_ops vn -> 0 < mmo_refcount ob ->
  vo_vref vn k = Ret tt (k <| mmobjs := <[o := ob <| mmo_refcount ::= Z.succ |>]> (mmobjs k) |>).

Lemma mm_ops_count n : @RefCounts (mm_ops (S n)).
Proof.
  intros k o ob Hob Hpos. change (@mmo_ref (mm_ops (S n)) o) with (via o (anon_ref o) (shadow_ref o) vo_vref).
  unfold via. rewrite (bind_deref mmobjs _ _ _ _ Hob).
  destruct (mmo_ops ob) as [| |vn] eqn:Hops; [| |by eapply vnode_counts];
    unfold anon_ref, shadow_ref, ref_body; rewrite (bind_deref mmobjs _ _ _ _ Hob), bind_KASSERT
      by (rewrite Hops, bool_decide_true, andb_true_r by done; by apply Z.ltb_lt);
    by apply assign_Some.
Qed.
End mm_ops_count.

(** ** The properties at concrete states *)
Module Witness.
#[local] Existing Instance Vmmap.Witness.counted.

#[local] Instance counted_refs : RefCounts.
Proof. intros k o ob Hob _. by apply (assign_Some mmobjs). Qed.

(** A shared area of object 1, and a private one whose shadow object 3 is over object 2. *)
Definition private_area : vmarea := {|
  vma_start := 1056; vma_end := 1088; vma_off := 5; vma_prot := 3; vma_flags := 2;
  vma_vmmap := Some 1%positive; vma_obj := Some 3%positive; vma_plink := Some 1%positive;
  vma_olink := Some 2%positive |}.

Definition objs : gmap ptr mmobj :=
  {[ 1%positive := new_mmobj anon_mmobj_ops (MmoVmas []);
     2%positive := new_mmobj anon_mmobj_ops (MmoVmas [2%positive]);
     3%positive := shadow_over 2 2 ]}.

Definition parent : kernel :=
  boot <| vmmaps := {[ 1%positive := {| vmm_list := [1%positive; 2%positive]; vmm_proc := None |} ]} |>
       <| vmareas := {[ 1%positive := Vmmap.Witness.area1; 2%positive := private_area ]} |>
       <| mmobjs := objs |>.

Lemma parent_wf : map_wf parent 1 [1%positive; 2%positive] [Vmmap.Witness.area1; private_area].
Proof.
  split; [by eexists|by repeat constructor| |by repeat constructor|].
  - apply (bool_decide_unpack _). vm_compute. exact I.
  - split; [|by repeat constructor].
    rewrite !Forall_cons. unfold user_area, user_lo, user_hi. simpl. split_and!; try done; lia.
Qed.

Lemma memory n live : is_Some (slab_obj_alloc n live).
Proof. by eexists. Qed.

Lemma bottom_of_3 : bottom_of objs 3 2.
Proof.
  eexists _, _, [2%positive]. split_and!; [reflexivity|done| |reflexivity|done]. right. by exists 2%positive.
Qed.

Lemma parent_shareable : Forall (shareable objs) [Vmmap.Witness.area1; private_area].
Proof.
  rewrite !Forall_cons. split_and!; [split; [done|]|split; [done|]|constructor].
  - exists 1%positive, 1%positive. split; [done|]. eexists _, _, []. split_and!; [reflexivity|done| |reflexivity|done].
    by left.
  - exists 3%positive, 2%positive. split; [done|apply bottom_of_3].
Qed.

(** The child shares object 1 and has a shadow object of its own over object 3. *)
Lemma copy_on_write_spec_witness :
  exists k' new l' w1 w2 s, copy_on_write 1 parent = Ret (Some new) k' /\
    map_wf k' new l' [w1; w2] /\ vma_obj w1 = Some 1%positive /\ vma_obj w2 = Some s /\
    mmobjs k' !! s = Some (shadow_over 3 2).
Proof.
  destruct (copy_on_write_spec memory parent 1 _ _ parent_wf parent_shareable)
    as (k' & new & l' & vs' & ws & ws' & Hrun & _ & _ & Hwf & _ & _ & Hc & _).
  inversion Hc as [|? w1 w1' ? ? ? (o1 & b1 & Ho1 & _ & H1) Hc1]; subst.
  inversion Hc1 as [|? w2 w2' ? ? ? (o2 & b2 & Ho2 & Hb2 & H2) Hc2]; subst.
  inversion Hc2; subst. simpl in H1, H2. injection Ho1 as <-. injection Ho2 as <-.
  destruct H2 as (s & _ & Hs & ->).
  assert (b2 = 2%positive) as -> by (eapply bottom_of_unique; [exact Hb2|apply bottom_of_3]).
  exists k', new, l', w1', (w2 <| vma_olink := Some 2%positive |> <| vma_obj := Some s |>), s.
  split_and!; [exact Hrun|exact Hwf|by subst w1'|done|exact Hs].
Defined.
End Witness.
