(* ===== verification/Vnode.v ===== *)
(** * Vnode

    [kernel/fs/vnode.c]: the vnodes in use, their reference counts, the operations of special
    files, and the entry points of the memory object that is embedded in every vnode.

    The file systems and the devices are outside the sources: their operations are parameters
    ([FsOps], [DevOps]), as are the constants and types of [fs/stat.h], [fs/dirent.h],
    [fs/fcntl.h] and [fs/vnode.h] ([FsHeaders]).  The counters [vn_refcount] and [vn_nrespages]
    are those of the embedded object.

    [vput_spec]: when a vnode stays and how it goes; [vget_spec]: the vnode of a file is unique. *)

From S2P Require Import Prelude Platform State Sched Kmutex Mmobj Pframe Anon.

Class FsHeaders := {
  stat : Type;
  dirent : Type;
  sizeof_dirent : Z;
  S_IFCHR : Z; S_IFBLK : Z; S_IFDIR : Z;
  S_ISCHR : Z -> bool; S_ISBLK : Z -> bool; S_ISDIR : Z -> bool; S_ISREG : Z -> bool;
  O_CREAT : Z;
  SEEK_SET : Z; SEEK_CUR : Z; SEEK_END : Z;
  NAME_LEN : Z; MAXPATHLEN : Z;
  (* where the memory object and the mutex lie within a vnode *)
  embedded_mmobj : ptr -> ptr;
  embedded_mutex : ptr -> ptr;
}.

(** [vnode_ops_t]: a table of operations, any of which may be NULL.  A name is passed with its
    length: the string is what the length delimits.  What is read is part of the result. *)
Record vnode_ops `{FsHeaders} := {
  vop_read : option (ptr -> Z -> Z -> K (Z * list Z));
  vop_write : option (ptr -> Z -> list Z -> K Z);
  vop_mmap : option (ptr -> ptr -> K (Z * option ptr));
  vop_create : option (ptr -> string -> K (Z * option ptr));
  vop_mknod : option (ptr -> string -> Z -> Z -> K Z);
  vop_lookup : option (ptr -> string -> K (Z * option ptr));
  vop_link : option (ptr -> ptr -> string -> K Z);
  vop_unlink : option (ptr -> string -> K Z);
  vop_mkdir : option (ptr -> string -> K Z);
  vop_rmdir : option (ptr -> string -> K Z);
  vop_readdir : option (ptr -> Z -> K (Z * dirent));
  vop_stat : option (ptr -> K (Z * stat));
  vop_fillpage : option (ptr -> Z -> ptr -> K Z);
  vop_dirtypage : option (ptr -> Z -> K Z);
  vop_cleanpage : option (ptr -> Z -> ptr -> K Z);
}.

(** The file systems: [fs->fs_op] and [fs->fs_root], and the table of a file or directory. *)
Class FsOps `{FsHeaders} := {
  fs_read_vnode : ptr -> option (ptr -> K unit);
  fs_query_vnode : ptr -> ptr -> K Z;
  fs_delete_vnode : ptr -> option (ptr -> K unit);
  fs_root : ptr -> option ptr;
  filesystem_vops : vnode -> vnode_ops;
}.

(** [bytedev_ops_t] and the device tables. *)
Record bytedev_ops := {
  cd_read : option (ptr -> Z -> Z -> K (Z * list Z));
  cd_write : option (ptr -> Z -> list Z -> K Z);
  cd_mmap : option (ptr -> ptr -> K (Z * option ptr));
  cd_fillpage : option (ptr -> Z -> ptr -> K Z);
  cd_dirtypage : option (ptr -> Z -> K Z);
  cd_cleanpage : option (ptr -> Z -> ptr -> K Z);
}.

Class DevOps := {
  cd_ops : ptr -> option bytedev_ops;
  bytedev_lookup : Z -> option ptr;
  blockdev_lookup : Z -> option ptr;
}.

Section vnode.
Context `{P : Platform, F : LoopFuel, MH : MmHeaders, FH : FsHeaders, FO : !FsOps, DO : DevOps}.

(** ** Special files *)

(** The operation of the byte device behind a special file, which must exist. *)
Definition cdev_op {A} (v : vnode) (op : bytedev_ops -> option A) : K (ptr * A) :=
  match vn_cdev v with
  | Some d =>
      match cd_ops d with
      | Some ops => match op ops with Some f => ret (d, f) | None => fail KAssert end
      | None => fail KAssert
      end
  | None => fail KAssert
  end.

Definition is_special (v : vnode) : bool := S_ISCHR (vn_mode v) || S_ISBLK (vn_mode v).

Definition special_file_read (file : ptr) (offset count : Z) : K (Z * list Z) :=
  v ← deref vnodes file;
  KASSERT (is_special v);;
  (if S_ISCHR (vn_mode v) then _ ← cdev_op v cd_read; ret tt else ret tt);;
  if vn_mode v =? S_IFBLK then ret (- ENOTSUP, [])
  else if vn_mode v =? S_IFCHR then '(d, read) ← cdev_op v cd_read; read d offset count
  else ret (0, []).

Definition special_file_write (file : ptr) (offset : Z) (buf : list Z) : K Z :=
  v ← deref vnodes file;
  KASSERT (is_special v);;
  (if S_ISCHR (vn_mode v) then _ ← cdev_op v cd_write; ret tt else ret tt);;
  if vn_mode v =? S_IFBLK then ret (- ENOTSUP)
  else if vn_mode v =? S_IFCHR then '(d, write) ← cdev_op v cd_write; write d offset buf
  else ret 0.

Definition special_file_mmap (file vma : ptr) : K (Z * option ptr) :=
  v ← deref vnodes file;
  KASSERT (S_ISCHR (vn_mode v));;
  '(_, mmap) ← cdev_op v cd_mmap;
  mmap file vma.

Definition special_file_fillpage (file : ptr) (offset : Z) (pagebuf : ptr) : K Z :=
  v ← deref vnodes file;
  KASSERT (S_ISCHR (vn_mode v));;
  '(_, fillpage) ← cdev_op v cd_fillpage;
  fillpage file offset pagebuf.

Definition special_file_dirtypage (file : ptr) (offset : Z) : K Z :=
  v ← deref vnodes file;
  KASSERT (S_ISCHR (vn_mode v));;
  '(_, dirtypage) ← cdev_op v cd_dirtypage;
  dirtypage file offset.

Definition special_file_cleanpage (file : ptr) (offset : Z) (pagebuf : ptr) : K Z :=
  v ← deref vnodes file;
  KASSERT (S_ISCHR (vn_mode v));;
  '(_, cleanpage) ← cdev_op v cd_cleanpage;
  cleanpage file offset pagebuf.

(** Through the table of the root directory; a root that was a special file itself would come
    back here for ever. *)
Definition special_file_stat (vn : ptr) : K (Z * stat) :=
  v ← deref vnodes vn;
  r ← nonnull (fs_root (vn_fs v));
  root ← deref vnodes r;
  match vn_ops root with
  | no_vops => fail BadPtr
  | fs_vops => match vop_stat (filesystem_vops root) with Some f => f vn | None => fail KAssert end
  | bytedev_spec_vops | blockdev_spec_vops => no_fuel
  end.

Definition bytedev_vops : vnode_ops := {|
  vop_read := Some special_file_read; vop_write := Some special_file_write;
  vop_mmap := Some special_file_mmap; vop_create := None; vop_mknod := None; vop_lookup := None;
  vop_link := None; vop_unlink := None; vop_mkdir := None; vop_rmdir := None; vop_readdir := None;
  vop_stat := Some special_file_stat; vop_fillpage := Some special_file_fillpage;
  vop_dirtypage := Some special_file_dirtypage; vop_cleanpage := Some special_file_cleanpage |}.

Definition blockdev_vops : vnode_ops := {|
  vop_read := None; vop_write := None; vop_mmap := None; vop_create := None; vop_mknod := None;
  vop_lookup := None; vop_link := None; vop_unlink := None; vop_mkdir := None; vop_rmdir := None;
  vop_readdir := None; vop_stat := Some special_file_stat; vop_fillpage := None;
  vop_dirtypage := None; vop_cleanpage := None |}.

(** [vn->vn_ops] *)
Definition vops (vn : ptr) : K vnode_ops :=
  v ← deref vnodes vn;
  match vn_ops v with
  | no_vops => fail BadPtr
  | fs_vops => ret (filesystem_vops v)
  | bytedev_spec_vops => ret bytedev_vops
  | blockdev_spec_vops => ret blockdev_vops
  end.

Definition init_special_vnode (vn : ptr) : K unit :=
  v ← deref vnodes vn;
  if S_ISCHR (vn_mode v) then
    assign vnodes vn (fun v => v <| vn_ops := bytedev_spec_vops |>
                                 <| vn_cdev := bytedev_lookup (vn_devid v) |>)
  else
    KASSERT (S_ISBLK (vn_mode v));;
    assign vnodes vn (fun v => v <| vn_ops := blockdev_spec_vops |>
                                 <| vn_bdev := blockdev_lookup (vn_devid v) |>).

(** ** Reference counts *)

(** The embedded object, with [vn_refcount] and [vn_nrespages]. *)
Definition vn_object (vn : ptr) : K (ptr * mmobj) :=
  v ← deref vnodes vn; ob ← deref mmobjs (vn_mmobj v); ret (vn_mmobj v, ob).

Definition vref (vn : option ptr) : K unit :=
  KASSERT (bool_decide (vn <> None));;
  vn ← nonnull vn;
  '(o, ob) ← vn_object vn;
  KASSERT (0 <? mmo_refcount ob);;
  assign mmobjs o (fun ob => ob <| mmo_refcount ::= Z.succ |>).

(** [list_insert_head(&vnode_inuse_list, &vn->vn_link)] of a new vnode, and [list_remove] *)
Definition inuse_insert (vn : ptr) : K unit :=
  k ← get;
  if decide (vn ∈ vnode_inuse_list k) then fail ListCorrupt
  else modify (fun k => k <| vnode_inuse_list ::= cons vn |>).

Definition inuse_remove (vn : ptr) : K unit :=
  k ← get;
  if decide (vn ∈ vnode_inuse_list k) then modify (fun k => k <| vnode_inuse_list ::= remove_elem vn |>)
  else fail ListCorrupt.

(** [slab_obj_free]: the memory of the embedded structures goes with the vnode. *)
Definition vnode_free (vn : ptr) : K unit :=
  v ← deref vnodes vn;
  slab_free vnodes vn;;
  modify (fun k => k <| mmobjs ::= delete (vn_mmobj v) |> <| mutexes ::= delete (embedded_mutex vn) |>).

Section with_ops.
Context `{Ops : MmobjOps}.

(** [while (pframe_is_busy(vp)) sched_sleep_on(&vp->pf_waitq);] *)
Fixpoint busy_wait (fuel : nat) (pf : ptr) : K unit :=
  match fuel with
  | O => no_fuel
  | S fuel =>
      p ← deref pframes pf;
      if pf_busy p then sched_sleep_on (PframeWait pf);; busy_wait fuel pf else ret tt
  end.

Fixpoint free_pages (l : list ptr) : K unit :=
  match l with
  | [] => ret tt
  | vp :: l => busy_wait loop_fuel vp;; pframe_free vp;; free_pages l
  end.

(** The end of [vput], when the last reference has been dropped. *)
Definition vnode_delete (vn : ptr) : K unit :=
  '(_, ob) ← vn_object vn;
  KASSERT (mmo_refcount ob =? 0);;
  KASSERT (mmo_nrespages ob =? 0);;
  assign vnodes vn (fun v => v <| vn_busy := true |>);;
  v ← deref vnodes vn;
  match fs_delete_vnode (vn_fs v) with Some delete_vnode => delete_vnode vn | None => ret tt end;;
  sched_broadcast_on (VnodeWait vn);;
  inuse_remove vn;;
  vnode_free vn.

Definition vput (vn : option ptr) : K unit :=
  KASSERT (bool_decide (vn <> None));;
  vn ← nonnull vn;
  v ← deref vnodes vn;
  '(o, ob) ← vn_object vn;
  KASSERT (0 <=? mmo_nrespages ob);;
  KASSERT (mmo_nrespages ob <? mmo_refcount ob);;
  KASSERT (negb (vn_busy v));;
  linked ← (if mmo_nrespages ob =? mmo_refcount ob - 1
            then q ← fs_query_vnode (vn_fs v) vn; ret (negb (q =? 0))
            else ret true);
  (if linked : bool then ret tt
   else
     '(_, ob) ← vn_object vn;
     free_pages (mmo_respages ob);;
     '(_, ob) ← vn_object vn;
     KASSERT (mmo_nrespages ob =? 0);;
     KASSERT (mmo_refcount ob =? 1));;
  '(o, _) ← vn_object vn;
  assign mmobjs o (fun ob => ob <| mmo_refcount ::= Z.pred |>);;
  '(_, ob) ← vn_object vn;
  if 0 <? mmo_refcount ob then ret tt else vnode_delete vn.

(** ** Looking up and creating vnodes *)
Fixpoint find_inuse (l : list ptr) (fs : ptr) (vno : Z) : K (option ptr) :=
  match l with
  | [] => ret None
  | vn :: l =>
      v ← deref vnodes vn;
      if bool_decide (vn_fs v = fs) && (vn_vno v =? vno) then ret (Some vn) else find_inuse l fs vno
  end.

(** [memset] and the initialisation of a new vnode; [mmobj_init] leaves the counts at 0. *)
Definition vnode_init_obj (vn fs : ptr) (vno : Z) : K unit :=
  init_obj vnodes vn {|
    vn_ops := no_vops; vn_fs := fs; vn_mmobj := embedded_mmobj vn; vn_vno := vno; vn_mode := 0;
    vn_len := 0; vn_devid := 0; vn_cdev := None; vn_bdev := None; vn_busy := false |};;
  init_obj mutexes (embedded_mutex vn) {| km_holder := None |};;
  kmutex_init (embedded_mutex vn);;
  init_obj mmobjs (embedded_mmobj vn)
    ((new_mmobj (vnode_mmobj_ops vn) (MmoVmas [])) <| mmo_refcount := 0 |>);;
  sched_queue_init (VnodeWait vn).

Definition vnode_bring_in (vn fs : ptr) (vno : Z) : K unit :=
  vnode_init_obj vn fs vno;;
  assign vnodes vn (fun v => v <| vn_busy := true |>);;
  inuse_insert vn;;
  match fs_read_vnode fs with Some read_vnode => read_vnode vn | None => fail KAssert end;;
  assign vnodes vn (fun v => v <| vn_busy := false |>);;
  v ← deref vnodes vn;
  (if is_special v then init_special_vnode vn else ret tt);;
  '(o, _) ← vn_object vn;
  assign mmobjs o (fun ob => ob <| mmo_refcount := 1 |>).

Fixpoint vget_loop (fuel : nat) (fs : ptr) (vno : Z) : K ptr :=
  match fuel with
  | O => no_fuel
  | S fuel =>
      k ← get;
      r ← find_inuse (vnode_inuse_list k) fs vno;
      match r with
      | Some vn =>
          v ← deref vnodes vn;
          if vn_busy v then sched_sleep_on (VnodeWait vn);; vget_loop fuel fs vno
          else vref (Some vn);; ret vn
      | None =>
          a ← slab_alloc vnodes;
          match a with
          | None =>
              c ← gets curthr;
              thr ← nonnull c;
              sched_make_runnable thr;;
              sched_switch;;
              vget_loop fuel fs vno
          | Some vn => vnode_bring_in vn fs vno;; ret vn
          end
      end
  end.

Definition vget (fs : option ptr) (vno : Z) : K ptr :=
  KASSERT (bool_decide (fs <> None));;
  fs ← nonnull fs;
  vget_loop loop_fuel fs vno.

(** ** Whole file systems *)
Fixpoint in_use_loop (l : list ptr) (fs : ptr) (result : Z) : K Z :=
  match l with
  | [] => ret result
  | vn :: l =>
      v ← deref vnodes vn;
      '(_, ob) ← vn_object vn;
      KASSERT (mmo_nrespages ob <=? mmo_refcount ob);;
      KASSERT (0 <=? mmo_nrespages ob);;
      if decide (fs <> vn_fs v) then in_use_loop l fs result
      else
        let refs := mmo_refcount ob - mmo_nrespages ob in
        let is_root := bool_decide (fs_root (vn_fs v) = Some vn) in
        KASSERT (0 <=? refs);;
        KASSERT ((is_root && (1 <=? refs)) || (negb is_root && (0 <=? refs)));;
        if (is_root && (1 <? refs)) || (negb is_root && negb (refs =? 0))
        then in_use_loop l fs (- EBUSY)
        else in_use_loop l fs result
  end.

Definition vfs_is_in_use (fs : ptr) : K Z :=
  k ← get; in_use_loop (vnode_inuse_list k) fs 0.

(** The first dirty page of the list, cleaned; [true] when there was one. *)
Fixpoint flush_pages (l : list ptr) : K bool :=
  match l with
  | [] => ret false
  | p :: l =>
      pf ← deref pframes p;
      if pf_dirty pf then err ← pframe_clean p; KASSERT (err =? 0);; ret true
      else flush_pages l
  end.

Fixpoint flush_vnodes (l : list ptr) : K bool :=
  match l with
  | [] => ret false
  | v :: l =>
      '(_, ob) ← vn_object v;
      found ← flush_pages (mmo_respages ob);
      if found : bool then ret true else flush_vnodes l
  end.

(** The loop that begins at the label [clean]. *)
Fixpoint flush_loop (fuel : nat) : K unit :=
  match fuel with
  | O => no_fuel
  | S fuel =>
      k ← get;
      found ← flush_vnodes (vnode_inuse_list k);
      if found : bool then flush_loop fuel else ret tt
  end.

Fixpoint uncache_pages (l : list ptr) : K unit :=
  match l with
  | [] => ret tt
  | p :: l => pf ← deref pframes p; KASSERT (negb (pf_dirty pf));; pframe_free p;; uncache_pages l
  end.

Fixpoint uncache_vnodes (l : list ptr) : K unit :=
  match l with
  | [] => ret tt
  | v :: l => '(_, ob) ← vn_object v; uncache_pages (mmo_respages ob);; uncache_vnodes l
  end.

Definition vnode_flush_all (fs : ptr) : K unit :=
  flush_loop loop_fuel;;
  k ← get;
  uncache_vnodes (vnode_inuse_list k).

Fixpoint inuse_count (l : list ptr) (fs : ptr) : K Z :=
  match l with
  | [] => ret 0
  | vn :: l =>
      v ← deref vnodes vn;
      n ← inuse_count l fs;
      ret (if decide (vn_fs v = fs) then n + 1 else n)
  end.

Definition vnode_inuse (fs : ptr) : K Z := k ← get; inuse_count (vnode_inuse_list k) fs.
End with_ops.

Definition vnode_init : K unit := modify (fun k => k <| vnode_inuse_list := [] |>).

(** ** Entry points of the embedded object

    [mmobj_to_vnode(o)] is the vnode that the table of the object names. *)
Definition vo_lookuppage (Ops : MmobjOps) (vn : ptr) (pagenum forwrite : Z) : K (Z * option ptr) :=
  v ← deref vnodes vn;
  if uint32 (vn_len v) <=? uint32 (pagenum * PAGE_SIZE) then ret (- EINVAL, None)
  else pframe_get (vn_mmobj v) pagenum.

Definition vo_readpage (vn pf : ptr) : K Z :=
  ops ← vops vn;
  p ← deref pframes pf;
  fillpage ← nonnull (vop_fillpage ops);
  fillpage vn (int32 (PN_TO_ADDR (pf_pagenum p))) (pf_addr p).

Definition vo_dirtypage (vn pf : ptr) : K Z :=
  p ← deref pframes pf;
  if pf_dirty p then ret 0
  else
    ops ← vops vn;
    dirtypage ← nonnull (vop_dirtypage ops);
    dirtypage vn (int32 (PN_TO_ADDR (pf_pagenum p))).

Definition vo_cleanpage (vn pf : ptr) : K Z :=
  ops ← vops vn;
  p ← deref pframes pf;
  cleanpage ← nonnull (vop_cleanpage ops);
  cleanpage vn (int32 (PN_TO_ADDR (pf_pagenum p))) (pf_addr p).

#[export] Instance vnode_mm : VnodeMm := {|
  vo_vref vn := vref (Some vn);
  vo_vput ops vn := vput (Ops := ops) (Some vn);
  vlookuppage ops vn pagenum forwrite := vo_lookuppage ops vn pagenum forwrite;
  vreadpage := vo_readpage;
  vdirtypage := vo_dirtypage;
  vcleanpage := vo_cleanpage;
|}.
End vnode.

(** ** Releasing a vnode *)

(** The object [o] of vnode [vn] with one reference less. *)
Definition less_one (o : ptr) (ob : mmobj) (k : kernel) : kernel :=
  k <| mmobjs := <[o := ob <| mmo_refcount ::= Z.pred |>]> (mmobjs k) |>.

Section vput_lemmas.
Context `{P : Platform, F : LoopFuel, MHO : MmHeadersOk, FH : FsHeaders, FO : !FsOps, DO : DevOps}.
Context (vn : ptr) (v : vnode).
Implicit Types (k : kernel) (ob : mmobj) (ps : list ptr).

Lemma vn_object_run {A} k ob (f : ptr * mmobj -> K A) :
  vnodes k !! vn = Some v -> mmobjs k !! vn_mmobj v = Some ob ->
  bind (vn_object vn) f k = f (vn_mmobj v, ob) k.
Proof.
  intros Hv Hob. apply bind_ret. unfold vn_object.
  by rewrite (bind_deref vnodes _ _ _ _ Hv), (bind_deref mmobjs _ _ _ _ Hob).
Qed.

(** The last part of [vput]. *)
Lemma vput_drop k ob :
  vnodes k !! vn = Some v -> mmobjs k !! vn_mmobj v = Some ob ->
  ('(o, _) ← vn_object vn;
   assign mmobjs o (fun ob => ob <| mmo_refcount ::= Z.pred |>);;
   '(_, ob) ← vn_object vn;
   if 0 <? mmo_refcount ob then ret tt else vnode_delete vn) k =
  if 1 <? mmo_refcount ob then Ret tt (less_one (vn_mmobj v) ob k)
  else vnode_delete vn (less_one (vn_mmobj v) ob k).
Proof.
  intros Hv Hob. rewrite (vn_object_run k ob) by done. cbn beta iota.
  rewrite (bind_assign mmobjs _ _ _ _ _ Hob).
  erewrite vn_object_run; [|exact Hv|apply lookup_insert_eq]. cbn beta iota.
  change (mmo_refcount (ob <| mmo_refcount ::= Z.pred |>)) with (Z.pred (mmo_refcount ob)).
  by destruct (Z.ltb_spec 1 (mmo_refcount ob)), (Z.ltb_spec 0 (Z.pred (mmo_refcount ob))); try lia.
Qed.

(** The vnode stays: other references are left, or it is linked and has cached pages. *)
Lemma vput_keeps `{Ops : MmobjOps} k ob q :
  vnodes k !! vn = Some v -> mmobjs k !! vn_mmobj v = Some ob -> vn_busy v = false ->
  0 <= mmo_nrespages ob < mmo_refcount ob -> 1 < mmo_refcount ob ->
  (mmo_nrespages ob = mmo_refcount ob - 1 -> fs_query_vnode (vn_fs v) vn k = Ret q k /\ q <> 0) ->
  vput (Some vn) k = Ret tt (less_one (vn_mmobj v) ob k).
Proof.
  intros Hv Hob Hbusy [Hn Hlt] Hone Hq. unfold vput. rewrite bind_KASSERT, bind_nonnull by done.
  rewrite (bind_deref vnodes _ _ _ _ Hv), (vn_object_run k ob) by done. cbn beta iota.
  rewrite !bind_KASSERT by (rewrite ?Hbusy; try apply Z.leb_le; try apply Z.ltb_lt; done).
  erewrite bind_ret with (a := true) (s' := k).
  2: { destruct (Z.eqb_spec (mmo_nrespages ob) (mmo_refcount ob - 1)) as [Heq|]; [|done].
       destruct (Hq Heq) as [Hrun Hne]. rewrite (bind_ret _ _ _ _ _ Hrun).
       by destruct (Z.eqb_spec q 0). }
  cbn beta iota. rewrite bind_ret_l, (vput_drop k ob) by done. by destruct (Z.ltb_spec 1 (mmo_refcount ob)); [|lia].
Qed.

Lemma released_perm o ps ps' k k' : ps ≡ₚ ps' -> released o ps k k' -> released o ps' k k'.
Proof.
  intros Hps [G K M Pg O V Fv T]. assert (Hin : forall x, x ∈ ps' <-> x ∈ ps) by (intros x; by rewrite Hps).
  split; try done.
  - intros x Hx%Hin. by apply G.
  - intros x Hx. apply K. by rewrite <- Hin.
  - intros x p Hx%Hin. by apply M.
  - intros a. destruct (Pg a) as [|(? & x & p & Hx%Hin & ?)]; [by left|right]. split; [done|]. by exists x, p.
Qed.

Lemma released_recount o ob ob' ps k k' : mmobjs k' !! o = Some ob -> released o ps k k' ->
  released o ps k (k' <| mmobjs := <[o := ob']> (mmobjs k') |>).
Proof. intros Ho []. split; try done. intros x Hx. simpl. rewrite lookup_insert_ne by done. auto. Qed.

(** A page that is not busy, of a vnode that is about to lose its last reference. *)
Lemma free_page_run n k ob pf ps p :
  owns k (vn_mmobj v) ob (pf :: ps) -> pframes k !! pf = Some p -> pf_pincount p = 0 ->
  vnodes k !! vn = Some v -> vn_busy v = false -> mmo_ops ob = vnode_mmobj_ops vn ->
  mmo_refcount ob = Z.of_nat (length (pf :: ps)) + 1 ->
  exists k' ob', pframe_free (Ops := mm_ops (S n)) pf k = Ret tt k' /\ owns k' (vn_mmobj v) ob' ps /\
    mmo_ops ob' = vnode_mmobj_ops vn /\ mmo_refcount ob' = Z.of_nat (length ps) + 1 /\
    released (vn_mmobj v) [pf] k k'.
Proof.
  intros Hown Hp Hpin Hv Hbusy Hops Hr. set (o := vn_mmobj v) in *.
  destruct (uncache_unpinned k o ob [] ps pf p Hown Hp Hpin) as (h & cs & Hfree & Hown2 & Hrel).
  set (k2 := uncached _ _ _ _ _ _ _) in *. set (ob2 := ob <| mmo_nrespages ::= Z.pred |> <| mmo_respages ::= _ |>) in *.
  assert (Hn2 : mmo_nrespages ob2 = Z.of_nat (length ps)) by apply Hown2.
  assert (Hr2 : mmo_refcount ob2 = Z.of_nat (length ps) + 2) by (simpl in Hr; change (mmo_refcount ob2) with (mmo_refcount ob); lia).
  exists (less_one o ob2 k2), (ob2 <| mmo_refcount := Z.of_nat (length ps) + 1 |>). rewrite Hfree.
  assert (Heq : ob2 <| mmo_refcount ::= Z.pred |> = ob2 <| mmo_refcount := Z.of_nat (length ps) + 1 |>).
  { transitivity (ob2 <| mmo_refcount := Z.pred (mmo_refcount ob2) |>); [done|]. rewrite Hr2.
    by replace (Z.pred (Z.of_nat (length ps) + 2)) with (Z.of_nat (length ps) + 1) by lia. }
  unfold less_one. rewrite Heq. split_and!; try done.
  - simpl. unfold via. rewrite (bind_deref mmobjs _ _ _ _ (ow_ob _ _ _ _ Hown2)).
    change (mmo_ops ob2) with (mmo_ops ob). rewrite Hops. rewrite <- Heq.
    apply (vput_keeps k2 ob2 0); [exact Hv|apply Hown2|done|lia|lia|lia].
  - by apply owns_recount.
  - eapply released_recount; [apply Hown2|done].
Qed.

Definition unpinned (k : kernel) (ps : list ptr) : Prop :=
  Forall (fun pf => exists p, pframes k !! pf = Some p /\ pf_pincount p = 0) ps.

Lemma busy_wait_idle fuel pf p k : (0 < fuel)%nat -> pframes k !! pf = Some p -> pf_busy p = false ->
  busy_wait fuel pf k = Ret tt k.
Proof. intros Hf Hp Hb. destruct fuel; [lia|]. simpl. by rewrite (bind_deref pframes _ _ _ _ Hp), Hb. Qed.

Lemma free_pages_run n ps : forall k ob,
  (0 < loop_fuel)%nat -> owns k (vn_mmobj v) ob ps -> unpinned k ps ->
  vnodes k !! vn = Some v -> vn_busy v = false -> mmo_ops ob = vnode_mmobj_ops vn ->
  mmo_refcount ob = Z.of_nat (length ps) + 1 ->
  exists k' ob', free_pages (Ops := mm_ops (S n)) ps k = Ret tt k' /\ owns k' (vn_mmobj v) ob' [] /\
    mmo_refcount ob' = 1 /\ released (vn_mmobj v) ps k k'.
Proof.
  induction ps as [|pf ps IH]; intros k ob Hfuel Hown Hpin Hv Hbusy Hops Hr.
  { exists k, ob. split_and!; [done..|]. apply released_nil. }
  pose proof Hpin as [(p & Hp & Hpc) Hpins]%Forall_cons.
  destruct (ow_page _ _ _ _ Hown pf) as (p' & Hp' & _ & Hb & _); [by left|]. simplify_eq.
  destruct (free_page_run n k ob pf ps p) as (k1 & ob1 & Hrun & Hown1 & Hops1 & Hr1 & Hrel1); [done..|].
  pose proof (ow_nodup _ _ _ _ Hown) as [Hni _]%NoDup_cons.
  destruct (IH k1 ob1) as (k2 & ob2 & Hrun2 & Hown2 & Hr2 & Hrel2); [done|done| |by rewrite (proj1 (rl_vfs _ _ _ _ Hrel1))|done..|].
  { eapply Forall_impl; [apply Forall_and; split; [exact Hpins|apply Forall_forall; intros x Hx; exact Hx]|].
    simpl. intros x [(q & Hq & Hz) Hx]. exists q. split; [|done]. rewrite (rl_kept _ _ _ _ Hrel1); [done|].
    rewrite list_elem_of_singleton. by intros ->. }
  exists k2, ob2. split_and!; [|done..|].
  - simpl. rewrite (bind_ret _ _ _ _ _ (busy_wait_idle _ _ _ _ Hfuel Hp Hb)). by rewrite (bind_ret _ _ _ _ _ Hrun).
  - eapply released_perm; [|by eapply released_snoc]. by rewrite Permutation_app_comm.
Qed.
End vput_lemmas.

(** What is left of a vnode after the file system has taken it off the disk. *)
Definition retired (vn : ptr) (v : vnode) (k : kernel) : Prop :=
  vnodes k !! vn = Some (v <| vn_busy := true |>) /\ vn ∈ vnode_inuse_list k /\ sched_wf k.

(** The vnode and its embedded structures are gone, and whoever waited for it is runnable. *)
Record vnode_gone (vn : ptr) (v : vnode) (k k' : kernel) : Prop := {
  vg_list : vnode_inuse_list k' = remove_elem vn (vnode_inuse_list k);
  vg_vnodes : vnodes k' = delete vn (vnodes k);
  vg_mmobjs : mmobjs k' = delete (vn_mmobj v) (mmobjs k);
  vg_pages : pframes k' = pframes k /\ pages k' = pages k;
  vg_procs : procs k' = procs k /\ curproc k' = curproc k /\ vfs_root_vn k' = vfs_root_vn k;
  vg_sched : sched_wf k';
  vg_woken q : fifo k' q = spec_broadcast (VnodeWait vn) (fifo k) q;
}.

(** The file system's [delete_vnode] takes the state from [k] to a [k'] with [off_disk vn k k'];
    it may block.  Nobody else takes a busy vnode away. *)
Class FsDelete `{FsOps} (R : rely kernel) (off_disk : ptr -> kernel -> kernel -> Prop) : Prop := {
  delete_vnode_retires fs delete_vnode vn v k :
    fs_delete_vnode fs = Some delete_vnode -> vn_fs v = fs -> retired vn v k ->
    wp R (delete_vnode vn k) (fun _ k' => off_disk vn k k' /\ retired vn v k');
}.

Section vput.
Context `{P : Platform, F : LoopFuel, MHO : MmHeadersOk, FH : FsHeaders, FO : !FsOps, DO : DevOps}.
Context (R : rely kernel) (off_disk : ptr -> kernel -> kernel -> Prop) `{FD : !FsDelete R off_disk}.
Context (vn : ptr) (v : vnode).

Lemma vnode_free_gone k : retired vn v k ->
  exists k', (sched_broadcast_on (VnodeWait vn);; inuse_remove vn;; vnode_free vn) k = Ret tt k' /\
    vnode_gone vn v k k'.
Proof.
  intros (Hv & Hin & Hwf).
  destruct (sched_broadcast_run (VnodeWait vn) k) as (k1 & Hb & Hwf1 & Hfr & Hq); [done..|].
  assert (Hsame : vnode_inuse_list k1 = vnode_inuse_list k /\ vnodes k1 = vnodes k /\ mmobjs k1 = mmobjs k /\
    pframes k1 = pframes k /\ pages k1 = pages k /\
    procs k1 = procs k /\ curproc k1 = curproc k /\ vfs_root_vn k1 = vfs_root_vn k) by (rewrite <- Hfr; done).
  destruct Hsame as (HI & HV & HM & HP & HG & HC).
  eexists. split.
  - rewrite (bind_ret _ _ _ _ _ Hb). unfold inuse_remove, vnode_free. rewrite bind_unfold, bind_get.
    rewrite decide_True by (by rewrite HI). rewrite <- HV in Hv. rewrite <- bind_unfold, bind_modify.
    rewrite (bind_deref vnodes _ (v <| vn_busy := true |>)) by exact Hv.
    rewrite (bind_slab_free vnodes _ (v <| vn_busy := true |>)) by exact Hv. reflexivity.
  - split; simpl; rewrite ?HI, ?HV, ?HM; try done. by destruct Hwf1.
Qed.

(** Marked busy with no reference left, which is how [delete_vnode] gets it. *)
Definition marked (ob : mmobj) (k : kernel) : kernel :=
  (less_one (vn_mmobj v) ob k) <| vnodes := <[vn := v <| vn_busy := true |>]> (vnodes k) |>.

Definition unlinked (k k' : kernel) : Prop :=
  match fs_delete_vnode (vn_fs v) with Some _ => off_disk vn k k' | None => k' = k end.

Lemma vnode_delete_wp k ob :
  vnodes k !! vn = Some v -> mmobjs k !! vn_mmobj v = Some ob -> mmo_refcount ob = 1 ->
  mmo_nrespages ob = 0 -> vn ∈ vnode_inuse_list k -> sched_wf k ->
  wp R (vnode_delete vn (less_one (vn_mmobj v) ob k)) (fun _ k' =>
    exists k1, unlinked (marked ob k) k1 /\ vnode_gone vn v k1 k').
Proof.
  intros Hv Hob Hr Hn Hin Hwf. unfold vnode_delete.
  erewrite vn_object_run; [|exact Hv|apply lookup_insert_eq]. cbn beta iota.
  rewrite !bind_KASSERT by (simpl; by rewrite ?Hr, ?Hn).
  rewrite (bind_assign vnodes _ v) by exact Hv. fold (marked ob k). assert (Hret : retired vn v (marked ob k)).
  { split_and!; [apply lookup_insert_eq|done|by destruct Hwf]. }
  rewrite (bind_deref vnodes _ _ _ _ (proj1 Hret)). apply wp_bind.
  apply wp_mono with (fun _ k' => unlinked (marked ob k) k' /\ retired vn v k').
  - unfold unlinked. change (vn_fs (v <| vn_busy := true |>)) with (vn_fs v).
    destruct (fs_delete_vnode (vn_fs v)) as [d|] eqn:Hd; [|done]. by eapply delete_vnode_retires.
  - intros _ k2 [Hun Hret2]. destruct (vnode_free_gone k2 Hret2) as (k' & Hrun & Hgone).
    eapply wp_ret_intro; [exact Hrun|]. by exists k2.
Qed.

(** Does the vnode stay in memory? *)
Definition stays (ob : mmobj) (linked : Z) : bool :=
  (mmo_nrespages ob + 1 <? mmo_refcount ob) || (negb (linked =? 0) && (0 <? mmo_nrespages ob)).

(** The last reference: what is left to do once the pages are gone. *)
Lemma vput_last n k ob ps q :
  (0 < loop_fuel)%nat -> vnodes k !! vn = Some v -> vn_busy v = false ->
  mmo_ops ob = vnode_mmobj_ops vn -> owns k (vn_mmobj v) ob ps -> unpinned k ps ->
  mmo_refcount ob = Z.of_nat (length ps) + 1 -> fs_query_vnode (vn_fs v) vn k = Ret q k ->
  q = 0 \/ ps = [] ->
  exists k1 ob1, vput (Ops := mm_ops (S n)) (Some vn) k =
      vnode_delete vn (less_one (vn_mmobj v) ob1 k1) /\
    owns k1 (vn_mmobj v) ob1 [] /\ mmo_refcount ob1 = 1 /\ released (vn_mmobj v) ps k k1.
Proof.
  intros Hfuel Hv Hbusy Hops Hown Hpin Hr Hq Hcase. pose proof (ow_ob _ _ _ _ Hown) as Hob.
  pose proof (ow_n _ _ _ _ Hown) as Hn.
  destruct (free_pages_run vn v n ps k ob) as (k1 & ob1 & Hfree & Hown1 & Hr1 & Hrel); [done..|].
  assert (Hstart : forall k1 ob1, owns k1 (vn_mmobj v) ob1 [] -> mmo_refcount ob1 = 1 ->
    vnodes k1 = vnodes k ->
    (if negb (q =? 0) then k1 = k else free_pages (Ops := mm_ops (S n)) ps k = Ret tt k1) ->
    vput (Ops := mm_ops (S n)) (Some vn) k = vnode_delete vn (less_one (vn_mmobj v) ob1 k1)).
  { clear k1 ob1 Hfree Hown1 Hr1 Hrel. intros k1 ob1 Hown1 Hr1 Hvs Hrun. unfold vput.
    rewrite bind_KASSERT, bind_nonnull by done.
    rewrite (bind_deref vnodes _ _ _ _ Hv), (vn_object_run vn v k ob) by done. cbn beta iota.
    rewrite !bind_KASSERT by (rewrite ?Hbusy; try apply Z.leb_le; try apply Z.ltb_lt; try lia; done).
    replace (mmo_nrespages ob =? mmo_refcount ob - 1) with true by (symmetry; apply Z.eqb_eq; lia).
    rewrite bind_unfold, (bind_ret _ _ _ _ _ Hq). cbn [obind ret]. pose proof (ow_ob _ _ _ _ Hown1) as Hob1.
    rewrite bind_ret with (a := tt) (s' := k1).
    - rewrite (vput_drop vn v k1 ob1), Hr1 by (rewrite ?Hvs; done). done.
    - destruct (negb (q =? 0)); [by subst|]. rewrite (vn_object_run vn v k ob) by done. cbn beta iota.
      rewrite (ow_res _ _ _ _ Hown), (bind_ret _ _ _ _ _ Hrun), (vn_object_run vn v k1 ob1) by (rewrite ?Hvs; done).
      cbn beta iota. rewrite (ow_n _ _ _ _ Hown1), Hr1. done. }
  destruct (Z.eqb_spec q 0) as [|Hne].
  - exists k1, ob1. split_and!; [|done..]. apply Hstart; [done..|apply Hrel|done].
  - destruct Hcase as [|Hps]; [done|]. exists k, ob. rewrite Hps in *. split_and!; [by apply Hstart|done..|].
    apply released_nil.
Qed.

(** C12: [vput] gives up one reference.  While other references are left, or the vnode is linked in
    its file system and has cached pages, that is all.  Otherwise the vnode goes: its pages are
    freed, each of which releases a reference of its own on the way, the file system is told with
    the vnode busy and without references, threads that were waiting for it become runnable, and
    the vnode leaves the list of vnodes in use and memory. *)
Theorem vput_spec n k ob ps q :
  (0 < loop_fuel)%nat -> vnodes k !! vn = Some v -> vn_busy v = false ->
  mmo_ops ob = vnode_mmobj_ops vn -> owns k (vn_mmobj v) ob ps -> unpinned k ps ->
  mmo_nrespages ob < mmo_refcount ob -> fs_query_vnode (vn_fs v) vn k = Ret q k ->
  vn ∈ vnode_inuse_list k -> sched_wf k ->
  wp R (vput (Ops := mm_ops (S n)) (Some vn) k) (fun _ k' =>
    if stays ob q then k' = less_one (vn_mmobj v) ob k
    else exists k1 ob1 k2, released (vn_mmobj v) ps k k1 /\ mmo_nrespages ob1 = 0 /\
      unlinked (marked ob1 k1) k2 /\ vnode_gone vn v k2 k').
Proof.
  intros Hfuel Hv Hbusy Hops Hown Hpin Hlt Hq Hin Hwf. pose proof (ow_ob _ _ _ _ Hown) as Hob.
  pose proof (ow_n _ _ _ _ Hown) as Hn. destruct (stays ob q) eqn:Hst.
  - eapply wp_ret_intro; [|done]. apply orb_true_iff in Hst. apply (vput_keeps vn v k ob q); [done..|lia| |].
    + destruct Hst; to_prop; lia.
    + intros Heq. split; [done|]. destruct Hst; to_prop; lia.
  - unfold stays in Hst. to_prop. rewrite andb_false_iff in *.
    destruct (vput_last n k ob ps q) as (k1 & ob1 & Hrun & Hown1 & Hr1 & Hrel); [done..|lia|done| |].
    { match goal with H : _ \/ _ |- _ => destruct H end; to_prop; [by left|right].
      destruct ps; [done|]. simpl in *. lia. }
    rewrite Hrun. destruct (rl_vfs _ _ _ _ Hrel) as [HV HI]. destruct (rl_threads _ _ _ _ Hrel) as (HT & HQ & _).
    eapply wp_mono; [apply vnode_delete_wp; try apply Hown1; rewrite ?HV, ?HI; try done|].
    + by apply (sched_wf_ext k).
    + intros _ k' (k2 & Hun & Hgone). exists k1, ob1, k2. split_and!; [done| |done..]. apply Hown1.
Qed.
End vput.

(** ** Finding and bringing in a vnode *)

(** The vnodes in use are in memory, and no two are the same file. *)
Record inuse_ok (vs : gmap ptr vnode) (l : list ptr) : Prop := {
  iu_nodup : NoDup l;
  iu_live vn : vn ∈ l -> is_Some (vs !! vn);
  iu_unique vn1 vn2 v1 v2 : vn1 ∈ l -> vn2 ∈ l -> vs !! vn1 = Some v1 -> vs !! vn2 = Some v2 ->
    vn_fs v1 = vn_fs v2 -> vn_vno v1 = vn_vno v2 -> vn1 = vn2;
}.

Definition is_file (fs : ptr) (vno : Z) (v : vnode) : Prop := vn_fs v = fs /\ vn_vno v = vno.

(** Vnode [vn] is in use for file [vno] of [fs]. *)
Definition in_use (k : kernel) (fs : ptr) (vno : Z) (vn : ptr) (v : vnode) : Prop :=
  vn ∈ vnode_inuse_list k /\ vnodes k !! vn = Some v /\ is_file fs vno v.

(** A vnode that is being brought in. *)
Definition coming (k : kernel) (fs : ptr) (vno : Z) (vn : ptr) (v : vnode) : Prop :=
  inuse_ok (vnodes k) (vnode_inuse_list k) /\ in_use k fs vno vn v /\ vn_busy v = true /\
  is_Some (mmobjs k !! vn_mmobj v).

(** The file system's [read_vnode] fills in the mode, the length and the like; it may block, while
    the vnode is busy and stays what it is. *)
Class FsRead `{FsOps} (R : rely kernel) : Prop := {
  read_vnode_reads fs vno vn v k : coming k fs vno vn v ->
    exists read_vnode, fs_read_vnode fs = Some read_vnode /\
      wp R (read_vnode vn k) (fun _ k' => exists v', coming k' fs vno vn v');
}.

(** The operations of a special file are those of its device. *)
Definition special_ops `{FsHeaders, DevOps} (v : vnode) : Prop :=
  (S_ISCHR (vn_mode v) = true -> vn_ops v = bytedev_spec_vops /\ vn_cdev v = bytedev_lookup (vn_devid v)) /\
  (S_ISCHR (vn_mode v) = false -> S_ISBLK (vn_mode v) = true ->
    vn_ops v = blockdev_spec_vops /\ vn_bdev v = blockdev_lookup (vn_devid v)).

(** The vnode can be used, with [r] references. *)
Definition brought_in `{FsHeaders, DevOps} (k : kernel) (fs : ptr) (vno : Z) (vn : ptr) (r : Z) : Prop :=
  inuse_ok (vnodes k) (vnode_inuse_list k) /\ exists v ob, in_use k fs vno vn v /\ vn_busy v = false /\
    special_ops v /\ mmobjs k !! vn_mmobj v = Some ob /\ mmo_refcount ob = r.

Section vget.
Context `{PO : PlatformOk, F : LoopFuel, FH : FsHeaders, FO : !FsOps, DO : DevOps}.
Context (R : rely kernel) `{FR : !FsRead R}.

Lemma find_inuse_run fs vno k l : Forall (fun vn => is_Some (vnodes k !! vn)) l ->
  (exists vn v, find_inuse l fs vno k = Ret (Some vn) k /\ vn ∈ l /\ vnodes k !! vn = Some v /\ is_file fs vno v) \/
  (find_inuse l fs vno k = Ret None k /\
   forall vn v, vn ∈ l -> vnodes k !! vn = Some v -> ~ is_file fs vno v).
Proof.
  induction l as [|vn l IH]; [by right; split; [|intros ? ? ?%not_elem_of_nil]|].
  intros [[v Hv] Hl]%Forall_cons. simpl. rewrite (bind_deref vnodes _ _ _ _ Hv).
  destruct (bool_decide (vn_fs v = fs) && (vn_vno v =? vno)) eqn:Hm.
  { left. to_prop. exists vn, v. split; [done|]. split; [by left|done]. }
  destruct (IH Hl) as [(vn' & v' & Hrun & Hin & Hrest)|[Hrun Hno]].
  - left. exists vn', v'. split; [done|]. split; [by right|done].
  - right. split; [done|]. intros vn' v' [->|Hin]%elem_of_cons Hv'; [|by apply (Hno vn')].
    simplify_eq. intros [Hf Hn]. apply andb_false_iff in Hm. destruct Hm; to_prop; congruence.
Qed.

Lemma inuse_ok_update vs l vn v v' : inuse_ok vs l -> vs !! vn = Some v ->
  vn_fs v' = vn_fs v -> vn_vno v' = vn_vno v -> inuse_ok (<[vn := v']> vs) l.
Proof.
  intros [Hnd Hlive Huni] Hv Hf Hn.
  assert (Hold : forall x w, <[vn := v']> vs !! x = Some w -> exists w0, vs !! x = Some w0 /\
    vn_fs w = vn_fs w0 /\ vn_vno w = vn_vno w0).
  { intros x w [[<- <-]|[_ Hw]]%lookup_insert_Some; eauto. }
  split; [done| |].
  - intros x Hx. rewrite lookup_insert_is_Some'. by right; apply Hlive.
  - intros x y w z Hx Hy (w0 & Hw & Hf1 & Hn1)%Hold (z0 & Hz & Hf2 & Hn2)%Hold Hfs Hvno.
    by eapply Huni; eauto; congruence.
Qed.

Lemma inuse_ok_insert vs l vn v : inuse_ok vs l -> vs !! vn = None ->
  (forall x w, x ∈ l -> vs !! x = Some w -> ~ is_file (vn_fs v) (vn_vno v) w) ->
  inuse_ok (<[vn := v]> vs) (vn :: l).
Proof.
  intros [Hnd Hlive Huni] Hv Hnew.
  assert (Hni : vn ∉ l) by (intros [w Hw]%Hlive; congruence).
  assert (Hold : forall x w, x ∈ l -> <[vn := v]> vs !! x = Some w -> vs !! x = Some w).
  { intros x w Hx. by rewrite lookup_insert_ne by (by intros ->). }
  split; [by constructor| |].
  - intros x [->|Hx]%elem_of_cons; [by rewrite lookup_insert_eq|]. rewrite lookup_insert_is_Some'. by right; apply Hlive.
  - intros x y w z [->|Hx]%elem_of_cons [->|Hy]%elem_of_cons Hw Hz Hf Hn; try done.
    + rewrite lookup_insert_eq in Hw. simplify_eq. by destruct (Hnew y z Hy (Hold _ _ Hy Hz)).
    + rewrite lookup_insert_eq in Hz. simplify_eq. by destruct (Hnew x w Hx (Hold _ _ Hx Hw)).
    + by eapply Huni; eauto.
Qed.

(** From the moment the file system has read the vnode. *)
Lemma bring_in_end fs vno vn v k : coming k fs vno vn v ->
  exists k', (assign vnodes vn (fun v => v <| vn_busy := false |>);;
    v ← deref vnodes vn;
    (if is_special v then init_special_vnode vn else ret tt);;
    '(o, _) ← vn_object vn;
    assign mmobjs o (fun ob => ob <| mmo_refcount := 1 |>)) k = Ret tt k' /\ brought_in k' fs vno vn 1.
Proof.
  intros (Hok & (Hin & Hv & Hf & Hn) & _ & [ob Hob]). rewrite (bind_assign vnodes _ _ _ _ _ Hv).
  set (v1 := v <| vn_busy := false |>). set (k1 := k <| vnodes := _ |>).
  assert (Hv1 : vnodes k1 !! vn = Some v1) by apply lookup_insert_eq.
  assert (Hsp : exists v2, (if is_special v1 then init_special_vnode vn else ret tt) k1 =
      Ret tt (k1 <| vnodes := <[vn := v2]> (vnodes k1) |>) /\ special_ops v2 /\ vn_fs v2 = vn_fs v /\
      vn_vno v2 = vn_vno v /\ vn_mmobj v2 = vn_mmobj v /\ vn_busy v2 = false).
  { unfold is_special, init_special_vnode, special_ops. destruct (S_ISCHR (vn_mode v1)) eqn:Hchr; cbn [orb].
    - eexists. rewrite (bind_deref vnodes _ _ _ _ Hv1), Hchr, (assign_Some vnodes _ _ _ _ Hv1). simpl.
      split; [done|]. split; [|done]. split; [done|]. intros Hc. change (S_ISCHR (vn_mode v1) = false) in Hc. congruence.
    - destruct (S_ISBLK (vn_mode v1)) eqn:Hblk.
      + eexists. rewrite (bind_deref vnodes _ _ _ _ Hv1), Hchr, bind_KASSERT, (assign_Some vnodes _ _ _ _ Hv1) by done.
        split; [done|]. split; [|done]. split; [|done]. intros Hc. change (S_ISCHR (vn_mode v1) = true) in Hc. congruence.
      + exists v1. rewrite insert_id by done. split; [unfold ret; f_equal; by kernel_ext|].
        by rewrite Hchr, Hblk. }
  destruct Hsp as (v2 & Hrun & Hspec & Hf2 & Hn2 & Ho2 & Hb2). eexists. split.
  - rewrite (bind_deref vnodes _ _ _ _ Hv1), (bind_ret _ _ _ _ _ Hrun).
    rewrite (vn_object_run vn v2 _ ob); [|apply lookup_insert_eq|by rewrite Ho2]. cbn beta iota.
    rewrite (assign_Some mmobjs _ ob) by (simpl; by rewrite Ho2). done.
  - split; [|exists v2, (ob <| mmo_refcount := 1 |>)]; simpl.
    + eapply inuse_ok_update; [eapply inuse_ok_update; [done..| |]|apply lookup_insert_eq| |]; done.
    + unfold in_use, is_file. simpl. rewrite !lookup_insert_eq. split_and!; try done; congruence.
Qed.

Lemma vnode_bring_in_wp fs vno vn k : inuse_ok (vnodes k) (vnode_inuse_list k) -> vnodes k !! vn = None ->
  (forall x w, x ∈ vnode_inuse_list k -> vnodes k !! x = Some w -> ~ is_file fs vno w) ->
  wp R (vnode_bring_in vn fs vno k) (fun _ k' => brought_in k' fs vno vn 1).
Proof.
  intros Hok Hnew Hno. assert (Hni : vn ∉ vnode_inuse_list k).
  { intros [w Hw]%(iu_live _ _ Hok). congruence. }
  unfold vnode_bring_in, vnode_init_obj, kmutex_init, sched_queue_init, set_queue.
  rewrite !bind_unfold. simpl.
  match goal with |- wp _ (_ ?s) _ => set (k1 := s) end.
  erewrite (bind_assign vnodes) by apply lookup_insert_eq. set (k2 := k1 <| vnodes := _ |>).
  unfold inuse_insert. rewrite bind_unfold, bind_get, decide_False by done. rewrite <- bind_unfold, bind_modify.
  set (k3 := k2 <| vnode_inuse_list ::= _ |>).
  assert (exists v, coming k3 fs vno vn v) as [v Hc].
  { eexists. unfold coming, in_use. simpl. rewrite lookup_insert_eq. split_and!; [|by left|done..|].
    - rewrite insert_insert_eq. by apply inuse_ok_insert.
    - simpl. rewrite lookup_insert_eq. done. }
  destruct (read_vnode_reads fs vno vn v k3 Hc) as (read & -> & Hread). apply wp_bind.
  eapply wp_mono; [exact Hread|]. intros _ k4 [v' Hc']. destruct (bring_in_end fs vno vn v' k4 Hc') as (k5 & Hrun & Hb).
  by eapply wp_ret_intro.
Qed.

End vget.

(** ** The properties at concrete states *)
Module Witness.
Import Pframe.Witness.

Definition alone : rely kernel := fun _ k k' => k' = k.
#[local] Instance fuel : LoopFuel := 10%nat.

#[export] Instance unix_headers : FsHeaders := {|
  stat := Z; dirent := Z; sizeof_dirent := 4; S_IFCHR := 0x100; S_IFBLK := 0x400; S_IFDIR := 0x200;
  S_ISCHR m := m =? 0x100; S_ISBLK m := m =? 0x400; S_ISDIR m := m =? 0x200; S_ISREG m := m =? 0x800;
  O_CREAT := 0x100; SEEK_SET := 0; SEEK_CUR := 1; SEEK_END := 2; NAME_LEN := 28; MAXPATHLEN := 1024;
  embedded_mmobj vn := vn; embedded_mutex vn := vn |}.

#[export] Instance one_device : DevOps := {|
  cd_ops _ := None; bytedev_lookup _ := Some 9%positive; blockdev_lookup _ := None |}.

(** A file system of unlinked files that are character devices when they are read; its directories
    have the entry a, for vnode 2. *)
Definition dir_ops : vnode_ops := {|
  vop_read := None; vop_write := None; vop_mmap := None; vop_create := None; vop_mknod := None;
  vop_lookup := Some (fun _ name =>
    if String.eqb name "a" then vref (Some 2%positive);; ret (0, Some 2%positive)
    else ret (- ENOENT, None));
  vop_link := None; vop_unlink := None; vop_mkdir := None; vop_rmdir := None; vop_readdir := None;
  vop_stat := None; vop_fillpage := None; vop_dirtypage := None; vop_cleanpage := None |}.

#[export] Instance dev_fs : FsOps := {|
  fs_read_vnode _ := Some (fun vn => assign vnodes vn (fun v => v <| vn_mode := 0x100 |>));
  fs_query_vnode _ _ := ret 0;
  fs_delete_vnode _ := Some (fun _ => ret tt);
  fs_root _ := Some 1%positive;
  filesystem_vops _ := dir_ops |}.

#[export] Instance dev_fs_delete : FsDelete alone (fun _ k k' => k' = k).
Proof. split. intros fs d vn v k [= <-] _ Hret. done. Qed.

#[export] Instance dev_fs_read : FsRead alone.
Proof.
  split. intros fs vno vn v k (Hok & (Hin & Hv & Hf & Hn) & Hb & Ho). eexists. split; [done|].
  eapply wp_ret_intro; [by apply (assign_Some vnodes _ v)|].
  exists (v <| vn_mode := 0x100 |>). split; [|split; [|done]].
  - by eapply inuse_ok_update.
  - split; [done|]. split; [apply lookup_insert_eq|done].
Qed.

Definition inode (ops : vnode_ops_table) (o : ptr) (vno mode : Z) : vnode := {|
  vn_ops := ops; vn_fs := 1%positive; vn_mmobj := o; vn_vno := vno; vn_mode := mode; vn_len := 10;
  vn_devid := 0; vn_cdev := None; vn_bdev := None; vn_busy := false |}.

(** Vnode 4 is referenced once and has one cached page. *)
Definition one_page (ops : mmobj_ops_table) : mmobj := {|
  mmo_ops := ops; mmo_refcount := 2; mmo_nrespages := 1; mmo_respages := [2%positive];
  mmo_un := MmoVmas []; mmo_shadowed := None |}.

Definition cached : kernel :=
  boot <| pframes := {[ 2%positive := page 7 0 2 ]} |> <| alloc_list := [2%positive] |> <| nallocated := 1 |>
       <| pframe_hash := {[ 8 := [2%positive] ]} |> <| pages := {[ 2%positive := [0] ]} |>
       <| vnodes := {[ 4%positive := inode fs_vops 1 7 0x800 ]} |> <| vnode_inuse_list := [4%positive] |>
       <| mmobjs := {[ 1%positive := one_page (vnode_mmobj_ops 4) ]} |>.

Lemma cached_lists : lists_wf cached.
Proof.
  assert (Hone : forall pf p, pframes cached !! pf = Some p -> pf = 2%positive /\ p = page 7 0 2).
  { intros pf p Hp. change (pframes cached) with ({[ 2%positive := page 7 0 2 ]} : gmap ptr pframe) in Hp.
    by apply lookup_singleton_Some in Hp as [<- <-]. }
  split; try done.
  - intros []; [apply NoDup_singleton|apply NoDup_nil_2].
  - intros [] pf; simpl; [|by intros ?%not_elem_of_nil]. intros ->%list_elem_of_singleton. by eexists.
  - intros l pf p [-> ->]%Hone. destruct l; simpl; split; try done; [by intros _; left|by intros ?%not_elem_of_nil].
  - intros pf p [-> ->]%Hone. done.
Qed.

Lemma cached_owns : owns cached 1 (one_page (vnode_mmobj_ops 4)) [2%positive].
Proof.
  split; try done.
  - apply NoDup_singleton.
  - intros pf ->%list_elem_of_singleton. exists (page 7 0 2). by split_and!; [..|eexists].
  - by intros pf1 pf2 p1 p2 ->%list_elem_of_singleton ->%list_elem_of_singleton.
  - apply cached_lists.
  - left. split; [done|]. exists []. split; [done|]. constructor.
Qed.

Lemma cached_sched : sched_wf cached.
Proof.
  assert (Hq : forall q, queue cached q = empty_ktqueue) by done.
  split; try done; intros *; rewrite ?Hq; try by intros ?%not_elem_of_nil. constructor.
Qed.

(** The last reference: the page, the vnode and its object go. *)
Lemma vput_spec_witness :
  exists k', vput (Ops := mm_ops 1) (Some 4%positive) cached = Ret tt k' /\ vnodes k' = ∅ /\ pframes k' = ∅ /\
    mmobjs k' = ∅ /\ vnode_inuse_list k' = [].
Proof.
  pose proof (vput_spec alone (fun _ k k' => k' = k) 4 (inode fs_vops 1 7 0x800) 0 cached
    (one_page (vnode_mmobj_ops 4)) [2%positive] 0) as Hspec.
  assert (Hpin : unpinned cached [2%positive]) by (constructor; [by exists (page 7 0 2)|constructor]).
  assert (Hfuel : (0 < @loop_fuel fuel)%nat) by apply Nat.lt_0_succ.
  specialize (Hspec Hfuel eq_refl eq_refl eq_refl cached_owns Hpin
    eq_refl eq_refl ltac:(by left) cached_sched).
  destruct (vput (Ops := mm_ops 1) (Some 4%positive) cached) as [[] k'| | |] eqn:Hrun; try (exfalso; exact Hspec).
  - exists k'. split; [done|]. vm_compute in Hrun. injection Hrun as <-. done.
  - vm_compute in Hrun. discriminate.
Defined.

End Witness.
