(* ===== verification/Namev.v ===== *)
(** * Namev

    [kernel/fs/namev.c] and [kernel/fs/open.c]: resolving path names and opening files.

    [dir_namev] walks over a copy of the path in which it overwrites slashes with terminators; the
    pointers [curComName] and [nextComName] into that copy are the component it has delimited and
    the string that remains.

    [dir_namev_resolves]: that walk is the one over the [components] of the path. *)

From Stdlib Require Import Ascii String.
From S2P Require Import Prelude Platform State Sched Mmobj Pframe Anon Vmmap Proc Vmsys Vnode.

(** ** C strings *)
Definition slash : ascii := "/"%char.

(** [strnlen(s, n)] *)
Definition strnlen (s : string) (n : Z) : Z := Z.min (Z.of_nat (String.length s)) n.

(** [strncmp(s, lit, length of s) == 0] *)
Definition prefix_eqb (s lit : string) : bool :=
  String.eqb (String.substring 0 (String.length s) lit) s.

(** Without its leading slashes. *)
Fixpoint skip_slashes (s : string) : string :=
  match s with
  | String c s' => if Ascii.eqb c slash then skip_slashes s' else s
  | EmptyString => EmptyString
  end.

(** The component at the front, up to the next slash, and what follows it. *)
Fixpoint take_component (s : string) : string * string :=
  match s with
  | EmptyString => (EmptyString, EmptyString)
  | String c s' =>
      if Ascii.eqb c slash then (EmptyString, s)
      else let '(com, rest) := take_component s' in (String c com, rest)
  end.

Fixpoint all_slashes (s : string) : bool :=
  match s with
  | EmptyString => true
  | String c s' => Ascii.eqb c slash && all_slashes s'
  end.

(** Without its trailing slashes. *)
Fixpoint drop_trailing (s : string) : string :=
  match s with
  | EmptyString => EmptyString
  | String c s' => if all_slashes s then EmptyString else String c (drop_trailing s')
  end.

(** [open.c]: the flag bits that [do_open] tests by value. *)
Definition oflags_valid (oflags : Z) : bool :=
  (Z.land oflags (Z.lnot 0x703) =? 0) &&
  negb ((Z.land oflags 0x1 =? 0x1) && (Z.land oflags 0x2 =? 0x2)).

Section namev.
Context `{P : Platform, F : LoopFuel, MH : MmHeaders, Ops : MmobjOps}.
Context `{FH : FsHeaders, FO : !FsOps, DO : DevOps, FC : FileCalls, FM : FileHeaders}.

(** ** [namev.c] *)

(** The vnode is looked for with a name; NULL as name is the pair of [dir_namev] for the root. *)
Definition lookup (dir : option ptr) (name : option string) : K (Z * option ptr) :=
  KASSERT (bool_decide (dir <> None));;
  dir ← nonnull dir;
  KASSERT (bool_decide (name <> None));;
  name ← nonnull name;
  ops ← vops dir;
  v ← deref vnodes dir;
  match vop_lookup ops with
  | None => ret (- ENOTDIR, None)
  | Some f => if vn_mode v =? S_IFDIR then f dir name else ret (- ENOTDIR, None)
  end.

(** The main loop: [com] is the component [curComName], [rest] what [nextComName] points to, and
    [owned] is [needToDecrease].  The result is an error, or the last component with the
    directory it is in. *)
Fixpoint dir_loop (fuel : nat) (base : option ptr) (owned : bool) (com rest : string)
  : K (Z + option ptr * bool * string) :=
  match fuel with
  | O => no_fuel
  | S fuel =>
      match rest with
      | EmptyString => ret (inr (base, owned, com))
      | String _ _ =>
          let rest := skip_slashes rest in
          if NAME_LEN <? strnlen com (NAME_LEN + 1) then ret (inl (- ENAMETOOLONG))
          else
            '(r, next) ← lookup base (Some com);
            (if owned then vput base else ret tt);;
            if r =? 0 then
              let '(com', rest') := take_component rest in
              dir_loop fuel next true com' rest'
            else ret (inl r)
      end
  end.

(** The error, or 0 with the name ([None] for NULL) and the directory. *)
Definition dir_namev (pathname : option string) (base : option ptr)
  : K (Z * (option string * option ptr)) :=
  KASSERT (bool_decide (pathname <> None));;
  path ← nonnull pathname;
  if (MAXPATHLEN <? strnlen path (MAXPATHLEN + 1)) || (strnlen path (MAXPATHLEN + 1) <=? 0)
  then ret (- EINVAL, (None, None))
  else
    root ← gets vfs_root_vn;
    start ← (match path with
             | String c _ =>
                 if Ascii.eqb c slash then ret root
                 else match base with
                      | Some b => ret (Some b)
                      | None => c ← the_curproc; p ← deref procs c; ret (p_cwd p)
                      end
             | EmptyString => ret root
             end);
    if all_slashes path then
      vref root;;
      ret (0, (None, root))
    else
      let copy := drop_trailing (skip_slashes path) in
      let '(com, rest) := take_component copy in
      r ← dir_loop (S (String.length path)) start false com rest;
      match r with
      | inl e => ret (e, (None, None))
      | inr (dir, owned, com) =>
          (if owned then ret tt else vref dir);;
          if NAME_LEN <? strnlen com (NAME_LEN + 1) then vput dir;; ret (- ENAMETOOLONG, (None, None))
          else
            KASSERT (bool_decide (dir <> None));;
            ret (0, (Some com, dir))
      end.

Definition open_namev (pathname : option string) (flag : Z) (base : option ptr) : K (Z * option ptr) :=
  '(retval, (name, parent)) ← dir_namev pathname base;
  if negb (retval =? 0) then ret (retval, None)
  else match name with
  | None =>
      root ← gets vfs_root_vn;
      vref root;;
      vput parent;;
      ret (0, root)
  | Some _ =>
      '(retval, res) ← lookup parent name;
      if (retval =? - ENOENT) && negb (Z.land flag O_CREAT =? 0x100) then
        vput parent;;
        ret (- ENOENT, None)
      else if (retval =? - ENOENT) && negb (Z.land flag O_CREAT =? 0) then
        par ← nonnull parent;
        ops ← vops par;
        KASSERT (match vop_create ops with Some _ => true | None => false end);;
        create ← nonnull (vop_create ops);
        n ← nonnull name;
        '(retval, res) ← create par n;
        vput parent;;
        ret (retval, res)
      else
        vput parent;;
        ret (retval, res)
  end.

(** ** [open.c] *)

(** [for (fd = 0; fd < NFILES; fd++) if (!p->p_files[fd]) return fd;]: the descriptors [fds]. *)
Fixpoint empty_fd_loop (p : ptr) (fds : list nat) : K Z :=
  match fds with
  | [] => ret (- EMFILE)
  | fd :: fds =>
      pr ← deref procs p;
      match p_files pr !! fd with
      | Some (Some _) => empty_fd_loop p fds
      | _ => ret (Z.of_nat fd)
      end
  end.

Definition get_empty_fd (p : ptr) : K Z := empty_fd_loop p (seq 0 NFILES).

(** [curproc->p_files[fd] = f] *)
Definition set_fd (fd : Z) (f : option ptr) : K unit :=
  c ← the_curproc; assign procs c (fun p => p <| p_files ::= <[Z.to_nat fd := f]> |>).

(** The mode of the file, from the flags. *)
Definition open_fmode (oflags : Z) : Z :=
  let m := if Z.land oflags 0x400 =? 0x400 then FMODE_APPEND else 0 in
  let m := if Z.land oflags 0x1 =? 0 then Z.lor m FMODE_READ else m in
  let m := if Z.land oflags 0x1 =? 0x1 then Z.lor m FMODE_WRITE else m in
  if Z.land oflags 0x2 =? 0x2 then Z.lor m (Z.lor FMODE_READ FMODE_WRITE) else m.

Definition do_open (filename : option string) (oflags : Z) : K Z :=
  if negb (oflags_valid oflags) then ret (- EINVAL)
  else
    c ← the_curproc;
    new_fd ← get_empty_fd c;
    if new_fd =? - EMFILE then ret (- EMFILE)
    else
      a ← fget (-1);
      match a with
      | None => ret (- ENOMEM)
      | Some f =>
          set_fd new_fd (Some f);;
          assign files f (fun fl => fl <| f_mode := open_fmode oflags |>);;
          '(r, res) ← open_namev filename oflags None;
          if negb (r =? 0) then
            fput f;;
            set_fd new_fd None;;
            ret r
          else
            assign files f (fun fl => fl <| f_vnode := res |>);;
            vn ← nonnull res;
            v ← deref vnodes vn;
            fl ← deref files f;
            if S_ISDIR (vn_mode v) && negb (Z.land (f_mode fl) FMODE_WRITE =? 0) then
              fput f;;
              set_fd new_fd None;;
              ret (- EISDIR)
            else
              assign files f (fun fl => fl <| f_pos := 0 |>);;
              ret new_fd
      end.
End namev.

(** ** Free descriptors *)
Section empty_fd.
Context `{P : Platform} (k : kernel) (c : ptr) (p : proc).
Hypotheses (Hp : procs k !! c = Some p) (Hlen : length (p_files p) = NFILES).

Definition taken (n : nat) : Prop := exists f, p_files p !! n = Some (Some f).

Lemma empty_fd_loop_run m : forall i, (i + m = NFILES)%nat -> (forall j, (j < i)%nat -> taken j) ->
  (exists fd, empty_fd_loop c (seq i m) k = Ret (Z.of_nat fd) k /\ p_files p !! fd = Some None /\
     forall j, (j < fd)%nat -> taken j) \/
  (empty_fd_loop c (seq i m) k = Ret (- EMFILE) k /\ forall j, (j < NFILES)%nat -> taken j).
Proof.
  induction m as [|m IH]; intros i Him Hi; simpl.
  { right. split; [done|]. intros j Hj. apply Hi. lia. }
  rewrite (bind_deref procs _ _ _ _ Hp).
  destruct (lookup_lt_is_Some_2 (p_files p) i) as [[f|] Hf]; [lia| |]; rewrite Hf.
  - apply IH; [lia|]. intros j Hj. destruct (decide (j = i)) as [->|]; [by exists f|]. apply Hi. lia.
  - left. by exists i.
Qed.

(** The lowest descriptor that is free. *)
Lemma get_empty_fd_run :
  (exists fd, get_empty_fd c k = Ret (Z.of_nat fd) k /\ p_files p !! fd = Some None /\
     forall j, (j < fd)%nat -> taken j) \/
  (get_empty_fd c k = Ret (- EMFILE) k /\ forall j, (j < NFILES)%nat -> taken j).
Proof. apply empty_fd_loop_run; [lia|]. intros j Hj. lia. Qed.
End empty_fd.

(** ** Paths as sequences of components

    The reference: a path is split at its slashes, and empty pieces are dropped. *)
Fixpoint pieces (s : string) : string * list string :=
  match s with
  | EmptyString => (EmptyString, [])
  | String c s' =>
      let '(p, ps) := pieces s' in
      if Ascii.eqb c slash then (EmptyString, p :: ps) else (String c p, ps)
  end.

Definition nonempty (s : string) : bool := match s with EmptyString => false | String _ _ => true end.

Definition components (s : string) : list string :=
  let '(p, ps) := pieces s in List.filter nonempty (p :: ps).

(** What [take_component] leaves: nothing, or a string that begins with a slash. *)
Lemma take_component_pieces s : let '(com, rest) := take_component s in
  fst (pieces s) = com /\
  match rest with
  | EmptyString => snd (pieces s) = []
  | String c rest' => c = slash /\ snd (pieces s) = fst (pieces rest') :: snd (pieces rest')
  end.
Proof.
  induction s as [|c s IH]; simpl; [done|]. destruct (Ascii.eqb_spec c slash) as [->|Hne].
  - by destruct (pieces s).
  - destruct (take_component s) as [com rest]. destruct (pieces s) as [p ps]. simpl in *.
    destruct IH as [-> IH]. by split.
Qed.

Lemma components_take s : let '(com, rest) := take_component s in
  components s = (if nonempty com then [com] else []) ++ components rest.
Proof.
  pose proof (take_component_pieces s) as H. destruct (take_component s) as [com rest].
  unfold components. destruct (pieces s) as [p ps]. simpl in *. destruct H as [-> H].
  destruct rest as [|c rest]; simpl.
  - subst ps. destruct (nonempty com); reflexivity.
  - destruct H as [-> ->]. destruct (pieces rest) as [q qs]. simpl. by destruct (nonempty com).
Qed.

Lemma components_slash s : components (String slash s) = components s.
Proof. unfold components. simpl. by destruct (pieces s). Qed.

Lemma components_skip s : components (skip_slashes s) = components s.
Proof.
  induction s as [|c s IH]; simpl; [done|]. destruct (Ascii.eqb_spec c slash) as [->|]; [|done].
  by rewrite components_slash.
Qed.

Lemma all_slashes_components s : all_slashes s = bool_decide (components s = []).
Proof.
  induction s as [|c s IH]; simpl; [done|]. destruct (Ascii.eqb_spec c slash) as [->|Hne]; simpl.
  - by rewrite components_slash.
  - unfold components. simpl. destruct (pieces s) as [p ps]. by destruct (Ascii.eqb_spec c slash).
Qed.

Lemma all_slashes_pieces s : all_slashes s = true -> fst (pieces s) = EmptyString /\ List.filter nonempty (snd (pieces s)) = [].
Proof.
  rewrite all_slashes_components, bool_decide_eq_true. unfold components. destruct (pieces s) as [p ps]. simpl.
  destruct p; simpl; done.
Qed.

Lemma pieces_drop s : fst (pieces (drop_trailing s)) = fst (pieces s) /\
  List.filter nonempty (snd (pieces (drop_trailing s))) = List.filter nonempty (snd (pieces s)).
Proof.
  induction s as [|c s IH]; [done|]. cbn [drop_trailing]. destruct (all_slashes (String c s)) eqn:Hall.
  - apply all_slashes_pieces in Hall as [-> ->]. done.
  - simpl. destruct (pieces (drop_trailing s)) as [p ps], (pieces s) as [q qs]. simpl in IH.
    destruct IH as [-> IH]. destruct (Ascii.eqb c slash); simpl; [|done]. by destruct (nonempty q); rewrite IH.
Qed.

Lemma components_drop s : components (drop_trailing s) = components s.
Proof.
  pose proof (pieces_drop s) as H. unfold components. destruct (pieces (drop_trailing s)), (pieces s).
  simpl in *. destruct H as [-> ->]. done.
Qed.

(** A string without trailing slashes, and its tails. *)
Definition clean (s : string) : Prop := drop_trailing s = s.

Lemma clean_tail c s : clean (String c s) -> clean s.
Proof. unfold clean. simpl. destruct (_ && _); [done|]. by intros [= ->]. Qed.

Lemma drop_clean s : clean (drop_trailing s).
Proof.
  unfold clean. induction s as [|c s IH]; [done|]. cbn [drop_trailing].
  destruct (all_slashes (String c s)) eqn:Hall; [done|]. cbn [drop_trailing]. rewrite IH.
  destruct (all_slashes (String c (drop_trailing s))) eqn:Hd; [|done].
  rewrite all_slashes_components in Hall, Hd. apply bool_decide_eq_true in Hd. apply bool_decide_eq_false in Hall.
  destruct Hall. destruct (Ascii.eqb_spec c slash) as [->|Hne].
  - rewrite components_slash, components_drop in Hd. by rewrite components_slash.
  - unfold components in Hd. simpl in Hd. destruct (pieces (drop_trailing s)).
    destruct (Ascii.eqb_spec c slash); [done|]. by simpl in Hd.
Qed.

Lemma clean_skip s : clean s -> clean (skip_slashes s).
Proof.
  induction s as [|c s IH]; simpl; [done|]. intros Hc. destruct (Ascii.eqb c slash); [|done].
  apply IH. by eapply clean_tail.
Qed.

Lemma clean_take s : clean s -> let '(_, rest) := take_component s in clean rest /\ (String.length rest <= String.length s)%nat.
Proof.
  induction s as [|c s IH]; simpl; [done|]. intros Hc. destruct (Ascii.eqb c slash); [done|].
  specialize (IH (clean_tail _ _ Hc)). destruct (take_component s) as [com rest]. destruct IH. split; [done|]. lia.
Qed.

Lemma clean_components c s : clean (String c s) -> components (String c s) <> [].
Proof.
  unfold clean. cbn [drop_trailing]. rewrite all_slashes_components.
  case_bool_decide; [done|]. done.
Qed.

Lemma skip_length s : (String.length (skip_slashes s) <= String.length s)%nat.
Proof. induction s as [|c s IH]; simpl; [done|]. destruct (Ascii.eqb c slash); simpl; lia. Qed.

Lemma skip_head s : match skip_slashes s with String c _ => Ascii.eqb c slash = false | EmptyString => True end.
Proof. induction s as [|c s IH]; simpl; [done|]. destruct (Ascii.eqb c slash) eqn:Hc; done. Qed.

(** The first component of a string that does not begin with a slash. *)
Lemma take_nonempty c s : Ascii.eqb c slash = false -> nonempty (fst (take_component (String c s))) = true.
Proof. intros Hc. simpl. rewrite Hc. by destruct (take_component s). Qed.

(** ** Resolution as a walk over the components *)
Section resolve.
Context `{P : Platform, F : LoopFuel, MH : MmHeaders, Ops : MmobjOps}.
Context `{FH : FsHeaders, FO : !FsOps, DO : DevOps, FC : FileCalls, FM : FileHeaders}.

Definition too_long (com : string) : bool := NAME_LEN <? Z.of_nat (String.length com).

(** Every component but the last names a directory, in which the next one is looked up. *)
Fixpoint walk (base : option ptr) (owned : bool) (com : string) (cs : list string)
  : K (Z + option ptr * bool * string) :=
  match cs with
  | [] => ret (inr (base, owned, com))
  | com' :: cs =>
      if too_long com then ret (inl (- ENAMETOOLONG))
      else
        '(r, next) ← lookup base (Some com);
        (if owned then vput base else ret tt);;
        if r =? 0 then walk next true com' cs else ret (inl r)
  end.

Definition absolute (path : string) : bool :=
  match path with String c _ => Ascii.eqb c slash | EmptyString => false end.

(** Where a path begins. *)
Definition start_vnode (path : string) (base : option ptr) : K (option ptr) :=
  if absolute path then gets vfs_root_vn
  else match base with
       | Some b => ret (Some b)
       | None => c ← the_curproc; p ← deref procs c; ret (p_cwd p)
       end.

Definition resolve (path : string) (base : option ptr) : K (Z * (option string * option ptr)) :=
  if (MAXPATHLEN <? Z.of_nat (String.length path)) || (Z.of_nat (String.length path) =? 0)
  then ret (- EINVAL, (None, None))
  else
    start ← start_vnode path base;
    match components path with
    | [] => root ← gets vfs_root_vn; vref root;; ret (0, (None, root))
    | com :: cs =>
        r ← walk start false com cs;
        match r with
        | inl e => ret (e, (None, None))
        | inr (dir, owned, com) =>
            (if owned then ret tt else vref dir);;
            if too_long com then vput dir;; ret (- ENAMETOOLONG, (None, None))
            else KASSERT (bool_decide (dir <> None));; ret (0, (Some com, dir))
        end
    end.

Lemma strnlen_above s n : n <? strnlen s (n + 1) = (n <? Z.of_nat (String.length s)).
Proof.
  unfold strnlen. destruct (Z.ltb_spec n (Z.min (Z.of_nat (String.length s)) (n + 1))),
    (Z.ltb_spec n (Z.of_nat (String.length s))); lia.
Qed.

(** What follows a component begins with a slash. *)
Lemma components_next rest : clean rest -> rest <> EmptyString ->
  let '(com', rest') := take_component (skip_slashes rest) in
  components rest = com' :: components rest' /\ clean rest' /\
  (String.length rest' < String.length rest)%nat.
Proof.
  intros Hc Hne. pose proof (clean_skip _ Hc) as Hs. pose proof (skip_length rest) as Hl.
  assert (skip_slashes rest <> EmptyString) as Hsne.
  { destruct rest as [|c rest]; [done|]. intros H. apply (clean_components _ _ Hc).
    by rewrite <- components_skip, H. }
  rewrite <- (components_skip rest). pose proof (skip_head rest) as Hh.
  destruct (skip_slashes rest) as [|c s]; [done|].
  pose proof (components_take (String c s)) as Hct. pose proof (take_nonempty c s Hh) as Hn.
  pose proof (clean_take _ (clean_tail _ _ Hs)) as Hr. simpl in Hct, Hn, Hl |- *. rewrite Hh in Hct, Hn |- *.
  destruct (take_component s) as [com' rest']. simpl in Hct. rewrite Hct. destruct Hr. split_and!; [done..|]. lia.
Qed.

Lemma dir_loop_walk fuel : forall base owned com rest k, clean rest -> (String.length rest < fuel)%nat ->
  dir_loop fuel base owned com rest k ≡ walk base owned com (components rest) k.
Proof.
  induction fuel as [|fuel IH]; intros base owned com rest k Hc Hf; [lia|]. cbn [dir_loop].
  destruct rest as [|c rest]; [done|]. set (s := String c rest) in *.
  pose proof (components_next s Hc) as Hn. destruct (take_component (skip_slashes s)) as [com' rest'].
  destruct Hn as (-> & Hc' & Hl); [done|]. cbn [walk]. rewrite strnlen_above. unfold too_long.
  destruct (_ <? _); [done|]. apply bind_equiv. intros [r next] k1. apply bind_equiv. intros _ k2.
  destruct (r =? 0); [|done]. apply IH; [done|lia].
Qed.

(** *** Running the walk *)
Lemma resolve_run path base com cs k :
  0 < Z.of_nat (String.length path) <= MAXPATHLEN -> components path = com :: cs ->
  resolve path base k = (start ← start_vnode path base; r ← walk start false com cs;
    match r with
    | inl e => ret (e, (None, None))
    | inr (dir, owned, com) =>
        (if owned then ret tt else vref dir);;
        if too_long com then vput dir;; ret (- ENAMETOOLONG, (None, None))
        else KASSERT (bool_decide (dir <> None));; ret (0, (Some com, dir))
    end) k.
Proof.
  intros [Hpos Hmax] Hcs. unfold resolve. rewrite Hcs.
  destruct (Z.ltb_spec MAXPATHLEN (Z.of_nat (String.length path))); [lia|].
  by destruct (Z.eqb_spec (Z.of_nat (String.length path)) 0); [lia|].
Qed.

(** The copy on which [dir_namev] works has the components of the path. *)
Lemma copy_components path : components path <> [] ->
  let '(com, rest) := take_component (drop_trailing (skip_slashes path)) in
  components path = com :: components rest /\ clean rest /\
  (String.length rest <= String.length (drop_trailing (skip_slashes path)))%nat.
Proof.
  intros Hne. rewrite <- components_skip, <- components_drop in Hne |- *.
  pose proof (skip_head path) as Hh. set (s := drop_trailing (skip_slashes path)) in *.
  assert (Hs : match s with String c _ => Ascii.eqb c slash = false | EmptyString => True end).
  { unfold s. destruct (skip_slashes path) as [|c t]; [done|]. cbn [drop_trailing].
    by destruct (all_slashes _). }
  pose proof (clean_take s (drop_clean _)) as Hc. pose proof (components_take s) as Ht.
  destruct s as [|c t]; [done|]. pose proof (take_nonempty c t Hs) as Hn.
  destruct (take_component (String c t)) as [com rest]. simpl in Hn. rewrite Hn in Ht. done.
Qed.

Lemma drop_length s : (String.length (drop_trailing s) <= String.length s)%nat.
Proof.
  induction s as [|c s IH]; [done|]. cbn [drop_trailing]. destruct (all_slashes _); simpl; lia.
Qed.

Lemma start_run path base {A} (f : option ptr -> option ptr -> K A) k : path <> EmptyString ->
  (root ← gets vfs_root_vn;
   start ← (match path with
            | String c _ =>
                if Ascii.eqb c slash then ret root
                else match base with
                     | Some b => ret (Some b)
                     | None => c ← the_curproc; p ← deref procs c; ret (p_cwd p)
                     end
            | EmptyString => ret root
            end);
   f root start) k =
  (start ← start_vnode path base; f (vfs_root_vn k) start) k.
Proof.
  intros Hne. unfold start_vnode. destruct path as [|c path]; [done|]. simpl absolute.
  by destruct (Ascii.eqb c slash).
Qed.

Lemma start_vnode_pure path base k :
  (exists s, start_vnode path base k = Ret s k) \/ (exists e, start_vnode path base k = Fault e).
Proof.
  unfold start_vnode. destruct (absolute path); [by left; eexists|]. destruct base as [b|]; [by left; eexists|].
  unfold the_curproc, nonnull, bind, gets. simpl. destruct (curproc k) as [c|]; simpl; [|by right; eexists].
  unfold deref. destruct (procs k !! c) as [p|]; simpl; [by left; eexists|by right; eexists].
Qed.

Lemma dir_namev_equiv path base k : dir_namev (Some path) base k ≡ resolve path base k.
Proof.
  unfold dir_namev, resolve. rewrite bind_KASSERT, bind_ret with (s' := k) (a := path) by done.
  rewrite strnlen_above. destruct (Z.ltb_spec MAXPATHLEN (Z.of_nat (String.length path))) as [|Hmax]; [done|].
  replace (strnlen path (MAXPATHLEN + 1) <=? 0) with (Z.of_nat (String.length path) =? 0)
    by (unfold strnlen; destruct (Z.eqb_spec (Z.of_nat (String.length path)) 0), (Z.leb_spec (Z.min (Z.of_nat (String.length path)) (MAXPATHLEN + 1)) 0); lia).
  destruct (Z.eqb_spec (Z.of_nat (String.length path)) 0) as [|Hpos]; [done|]. cbn [orb].
  rewrite start_run by (by intros ->). destruct (start_vnode_pure path base k) as [[s Hs]|[e He]].
  2: { by rewrite !(bind_fault _ _ _ _ He). }
  rewrite !(bind_ret _ _ _ _ _ Hs), all_slashes_components. case_bool_decide as Hc; [by rewrite Hc|].
  pose proof (copy_components path Hc) as Hcopy. pose proof (drop_length (skip_slashes path)) as Hd.
  pose proof (skip_length path) as Hsk.
  destruct (take_component _) as [com rest]. destruct Hcopy as (-> & Hclean & Hlen).
  apply obind_equiv; [apply dir_loop_walk; [done|lia]|]. intros [e|[[dir owned] com'']] k1; [done|].
  rewrite strnlen_above. reflexivity.
Qed.

(** C9: Path resolution is the walk over the components of the path, for every path and in every
    state: slashes at the front, at the end and in sequence do not matter, [dir_namev] looks up
    every component but the last, each in the directory the one before led to, and returns the
    last with the directory it is in.  The loops over the copy of the path terminate. *)
Theorem dir_namev_resolves path base k :
  dir_namev (Some path) base k ≡ resolve path base k.
Proof. apply dir_namev_equiv. Qed.

(** A name that is too long in the middle of a path makes [dir_namev] return without
    giving back the directory it has reached: the state is the one that the lookup of the
    component before left, with the reference that the lookup counted. *)
Theorem dir_namev_long_middle_leaks path base start c1 c2 c3 cs v k k1 :
  0 < Z.of_nat (String.length path) <= MAXPATHLEN -> components path = c1 :: c2 :: c3 :: cs ->
  too_long c1 = false -> too_long c2 = true -> start_vnode path base k = Ret start k ->
  lookup start (Some c1) k = Ret (0, Some v) k1 ->
  dir_namev (Some path) base k = Ret (- ENAMETOOLONG, (None, None)) k1.
Proof.
  intros Hlen Hcs H1 H2 Hs Hlook. apply equiv_Ret. rewrite dir_namev_equiv.
  rewrite (resolve_run path base c1 (c2 :: c3 :: cs) k Hlen Hcs), (bind_ret _ _ _ _ _ Hs).
  cbn [walk]. rewrite H1, bind_unfold, (bind_ret _ _ _ _ _ Hlook). cbn beta iota.
  rewrite bind_ret_l. cbn [walk]. by rewrite H2.
Qed.
End resolve.

(** ** The flags of [do_open] *)
Section flags.
Context `{FM : FileHeaders}.

(** The 24 combinations: an access mode and any of the three flags of the second byte. *)
Definition flag_combinations : list (Z * Z) :=
  list_prod [0; 0x100; 0x200; 0x300; 0x400; 0x500; 0x600; 0x700] [0; 1; 2].

(** What a file is opened for. *)
Definition mode_of (flags access : Z) : Z :=
  let m := if Z.testbit flags 10 then FMODE_APPEND else 0 in
  if access =? 0 then Z.lor m FMODE_READ
  else if access =? 1 then Z.lor m FMODE_WRITE
  else Z.lor (Z.lor m FMODE_READ) (Z.lor FMODE_READ FMODE_WRITE).

(** Flags that pass the mask have 11 bits. *)
Lemma masked_range z : Z.land z (Z.lnot 0x703) = 0 -> 0 <= z < 2048.
Proof.
  intros Hz. assert (Heq : z = Z.land z 0x703).
  { rewrite <- (Z.lor_ldiff_and z 0x703) at 1.
    rewrite Z.ldiff_land, Hz. apply Z.lor_0_l. }
  rewrite Heq. replace 0x703 with (Z.land 0x703 (Z.ones 11)) by reflexivity.
  rewrite Z.land_assoc, Z.land_ones by lia. apply Z.mod_pos_bound. lia.
Qed.

Lemma small_flags z : 0 <= z < 2048 -> oflags_valid z = bool_decide (z ∈ (fun '(f, a) => f + a) <$> flag_combinations).
Proof.
  intros Hz. assert (Hall : Forall (fun z => oflags_valid z = bool_decide (z ∈ (fun '(f, a) => f + a) <$> flag_combinations)) (seqZ 0 2048)).
  { apply (bool_decide_unpack _). vm_compute. exact I. }
  rewrite Forall_forall in Hall. apply Hall. apply elem_of_seqZ. lia.
Qed.

(** C29: the flags that [do_open] accepts are the 24 combinations of an access mode (read only, write
    only, read and write) with the other three flags, and no others; the mode of the file is
    typed by them: it allows reading, writing or both as the access mode says, and appending
    exactly when that flag is set. *)
Theorem open_flags_typed oflags :
  (oflags_valid oflags = true <-> exists f a, (f, a) ∈ flag_combinations /\ oflags = f + a) /\
  forall f a, (f, a) ∈ flag_combinations -> open_fmode (f + a) = mode_of f a.
Proof.
  split.
  - assert (Hex : (exists f a, (f, a) ∈ flag_combinations /\ oflags = f + a) <->
      oflags ∈ (fun '(f, a) => f + a) <$> flag_combinations).
    { rewrite list_elem_of_fmap. split; [intros (f & a & ? & ->); by exists (f, a)|intros ([f a] & -> & ?); eauto]. }
    rewrite Hex. split.
    + intros Hv. assert (Hz : 0 <= oflags < 2048) by (apply masked_range; unfold oflags_valid in Hv; to_prop; done).
      rewrite small_flags in Hv by done. by apply bool_decide_eq_true in Hv.
    + intros Hin. rewrite small_flags; [by apply bool_decide_eq_true|].
      assert (Hall : Forall (fun z => 0 <= z < 2048) ((fun '(f, a) => f + a) <$> flag_combinations))
        by (apply (bool_decide_unpack _); vm_compute; exact I).
      rewrite Forall_forall in Hall. by apply Hall.
  - intros f a Hin. revert f a Hin. assert (Hall : Forall (fun '(f, a) => open_fmode (f + a) = mode_of f a) flag_combinations)
      by (repeat (apply Forall_cons; split; [reflexivity|]); apply Forall_nil; exact I).
    intros f a Hin. rewrite Forall_forall in Hall. apply (Hall (f, a) Hin).
Qed.
End flags.

(** ** The properties at concrete states *)
Module Witness.
Import Vnode.Witness.
#[local] Instance fuel : LoopFuel := 10%nat.
#[local] Instance no_files : FileCalls := {| fget _ := ret None; fput _ := ret tt; fref _ := ret tt |}.

(** Two directories; the root, vnode 1, has the entry a for vnode 2. *)
Definition dir_object (vn : ptr) : mmobj := {|
  mmo_ops := vnode_mmobj_ops vn; mmo_refcount := 1; mmo_nrespages := 0; mmo_respages := [];
  mmo_un := MmoVmas []; mmo_shadowed := None |}.
Definition tree : kernel :=
  boot <| vnodes := {[ 1%positive := inode fs_vops 11 1 0x200; 2%positive := inode fs_vops 12 2 0x200 ]} |>
       <| mmobjs := {[ 11%positive := dir_object 1; 12%positive := dir_object 2 ]} |>
       <| vnode_inuse_list := [1%positive; 2%positive] |> <| vfs_root_vn := Some 1%positive |>.

Definition refcount (o : ptr) (k : kernel) : option Z := mmo_refcount <$> mmobjs k !! o.

Lemma dir_namev_long_middle_leaks_witness :
  exists k', dir_namev (Ops := mm_ops 1) (Some "/a/xxxxxxxxxxxxxxxxxxxxxxxxxxxxxx/b"%string) None tree =
      Ret (- ENAMETOOLONG, (None, None)) k' /\
    refcount 12 tree = Some 1 /\ refcount 12 k' = Some 2.
Proof.
  eexists. split; [|split].
  - eapply dir_namev_long_middle_leaks.
    + by vm_compute.
    + by vm_compute.
    + by vm_compute.
    + by vm_compute.
    + reflexivity.
    + vm_compute. reflexivity.
  - by vm_compute.
  - by vm_compute.
Defined.
End Witness.
