(* ===== verification/VfsSys.v ===== *)
(** * VfsSys

    [kernel/fs/vfs_syscall.c]: the system calls on file descriptors and on path names.  What a call
    stores through its pointer arguments is part of its result.  Mounting is compiled out.

    The calls on descriptors keep the reference counts of files ([refs_ok]); the file table
    ([FileCalls]) is outside the sources, with the laws [FileOk]. *)

From S2P Require Import Prelude Platform State Sched Mmobj Pframe Anon Vmmap Proc Lifecycle Vmsys Vnode Namev.

Section vfs_syscall.
Context `{P : Platform, F : LoopFuel, MH : MmHeaders, Ops : MmobjOps}.
Context `{FH : FsHeaders, FO : !FsOps, DO : DevOps, FC : FileCalls, FM : FileHeaders}.

(** [(fd >= NFILES) || (fd < 0)] *)
Definition bad_fd (fd : Z) : bool := (Z.of_nat NFILES <=? fd) || (fd <? 0).

(** [f->f_vnode->...] *)
Definition file_vnode (f : ptr) : K (ptr * vnode) :=
  fl ← deref files f; vn ← nonnull (f_vnode fl); v ← deref vnodes vn; ret (vn, v).

(** [f->f_pos += n] on a 32-bit [off_t] *)
Definition advance_pos (f : ptr) (n : Z) : K unit :=
  assign files f (fun fl => fl <| f_pos := int32 (f_pos fl + n) |>).

(** ** Descriptors *)
Definition do_read (fd nbytes : Z) : K (Z * list Z) :=
  if bad_fd fd then ret (- EBADF, [])
  else
    a ← fget fd;
    match a with
    | None => ret (- EBADF, [])
    | Some f =>
        fl ← deref files f;
        if negb (Z.land (f_mode fl) FMODE_READ =? 0x1) then fput f;; ret (- EBADF, [])
        else
          '(vn, v) ← file_vnode f;
          if S_ISDIR (vn_mode v) then fput f;; ret (- EISDIR, [])
          else
            ops ← vops vn;
            read ← nonnull (vop_read ops);
            '(bytes_read, buf) ← read vn (f_pos fl) nbytes;
            advance_pos f bytes_read;;
            fput f;;
            ret (bytes_read, buf)
    end.

Definition do_lseek (fd offset whence : Z) : K Z :=
  if bad_fd fd then ret (- EBADF)
  else
    a ← fget fd;
    match a with
    | None => ret (- EBADF)
    | Some f =>
        if negb ((whence =? SEEK_SET) || (whence =? SEEK_CUR) || (whence =? SEEK_END)) then
          fput f;; ret (- EINVAL)
        else
          let seek pos :=
            assign files f (fun fl => fl <| f_pos := pos |>);;
            fl ← deref files f;
            fput f;;
            ret (f_pos fl) in
          fl ← deref files f;
          if (whence =? SEEK_SET) && (0 <=? offset) then seek offset
          else if (whence =? SEEK_CUR) && (0 <=? int32 (f_pos fl + offset)) then
            seek (int32 (f_pos fl + offset))
          else if whence =? SEEK_END then
            '(_, v) ← file_vnode f;
            if 0 <=? int32 (vn_len v + offset) then seek (int32 (vn_len v + offset))
            else fput f;; ret (- EINVAL)
          else fput f;; ret (- EINVAL)
    end.

Definition do_write (fd : Z) (buf : list Z) : K Z :=
  if bad_fd fd then ret (- EBADF)
  else
    a ← fget fd;
    match a with
    | None => ret (- EBADF)
    | Some f =>
        fl ← deref files f;
        if negb (Z.land (f_mode fl) FMODE_WRITE =? 0x2) then fput f;; ret (- EBADF)
        else
          e ← (if Z.land (f_mode fl) FMODE_APPEND =? 0x4 then do_lseek fd 0 SEEK_END else ret 0);
          if e <? 0 then fput f;; ret e
          else
            '(vn, _) ← file_vnode f;
            ops ← vops vn;
            write ← nonnull (vop_write ops);
            fl ← deref files f;
            bytes_written ← write vn (f_pos fl) buf;
            advance_pos f bytes_written;;
            (if 0 <=? bytes_written then
               fl ← deref files f;
               '(_, v) ← file_vnode f;
               KASSERT (S_ISCHR (vn_mode v) || S_ISBLK (vn_mode v) ||
                        (S_ISREG (vn_mode v) && (f_pos fl <=? vn_len v)))
             else ret tt);;
            fput f;;
            ret bytes_written
    end.

Definition do_close (fd : Z) : K Z :=
  if bad_fd fd then ret (- EBADF)
  else
    a ← fget fd;
    match a with
    | None => ret (- EBADF)
    | Some f =>
        set_fd fd None;;
        fput f;;
        fput f;;
        ret 0
    end.

Definition do_dup (fd : Z) : K Z :=
  if bad_fd fd then ret (- EBADF)
  else
    a ← fget fd;
    match a with
    | None => ret (- EBADF)
    | Some f =>
        c ← the_curproc;
        new_fd ← get_empty_fd c;
        if new_fd =? - EMFILE then fput f;; ret (- EMFILE)
        else
          set_fd new_fd (Some f);;
          ret new_fd
    end.

Definition do_dup2 (ofd nfd : Z) : K Z :=
  if bad_fd ofd then ret (- EBADF)
  else if bad_fd nfd then ret (- EBADF)
  else
    a ← fget ofd;
    match a with
    | None => ret (- EBADF)
    | Some f =>
        if ofd =? nfd then fput f;; ret nfd
        else
          c ← the_curproc;
          p ← deref procs c;
          r ← (match p_files p !! Z.to_nat nfd with Some (Some _) => do_close nfd | _ => ret 0 end);
          if negb (r =? 0) then fput f;; ret r
          else
            set_fd nfd (Some f);;
            ret nfd
    end.

Definition do_getdent (fd : Z) : K (Z * option dirent) :=
  if bad_fd fd then ret (- EBADF, None)
  else
    a ← fget fd;
    match a with
    | None => ret (- EBADF, None)
    | Some f =>
        '(vn, v) ← file_vnode f;
        if negb (vn_mode v =? S_IFDIR) then fput f;; ret (- ENOTDIR, None)
        else
          ops ← vops vn;
          match vop_readdir ops with
          | None => fput f;; ret (- ENOTDIR, None)
          | Some readdir =>
              fl ← deref files f;
              '(n, d) ← readdir vn (f_pos fl);
              advance_pos f n;;
              fput f;;
              ret (if n =? 0 then 0 else sizeof_dirent, Some d)
          end
    end.

(** ** Paths *)

(** A name found by [dir_namev], with an operation of its directory that must exist. *)
Definition dir_op {A} (dir : option ptr) (op : vnode_ops -> option A) : K (ptr * A) :=
  d ← nonnull dir;
  ops ← vops d;
  match op ops with Some f => ret (d, f) | None => fail KAssert end.

(** [strncmp(name, lit, namelen) == 0], also for the NULL name of length 0 *)
Definition name_eqb (name : option string) (lit : string) : bool :=
  match name with Some s => prefix_eqb s lit | None => true end.

Definition dir_mode (dir : option ptr) : K Z := d ← nonnull dir; v ← deref vnodes d; ret (vn_mode v).

(** [result] is read after a failed lookup: [garbage] is what an uninitialised pointer holds. *)
Definition do_mknod (garbage : option ptr) (path : option string) (mode devid : Z) : K Z :=
  if negb (mode =? S_IFBLK) && negb (mode =? S_IFCHR) then ret (- EINVAL)
  else
    '(r, (name, parent)) ← dir_namev path None;
    if negb (r =? 0) then ret r
    else
      '(r, found) ← lookup parent name;
      if r =? - ENOENT then
        '(par, mknod) ← dir_op parent vop_mknod;
        n ← nonnull name;
        r2 ← mknod par n mode devid;
        vput parent;;
        ret r2
      else
        let result := match found with Some vn => Some vn | None => garbage end in
        if negb (r =? 0) then
          match result with Some _ => vput result | None => ret tt end;;
          vput parent;;
          ret r
        else
          match result with Some _ => vput result | None => ret tt end;;
          vput parent;;
          ret (- EEXIST).

Definition do_mkdir (path : option string) : K Z :=
  '(r, (name, parent)) ← dir_namev path None;
  if negb (r =? 0) then ret r
  else match name with
  | None => root ← gets vfs_root_vn; vput root;; ret (- EEXIST)
  | Some n =>
      m ← dir_mode parent;
      if negb (S_ISDIR m) then vput parent;; ret (- ENOTDIR)
      else
        '(r, found) ← lookup parent name;
        if r =? - ENOENT then
          '(par, mkdir) ← dir_op parent vop_mkdir;
          r2 ← mkdir par n;
          vput parent;;
          ret r2
        else
          vput parent;;
          if negb (r =? 0) then ret r else vput found;; ret (- EEXIST)
  end.

Definition do_rmdir (path : option string) : K Z :=
  '(r, (name, parent)) ← dir_namev path None;
  if negb (r =? 0) then ret r
  else
    m ← dir_mode parent;
    if negb (S_ISDIR m) then vput parent;; ret (- ENOTDIR)
    else if name_eqb name "." then vput parent;; ret (- EINVAL)
    else if name_eqb name ".." then vput parent;; ret (- ENOTEMPTY)
    else
      '(par, rmdir) ← dir_op parent vop_rmdir;
      n ← nonnull name;
      r ← rmdir par n;
      vput parent;;
      ret r.

(** The mode is read after the reference has been given up. *)
Definition do_unlink (path : option string) : K Z :=
  '(r, (name, parent)) ← dir_namev path None;
  if negb (r =? 0) then ret r
  else
    '(r, result) ← lookup parent name;
    if negb (r =? 0) then vput parent;; ret r
    else
      vput result;;
      m ← dir_mode result;
      if m =? S_IFDIR then vput parent;; ret (- EISDIR)
      else
        '(par, unlink) ← dir_op parent vop_unlink;
        n ← nonnull name;
        r ← unlink par n;
        vput parent;;
        ret r.

Definition do_link (from to : option string) : K Z :=
  '(r, from_vnode) ← open_namev from 0 None;
  if negb (r =? 0) then ret r
  else
    m ← dir_mode from_vnode;
    if m =? S_IFDIR then vput from_vnode;; ret (- EISDIR)
    else
      '(r, (name, to_vnode)) ← dir_namev to None;
      if negb (r =? 0) then vput from_vnode;; ret r
      else
        '(r, testNode) ← lookup to_vnode name;
        if r =? 0 then
          vput from_vnode;;
          vput to_vnode;;
          vput testNode;;
          ret (- EEXIST)
        else if r =? - ENOTDIR then
          vput from_vnode;;
          vput to_vnode;;
          ret (- ENOTDIR)
        else
          t ← nonnull to_vnode;
          ops ← vops t;
          link ← nonnull (vop_link ops);
          f ← nonnull from_vnode;
          n ← nonnull name;
          r ← link f t n;
          vput from_vnode;;
          vput to_vnode;;
          ret r.

Definition do_rename (oldname newname : option string) : K Z :=
  match oldname, newname with
  | Some _, Some _ =>
      r ← do_link oldname newname;
      if negb (r =? 0) then ret r else do_unlink oldname
  | _, _ => ret (- EINVAL)
  end.

Definition do_chdir (path : option string) : K Z :=
  c ← the_curproc;
  p ← deref procs c;
  let temp := p_cwd p in
  '(r, dir) ← open_namev path 0 None;
  if negb (r =? 0) then ret r
  else
    m ← dir_mode dir;
    if negb (m =? S_IFDIR) then vput dir;; ret (- ENOTDIR)
    else
      vput temp;;
      c ← the_curproc;
      assign procs c (fun p => p <| p_cwd := dir |>);;
      ret 0.

Definition do_stat (path : option string) : K (Z * option stat) :=
  match path with
  | None => ret (- EINVAL, None)
  | Some _ =>
      '(r, result) ← open_namev path 0 None;
      if negb (r =? 0) then ret (r, None)
      else
        '(vn, stat) ← dir_op result vop_stat;
        '(r, buf) ← stat vn;
        vput result;;
        ret (r, Some buf)
  end.

(** The calls that process code makes ([proc.c], [fork.c]). *)
#[export] Instance vfs_calls : VfsCalls := {|
  vfs_do_close := do_close;
  vfs_vref vn := vref (Some vn);
  vfs_vput vn := vput (Some vn);
|}.

(** What process creation needs of the file system: [vref] of a vnode that is referenced. *)
Lemma vfs_vref_counts k vn v ob : vnodes k !! vn = Some v -> mmobjs k !! vn_mmobj v = Some ob ->
  0 < mmo_refcount ob ->
  vref (Some vn) k = Ret tt (k <| mmobjs := <[vn_mmobj v := ob <| mmo_refcount ::= Z.succ |>]> (mmobjs k) |>).
Proof.
  intros Hv Hob Hpos. unfold vref. rewrite bind_KASSERT, bind_nonnull, (vn_object_run vn v k ob) by done.
  cbn beta iota. rewrite bind_KASSERT by (by apply Z.ltb_lt). by apply (assign_Some mmobjs).
Qed.

#[export] Instance vfs_calls_ok : VfsOk vfs_calls.
Proof.
  refine {| vnode_active k vn := exists v ob, vnodes k !! vn = Some v /\ mmobjs k !! vn_mmobj v = Some ob /\
    0 < mmo_refcount ob |}.
  - intros k vn (v & ob & Hv & Hob & Hpos). eexists. split; [by apply (vfs_vref_counts k vn v ob)|].
    split; [by destruct k|]. eexists v, _. split; [done|]. split; [apply lookup_insert_eq|simpl; lia].
  - by intros k k' vn -> ->.
Defined.
End vfs_syscall.

(** What the exit of a kernel process needs: [vput] of a directory that has other references. *)
#[export] Program Instance vfs_calls_put `{P : Platform, F : LoopFuel, MHO : MmHeadersOk, Ops : MmobjOps}
    `{FH : FsHeaders, FO : !FsOps, DO : DevOps, FC : FileCalls, FM : FileHeaders} : QuietPut := {|
  can_put k vn := exists v ob, vnodes k !! vn = Some v /\ mmobjs k !! vn_mmobj v = Some ob /\
    vn_busy v = false /\ 0 <= mmo_nrespages ob < mmo_refcount ob - 1 |}.
Next Obligation.
  intros P F MH MHO Ops FH FO DO FC FM k vn (v & ob & Hv & Hob & Hbusy & Hn). exists (less_one (vn_mmobj v) ob k).
  split; [|done]. change (vput (Some vn) k = Ret tt (less_one (vn_mmobj v) ob k)).
  assert (H1 : 0 <= mmo_nrespages ob < mmo_refcount ob) by lia. assert (H2 : 1 < mmo_refcount ob) by lia.
  pose proof (vput_keeps vn v k ob 0 Hv Hob Hbusy H1 H2) as Hp. apply Hp. intros Heq. exfalso. lia.
Qed.
Next Obligation. done. Qed.

(** ** Accounting of file references

    [proc_refs p] are the files the descriptors of a process refer to, with multiplicity, and
    [fd_refs] those of all processes. *)
Definition opt_ref (x : option ptr) : gmultiset ptr := match x with Some f => {[+ f +]} | None => ∅ end.

Definition list_refs (l : list (option ptr)) : gmultiset ptr := list_to_set_disj (omap id l).

Definition proc_refs (p : proc) : gmultiset ptr := list_refs (p_files p).

Definition fd_refs (m : gmap ptr proc) : gmultiset ptr :=
  map_fold (fun _ p acc => proc_refs p ⊎ acc) ∅ m.

(** Every file is live exactly as long as references to it exist, and its counter is their number. *)
Record counted (fs : gmap ptr file) (T : gmultiset ptr) : Prop := {
  ct_live f : f ∈ T -> is_Some (fs !! f);
  ct_count f fl : fs !! f = Some fl -> 0 < f_refcount fl /\ f_refcount fl = Z.of_nat (multiplicity f T);
}.

(** The references are the descriptors, and [X], which calls in progress hold. *)
Definition refs_ok (k : kernel) (X : gmultiset ptr) : Prop := counted (files k) (fd_refs (procs k) ⊎ X).

Lemma list_refs_cons x l : list_refs (x :: l) = opt_ref x ⊎ list_refs l.
Proof. unfold list_refs. destruct x; simpl; [done|]. by rewrite (left_id_L ∅ (⊎)). Qed.

Lemma list_refs_insert l i x y : l !! i = Some y ->
  list_refs (<[i := x]> l) ⊎ opt_ref y = list_refs l ⊎ opt_ref x.
Proof.
  revert i. induction l as [|z l IH]; intros [|i] Hi; simpl in *; try done.
  - injection Hi as ->. rewrite !list_refs_cons. multiset_solver.
  - rewrite !list_refs_cons. specialize (IH i Hi). multiset_solver.
Qed.

Lemma fd_refs_delete m c p : m !! c = Some p -> fd_refs m = proc_refs p ⊎ fd_refs (delete c m).
Proof.
  intros Hc. unfold fd_refs. rewrite <- (insert_delete_id m c p) at 1 by done.
  rewrite (map_fold_insert_L (fun _ p acc => proc_refs p ⊎ acc)); [done| |by rewrite lookup_delete_eq].
  intros. multiset_solver.
Qed.

(** Changing one descriptor. *)
Lemma fd_refs_set m c p fd x y : m !! c = Some p -> p_files p !! fd = Some y ->
  fd_refs (<[c := p <| p_files ::= <[fd := x]> |>]> m) ⊎ opt_ref y = fd_refs m ⊎ opt_ref x.
Proof.
  intros Hc Hy. rewrite (fd_refs_delete m c p Hc).
  rewrite (fd_refs_delete _ c (p <| p_files ::= <[fd := x]> |>)) by apply lookup_insert_eq.
  rewrite delete_insert_eq. pose proof (list_refs_insert (p_files p) fd x y Hy) as Hl.
  unfold proc_refs. simpl. multiset_solver.
Qed.

(** The laws of [file.c]: [fget] of an open descriptor counts a reference, [fput] gives one up;
    the last one frees the file, and releasing its vnode may block. *)
Definition same_files (k k' : kernel) : Prop :=
  curproc k' = curproc k /\
  (forall c, curproc k = Some c -> p_files <$> procs k' !! c = p_files <$> procs k !! c).

(** Other threads, if they run, keep the accounts and leave the descriptors of this process alone. *)
Definition settled (k k' : kernel) : Prop :=
  same_files k k' /\ forall X, refs_ok k X -> refs_ok k' X.

Class FileOk `{FileCalls} (R : rely kernel) : Prop := {
  fget_open k c p fd f fl :
    curproc k = Some c -> procs k !! c = Some p -> p_files p !! fd = Some (Some f) -> files k !! f = Some fl ->
    fget (Z.of_nat fd) k = Ret (Some f) (k <| files := <[f := fl <| f_refcount ::= Z.succ |>]> (files k) |>);
  fget_closed k c p fd :
    curproc k = Some c -> procs k !! c = Some p -> p_files p !! fd = Some None ->
    fget (Z.of_nat fd) k = Ret None k;
  fput_shared k f fl : files k !! f = Some fl -> 1 < f_refcount fl ->
    fput f k = Ret tt (k <| files := <[f := fl <| f_refcount ::= Z.pred |>]> (files k) |>);
  fput_last k f fl : files k !! f = Some fl -> f_refcount fl = 1 ->
    wp R (fput f k) (fun _ => settled (k <| files := delete f (files k) |>));
}.

Lemma settled_refl k : settled k k.
Proof. by split; [split|]. Qed.

Lemma settled_trans k1 k2 k3 : settled k1 k2 -> settled k2 k3 -> settled k1 k3.
Proof.
  intros [[C1 P1] H1] [[C2 P2] H2]. split; [split; [congruence|]|by auto].
  intros c Hc. rewrite P2 by congruence. by apply P1.
Qed.

Lemma mult_cons (f g : ptr) (T : gmultiset ptr) : multiplicity f ({[+ g +]} ⊎ T) = ((if decide (f = g) then 1 else 0) + multiplicity f T)%nat.
Proof. by rewrite multiplicity_disj_union, multiplicity_singleton. Qed.

(** Taking and giving up a reference. *)
Lemma counted_inc fs T f fl : counted fs T -> fs !! f = Some fl ->
  counted (<[f := fl <| f_refcount ::= Z.succ |>]> fs) ({[+ f +]} ⊎ T).
Proof.
  intros [Hl Hc] Hf. split.
  - intros g Hg. destruct (decide (g = f)) as [->|Hne]; [by rewrite lookup_insert_eq|].
    rewrite lookup_insert_ne by done. apply Hl. multiset_solver.
  - intros g gl. rewrite mult_cons. destruct (decide (g = f)) as [->|Hne].
    + rewrite lookup_insert_eq. intros [= <-]. destruct (Hc f fl Hf) as [? ?]. simpl. lia.
    + rewrite lookup_insert_ne by done. intros Hg. destruct (Hc g gl Hg). lia.
Qed.

Lemma counted_dec fs T f fl : counted fs ({[+ f +]} ⊎ T) -> fs !! f = Some fl -> 1 < f_refcount fl ->
  counted (<[f := fl <| f_refcount ::= Z.pred |>]> fs) T.
Proof.
  intros [Hl Hc] Hf Hgt. split.
  - intros g Hg. destruct (decide (g = f)) as [->|Hne]; [by rewrite lookup_insert_eq|].
    rewrite lookup_insert_ne by done. apply Hl. multiset_solver.
  - intros g gl. destruct (decide (g = f)) as [->|Hne].
    + rewrite lookup_insert_eq. intros [= <-]. destruct (Hc f fl Hf) as [_ Heq]. rewrite mult_cons in Heq.
      rewrite decide_True in Heq by done. simpl. lia.
    + rewrite lookup_insert_ne by done. intros Hg. destruct (Hc g gl Hg) as [? Heq]. rewrite mult_cons in Heq.
      rewrite decide_False in Heq by done. lia.
Qed.

Lemma counted_del fs T f fl : counted fs ({[+ f +]} ⊎ T) -> fs !! f = Some fl -> f_refcount fl = 1 ->
  counted (delete f fs) T.
Proof.
  intros [Hl Hc] Hf Hone. destruct (Hc f fl Hf) as [_ Heq]. rewrite mult_cons, decide_True in Heq by done.
  split.
  - intros g Hg. destruct (decide (g = f)) as [->|Hne].
    + pose proof (proj1 (elem_of_multiplicity f T) Hg). lia.
    + rewrite lookup_delete_ne by done. apply Hl. multiset_solver.
  - intros g gl [Hne Hg]%lookup_delete_Some. destruct (Hc g gl Hg) as [? Heq']. rewrite mult_cons in Heq'.
    rewrite decide_False in Heq' by done. lia.
Qed.

Lemma counted_ref fs T f : counted fs ({[+ f +]} ⊎ T) -> exists fl, fs !! f = Some fl /\ (f_refcount fl = 1 \/ 1 < f_refcount fl).
Proof.
  intros [Hl Hc]. destruct (Hl f) as [fl Hf]; [multiset_solver|]. exists fl. split; [done|].
  destruct (Hc f fl Hf). lia.
Qed.

Lemma not_errno `{PO : PlatformOk} n e : e ∈ [EBADF; EMFILE; EINVAL] -> Z.of_nat n =? - e = false.
Proof.
  intros He. apply Z.eqb_neq. pose proof errno_pos as Hpos.
  assert (0 < e); [|lia]. rewrite Forall_forall in Hpos. apply Hpos. set_solver.
Qed.

(** The file of a descriptor is live. *)
Lemma fd_live k c p fd f X : refs_ok k X -> procs k !! c = Some p -> p_files p !! fd = Some (Some f) ->
  exists fl, files k !! f = Some fl.
Proof.
  intros Hk Hp Hfd. apply (ct_live _ _ Hk f). rewrite (fd_refs_delete _ c p Hp). unfold proc_refs, list_refs.
  assert (f ∈ list_to_set_disj (C := gmultiset ptr) (omap id (p_files p))); [|multiset_solver].
  apply elem_of_list_to_set_disj, list_elem_of_omap. exists (Some f). split; [|done].
  by eapply list_elem_of_lookup_2.
Qed.

Section accounting.
Context `{P : Platform, FC : FileCalls} (R : rely kernel) `{FOK : !FileOk R}.
Implicit Types (k : kernel) (X : gmultiset ptr).

Lemma refs_ok_move k X f : refs_ok k ({[+ f +]} ⊎ X) <-> counted (files k) ({[+ f +]} ⊎ (fd_refs (procs k) ⊎ X)).
Proof. unfold refs_ok. by rewrite (assoc_L (⊎)), (comm_L (⊎) (fd_refs _)), <- (assoc_L (⊎)). Qed.

Lemma fput_wp k f X : refs_ok k ({[+ f +]} ⊎ X) ->
  wp R (fput f k) (fun _ k' => refs_ok k' X /\ same_files k k').
Proof.
  rewrite refs_ok_move. intros Hk. destruct (counted_ref _ _ _ Hk) as (fl & Hf & [Hone|Hgt]).
  - eapply wp_mono; [by apply (fput_last k f fl)|]. intros _ k' [Hs Hr]. split; [|exact Hs].
    apply Hr. by eapply counted_del.
  - rewrite (fput_shared k f fl) by done. split; [by eapply counted_dec|]. by split.
Qed.

Lemma refs_set_fd k c p fd x y X : procs k !! c = Some p -> p_files p !! fd = Some y ->
  refs_ok k (opt_ref x ⊎ X) ->
  refs_ok (k <| procs := <[c := p <| p_files ::= <[fd := x]> |>]> (procs k) |>) (opt_ref y ⊎ X).
Proof.
  intros Hp Hy. unfold refs_ok. simpl. pose proof (fd_refs_set (procs k) c p fd x y Hp Hy) as Heq.
  by rewrite !(assoc_L (⊎)), Heq.
Qed.

Lemma same_files_refl k : same_files k k.
Proof. by split. Qed.

Lemma same_files_trans k1 k2 k3 : same_files k1 k2 -> same_files k2 k3 -> same_files k1 k3.
Proof.
  intros [C1 P1] [C2 P2]. split; [congruence|]. intros c Hc. rewrite P2 by congruence. by apply P1.
Qed.

(** The descriptor table of the current process. *)
Definition fd_table (k : kernel) (c : ptr) (l : list (option ptr)) : Prop :=
  curproc k = Some c /\ p_files <$> procs k !! c = Some l.

Lemma fd_table_proc k c l : fd_table k c l -> curproc k = Some c /\ exists p, procs k !! c = Some p /\ p_files p = l.
Proof.
  intros [Hc Hp]. split; [done|]. destruct (procs k !! c) as [p|]; [|done]. injection Hp as <-. by exists p.
Qed.

Lemma fd_table_same k k' c l : fd_table k c l -> same_files k k' -> fd_table k' c l.
Proof. intros [Hc Hp] [Hc' Hp']. split; [congruence|]. by rewrite Hp'. Qed.

Lemma set_fd_wp {A} (m : unit -> K A) k c l fd x y X Q : fd_table k c l -> l !! fd = Some y ->
  refs_ok k (opt_ref x ⊎ X) ->
  (forall k', fd_table k' c (<[fd := x]> l) -> refs_ok k' (opt_ref y ⊎ X) -> wp R (m tt k') Q) ->
  wp R (bind (set_fd (Z.of_nat fd) x) m k) Q.
Proof.
  intros Ht Hy Hk HQ. destruct (fd_table_proc _ _ _ Ht) as (Hc & p & Hp & Hl). subst l.
  unfold set_fd. rewrite bind_unfold, (bind_curproc _ c) by done.
  rewrite (assign_Some procs _ _ _ _ Hp), Nat2Z.id. simpl. apply HQ.
  - split; [done|]. simpl. by rewrite lookup_insert_eq.
  - by apply refs_set_fd.
Qed.

Lemma fput_bind {A} (m : unit -> K A) k f X Q : refs_ok k ({[+ f +]} ⊎ X) ->
  (forall k', refs_ok k' X -> same_files k k' -> wp R (m tt k') Q) ->
  wp R (bind (fput f) m k) Q.
Proof.
  intros Hk HQ. apply wp_bind. eapply wp_mono; [by apply fput_wp|]. intros [] k' [? ?]. by apply HQ.
Qed.

Lemma fget_bind {A} (m : option ptr -> K A) k c l fd X Q : fd_table k c l -> (fd < length l)%nat ->
  refs_ok k X ->
  (l !! fd = Some None -> wp R (m None k) Q) ->
  (forall f fl, l !! fd = Some (Some f) -> files k !! f = Some fl ->
     let k' := k <| files := <[f := fl <| f_refcount ::= Z.succ |>]> (files k) |> in
     fd_table k' c l -> refs_ok k' ({[+ f +]} ⊎ X) -> wp R (m (Some f) k') Q) ->
  wp R (bind (fget (Z.of_nat fd)) m k) Q.
Proof.
  intros Ht Hlt Hk HN HS. destruct (fd_table_proc _ _ _ Ht) as (Hc & p & Hp & Hl). subst l.
  destruct (lookup_lt_is_Some_2 _ _ Hlt) as [[f|] Hfd].
  - destruct (fd_live k c p fd f X) as [fl Hf]; [done..|].
    erewrite bind_ret by (by apply (fget_open k c p fd f fl)). apply HS; try done.
    apply refs_ok_move. by apply counted_inc.
  - erewrite bind_ret by (by eapply fget_closed). by apply HN.
Qed.

(** ** The descriptor calls *)
Section calls.
Context (k : kernel) (c : ptr) (l : list (option ptr)) (X : gmultiset ptr).
Hypotheses (Ht : fd_table k c l) (Hlen : length l = NFILES) (Hk : refs_ok k X).

Lemma fd_range fd : bad_fd fd = false -> exists n, fd = Z.of_nat n /\ (n < length l)%nat.
Proof.
  unfold bad_fd. intros [H1 H2]%orb_false_iff. to_prop. exists (Z.to_nat fd).
  rewrite Z2Nat.id by lia. split; [done|]. rewrite Hlen. lia.
Qed.

(** Not a descriptor, or one that is not open. *)
Definition closed_fd (l : list (option ptr)) (fd : Z) : Prop :=
  bad_fd fd = true \/ l !! Z.to_nat fd = Some None.

Lemma do_close_wp fd : wp R (do_close fd k) (fun r k' => refs_ok k' X /\
  ((r = 0 /\ fd_table k' c (<[Z.to_nat fd := None]> l)) \/ (r = - EBADF /\ k' = k /\ closed_fd l fd))).
Proof.
  unfold do_close. destruct (bad_fd fd) eqn:Hfd; [simpl; unfold closed_fd; naive_solver|].
  destruct (fd_range fd Hfd) as (n & -> & Hn). rewrite Nat2Z.id.
  eapply fget_bind; [done..| |].
  { intros Hnone. simpl. split; [done|]. right. split_and!; [done..|]. right. by rewrite Nat2Z.id. }
  intros f fl Hf Hfl k1 Ht1 Hk1. eapply (set_fd_wp _ _ _ _ _ None); [done..|simpl; rewrite (left_id_L ∅ (⊎)); exact Hk1|].
  intros k2 Ht2 Hk2. eapply fput_bind; [exact Hk2|]. intros k3 Hk3 Hs3.
  eapply fput_bind; [exact Hk3|]. intros k4 Hk4 Hs4. simpl. split; [done|]. left. split; [done|].
  by eapply fd_table_same, Hs4; eapply fd_table_same.
Qed.

Context `{PO : !PlatformOk P}.

Lemma do_dup_wp fd : wp R (do_dup fd k) (fun r k' => refs_ok k' X /\
  ((r = - EBADF /\ k' = k /\ closed_fd l fd) \/
   (r = - EMFILE /\ fd_table k' c l /\ forall j, (j < NFILES)%nat -> exists g, l !! j = Some (Some g)) \/
   exists n nfd f, fd = Z.of_nat n /\ r = Z.of_nat nfd /\ l !! n = Some (Some f) /\ l !! nfd = Some None /\
     (forall j, (j < nfd)%nat -> exists g, l !! j = Some (Some g)) /\
     fd_table k' c (<[nfd := Some f]> l))).
Proof.
  unfold do_dup. destruct (bad_fd fd) eqn:Hfd; [simpl; unfold closed_fd; naive_solver|].
  destruct (fd_range fd Hfd) as (n & -> & Hn). eapply fget_bind; [done..| |].
  { intros Hnone. simpl. split; [done|]. left. split_and!; [done..|]. right. by rewrite Nat2Z.id. }
  intros f fl Hf Hfl k1 Ht1 Hk1. destruct (fd_table_proc _ _ _ Ht1) as (Hc & p & Hp & Hl).
  rewrite (bind_curproc _ c) by done.
  destruct (get_empty_fd_run k1 c p Hp) as [(nfd & Hrun & Hnone & Htaken)|[Hrun Htaken]]; [congruence| |].
  - rewrite (bind_ret _ _ _ _ _ Hrun), not_errno by set_solver. rewrite Hl in Hnone.
    eapply (set_fd_wp _ _ _ _ _ (Some f)); [done..|exact Hk1|]. intros k2 Ht2 Hk2. simpl in Hk2.
    rewrite (left_id_L ∅ (⊎)) in Hk2. simpl. split; [done|]. do 2 right. exists n, nfd, f.
    split_and!; try done. intros j Hj. destruct (Htaken j Hj) as [g Hg]. rewrite Hl in Hg. by exists g.
  - rewrite (bind_ret _ _ _ _ _ Hrun), Z.eqb_refl. eapply fput_bind; [exact Hk1|].
    intros k2 Hk2 Hs2. simpl. split; [done|]. right. left. split_and!; [done|by eapply fd_table_same|].
    intros j Hj. destruct (Htaken j Hj) as [g Hg]. rewrite Hl in Hg. by exists g.
Qed.

End calls.

Lemma do_dup2_wp k c l X ofd nfd : fd_table k c l -> length l = NFILES -> refs_ok k X -> PlatformOk P ->
  wp R (do_dup2 ofd nfd k) (fun r k' => refs_ok k' X /\
  ((r = - EBADF /\ k' = k /\ (closed_fd l ofd \/ bad_fd nfd = true)) \/
   exists n m f, ofd = Z.of_nat n /\ nfd = Z.of_nat m /\ r = nfd /\ l !! n = Some (Some f) /\
     fd_table k' c (<[m := Some f]> l))).
Proof.
  intros Ht Hlen Hk PO. unfold do_dup2. destruct (bad_fd ofd) eqn:Hofd; [simpl; unfold closed_fd; naive_solver|].
  destruct (bad_fd nfd) eqn:Hnfd; [simpl; naive_solver|].
  destruct (fd_range l Hlen _ Hofd) as (n & -> & Hn). destruct (fd_range l Hlen _ Hnfd) as (m & -> & Hm).
  eapply fget_bind; [done..| |].
  { intros Hnone. simpl. split; [done|]. left. split_and!; [done..|]. left. right. by rewrite Nat2Z.id. }
  intros f fl Hf Hfl k1 Ht1 Hk1. destruct (Z.eqb_spec (Z.of_nat n) (Z.of_nat m)) as [Heq|Hne].
  { assert (n = m) as -> by lia. eapply fput_bind; [exact Hk1|]. intros k2 Hk2 Hs2. simpl. split; [done|].
    right. exists m, m, f. split_and!; try done. rewrite list_insert_id by done. by eapply fd_table_same. }
  destruct (fd_table_proc _ _ _ Ht1) as (Hc & p & Hp & Hl). rewrite (bind_curproc _ c) by done.
  rewrite (bind_deref procs _ _ _ _ Hp), Hl, Nat2Z.id. destruct (lookup_lt_is_Some_2 l m Hm) as [y Hy].
  assert (Hset : forall k2 z, fd_table k2 c (<[m := z]> l) -> z = None -> refs_ok k2 ({[+ f +]} ⊎ X) ->
    wp R (bind (set_fd (Z.of_nat m) (Some f)) (fun _ => ret (Z.of_nat m)) k2) (fun r k' => refs_ok k' X /\
      ((r = - EBADF /\ k' = k /\ (closed_fd l (Z.of_nat n) \/ false = true)) \/ exists n0 m0 f0, Z.of_nat n = Z.of_nat n0 /\ Z.of_nat m = Z.of_nat m0 /\
        r = Z.of_nat m /\ l !! n0 = Some (Some f0) /\ fd_table k' c (<[m0 := Some f0]> l)))).
  { intros k2 z Ht2 -> Hk2. eapply (set_fd_wp _ _ _ _ _ (Some f)); [exact Ht2| |exact Hk2|].
    { by apply list_lookup_insert_eq. }
    intros k3 Ht3 Hk3. simpl in *. rewrite (left_id_L ∅ (⊎)) in Hk3. split; [done|]. right.
    rewrite list_insert_insert_eq in Ht3. exists n, m, f. by split_and!. }
  rewrite Hy. destruct y as [g|].
  - apply wp_bind. eapply wp_mono; [by apply (do_close_wp k1 c l ({[+ f +]} ⊎ X))|].
    intros r k2 [Hk2 [[-> Ht2]|(_ & _ & [Hbad|Hnone])]]; [|congruence|].
    + rewrite Nat2Z.id in Ht2. by eapply Hset.
    + rewrite Nat2Z.id in Hnone. congruence.
  - simpl. apply (Hset k1 None); [|done..]. by rewrite list_insert_id.
Qed.
End accounting.

(** ** Seeking, and a descriptor made and closed again *)
Class FsHeadersOk (FH : FsHeaders) : Prop := {
  seek_distinct : NoDup [SEEK_SET; SEEK_CUR; SEEK_END];
}.

Section seek.
Context `{PO : PlatformOk, FC : FileCalls} (R : rely kernel) `{FOK : !FileOk R, FHO : FsHeadersOk}.
Context (k : kernel) (c : ptr) (p : proc) (X : gmultiset ptr).

(** The state with file [f] replaced. *)
Definition with_file (f : ptr) (fl : file) : kernel := k <| files := <[f := fl]> (files k) |>.

Lemma with_file_id f fl : files k !! f = Some fl -> with_file f fl = k.
Proof. intros Hf. unfold with_file. kernel_ext. by rewrite insert_id. Qed.

(** Giving up the reference that [fget] took. *)
Lemma fput_back k0 f fl : 0 < f_refcount fl -> files k0 = <[f := fl <| f_refcount ::= Z.succ |>]> (files k) ->
  k0 = k <| files := files k0 |> -> fput f k0 = Ret tt (with_file f fl).
Proof.
  intros Hpos Hfs Hk0. rewrite (fput_shared k0 f (fl <| f_refcount ::= Z.succ |>)); [|by rewrite Hfs, lookup_insert_eq|simpl; lia].
  f_equal. rewrite Hk0, Hfs. unfold with_file. kernel_ext. rewrite insert_insert_eq. f_equal. destruct fl. simpl.
  unfold update_field. simpl. f_equal. lia.
Qed.

Hypotheses (Hc : curproc k = Some c) (Hp : procs k !! c = Some p) (Hlen : length (p_files p) = NFILES)
  (Hk : refs_ok k X).

Lemma good_fd n f : p_files p !! n = Some (Some f) -> bad_fd (Z.of_nat n) = false.
Proof.
  intros Hn%lookup_lt_Some. rewrite Hlen in Hn. unfold bad_fd. apply orb_false_iff.
  split; [apply Z.leb_gt|apply Z.ltb_ge]; lia.
Qed.

(** Where a seek goes. *)
Definition seek_target (fl : file) (v : vnode) (offset whence : Z) : Z :=
  if whence =? SEEK_SET then offset
  else if whence =? SEEK_CUR then int32 (f_pos fl + offset)
  else int32 (vn_len v + offset).

Definition seek_whence (whence : Z) : bool :=
  (whence =? SEEK_SET) || (whence =? SEEK_CUR) || (whence =? SEEK_END).

Lemma do_lseek_run n f fl vn v offset whence :
  p_files p !! n = Some (Some f) -> files k !! f = Some fl -> f_vnode fl = Some vn -> vnodes k !! vn = Some v ->
  do_lseek (Z.of_nat n) offset whence k =
    if seek_whence whence && (0 <=? seek_target fl v offset whence)
    then Ret (seek_target fl v offset whence) (with_file f (fl <| f_pos := seek_target fl v offset whence |>))
    else Ret (- EINVAL) k.
Proof.
  intros Hn Hf Hvn Hv. destruct (ct_count _ _ Hk f fl Hf) as [Hpos _].
  set (fl1 := fl <| f_refcount ::= Z.succ |>). set (k1 := with_file f fl1).
  assert (Hfail : (bind (fput f) (fun _ => ret (- EINVAL))) k1 = Ret (- EINVAL) k).
  { erewrite bind_ret by (by apply (fput_back k1 f fl)). by rewrite with_file_id. }
  assert (Hseek : forall pos, (assign files f (fun fl => fl <| f_pos := pos |>);; fl ← deref files f; fput f;; ret (f_pos fl)) k1
    = Ret pos (with_file f (fl <| f_pos := pos |>))).
  { intros pos. rewrite (bind_assign files _ fl1) by (simpl; apply lookup_insert_eq).
    rewrite (bind_deref files _ (fl1 <| f_pos := pos |>)) by (simpl; by rewrite lookup_insert_eq).
    erewrite bind_ret by (apply (fput_back _ f (fl <| f_pos := pos |>)); [done|simpl; by rewrite insert_insert_eq|done]).
    done. }
  assert (Hfv : file_vnode f k1 = Ret (vn, v) k1).
  { unfold file_vnode. rewrite (bind_deref files _ fl1) by (simpl; apply lookup_insert_eq). simpl. rewrite Hvn, bind_nonnull.
    by rewrite (bind_deref vnodes _ v). }
  unfold do_lseek. rewrite (good_fd n f Hn). erewrite bind_ret by (by eapply (fget_open k c p n f fl)).
  fold fl1. fold (with_file f fl1). fold k1. unfold seek_whence, seek_target.
  pose proof seek_distinct as Hd. rewrite !NoDup_cons, !not_elem_of_cons in Hd.
  destruct Hd as ([Hd1 [Hd2 _]] & [Hd3 _] & _).
  destruct (Z.eqb_spec whence SEEK_SET) as [->|Hset]; simpl.
  { rewrite (bind_deref files _ fl1) by (simpl; apply lookup_insert_eq).
    destruct (0 <=? offset) eqn:Hoff; [apply Hseek|].
    destruct (Z.eqb_spec SEEK_SET SEEK_CUR); [done|]. destruct (Z.eqb_spec SEEK_SET SEEK_END); [done|]. exact Hfail. }
  destruct (Z.eqb_spec whence SEEK_CUR) as [->|Hcur]; simpl.
  { rewrite (bind_deref files _ fl1) by (simpl; apply lookup_insert_eq). simpl.
    destruct (0 <=? int32 (f_pos fl + offset)); [apply Hseek|].
    destruct (Z.eqb_spec SEEK_CUR SEEK_END); [done|]. exact Hfail. }
  destruct (Z.eqb_spec whence SEEK_END) as [->|Hend]; simpl; [|exact Hfail].
  rewrite (bind_deref files _ fl1) by (simpl; apply lookup_insert_eq). rewrite (bind_ret _ _ _ _ _ Hfv).
  destruct (0 <=? int32 (vn_len v + offset)); [apply Hseek|exact Hfail].
Qed.

(** A duplicate, and its removal. *)
Definition duplicated (f : ptr) (fl : file) (nfd : nat) : kernel :=
  k <| files := <[f := fl <| f_refcount ::= Z.succ |>]> (files k) |>
    <| procs := <[c := p <| p_files ::= <[nfd := Some f]> |>]> (procs k) |>.

Lemma do_dup_run n f fl : p_files p !! n = Some (Some f) -> files k !! f = Some fl ->
  (exists nfd, p_files p !! nfd = Some None) ->
  exists nfd, p_files p !! nfd = Some None /\ (forall j, (j < nfd)%nat -> taken p j) /\
    do_dup (Z.of_nat n) k = Ret (Z.of_nat nfd) (duplicated f fl nfd).
Proof.
  intros Hn Hf [free Hfree].
  destruct (get_empty_fd_run (with_file f (fl <| f_refcount ::= Z.succ |>)) c p Hp Hlen)
    as [(nfd & Hrun & Hnone & Htaken)|[_ Htaken]].
  - exists nfd. split_and!; [done..|]. unfold do_dup. rewrite (good_fd n f Hn).
    erewrite bind_ret by (by eapply (fget_open k c p n f fl)). cbn beta iota.
    rewrite (bind_curproc _ c) by done. erewrite bind_ret by exact Hrun.
    rewrite not_errno by set_solver. unfold set_fd. rewrite bind_unfold, (bind_curproc _ c) by done.
    by rewrite (assign_Some procs _ p) by done; rewrite Nat2Z.id.
  - destruct (Htaken free) as [g Hg]; [|congruence]. rewrite <- Hlen. by eapply lookup_lt_Some.
Qed.
End seek.

(** The calls on descriptors. *)
Inductive fd_call := Close (fd : Z) | Dup (fd : Z) | Dup2 (ofd nfd : Z) | Lseek (fd offset whence : Z).

Section properties.
Context `{PO : PlatformOk, FC : FileCalls} (R : rely kernel) `{FOK : !FileOk R, FHO : FsHeadersOk}.

Definition run_fd_call (call : fd_call) : K Z :=
  match call with
  | Close fd => do_close fd
  | Dup fd => do_dup fd
  | Dup2 ofd nfd => do_dup2 ofd nfd
  | Lseek fd offset whence => do_lseek fd offset whence
  end.

(** The files that descriptors refer to have vnodes. *)
Definition vnodes_open (k : kernel) : Prop :=
  forall f fl, files k !! f = Some fl -> exists vn v, f_vnode fl = Some vn /\ vnodes k !! vn = Some v.

(** C8: No call on descriptors loses or invents a reference to a file, on any of its paths: when
    every file is live exactly as long as it is referred to and its counter is the number of
    references, this still holds when the call returns, and the call does return, also when
    releasing a file blocks and other threads run. *)
Theorem fd_calls_account call k c l X :
  fd_table k c l -> length l = NFILES -> refs_ok k X -> vnodes_open k ->
  wp R (run_fd_call call k) (fun _ k' => refs_ok k' X).
Proof.
  intros Ht Hlen Hk Hv. destruct call as [fd|fd|ofd nfd|fd offset whence]; simpl.
  - eapply wp_mono; [by eapply do_close_wp|]. by intros ? ? [? _].
  - eapply wp_mono; [by eapply do_dup_wp|]. by intros ? ? [? _].
  - eapply wp_mono; [by eapply do_dup2_wp|]. by intros ? ? [? _].
  - destruct (bad_fd fd) eqn:Hfd; [unfold do_lseek; by rewrite Hfd|].
    destruct (fd_range l Hlen fd Hfd) as (n & -> & Hn). destruct (fd_table_proc _ _ _ Ht) as (Hc & p & Hp & <-).
    destruct (lookup_lt_is_Some_2 _ _ Hn) as [[f|] Hf].
    + destruct (fd_live k c p n f X) as [fl Hfl]; [done..|]. destruct (Hv f fl Hfl) as (vn & v & Hvn & Hvv).
      rewrite (do_lseek_run R k c p X Hc Hp Hlen Hk n f fl vn v) by done.
      destruct (_ && _); [|done]. destruct Hk as [Hl Hct]. split; simpl.
      * intros g Hg. destruct (decide (g = f)) as [->|]; [by rewrite lookup_insert_eq|].
        rewrite lookup_insert_ne by done. by apply Hl.
      * intros g gl. destruct (decide (g = f)) as [->|].
        -- rewrite lookup_insert_eq. intros [= <-]. exact (Hct f fl Hfl).
        -- rewrite lookup_insert_ne by done. by apply Hct.
    + unfold do_lseek. rewrite Hfd. by erewrite bind_ret by (by eapply fget_closed).
Qed.

(** C24: A descriptor made by [do_dup] is the lowest free one and refers to the same file; closing
    it again restores the very state before. *)
Theorem dup_close_roundtrip k c p X n f fl :
  curproc k = Some c -> procs k !! c = Some p -> length (p_files p) = NFILES -> refs_ok k X ->
  p_files p !! n = Some (Some f) -> files k !! f = Some fl -> (exists nfd, p_files p !! nfd = Some None) ->
  exists nfd k1, do_dup (Z.of_nat n) k = Ret (Z.of_nat nfd) k1 /\
    p_files p !! nfd = Some None /\ (forall j, (j < nfd)%nat -> taken p j) /\
    (p_files <$> procs k1 !! c) = Some (<[nfd := Some f]> (p_files p)) /\
    do_close (Z.of_nat nfd) k1 = Ret 0 k.
Proof.
  intros Hc Hp Hlen Hk Hn Hf Hfree. destruct (ct_count _ _ Hk f fl Hf) as [Hpos _].
  destruct (do_dup_run R k c p X Hc Hp Hlen Hk n f fl Hn Hf Hfree) as (nfd & Hnone & Htaken & Hdup).
  exists nfd, (duplicated k c p f fl nfd). split_and!; [done..| |].
  { simpl. by rewrite lookup_insert_eq. }
  assert (Hnfd : (nfd < length (p_files p))%nat) by (by eapply lookup_lt_Some).
  unfold do_close. rewrite (good_fd (p <| p_files ::= <[nfd := Some f]> |>)) with (f := f);
    [|simpl; by rewrite length_insert|simpl; by apply list_lookup_insert_eq].
  erewrite bind_ret.
  2:{ eapply (fget_open _ c (p <| p_files ::= <[nfd := Some f]> |>) nfd f); simpl.
      - done.
      - by rewrite lookup_insert_eq.
      - by apply list_lookup_insert_eq.
      - by rewrite lookup_insert_eq. }
  unfold set_fd. rewrite bind_unfold, (bind_curproc _ c), Nat2Z.id by done.
  erewrite assign_Some by (simpl; by rewrite lookup_insert_eq). simpl.
  erewrite bind_ret by (eapply fput_shared; [simpl; by rewrite lookup_insert_eq|simpl; lia]).
  erewrite bind_ret by (eapply fput_shared; [simpl; by rewrite lookup_insert_eq|simpl; lia]).
  unfold ret. f_equal. kernel_ext.
  - rewrite insert_insert_eq. apply insert_id. rewrite Hp. f_equal. destruct p. simpl in *.
    unfold update_field. simpl. f_equal. rewrite list_insert_insert_eq. by rewrite list_insert_id.
  - rewrite !insert_insert_eq. apply insert_id. rewrite Hf. f_equal. destruct fl. simpl.
    unfold update_field. simpl. f_equal. lia.
Qed.

(** C26: [do_lseek] moves the position of an open file to the offset, counted from the start, the
    position or the end in 32-bit arithmetic, and returns it; a negative target or an unknown
    [whence] is refused with [-EINVAL] and changes nothing. *)
Theorem do_lseek_spec k c p X n f fl vn v offset whence :
  curproc k = Some c -> procs k !! c = Some p -> length (p_files p) = NFILES -> refs_ok k X ->
  p_files p !! n = Some (Some f) -> files k !! f = Some fl -> f_vnode fl = Some vn -> vnodes k !! vn = Some v ->
  let target := seek_target fl v offset whence in
  (seek_whence whence = true /\ 0 <= target ->
     do_lseek (Z.of_nat n) offset whence k = Ret target (k <| files := <[f := fl <| f_pos := target |>]> (files k) |>)) /\
  (seek_whence whence = false \/ target < 0 -> do_lseek (Z.of_nat n) offset whence k = Ret (- EINVAL) k).
Proof.
  intros Hc Hp Hlen Hk Hn Hf Hvn Hv target.
  rewrite (do_lseek_run R k c p X Hc Hp Hlen Hk n f fl vn v) by done. fold target.
  split; [intros [-> Ht]; destruct (Z.leb_spec 0 target); [done|lia]|].
  intros [->|Ht]; [done|]. destruct (Z.leb_spec 0 target); [lia|]. by rewrite andb_false_r.
Qed.
End properties.

(** ** The properties at concrete states *)
Module Witness.
Import Vnode.Witness.

Definition fd_entry (k : kernel) (fd : Z) : option ptr :=
  match curproc k with
  | Some c => match procs k !! c with Some p => mjoin (p_files p !! Z.to_nat fd) | None => None end
  | None => None
  end.

(** Files that are freed with their last reference. *)
#[local] Instance simple_files : FileCalls := {|
  fget fd :=
    k ← get;
    match fd_entry k fd with
    | Some f => assign files f (fun fl => fl <| f_refcount ::= Z.succ |>);; ret (Some f)
    | None => ret None
    end;
  fput f :=
    fl ← deref files f;
    if f_refcount fl =? 1 then slab_free files f
    else assign files f (fun fl => fl <| f_refcount ::= Z.pred |>);
  fref f := assign files f (fun fl => fl <| f_refcount ::= Z.succ |>);
|}.

#[local] Instance simple_files_ok : FileOk alone.
Proof.
  split.
  - intros k c p fd f fl Hc Hp Hfd Hf. simpl. rewrite bind_get. unfold fd_entry. rewrite Hc, Hp, Nat2Z.id, Hfd. simpl. by rewrite (bind_assign files _ _ _ _ _ Hf).
  - intros k c p fd Hc Hp Hfd. simpl. rewrite bind_get. unfold fd_entry. by rewrite Hc, Hp, Nat2Z.id, Hfd.
  - intros k f fl Hf Hgt. simpl. rewrite (bind_deref files _ _ _ _ Hf).
    destruct (Z.eqb_spec (f_refcount fl) 1); [lia|]. by apply assign_Some.
  - intros k f fl Hf Hone. simpl. rewrite (bind_deref files _ _ _ _ Hf), Hone. simpl.
    rewrite (slab_free_Some files _ _ _ Hf). apply settled_refl.
Qed.

#[local] Instance unix_headers_ok : FsHeadersOk unix_headers.
Proof. split. apply (bool_decide_unpack _). vm_compute. exact I. Qed.

(** Process 1 has file 5 at the descriptors 0 and 2; the file is at position 3 of a vnode of
    length 10. *)
Definition open_file : file := {| f_pos := 3; f_mode := 3; f_refcount := 2; f_vnode := Some 4%positive |}.
Definition regular : vnode := {|
  vn_ops := fs_vops; vn_fs := 1%positive; vn_mmobj := 4%positive; vn_vno := 7; vn_mode := 0x800;
  vn_len := 10; vn_devid := 0; vn_cdev := None; vn_bdev := None; vn_busy := false |}.
Definition table : list (option ptr) := [Some 5%positive; None; Some 5%positive] ++ replicate 29 None.
Definition user : proc := {|
  p_pid := 1; p_comm := "u"%string; p_threads := []; p_children := []; p_pproc := None; p_status := 0;
  p_state := PROC_RUNNING; p_pagedir := Some 1%positive; p_list_link := true; p_child_link := None;
  p_files := table; p_cwd := None; p_vmmap := None; p_brk := 0; p_start_brk := 0 |}.
Definition opened : kernel :=
  boot <| procs := {[ 1%positive := user ]} |> <| curproc := Some 1%positive |>
       <| files := {[ 5%positive := open_file ]} |> <| vnodes := {[ 4%positive := regular ]} |>.

Lemma opened_refs : refs_ok opened ∅.
Proof.
  assert (Hrefs : fd_refs (procs opened) ⊎ ∅ = {[+ 5%positive; 5%positive +]}) by reflexivity.
  unfold refs_ok. rewrite Hrefs. split.
  - intros f Hf. assert (f = 5%positive) as -> by multiset_solver. by eexists.
  - intros f fl Hf. change (files opened) with ({[ 5%positive := open_file ]} : gmap ptr file) in Hf.
    apply lookup_singleton_Some in Hf as [<- <-]. by vm_compute.
Qed.

Lemma opened_table : fd_table opened 1 table.
Proof. by split. Qed.

Lemma opened_vnodes : vnodes_open opened.
Proof.
  intros f fl Hf. change (files opened) with ({[ 5%positive := open_file ]} : gmap ptr file) in Hf.
  apply lookup_singleton_Some in Hf as [<- <-]. by eexists _, _.
Qed.

(** Closing descriptor 2 leaves one reference. *)
Lemma fd_calls_account_witness :
  wp alone (run_fd_call (Close 2) opened) (fun _ k' => refs_ok k' ∅).
Proof.
  exact (fd_calls_account alone (Close 2) opened 1 table ∅ opened_table eq_refl opened_refs opened_vnodes).
Defined.

Lemma dup_close_roundtrip_witness :
  exists nfd k1, do_dup (Z.of_nat 0) opened = Ret (Z.of_nat nfd) k1 /\ do_close (Z.of_nat nfd) k1 = Ret 0 opened.
Proof.
  destruct (dup_close_roundtrip alone opened 1 user ∅ 0 5 open_file) as (nfd & k1 & Hdup & _ & _ & _ & Hclose).
  - reflexivity.
  - reflexivity.
  - reflexivity.
  - apply opened_refs.
  - reflexivity.
  - reflexivity.
  - exists 1%nat. reflexivity.
  - exists nfd, k1. split; [exact Hdup|exact Hclose].
Defined.

(** To four bytes before the end. *)
Lemma do_lseek_spec_witness :
  do_lseek (Z.of_nat 0) (-4) 2 opened =
    Ret 6 (opened <| files := <[5%positive := open_file <| f_pos := 6 |>]> (files opened) |>).
Proof.
  destruct (do_lseek_spec alone opened 1 user ∅ 0 5 open_file 4 regular (-4) 2) as [Hok _].
  - reflexivity.
  - reflexivity.
  - reflexivity.
  - apply opened_refs.
  - reflexivity.
  - reflexivity.
  - reflexivity.
  - reflexivity.
  - apply Hok. by vm_compute.
Defined.
End Witness.
