(* ===== verification/ForkCall.v ===== *)
(** * ForkCall

    The whole of [do_fork] ([kernel/proc/fork.c]) when memory is available: the child process, its
    address space, thread and descriptors, put together from the parts of [Proc], [Vmmap],
    [Fork], [VfsSys] and [Sched]. *)

From S2P Require Import Prelude Platform State Sched Mmobj Vmmap Pframe Anon Proc Vmsys Fork Vnode Namev VfsSys.

(** The law of [file.c]: [fref] counts a reference. *)
Class FrefOk `{FileCalls} : Prop := fref_run k f fl : files k !! f = Some fl ->
  fref f k = Ret tt (k <| files := <[f := fl <| f_refcount ::= Z.succ |>]> (files k) |>).

(** A vnode that is in use stays so when memory objects gain references. *)
Class VnodesGrow `{VO : VfsOk} : Prop := vnode_active_grows n k k' vn :
  vnodes k' = vnodes k -> objects_grow n (mmobjs k) (mmobjs k') -> vnode_active k vn -> vnode_active k' vn.

#[export] Instance vfs_calls_grow `{P : Platform, F : LoopFuel, MH : MmHeaders, Ops : MmobjOps}
  `{FH : FsHeaders, FO : !FsOps, DO : DevOps, FC : FileCalls, FM : FileHeaders} : VnodesGrow.
Proof.
  intros n k k' vn Hv Hg (v & ob & Hvn & Hob & Hpos). destruct (Hg _ _ Hob) as (ob' & Hob' & Hgr).
  exists v, ob'. rewrite Hv. split_and!; [done..|]. rewrite (gr_count _ _ _ _ Hgr). lia.
Qed.

(** ** Descriptors *)

(** The account depends on the descriptor tables only. *)
Lemma fd_refs_tables m : fd_refs m = map_fold (fun _ l acc => list_refs l ⊎ acc) ∅ (p_files <$> m).
Proof. unfold fd_refs, proc_refs. by rewrite map_fold_fmap. Qed.

Lemma list_refs_none n : list_refs (replicate n None) = ∅.
Proof. induction n as [|n IH]; [done|]. simpl. rewrite list_refs_cons, IH. done. Qed.

(** A new process without open files does not change the account. *)
Lemma fd_refs_new k m m' n : m !! n = None -> p_files <$> m' !! n = Some (replicate k None) ->
  (forall q, q <> n -> p_files <$> m' !! q = p_files <$> m !! q) -> fd_refs m' = fd_refs m.
Proof.
  intros Hn Hn' Hq. rewrite !fd_refs_tables.
  assert (p_files <$> m' = <[n := replicate k None]> (p_files <$> m)) as ->.
  { apply map_eq. intros q. rewrite lookup_fmap. destruct (decide (q = n)) as [->|Hne].
    - by rewrite lookup_insert_eq.
    - by rewrite lookup_insert_ne, lookup_fmap, Hq. }
  rewrite map_fold_insert_L; [|intros; multiset_solver|by rewrite lookup_fmap, Hn].
  by rewrite list_refs_none, (left_id_L ∅ (⊎)).
Qed.

Lemma fd_refs_same m m' : (forall q, p_files <$> m' !! q = p_files <$> m !! q) -> fd_refs m' = fd_refs m.
Proof.
  intros Hq. rewrite !fd_refs_tables. f_equal. apply map_eq. intros q. by rewrite !lookup_fmap, Hq.
Qed.

Section fork.
Context `{PO : PlatformOk, F : LoopFuel, MHO : MmHeadersOk, RC : RefCounts, V : VfsCalls, VO : !VfsOk V, VG : !VnodesGrow}.
Context `{C : ContextCode, FC : FileCalls, FR : !FrefOk, FA : ForkArch}.
Hypothesis slab_succeeds : forall n live, is_Some (slab_obj_alloc n live).
Hypothesis page_succeeds : forall n live, is_Some (page_alloc_n n live).
Hypothesis pagedir_succeeds : forall n live, is_Some (pt_new_pagedir n live).

(** Copying the descriptors from [i] on: the child [p] gets those of the parent [c], and every
    open file a reference for each. *)
Lemma file_loop_run p c X n : forall i k cp np, curproc k = Some c -> procs k !! c = Some cp ->
  procs k !! p = Some np -> p <> c -> length (p_files cp) = (i + n)%nat ->
  p_files np = take i (p_files cp) ++ replicate n None -> refs_ok k X ->
  exists k', file_loop p (seq i n) k = Ret tt k' /\ refs_ok k' X /\
    k' = k <| procs := <[p := np <| p_files := p_files cp |>]> (procs k) |> <| files := files k' |>.
Proof.
  induction n as [|n IH]; intros i k cp np Hc Hcp Hnp Hne Hlen Hf Hr.
  { exists k. split; [done|]. split; [done|]. rewrite Nat.add_0_r in Hlen.
    assert (np <| p_files := p_files cp |> = np) as ->.
    { simpl in Hf. rewrite app_nil_r, <- Hlen, firstn_all in Hf. destruct np. simpl in *. by subst. }
    rewrite insert_id by done. by destruct k. }
  cbn [seq file_loop]. rewrite (bind_curproc _ c), (bind_deref procs _ _ _ _ Hcp) by done.
  destruct (p_files cp !! i) as [o|] eqn:Hi; [|apply lookup_ge_None in Hi; lia].
  assert (Hnone : p_files np !! i = Some None).
  { rewrite Hf, lookup_app_r; rewrite length_take_le by lia; [|done]. by rewrite Nat.sub_diag. }
  assert (Hset : <[i := o]> (p_files np) = take (S i) (p_files cp) ++ replicate n None).
  { rewrite Hf, (take_S_r _ _ _ Hi), <- app_assoc. simpl.
    rewrite insert_app_r_alt by (rewrite length_take_le; lia). rewrite length_take_le, Nat.sub_diag by lia. done. }
  destruct o as [f|].
  - destruct (fd_live k c cp i f X Hr Hcp Hi) as (fl & Hfl). rewrite (bind_ret _ _ _ tt
      (k <| files := <[f := fl <| f_refcount ::= Z.succ |>]> (files k) |>
         <| procs := <[p := np <| p_files ::= <[i := Some f]> |>]> (procs k) |>)).
    2: { rewrite (bind_assign procs _ _ _ _ _ Hnp). by rewrite (fref_run _ f fl). }
    match goal with |- context [file_loop p _ ?k1] => set (k1' := k1) end.
    destruct (IH (S i) k1' cp (np <| p_files ::= <[i := Some f]> |>)) as (k' & Hrun & Hr' & Hk'); try done.
    + simpl. by rewrite lookup_insert_ne.
    + simpl. by rewrite lookup_insert_eq.
    + lia.
    + set (kf := k <| files := <[f := fl <| f_refcount ::= Z.succ |>]> (files k) |>).
      assert (Hr1 : refs_ok kf (opt_ref (Some f) ⊎ X)) by (apply refs_ok_move; by apply counted_inc).
      pose proof (refs_set_fd kf p np i (Some f) None X Hnp Hnone Hr1) as Hr2.
      change (opt_ref None) with (∅ : gmultiset ptr) in Hr2. by rewrite (left_id_L ∅ (⊎)) in Hr2.
    + exists k'. split; [done|]. split; [done|]. rewrite Hk'. unfold k1'. kernel_ext. by rewrite insert_insert_eq.
  - rewrite bind_ret_l. apply IH; try done; [lia|]. rewrite <- Hset. by rewrite list_insert_id.
Qed.

(** ** The thread *)
Definition clone_of (th : kthread) (stk : ptr) : kthread := {|
  kt_ctx := no_context; kt_kstack := Some stk; kt_retval := kt_retval th; kt_errno := kt_errno th;
  kt_proc := None; kt_cancelled := kt_cancelled th; kt_wchan := None; kt_state := KT_RUN;
  kt_qlink := None; kt_plink := None |}.

Lemma kthread_clone_run k cur th : threads k !! cur = Some th -> kt_state th = KT_RUN ->
  exists t stk a, kthread_clone cur k = Ret (Some t) (k <| alloc_count := a |> <| kstacks := {[stk]} ∪ kstacks k |>
      <| threads := <[t := clone_of th stk]> (threads k) |>) /\ threads k !! t = None /\ stk ∉ kstacks k.
Proof.
  intros Hcur Hst. unfold kthread_clone. rewrite (bind_deref threads _ _ _ _ Hcur), bind_KASSERT, bind_slab_alloc by (by rewrite Hst).
  destruct (slab_succeeds (alloc_count k) (dom (threads k))) as [t Ht]. rewrite Ht, bind_nonnull.
  apply slab_obj_alloc_fresh, not_elem_of_dom in Ht. rewrite bind_unfold. unfold alloc_stack. cbn [obind].
  match goal with |- context [page_alloc_n ?a ?b] => destruct (page_succeeds a b) as [stk Hstk]; rewrite Hstk end.
  apply page_alloc_n_fresh in Hstk. kstep. kstep. rewrite bind_KASSERT by (by rewrite Hst).
  eexists t, stk, _. split; [|done]. unfold ret, clone_of. rewrite Hst. reflexivity.
Qed.

(** The thread of the child, with the context it starts in. *)
Definition child_thread (th : kthread) (stk p : ptr) (r : regs) (pd : option ptr) : kthread :=
  (clone_of th stk) <| kt_proc := Some p |> <| kt_plink := Some p |> <| kt_ctx := {|
    c_pdptr := pd; c_eip := userland_entry; c_esp := fst (fork_setup_stack r stk);
    c_kstack := Some stk; c_kstacksz := c_kstacksz (kt_ctx th) |} |>.

Lemma fork_thread_run k cur th p pr r : curthr k = Some cur -> threads k !! cur = Some th -> kt_state th = KT_RUN ->
  procs k !! p = Some pr ->
  exists t stk a, fork_thread p r k = Ret (t, snd (fork_setup_stack r stk))
      (k <| alloc_count := a |> <| kstacks := {[stk]} ∪ kstacks k |>
         <| threads := <[t := child_thread th stk p r (p_pagedir pr)]> (threads k) |>
         <| procs := <[p := pr <| p_threads ::= fun l => l ++ [t] |>]> (procs k) |>) /\
    threads k !! t = None /\ stk ∉ kstacks k.
Proof.
  intros Hcur Hth Hst Hp. unfold fork_thread. rewrite bind_gets, Hcur, bind_nonnull.
  destruct (kthread_clone_run k cur th Hth Hst) as (t & stk & a & Hrun & Ht & Hstk).
  rewrite (bind_ret _ _ _ _ _ Hrun), bind_nonnull. kstep. rewrite bind_KASSERT by done. cbn [kt_kstack clone_of]. rewrite bind_nonnull.
  kstep. unfold plink_thread. rewrite bind_unfold. kstep.
  change (kt_plink ((clone_of th stk) <| kt_proc := Some p |>)) with (@None ptr). cbv iota.
  rewrite (bind_assign procs _ pr) by exact Hp. erewrite (assign_Some threads) by (simpl; apply lookup_insert_eq). cbn [obind].
  kstep. unfold fork_setup_stack at 1. cbv zeta. cbn beta iota.
  erewrite (bind_deref threads _ th) by (simpl; rewrite !lookup_insert_ne by congruence; exact Hth).
  kstep. exists t, stk, a. split; [|done]. unfold ret. f_equal. kernel_ext. by rewrite !insert_insert_eq.
Qed.

(** ** The process *)
Lemma fork_process_run k c cp new nm :
  proc_wf k -> curproc k = Some c -> procs k !! c = Some cp -> vmmaps k !! new = Some nm ->
  (exists pid, 0 <= pid < PROC_MAX_COUNT /\ ~ used_pid k pid) ->
  used_pid k PID_IDLE -> used_pid k PID_INIT \/ p_pid cp = PID_IDLE ->
  (forall vn, p_cwd cp = Some vn -> vnode_active k vn) ->
  exists k' n pid pd brk, fork_process new k = Ret n k' /\ proc_wf k' /\ procs k !! n = None /\ ~ used_pid k pid /\
    procs k' !! n = Some ((new_process pid "forked_process" c (p_cwd cp) brk) <| p_pagedir := Some pd |> <| p_vmmap := Some new |>) /\
    procs k' !! c = Some (cp <| p_children ::= fun l => l ++ [n] |>) /\
    (forall q, q <> n -> q <> c -> procs k' !! q = procs k !! q) /\
    vmmaps k' = <[new := nm <| vmm_proc := Some n |>]> (vmmaps k) /\ threads k' = threads k /\ curproc k' = curproc k /\
    curthr k' = curthr k /\ queues k' = <[ProcWait n := empty_ktqueue]> (queues k) /\
    (pd ∉ pagedirs k) /\ pagedirs k' = {[pd]} ∪ pagedirs k /\ elsewhere k' = elsewhere k.
Proof.
  intros Hwf Hc Hcp Hnew Hfree Hidle Hinit Hcwd.
  destruct (proc_create_run k "forked_process" c cp) as (k1 & n & pid & pd & map & brk & Hrun & Hwf1 & Hn & Hpid & Hn1 & Hc1 & Hoth &
    Hmap & Hms & _ & _ & Hth & Hcu & Hct & Hqs & _ & _ & [[a Hpd] Hpds] & Hel); [done..|].
  destruct (pagedir_succeeds a (pagedirs k)) as [d Hd]. rewrite Hd in Hpd. subst pd. apply pt_new_pagedir_fresh in Hd.
  assert (Hne : new <> map) by congruence.
  set (nr := (new_process pid "forked_process" c (p_cwd cp) brk) <| p_pagedir := Some d |> <| p_vmmap := Some map |>) in *.
  exists (k1 <| vmmaps := <[new := nm <| vmm_proc := Some n |>]> (vmmaps k) |>
    <| procs := <[n := nr <| p_vmmap := Some new |>]> (procs k1) |>), n, pid, d, brk.
  split; [|split_and!; try done; simpl].
  - unfold fork_process. rewrite (bind_ret _ _ _ _ _ Hrun), bind_nonnull, (bind_deref procs _ _ _ _ Hn1).
    rewrite !bind_KASSERT by done. change (p_vmmap nr) with (Some map). rewrite bind_nonnull.
    erewrite bind_ret by (eapply (vmmap_destroy_empty k1 map); [rewrite Hms; apply lookup_insert_eq|done]).
    rewrite (bind_assign procs _ nr) by done.
    rewrite (bind_assign vmmaps _ nm) by (simpl; by rewrite Hms, lookup_delete_ne, lookup_insert_ne).
    unfold ret. f_equal. kernel_ext. by rewrite Hms, delete_insert_id.
  - by apply (tree_update _ _ _ _ nr).
  - by rewrite lookup_insert_eq.
  - rewrite lookup_insert_ne by congruence. done.
  - intros q Hqn Hqc. rewrite lookup_insert_ne by done. by apply Hoth.
Qed.

(** ** The call *)

(** Process [c] may fork: it runs in thread [cur], its address space [map] is well formed, a
    process identifier is free, nobody waits for a process that does not exist, and the file
    references are accounted for. *)
Record can_fork (k : kernel) (c : ptr) (cp : proc) (map pd cur : ptr) (th : kthread) (l : list ptr) (vs : list vmarea)
    (X : gmultiset ptr) : Prop := {
  cf_procs : proc_wf k;
  cf_sched : sched_wf k;
  cf_cur : curproc k = Some c;
  cf_proc : procs k !! c = Some cp;
  cf_running : p_state cp = PROC_RUNNING;
  cf_map : p_vmmap cp = Some map;
  cf_space : map_wf k map l vs;
  cf_objects : Forall (shareable (mmobjs k)) vs;
  cf_pagedir : p_pagedir cp = Some pd;
  cf_thr : curthr k = Some cur;
  cf_thread : threads k !! cur = Some th;
  cf_state : kt_state th = KT_RUN;
  cf_pid : exists pid, 0 <= pid < PROC_MAX_COUNT /\ ~ used_pid k pid;
  cf_idle : used_pid k PID_IDLE;
  cf_init : used_pid k PID_INIT \/ p_pid cp = PID_IDLE;
  cf_cwd vn : p_cwd cp = Some vn -> vnode_active k vn;
  cf_waits p : procs k !! p = None -> tq_list (queue k (ProcWait p)) = [];
  cf_files : length (p_files cp) = NFILES;
  cf_refs : refs_ok k X;
}.

Definition child_process (pid : Z) (c : ptr) (cp : proc) (t pd new : ptr) : proc := {|
  p_pid := pid; p_comm := String.substring 0 PROC_NAME_LEN "forked_process"; p_threads := [t]; p_children := [];
  p_pproc := Some c; p_status := p_status cp; p_state := PROC_RUNNING; p_pagedir := Some pd; p_list_link := true;
  p_child_link := Some c; p_files := p_files cp; p_cwd := p_cwd cp; p_vmmap := Some new;
  p_brk := p_brk cp; p_start_brk := p_start_brk cp |}.

(** Areas with the same pages, permissions and place in the object. *)
Definition same_pages (v w : vmarea) : Prop :=
  vma_start w = vma_start v /\ vma_end w = vma_end v /\ vma_off w = vma_off v /\ vma_prot w = vma_prot v /\
  vma_flags w = vma_flags v.

Record forked (k k' : kernel) (c : ptr) (cp : proc) (map pd : ptr) (th : kthread) (l : list ptr) (vs : list vmarea)
    (X : gmultiset ptr) (r : regs) (child t stk : ptr) (pid : Z) : Prop := {
  fk_tree : proc_wf k';
  fk_sched : sched_wf k';
  fk_new : procs k !! child = None /\ threads k !! t = None /\ (stk ∉ kstacks k) /\ ~ used_pid k pid;
  fk_space : exists pd' new l' vs' ws', (pd' ∉ pagedirs k) /\ pagedirs k' = {[pd']} ∪ pagedirs k /\
    procs k' !! child = Some (child_process pid c cp t pd' new) /\
    threads k' !! t = Some ((child_thread th stk child r (Some pd')) <| kt_qlink := Some Runq |> <| kt_wchan := Some Runq |>) /\
    vmmaps k !! new = None /\ map_wf k' map l vs' /\ map_wf k' new l' ws' /\
    Forall2 same_pages vs vs' /\ Forall2 same_pages vs ws' /\ NoDup (private_objects ws' ++ private_objects vs');
  fk_parent : procs k' !! c = Some (cp <| p_children ::= fun l => l ++ [child] |>);
  fk_others q : q <> child -> q <> c -> procs k' !! q = procs k !! q;
  fk_threads u : u <> t -> threads k' !! u = threads k !! u;
  fk_fifo q : fifo k' q = spec_enqueue Runq t (fifo k) q;
  fk_mmu : mmu k' = TlbFlushAll :: PtUnmapRange pd USER_MEM_LOW USER_MEM_HIGH :: mmu k;
  fk_refs : refs_ok k' X;
}.

Lemma copies_same_pages m m' vs ws ws' : Forall2 copy_of vs ws -> Forall3 (child_of m m') vs ws ws' -> Forall2 same_pages vs ws'.
Proof.
  intros Hc H3. induction H3 as [|v w w' vs ws ws' (o & b & _ & _ & Hx) _ IH]; [constructor|].
  apply Forall2_cons in Hc as [(E1 & E2 & E3 & E4 & E5 & _) Hc]. constructor; [|by apply IH].
  destruct (is_private (vma_flags v)); [destruct Hx as (s & _ & _ & ->)|subst w']; by split_and!.
Qed.

Lemma parents_same_pages m m' vs vs' : Forall2 (parent_of m m') vs vs' -> Forall2 same_pages vs vs'.
Proof.
  intros HF. eapply Forall2_impl; [exact HF|]. intros v v' (o & b & _ & _ & H').
  destruct (is_private _); [destruct H' as (s & _ & _ & ->)|subst v']; by split_and!.
Qed.

Lemma map_wf_list k k' map m m' l vs : map_wf k map l vs -> vmmaps k !! map = Some m -> vmmaps k' !! map = Some m' ->
  vmm_list m' = vmm_list m -> vmareas k' = vmareas k -> map_wf k' map l vs.
Proof.
  intros [(m0 & Hm0 & Hl) Ha Hnd Hlk Hs] Hm Hm' Heq Hv. split; try done.
  - exists m'. split; [done|]. congruence.
  - unfold areas in *. by rewrite Hv.
Qed.

(** A new thread is made runnable; the queue of a new process is empty. *)
Lemma child_runnable k k1 n t tr : sched_wf k -> threads k !! t = None -> kt_wchan tr = None -> kt_qlink tr = None ->
  tq_list (queue k (ProcWait n)) = [] -> threads k1 = <[t := tr]> (threads k) ->
  queues k1 = <[ProcWait n := empty_ktqueue]> (queues k) ->
  sched_wf (enq Runq t (tr <| kt_state := KT_RUN |>) k1) /\
  forall q, fifo (enq Runq t (tr <| kt_state := KT_RUN |>) k1) q = spec_enqueue Runq t (fifo k) q.
Proof.
  intros Hs Ht Hw Hl Hq Hth Hqs.
  assert (Hf : forall q, fifo k1 q = fifo k q).
  { intros q. unfold fifo, queue. rewrite Hqs. destruct (decide (q = ProcWait n)) as [->|].
    - rewrite lookup_insert_eq. simpl. unfold queue in Hq. by rewrite Hq.
    - by rewrite lookup_insert_ne. }
  split.
  - apply (asleep_wf KT_RUN Runq t tr k1); try done; [|rewrite Hth; apply lookup_insert_eq].
    eapply sched_wf_ext; [| |apply (new_thread_wf (k <| queues := <[ProcWait n := empty_ktqueue]> (queues k) |>) t tr)];
      try done. by apply queue_init_wf.
  - intros q. rewrite fifo_enq. unfold spec_enqueue. destruct (decide _) as [->|]; by rewrite Hf.
Qed.

(** The process and the thread, in a state [k] whose address space [new] is to be that of the child. *)
Lemma make_child k c cp cur th new nm r X :
  proc_wf k -> sched_wf k -> curproc k = Some c -> procs k !! c = Some cp -> vmmaps k !! new = Some nm ->
  curthr k = Some cur -> threads k !! cur = Some th -> kt_state th = KT_RUN ->
  (exists pid, 0 <= pid < PROC_MAX_COUNT /\ ~ used_pid k pid) -> used_pid k PID_IDLE ->
  used_pid k PID_INIT \/ p_pid cp = PID_IDLE -> (forall vn, p_cwd cp = Some vn -> vnode_active k vn) ->
  (forall p, procs k !! p = None -> tq_list (queue k (ProcWait p)) = []) ->
  length (p_files cp) = NFILES -> refs_ok k X ->
  exists k' child t stk pid pd,
    (new_proc ← fork_process new;
     '(new_thr, frame) ← fork_thread new_proc r;
     file_loop new_proc (seq 0 NFILES);;
     sched_make_runnable new_thr;;
     c ← the_curproc;
     cp ← deref procs c;
     assign procs new_proc (fun p => p <| p_status := p_status cp |> <| p_brk := p_brk cp |> <| p_start_brk := p_start_brk cp |>);;
     np ← deref procs new_proc;
     ret {| fk_ret := p_pid np; fk_regs := r; fk_stack := Some frame |}) k =
      Ret {| fk_ret := pid; fk_regs := r; fk_stack := Some (snd (fork_setup_stack r stk)) |} k' /\
    proc_wf k' /\ sched_wf k' /\ procs k !! child = None /\ threads k !! t = None /\ (stk ∉ kstacks k) /\ ~ used_pid k pid /\
    (pd ∉ pagedirs k) /\ pagedirs k' = {[pd]} ∪ pagedirs k /\ procs k' !! child = Some (child_process pid c cp t pd new) /\
    threads k' !! t = Some ((child_thread th stk child r (Some pd)) <| kt_qlink := Some Runq |> <| kt_wchan := Some Runq |>) /\
    procs k' !! c = Some (cp <| p_children ::= fun l => l ++ [child] |>) /\
    (forall q, q <> child -> q <> c -> procs k' !! q = procs k !! q) /\ (forall u, u <> t -> threads k' !! u = threads k !! u) /\
    (forall q, fifo k' q = spec_enqueue Runq t (fifo k) q) /\ vmmaps k' = <[new := nm <| vmm_proc := Some child |>]> (vmmaps k) /\
    vmareas k' = vmareas k /\ mmu k' = mmu k /\ refs_ok k' X.
Proof.
  intros Hwf Hs Hc Hcp Hnew Hcur Hth Hst Hfree Hidle Hinit Hcwd Hwait Hlen Hr.
  destruct (fork_process_run k c cp new nm) as (k1 & n & pid & pd & brk & Hrun1 & Hwf1 & Hn & Hpid & Hn1 & Hc1 & Hoth1 & Hms1 &
    Hth1 & Hcu1 & Hct1 & Hqs1 & Hpd & Hpds & Hel1); [done..|].
  match type of Hn1 with _ = Some ?x => set (nr := x) in Hn1 end.
  assert (Hnc : n <> c) by congruence.
  injection Hel1 as E1 E2 E3 E4 E5 E6 E7 E8 E9 E10 E11.
  destruct (fork_thread_run k1 cur th n nr r) as (t & stk & a & Hrun2 & Ht & Hstk); [congruence..|].
  rewrite (bind_ret _ _ _ _ _ Hrun1), (bind_ret _ _ _ _ _ Hrun2).
  cbn beta iota. match goal with |- context [bind (file_loop n _) _ ?s] => set (k2 := s) end.
  set (cp' := cp <| p_children ::= fun l => l ++ [n] |>) in *. set (np := nr <| p_threads ::= fun l => l ++ [t] |>).
  assert (Hc2 : procs k2 !! c = Some cp') by (simpl; by rewrite lookup_insert_ne).
  assert (Hr2 : refs_ok k2 X).
  { unfold refs_ok. simpl. rewrite E10. erewrite (fd_refs_new NFILES (procs k)); [exact Hr|exact Hn|by rewrite lookup_insert_eq|].
    intros q Hq. rewrite lookup_insert_ne by done. destruct (decide (q = c)) as [->|]; [by rewrite Hc1, Hcp|by rewrite Hoth1]. }
  destruct (file_loop_run n c X NFILES 0 k2 cp' np) as (k3 & Hrun3 & Hr3 & Hk3); try done.
  { simpl. congruence. }
  { apply lookup_insert_eq. }
  rewrite (bind_ret _ _ _ _ _ Hrun3). clear Hrun3.
  set (tr := child_thread th stk n r (Some pd)).
  assert (Ht3 : threads k3 !! t = Some tr) by (rewrite Hk3; apply lookup_insert_eq).
  rewrite (bind_ret _ _ _ _ _ (make_runnable_run t tr k3 Ht3 eq_refl eq_refl)).
  assert (Hc3 : procs k3 !! c = Some cp') by (rewrite Hk3; simpl; by rewrite !lookup_insert_ne).
  assert (Hn3 : procs k3 !! n = Some (np <| p_files := p_files cp |>)) by (rewrite Hk3; simpl; apply lookup_insert_eq).
  rewrite (bind_curproc _ c) by (simpl; rewrite Hk3; simpl; congruence).
  rewrite (bind_deref procs _ cp'), (bind_assign procs _ (np <| p_files := p_files cp |>)) by done.
  erewrite (bind_deref procs) by (simpl; apply lookup_insert_eq).
  destruct (child_runnable k k3 n t tr) as [Hs' Hf']; try done; [congruence|by apply Hwait|by rewrite Hk3; simpl; rewrite Hth1|by rewrite Hk3; simpl; rewrite Hqs1|].
  assert (Hel : pagedirs k3 = pagedirs k1 /\ vmmaps k3 = vmmaps k1 /\ vmareas k3 = vmareas k1 /\ mmu k3 = mmu k1 /\ proc_list k3 = proc_list k1 /\
    next_pid k3 = next_pid k1) by (rewrite Hk3; done). destruct Hel as (G1 & G2 & G3 & G4 & G5 & G6).
  eexists _, n, t, stk, pid, pd. split; [reflexivity|]. simpl. rewrite ?G1, ?G2, ?G3, ?G4. split_and!; try done; try congruence.
  - unfold proc_wf. simpl. rewrite G5, G6. apply (tree_update _ _ _ _ (np <| p_files := p_files cp |>)); try done.
    rewrite Hk3. simpl. rewrite insert_insert_eq. by apply (tree_update _ _ _ _ nr).
  - eapply sched_wf_ext; [| |exact Hs']; done.
  - apply lookup_insert_eq.
  - apply lookup_insert_eq.
  - by rewrite lookup_insert_ne.
  - intros q Hqn Hqc. rewrite Hk3. simpl. rewrite !lookup_insert_ne by done. by apply Hoth1.
  - intros u Hu. rewrite Hk3. simpl. rewrite !lookup_insert_ne by done. by rewrite Hth1.
  - unfold refs_ok in *. simpl. erewrite fd_refs_same; [exact Hr3|]. intros q.
    destruct (decide (q = n)) as [->|]; [by rewrite lookup_insert_eq, Hn3|by rewrite lookup_insert_ne].
Qed.

(** C6: [do_fork] with memory available.  The child is a new process, the last child of the
    caller, with a free identifier, which the caller gets as the result; it has the descriptors, the
    working directory, the break and the status of the caller, a page directory of its own and an
    address space with the same areas, in which no private object is shared.  Its only thread is
    runnable, behind all others, and starts in userland with the registers of the caller but for
    the result 0.  The page table of the caller is flushed.  Every open file is counted once more for
    each descriptor, and the process tree, the queues and both address spaces are well formed;
    nothing else changes. *)
Theorem do_fork_spec k c cp map pd cur th l vs X r : can_fork k c cp map pd cur th l vs X ->
  exists k' child t stk pid,
    do_fork (Some r) k = Ret {| fk_ret := pid; fk_regs := set_eax 0 r;
      fk_stack := Some (snd (fork_setup_stack (set_eax 0 r) stk)) |} k' /\
    forked k k' c cp map pd th l vs X (set_eax 0 r) child t stk pid.
Proof.
  intros [Hwf Hs Hc Hcp Hrun Hm Hsp Hsh Hpd Hcur Hth Hst Hfree Hidle Hinit Hcwd Hwait Hlen Hr].
  destruct (copy_on_write_run slab_succeeds k map l vs Hsp Hsh) as
    (k1 & new & l' & vs' & ws & ws' & Hcow & Hne & Hold & Hnew & Hcopy & Hpar & Hch & Hnd & Hg & Hk1 & Hnone & Hms).
  destruct (mw_map _ _ _ _ Hnew) as (nm & Hnm & _). destruct (mw_map _ _ _ _ Hold) as (om & Hom & _).
  set (k2 := k1 <| mmu ::= cons (PtUnmapRange pd USER_MEM_LOW USER_MEM_HIGH) |> <| mmu ::= cons TlbFlushAll |>).
  assert (Hk2 : k2 = k <| alloc_count := alloc_count k1 |> <| vmareas := vmareas k1 |> <| vmmaps := vmmaps k1 |>
    <| mmobjs := mmobjs k1 |> <| mmu := TlbFlushAll :: PtUnmapRange pd USER_MEM_LOW USER_MEM_HIGH :: mmu k |>)
    by (unfold k2; rewrite Hk1; by destruct k).
  destruct (make_child k2 c cp cur th new nm (set_eax 0 r) X) as
    (k' & child & t & stk & pid & pd' & Hrest & Hwf' & Hs' & Hn & Ht & Hstk & Hpid & Hpd' & Hpds & Hp' & Ht' & Hc' & Hoth & Hths & Hf & Hms' & Hva & Hmm & Hr');
    try (by rewrite ?Hk2).
  - rewrite Hk2. eapply sched_wf_ext; [| |exact Hs]; done.
  - intros vn Hvn. eapply (vnode_active_grows _ k); [by rewrite Hk2| |by apply Hcwd]. rewrite Hk2. exact Hg.
  - exists k', child, t, stk, pid. split.
    + unfold do_fork. rewrite bind_KASSERT, bind_nonnull, bind_get by done. rewrite bind_KASSERT by (by rewrite Hc).
      rewrite (bind_curproc _ c), (bind_deref procs _ _ _ _ Hcp), bind_KASSERT, Hm, bind_nonnull by (done || by rewrite Hrun).
      rewrite (bind_ret _ _ _ _ _ Hcow). rewrite (bind_curproc _ c) by (by rewrite Hk1).
      rewrite (bind_deref procs _ cp) by (by rewrite Hk1). rewrite Hpd, bind_nonnull.
      unfold mmu_do. rewrite !bind_modify. exact Hrest.
    + rewrite Hk2 in Hn, Ht, Hstk, Hpid, Hpd', Hpds, Hoth, Hths, Hf, Hmm, Hms', Hva. split; try done.
      exists pd', new, l', vs', ws'. split_and!; try done.
      * apply (map_wf_list k1 k' map om om); try done. rewrite Hms'. simpl. by rewrite lookup_insert_ne.
      * apply (map_wf_list k1 k' new nm (nm <| vmm_proc := Some child |>)); try done. rewrite Hms'. apply lookup_insert_eq.
      * by eapply parents_same_pages.
      * by eapply copies_same_pages.
Qed.

End fork.

Section failing.
Context `{P : Platform, F : LoopFuel, MH : MmHeaders, Ops : MmobjOps, V : VfsCalls}.
Context `{C : ContextCode, FC : FileCalls, FA : ForkArch}.

(** C36: [do_fork] when there is no memory for a shadow object.  The areas of the new address space
    are destroyed although those the loop has not reached are on no object's list: the kernel
    unlinks the list node of the first private area, whose pointers are NULL, instead of
    returning -1. *)
Theorem do_fork_no_memory k c cp map r k1 new a l' w ws b l v vs :
  curproc k = Some c -> procs k !! c = Some cp -> p_state cp = PROC_RUNNING -> p_vmmap cp = Some map ->
  vmmap_clone map k = Ret (Some new) k1 -> map_wf k1 new (a :: l') (w :: ws) -> map_wf k1 map (b :: l) (v :: vs) ->
  copy_of v w -> is_private (vma_flags v) = true -> slab_obj_alloc (alloc_count k1) (dom (mmobjs k1)) = None ->
  do_fork (Some r) k = Fault ListCorrupt.
Proof.
  intros Hc Hcp Hrun Hm Hclone Hnew Hold (_ & _ & _ & _ & Hfl & _ & Hol) Hpriv Hslab.
  destruct (mw_map _ _ _ _ Hnew) as (nm & Hnm & Hnl). destruct (mw_map _ _ _ _ Hold) as (om & Hom & Hl).
  pose proof (mw_areas _ _ _ _ Hnew) as [Ha _]%Forall2_cons.
  pose proof (mw_links _ _ _ _ Hnew) as [[Hpl _] _]%Forall_cons.
  pose proof (shadow_create_run k1) as Hsc. rewrite Hslab in Hsc. set (k2 := k1 <| alloc_count ::= S |>) in *.
  assert (Hshare : share_area a b k1 = Ret false k2).
  { unfold share_area. by rewrite (bind_deref vmareas _ _ _ _ Ha), Hfl, Hpriv, (bind_ret _ _ _ _ _ Hsc). }
  assert (Hloop : share_loop (a :: l') (b :: l) k1 = Ret false k2) by (cbn [share_loop]; by rewrite (bind_ret _ _ _ _ _ Hshare)).
  assert (Hdestroy : vmmap_destroy new k2 = Fault ListCorrupt).
  { unfold vmmap_destroy. rewrite (bind_deref vmmaps _ nm), Hnl by done. cbn [destroy_loop]. rewrite bind_unfold.
    erewrite bind_ret.
    2: { unfold plink_remove. rewrite (bind_deref vmareas _ w), Hpl by done. rewrite (bind_assign vmmaps _ nm) by done.
         by apply (assign_Some vmareas _ w). }
    erewrite (bind_deref vmareas) by (simpl; apply lookup_insert_eq).
    change (vma_flags (w <| vma_plink := None |>)) with (vma_flags w). rewrite Hfl, Hpriv, bind_unfold. unfold olink_remove.
    erewrite (bind_deref vmareas) by (simpl; apply lookup_insert_eq).
    change (vma_olink (w <| vma_plink := None |>)) with (vma_olink w). by rewrite Hol. }
  assert (Hcow : copy_on_write map k = Fault ListCorrupt).
  { unfold copy_on_write. rewrite (bind_ret _ _ _ _ _ Hclone), bind_nonnull.
    rewrite (bind_deref vmmaps _ _ _ _ Hnm), (bind_deref vmmaps _ _ _ _ Hom), Hnl, Hl, (bind_ret _ _ _ _ _ Hloop).
    by rewrite bind_unfold, Hdestroy. }
  unfold do_fork. rewrite bind_KASSERT, bind_nonnull, bind_get by done. rewrite bind_KASSERT by (by rewrite Hc).
  rewrite (bind_curproc _ c), (bind_deref procs _ _ _ _ Hcp), bind_KASSERT, Hm, bind_nonnull by (done || by rewrite Hrun).
  by rewrite bind_unfold, Hcow.
Qed.
End failing.

(** ** The properties at concrete states *)
Module Witness.
Import Proc.Witness.
#[local] Existing Instance Proc.Witness.fuel.
#[local] Existing Instance Proc.Witness.counting_vfs.
#[local] Existing Instance Proc.Witness.counting_vfs_ok.
#[local] Existing Instance Vmmap.Witness.counted.
#[local] Existing Instance Fork.Witness.counted_refs.
#[local] Instance any_context : ContextCode := {|
  DEFAULT_STACK_SIZE := 4096; context_setup _ _ _ _ _ _ := no_context |}.
#[local] Instance counted_files : FileCalls := {|
  fget _ := ret None; fput _ := ret tt; fref f := assign files f (fun fl => fl <| f_refcount ::= Z.succ |>) |}.
#[local] Instance counted_fref : FrefOk.
Proof. intros k f fl Hf. by apply (assign_Some files). Qed.
#[local] Instance counted_grow : VnodesGrow.
Proof. intros n k k' vn _ Hg [ob Hob]. destruct (Hg vn ob Hob) as (ob' & Hob' & _). by exists ob'. Qed.
(** The registers are the result and the rest. *)
#[local] Instance two_regs : ForkArch := {|
  regs := Z * Z; r_eax := fst; r_edx := snd; set_eax v r := (v, snd r); sizeof_regs := 76; userland_entry := 0xc0001000 |}.

(** The shell has file 7 open, thread 1, and the address space of [Fork.Witness.parent]. *)
Definition table : list (option ptr) := Some 7%positive :: replicate 31 None.
Definition forking : proc := shell <| p_files := table |> <| p_threads := [1%positive] |>.
Definition shell_thread : kthread := {|
  kt_ctx := no_context; kt_kstack := None; kt_retval := 0; kt_errno := 0; kt_proc := Some 3%positive;
  kt_cancelled := 0; kt_wchan := None; kt_state := KT_RUN; kt_qlink := None; kt_plink := Some 3%positive |}.
Definition with_space (k : kernel) : kernel :=
  k <| vmmaps := vmmaps Fork.Witness.parent |> <| vmareas := vmareas Fork.Witness.parent |>.
Definition objects9 : gmap ptr mmobj := <[9%positive := new_mmobj anon_mmobj_ops (MmoVmas [])]> Fork.Witness.objs.
Definition forker : kernel :=
  with_space (world <| procs := <[3%positive := forking]> tree |>
    <| threads := {[ 1%positive := shell_thread; 5%positive := zombie_thread ]} |> <| curthr := Some 1%positive |>
    <| mmobjs := objects9 |>
    <| files := {[ 7%positive := {| f_pos := 0; f_mode := 1; f_refcount := 1; f_vnode := Some 9%positive |} ]} |>).

Lemma with_space_wf k : map_wf (with_space k) 1 [1%positive; 2%positive] [Vmmap.Witness.area1; Fork.Witness.private_area].
Proof. destruct Fork.Witness.parent_wf as [H1 H2 H3 H4 H5]. split; assumption. Qed.

Lemma forker_shareable : Forall (shareable objects9) [Vmmap.Witness.area1; Fork.Witness.private_area].
Proof.
  eapply Forall_impl; [exact Fork.Witness.parent_shareable|]. intros v.
  apply (shareable_grow ∅). by apply objects_grow_new.
Qed.

Lemma forker_pids p pr : procs forker !! p = Some pr -> p_pid pr < 5.
Proof.
  assert (Hall : map_Forall (fun _ pr => p_pid pr < 5) (procs forker)) by by_eval. apply Hall.
Qed.

Lemma forker_refs : refs_ok forker ∅.
Proof.
  assert (Hr : fd_refs (procs forker) ⊎ ∅ = {[+ 7%positive +]}) by by_eval.
  unfold refs_ok. rewrite Hr. split.
  - intros f Hf. assert (f = 7%positive) as -> by multiset_solver. by eexists.
  - intros f fl Hf. change (files forker) with ({[ 7%positive := {| f_pos := 0; f_mode := 1; f_refcount := 1; f_vnode := Some 9%positive |} ]} : gmap ptr file) in Hf.
    apply lookup_singleton_Some in Hf as [<- <-]. split; [done|]. by rewrite multiplicity_singleton.
Qed.

Lemma forker_can_fork : can_fork forker 3 forking 1 1 1 shell_thread [1%positive; 2%positive]
  [Vmmap.Witness.area1; Fork.Witness.private_area] ∅.
Proof.
  split; try reflexivity.
  - apply tree_checked. by_eval.
  - apply sched_wf_checked. by_eval.
  - apply with_space_wf.
  - apply forker_shareable.
  - exists 5. split; [by vm_compute|]. intros (p & pr & _ & Hp & Heq). pose proof (forker_pids p pr Hp). lia.
  - exists 1%positive, (node 0 None [2%positive] PROC_RUNNING []). split; [by left|done].
  - left. exists 2%positive, (node 1 (Some 1%positive) [3%positive] PROC_RUNNING []). split; [by right; left|done].
  - intros vn [= <-]. by eexists.
  - apply forker_refs.
Qed.

Definition saved : @regs two_regs := (5, 6).

Lemma pages_succeed n live : is_Some (page_alloc_n n live).
Proof. by eexists. Qed.
Lemma pagedirs_succeed n live : is_Some (pt_new_pagedir n live).
Proof. by eexists. Qed.

Lemma do_fork_spec_witness :
  exists k' child t stk, do_fork (Some saved) forker = Ret {| fk_ret := 5; fk_regs := set_eax 0 saved;
      fk_stack := Some (snd (fork_setup_stack (set_eax 0 saved) stk)) |} k' /\
    procs forker !! child = None /\ fifo k' Runq = [t] /\ refs_ok k' ∅.
Proof.
  destruct (do_fork_spec Fork.Witness.memory pages_succeed pagedirs_succeed forker 3 forking 1 1 1 shell_thread _ _ ∅ saved forker_can_fork)
    as (k' & child & t & stk & pid & Hrun & Hf).
  assert (Hpid : match do_fork (Some saved) forker with Ret r _ => fk_ret r | _ => 0 end = 5) by (vm_compute; reflexivity).
  rewrite Hrun in Hpid. simpl in Hpid. subst pid.
  exists k', child, t, stk. split; [exact Hrun|]. split; [apply Hf|]. split; [|apply Hf].
  rewrite (fk_fifo _ _ _ _ _ _ _ _ _ _ _ _ _ _ _ Hf). reflexivity.
Defined.

(** The third request for memory fails. *)
Definition third_fails (n : nat) (live : gset ptr) : option ptr := if (n =? 2)%nat then None else Some (fresh live).
Definition small : Platform := weenix_with third_fails.

(** The shell with one private area. *)
Definition private_only : kernel :=
  forker <| vmmaps := {[ 1%positive := {| vmm_list := [2%positive]; vmm_proc := None |} ]} |>
         <| vmareas := {[ 2%positive := Fork.Witness.private_area ]} |>.
Definition cloned : kernel := Sched.after (vmmap_clone (P := small) 1 private_only).
Definition copied : vmarea := copy_area 2 Fork.Witness.private_area.

Lemma cloned_maps : vmmaps cloned = {[ 1%positive := {| vmm_list := [2%positive]; vmm_proc := None |};
    2%positive := {| vmm_list := [3%positive]; vmm_proc := None |} ]} /\
  vmareas cloned = {[ 3%positive := copied; 2%positive := Fork.Witness.private_area ]}.
Proof. split; vm_compute; reflexivity. Qed.

Lemma one_area_wf k map a v : vmmaps k !! map = Some {| vmm_list := [a]; vmm_proc := None |} -> vmareas k !! a = Some v ->
  vma_plink v = Some map -> vma_vmmap v = Some map -> user_area (P := small) v -> map_wf (P := small) k map [a] [v].
Proof.
  intros Hm Ha Hp Hv Hu. split; [by eexists|by repeat constructor|apply NoDup_singleton|by repeat constructor|].
  apply sorted_cons. split_and!; [done|constructor|by split; constructor].
Qed.

Lemma do_fork_no_memory_witness : do_fork (P := small) (Some saved) private_only = Fault ListCorrupt.
Proof.
  apply (do_fork_no_memory (P := small) private_only 3 forking 1 saved cloned 2 3 [] copied [] 2 [] Fork.Witness.private_area []).
  - reflexivity.
  - reflexivity.
  - reflexivity.
  - reflexivity.
  - vm_compute. reflexivity.
  - destruct cloned_maps as [Hm Ha]. apply one_area_wf; [by rewrite Hm|by rewrite Ha|done|done|by_eval].
  - destruct cloned_maps as [Hm Ha]. apply one_area_wf; [by rewrite Hm|by rewrite Ha|done|done|by_eval].
  - by split_and!.
  - reflexivity.
  - vm_compute. reflexivity.
Defined.
End Witness.
