(* ===== verification/PathRefs.v ===== *)
(** * PathRefs

    The references to vnodes that the calls on path names take and give back ([fs/namev.c],
    [fs/vfs_syscall.c]).

    [vheld k X]: the current thread holds the references [X] (with multiplicity), among them that of
    its process to the working directory and that to the root.  [PathOps] says how references move:
    [vref], [lookup] and [create] add one, [vput] takes one away, the other operations of a file
    system keep them; [vheld] does not follow from [vheld] of a larger multiset, so a reference
    that is not given back shows.  [VnodeRefs] implements [PathOps] with the reference counts of
    [fs/vnode.c].

    [path_calls_balanced]: the calls on paths give back exactly what they took. *)

From Stdlib Require Import Ascii String.
From S2P Require Import Prelude Platform State Sched Mmobj Pframe Anon Vmmap Proc Vmsys Vnode Namev VfsSys.

(** Where paths begin does not change: the root, and the working directory of the process. *)
Definition home (k k' : kernel) : Prop :=
  vfs_root_vn k' = vfs_root_vn k /\ curproc k' = curproc k /\
  forall c, curproc k = Some c -> p_cwd <$> procs k' !! c = p_cwd <$> procs k !! c.

#[export] Instance home_preorder : PreOrder home.
Proof.
  split; [done|]. intros k1 k2 k3 (R1 & C1 & D1) (R2 & C2 & D2). split_and!; [congruence..|].
  intros c Hc. rewrite D2 by congruence. by apply D1.
Qed.

(** The working directory of the current process. *)
Definition cwd_is (k : kernel) (d : ptr) : Prop :=
  exists c p, curproc k = Some c /\ procs k !! c = Some p /\ p_cwd p = Some d.

Lemma cwd_home k k' d : cwd_is k d -> home k k' -> cwd_is k' d.
Proof.
  intros (c & p & Hc & Hp & Hd) (_ & HC & HP). specialize (HP c Hc). rewrite Hp in HP.
  destruct (procs k' !! c) as [p'|] eqn:Hp'; [|done]. exists c, p'. split_and!; [congruence|done|].
  simpl in HP. congruence.
Qed.

(** Both are among the references. *)
Definition places (k : kernel) (X : gmultiset ptr) : Prop :=
  (exists r, vfs_root_vn k = Some r /\ r ∈ X) /\ exists d, cwd_is k d /\ d ∈ X.

Lemma places_home k k' X Y : places k X -> home k k' -> X ⊆ Y -> places k' Y.
Proof.
  intros ((r & Hr & Hin) & d & Hd & Hdin) Hh HXY. split.
  - exists r. split; [destruct Hh; congruence|multiset_solver].
  - exists d. split; [by eapply cwd_home|multiset_solver].
Qed.

(** ** How references move *)
Section interface.
Context `{P : Platform, F : LoopFuel, MH : MmHeaders, Ops : MmobjOps, FH : FsHeaders, FO : !FsOps, DO : DevOps}.

(** The table of operations of a vnode. *)
Definition ops_of (v : vnode) : option vnode_ops :=
  match vn_ops v with
  | no_vops => None
  | fs_vops => Some (filesystem_vops v)
  | bytedev_spec_vops => Some bytedev_vops
  | blockdev_spec_vops => Some blockdev_vops
  end.

(** Vnodes that are referenced stay what they are. *)
Definition tables (X : gmultiset ptr) (k k' : kernel) : Prop :=
  forall d v, d ∈ X -> vnodes k !! d = Some v ->
    exists v', vnodes k' !! d = Some v' /\ ops_of v' = ops_of v /\ vn_mode v' = vn_mode v.

(** An operation that changes the file system and keeps the references. *)
Definition keeps {A} (R : rely kernel) (vheld : kernel -> gmultiset ptr -> Prop) (m : K A) (k : kernel)
    (X : gmultiset ptr) : Prop := wp R (m k) (fun _ k' => vheld k' X /\ home k k' /\ tables X k k').

(** An operation that returns a vnode with a reference, or an error. *)
Definition yields (R : rely kernel) (vheld : kernel -> gmultiset ptr -> Prop) (m : K (Z * option ptr))
    (k : kernel) (X : gmultiset ptr) : Prop :=
  wp R (m k) (fun '(r, res) k' => home k k' /\ tables X k k' /\
    if r =? 0 then exists x, res = Some x /\ vheld k' ({[+ x +]} ⊎ X) else res = None /\ vheld k' X).

Class PathOps (R : rely kernel) (vheld : kernel -> gmultiset ptr -> Prop) : Prop := {
  held_live k X d : vheld k X -> d ∈ X -> exists v ops, vnodes k !! d = Some v /\ ops_of v = Some ops /\
    (S_ISDIR (vn_mode v) = true -> vop_lookup ops <> None);
  held_vref k X d : vheld k X -> d ∈ X -> keeps R (fun k' X => vheld k' ({[+ d +]} ⊎ X)) (vref (Some d)) k X;
  held_vput k X d : vheld k ({[+ d +]} ⊎ X) -> keeps R vheld (vput (Some d)) k X;
  held_procs k X ps : vheld k X -> vheld (k <| procs := ps |>) X;
  (* the operations of file systems, on vnodes that are referenced *)
  held_lookup k X d v ops f name : vheld k X -> d ∈ X -> vnodes k !! d = Some v -> ops_of v = Some ops ->
    vop_lookup ops = Some f -> yields R vheld (f d name) k X;
  held_create k X d v ops f name : vheld k X -> d ∈ X -> vnodes k !! d = Some v -> ops_of v = Some ops ->
    vop_create ops = Some f -> yields R vheld (f d name) k X;
  held_mknod k X d v ops f name mode dev : vheld k X -> d ∈ X -> vnodes k !! d = Some v -> ops_of v = Some ops ->
    vop_mknod ops = Some f -> keeps R vheld (f d name mode dev) k X;
  held_mkdir k X d v ops f name : vheld k X -> d ∈ X -> vnodes k !! d = Some v -> ops_of v = Some ops ->
    vop_mkdir ops = Some f -> keeps R vheld (f d name) k X;
  held_rmdir k X d v ops f name : vheld k X -> d ∈ X -> vnodes k !! d = Some v -> ops_of v = Some ops ->
    vop_rmdir ops = Some f -> keeps R vheld (f d name) k X;
  held_link k X d e v ops f name : vheld k X -> d ∈ X -> e ∈ X -> vnodes k !! d = Some v -> ops_of v = Some ops ->
    vop_link ops = Some f -> keeps R vheld (f e d name) k X;
  held_stat k X d v ops f : vheld k X -> d ∈ X -> vnodes k !! d = Some v -> ops_of v = Some ops ->
    vop_stat ops = Some f -> keeps R vheld (f d) k X;
}.

(** The operations that a directory has, and [stat], which every vnode has. *)
Class FullTables : Prop := {
  dir_tables v ops : ops_of v = Some ops -> vop_lookup ops <> None ->
    vop_create ops <> None /\ vop_mknod ops <> None /\ vop_mkdir ops <> None /\ vop_rmdir ops <> None /\
    vop_link ops <> None;
  stat_tables v ops : ops_of v = Some ops -> vop_stat ops <> None;
  enoent_enotdir : ENOENT <> ENOTDIR;
}.
End interface.

(** ** The calls, against the interface *)
Section balance.
Context `{PO : PlatformOk, F : LoopFuel, MH : MmHeaders, Ops : MmobjOps, FH : FsHeaders, FO : !FsOps, DO : DevOps}.
Context `{FC : FileCalls, FM : FileHeaders} (R : rely kernel) (vheld : kernel -> gmultiset ptr -> Prop).
Context `{PTH : !PathOps R vheld, FT : !FullTables}.
Implicit Types (k : kernel) (X : gmultiset ptr).

Lemma wp_bind_mono {A B} (m : K A) (f : A -> K B) k (P' : A -> kernel -> Prop) Q :
  wp R (m k) P' -> (forall a k', P' a k' -> wp R (f a k') Q) -> wp R (bind m f k) Q.
Proof. intros Hm Hf. apply wp_bind. eapply wp_mono; [exact Hm|]. exact Hf. Qed.

Lemma errno_nonzero e : e ∈ [EINTR; ECHILD; EBADF; EMFILE; ENOMEM; EINVAL; EISDIR; ENOTDIR; ENOENT;
  ENAMETOOLONG; EEXIST; EFAULT; ENOTEMPTY; EBUSY; ENOTSUP] -> (- e =? 0) = false.
Proof. intros He. pose proof errno_pos as Hpos. rewrite Forall_forall in Hpos. specialize (Hpos e He). apply Z.eqb_neq. lia. Qed.

Lemma zero_enoent : (0 =? - ENOENT) = false.
Proof. rewrite Z.eqb_sym. apply errno_nonzero. set_solver. Qed.

Lemma enoent_not_enotdir r : r = - ENOENT -> r <> - ENOTDIR.
Proof. pose proof enoent_enotdir. lia. Qed.

Lemma tables_refl X k : tables X k k.
Proof. intros d v _ Hv. by exists v. Qed.

Lemma tables_trans X k1 k2 k3 : tables X k1 k2 -> tables X k2 k3 -> tables X k1 k3.
Proof.
  intros H1 H2 d v Hd Hv. destruct (H1 d v Hd Hv) as (v1 & Hv1 & Ho1 & Hm1).
  destruct (H2 d v1 Hd Hv1) as (v2 & Hv2 & Ho2 & Hm2). exists v2. split_and!; congruence.
Qed.

Lemma vput_bind {A} (f : unit -> K A) k d X Q : vheld k ({[+ d +]} ⊎ X) ->
  (forall k', vheld k' X -> home k k' -> tables X k k' -> wp R (f tt k') Q) ->
  wp R (bind (vput (Some d)) f k) Q.
Proof. intros Hh Hf. eapply wp_bind_mono; [by apply held_vput|]. intros [] k' (? & ? & ?). by apply Hf. Qed.

Lemma vref_bind {A} (f : unit -> K A) k d X Q : vheld k X -> d ∈ X ->
  (forall k', vheld k' ({[+ d +]} ⊎ X) -> home k k' -> tables X k k' -> wp R (f tt k') Q) ->
  wp R (bind (vref (Some d)) f k) Q.
Proof. intros Hh Hd Hf. eapply wp_bind_mono; [by apply held_vref|]. intros [] k' (? & ? & ?). by apply Hf. Qed.

Lemma vops_run k d v ops : vnodes k !! d = Some v -> ops_of v = Some ops -> vops d k = Ret ops k.
Proof.
  intros Hv Hops. unfold vops, ops_of in *. rewrite (bind_deref vnodes _ _ _ _ Hv).
  destruct (vn_ops v); by simplify_eq.
Qed.

(** [lookup] of a name in a directory that is referenced. *)
Lemma lookup_yields k X d name : vheld k X -> d ∈ X -> yields R vheld (lookup (Some d) (Some name)) k X.
Proof.
  intros Hh Hd. destruct (held_live k X d Hh Hd) as (v & ops & Hv & Hops & _).
  unfold yields, lookup. rewrite bind_KASSERT, bind_nonnull, bind_KASSERT, bind_nonnull by done.
  rewrite (bind_ret _ _ _ _ _ (vops_run k d v ops Hv Hops)), (bind_deref vnodes _ _ _ _ Hv).
  assert (Hno : wp R (ret (- ENOTDIR, None) k) (fun '(r, res) k' => home k k' /\ tables X k k' /\
    if r =? 0 then exists x, res = Some x /\ vheld k' ({[+ x +]} ⊎ X) else res = None /\ vheld k' X)).
  { simpl. rewrite errno_nonzero by set_solver. split_and!; try done. apply tables_refl. }
  destruct (vop_lookup ops) as [f|] eqn:Hf; [|exact Hno]. destruct (vn_mode v =? S_IFDIR); [|exact Hno].
  by eapply held_lookup.
Qed.

Lemma lookup_bind {A} (f : Z * option ptr -> K A) k X d name Q : vheld k X -> d ∈ X ->
  (forall x k', vheld k' ({[+ x +]} ⊎ X) -> home k k' -> tables X k k' -> wp R (f (0, Some x) k') Q) ->
  (forall r k', (r =? 0) = false -> vheld k' X -> home k k' -> tables X k k' -> wp R (f (r, None) k') Q) ->
  wp R (bind (lookup (Some d) (Some name)) f k) Q.
Proof.
  intros Hh Hd Hok Herr. eapply wp_bind_mono; [by apply (lookup_yields k X d name)|].
  intros [r res] k' (Hhome & Htab & Hr). destruct (Z.eqb_spec r 0) as [->|Hne].
  - destruct Hr as (x & -> & ?). by apply Hok.
  - destruct Hr as [-> ?]. apply Herr; [by apply Z.eqb_neq|done..].
Qed.

Lemma held_swap k x d X : vheld k ({[+ x +]} ⊎ ({[+ d +]} ⊎ X)) -> vheld k ({[+ d +]} ⊎ ({[+ x +]} ⊎ X)).
Proof. intros Hh. by replace ({[+ d +]} ⊎ ({[+ x +]} ⊎ X)) with ({[+ x +]} ⊎ ({[+ d +]} ⊎ X)) by multiset_solver. Qed.

(** *** Resolving *)
Definition with_ref (owned : bool) (d : ptr) (X : gmultiset ptr) : gmultiset ptr :=
  if owned then {[+ d +]} ⊎ X else X.

Lemma walk_wp cs : forall k b owned com X, vheld k (with_ref owned b X) -> (owned = false -> b ∈ X) ->
  Forall (fun c => too_long c = false) (removelast (com :: cs)) ->
  wp R (walk (Some b) owned com cs k) (fun r k' => home k k' /\
    match r with
    | inl e => (e =? 0) = false /\ vheld k' X
    | inr (dir, owned', _) => exists d, dir = Some d /\ vheld k' (with_ref owned' d X) /\ (owned' = false -> d ∈ X)
    end).
Proof.
  induction cs as [|com' cs IH]; intros k b owned com X Hh Hb Hshort; cbn [walk].
  { simpl. split; [done|]. by exists b. }
  change (removelast (com :: com' :: cs)) with (com :: removelast (com' :: cs)) in Hshort.
  apply Forall_cons in Hshort as [-> Hshort].
  assert (Hin : b ∈ with_ref owned b X) by (destruct owned; [multiset_solver|by apply Hb]).
  apply (lookup_bind _ k (with_ref owned b X) b com); [done..| |].
  - intros x k1 Hh1 Hhome1 _. rewrite bind_unfold.
    assert (Hnext : forall k2, vheld k2 ({[+ x +]} ⊎ X) -> home k1 k2 ->
      wp R ((if 0 =? 0 then walk (Some x) true com' cs else ret (inl 0)) k2) (fun r k' => home k k' /\
        match r with
        | inl e => (e =? 0) = false /\ vheld k' X
        | inr (dir, owned', _) => exists d, dir = Some d /\ vheld k' (with_ref owned' d X) /\ (owned' = false -> d ∈ X)
        end)).
    { intros k2 Hh2 Hhome2. cbn [Z.eqb]. eapply wp_mono; [by apply (IH k2 x true)|].
      intros r k' [Hhome Hr]. split; [by do 2 (etrans; [done|])|done]. }
    rewrite <- bind_unfold. destruct owned; [|by apply Hnext]. cbn [with_ref] in Hh1. apply held_swap in Hh1.
    eapply vput_bind; [exact Hh1|]. intros k2 Hh2 Hhome2 _. by apply Hnext.
  - intros r k1 Hr Hh1 Hhome1 _. rewrite bind_unfold.
    assert (Hend : forall k2, vheld k2 X -> home k1 k2 ->
      wp R ((if r =? 0 then walk None true com' cs else ret (inl r)) k2) (fun r k' => home k k' /\
        match r with
        | inl e => (e =? 0) = false /\ vheld k' X
        | inr (dir, owned', _) => exists d, dir = Some d /\ vheld k' (with_ref owned' d X) /\ (owned' = false -> d ∈ X)
        end)).
    { intros k2 Hh2 Hhome2. rewrite Hr. split; [by etrans|done]. }
    rewrite <- bind_unfold. destruct owned; [|by apply Hend].
    eapply vput_bind; [exact Hh1|]. intros k2 Hh2 Hhome2 _. by apply Hend.
Qed.

(** The names in the middle of a path are not too long. *)
Definition short_middle (path : string) : Prop :=
  Forall (fun c => too_long c = false) (removelast (components path)).

Lemma start_place path k X : places k X -> exists s, start_vnode path None k = Ret (Some s) k /\ s ∈ X.
Proof.
  intros ((r & Hr & Hrin) & d & (c & p & Hc & Hp & Hd) & Hdin). unfold start_vnode.
  destruct (absolute path); [exists r; split; [unfold gets; by rewrite Hr|done]|].
  exists d. split; [|done]. unfold the_curproc. rewrite bind_unfold, bind_gets, Hc. cbn [nonnull ret obind].
  by rewrite (bind_deref procs _ _ _ _ Hp), Hd.
Qed.

Lemma dir_namev_wp path k X : vheld k X -> places k X -> short_middle path ->
  wp R (dir_namev (Some path) None k) (fun '(r, (name, dir)) k' => home k k' /\
    if r =? 0 then (name <> None <-> components path <> []) /\
      exists d, dir = Some d /\ vheld k' ({[+ d +]} ⊎ X) /\ (name = None -> vfs_root_vn k' = Some d)
    else vheld k' X).
Proof.
  intros Hh Hpl Hshort. rewrite dir_namev_equiv. unfold resolve.
  destruct (_ || _); [simpl; rewrite errno_nonzero by set_solver; done|].
  destruct (start_place path k X Hpl) as (s & Hs & Hsin). rewrite (bind_ret _ _ _ _ _ Hs).
  unfold short_middle in Hshort. destruct (components path) as [|com cs] eqn:Hcs.
  - destruct Hpl as [(r & Hr & Hrin) _]. rewrite bind_gets, Hr. eapply vref_bind; [done..|].
    intros k' Hh' Hhome _. simpl. split; [done|]. split; [done|]. exists r. split_and!; try done.
    intros _. destruct Hhome. congruence.
  - eapply wp_bind_mono; [by apply (walk_wp cs k s false com X)|].
    intros [e|[[dir owned] com']] k1 [Hhome Hr]; [destruct Hr as [He ?]; simpl; by rewrite He|].
    destruct Hr as (d & -> & Hh1 & Hd).
    assert (Hend : forall k2, vheld k2 ({[+ d +]} ⊎ X) -> home k1 k2 ->
      wp R ((if too_long com' then vput (Some d);; ret (- ENAMETOOLONG, (None, None))
             else KASSERT (bool_decide (Some d <> None));; ret (0, (Some com', Some d))) k2)
        (fun '(r, (name, dir)) k' => home k k' /\
          if r =? 0 then (name <> None <-> com :: cs <> []) /\
            exists d, dir = Some d /\ vheld k' ({[+ d +]} ⊎ X) /\ (name = None -> vfs_root_vn k' = Some d)
          else vheld k' X)).
    { intros k2 Hh2 Hhome2. destruct (too_long com').
      - eapply vput_bind; [exact Hh2|]. intros k3 Hh3 Hhome3 _. simpl. rewrite errno_nonzero by set_solver.
        split; [by do 2 (etrans; [done|])|done].
      - rewrite bind_KASSERT by done. simpl. split; [by etrans|]. split; [done|]. by exists d. }
    destruct owned; [by apply Hend|]. eapply vref_bind; [exact Hh1|by apply Hd|]. intros k2 Hh2 Hhome2 _. by apply Hend.
Qed.

Lemma dir_namev_bind {A} (f : Z * (option string * option ptr) -> K A) k X path Q :
  vheld k X -> places k X -> short_middle path ->
  (forall name d k', (name <> None <-> components path <> []) -> (name = None -> vfs_root_vn k' = Some d) ->
     vheld k' ({[+ d +]} ⊎ X) -> home k k' -> wp R (f (0, (name, Some d)) k') Q) ->
  (forall r nd k', (r =? 0) = false -> vheld k' X -> home k k' -> wp R (f (r, nd) k') Q) ->
  wp R (bind (dir_namev (Some path) None) f k) Q.
Proof.
  intros Hh Hpl Hs Hok Herr. eapply wp_bind_mono; [by apply (dir_namev_wp path k X)|].
  intros [r [name dir]] k' [Hhome Hr]. destruct (Z.eqb_spec r 0) as [->|Hne].
  - destruct Hr as (Hn & d & -> & Hh' & Hroot). by apply Hok.
  - apply Herr; [by apply Z.eqb_neq|done..].
Qed.

(** A name that was looked up: unless the answer is -ENOTDIR, the vnode has the operations of a directory. *)
Lemma lookup_dir_bind {A} (f : Z * option ptr -> K A) k X d name Q : vheld k X -> d ∈ X ->
  (forall x k', vheld k' ({[+ x +]} ⊎ X) -> home k k' -> wp R (f (0, Some x) k') Q) ->
  (forall r k', (r =? 0) = false -> vheld k' X -> home k k' ->
     (r <> - ENOTDIR -> exists v ops, vnodes k' !! d = Some v /\ ops_of v = Some ops /\ vop_lookup ops <> None) ->
     wp R (f (r, None) k') Q) ->
  wp R (bind (lookup (Some d) (Some name)) f k) Q.
Proof.
  intros Hh Hd Hok Herr. destruct (held_live k X d Hh Hd) as (v & ops & Hv & Hops & _).
  destruct (vop_lookup ops) as [g|] eqn:Hg.
  - eapply lookup_bind; [done..|by auto|]. intros r k' Hr Hh' Hhome Htab. apply Herr; [done..|]. intros _.
    destruct (Htab d v Hd Hv) as (v' & Hv' & Ho' & _). exists v', ops. split_and!; congruence.
  - unfold lookup. rewrite bind_unfold, bind_KASSERT, bind_nonnull, bind_KASSERT, bind_nonnull by done.
    rewrite (bind_ret _ _ _ _ _ (vops_run k d v ops Hv Hops)), (bind_deref vnodes _ _ _ _ Hv), Hg.
    cbn [obind ret]. apply Herr; [apply errno_nonzero; set_solver|done..|].
    by intros He.
Qed.

(** *** Opening *)
(** After an operation that may have returned a vnode, the directory is given back. *)
Lemma yield_vput k0 k d X r res : home k0 k ->
  (if r =? 0 then exists x, res = Some x /\ vheld k ({[+ x +]} ⊎ ({[+ d +]} ⊎ X)) else res = None /\ vheld k ({[+ d +]} ⊎ X)) ->
  wp R ((vput (Some d);; ret (r, res)) k) (fun '(r, res) k' => home k0 k' /\
    if r =? 0 then exists x, res = Some x /\ vheld k' ({[+ x +]} ⊎ X) else vheld k' X).
Proof.
  intros Hhome Hr. destruct (r =? 0) eqn:Hr0.
  - destruct Hr as (x & -> & Hh). apply held_swap in Hh. eapply vput_bind; [exact Hh|].
    intros k' Hh' Hhome' _. simpl. rewrite Hr0. split; [by etrans|]. by exists x.
  - destruct Hr as [-> Hh]. eapply vput_bind; [exact Hh|]. intros k' Hh' Hhome' _. simpl. rewrite Hr0.
    split; [by etrans|done].
Qed.

Lemma open_namev_yields k X path flag : vheld k X -> places k X -> short_middle path ->
  wp R (open_namev (Some path) flag None k) (fun '(r, res) k' => home k k' /\
    if r =? 0 then exists x, res = Some x /\ vheld k' ({[+ x +]} ⊎ X) else vheld k' X).
Proof.
  intros Hh Hpl Hs. unfold open_namev. eapply dir_namev_bind; [done..| |].
  2: { intros r [name dir] k1 Hr Hh1 Hhome. cbn beta iota. rewrite Hr. simpl. by rewrite Hr. }
  intros [n|] d k1 _ _ Hh1 Hhome1; cbn beta iota; rewrite Z.eqb_refl; cbn [negb].
  2: { destruct (places_home k k1 X ({[+ d +]} ⊎ X) Hpl Hhome1 ltac:(multiset_solver)) as [(r & Hr & Hrin) _].
       rewrite bind_gets, Hr. eapply vref_bind; [exact Hh1|done|]. intros k2 Hh2 Hhome2 _.
       apply held_swap in Hh2. eapply vput_bind; [exact Hh2|]. intros k3 Hh3 Hhome3 _. simpl.
       split; [by do 2 (etrans; [done|])|]. by exists r. }
  eapply lookup_dir_bind; [exact Hh1|multiset_solver| |].
  - intros x k2 Hh2 Hhome2. cbn beta iota.
    rewrite zero_enoent. cbn [andb]. apply yield_vput; [by etrans|]. by exists x.
  - intros r k2 Hr Hh2 Hhome2 Hdir. cbn beta iota. pose proof (errno_nonzero ENOENT ltac:(set_solver)) as H0.
    destruct ((r =? - ENOENT) && negb (Z.land flag O_CREAT =? 0x100)).
    { apply yield_vput; [by etrans|]. by rewrite H0. }
    destruct ((r =? - ENOENT) && negb (Z.land flag O_CREAT =? 0)) eqn:Hyes.
    2: { apply yield_vput; [by etrans|]. by rewrite Hr. }
    to_prop. subst r. destruct (Hdir (enoent_not_enotdir _ eq_refl)) as (v & ops & Hv & Hops & Hl).
    destruct (dir_tables v ops Hops Hl) as (Hc & _). rewrite bind_nonnull.
    rewrite (bind_ret _ _ _ _ _ (vops_run k2 d v ops Hv Hops)).
    destruct (vop_create ops) as [g|] eqn:Hg; [|done]. rewrite bind_KASSERT, !bind_nonnull by done.
    eapply wp_bind_mono; [eapply (held_create k2 ({[+ d +]} ⊎ X)); [exact Hh2|multiset_solver|done..]|].
    intros [r res] k3 (Hhome3 & _ & Hr3). cbn beta iota. apply yield_vput; [by do 2 (etrans; [done|])|done].
Qed.

Lemma open_namev_bind {A} (f : Z * option ptr -> K A) k X path flag Q :
  vheld k X -> places k X -> short_middle path ->
  (forall x k', vheld k' ({[+ x +]} ⊎ X) -> home k k' -> wp R (f (0, Some x) k') Q) ->
  (forall r res k', (r =? 0) = false -> vheld k' X -> home k k' -> wp R (f (r, res) k') Q) ->
  wp R (bind (open_namev (Some path) flag None) f k) Q.
Proof.
  intros Hh Hpl Hs Hok Herr. eapply wp_bind_mono; [by apply (open_namev_yields k X path flag)|].
  intros [r res] k' [Hhome Hr]. destruct (Z.eqb_spec r 0) as [->|Hne].
  - destruct Hr as (x & -> & Hh'). by apply Hok.
  - apply Herr; [by apply Z.eqb_neq|done..].
Qed.

(** *** The calls *)

(** What a call that balances its references leads to. *)
Definition balanced {A} (k : kernel) (X : gmultiset ptr) (_ : A) (k' : kernel) : Prop := vheld k' X /\ home k k'.

Lemma put_ret {A} k0 k d X (a : A) : home k0 k -> vheld k ({[+ d +]} ⊎ X) ->
  wp R ((vput (Some d);; ret a) k) (balanced k0 X).
Proof.
  intros Hhome Hh. eapply vput_bind; [exact Hh|]. intros k' Hh' Hhome' _. split; [done|by etrans].
Qed.

Lemma dir_mode_run k d v : vnodes k !! d = Some v -> dir_mode (Some d) k = Ret (vn_mode v) k.
Proof. intros Hv. unfold dir_mode. by rewrite bind_nonnull, (bind_deref vnodes _ _ _ _ Hv). Qed.

Lemma dir_mode_bind {A} (f : Z -> K A) k X d Q : vheld k X -> d ∈ X ->
  (forall m, wp R (f m k) Q) -> wp R (bind (dir_mode (Some d)) f k) Q.
Proof.
  intros Hh Hd Hf. destruct (held_live k X d Hh Hd) as (v & ops & Hv & _).
  rewrite (bind_ret _ _ _ _ _ (dir_mode_run k d v Hv)). apply Hf.
Qed.

Lemma dir_op_run {A} k d v ops (op : vnode_ops -> option A) g : vnodes k !! d = Some v -> ops_of v = Some ops ->
  op ops = Some g -> dir_op (Some d) op k = Ret (d, g) k.
Proof.
  intros Hv Hops Hg. unfold dir_op. rewrite bind_nonnull, (bind_ret _ _ _ _ _ (vops_run k d v ops Hv Hops)). by rewrite Hg.
Qed.

(** An operation of the directory that keeps the references, then [vput]. *)
Lemma change_put k0 k d X (m : K Z) : home k0 k -> keeps R vheld m k ({[+ d +]} ⊎ X) ->
  wp R ((r ← m; vput (Some d);; ret r) k) (balanced k0 X).
Proof.
  intros Hhome Hm. eapply wp_bind_mono; [exact Hm|]. intros r k' (Hh & Hhome' & _).
  apply put_ret; [by etrans|done].
Qed.

Lemma do_mkdir_wp path k X : vheld k X -> places k X -> short_middle path ->
  wp R (do_mkdir (Some path) k) (balanced k X).
Proof.
  intros Hh Hpl Hs. unfold do_mkdir. eapply dir_namev_bind; [done..| |].
  2: { intros r [name dir] k1 Hr Hh1 Hhome. cbn beta iota. rewrite Hr. by split. }
  intros [n|] d k1 _ Hroot Hh1 Hhome1; cbn beta iota; rewrite Z.eqb_refl; cbn [negb].
  2: { rewrite bind_gets, Hroot by done. by apply put_ret. }
  eapply dir_mode_bind; [exact Hh1|multiset_solver|]. intros m.
  destruct (negb (S_ISDIR m)); [by apply put_ret|].
  eapply lookup_dir_bind; [exact Hh1|multiset_solver| |].
  - intros x k2 Hh2 Hhome2. cbn beta iota.
    rewrite zero_enoent. apply held_swap in Hh2. eapply vput_bind; [exact Hh2|]. intros k3 Hh3 Hhome3 _.
    cbn [Z.eqb negb]. apply put_ret; [by do 2 (etrans; [done|])|done].
  - intros r k2 Hr Hh2 Hhome2 Hdir. cbn beta iota. destruct (Z.eqb_spec r (- ENOENT)) as [He|He].
    + destruct (Hdir (enoent_not_enotdir _ He)) as (v & ops & Hv & Hops & Hl). destruct (dir_tables v ops Hops Hl) as (_ & _ & Hc & _).
      destruct (vop_mkdir ops) as [g|] eqn:Hg; [|done].
      rewrite (bind_ret _ _ _ _ _ (dir_op_run k2 d v ops vop_mkdir g Hv Hops Hg)). cbn beta iota.
      apply change_put; [by etrans|]. eapply held_mkdir; [done|multiset_solver|done..].
    + eapply vput_bind; [exact Hh2|]. intros k3 Hh3 Hhome3 _. rewrite Hr. split; [done|]. by do 2 (etrans; [done|]).
Qed.

Lemma do_rmdir_wp path k X : vheld k X -> places k X -> short_middle path ->
  wp R (do_rmdir (Some path) k) (balanced k X).
Proof.
  intros Hh Hpl Hs. unfold do_rmdir. eapply dir_namev_bind; [done..| |].
  2: { intros r [name dir] k1 Hr Hh1 Hhome. cbn beta iota. rewrite Hr. by split. }
  intros name d k1 _ _ Hh1 Hhome1; cbn beta iota; rewrite Z.eqb_refl; cbn [negb].
  destruct (held_live k1 _ d Hh1 ltac:(multiset_solver)) as (v & ops & Hv & Hops & Hd).
  rewrite (bind_ret _ _ _ _ _ (dir_mode_run k1 d v Hv)).
  destruct (S_ISDIR (vn_mode v)); cbn [negb]; [|by apply put_ret].
  destruct (name_eqb name ".") eqn:Hdot; [by apply put_ret|]. destruct (name_eqb name ".."); [by apply put_ret|].
  destruct name as [n|]; [|done]. destruct (dir_tables v ops Hops (Hd eq_refl)) as (_ & _ & _ & Hc & _).
  destruct (vop_rmdir ops) as [g|] eqn:Hg; [|done].
  rewrite (bind_ret _ _ _ _ _ (dir_op_run k1 d v ops vop_rmdir g Hv Hops Hg)). cbn beta iota. rewrite bind_nonnull.
  apply change_put; [done|]. eapply held_rmdir; [done|multiset_solver|done..].
Qed.

Lemma do_mknod_wp path mode dev k X : vheld k X -> places k X -> short_middle path -> components path <> [] ->
  wp R (do_mknod None (Some path) mode dev k) (balanced k X).
Proof.
  intros Hh Hpl Hs Hne. unfold do_mknod. destruct (_ && _); [by split|].
  eapply dir_namev_bind; [done..| |].
  2: { intros r [name dir] k1 Hr Hh1 Hhome. cbn beta iota. rewrite Hr. by split. }
  intros name d k1 Hname _ Hh1 Hhome1; cbn beta iota; rewrite Z.eqb_refl; cbn [negb].
  destruct name as [n|]; [|by destruct (proj2 Hname Hne)].
  eapply lookup_dir_bind; [exact Hh1|multiset_solver| |].
  - intros x k2 Hh2 Hhome2. cbn beta iota zeta. rewrite zero_enoent. cbn [Z.eqb negb].
    eapply vput_bind; [exact Hh2|]. intros k3 Hh3 Hhome3 _. apply put_ret; [by do 2 (etrans; [done|])|done].
  - intros r k2 Hr Hh2 Hhome2 Hdir. cbn beta iota zeta. destruct (Z.eqb_spec r (- ENOENT)) as [He|He].
    + destruct (Hdir (enoent_not_enotdir _ He)) as (v & ops & Hv & Hops & Hl). destruct (dir_tables v ops Hops Hl) as (_ & Hc & _).
      destruct (vop_mknod ops) as [g|] eqn:Hg; [|done].
      rewrite (bind_ret _ _ _ _ _ (dir_op_run k2 d v ops vop_mknod g Hv Hops Hg)). cbn beta iota. rewrite bind_nonnull.
      apply change_put; [by etrans|]. eapply held_mknod; [done|multiset_solver|done..].
    + rewrite Hr. cbn [negb]. rewrite bind_ret_l. apply put_ret; [by etrans|done].
Qed.

Lemma do_stat_wp path k X : vheld k X -> places k X -> short_middle path ->
  wp R (do_stat (Some path) k) (balanced k X).
Proof.
  intros Hh Hpl Hs. unfold do_stat. eapply open_namev_bind; [done..| |].
  2: { intros r res k1 Hr Hh1 Hhome. cbn beta iota. rewrite Hr. by split. }
  intros x k1 Hh1 Hhome1. cbn beta iota. rewrite Z.eqb_refl. cbn [negb].
  destruct (held_live k1 _ x Hh1 ltac:(multiset_solver)) as (v & ops & Hv & Hops & _).
  pose proof (stat_tables v ops Hops) as Hst. destruct (vop_stat ops) as [g|] eqn:Hg; [|done].
  rewrite (bind_ret _ _ _ _ _ (dir_op_run k1 x v ops vop_stat g Hv Hops Hg)). cbn beta iota.
  eapply wp_bind_mono; [eapply (held_stat k1 ({[+ x +]} ⊎ X)); [done|multiset_solver|done..]|].
  intros [r b] k2 (Hh2 & Hhome2 & _). apply put_ret; [by etrans|done].
Qed.

(** The working directory changes hands. *)
Lemma do_chdir_wp path k X d : vheld k ({[+ d +]} ⊎ X) -> cwd_is k d -> places k ({[+ d +]} ⊎ X) -> short_middle path ->
  wp R (do_chdir (Some path) k) (fun r k' =>
    if r =? 0 then exists e, cwd_is k' e /\ vheld k' ({[+ e +]} ⊎ X) else balanced k ({[+ d +]} ⊎ X) r k').
Proof.
  intros Hh Hcwd Hpl Hs. pose proof Hcwd as (c & p & Hc & Hp & Hd). unfold do_chdir.
  rewrite (bind_curproc k c) by done. rewrite (bind_deref procs _ _ _ _ Hp), Hd. cbv zeta.
  eapply open_namev_bind; [done..| |].
  2: { intros r res k1 Hr Hh1 Hhome. cbn beta iota. rewrite Hr. cbn [negb ret wp]. rewrite Hr. by split. }
  intros x k1 Hh1 Hhome1. cbn beta iota. rewrite Z.eqb_refl. cbn [negb].
  eapply dir_mode_bind; [exact Hh1|multiset_solver|]. intros m. destruct (negb (m =? S_IFDIR)).
  { eapply vput_bind; [exact Hh1|]. intros k2 Hh2 Hhome2 _. simpl. rewrite errno_nonzero by set_solver.
    split; [done|by etrans]. }
  apply held_swap in Hh1. eapply vput_bind; [exact Hh1|]. intros k2 Hh2 Hhome2 _.
  destruct (cwd_home k k2 d Hcwd) as (c' & p' & Hc' & Hp' & _); [by etrans|].
  rewrite (bind_curproc k2 c') by done. rewrite (bind_assign procs _ _ _ _ _ Hp'). simpl. exists x. split.
  - exists c'. eexists. split_and!; [done|apply lookup_insert_eq|done].
  - by apply held_procs.
Qed.

(** A link to a file: both the file and the directory are held meanwhile. *)
Lemma do_link_wp from to k X : vheld k X -> places k X -> short_middle from -> short_middle to ->
  components to <> [] -> wp R (do_link (Some from) (Some to) k) (balanced k X).
Proof.
  intros Hh Hpl Hs Hs' Hne. unfold do_link. eapply open_namev_bind; [done..| |].
  2: { intros r res k1 Hr Hh1 Hhome. cbn beta iota. rewrite Hr. by split. }
  intros x k1 Hh1 Hhome1. cbn beta iota. rewrite Z.eqb_refl. cbn [negb].
  eapply dir_mode_bind; [exact Hh1|multiset_solver|]. intros m. destruct (m =? S_IFDIR); [by apply put_ret|].
  eapply dir_namev_bind; [exact Hh1|eapply places_home; [done..|multiset_solver]|done| |].
  2: { intros r [name dir] k2 Hr Hh2 Hhome2. cbn beta iota. rewrite Hr. cbn [negb]. apply put_ret; [by etrans|done]. }
  intros name d k2 Hname _ Hh2 Hhome2. cbn beta iota. rewrite Z.eqb_refl. cbn [negb].
  destruct name as [n|]; [|by destruct (proj2 Hname Hne)].
  eapply lookup_dir_bind; [exact Hh2|multiset_solver| |].
  - intros y k3 Hh3 Hhome3. cbn beta iota. rewrite Z.eqb_refl.
    replace ({[+ y +]} ⊎ ({[+ d +]} ⊎ ({[+ x +]} ⊎ X))) with ({[+ x +]} ⊎ ({[+ d +]} ⊎ ({[+ y +]} ⊎ X)))
      in Hh3 by multiset_solver.
    eapply vput_bind; [exact Hh3|]. intros k4 Hh4 Hhome4 _. eapply vput_bind; [exact Hh4|]. intros k5 Hh5 Hhome5 _.
    apply put_ret; [by do 4 (etrans; [done|])|done].
  - intros r k3 Hr Hh3 Hhome3 Hdir. cbn beta iota. rewrite Hr. apply held_swap in Hh3.
    destruct (Z.eqb_spec r (- ENOTDIR)) as [He|He].
    + eapply vput_bind; [exact Hh3|]. intros k4 Hh4 Hhome4 _. apply put_ret; [by do 3 (etrans; [done|])|done].
    + destruct (Hdir He) as (v & ops & Hv & Hops & Hl). destruct (dir_tables v ops Hops Hl) as (_ & _ & _ & _ & Hc).
      rewrite bind_nonnull, (bind_ret _ _ _ _ _ (vops_run k3 d v ops Hv Hops)).
      destruct (vop_link ops) as [g|] eqn:Hg; [|done]. rewrite !bind_nonnull.
      eapply wp_bind_mono; [eapply (held_link k3 ({[+ x +]} ⊎ ({[+ d +]} ⊎ X)));
        [done|multiset_solver|multiset_solver|done..]|].
      intros r' k4 (Hh4 & Hhome4 & _). eapply vput_bind; [exact Hh4|]. intros k5 Hh5 Hhome5 _.
      apply put_ret; [by do 4 (etrans; [done|])|done].
Qed.
End balance.

(** ** Paths of slashes *)
Section slashes.
Context `{PO : PlatformOk, F : LoopFuel, MH : MmHeaders, Ops : MmobjOps, FH : FsHeaders, FO : !FsOps, DO : DevOps}.
Context `{FC : FileCalls, FM : FileHeaders}.

Lemma slashes_absolute path : components path = [] -> path <> EmptyString -> absolute path = true.
Proof.
  destruct path as [|c s]; [done|]. intros Hc _. unfold components in Hc. simpl in Hc. unfold absolute.
  destruct (Ascii.eqb_spec c slash) as [->|Hne]; [done|]. by destruct (pieces s).
Qed.

(** They name the root, as the directory, and no entry of it. *)
Lemma slashes_namev path k r v ob : components path = [] -> path <> EmptyString ->
  Z.of_nat (String.length path) <= MAXPATHLEN -> vfs_root_vn k = Some r -> vnodes k !! r = Some v ->
  mmobjs k !! vn_mmobj v = Some ob -> 0 < mmo_refcount ob ->
  exists k', dir_namev (Some path) None k = Ret (0, (None, Some r)) k'.
Proof.
  intros Hc Hne Hlen Hr Hv Hob Hpos. eexists. apply equiv_Ret. rewrite dir_namev_equiv. unfold resolve. rewrite Hc.
  rewrite (proj2 (Z.ltb_ge _ _) Hlen). destruct (Z.eqb_spec (Z.of_nat (String.length path)) 0) as [Hz|_]; [by destruct path|].
  cbn [orb]. rewrite (bind_ret _ _ k (Some r) k).
  2: { unfold start_vnode. rewrite slashes_absolute by done. unfold gets. by rewrite Hr. }
  rewrite bind_gets, Hr, (bind_ret _ _ _ _ _ (vfs_vref_counts k r v ob Hv Hob Hpos)). reflexivity.
Qed.

Lemma lookup_no_name d k : lookup (Some d) None k = Fault KAssert.
Proof. unfold lookup. by rewrite bind_KASSERT, bind_nonnull by done. Qed.
End slashes.

(** ** Properties *)
Inductive path_call :=
| Mkdir (path : string) | Rmdir (path : string) | Mknod (path : string) (mode dev : Z) | Stat (path : string)
| Link (from to : string).

(** The names in the middle of the paths are short, and a file that is made has a name. *)
Definition call_paths `{FsHeaders} (call : path_call) : Prop :=
  match call with
  | Mkdir path | Rmdir path | Stat path => short_middle path
  | Mknod path _ _ => short_middle path /\ components path <> []
  | Link from to => short_middle from /\ short_middle to /\ components to <> []
  end.

Section properties.
Context `{PO : PlatformOk, F : LoopFuel, MH : MmHeaders, Ops : MmobjOps, FH : FsHeaders, FO : !FsOps, DO : DevOps}.
Context `{FC : FileCalls, FM : FileHeaders} (R : rely kernel) (vheld : kernel -> gmultiset ptr -> Prop).
Context `{PTH : !PathOps R vheld, FT : !FullTables}.

Definition run_path_call (call : path_call) : K Z :=
  match call with
  | Mkdir path => do_mkdir (Some path)
  | Rmdir path => do_rmdir (Some path)
  | Mknod path mode dev => do_mknod None (Some path) mode dev
  | Stat path => '(r, _) ← do_stat (Some path); ret r
  | Link from to => do_link (Some from) (Some to)
  end.

(** The calls on paths take and give back references to vnodes exactly: whatever path they are
    given, whether they succeed or fail and at whichever step, and whatever other threads do while
    they wait, they end without a fault and with the references they began with. *)
Theorem path_calls_balanced call k X : vheld k X -> places k X -> call_paths call ->
  wp R (run_path_call call k) (fun _ k' => vheld k' X /\ home k k').
Proof.
  intros Hh Hpl Hc. destruct call; cbn [run_path_call call_paths] in *.
  - by apply do_mkdir_wp.
  - by apply do_rmdir_wp.
  - destruct Hc. by apply do_mknod_wp.
  - eapply wp_bind_mono; [by apply do_stat_wp|]. by intros [r b] k' Hb.
  - destruct Hc as (? & ? & ?). by apply do_link_wp.
Qed.

(** [do_chdir] moves the reference of the process from the old working directory to the new one,
    and changes nothing about either when it fails. *)
Theorem do_chdir_spec path k X d : vheld k ({[+ d +]} ⊎ X) -> cwd_is k d -> places k ({[+ d +]} ⊎ X) ->
  short_middle path ->
  wp R (do_chdir (Some path) k) (fun r k' =>
    if r =? 0 then exists e, cwd_is k' e /\ vheld k' ({[+ e +]} ⊎ X)
    else cwd_is k' d /\ vheld k' ({[+ d +]} ⊎ X)).
Proof.
  intros Hh Hcwd Hpl Hs. eapply wp_mono; [by apply (do_chdir_wp R vheld path k X d)|].
  intros r k'. cbn beta. destruct (r =? 0); [done|]. intros [Hh' Hhome].
  split; [exact (cwd_home k k' d Hcwd Hhome)|exact Hh'].
Qed.

(** C35: a path of slashes only brings the kernel down: [dir_namev] returns no name for it, and
    [do_unlink] and [do_mknod] look the missing name up, where an assertion fails. *)
Theorem root_path_panics path mode dev garbage k r v ob : components path = [] -> path <> EmptyString ->
  Z.of_nat (String.length path) <= MAXPATHLEN -> vfs_root_vn k = Some r -> vnodes k !! r = Some v ->
  mmobjs k !! vn_mmobj v = Some ob -> 0 < mmo_refcount ob ->
  do_unlink (Some path) k = Fault KAssert /\
  (mode = S_IFBLK \/ mode = S_IFCHR -> do_mknod garbage (Some path) mode dev k = Fault KAssert).
Proof.
  intros Hc Hne Hlen Hr Hv Hob Hpos. destruct (slashes_namev path k r v ob) as [k' Hrun]; [done..|]. split.
  - unfold do_unlink. rewrite (bind_ret _ _ _ _ _ Hrun). cbn beta iota. cbn [Z.eqb negb]. by rewrite bind_unfold, lookup_no_name.
  - intros Hm. unfold do_mknod. replace (negb (mode =? S_IFBLK) && negb (mode =? S_IFCHR)) with false.
    + rewrite (bind_ret _ _ _ _ _ Hrun). cbn beta iota. cbn [Z.eqb negb]. by rewrite bind_unfold, lookup_no_name.
    + destruct Hm as [->| ->]; rewrite Z.eqb_refl; [done|by rewrite andb_false_r].
Qed.
End properties.
