(* ===== verification/VnodeRefs.v ===== *)
(** * VnodeRefs

    The references of [PathRefs], counted: [counts E k X] says that the reference count of every
    vnode in memory is the number of its cached pages, of the references [X] of the current thread
    and of the references [E] of everybody else.

    [counting_path_ops]: with [vref] and [vput] of [fs/vnode.c] and file systems that keep the
    counts, [counts E] is an implementation of [PathOps], so the properties of [PathRefs] are
    properties of the reference counts. *)

From Stdlib Require Import Ascii String.
From S2P Require Import Prelude Platform State Sched Mmobj Pframe Anon Vmmap Proc Vmsys Vnode Namev VfsSys PathRefs.

Section counts.
Context `{P : Platform, F : LoopFuel, MH : MmHeaders, FH : FsHeaders, FO : !FsOps, DO : DevOps}.
Context (E : gmultiset ptr).
Implicit Types (k : kernel) (X : gmultiset ptr) (vn : ptr).

(** A vnode with [n] references: cached pages are only those of vnodes that others refer to. *)
Record counted (k : kernel) (n : nat) (vn : ptr) (v : vnode) (ob : mmobj) : Prop := {
  cn_object : mmobjs k !! vn_mmobj v = Some ob;
  cn_count : mmo_refcount ob = mmo_nrespages ob + Z.of_nat n;
  cn_pages : 0 <= mmo_nrespages ob;
  cn_others : vn ∉ E -> mmo_nrespages ob = 0 /\ mmo_respages ob = [];
  cn_inuse : vn ∈ vnode_inuse_list k;
  cn_idle : vn_busy v = false;
}.

(** The table of operations of a vnode in use; those of a special file are used with the root of
    its file system, which the mount refers to. *)
Definition tabled (vs : gmap ptr vnode) (v : vnode) : Prop :=
  exists ops, ops_of v = Some ops /\ (S_ISDIR (vn_mode v) = true -> vop_lookup ops <> None) /\
    exists r root, fs_root (vn_fs v) = Some r /\ r ∈ E /\ vs !! r = Some root /\ vn_ops root = fs_vops.

Record counts (k : kernel) (X : gmultiset ptr) : Prop := {
  ct_live vn : vn ∈ X ⊎ E -> is_Some (vnodes k !! vn);
  ct_count vn v : vnodes k !! vn = Some v ->
    tabled (vnodes k) v /\ exists ob, counted k (multiplicity vn (X ⊎ E)) vn v ob;
  ct_apart vn1 vn2 v1 v2 : vnodes k !! vn1 = Some v1 -> vnodes k !! vn2 = Some v2 ->
    vn_mmobj v1 = vn_mmobj v2 -> vn1 = vn2;
  ct_sched : sched_wf k;
}.

(** One count changes, by as much as the references do. *)
Lemma counts_recount k X Y vn v ob n : counts k X -> vnodes k !! vn = Some v -> mmobjs k !! vn_mmobj v = Some ob ->
  (forall x, x <> vn -> multiplicity x (Y ⊎ E) = multiplicity x (X ⊎ E)) ->
  n = mmo_nrespages ob + Z.of_nat (multiplicity vn (Y ⊎ E)) ->
  counts (k <| mmobjs := <[vn_mmobj v := ob <| mmo_refcount := n |>]> (mmobjs k) |>) Y.
Proof.
  intros [Hlive Hcount Hap Hs] Hv Hob Hsame ->. split; simpl; [| |done|by destruct Hs].
  - intros x Hx. destruct (decide (x = vn)) as [->|Hne]; [by eexists|]. apply Hlive.
    apply elem_of_multiplicity. rewrite <- Hsame by done. by apply elem_of_multiplicity.
  - intros x w Hw. destruct (Hcount x w Hw) as [Htab (ob' & [H1 H2 H3 H4 H5 H6])]. split; [done|].
    destruct (decide (x = vn)) as [->|Hne].
    + simplify_eq. eexists. split; simpl; [apply lookup_insert_eq|done..].
    + exists ob'. rewrite (Hsame x Hne). split; simpl; try done. rewrite lookup_insert_ne; [done|].
      intros Heq. by destruct Hne; apply (Hap x vn w v).
Qed.

(** The vnodes in memory are those of before without [vn]. *)
Lemma counts_delete k k' X vn v : counts k ({[+ vn +]} ⊎ X) -> vnodes k !! vn = Some v -> vn ∉ X ⊎ E ->
  vnode_inuse_list k' = remove_elem vn (vnode_inuse_list k) -> vnodes k' = delete vn (vnodes k) ->
  (forall o, o <> vn_mmobj v -> mmobjs k' !! o = mmobjs k !! o) -> sched_wf k' -> counts k' X.
Proof.
  intros [Hlive Hcount Hap Hs] Hv Hno HI HV HM Hs'. split; [| | |done].
  - intros x Hx. rewrite HV, lookup_delete_ne by (by intros ->). apply Hlive. multiset_solver.
  - intros x w. rewrite HV. intros [Hne Hw]%lookup_delete_Some.
    destruct (Hcount x w Hw) as [(ops & Hops & Hdir & r & root & Hr & Hin & Hroot & Hfs) (ob & [H1 H2 H3 H4 H5 H6])]. split.
    + exists ops. split_and!; [done..|]. exists r, root. split_and!; [done..| |done].
      rewrite lookup_delete_ne; [done|]. intros ->. multiset_solver.
    + exists ob. assert (Hm : multiplicity x (({[+ vn +]} ⊎ X) ⊎ E) = multiplicity x (X ⊎ E)).
      { rewrite !multiplicity_disj_union, multiplicity_singleton_ne by done. done. }
      rewrite Hm in H2. split; try done.
      * rewrite HM; [done|]. intros Heq. by destruct Hne; apply (Hap vn x v w).
      * rewrite HI. apply elem_of_remove_elem. by split.
  - intros x1 x2 v1 v2. rewrite HV. intros [_ H1]%lookup_delete_Some [_ H2]%lookup_delete_Some. by apply Hap.
Qed.
End counts.

(** ** [vref] and [vput] *)

(** What [delete_vnode] of a file system does is on the disk. *)
Definition on_disk (vn : ptr) (k k' : kernel) : Prop :=
  vnodes k' = vnodes k /\ mmobjs k' = mmobjs k /\ vnode_inuse_list k' = vnode_inuse_list k /\
  procs k' = procs k /\ curproc k' = curproc k /\ vfs_root_vn k' = vfs_root_vn k.

(** [query_vnode] answers without a change. *)
Class FsQuery `{FsOps} : Prop := {
  query_answers fs vn k : exists q, fs_query_vnode fs vn k = Ret q k;
}.

Section references.
Context `{P : Platform, F : LoopFuel, MHO : MmHeadersOk, Ops : MmobjOps, FH : FsHeaders, FO : !FsOps, DO : DevOps}.
Context (R : rely kernel) (E : gmultiset ptr) `{FD : !FsDelete R on_disk, FQ : !FsQuery}.
Implicit Types (k : kernel) (X : gmultiset ptr) (vn : ptr).

Lemma home_refl_members k k' : procs k' = procs k -> curproc k' = curproc k -> vfs_root_vn k' = vfs_root_vn k -> home k k'.
Proof. intros HP HC HR. split_and!; [done..|]. by rewrite HP. Qed.

Lemma vref_counts k X vn : counts E k X -> vn ∈ X ⊎ E ->
  keeps R (fun k' X => counts E k' ({[+ vn +]} ⊎ X)) (vref (Some vn)) k X.
Proof.
  intros Hc Hin. destruct (ct_live _ _ _ Hc vn) as [v Hv]; [done|].
  destruct (ct_count _ _ _ Hc vn v Hv) as (_ & ob & [Hob Hcnt Hn _ _ _]).
  assert (Hm : (0 < multiplicity vn (X ⊎ E))%nat).
  { by rewrite elem_of_multiplicity in Hin. }
  unfold keeps, vref. rewrite bind_KASSERT, bind_nonnull, (vn_object_run vn v k ob) by done. cbn beta iota.
  rewrite bind_KASSERT by (apply Z.ltb_lt; lia). eapply wp_ret_intro; [by apply (assign_Some mmobjs _ ob)|].
  split; [|split; [done|by intros d w _ Hw; exists w]].
  apply (counts_recount E k X _ vn v ob (Z.succ (mmo_refcount ob))); [done..| |].
  - intros x Hx. by rewrite !multiplicity_disj_union, multiplicity_singleton_ne by done.
  - rewrite Hcnt, !multiplicity_disj_union, multiplicity_singleton_eq. lia.
Qed.

(** The last reference to a vnode without cached pages. *)
Lemma vput_bare k vn v ob : vnodes k !! vn = Some v -> mmobjs k !! vn_mmobj v = Some ob -> vn_busy v = false ->
  mmo_nrespages ob = 0 -> mmo_respages ob = [] -> mmo_refcount ob = 1 ->
  vput (Some vn) k = vnode_delete vn (less_one (vn_mmobj v) ob k).
Proof.
  intros Hv Hob Hb Hn Hres Hr. unfold vput. rewrite bind_KASSERT, bind_nonnull by done.
  rewrite (bind_deref vnodes _ _ _ _ Hv), (vn_object_run vn v k ob) by done. cbn beta iota.
  rewrite !bind_KASSERT by (by rewrite ?Hb, ?Hn, ?Hr). replace (mmo_nrespages ob =? mmo_refcount ob - 1) with true by (by rewrite Hn, Hr).
  destruct (query_answers (vn_fs v) vn k) as [q Hq].
  rewrite bind_unfold, (bind_ret _ _ _ _ _ Hq). cbn [obind ret].
  rewrite bind_ret with (a := tt) (s' := k); [by rewrite (vput_drop vn v k ob), Hr by done|].
  destruct (negb (q =? 0)); [done|]. rewrite (vn_object_run vn v k ob) by done. cbn beta iota. rewrite Hres.
  cbn [free_pages]. rewrite bind_ret_l, (vn_object_run vn v k ob) by done. cbn beta iota. by rewrite Hn, Hr.
Qed.

Lemma vput_counts k X vn : counts E k ({[+ vn +]} ⊎ X) -> keeps R (counts E) (vput (Some vn)) k X.
Proof.
  intros Hc. destruct (ct_live _ _ _ Hc vn) as [v Hv]; [multiset_solver|].
  destruct (ct_count _ _ _ Hc vn v Hv) as (_ & ob & [Hob Hcnt Hn Hoth Hin Hb]).
  assert (Hm : multiplicity vn (({[+ vn +]} ⊎ X) ⊎ E) = S (multiplicity vn (X ⊎ E))).
  { rewrite !multiplicity_disj_union, multiplicity_singleton_eq. lia. }
  rewrite Hm in Hcnt. destruct (decide (vn ∈ X ⊎ E)) as [Hmore|Hlast].
  - rewrite elem_of_multiplicity in Hmore. unfold keeps. eapply wp_ret_intro.
    { apply (vput_keeps vn v k ob 1); [done..|lia|lia|lia]. }
    split; [|split; [done|by intros d w _ Hw; exists w]].
    apply (counts_recount E k ({[+ vn +]} ⊎ X) _ vn v ob (Z.pred (mmo_refcount ob))); [done..| |].
    + intros x Hx. by rewrite !multiplicity_disj_union, multiplicity_singleton_ne by done.
    + rewrite Hcnt. lia.
  - pose proof Hlast as Hz. rewrite elem_of_multiplicity in Hz.
    destruct Hoth as [Hn0 Hres]; [multiset_solver|]. unfold keeps.
    rewrite (vput_bare k vn v ob) by (done || lia).
    eapply wp_mono; [apply (vnode_delete_wp R on_disk); try done; [lia|apply Hc]|].
    intros _ k' (k1 & Hun & [HI HV HM _ HP Hs _]).
    assert (Hd : on_disk vn (marked vn v ob k) k1).
    { unfold unlinked in Hun. destruct (fs_delete_vnode (vn_fs v)); [done|]. by subst k1. }
    destruct Hd as (HV1 & HM1 & HI1 & HP1 & HC1 & HR1). destruct HP as (HP & HC & HR).
    split_and!.
    + eapply (counts_delete E k k' X vn v); [done|done|done| | | |done].
      * by rewrite HI, HI1.
      * rewrite HV, HV1. simpl. by rewrite delete_insert_eq.
      * intros o Ho. rewrite HM, HM1. simpl. by rewrite lookup_delete_ne, lookup_insert_ne by done.
    + apply home_refl_members; [by rewrite HP, HP1|by rewrite HC, HC1|by rewrite HR, HR1].
    + intros d w Hd Hw. exists w. split; [|done]. rewrite HV, HV1. simpl.
      by rewrite lookup_delete_ne, lookup_insert_ne by (intros <-; multiset_solver).
Qed.
End references.

(** ** The file systems *)
Section file_systems.
Context `{P : Platform, F : LoopFuel, MHO : MmHeadersOk, Ops : MmobjOps, FH : FsHeaders, FO : !FsOps, DO : DevOps}.
Context (R : rely kernel).
Implicit Types (k : kernel) (X : gmultiset ptr).

(** The operations in the tables of a file system, on vnodes that are referenced, keep the
    references; [lookup] and [create] yield one more. *)
Class FsPathOps (vheld : kernel -> gmultiset ptr -> Prop) : Prop := {
  fs_lookup k X d v f name : vheld k X -> d ∈ X -> vnodes k !! d = Some v ->
    vop_lookup (filesystem_vops v) = Some f -> yields R vheld (f d name) k X;
  fs_create k X d v f name : vheld k X -> d ∈ X -> vnodes k !! d = Some v ->
    vop_create (filesystem_vops v) = Some f -> yields R vheld (f d name) k X;
  fs_mknod k X d v f name mode dev : vheld k X -> d ∈ X -> vnodes k !! d = Some v ->
    vop_mknod (filesystem_vops v) = Some f -> keeps R vheld (f d name mode dev) k X;
  fs_mkdir k X d v f name : vheld k X -> d ∈ X -> vnodes k !! d = Some v ->
    vop_mkdir (filesystem_vops v) = Some f -> keeps R vheld (f d name) k X;
  fs_rmdir k X d v f name : vheld k X -> d ∈ X -> vnodes k !! d = Some v ->
    vop_rmdir (filesystem_vops v) = Some f -> keeps R vheld (f d name) k X;
  fs_link k X d e v f name : vheld k X -> d ∈ X -> e ∈ X -> vnodes k !! d = Some v ->
    vop_link (filesystem_vops v) = Some f -> keeps R vheld (f e d name) k X;
  (* also of a special file, through the table of the root *)
  fs_stat k X d v f : vheld k X -> d ∈ X -> vop_stat (filesystem_vops v) = Some f -> keeps R vheld (f d) k X;
}.

(** Every operation on directories is that of a file system: special files have none. *)
Lemma op_of_fs {A} v ops (op : vnode_ops -> option A) f : ops_of v = Some ops -> op ops = Some f ->
  op bytedev_vops = None -> op blockdev_vops = None -> op (filesystem_vops v) = Some f.
Proof. unfold ops_of. destruct (vn_ops v); intros [= <-]; congruence. Qed.

Context (E : gmultiset ptr) `{FD : !FsDelete R on_disk, FQ : !FsQuery}.
Context `{FPO : !FsPathOps (counts E), FT : !FullTables}.

(** [stat] of a special file is that of the root of its file system. *)
Lemma stat_counts k X d v ops f : counts E k X -> d ∈ X -> vnodes k !! d = Some v -> ops_of v = Some ops ->
  vop_stat ops = Some f -> keeps R (counts E) (f d) k X.
Proof.
  intros Hc Hd Hv Hops Hf. destruct (ct_count _ _ _ Hc d v Hv) as [(_ & _ & _ & r & root & Hr & _ & Hroot & Hfs) _].
  assert (Hspecial : keeps R (counts E) (special_file_stat d) k X).
  { pose proof (stat_tables root (filesystem_vops root)) as Hs. unfold ops_of in Hs. rewrite Hfs in Hs.
    specialize (Hs eq_refl). destruct (vop_stat (filesystem_vops root)) as [g|] eqn:Hg; [|done].
    unfold keeps, special_file_stat. rewrite (bind_deref vnodes _ _ _ _ Hv), Hr, bind_nonnull.
    rewrite (bind_deref vnodes _ _ _ _ Hroot), Hfs, Hg. by apply (fs_stat k X d root g). }
  unfold ops_of in Hops. destruct (vn_ops v); simplify_eq; [by eapply fs_stat|..]; simpl in Hf; by simplify_eq.
Qed.

#[export] Instance counting_path_ops : PathOps R (counts E).
Proof.
  split.
  - intros k X d Hc Hd. destruct (ct_live _ _ _ Hc d) as [v Hv]; [multiset_solver|].
    destruct (ct_count _ _ _ Hc d v Hv) as [(ops & Hops & Hdir & _) _]. by exists v, ops.
  - intros k X d Hc Hd. apply vref_counts; [done|multiset_solver].
  - intros. by apply vput_counts.
  - intros k X ps [Hlive Hcount Hap Hs]. split; [done| |done|by destruct Hs]. intros vn v Hv.
    destruct (Hcount vn v Hv) as (Htab & ob & []). split; [done|]. by exists ob.
  - intros k X d v ops f name Hc Hd Hv Hops Hf. eapply fs_lookup; [done..|]. by eapply op_of_fs.
  - intros k X d v ops f name Hc Hd Hv Hops Hf. eapply fs_create; [done..|]. by eapply op_of_fs.
  - intros k X d v ops f name mode dev Hc Hd Hv Hops Hf. eapply fs_mknod; [done..|]. by eapply op_of_fs.
  - intros k X d v ops f name Hc Hd Hv Hops Hf. eapply fs_mkdir; [done..|]. by eapply op_of_fs.
  - intros k X d v ops f name Hc Hd Hv Hops Hf. eapply fs_rmdir; [done..|]. by eapply op_of_fs.
  - intros k X d e v ops f name Hc Hd He Hv Hops Hf. eapply fs_link; [done..|]. by eapply op_of_fs.
  - intros. by eapply stat_counts.
Qed.
End file_systems.

(** ** Properties *)

(** The references to a vnode that are not those of its cached pages: [refcount - nrespages]. *)
Definition users (k : kernel) (vn : ptr) : option Z :=
  match vnodes k !! vn with
  | Some v => (fun ob => mmo_refcount ob - mmo_nrespages ob) <$> mmobjs k !! vn_mmobj v
  | None => None
  end.

Lemma counts_users `{P : Platform, FH : FsHeaders, FO : !FsOps, DO : DevOps} E k X vn : counts E k X -> vn ∈ X ⊎ E ->
  users k vn = Some (Z.of_nat (multiplicity vn (X ⊎ E))).
Proof.
  intros Hc Hin. destruct (ct_live _ _ _ Hc vn Hin) as [v Hv]. destruct (ct_count _ _ _ Hc vn v Hv) as (_ & ob & [Hob Hr _ _ _ _]).
  unfold users. rewrite Hv, Hob. simpl. f_equal. lia.
Qed.

Section properties.
Context `{PO : PlatformOk, F : LoopFuel, MHO : MmHeadersOk, Ops : MmobjOps, FH : FsHeaders, FO : !FsOps, DO : DevOps}.
Context `{FC : FileCalls, FM : FileHeaders} (R : rely kernel) (E : gmultiset ptr).
Context `{FD : !FsDelete R on_disk, FQ : !FsQuery, FPO : !FsPathOps R (counts E), FT : !FullTables}.


End properties.

(** ** The properties at a concrete file system *)
Module Witness.
Import Vnode.Witness.
#[local] Instance fuel : LoopFuel := 10%nat.
#[local] Instance no_files : FileCalls := {| fget _ := ret None; fput _ := ret tt; fref _ := ret tt |}.
#[local] Instance modes : FileHeaders := {| FMODE_READ := 1; FMODE_WRITE := 2; FMODE_APPEND := 4 |}.

(** A file system whose directories have the entry a, for vnode 2, where [create] makes it and the
    other operations change nothing. *)
Definition entry (d : ptr) (name : string) : K (Z * option ptr) :=
  if String.eqb name "a" then vref (Some 2%positive);; ret (0, Some 2%positive) else ret (- ENOENT, None).
Definition tree_ops : vnode_ops := {|
  vop_read := None; vop_write := None; vop_mmap := None; vop_create := Some entry;
  vop_mknod := Some (fun _ _ _ _ => ret 0); vop_lookup := Some entry; vop_link := Some (fun _ _ _ => ret 0);
  vop_unlink := None; vop_mkdir := Some (fun _ _ => ret 0); vop_rmdir := Some (fun _ _ => ret (- ENOTEMPTY));
  vop_readdir := None; vop_stat := Some (fun d => v ← deref vnodes d; ret (0, vn_mode v));
  vop_fillpage := None; vop_dirtypage := None; vop_cleanpage := None |}.
#[local] Instance tree_fs : FsOps := {|
  fs_read_vnode _ := None; fs_query_vnode _ _ := ret 1; fs_delete_vnode _ := Some (fun _ => ret tt);
  fs_root _ := Some 1%positive; filesystem_vops _ := tree_ops |}.

#[local] Instance tree_delete : FsDelete alone on_disk.
Proof. split. intros fs d vn v k [= <-] _ Hret. simpl. split; [|done]. done. Qed.
#[local] Instance tree_query : FsQuery.
Proof. split. intros. by exists 1. Qed.

(** Others refer to both vnodes. *)
Definition others : gmultiset ptr := {[+ 1%positive; 2%positive +]}.

Lemma keeps_nothing {A} (a : A) k X : counts others k X -> keeps alone (counts others) (ret a) k X.
Proof. intros Hc. split_and!; try done. intros d v _ Hv. by exists v. Qed.

Lemma entry_yields k X d name : counts others k X -> yields alone (counts others) (entry d name) k X.
Proof.
  intros Hc. unfold yields, entry. destruct (String.eqb name "a").
  - apply wp_bind. eapply wp_mono; [apply (vref_counts alone others); [done|multiset_solver]|].
    intros _ k' (Hc' & Hh & Ht). simpl. split_and!; [done..|]. by eexists.
  - simpl. split_and!; try done. intros x v _ Hv. by exists v.
Qed.

#[local] Instance tree_path_ops : FsPathOps alone (counts others).
Proof.
  split.
  - intros k X d v f name Hc _ _ [= <-]. by apply entry_yields.
  - intros k X d v f name Hc _ _ [= <-]. by apply entry_yields.
  - intros k X d v f name mode dev Hc _ _ [= <-]. by apply keeps_nothing.
  - intros k X d v f name Hc _ _ [= <-]. by apply keeps_nothing.
  - intros k X d v f name Hc _ _ [= <-]. by apply keeps_nothing.
  - intros k X d e v f name Hc _ _ _ [= <-]. by apply keeps_nothing.
  - intros k X d v f Hc Hd [= <-]. destruct (ct_live _ _ _ Hc d) as [w Hw]; [multiset_solver|].
    unfold keeps. rewrite (bind_deref vnodes _ _ _ _ Hw). by apply (keeps_nothing (0, vn_mode w)).
Qed.

#[local] Instance tree_tables : FullTables.
Proof.
  split; [| |done].
  - intros v ops. unfold ops_of. by destruct (vn_ops v); intros [= <-].
  - intros v ops. unfold ops_of. by destruct (vn_ops v); intros [= <-].
Qed.

(** The root, vnode 1, and the working directory, vnode 2, of a process. *)
Definition dir_object (vn : ptr) : mmobj := {|
  mmo_ops := vnode_mmobj_ops vn; mmo_refcount := 2; mmo_nrespages := 0; mmo_respages := [];
  mmo_un := MmoVmas []; mmo_shadowed := None |}.
Definition walker : proc := {|
  p_pid := 1; p_comm := "u"%string; p_threads := []; p_children := []; p_pproc := None; p_status := 0;
  p_state := PROC_RUNNING; p_pagedir := Some 1%positive; p_list_link := true; p_child_link := None;
  p_files := []; p_cwd := Some 2%positive; p_vmmap := None; p_brk := 0; p_start_brk := 0 |}.
Definition tree : kernel :=
  boot <| procs := {[ 1%positive := walker ]} |> <| curproc := Some 1%positive |>
       <| vnodes := {[ 1%positive := inode fs_vops 11 1 0x200; 2%positive := inode fs_vops 12 2 0x200 ]} |>
       <| mmobjs := {[ 11%positive := dir_object 1; 12%positive := dir_object 2 ]} |>
       <| vnode_inuse_list := [1%positive; 2%positive] |> <| vfs_root_vn := Some 1%positive |>.
Definition mine : gmultiset ptr := {[+ 2%positive +]} ⊎ {[+ 1%positive +]}.

Lemma tree_vnodes vn v : vnodes tree !! vn = Some v ->
  vn = 1%positive /\ v = inode fs_vops 11 1 0x200 \/ vn = 2%positive /\ v = inode fs_vops 12 2 0x200.
Proof.
  change (vnodes tree) with ({[ 1%positive := inode fs_vops 11 1 0x200; 2%positive := inode fs_vops 12 2 0x200 ]} : gmap ptr vnode).
  intros [[<- <-]|[_ [<- <-]%lookup_singleton_Some]]%lookup_insert_Some; auto.
Qed.

Lemma tree_counts : counts others tree mine.
Proof.
  split.
  - intros vn Hvn. assert (vn = 1%positive \/ vn = 2%positive) as [->| ->] by (unfold mine, others in Hvn; multiset_solver); by eexists.
  - intros vn v [[-> ->]|[-> ->]]%tree_vnodes; (split; [exists tree_ops; split_and!; [done..|];
      exists 1%positive, (inode fs_vops 11 1 0x200); split_and!; [done|unfold others; multiset_solver|done..]|]).
    + exists (dir_object 1). split; try done; [by left].
    + exists (dir_object 2). split; try done; [by right; left].
  - intros vn1 vn2 v1 v2 [[-> ->]|[-> ->]]%tree_vnodes [[-> ->]|[-> ->]]%tree_vnodes; done.
  - assert (Hq : forall q, queue tree q = empty_ktqueue) by done.
    split; try done; intros *; rewrite ?Hq; try by intros ?%not_elem_of_nil. constructor.
Qed.

Lemma tree_cwd : cwd_is tree 2.
Proof. by exists 1%positive, walker. Qed.

Lemma tree_places : places tree mine.
Proof.
  split; [exists 1%positive|exists 2%positive]; (split; [done || apply tree_cwd|unfold mine; multiset_solver]).
Qed.



Lemma root_path_panics_witness :
  do_unlink (Ops := mm_ops 1) (Some "/"%string) tree = Fault KAssert /\
  do_mknod (Ops := mm_ops 1) None (Some "/"%string) 0x100 1 tree = Fault KAssert.
Proof.
  destruct (root_path_panics (Ops := mm_ops 1) "/"%string 0x100 1 None tree 1
    (inode fs_vops 11 1 0x200) (dir_object 1)) as [Hu Hm].
  - reflexivity.
  - discriminate.
  - by vm_compute.
  - reflexivity.
  - reflexivity.
  - reflexivity.
  - reflexivity.
  - split; [exact Hu|]. apply Hm. by right.
Defined.
End Witness.
