(* ===== verification/Syscall.v ===== *)
(** * Syscall

    [kernel/api/syscall.c]: the system-call handler, its dispatcher, and the routines that fetch
    the arguments from user memory and report errors through [curthr->kt_errno]; and [user_vecdup]
    of [kernel/api/access.c].

    The layouts of the argument structures and the numbers of the calls come from
    [api/syscall.h]; [do_execve], the kernel shell and the version string from other components.
    They are parameters ([SyscallHeaders], [SyscallCalls]).  Memory from [kmalloc] is not part of
    the state, so [kfree] does nothing here.

    [sys_read_write_chunks]: how a request is cut into pages. *)

From Stdlib Require Import Ascii String.
From S2P Require Import Prelude Platform State Sched Mmobj Vmmap Pframe Anon Proc UserMem Vmsys Fork Vnode Namev VfsSys.

(** ** Arguments *)
Record argstr := { as_str : Z; as_len : Z }.
Record argvec := { av_vec : Z; av_len : Z }.
Record read_args := { rd_fd : Z; rd_buf : Z; rd_nbytes : Z }.
Record getdents_args := { gd_fd : Z; gd_dirp : Z; gd_count : Z }.
Record dup2_args := { d2_ofd : Z; d2_nfd : Z }.
Record mkdir_args := { mk_path : argstr }.
Record link_args := { ln_to : argstr; ln_from : argstr }.
Record rename_args := { rn_oldname : argstr; rn_newname : argstr }.
Record lseek_args := { ls_fd : Z; ls_offset : Z; ls_whence : Z }.
Record open_args := { op_filename : argstr; op_flags : Z }.
Record munmap_args := { mu_addr : Z; mu_len : Z }.
Record mmap_args := { mma_addr : Z; mma_len : Z; mma_prot : Z; mma_flags : Z; mma_fd : Z; mma_off : Z }.
Record waitpid_args := { wpa_pid : Z; wpa_options : Z; wpa_status : Z }.
Record stat_args := { st_path : argstr; st_buf : Z }.
Record execve_args := { ex_filename : argstr; ex_argv : argvec; ex_envp : argvec }.

(** The size of a structure, and its members, from its bytes. *)
Record layout (A : Type) := { size_of : Z; decode : list Z -> A }.
Arguments size_of {A} _.
Arguments decode {A} _ _.

Inductive sysnum :=
| SYS_waitpid | SYS_exit | SYS_thr_exit | SYS_thr_yield | SYS_fork | SYS_getpid | SYS_sync | SYS_mmap
| SYS_munmap | SYS_open | SYS_close | SYS_read | SYS_write | SYS_dup | SYS_dup2 | SYS_mkdir | SYS_rmdir
| SYS_unlink | SYS_link | SYS_rename | SYS_chdir | SYS_getdents | SYS_brk | SYS_lseek | SYS_halt
| SYS_set_errno | SYS_errno | SYS_execve | SYS_stat | SYS_uname | SYS_debug | SYS_kshell.

Class SyscallHeaders `{FsHeaders} := {
  ENOSYS : Z; ENODEV : Z;
  sysnum_of : Z -> option sysnum;
  argstr_layout : layout argstr;
  read_args_layout : layout read_args;      (* also write_args_t *)
  getdents_args_layout : layout getdents_args;
  dup2_args_layout : layout dup2_args;
  mkdir_args_layout : layout mkdir_args;
  link_args_layout : layout link_args;
  rename_args_layout : layout rename_args;
  lseek_args_layout : layout lseek_args;
  open_args_layout : layout open_args;
  munmap_args_layout : layout munmap_args;
  mmap_args_layout : layout mmap_args;
  waitpid_args_layout : layout waitpid_args;
  stat_args_layout : layout stat_args;
  execve_args_layout : layout execve_args;
  sizeof_charptr : Z;
  dirent_bytes : dirent -> list Z;
  stat_bytes : stat -> list Z;
  int_bytes : Z -> list Z;
  (* offsets within struct utsname *)
  uts_sysname : Z; uts_release : Z; uts_version : Z; uts_nodename : Z; uts_machine : Z;
  version_string : list Z;
}.

Class SyscallCalls `{ForkArch} := {
  (* whether the n-th request for so many bytes is met *)
  kmalloc_ok : nat -> Z -> bool;
  do_execve : string -> option (list string) -> option (list string) -> regs -> K (Z * regs);
  kshell_create : Z -> K (option ptr);
  kshell_execute_next : ptr -> K Z;
  kshell_destroy : ptr -> K unit;
}.

(** The C string in a buffer: its bytes up to the terminator. *)
Fixpoint c_string (bs : list Z) : string :=
  match bs with
  | [] => EmptyString
  | b :: bs => if b =? 0 then EmptyString else String (ascii_of_N (Z.to_N b)) (c_string bs)
  end.

(** The bytes of a string with its terminator. *)
Fixpoint string_bytes (s : string) : list Z :=
  match s with
  | EmptyString => [0]
  | String c s => Z.of_N (N_of_ascii c) :: string_bytes s
  end.

Section syscall.
Context `{P : Platform, F : LoopFuel, Ops : MmobjOps, MH : MmHeaders, V : VfsCalls, C : ContextCode}.
Context `{FH : FsHeaders, FO : !FsOps, DO : DevOps, FC : FileCalls, FM : FileHeaders, VH : VmHeaders}.
Context `{FA : ForkArch, SH : !SyscallHeaders, SC : !SyscallCalls}.
Context (vn_mmap : ptr -> ptr -> K (Z * option ptr)).

(** [curthr->kt_errno = e; return -1;] *)
Definition fail_errno (e : Z) : K Z := set_errno e;; ret (-1).

(** [if (err < 0) { curthr->kt_errno = -err; return -1; } else return err;] *)
Definition finish (err : Z) : K Z := if err <? 0 then fail_errno (- err) else ret err.

(** Copy a structure in; its error is reported, or [EFAULT]. *)
Definition with_args {A} (l : layout A) (arg : Z) (f : A -> K Z) : K Z :=
  '(err, bytes) ← copy_from_user arg (size_of l);
  if err <? 0 then fail_errno (- err) else f (decode l bytes).

Definition with_args_efault {A} (l : layout A) (arg : Z) (f : A -> K Z) : K Z :=
  '(err, bytes) ← copy_from_user arg (size_of l);
  if err <? 0 then fail_errno EFAULT else f (decode l bytes).

(** [user_strdup], with [EINVAL] as the error of the system call. *)
Definition strdup (s : argstr) : K (option string) :=
  r ← user_strdup kmalloc_ok (as_str s) (as_len s); ret (c_string <$> r).

Definition with_path (s : argstr) (f : option string -> K Z) : K Z :=
  r ← strdup s;
  match r with None => fail_errno EINVAL | Some path => f (Some path) end.

(** ** [access.c]: vectors of strings *)

(** The array of [argstr_t], decoded. *)
Fixpoint argstrs (n : nat) (bytes : list Z) : list argstr :=
  match n with
  | O => []
  | S n => decode argstr_layout (take (Z.to_nat (size_of argstr_layout)) bytes) ::
           argstrs n (drop (Z.to_nat (size_of argstr_layout)) bytes)
  end.

Fixpoint vecdup_loop (l : list argstr) : K (option (list string)) :=
  match l with
  | [] => ret (Some [])
  | s :: l =>
      r ← strdup s;
      match r with
      | None => ret None
      | Some str => rs ← vecdup_loop l; ret (cons str <$> rs)
      end
  end.

Definition user_vecdup (uvec : argvec) : K (option (list string)) :=
  let n := uint32 (av_len uvec + 1) in
  let no_vector r := set_errno (- r);; ret None in
  ok ← kmalloc kmalloc_ok (uint32 (n * size_of argstr_layout));
  if ok : bool then
    ok ← kmalloc kmalloc_ok (uint32 (n * sizeof_charptr));
    if ok : bool then
      '(r, bytes) ← copy_from_user (av_vec uvec) (uint32 (n * size_of argstr_layout));
      if r <? 0 then no_vector r
      else
        v ← vecdup_loop (argstrs (Z.to_nat (av_len uvec)) bytes);
        match v with
        | Some v => ret (Some v)
        | None =>
            c ← gets curthr; t ← nonnull c; thr ← deref threads t;
            no_vector (- kt_errno thr)
        end
    else no_vector (- ENOMEM)
  else no_vector (- ENOMEM).

(** ** Reading and writing *)

(** One round of the loop of [sys_read]: [n] bytes; [inl] when the call returns. *)
Definition read_round (a : read_args) (n : Z) : K (Z + Z) :=
  tmp_buf ← page_alloc;
  '(bytes_read, data) ← do_read (rd_fd a) n;
  if bytes_read <? 0 then r ← fail_errno (- bytes_read); ret (inl r)
  else
    buf ← nonnull tmp_buf;
    assign pages buf (mem_store 0 data);;
    d ← deref pages buf;
    err ← copy_to_user (rd_buf a) (mem_slice 0 n d) n;
    if err <? 0 then r ← fail_errno (- err); ret (inl r)
    else
      page_free buf;;
      ret (inr bytes_read).

Fixpoint read_rounds (fuel : nat) (a : read_args) (needToRead total : Z) : K Z :=
  match fuel with
  | O => no_fuel
  | S fuel =>
      if needToRead =? 0 then ret (int32 total)
      else
        let n := if PAGE_SIZE <=? needToRead then PAGE_SIZE else needToRead in
        r ← read_round a n;
        match r with
        | inl r => ret r
        | inr bytes_read => read_rounds fuel a (needToRead - n) (uint32 (total + bytes_read))
        end
  end.

(** One round for each page, and the test that ends the loop. *)
Definition rounds (nbytes : Z) : nat := S (S (Z.to_nat (nbytes / PAGE_SIZE))).

Definition sys_read (arg : Z) : K Z :=
  with_args read_args_layout arg (fun a => read_rounds (rounds (rd_nbytes a)) a (rd_nbytes a) 0).

Definition write_round (a : read_args) (n : Z) : K (Z + Z) :=
  tmp_buf ← page_alloc;
  '(err, data) ← copy_from_user (rd_buf a) n;
  if err <? 0 then r ← fail_errno (- err); ret (inl r)
  else
    buf ← nonnull tmp_buf;
    assign pages buf (mem_store 0 data);;
    d ← deref pages buf;
    bytes_written ← do_write (rd_fd a) (mem_slice 0 n d);
    if bytes_written <? 0 then r ← fail_errno (- bytes_written); ret (inl r)
    else
      page_free buf;;
      ret (inr bytes_written).

Fixpoint write_rounds (fuel : nat) (a : read_args) (needToWrite total : Z) : K Z :=
  match fuel with
  | O => no_fuel
  | S fuel =>
      if needToWrite =? 0 then ret (int32 total)
      else
        let n := if PAGE_SIZE <=? needToWrite then PAGE_SIZE else needToWrite in
        r ← write_round a n;
        match r with
        | inl r => ret r
        | inr bytes_written => write_rounds fuel a (needToWrite - n) (uint32 (total + bytes_written))
        end
  end.

Definition sys_write (arg : Z) : K Z :=
  with_args read_args_layout arg (fun a => write_rounds (rounds (rd_nbytes a)) a (rd_nbytes a) 0).

Fixpoint getdents_loop (fuel : nat) (a : getdents_args) (total : Z) : K Z :=
  match fuel with
  | O => no_fuel
  | S fuel =>
      if total <? gd_count a then
        '(bytes_read, d) ← do_getdent (gd_fd a);
        if bytes_read <? 0 then fail_errno (- bytes_read)
        else if bytes_read =? 0 then ret (int32 total)
        else
          dirp ← nonnull d;
          err ← copy_to_user (uint32 (gd_dirp a + total)) (dirent_bytes dirp) sizeof_dirent;
          if err <? 0 then fail_errno (- err)
          else getdents_loop fuel a (uint32 (total + sizeof_dirent))
      else ret (int32 total)
  end.

Definition sys_getdents (arg : Z) : K Z :=
  with_args getdents_args_layout arg (fun a =>
    getdents_loop (S (S (Z.to_nat (gd_count a / sizeof_dirent)))) a 0).

(** ** Descriptors and paths *)
Definition sys_close (fd : Z) : K Z := err ← do_close fd; finish err.
Definition sys_dup (fd : Z) : K Z := err ← do_dup fd; finish err.
Definition sys_dup2 (arg : Z) : K Z :=
  with_args dup2_args_layout arg (fun a => err ← do_dup2 (d2_ofd a) (d2_nfd a); finish err).
Definition sys_mkdir (arg : Z) : K Z :=
  with_args mkdir_args_layout arg (fun a => with_path (mk_path a) (fun p => err ← do_mkdir p; finish err)).
Definition sys_rmdir (arg : Z) : K Z :=
  with_args argstr_layout arg (fun a => with_path a (fun p => err ← do_rmdir p; finish err)).
Definition sys_unlink (arg : Z) : K Z :=
  with_args argstr_layout arg (fun a => with_path a (fun p => err ← do_unlink p; finish err)).
Definition sys_link (arg : Z) : K Z :=
  with_args link_args_layout arg (fun a =>
    with_path (ln_to a) (fun to => with_path (ln_from a) (fun from => err ← do_link from to; finish err))).
Definition sys_rename (arg : Z) : K Z :=
  with_args rename_args_layout arg (fun a =>
    with_path (rn_oldname a) (fun old => with_path (rn_newname a) (fun new =>
      err ← do_rename old new; finish err))).
Definition sys_chdir (arg : Z) : K Z :=
  with_args argstr_layout arg (fun a => with_path a (fun p => err ← do_chdir p; finish err)).
Definition sys_lseek (arg : Z) : K Z :=
  with_args lseek_args_layout arg (fun a => err ← do_lseek (ls_fd a) (ls_offset a) (ls_whence a); finish err).
Definition sys_open (arg : Z) : K Z :=
  with_args open_args_layout arg (fun a =>
    with_path (op_filename a) (fun p => err ← do_open p (op_flags a); finish err)).

Definition sys_stat (arg : Z) : K Z :=
  with_args_efault stat_args_layout arg (fun a =>
    with_path (st_path a) (fun p =>
      '(r, buf) ← do_stat p;
      r ← (if r =? 0 then
             b ← nonnull buf;
             copy_to_user (st_buf a) (stat_bytes b) (Z.of_nat (length (stat_bytes b)))
           else ret r);
      if negb (r =? 0) then fail_errno (- r) else ret 0)).

(** ** Memory *)

(** Any result of the copy but 0 is an error. *)
Definition sys_munmap (arg : Z) : K Z :=
  '(err, bytes) ← copy_from_user arg (size_of munmap_args_layout);
  if negb (err =? 0) then fail_errno EFAULT
  else
    let a := decode munmap_args_layout bytes in
    err ← do_munmap (mu_addr a) (mu_len a);
    if err <? 0 then fail_errno (- err) else ret 0.

Definition sys_mmap (arg : Z) : K Z :=
  '(err, bytes) ← copy_from_user arg (size_of mmap_args_layout);
  if err <? 0 then set_errno EFAULT;; ret MAP_FAILED
  else
    let a := decode mmap_args_layout bytes in
    '(err, addr) ← do_mmap vn_mmap (mma_addr a) (mma_len a) (mma_prot a) (mma_flags a) (mma_fd a) (mma_off a);
    if err <? 0 then set_errno (- err);; ret MAP_FAILED else nonnull addr.

Definition sys_brk (addr : Z) : K Z :=
  '(err, brk) ← do_brk vn_mmap addr;
  if err =? 0 then nonnull brk else fail_errno (- err).

(** ** Processes *)
Definition sys_waitpid (arg : Z) : K Z :=
  with_args_efault waitpid_args_layout arg (fun a =>
    '(p, s) ← do_waitpid (wpa_pid a) (wpa_options a) true;
    if p <? 0 then fail_errno (- p)
    else if wpa_status a =? 0 then ret p
    else
      st ← nonnull s;
      err ← copy_to_user (wpa_status a) (int_bytes st) (Z.of_nat (length (int_bytes st)));
      if err <? 0 then fail_errno EFAULT else ret p).

Definition sys_sync : K unit := pframe_clean_all.
Definition sys_halt : K unit := proc_kill_all.

(** The strings of [struct utsname] at [arg], one after the other. *)
Fixpoint uname_loop (l : list (Z * list Z)) (arg : Z) : K Z :=
  match l with
  | [] => ret 0
  | (off, s) :: l =>
      r ← copy_to_user (uint32 (arg + off)) s (Z.of_nat (length s));
      if negb (r =? 0) then fail_errno (- r) else uname_loop l arg
  end.

Definition sys_uname (arg : Z) : K Z :=
  uname_loop [(uts_sysname, string_bytes "Weenix"); (uts_release, string_bytes "1.2");
              (uts_version, version_string); (uts_nodename, string_bytes "");
              (uts_machine, string_bytes "")] arg.

Definition sys_fork (r : regs) : K (Z * regs) :=
  f ← do_fork (Some r);
  if fk_ret f <? 0 then e ← fail_errno (- fk_ret f); ret (e, fk_regs f)
  else ret (fk_ret f, fk_regs f).

(** [cleanup:] the call fails when the thread has an error code, set by it or left from before. *)
Definition execve_cleanup (r : regs) : K (Z * regs) :=
  c ← gets curthr; t ← nonnull c; thr ← deref threads t;
  ret (if kt_errno thr =? 0 then 0 else -1, r).

Definition vector (v : argvec) : K (option (option (list string))) :=
  if av_vec v =? 0 then ret (Some None)
  else r ← user_vecdup v; ret (Some <$> r).

Definition sys_execve (arg : Z) (r : regs) : K (Z * regs) :=
  '(err, bytes) ← copy_from_user arg (size_of execve_args_layout);
  if err <? 0 then set_errno (- err);; execve_cleanup r
  else
    let a := decode execve_args_layout bytes in
    f ← strdup (ex_filename a);
    match f with
    | None => execve_cleanup r
    | Some filename =>
        argv ← vector (ex_argv a);
        match argv with
        | None => execve_cleanup r
        | Some argv =>
            envp ← vector (ex_envp a);
            match envp with
            | None => execve_cleanup r
            | Some envp =>
                '(err, r) ← do_execve filename argv envp r;
                set_errno (- err);;
                execve_cleanup r
            end
        end
    end.

Definition sys_debug (arg : Z) : K Z :=
  with_args argstr_layout arg (fun a => _ ← strdup a; ret 0).

Fixpoint kshell_loop (fuel : nat) (ksh : ptr) : K Z :=
  match fuel with
  | O => no_fuel
  | S fuel => err ← kshell_execute_next ksh; if 0 <? err then kshell_loop fuel ksh else ret err
  end.

Definition sys_kshell (ttyid : Z) : K Z :=
  ksh ← kshell_create ttyid;
  match ksh with
  | None => fail_errno ENODEV
  | Some ksh =>
      err ← kshell_loop loop_fuel ksh;
      kshell_destroy ksh;;
      if err <? 0 then fail_errno (- err) else ret 0
  end.

(** ** The dispatcher *)

(** The current thread. *)
Definition the_curthr : K (ptr * kthread) :=
  c ← gets curthr; t ← nonnull c; thr ← deref threads t; ret (t, thr).

Definition syscall_dispatch (num args : Z) (r : regs) : K (Z * regs) :=
  let plain (m : K Z) : K (Z * regs) := x ← m; ret (x, r) in
  match sysnum_of num with
  | Some SYS_waitpid => plain (sys_waitpid args)
  | Some SYS_exit => plain (do_exit (int32 args);; fail KPanic)
  | Some SYS_thr_exit => plain (kthread_exit args;; fail KPanic)
  | Some SYS_thr_yield =>
      plain ('(t, _) ← the_curthr; sched_make_runnable t;; sched_switch;; ret 0)
  | Some SYS_fork => sys_fork r
  | Some SYS_getpid => plain (c ← the_curproc; p ← deref procs c; ret (p_pid p))
  | Some SYS_sync => plain (sys_sync;; ret 0)
  | Some SYS_mmap => plain (x ← sys_mmap args; ret (int32 x))
  | Some SYS_munmap => plain (sys_munmap args)
  | Some SYS_open => plain (sys_open args)
  | Some SYS_close => plain (sys_close (int32 args))
  | Some SYS_read => plain (sys_read args)
  | Some SYS_write => plain (sys_write args)
  | Some SYS_dup => plain (sys_dup (int32 args))
  | Some SYS_dup2 => plain (sys_dup2 args)
  | Some SYS_mkdir => plain (sys_mkdir args)
  | Some SYS_rmdir => plain (sys_rmdir args)
  | Some SYS_unlink => plain (sys_unlink args)
  | Some SYS_link => plain (sys_link args)
  | Some SYS_rename => plain (sys_rename args)
  | Some SYS_chdir => plain (sys_chdir args)
  | Some SYS_getdents => plain (sys_getdents args)
  | Some SYS_brk => plain (x ← sys_brk args; ret (int32 x))
  | Some SYS_lseek => plain (sys_lseek args)
  | Some SYS_halt => plain (sys_halt;; ret (-1))
  | Some SYS_set_errno => plain (set_errno (int32 args);; ret 0)
  | Some SYS_errno => plain ('(_, thr) ← the_curthr; ret (kt_errno thr))
  | Some SYS_execve => sys_execve args r
  | Some SYS_stat => plain (sys_stat args)
  | Some SYS_uname => plain (sys_uname args)
  | Some SYS_debug => plain (sys_debug args)
  | Some SYS_kshell => plain (sys_kshell (int32 args))
  | None => plain (fail_errno ENOSYS)
  end.

(** [if (curthr->kt_cancelled) kthread_exit(curthr->kt_retval);] *)
Definition check_cancelled : K unit :=
  '(_, thr) ← the_curthr;
  if kt_cancelled thr =? 0 then ret tt else kthread_exit (kt_retval thr).

(** The registers with which the caller resumes. *)
Definition syscall_handler (r : regs) : K regs :=
  check_cancelled;;
  '(x, r') ← syscall_dispatch (uint32 (r_eax r)) (uint32 (r_edx r)) r;
  check_cancelled;;
  ret (set_eax x r').
End syscall.

(** ** Reading and writing by chunks *)

(** A request of [n] bytes: whole pages, then what is left. *)
Definition chunks `{Platform} (n : Z) : list Z :=
  replicate (Z.to_nat (n / PAGE_SIZE)) PAGE_SIZE ++ (if n mod PAGE_SIZE =? 0 then [] else [n mod PAGE_SIZE]).

(** One [round] after the other, until one fails; the result is the sum. *)
Fixpoint each_chunk (round : Z -> K (Z + Z)) (l : list Z) (total : Z) : K Z :=
  match l with
  | [] => ret (int32 total)
  | n :: l =>
      r ← round n;
      match r with
      | inl r => ret r
      | inr done => each_chunk round l (uint32 (total + done))
      end
  end.

Section chunks.
Context `{PO : PlatformOk}.

Lemma chunks_small n : 0 < n < PAGE_SIZE -> chunks n = [n].
Proof.
  intros Hn. unfold chunks. rewrite Z.div_small, Z.mod_small by lia.
  by destruct (Z.eqb_spec n 0); [lia|].
Qed.

Lemma chunks_page n : PAGE_SIZE <= n -> chunks n = PAGE_SIZE :: chunks (n - PAGE_SIZE).
Proof.
  intros Hn. pose proof page_size_4k as Hp. unfold chunks.
  assert (Hd : n / PAGE_SIZE = (n - PAGE_SIZE) / PAGE_SIZE + 1).
  { rewrite <- Z.div_add by lia. f_equal. lia. }
  assert (Hm : n mod PAGE_SIZE = (n - PAGE_SIZE) mod PAGE_SIZE).
  { rewrite <- (Z.mod_add (n - PAGE_SIZE) 1) by lia. f_equal. lia. }
  assert (0 <= (n - PAGE_SIZE) / PAGE_SIZE) by (apply Z.div_pos; lia).
  rewrite Hd, Hm, Z2Nat.inj_add by lia. by rewrite Nat.add_comm.
Qed.

Lemma chunks_sum n : 0 <= n -> foldr Z.add 0 (chunks n) = n.
Proof.
  intros Hn. pose proof page_size_4k as Hp. unfold chunks. rewrite foldr_app.
  assert (Hsum : forall m z, foldr Z.add z (replicate m PAGE_SIZE) = Z.of_nat m * PAGE_SIZE + z).
  { intros m z. induction m as [|m IH]; [done|]. cbn [replicate foldr]. rewrite IH. lia. }
  rewrite Hsum, Z2Nat.id by (apply Z.div_pos; lia). assert (n = PAGE_SIZE * (n / PAGE_SIZE) + n mod PAGE_SIZE) by (apply Z.div_mod; lia).
  destruct (Z.eqb_spec (n mod PAGE_SIZE) 0); simpl; lia.
Qed.

Section loop.
Context (round : Z -> K (Z + Z)) (loop : nat -> Z -> Z -> K Z).
Hypothesis loop_step : forall fuel need total, loop (S fuel) need total =
  if need =? 0 then ret (int32 total)
  else
    r ← round (if PAGE_SIZE <=? need then PAGE_SIZE else need);
    match r with
    | inl r => ret r
    | inr done => loop fuel (need - (if PAGE_SIZE <=? need then PAGE_SIZE else need)) (uint32 (total + done))
    end.

Lemma loop_chunks fuel : forall need total k, 0 <= need -> need / PAGE_SIZE + 1 < Z.of_nat fuel ->
  loop fuel need total k ≡ each_chunk round (chunks need) total k.
Proof.
  pose proof page_size_4k as Hp.
  induction fuel as [|fuel IH]; intros need total k Hn Hf.
  { assert (0 <= need / PAGE_SIZE) by (apply Z.div_pos; lia). lia. }
  rewrite loop_step. destruct (Z.eqb_spec need 0) as [->|Hne].
  { unfold chunks. by rewrite Z.div_0_l, Z.mod_0_l by lia. }
  destruct (Z.leb_spec PAGE_SIZE need) as [Hle|Hlt].
  - rewrite chunks_page by done. cbn [each_chunk]. apply bind_equiv. intros [r|d] k1; [done|]. apply IH; [lia|].
    replace need with (need - PAGE_SIZE + 1 * PAGE_SIZE) in Hf by lia. rewrite Z.div_add in Hf by lia. lia.
  - rewrite chunks_small by lia. cbn [each_chunk]. apply bind_equiv. intros [r|d] k1; [done|].
    rewrite Z.sub_diag. destruct fuel as [|fuel]; [rewrite Z.div_small in Hf by lia; lia|]. by rewrite loop_step.
Qed.
End loop.

Lemma rounds_enough n : 0 <= n -> n / PAGE_SIZE + 1 < Z.of_nat (rounds n).
Proof.
  intros Hn. pose proof page_size_4k as Hp. unfold rounds. assert (0 <= n / PAGE_SIZE) by (apply Z.div_pos; lia). lia.
Qed.
End chunks.

Section properties.
Context `{PO : PlatformOk, F : LoopFuel, Ops : MmobjOps, MH : MmHeaders, V : VfsCalls, C : ContextCode}.
Context `{FH : FsHeaders, FO : !FsOps, DO : DevOps, FC : FileCalls, FM : FileHeaders, VH : VmHeaders}.
Context `{FA : ForkArch, SH : !SyscallHeaders, SC : !SyscallCalls}.

(** C27: [sys_read] and [sys_write] terminate after one round for every chunk of a page of the
    request and one for the rest, which add up to the request.  A round that fails ends the
    call.  Every round is given the same arguments: the user buffer does not advance. *)
Theorem sys_read_write_chunks arg k :
  (forall bytes, 0 <= rd_nbytes (decode read_args_layout bytes)) ->
  (sys_read arg k ≡ with_args read_args_layout arg (fun a =>
     each_chunk (read_round a) (chunks (rd_nbytes a)) 0) k) /\
  (sys_write arg k ≡ with_args read_args_layout arg (fun a =>
     each_chunk (write_round a) (chunks (rd_nbytes a)) 0) k) /\
  (forall bytes, foldr Z.add 0 (chunks (rd_nbytes (decode read_args_layout bytes))) =
     rd_nbytes (decode read_args_layout bytes)).
Proof.
  intros Hn. split; [|split; [|intros bytes; by apply chunks_sum]].
  - apply bind_equiv. intros [err bytes] k1. destruct (err <? 0); [done|].
    apply (loop_chunks (read_round _) (fun fuel => read_rounds fuel _)); [done|apply Hn|by apply rounds_enough].
  - apply bind_equiv. intros [err bytes] k1. destruct (err <? 0); [done|].
    apply (loop_chunks (write_round _) (fun fuel => write_rounds fuel _)); [done|apply Hn|by apply rounds_enough].
Qed.
End properties.

(** ** The property at a concrete state *)
Module Witness.
Import Vnode.Witness.
#[local] Instance fuel : LoopFuel := 10%nat.
#[local] Instance no_files : FileCalls := {| fget _ := ret None; fput _ := ret tt; fref _ := ret tt |}.
#[local] Instance modes : FileHeaders := {| FMODE_READ := 1; FMODE_WRITE := 2; FMODE_APPEND := 4 |}.
#[local] Instance objects : MmobjOps := mm_ops 1.

(** The 32-bit little-endian word at [off]. *)
Definition word (off : nat) (bytes : list Z) : Z :=
  uint32 (foldr (fun b z => b + 256 * z) 0 (take 4 (drop off bytes))).
Definition str (off : nat) (bytes : list Z) : argstr := {| as_str := word off bytes; as_len := word (off + 4) bytes |}.
Definition vec (off : nat) (bytes : list Z) : argvec := {| av_vec := word off bytes; av_len := word (off + 4) bytes |}.

#[local] Instance i386_headers : SyscallHeaders := {|
  ENOSYS := 38; ENODEV := 19; sysnum_of n := if n =? 6 then Some SYS_read else None;
  argstr_layout := {| size_of := 8; decode := str 0 |};
  read_args_layout := {| size_of := 12; decode b :=
    {| rd_fd := int32 (word 0 b); rd_buf := word 4 b; rd_nbytes := word 8 b |} |};
  getdents_args_layout := {| size_of := 12; decode b :=
    {| gd_fd := int32 (word 0 b); gd_dirp := word 4 b; gd_count := word 8 b |} |};
  dup2_args_layout := {| size_of := 8; decode b := {| d2_ofd := int32 (word 0 b); d2_nfd := int32 (word 4 b) |} |};
  mkdir_args_layout := {| size_of := 12; decode b := {| mk_path := str 0 b |} |};
  link_args_layout := {| size_of := 16; decode b := {| ln_to := str 0 b; ln_from := str 8 b |} |};
  rename_args_layout := {| size_of := 16; decode b := {| rn_oldname := str 0 b; rn_newname := str 8 b |} |};
  lseek_args_layout := {| size_of := 12; decode b :=
    {| ls_fd := int32 (word 0 b); ls_offset := int32 (word 4 b); ls_whence := int32 (word 8 b) |} |};
  open_args_layout := {| size_of := 16; decode b := {| op_filename := str 0 b; op_flags := int32 (word 8 b) |} |};
  munmap_args_layout := {| size_of := 8; decode b := {| mu_addr := word 0 b; mu_len := word 4 b |} |};
  mmap_args_layout := {| size_of := 24; decode b :=
    {| mma_addr := word 0 b; mma_len := word 4 b; mma_prot := word 8 b; mma_flags := word 12 b;
       mma_fd := int32 (word 16 b); mma_off := int32 (word 20 b) |} |};
  waitpid_args_layout := {| size_of := 12; decode b :=
    {| wpa_pid := int32 (word 0 b); wpa_options := int32 (word 4 b); wpa_status := word 8 b |} |};
  stat_args_layout := {| size_of := 12; decode b := {| st_path := str 0 b; st_buf := word 8 b |} |};
  execve_args_layout := {| size_of := 24; decode b :=
    {| ex_filename := str 0 b; ex_argv := vec 8 b; ex_envp := vec 16 b |} |};
  sizeof_charptr := 4; dirent_bytes d := [d]; stat_bytes s := [s]; int_bytes n := [n];
  uts_sysname := 0; uts_release := 65; uts_version := 130; uts_nodename := 195; uts_machine := 260;
  version_string := [] |}.

(** A request for 5000 bytes takes two rounds. *)
Lemma sys_read_write_chunks_witness :
  chunks 5000 = [4096; 904] /\
  sys_read 8 boot ≡ with_args read_args_layout 8 (fun a =>
    each_chunk (read_round a) (chunks (rd_nbytes a)) 0) boot.
Proof.
  split; [by vm_compute|]. apply (sys_read_write_chunks 8 boot). intros bytes. simpl.
  apply (uint32_range _).
Defined.
End Witness.
