(* ===== verification/ReadPath.v ===== *)
(** * ReadPath

    What [sys_read] of [kernel/api/syscall.c] delivers: the way of the bytes from the file over
    [do_read] of [kernel/fs/vfs_syscall.c] into a temporary page, and from there over [copy_to_user]
    of [kernel/api/access.c] and [vmmap_write] of [kernel/vm/vmmap.c] into the memory of the process.

    The file system is any whose read operation finds the bytes of the file at once ([reads_as]), as
    one that keeps its files in memory does. *)

From S2P Require Import Prelude Platform State Sched Mmobj Vmmap Pframe Anon Proc UserMem UserPages PageGet Vmsys Fork Vnode Namev VfsSys Syscall.

(** Bytes at the front of a longer memory. *)
Lemma store_app off bs d d' : 0 <= off -> off + Z.of_nat (length bs) <= Z.of_nat (length d) ->
  mem_store off bs (d ++ d') = mem_store off bs d ++ d'.
Proof.
  intros H1 H2. unfold mem_store. rewrite take_app_le, drop_app_le by lia. by rewrite <- !app_assoc.
Qed.

Lemma touched_prefix `{PO : PlatformOk} u n m : 0 <= u -> 0 < n <= m -> u + m <= 2 ^ 32 ->
  exists rest, touched u m = touched u n ++ rest.
Proof.
  intros Hu Hn Hm. unfold touched, last_address. rewrite !uint32_small by lia. rewrite !addr_to_pn_spec, page_size_4k.
  pose proof (Z.div_le_mono u (u + n - 1) 4096). pose proof (Z.div_le_mono (u + n - 1) (u + m - 1) 4096).
  set (a := u / 4096) in *. set (b := (u + n - 1) / 4096) in *. set (c := (u + m - 1) / 4096) in *.
  exists (seqZ (a + (b - a + 1)) (c - b)). rewrite <- seqZ_app by lia. f_equal. lia.
Qed.

(** ** The state of a reader *)

(** A copy moves through frames and pages; only the open file and the number of requests to
    the allocator change besides. *)
Definition moved (k k' : kernel) : Prop :=
  mem_step (k <| files := files k' |> <| alloc_count := alloc_count k' |>) k'.

Lemma moved_trans k1 k2 k3 : moved k1 k2 -> moved k2 k3 -> moved k1 k3.
Proof.
  intros [H1 H2] [H3 H4]. split; [|simpl in *; congruence].
  rewrite H3, H1. by kernel_ext.
Qed.

Section reading.
Context `{PO : PlatformOk, F : LoopFuel, PG : PageOps, MH : MmHeaders}.
Context `{FH : FsHeaders, FO : !FsOps, DO : DevOps, FC : FileCalls, FM : FileHeaders}.
Context (R : rely kernel) `{FOK : !FileOk R}.

(** Reading [n] bytes at [pos] of the file of vnode [vn] gives [text pos n], and nothing else happens. *)
Definition reads_as (vn : ptr) (v : vnode) (text : Z -> Z -> list Z) : Prop :=
  vn_ops v = fs_vops /\ S_ISDIR (vn_mode v) = false /\
  exists read, vop_read (filesystem_vops v) = Some read /\
    forall pos n k, vnodes k !! vn = Some v ->
      read vn pos n k = Ret (Z.of_nat (length (text pos n)), text pos n) k.

(** Descriptor [fd] of process [pr] is the file [f], open for reading, on vnode [vn]. *)
Record opens (pr : proc) (fd : nat) (f : ptr) (fl : file) (vn : ptr) : Prop := {
  op_table : length (p_files pr) = NFILES;
  op_fd : p_files pr !! fd = Some (Some f);
  op_refs : 0 < f_refcount fl;
  op_mode : Z.land (f_mode fl) FMODE_READ = 1;
  op_vnode : f_vnode fl = Some vn;
}.

Lemma do_read_run k c pr fd f fl vn v text n :
  curproc k = Some c -> procs k !! c = Some pr -> opens pr fd f fl vn -> files k !! f = Some fl ->
  vnodes k !! vn = Some v -> reads_as vn v text ->
  let data := text (f_pos fl) n in
  do_read (Z.of_nat fd) n k = Ret (Z.of_nat (length data), data)
    (with_file k f (fl <| f_pos := int32 (f_pos fl + Z.of_nat (length data)) |>)).
Proof.
  intros Hc Hp [Hlen Hfd Hpos Hmode Hvn] Hf Hv (Hops & Hdir & read & Hread & Hrun) data.
  set (fl1 := fl <| f_refcount ::= Z.succ |>). set (k1 := with_file k f fl1).
  assert (Hf1 : files k1 !! f = Some fl1) by apply lookup_insert_eq.
  unfold do_read. rewrite (good_fd pr Hlen fd f Hfd). erewrite bind_ret by (by eapply (fget_open k c pr fd f fl)).
  fold fl1. fold (with_file k f fl1). fold k1. cbn beta iota.
  rewrite (bind_deref files _ _ _ _ Hf1). change (f_mode fl1) with (f_mode fl). rewrite Hmode. cbn [negb Z.eqb Pos.eqb].
  assert (Hfv : file_vnode f k1 = Ret (vn, v) k1).
  { unfold file_vnode. rewrite (bind_deref files _ _ _ _ Hf1). change (f_vnode fl1) with (f_vnode fl).
    rewrite Hvn, bind_nonnull. by rewrite (bind_deref vnodes _ v). }
  rewrite (bind_ret _ _ _ _ _ Hfv). cbn beta iota. rewrite Hdir.
  assert (Hvops : vops vn k1 = Ret (filesystem_vops v) k1).
  { unfold vops. rewrite (bind_deref vnodes _ v) by done. by rewrite Hops. }
  rewrite (bind_ret _ _ _ _ _ Hvops), Hread, bind_nonnull.
  rewrite (bind_ret _ _ _ _ _ (Hrun (f_pos fl1) n k1 Hv)). cbn beta iota. change (f_pos fl1) with (f_pos fl). fold data.
  unfold advance_pos. rewrite (bind_assign files _ fl1) by exact Hf1.
  erewrite bind_ret by (apply (fput_back R k _ f (fl <| f_pos := int32 (f_pos fl + Z.of_nat (length data)) |>));
    [done|simpl; by rewrite insert_insert_eq|done]). done.
Qed.

(** ** One round *)
Section round.
Context (c : ptr) (pr : proc) (map : ptr) (fd : nat) (f : ptr) (fl : file) (vn : ptr) (v : vnode).
Context (text : Z -> Z -> list Z) (u m : Z) (addrs : list ptr).

(** The current process may write the [m] bytes at [u], whose pages are resident at [addrs] with
    contents [ds]. *)
Record target (k : kernel) (ds : list (list Z)) : Prop := {
  ta_cur : curproc k = Some c;
  ta_proc : procs k !! c = Some pr;
  ta_space : vmmap_wf k map;
  ta_sched : sched_wf k;
  ta_pages : Forall2 (page_at live k map PAGE_SIZE) (touched u m) addrs;
  ta_contents : contents k addrs ds;
  ta_allowed i : ADDR_TO_PN u <= i <= ADDR_TO_PN (u + m - 1) -> allowed k map PROT_WRITE i;
}.

(** Its file is at position [pos], and there is memory for a temporary page. *)
Record ready (k : kernel) (pos : Z) (ds : list (list Z)) : Prop := {
  re_target : target k ds;
  re_file : files k !! f = Some (fl <| f_pos := pos |>);
  re_vnode : vnodes k !! vn = Some v;
  re_memory j : is_Some (page_alloc_n j (dom (pages k)));
}.

Lemma target_stable k k' ds ds' : target k ds -> same_space k k' -> curproc k' = curproc k ->
  procs k' = procs k -> sched_wf k' -> contents k' addrs ds' -> target k' ds'.
Proof.
  intros [Hc Hp Hwf Hs HF Hcont Hall] Hss Hc' Hp' Hs' Hcont'. split; try done.
  - congruence.
  - congruence.
  - by apply (vmmap_wf_stable _ _ Hss).
  - by apply (pages_at_stable _ _ Hss).
  - intros i Hi. by apply (allowed_stable _ _ Hss), Hall.
Qed.

Hypotheses (Hmap : p_vmmap pr = Some map) (Hopen : opens pr fd f fl vn) (Htext : reads_as vn v text)
  (Hfit : forall pos n, 0 < n -> Z.of_nat (length (text pos n)) <= n)
  (Hu : 0 <= u) (Hm : 0 < m <= PAGE_SIZE) (Hum : u + m <= 2 ^ 32) (Hnd : NoDup addrs).

Lemma page_at_le k i addr n : n <= PAGE_SIZE -> page_at live k map PAGE_SIZE i addr -> page_at live k map n i addr.
Proof.
  intros Hn (a & w & o & pf & p & H1 & H2 & H3 & H4 & H5 & H6 & H7). exists a, w, o, pf, p. split_and!; try done. lia.
Qed.

(** Storing [n] of the bytes of the buffer. *)
Lemma user_store k ds n buf : target k ds -> 0 < n <= m -> n <= Z.of_nat (length buf) ->
  exists k' ds', copy_to_user u buf n k = Ret 0 k' /\ mem_step k k' /\ sched_wf k' /\ contents k' addrs ds' /\
    concat ds' = mem_store (PAGE_OFFSET u) (take (Z.to_nat (copied u n)) buf) (concat ds) /\
    (forall a, a ∉ addrs -> pages k' !! a = pages k !! a).
Proof.
  intros [Hc Hp Hwf Hs HF Hcont Hall] Hn Hbuf.
  destruct (touched_prefix u n m) as (rest & Ht); [lia..|]. rewrite Ht in HF.
  apply Forall2_app_inv_l in HF as (a1 & a2 & HF1 & HF2 & ->).
  apply Forall2_app_inv_l in Hcont as (d1 & d2 & Hc1 & Hc2 & ->).
  apply NoDup_app in Hnd as (Hnd1 & Hdis & Hnd2).
  destruct (vmmap_write_run k map u n buf a1 d1) as (k' & d1' & Hrun & Hstep & Hs' & Hc1' & Hcat & Hout); try done; try lia.
  { eapply Forall2_impl; [exact HF1|]. intros i addr. apply page_at_le. lia. }
  exists k', (d1' ++ d2). split_and!; try done.
  - rewrite (copy_to_user_allowed k c pr map); try done; try lia.
    intros i Hi. apply Hall. rewrite !addr_to_pn_spec, page_size_4k in *.
    pose proof (Z.div_le_mono (u + n - 1) (u + m - 1) 4096). lia.
  - apply Forall2_app; [done|]. apply (contents_other k); [|done]. intros a Ha. apply Hout. intros Ha1.
    by apply (Hdis a).
  - rewrite !concat_app, Hcat. symmetry. apply store_app.
    + rewrite page_offset_spec, page_size_4k. apply Z.mod_pos_bound. lia.
    + pose proof (touched_room u n Hu ltac:(lia) ltac:(lia)) as Hroom.
      rewrite (Forall2_length _ _ _ HF1), <- (contents_length _ _ _ Hc1) in Hroom.
      rewrite length_take. unfold copied. destruct (_ =? _); lia.
  - intros a Ha. apply Hout. set_solver.
Qed.

(** What a round stores: the bytes that were read, and whatever the temporary page held behind them. *)
Definition page_image (data : list Z) (count : nat) : list Z :=
  data ++ drop (length data) (page_content count).

Definition deliver (data : list Z) (count : nat) (n : Z) (mem : list Z) : list Z :=
  mem_store (PAGE_OFFSET u) (take (Z.to_nat (copied u n)) (page_image data count)) mem.

(** The state when the bytes are in the temporary page [t] and the file has moved on. *)
Definition buffered (k : kernel) (t : ptr) (d : list Z) (pos : Z) : kernel :=
  k <| alloc_count ::= S |> <| pages := <[t := d]> (pages k) |>
    <| files := <[f := fl <| f_pos := pos |>]> (files k) |>.

Lemma addrs_resident k ds x : contents k addrs ds -> x ∈ addrs -> x ∈ dom (pages k).
Proof.
  intros HF Hx. apply list_elem_of_lookup in Hx as (i & Hi). destruct (Forall2_lookup_l _ _ _ _ _ HF Hi) as (d & _ & Hd & _).
  by apply elem_of_dom.
Qed.

Lemma buffered_target k ds t d pos : target k ds -> pages k !! t = None -> target (buffered k t d pos) ds.
Proof.
  intros Hta Ht. apply (target_stable k _ ds); try done; [by eapply sched_wf_ext; [..|apply Hta]|].
  apply (contents_other k); [|apply Hta]. intros x Hx%(addrs_resident k ds); [|apply Hta]. simpl.
  apply lookup_insert_ne. intros ->. by apply elem_of_dom in Hx as [? Hx]; simplify_eq.
Qed.

(** Releasing the temporary page. *)
Lemma read_round_end k k4 t d pos ds ds' : target k ds -> pages k !! t = None -> t ∉ addrs ->
  mem_step (buffered k t d pos) k4 -> sched_wf k4 -> contents k4 addrs ds' ->
  (forall x, x ∉ addrs -> pages k4 !! x = pages (buffered k t d pos) !! x) ->
  let k' := k4 <| pages := delete t (pages k4) |> in
  target k' ds' /\ moved k k' /\ alloc_count k' = S (alloc_count k) /\
  files k' = <[f := fl <| f_pos := pos |>]> (files k) /\ vnodes k' = vnodes k /\
  (forall x, x ∉ addrs -> pages k' !! x = pages k !! x).
Proof.
  intros Hta Ht Hna Hstep Hs4 Hc4 Hout k'. set (k3 := buffered k t d pos) in *.
  assert (Hss : same_space k3 k4) by (by apply mem_step_space). split_and!.
  - apply (target_stable k3 _ ds); [by apply buffered_target|by destruct Hss|..].
    + by apply (mem_step_same curproc k3 k4).
    + by apply (mem_step_same procs k3 k4).
    + by eapply sched_wf_ext; [..|exact Hs4].
    + apply (contents_other k4); [|done]. intros x Hx. simpl. apply lookup_delete_ne. by intros ->.
  - destruct Hstep as [H1 H2]. split; [|exact H2]. unfold k'. rewrite H1. by kernel_ext.
  - by apply (mem_step_same alloc_count k3 k4).
  - by apply (mem_step_same files k3 k4).
  - by apply (mem_step_same vnodes k3 k4).
  - intros x Hx. simpl. destruct (decide (x = t)) as [->|Hxt]; [by rewrite lookup_delete_eq|].
    rewrite lookup_delete_ne by done. rewrite Hout by done. simpl. by rewrite lookup_insert_ne.
Qed.

Lemma dom_outside k k' ds ds' : contents k addrs ds -> contents k' addrs ds' ->
  (forall x, x ∉ addrs -> pages k' !! x = pages k !! x) -> dom (pages k') = dom (pages k).
Proof.
  intros Hc Hc' Hout. apply set_eq. intros x. destruct (decide (x ∈ addrs)) as [Hx|Hx].
  - split; intros _; by eapply addrs_resident.
  - by rewrite !elem_of_dom, Hout.
Qed.

Lemma read_round_run k pos ds a n : ready k pos ds -> 0 < n <= m -> rd_fd a = Z.of_nat fd -> rd_buf a = u ->
  let data := text pos n in
  let pos' := int32 (pos + Z.of_nat (length data)) in
  exists k' ds', read_round a n k = Ret (inr (Z.of_nat (length data))) k' /\ ready k' pos' ds' /\ moved k k' /\
    alloc_count k' = S (alloc_count k) /\ files k' = <[f := fl <| f_pos := pos' |>]> (files k) /\
    concat ds' = deliver data (alloc_count k) n (concat ds) /\
    (forall x, x ∉ addrs -> pages k' !! x = pages k !! x).
Proof.
  intros [Hta Hfile Hvn Hmem] Hn Hfd Hbuf data pos'. destruct (Hmem (alloc_count k)) as [t Halloc].
  pose proof (page_alloc_n_fresh _ _ _ Halloc) as Hfresh. pose proof (proj1 (not_elem_of_dom _ _) Hfresh) as Ht.
  assert (Hna : t ∉ addrs) by (intros Hx; apply Hfresh; eapply addrs_resident; [apply Hta|done]).
  set (d := page_image data (alloc_count k)). set (k3 := buffered k t d pos').
  pose proof (page_content_length (alloc_count k)) as Hpc. pose proof (Hfit pos n ltac:(lia)) as Hdata. fold data in Hdata.
  assert (Hd : Z.of_nat (length d) = PAGE_SIZE) by (unfold d, page_image; rewrite length_app, length_drop; lia).
  destruct (user_store k3 ds n (mem_slice 0 n d)) as (k4 & ds' & Hrun & Hstep & Hs4 & Hc4 & Hcat & Hout).
  { by apply buffered_target. } { done. }
  { unfold mem_slice. rewrite drop_0, length_take. lia. }
  destruct (read_round_end k k4 t d pos' ds ds') as (Hta' & Hmoved & Hcount & Hfiles & Hvn' & Hout'); try done.
  exists (k4 <| pages := delete t (pages k4) |>), ds'. split_and!; try done.
  - unfold read_round. rewrite (bind_page_alloc k t) by exact Halloc. rewrite Hfd, Hbuf.
    erewrite bind_ret; [|eapply (do_read_run _ c pr fd f (fl <| f_pos := pos |>) vn v text n)]; try done; try apply Hta.
    2:{ destruct Hopen. by split. }
    cbn beta iota. change (f_pos (fl <| f_pos := pos |>)) with pos. fold data.
    destruct (Z.ltb_spec (Z.of_nat (length data)) 0); [lia|]. rewrite bind_nonnull.
    erewrite bind_assign by (simpl; apply lookup_insert_eq). erewrite bind_deref by (simpl; apply lookup_insert_eq).
    erewrite bind_ret; [|etrans; [|exact Hrun]].
    2:{ f_equal. unfold k3, buffered. kernel_ext. rewrite insert_insert_eq. done. }
    cbn [Z.ltb Z.compare]. unfold page_free. erewrite bind_slab_free; [done|].
    rewrite Hout by done. simpl. apply lookup_insert_eq.
  - split; [done|by rewrite Hfiles, lookup_insert_eq|by rewrite Hvn'|]. intros j.
    rewrite (dom_outside k _ ds ds'); [apply Hmem|apply Hta|apply Hta'|done].
  - rewrite Hcat. unfold deliver, mem_slice. rewrite drop_0, take_take. do 2 f_equal.
    unfold copied. destruct (_ =? _); lia.
Qed.

(** ** The whole request *)

(** How far a request has come: the requests for pages so far, the position of the file, the bytes
    that count as read, and the memory of the process from the page of the buffer on. *)
Record progress := { pg_count : nat; pg_pos : Z; pg_total : Z; pg_mem : list Z }.

Definition next_chunk (g : progress) (n : Z) : progress :=
  let data := text (pg_pos g) n in
  {| pg_count := S (pg_count g);
     pg_pos := int32 (pg_pos g + Z.of_nat (length data));
     pg_total := uint32 (pg_total g + Z.of_nat (length data));
     pg_mem := deliver data (pg_count g) n (pg_mem g) |}.

(** The state that belongs to it. *)
Record at_progress (k k' : kernel) (g : progress) (ds : list (list Z)) : Prop := {
  ap_ready : ready k' (pg_pos g) ds;
  ap_moved : moved k k';
  ap_count : alloc_count k' = pg_count g;
  ap_files : files k' = <[f := fl <| f_pos := pg_pos g |>]> (files k);
  ap_mem : concat ds = pg_mem g;
  ap_pages x : x ∉ addrs -> pages k' !! x = pages k !! x;
}.

Lemma read_chunks_run k a l : rd_fd a = Z.of_nat fd -> rd_buf a = u -> Forall (fun n => 0 < n <= m) l ->
  forall k1 g ds, at_progress k k1 g ds ->
  exists k' ds', each_chunk (read_round a) l (pg_total g) k1 = Ret (int32 (pg_total (foldl next_chunk g l))) k' /\
    at_progress k k' (foldl next_chunk g l) ds'.
Proof.
  intros Hfd Hbuf. induction 1 as [|n l Hn _ IH]; intros k1 g ds Hap; [by exists k1, ds|].
  destruct (read_round_run k1 (pg_pos g) ds a n) as (k2 & ds2 & Hrun & Hready & Hmoved & Hcount & Hfiles & Hmem & Hout);
    [apply Hap|done..|]. cbn [each_chunk foldl]. rewrite (bind_ret _ _ _ _ _ Hrun). cbn iota.
  apply (IH k2 (next_chunk g n) ds2). destruct Hap as [_ Hmoved1 Hcount1 Hfiles1 Hmem1 Hout1]. split; simpl.
  - exact Hready.
  - by eapply moved_trans.
  - by rewrite Hcount, Hcount1.
  - by rewrite Hfiles, Hfiles1, insert_insert_eq.
  - by rewrite Hmem, Hcount1, Hmem1.
  - intros x Hx. by rewrite Hout, Hout1.
Qed.
End round.

Lemma chunks_bounds n : 0 <= n -> Forall (fun c => 0 < c <= Z.min n PAGE_SIZE) (chunks n).
Proof.
  intros Hn. pose proof page_size_4k as H4k. unfold chunks. rewrite H4k.
  pose proof (Z.div_mod n 4096 ltac:(lia)). pose proof (Z.mod_pos_bound n 4096 ltac:(lia)). apply Forall_app. split.
  - destruct (Z.to_nat (n / 4096)) eqn:Hq; [constructor|]. apply Forall_replicate. lia.
  - destruct (Z.eqb_spec (n mod 4096) 0); [constructor|]. apply Forall_singleton. lia.
Qed.

(** The argument structure [a] of the call is at [arg] in the memory of the process. *)
Definition args_at `{!SyscallHeaders} (k : kernel) (map : ptr) (arg : Z) (a : read_args) : Prop :=
  let n := size_of read_args_layout in
  0 <= arg /\ 0 < n /\ arg + n <= 2 ^ 32 /\
  (forall i, ADDR_TO_PN arg <= i <= ADDR_TO_PN (arg + n - 1) -> allowed k map PROT_READ i) /\
  exists ads, Forall2 (page_data k map n) (touched arg n) ads /\
    decode read_args_layout (mem_slice (PAGE_OFFSET arg) (copied arg n) (concat ads)) = a.

Lemma with_args_run `{!SyscallHeaders} k c pr map arg a (g : read_args -> K Z) :
  curproc k = Some c -> procs k !! c = Some pr -> p_vmmap pr = Some map -> vmmap_wf k map ->
  args_at k map arg a -> with_args read_args_layout arg g k = g a k.
Proof.
  intros Hc Hp Hm Hwf (H1 & H2 & H3 & Hall & ads & HF & Hdec). unfold with_args.
  erewrite bind_ret; [|rewrite (copy_from_user_allowed k c pr map) by done; by apply vmmap_read_run].
  cbn [Z.ltb Z.compare]. unfold copied in Hdec. by rewrite Hdec.
Qed.
End reading.

(** ** Properties *)
Section properties.
Context `{PO : PlatformOk, F : LoopFuel, PG : PageOps, MH : MmHeaders}.
Context `{FH : FsHeaders, FO : !FsOps, DO : DevOps, FC : FileCalls, FM : FileHeaders, SH : !SyscallHeaders}.
Context (R : rely kernel) `{FOK : !FileOk R}.
Context (k : kernel) (c : ptr) (pr : proc) (map : ptr) (fd : nat) (f : ptr) (fl : file) (vn : ptr) (v : vnode).
Context (text : Z -> Z -> list Z) (arg pos : Z) (a : read_args) (addrs : list ptr) (ds : list (list Z)).

(** The process asks for bytes of the file [text], of which a read returns at most as many as it
    is asked for; its buffer is resident as far as the call will use it. *)
Record asks : Prop := {
  as_space : p_vmmap pr = Some map;
  as_open : opens pr fd f fl vn;
  as_text : reads_as vn v text;
  as_fit p n : 0 < n -> Z.of_nat (length (text p n)) <= n;
  as_fd : rd_fd a = Z.of_nat fd;
  as_buf : 0 <= rd_buf a;
  as_nbytes : 0 < rd_nbytes a;
  as_room : rd_buf a + Z.min (rd_nbytes a) PAGE_SIZE <= 2 ^ 32;
  as_pages : NoDup addrs;
  as_args : args_at k map arg a;
  as_ready : ready (live := live) c pr map f fl vn v (rd_buf a) (Z.min (rd_nbytes a) PAGE_SIZE) addrs k pos ds;
}.

Definition start : progress := {| pg_count := alloc_count k; pg_pos := pos; pg_total := 0; pg_mem := concat ds |}.
Definition final : progress := foldl (next_chunk text (rd_buf a)) start (chunks (rd_nbytes a)).

Lemma sys_read_run : asks -> exists k' ds', sys_read arg k = Ret (int32 (pg_total final)) k' /\
  at_progress (live := live) c pr map f fl vn v (rd_buf a) (Z.min (rd_nbytes a) PAGE_SIZE) addrs k k' final ds'.
Proof.
  intros [Hm Hopen Htext Hfit Hfd Hbuf Hn Hroom Hnd Hargs Hready].
  assert (0 < Z.min (rd_nbytes a) PAGE_SIZE <= PAGE_SIZE) as Hmin by (rewrite page_size_4k; lia).
  pose proof (chunks_bounds (rd_nbytes a) ltac:(lia)) as Hchunks.
  destruct (read_chunks_run R c pr map fd f fl vn v text (rd_buf a) (Z.min (rd_nbytes a) PAGE_SIZE) addrs
    Hm Hopen Htext Hfit Hbuf Hmin Hroom Hnd k a (chunks (rd_nbytes a)) Hfd eq_refl
    Hchunks k start ds) as (k' & ds' & Hrun & Hap).
  { split; try done.
    - split; [by kernel_ext|done].
    - simpl. symmetry. apply insert_id, Hready. }
  exists k', ds'. split; [|exact Hap]. unfold sys_read.
  rewrite (with_args_run k c pr map arg a) by (done || apply Hready). apply equiv_Ret. unfold final. rewrite <- Hrun.
  change (pg_total start) with 0.
  apply (loop_chunks (read_round a) (fun fuel => read_rounds fuel a)); [done|lia|by apply rounds_enough; lia].
Qed.


(** The buffer lies within its pages. *)
Lemma asks_room : asks -> rd_nbytes a <= PAGE_SIZE ->
  PAGE_OFFSET (rd_buf a) + rd_nbytes a <= Z.of_nat (length (concat ds)).
Proof.
  intros [_ _ _ _ _ Hbuf Hpos Hroom _ _ [[_ _ _ _ HF Hc _] _ _ _]] Hn.
  rewrite Z.min_l in Hroom, HF by done. rewrite (contents_length k addrs) by done.
  rewrite <- (Forall2_length _ _ _ HF). by apply touched_room.
Qed.

Lemma chunks_one n : 0 < n <= PAGE_SIZE -> chunks n = [n].
Proof.
  intros Hn. destruct (decide (n = PAGE_SIZE)) as [->|Hne]; [|apply chunks_small; lia].
  rewrite chunks_page, Z.sub_diag by lia. unfold chunks. by rewrite Z.div_0_l, Z.mod_0_l by lia.
Qed.

(** C33: when the file has fewer bytes than [sys_read] was asked for, the process gets them, and behind
    them, up to the size of the request, what the temporary page of the kernel held before. *)
Theorem sys_read_discloses : asks -> rd_nbytes a <= PAGE_SIZE ->
  ADDR_TO_PN (rd_buf a + rd_nbytes a - 1) = ADDR_TO_PN (rd_buf a) ->
  let data := text pos (rd_nbytes a) in
  exists k' ds', sys_read arg k = Ret (Z.of_nat (length data)) k' /\ contents k' addrs ds' /\
    mem_slice (PAGE_OFFSET (rd_buf a)) (rd_nbytes a) (concat ds') =
      data ++ mem_slice (Z.of_nat (length data)) (rd_nbytes a - Z.of_nat (length data)) (page_content (alloc_count k)).
Proof.
  intros Has Hn Hone data. pose proof (as_nbytes Has) as Hpos.
  pose proof (as_fit Has pos (rd_nbytes a) Hpos) as Hfit. fold data in Hfit. pose proof page_size_4k as H4k.
  destruct (sys_read_run Has) as (k' & ds' & Hrun & [Hready _ _ _ Hmem _]). unfold final in *.
  rewrite chunks_one in * by lia. cbn [foldl next_chunk pg_total pg_pos pg_mem pg_count start] in *. fold data in Hrun, Hmem.
  exists k', ds'. split_and!.
  - rewrite Hrun. f_equal. rewrite Z.add_0_l, uint32_small by lia. apply int32_small. lia.
  - apply Hready.
  - rewrite Hmem. unfold deliver, copied. rewrite Hone, Z.eqb_refl.
    pose proof (page_content_length (alloc_count k)) as Hpc.
    assert (Hlen : Z.of_nat (length (page_image data (alloc_count k))) = PAGE_SIZE)
      by (unfold page_image; rewrite length_app, length_drop; lia).
    rewrite slice_store; [|rewrite page_offset_spec; apply Z.mod_pos_bound; lia|lia|by apply asks_room|rewrite length_take; lia].
    unfold page_image, mem_slice. rewrite take_app_ge by lia. f_equal. rewrite Nat2Z.id. f_equal. lia.
Qed.
End properties.

(** ** The properties at concrete states *)
Module Witness.
Import Vnode.Witness.
#[local] Instance fuel : LoopFuel := 10%nat.
#[local] Existing Instances VfsSys.Witness.simple_files VfsSys.Witness.simple_files_ok
  UserPages.Witness.no_vnodes Syscall.Witness.i386_headers.
#[local] Instance modes : FileHeaders := {| FMODE_READ := 1; FMODE_WRITE := 2; FMODE_APPEND := 4 |}.
#[local] Instance objects : MmobjOps := mm_ops 1.

(** A file of 5000 bytes, 1 in its first page and 2 in the second. *)
Definition text (pos n : Z) : list Z :=
  replicate (Z.to_nat (Z.min n (5000 - pos))) (if pos <? 4096 then 1 else 2).

#[local] Instance memory_fs : FsOps := {|
  fs_read_vnode _ := None; fs_query_vnode _ _ := ret 0; fs_delete_vnode _ := None; fs_root _ := None;
  filesystem_vops _ := {|
    vop_read := Some (fun _ pos n => ret (Z.of_nat (length (text pos n)), text pos n));
    vop_write := None; vop_mmap := None; vop_create := None; vop_mknod := None; vop_lookup := None;
    vop_link := None; vop_unlink := None; vop_mkdir := None; vop_rmdir := None; vop_readdir := None;
    vop_stat := None; vop_fillpage := None; vop_dirtypage := None; vop_cleanpage := None |} |}.

(** Process 1 has the file at descriptor 0 and asks for [n] bytes at 0x400000, the first page of its
    address space; the arguments are at the start of the second one. *)
Definition proc1 : proc := VfsSys.Witness.user <| p_vmmap := Some 1%positive |>.
Definition args_page (n : Z) : list Z :=
  [0; 0; 0; 0; 0; 0; 0x40; 0; n mod 256; n / 256; 0; 0] ++ replicate 4084 6.
Definition file_at (pos : Z) : file := VfsSys.Witness.open_file <| f_pos := pos |>.
Definition with_reader (k : kernel) (n pos : Z) : kernel :=
  k <| pages := {[ 1%positive := replicate 4096 5; 2%positive := args_page n ]} |>
    <| procs := {[ 1%positive := proc1 ]} |>
    <| files := {[ 5%positive := file_at pos ]} |> <| vnodes := {[ 4%positive := VfsSys.Witness.regular ]} |>.
Definition reader (n pos : Z) : kernel := with_reader UserPages.Witness.shared_vm n pos.
Definition request (n : Z) : read_args := {| rd_fd := 0; rd_buf := 0x400000; rd_nbytes := n |}.

Lemma reader_space n pos : same_space UserPages.Witness.shared_vm (reader n pos).
Proof. unfold reader. generalize UserPages.Witness.shared_vm. by split. Qed.

Lemma reader_page n pos count i pf : (i, pf) ∈ [(1024, 1%positive); (1025, 2%positive)] -> count <= 4096 ->
  page_at object_live (reader n pos) 1 count i pf.
Proof.
  intros Hi Hcount. apply (page_at_stable (PG := object_pages 0) _ _ (reader_space n pos)).
  exists 1%positive, (UserPages.Witness.space 1), 1%positive, pf, (UserPages.Witness.frame (i - 1024) pf).
  rewrite !elem_of_cons, elem_of_nil in Hi. destruct Hi as [[= -> ->]|[[= -> ->]|[]]]; (split_and!; try done).
  - apply UserPages.Witness.shared_mapped; [by left|lia].
  - eexists. split; [reflexivity|]. left. split_and!; [done| |by vm_compute; lia].
    apply UserPages.Witness.shared_hit. by left.
  - cbn. lia.
  - apply UserPages.Witness.shared_mapped; [by left|lia].
  - eexists. split; [reflexivity|]. left. split_and!; [done| |by vm_compute; lia].
    apply UserPages.Witness.shared_hit. by right; left.
  - cbn. lia.
Qed.

Lemma reader_sched n pos : sched_wf (reader n pos).
Proof.
  unfold reader. generalize UserPages.Witness.shared_sched. generalize UserPages.Witness.shared_vm.
  intros k Hk. by eapply sched_wf_ext; [..|exact Hk].
Qed.

Lemma reader_allowed n pos perm i : Z.land 3 perm = perm -> 1024 <= i < 1040 -> allowed (reader n pos) 1 perm i.
Proof.
  intros Hp Hi. apply (allowed_stable _ _ (reader_space n pos)). exists 1%positive, (UserPages.Witness.space 1).
  split; [apply UserPages.Witness.shared_mapped; [by left|lia]|]. by split.
Qed.

Lemma reader_asks n pos : n ∈ [10; 5000] -> 0 <= pos ->
  asks (live := object_live) (reader n pos) 1 proc1 1 0 5 (file_at pos) 4 VfsSys.Witness.regular text
    (1025 * 4096) pos (request n) [1%positive] [replicate 4096 5].
Proof.
  intros Hn Hpos.
  assert (n = 10 \/ n = 5000) as Hn2 by (rewrite !elem_of_cons, elem_of_nil in Hn; tauto).
  assert (Ht : touched 0x400000 (Z.min n 4096) = [1024]) by (destruct Hn2 as [-> | ->]; reflexivity).
  split; try done; cbn [request rd_nbytes rd_buf].
  - split_and!; [done..|]. eexists. by split.
  - intros p c Hc. unfold text. rewrite length_replicate. lia.
  - lia.
  - change PAGE_SIZE with 4096. lia.
  - apply NoDup_singleton.
  - split_and!; try done.
    + intros i Hi. apply reader_allowed; [done|]. change (1025 <= i <= 1025) in Hi. lia.
    + exists [args_page n]. split.
      * change (touched (1025 * 4096) 12) with [1025]. constructor; [|constructor].
        eapply (page_at_data (PG := object_pages 0)); [apply (reader_page n pos 12 1025 2)| |]; try done; set_solver.
      * destruct Hn2 as [-> | ->]; by vm_compute.
  - split; [|done|done|intros j; by eexists]. split; try done.
    + apply (vmmap_wf_stable _ _ (reader_space n pos)), UserPages.Witness.shared_wf. by left.
    + apply reader_sched.
    + change PAGE_SIZE with 4096. rewrite Ht. repeat constructor. apply reader_page; [by left|done].
    + by repeat constructor.
    + intros i Hi. apply reader_allowed; [done|]. change PAGE_SIZE with 4096 in Hi.
      assert (ADDR_TO_PN (4194304 + Z.min n 4096 - 1) = 1024) as He by (destruct Hn2 as [-> | ->]; reflexivity).
      rewrite He in Hi. change (1024 <= i <= 1024) in Hi. lia.
Qed.


(** Three bytes are left in the file; the process gets ten. *)
Lemma sys_read_discloses_witness :
  exists k' ds', sys_read (1025 * 4096) (reader 10 4997) = Ret 3 k' /\ contents k' [1%positive] ds' /\
    mem_slice 0 10 (concat ds') = [2; 2; 2] ++ mem_slice 3 7 (page_content (alloc_count (reader 10 4997))).
Proof.
  destruct (sys_read_discloses (PG := object_pages 0) alone (reader 10 4997) 1 proc1 1 0 5 (file_at 4997) 4
    VfsSys.Witness.regular text (1025 * 4096) 4997 (request 10) [1%positive] [replicate 4096 5])
    as (k' & ds' & Hrun & Hc & Hmem).
  - apply reader_asks; [set_solver|lia].
  - by vm_compute.
  - reflexivity.
  - exists k', ds'. split; [exact Hrun|]. split; [exact Hc|exact Hmem].
Defined.
End Witness.
