(* ===== verification/Kmain.v ===== *)
(** * Kmain

    [kernel/main/kmain.c]: the creation of the first two processes and the body of the idle
    process; and the part of [kernel/mm/pframe.c] that runs the pageout daemon as a
    process.  The hardware initialisation, the constructors run by [init_call_all] and the
    shutdown of the file systems are parameters ([BootCode]).  The body of the init process and the
    tests of [kmain.c] are in [KernelTests].

    [boot_spec]: the kernel starts with the two processes the process code relies on. *)

From S2P Require Import Prelude Platform State Sched Mmobj Vmmap Pframe Anon Proc Vmsys Vnode Namev VfsSys.

Class BootCode := {
  (* addresses of thread functions *)
  idleproc_run_addr : Z; initproc_run_addr : Z; pageoutd_run_addr : Z;
  (* drivers/dev.h *)
  MEM_NULL_DEVID : Z; MEM_ZERO_DEVID : Z; MKDEVID : Z -> Z -> Z;
  pt_template_init : K unit;
  init_call_all : K unit;
  intr_enable : K unit;
  vfs_shutdown : K Z;
  (* debugging output, memory, page tables and slabs; controllers and descriptor tables; devices *)
  memory_init : K unit; machine_init : K unit; device_init : K unit;
  vt_print_shutdown : K unit;
  cli_hlt : K unit;
  (* the program, and the arrays of its arguments and environment *)
  kernel_execve : string -> list (option string) -> list (option string) -> K Z;
}.

Section boot.
Context `{P : Platform, F : LoopFuel, Ops : MmobjOps, MH : MmHeaders, C : ContextCode}.
Context `{FH : FsHeaders, FO : !FsOps, DO : DevOps, FC : FileCalls, FM : FileHeaders, BC : BootCode}.

(** ** The pageout daemon *)
Definition pageoutd_init : K unit :=
  sched_queue_init PageoutdWait;;
  k ← get;
  KASSERT (bool_decide (curproc k <> None));;
  c ← the_curproc;
  cp ← deref procs c;
  KASSERT (p_pid cp =? PID_IDLE);;
  p ← proc_create "pageoutd";
  modify (fun k => k <| pageoutd := p |>);;
  KASSERT (bool_decide (p <> None));;
  t ← kthread_create p pageoutd_run_addr 0 0;
  modify (fun k => k <| pageoutd_thr := t |>);;
  KASSERT (bool_decide (t <> None));;
  thr ← nonnull t;
  sched_make_runnable thr.

Definition pageoutd_exit : K unit :=
  t ← gets pageoutd_thr;
  KASSERT (bool_decide (t <> None));;
  kthread_cancel t 0;;
  modify (fun k => k <| pageoutd_thr := None |>).

(** The loop that never ends: it is left by [kthread_exit]. *)
Fixpoint pageoutd_run (fuel : nat) : K unit :=
  match fuel with
  | O => no_fuel
  | S fuel =>
      k ← get;
      KASSERT (0 <=? nallocated k);;
      pageoutd_round loop_fuel;;
      sched_broadcast_on AllocWait;;
      r ← sched_cancellable_sleep_on PageoutdWait;
      (if r =? 0 then ret tt else kthread_exit 0);;
      pageoutd_run fuel
  end.

Fixpoint free_all_loop (l : list ptr) : K unit :=
  match l with
  | [] => ret tt
  | pf :: l =>
      p ← deref pframes pf;
      KASSERT (negb (pf_dirty p));;
      KASSERT (negb (pf_busy p));;
      KASSERT (negb (pframe_is_pinned p));;
      pframe_free pf;;
      free_all_loop l
  end.

Definition pframe_shutdown : K unit :=
  c ← the_curproc;
  cp ← deref procs c;
  KASSERT (p_pid cp =? PID_IDLE);;
  pageoutd_exit;;
  d ← gets pageoutd;
  d ← nonnull d;
  dp ← deref procs d;
  '(child, _) ← do_waitpid (-1) 0 false;
  KASSERT (p_pid dp =? child);;
  k ← get;
  KASSERT (npinned k =? 0);;
  pframe_clean_all;;
  k ← get;
  free_all_loop (alloc_list k).

(** ** The first processes *)

(** [kmain]: the allocators that [anon_init], [shadow_init], [vmmap_init] and [kthread_init] create
    are not part of the state, and GDBWAIT is 0.  [context_make_active] runs [bootstrap]. *)
Definition kmain : K unit :=
  memory_init;;
  pframe_init;;
  machine_init;;
  proc_init;;
  device_init;;
  bstack ← page_alloc;
  KASSERT (bool_decide (bstack <> None));;
  wait CtxSwitch;;
  fail KPanic.

(** [context_make_active] runs the context and does not come back. *)
Definition bootstrap : K unit :=
  pt_template_init;;
  idleProc ← proc_create "idleProc";
  idleThr ← kthread_create idleProc idleproc_run_addr 0 0;
  modify (fun k => k <| curproc := idleProc |>);;
  KASSERT (bool_decide (idleProc <> None));;
  c ← the_curproc;
  cp ← deref procs c;
  KASSERT (p_pid cp =? PID_IDLE);;
  modify (fun k => k <| curthr := idleThr |>);;
  KASSERT (bool_decide (idleThr <> None));;
  thr ← nonnull idleThr;
  _ ← deref threads thr;
  wait CtxSwitch;;
  fail KPanic.

Definition initproc_create : K (option ptr) :=
  initProc ← proc_create "initProc";
  KASSERT (bool_decide (initProc <> None));;
  i ← nonnull initProc;
  ip ← deref procs i;
  KASSERT (p_pid ip =? PID_INIT);;
  initThr ← kthread_create initProc initproc_run_addr 0 0;
  KASSERT (bool_decide (initThr <> None));;
  ret initThr.

(** The devices and directories; failures are only printed. *)
Definition make_devices (garbage : option ptr) : K unit :=
  _ ← do_mkdir (Some "/dev"%string);
  _ ← do_mknod garbage (Some "/dev/null"%string) S_IFCHR MEM_NULL_DEVID;
  _ ← do_mknod garbage (Some "/dev/zero"%string) S_IFCHR MEM_ZERO_DEVID;
  _ ← do_mknod garbage (Some "/dev/tty0"%string) S_IFCHR (MKDEVID 2 0);
  ret tt.

Definition hard_shutdown : K unit := vt_print_shutdown;; cli_hlt.

Definition idleproc_run (garbage : option ptr) : K unit :=
  t ← initproc_create;
  init_call_all;;
  root ← gets vfs_root_vn;
  c ← the_curproc;
  assign procs c (fun p => p <| p_cwd := root |>);;
  initthr ← nonnull t;
  it ← deref threads initthr;
  ip ← nonnull (kt_proc it);
  assign procs ip (fun p => p <| p_cwd := root |>);;
  vref root;;
  vref root;;
  make_devices garbage;;
  intr_enable;;
  sched_make_runnable initthr;;
  '(child, _) ← do_waitpid (-1) 0 true;
  KASSERT (child =? PID_INIT);;
  c ← the_curproc;
  cp ← deref procs c;
  vput (p_cwd cp);;
  r ← vfs_shutdown;
  (if r =? 0 then ret tt else fail KPanic);;
  pframe_shutdown;;
  hard_shutdown.
End boot.

(** ** The first processes exist *)
Section first.
Context `{PO : PlatformOk, F : LoopFuel, Ops : MmobjOps, MH : MmHeaders, C : ContextCode}.
Context `{FH : FsHeaders, FO : !FsOps, DO : DevOps, FC : FileCalls, FM : FileHeaders, BC : BootCode}.

Lemma empty_wf : tree_wf ∅ [] 0.
Proof.
  pose proof proc_max_count_pos.
  split; intros *; rewrite ?lookup_empty; try done; first [apply NoDup_nil_2|lia|by intros ?%not_elem_of_nil].
Qed.

(** A process without parent, for the idle process. *)
Definition idle_process (name : string) (pd map cwd : option ptr) (brk : Z) : proc := {|
  p_pid := PID_IDLE; p_comm := String.substring 0 PROC_NAME_LEN name; p_threads := []; p_children := [];
  p_pproc := None; p_status := 0; p_state := PROC_RUNNING; p_pagedir := pd; p_list_link := true;
  p_child_link := None; p_files := replicate NFILES None; p_cwd := cwd; p_vmmap := map;
  p_brk := brk; p_start_brk := brk |}.

Lemma create_idle k name : procs k = ∅ -> proc_list k = [] -> next_pid k = 0 -> vfs_root_vn k = None ->
  (forall n live, is_Some (slab_obj_alloc n live)) ->
  exists k' n pd map brk, proc_create name k = Ret (Some n) k' /\
    procs k' = {[ n := idle_process name pd (Some map) None brk ]} /\ proc_list k' = [n] /\
    next_pid k' = 1 mod PROC_MAX_COUNT /\ threads k' = threads k.
Proof.
  intros Hps Hl Hnext Hroot Hmem. unfold proc_create. rewrite bind_slab_alloc.
  destruct (Hmem (alloc_count k) (dom (procs k))) as [n ->]. rewrite bind_nonnull.
  set (k1 := k <| alloc_count ::= S |>). pose proof proc_max_count_pos as Hmax.
  assert (Hnone : forall pid, ~ used_pid k1 pid).
  { intros pid (p & pr & Hp & _). change (p ∈ proc_list k) in Hp. rewrite Hl in Hp. by apply not_elem_of_nil in Hp. }
  destruct (getid_fresh k1) as (pid & next & Hget & _ & _ & _ & Hfirst & ->).
  { change (tree_wf (procs k) (proc_list k) (next_pid k)). rewrite Hps, Hl, Hnext. apply empty_wf. }
  { exists 0. split; [lia|apply Hnone]. }
  rewrite (Hfirst (Hnone _)) in Hget. change (next_pid k1) with (next_pid k) in Hget. rewrite Hnext in Hget.
  rewrite (bind_ret _ _ _ _ _ Hget), bind_get. pose proof pid_idle_0 as H0. pose proof pid_init_1 as H1.
  assert (E0 : (0 =? PID_IDLE) = true) by (by rewrite H0). assert (E1 : (0 =? PID_INIT) = false) by (by rewrite H1).
  rewrite E0, E1. simpl. rewrite Hl.
  rewrite bind_KASSERT, !bind_ret_l, bind_init_obj, bind_queue_init by done.
  match goal with |- context [bind pt_create_pagedir ?f ?k] =>
    destruct (bind_pagedir k f) as (pd & k2 & -> & Hk2 & _) end.
  rewrite Hk2. clear Hk2. kstep.
  erewrite bind_ret; [|apply link_proc_run; [lookup_solve|done]]. rewrite bind_ret_l. kstep.
  match goal with |- context [bind (gets vfs_root_vn) ?f ?s] =>
    rewrite (bind_ret (gets vfs_root_vn) f s None s) by (unfold gets; f_equal; exact Hroot) end.
  kstep. rewrite bind_ret_l.
  unfold vmmap_create. rewrite bind_unfold, bind_slab_alloc.
  match goal with |- context [slab_obj_alloc ?a ?b] => destruct (Hmem a b) as [map ->] end.
  rewrite bind_init_obj. cbn [obind ret]. kstep. kstep.
  eexists _, n, pd, map, _. split; [reflexivity|]. simpl. unfold idle_process.
  rewrite Hps, !insert_insert_eq, Hl, H0. split; [reflexivity|done].
Qed.

Lemma kthread_create_run k p pr func a b : procs k !! p = Some pr ->
  (forall n live, is_Some (slab_obj_alloc n live)) ->
  exists k' t thr, kthread_create (Some p) func a b k = Ret (Some t) k' /\ threads k !! t = None /\
    threads k' = <[t := thr]> (threads k) /\ kt_proc thr = Some p /\ kt_plink thr = Some p /\
    kt_state thr = KT_NO_STATE /\ kt_cancelled thr = 0 /\ kt_wchan thr = None /\ kt_qlink thr = None /\
    procs k' = <[p := pr <| p_threads ::= fun l => l ++ [t] |>]> (procs k) /\
    proc_list k' = proc_list k /\ next_pid k' = next_pid k /\ curproc k' = curproc k /\
    proc_initproc k' = proc_initproc k /\ vfs_root_vn k' = vfs_root_vn k /\ curthr k' = curthr k /\
    queues k' = queues k /\ mmobjs k' = mmobjs k /\ vnodes k' = vnodes k.
Proof.
  intros Hp Hmem. unfold kthread_create. rewrite bind_KASSERT, bind_nonnull, bind_slab_alloc by done.
  destruct (slab_obj_alloc _ _) as [t|] eqn:Ht; [|by destruct (Hmem (alloc_count k) (dom (threads k))) as [? Hs]; rewrite Hs in Ht].
  apply slab_obj_alloc_fresh, not_elem_of_dom in Ht. rewrite bind_nonnull, bind_unfold. unfold alloc_stack.
  cbn [obind]. rewrite bind_init_obj. unfold plink_thread. rewrite bind_unfold.
  kstep. cbn [kt_plink]. rewrite (bind_assign procs _ pr) by exact Hp.
  erewrite (assign_Some threads) by (simpl; apply lookup_insert_eq). cbn [obind].
  kstep. kstep. eexists _, t, _. split; [reflexivity|]. simpl. rewrite !insert_insert_eq. by split_and!.
Qed.

(** The process [p] with identifier [pid] and parent [par] has thread [t] and no other. *)
Definition runs (k : kernel) (p : ptr) (pid : Z) (par : option ptr) (t : ptr) : Prop :=
  exists pr thr, procs k !! p = Some pr /\ p_pid pr = pid /\ p_pproc pr = par /\ p_state pr = PROC_RUNNING /\
    p_threads pr = [t] /\ threads k !! t = Some thr /\ kt_proc thr = Some p.

Lemma root_wf p pr next : p_pid pr = PID_IDLE -> p_pproc pr = None -> p_child_link pr = None ->
  p_children pr = [] -> p_list_link pr = true -> 0 <= next < PROC_MAX_COUNT -> tree_wf {[ p := pr ]} [p] next.
Proof.
  intros Hpid Hpar Hcl Hch Hll Hnext. pose proof pid_idle_0 as H0. apply tree_checked.
  split_and!; try done; try lia.
  - apply NoDup_singleton.
  - constructor; [by rewrite lookup_singleton_eq|constructor].
  - apply map_Forall_singleton, map_Forall_singleton. done.
  - apply map_Forall_singleton. unfold node_check. rewrite Hpid, Hpar, Hch, Hcl, H0. split_and!; try done; try lia.
    + by left.
    + apply NoDup_nil_2.
Qed.

Lemma bootstrap_run k : procs k = ∅ -> proc_list k = [] -> next_pid k = 0 -> vfs_root_vn k = None ->
  (forall n live, is_Some (slab_obj_alloc n live)) -> pt_template_init k = Ret tt k ->
  exists k' i t ip, bootstrap k = Wait CtxSwitch k' (fun _ => Fault KPanic) /\ proc_wf k' /\
    curproc k' = Some i /\ curthr k' = Some t /\ runs k' i PID_IDLE None t /\
    procs k' = {[ i := ip ]} /\ proc_list k' = [i] /\ next_pid k' = 1 mod PROC_MAX_COUNT /\ p_cwd ip = None.
Proof.
  intros Hps Hl Hnext Hroot Hmem Hpt. unfold bootstrap. rewrite (bind_ret _ _ _ _ _ Hpt).
  destruct (create_idle k "idleProc" Hps Hl Hnext Hroot Hmem) as (k1 & i & pd & map & brk & Hrun & Hps1 & Hl1 & Hn1 & Ht1).
  rewrite (bind_ret _ _ _ _ _ Hrun). set (ip := idle_process _ _ _ _ _) in Hps1.
  destruct (kthread_create_run k1 i ip idleproc_run_addr 0 0) as
    (k2 & t & thr & Hrun2 & Ht & Hth2 & Hkp & Hkl & _ & _ & _ & _ & Hps2 & Hl2 & Hn2 & _); [by rewrite Hps1, lookup_singleton_eq|done|].
  rewrite (bind_ret _ _ _ _ _ Hrun2), bind_modify, bind_KASSERT by done.
  rewrite Hps1, insert_singleton_eq in Hps2. set (ip2 := ip <| p_threads ::= _ |>) in Hps2.
  erewrite bind_curproc by reflexivity.
  rewrite (bind_deref procs _ ip2) by (simpl; by rewrite Hps2, lookup_singleton_eq).
  rewrite bind_KASSERT, bind_modify, bind_KASSERT, bind_nonnull by (try apply Z.eqb_refl; done).
  rewrite (bind_deref threads _ thr) by (simpl; by rewrite Hth2, lookup_insert_eq).
  eexists _, i, t, ip2. split; [reflexivity|]. unfold proc_wf, runs. simpl. rewrite Hps2, Hl2, Hl1, Hn2, Hn1, Hth2.
  split_and!; try done.
  - apply root_wf; try done. apply Z.mod_pos_bound. pose proof proc_max_count_pos. lia.
  - exists ip2, thr. by rewrite lookup_singleton_eq, lookup_insert_eq.
Qed.

(** The idle process makes the init process, which gets identifier 1. *)
Lemma initproc_create_run k i ip t : 1 < PROC_MAX_COUNT -> proc_wf k -> curproc k = Some i ->
  procs k = {[ i := ip ]} -> p_pid ip = PID_IDLE -> proc_list k = [i] -> next_pid k = 1 -> p_cwd ip = None ->
  threads k !! t <> None -> (forall n live, is_Some (slab_obj_alloc n live)) ->
  exists k' n u, initproc_create k = Ret (Some u) k' /\ proc_wf k' /\ proc_initproc k' = Some n /\
    runs k' n PID_INIT (Some i) u /\ curproc k' = Some i /\ u <> t /\
    procs k' !! i = Some (ip <| p_children ::= fun l => l ++ [n] |>).
Proof.
  intros Hmax Hwf Hc Hps Hpid Hl Hnext Hcwd Ht Hmem. pose proof pid_idle_0 as H0. pose proof pid_init_1 as H1.
  assert (Hip : procs k !! i = Some ip) by (by rewrite Hps, lookup_singleton_eq).
  assert (Hidle : used_pid k PID_IDLE).
  { exists i, ip. rewrite Hl. split; [by left|done]. }
  assert (Hone : ~ used_pid k 1).
  { intros (p & pr & Hp & Hpr & Hpp). rewrite Hl in Hp. apply list_elem_of_singleton in Hp as ->. simplify_eq. lia. }
  destruct (proc_create_run k "initProc" i ip) as
    (k1 & n & pid & pd & map & brk & Hrun & Hwf1 & Hn & _ & Hn1 & Hi1 & _ & _ & _ & Hini & Hfirst & Hth & Hcu & _);
    [done..|exists 1; split; [lia|done]|done|by right|by rewrite Hcwd|].
  rewrite Hnext in Hfirst. rewrite (Hfirst Hone) in *. rewrite H1, Z.eqb_refl in Hini.
  assert (Hni : i <> n) by congruence.
  destruct (kthread_create_run k1 n _ initproc_run_addr 0 0 Hn1 Hmem) as
    (k2 & u & thr & Hrun2 & Hu & Hth2 & Hkp & _ & _ & _ & _ & _ & Hps2 & Hl2 & Hn2 & Hcu2 & Hini2 & _).
  exists k2, n, u. split_and!.
  - unfold initproc_create. rewrite (bind_ret _ _ _ _ _ Hrun), bind_KASSERT, bind_nonnull by done.
    rewrite (bind_deref procs _ _ _ _ Hn1), bind_KASSERT by (simpl; by rewrite H1).
    rewrite (bind_ret _ _ _ _ _ Hrun2), bind_KASSERT by done. done.
  - unfold proc_wf in *. rewrite Hps2, Hl2, Hn2. by eapply tree_update.
  - congruence.
  - eexists _, thr. rewrite Hps2, Hth2, !lookup_insert_eq. split; [done|]. simpl. by rewrite H1.
  - congruence.
  - intros ->. rewrite Hth in Hu. congruence.
  - by rewrite Hps2, lookup_insert_ne.
Qed.
End first.

(** ** Properties *)
Section properties.
Context `{PO : PlatformOk, F : LoopFuel, Ops : MmobjOps, MH : MmHeaders, C : ContextCode}.
Context `{FH : FsHeaders, FO : !FsOps, DO : DevOps, FC : FileCalls, FM : FileHeaders, BC : BootCode}.

(** C28: The kernel starts.  From the state in which there is no process, [bootstrap] switches to
    the thread of the idle process, which has identifier 0 and no parent; when that thread
    creates the init process, no assertion fails and the init process gets identifier 1, the
    idle process as parent and a thread of its own.  The invariant of the process tree holds
    from the first switch on. *)
Theorem boot_spec k : 1 < PROC_MAX_COUNT ->
  procs k = ∅ -> proc_list k = [] -> next_pid k = 0 -> vfs_root_vn k = None ->
  (forall n live, is_Some (slab_obj_alloc n live)) -> pt_template_init k = Ret tt k ->
  exists k1 i t k2 n u,
    bootstrap k = Wait CtxSwitch k1 (fun _ => Fault KPanic) /\ proc_wf k1 /\
    curproc k1 = Some i /\ curthr k1 = Some t /\ runs k1 i PID_IDLE None t /\
    initproc_create k1 = Ret (Some u) k2 /\ proc_wf k2 /\
    proc_initproc k2 = Some n /\ runs k2 n PID_INIT (Some i) u /\ curproc k2 = Some i /\ u <> t.
Proof.
  intros Hmax Hps Hl Hnext Hroot Hmem Hpt.
  destruct (bootstrap_run k) as (k1 & i & t & ip & Hrun & Hwf & Hc & Ht & Hr & Hps1 & Hl1 & Hn1 & Hcwd); [done..|].
  pose proof Hr as (ip' & thr & Hip & Hpid & _ & _ & _ & Hthr & _).
  rewrite Hps1, lookup_singleton_eq in Hip. injection Hip as <-. rewrite Z.mod_small in Hn1 by lia.
  destruct (initproc_create_run k1 i ip t) as (k2 & n & u & Hrun2 & Hwf2 & Hini & Hr2 & Hc2 & Hne & _);
    [done..|congruence|done|].
  exists k1, i, t, k2, n, u. by split_and!.
Qed.
End properties.

(** ** The property at a concrete state *)
Module Witness.
Import Vnode.Witness.
#[local] Instance fuel : LoopFuel := 10%nat.
#[local] Instance no_files : FileCalls := {| fget _ := ret None; fput _ := ret tt; fref _ := ret tt |}.
#[local] Instance any_context : ContextCode := {|
  DEFAULT_STACK_SIZE := 4096; context_setup _ _ _ _ _ _ := no_context |}.
#[local] Instance boot_code : BootCode := {|
  idleproc_run_addr := 1; initproc_run_addr := 2; pageoutd_run_addr := 3;
  MEM_NULL_DEVID := 1; MEM_ZERO_DEVID := 2; MKDEVID a b := 256 * a + b;
  pt_template_init := ret tt; init_call_all := ret tt; intr_enable := ret tt; vfs_shutdown := ret 0;
  memory_init := ret tt; machine_init := ret tt; device_init := ret tt; vt_print_shutdown := ret tt;
  cli_hlt := ret tt; kernel_execve _ _ _ := ret 0 |}.
#[local] Instance no_objects : MmobjOps := mm_ops 1.

Lemma boot_spec_witness :
  exists k1 rest u k2, bootstrap boot = Wait CtxSwitch k1 rest /\ initproc_create k1 = Ret (Some u) k2 /\
    proc_wf k2.
Proof.
  destruct (boot_spec boot) as (k1 & i & t & k2 & n & u & Hb & _ & _ & _ & _ & Hi & Hwf & _).
  - by vm_compute.
  - reflexivity.
  - reflexivity.
  - reflexivity.
  - reflexivity.
  - intros m live. by eexists.
  - reflexivity.
  - exists k1, (fun _ => Fault KPanic), u, k2. split; [exact Hb|]. split; [exact Hi|exact Hwf].
Defined.
End Witness.
