(* ===== verification/KernelTests.v ===== *)
(** * KernelTests

    [kernel/main/kmain.c]: the body of the init process and the tests that it offers in the kernel
    shell.

    A test that prints a verdict returns the verdicts it prints, in order.  The addresses of thread
    functions, the kernel shell, the tests of other files and the constants of [fs/fcntl.h] are
    parameters ([TestCode]).  The globals [proc_1], [proc_4] and [thr_4] are used within one
    function each and are local here, as is [vfs_root_dir].

    [start_procs_spec]: the processes that a test starts are scheduled in the order of creation. *)

From Stdlib Require Import Ascii String.
From S2P Require Import Prelude Platform State Sched Mmobj Vmmap Pframe Anon Proc Vmsys UserMem Fork Vnode Namev VfsSys Syscall Kmain.

(** The banners of a test. *)
Inductive verdict := TestPassed | TestFailed.

(** The value of [test] in [initproc_run]. *)
Inductive init_program := SEGFAULT | HELLO | VFSTEST | UNAME | ARGS | INIT | FORKANDWAIT | KSHELL.

Class TestCode := {
  addr_of : string -> Z;
  O_RDONLY : Z; O_WRONLY : Z; O_RDWR : Z;
  (* a command of the shell: its name and what it runs *)
  kshell_add_command : string -> K unit -> K unit;
  sunghan_test : K unit; sunghan_deadlock_test : K unit; testproc : K unit;
  vfstest_main : Z -> K Z;
}.

Section tests.
Context `{P : Platform, F : LoopFuel, Ops : MmobjOps, MH : MmHeaders, V : VfsCalls, C : ContextCode}.
Context `{FH : FsHeaders, FO : !FsOps, DO : DevOps, FC : FileCalls, FM : FileHeaders, BC : BootCode}.
Context `{FA : ForkArch, SH : !SyscallHeaders, SC : !SyscallCalls, TC : TestCode}.
Context (vn_mmap : ptr -> ptr -> K (Z * option ptr)).

(** [sched_make_runnable(curthr); sched_switch();] *)
Definition yield : K unit :=
  c ← gets curthr;
  cur ← nonnull c;
  sched_make_runnable cur;;
  sched_switch.

(** What a thread function does that only prints [curproc->p_pid]. *)
Definition say_pid : K unit := c ← the_curproc; _ ← deref procs c; ret tt.

(** ** Address spaces *)
Definition vmtest_map_destory : K Z :=
  m ← vmmap_create;
  KASSERT (bool_decide (m <> None));;
  newMap ← nonnull m;
  '(r, _) ← vmmap_map vn_mmap newMap None 0 1 7 2 0 2;
  if r <? 0 then ret r
  else
    vmmap_destroy newMap;;
    ret 0.

(** ** Files *)
Definition chars (s : string) : list Z := take (String.length s) (string_bytes s).

Definition VM_STR : string := "Line-1 in the file for VM test  Line-2 in the file for VM test".

Definition vmtest_link_unlink : K Z :=
  let len := Z.of_nat (String.length VM_STR) in
  fd1 ← do_open (Some "test_file_1"%string) (Z.lor O_RDWR O_CREAT);
  _ ← do_link (Some "test_file_1"%string) (Some "test_file_2"%string);
  _ ← do_write fd1 (chars VM_STR);
  r ← do_close fd1;
  if r <? 0 then ret r
  else
    fd2 ← do_open (Some "test_file_2"%string) O_RDWR;
    '(r, _) ← do_read fd2 len;
    if negb (uint32 r =? len) then ret (-1)
    else
      r ← do_close fd2;
      if r <? 0 then ret r
      else
        r ← do_unlink (Some "test_file_2"%string);
        if r <? 0 then ret r
        else
          fd2 ← do_open (Some "test_file_2"%string) O_RDWR;
          if 0 <? fd2 then ret (-1) else ret r.

Definition vfstest_main_2 : K Z := _ ← vfstest_main 1; ret 0.

Definition test_open : K (list verdict) :=
  fd1 ← do_open (Some "/file1"%string) 0x3;
  ret [if fd1 <? 0 then TestPassed else TestFailed].

(** A failure that is reported, or none. *)
Definition failed_if (b : bool) : list verdict := if b then [TestFailed] else [].

Definition test_write : K (list verdict) :=
  let vfs_root_dir := "vfstest_dir"%string in
  _ ← do_mkdir (Some vfs_root_dir);
  '(retval, _) ← do_read (-10) 9;
  let v1 := failed_if (retval =? 0) in
  fd ← do_open (Some "/vfstest_dir/read"%string) (Z.lor O_CREAT O_WRONLY);
  _ ← do_close fd;
  fd ← do_open (Some "/vfstest_dir/read"%string) O_RDWR;
  retval ← do_write fd (chars "write_test");
  let v2 := failed_if (retval =? 0) in
  _ ← do_close fd;
  _ ← do_rmdir (Some vfs_root_dir);
  ret (v1 ++ v2 ++ [TestPassed]).

Definition test_rename : K (list verdict) :=
  let vfs_root_dir := "/vfstest_dir"%string in
  _ ← do_mkdir (Some vfs_root_dir);
  _ ← do_chdir (Some "/vfstest_dir"%string);
  fd ← do_open (Some "/abc"%string) O_CREAT;
  _ ← do_rename (Some "/abc"%string) (Some "/ABC"%string);
  _ ← do_chdir (Some "/"%string);
  _ ← do_rmdir (Some vfs_root_dir);
  ret [TestPassed].

Definition test_dup : K (list verdict) :=
  fd1 ← do_dup 50;
  let v1 := failed_if (0 <=? fd1) in
  fd1 ← do_dup (-5);
  let v2 := failed_if (0 <=? fd1) in
  fd2 ← do_open (Some "/file1"%string) (Z.lor O_RDONLY O_CREAT);
  fd1 ← do_dup (fd2 + 1);
  let v3 := failed_if (0 <=? fd1) in
  _ ← do_close fd2;
  ret (v1 ++ v2 ++ v3 ++ [TestPassed]).

Definition test_mkdir_rmdir : K (list verdict) :=
  _ ← do_mkdir (Some "/a"%string);
  _ ← do_mkdir (Some "/a/b"%string);
  _ ← do_rmdir (Some "/a/b"%string);
  _ ← do_rmdir (Some "/a"%string);
  ret [TestPassed].

Definition test_mknod (garbage : option ptr) : K (list verdict) :=
  fd1 ← do_open (Some "/file1"%string) (Z.lor O_RDONLY O_CREAT);
  fd2 ← do_mknod garbage (Some "/file1"%string) S_IFCHR MEM_NULL_DEVID;
  let v := failed_if (0 <=? fd2) in
  _ ← do_close fd1;
  ret (v ++ [TestPassed]).

(** ** Processes *)

(** What is copied to [*ppt] unless it is NULL. *)
Definition start_proc (name : string) (f arg1 : Z) : K (option ptr * option ptr) :=
  p ← proc_create name;
  t ← kthread_create p f arg1 0;
  KASSERT (bool_decide (p <> None) && bool_decide (t <> None));;
  thr ← nonnull t;
  sched_make_runnable thr;;
  ret (p, t).

Definition normalTest : K unit := say_pid.

(** The loop of [createProcessAndThreads]. *)
Fixpoint start_procs (n : nat) (name : string) (f arg1 : Z) : K unit :=
  match n with
  | O => ret tt
  | S n => _ ← start_proc name f arg1; start_procs n name f arg1
  end.

Definition createProcessAndThreads : K unit :=
  start_procs 10 "normal test" (addr_of "normalTest") 0;;
  yield.

(** The thread yields five times and exits; in the init process it would never be resumed. *)
Fixpoint increment (fuel : nat) (arg1 : Z) : K unit :=
  match fuel with
  | O => no_fuel
  | S fuel =>
      let arg1 := arg1 + 1 in
      (if 5 <? arg1 then do_exit 1 else ret tt);;
      yield;;
      c ← the_curproc;
      p ← deref procs c;
      (if p_pid p =? 1 then sched_switch else ret tt);;
      increment fuel arg1
  end.

(** A process whose thread is runnable, without assertions. *)
Definition run_thread (name : string) (f arg1 : Z) : K unit :=
  p ← proc_create name;
  t ← kthread_create p f arg1 0;
  thr ← nonnull t;
  sched_make_runnable thr.

Definition testKillAllWhenRunning : K unit :=
  let count := 0 in
  run_thread "p1" (addr_of "increment") count;;
  run_thread "p1" (addr_of "increment") count;;
  run_thread "p1" (addr_of "increment") count;;
  yield;;
  proc_kill_all.

(** A process that is neither the idle nor the init process, with a runnable thread. *)
Definition spawn (name : string) (f : Z) : K ptr :=
  p ← proc_create name;
  KASSERT (bool_decide (p <> None));;
  q ← nonnull p;
  pr ← deref procs q;
  KASSERT (negb (p_pid pr =? PID_IDLE) && negb (p_pid pr =? PID_INIT));;
  t ← kthread_create p f 0 0;
  KASSERT (bool_decide (t <> None));;
  thr ← nonnull t;
  sched_make_runnable thr;;
  ret q.

Definition p1_run : K unit := say_pid.
Definition p2_run : K unit := say_pid.
Definition p3_run : K unit := say_pid.

Definition test1 : K unit :=
  _ ← spawn "proc_1" (addr_of "p1_run");
  _ ← spawn "proc_2" (addr_of "p2_run");
  _ ← spawn "proc_3" (addr_of "p3_run");
  yield;;
  proc_kill_all.

Definition proc_1_run : K unit := say_pid;; _ ← spawn "proc_4" (addr_of "proc_4_run"); ret tt.
Definition proc_2_run : K unit := say_pid.
Definition proc_3_run : K unit := say_pid.
Definition proc_4_run : K unit := say_pid.

(** The results of the five calls to [do_waitpid]. *)
Definition test2 : K (list Z) :=
  _ ← spawn "proc_1" (addr_of "proc_1_run");
  proc_2 ← spawn "proc_2" (addr_of "proc_2_run");
  _ ← spawn "proc_3" (addr_of "proc_3_run");
  '(c1, _) ← do_waitpid (-1) 0 true;
  p2 ← deref procs proc_2;
  '(c2, _) ← do_waitpid (p_pid p2) 0 true;
  '(c3, _) ← do_waitpid 24 0 true;
  '(c4, _) ← do_waitpid (-1) 0 true;
  '(c5, _) ← do_waitpid (-1) 0 true;
  ret [c1; c2; c3; c4; c5].

Definition switching_run : K unit := say_pid;; yield;; say_pid.
Definition proc1_run : K unit := switching_run.
Definition proc2_run : K unit := switching_run.
Definition proc3_run : K unit := switching_run.

(** [while (child != -10) child = do_waitpid(-1, 0, &status);]: the processes that are reported. *)
Fixpoint wait_all (fuel : nat) : K (list Z) :=
  match fuel with
  | O => no_fuel
  | S fuel =>
      '(child, _) ← do_waitpid (-1) 0 true;
      if child =? -10 then ret []
      else rest ← wait_all fuel; ret (child :: rest)
  end.

Definition test3 : K (list Z) :=
  _ ← spawn "proc_1" (addr_of "proc1_run");
  _ ← spawn "proc_2" (addr_of "proc2_run");
  _ ← spawn "proc_3" (addr_of "proc3_run");
  wait_all loop_fuel.

(** ** The init process *)
Definition printing {A} (m : K A) : K unit := _ ← m; ret tt.

(** The commands of the kernel shell. *)
Definition add_commands (garbage : option ptr) : K unit :=
  kshell_add_command "sunghan_test" sunghan_test;;
  kshell_add_command "sunghan_deadlock" sunghan_deadlock_test;;
  kshell_add_command "testproc" testproc;;
  kshell_add_command "ProcessAndThreads" createProcessAndThreads;;
  kshell_add_command "proc_kill_all" test1;;
  kshell_add_command "do_waitpid_test" (printing test2);;
  kshell_add_command "killAllWhenRunning" testKillAllWhenRunning;;
  kshell_add_command "sched_switch" (printing test3);;
  kshell_add_command "test_open" (printing test_open);;
  kshell_add_command "test_write" (printing test_write);;
  kshell_add_command "test_dup" (printing test_dup);;
  kshell_add_command "test_mkdir_rmdir" (printing test_mkdir_rmdir);;
  kshell_add_command "test_rename" (printing test_rename);;
  kshell_add_command "test_mknod" (printing (test_mknod garbage));;
  kshell_add_command "vfstest" (printing vfstest_main_2);;
  kshell_add_command "vm_test_1" (printing vmtest_link_unlink);;
  kshell_add_command "vm_test_2" (printing vmtest_map_destory).

(** [while (kshell_execute_next(kshell));] *)
Fixpoint shell_loop (fuel : nat) (sh : ptr) : K unit :=
  match fuel with
  | O => no_fuel
  | S fuel => r ← kshell_execute_next sh; if r =? 0 then ret tt else shell_loop fuel sh
  end.

(** The arrays are passed as they are: [argv1] has no NULL at its end. *)
Definition run_program (test : init_program) (garbage : option ptr) : K unit :=
  let argv := [None] in
  let envp := [None] in
  let argv1 := [Some "abc"; Some "def"; Some "ghi"]%string in
  match test with
  | SEGFAULT => printing (kernel_execve "/usr/bin/segfault" argv envp)
  | HELLO => printing (kernel_execve "/usr/bin/hello" argv envp)
  | VFSTEST => printing (kernel_execve "/usr/bin/vfstest" argv envp)
  | UNAME => printing (kernel_execve "/bin/uname" argv envp)
  | ARGS => printing (kernel_execve "/usr/bin/args" argv1 envp)
  | INIT => printing (kernel_execve "/sbin/init" argv envp)
  | FORKANDWAIT => printing (kernel_execve "/usr/bin/fork-and-wait" argv envp)
  | KSHELL =>
      add_commands garbage;;
      s ← kshell_create 0;
      match s with
      | None => fail KPanic
      | Some kshell => shell_loop loop_fuel kshell;; kshell_destroy kshell
      end
  end.

Definition initproc_run (garbage : option ptr) : K unit := run_program INIT garbage.
End tests.

(** ** An address space that is made, mapped and destroyed *)
Section address_space.
Context `{PO : PlatformOk, F : LoopFuel, MHO : MmHeadersOk, VM : VnodeMm}.
Context (vn_mmap : ptr -> ptr -> K (Z * option ptr)).

(** The only area of a private anonymous mapping, its anonymous object and its shadow object. *)
Definition mapped_area (map s o : ptr) (start npages off prot flags : Z) : vmarea := {|
  vma_start := start; vma_end := uint32 (start + npages); vma_off := ADDR_TO_PN (uint32 off); vma_prot := prot;
  vma_flags := flags; vma_vmmap := Some map; vma_obj := Some s; vma_plink := Some map; vma_olink := Some o |}.
Definition bottom_object (a : ptr) : mmobj := new_mmobj anon_mmobj_ops (MmoVmas [a]).
Definition top_object (o : ptr) : mmobj := (new_mmobj shadow_mmobj_ops (MmoBottom (Some o))) <| mmo_shadowed := Some o |>.

(** A state that differs in the structures of address spaces. *)
Definition spaces (k : kernel) (n : nat) (ms : gmap ptr vmmap) (vas : gmap ptr vmarea) (obs : gmap ptr mmobj) : kernel :=
  k <| alloc_count := n |> <| vmmaps := ms |> <| vmareas := vas |> <| mmobjs := obs |>.
#[local] Arguments spaces /.

Definition mapped (k : kernel) (map a s o : ptr) (v : vmarea) : kernel :=
  spaces k (S (S (S (alloc_count k)))) (<[map := {| vmm_list := [a]; vmm_proc := None |}]> (vmmaps k))
    (<[a := v]> (vmareas k)) (<[s := top_object o]> (<[o := bottom_object a]> (mmobjs k))).

(** Writes the state of the call that runs as [spaces k ...]. *)
Ltac tidy k :=
  match goal with |- context [bind _ _ ?s] =>
    let n := eval cbn in (alloc_count s) in let ms := eval cbn in (vmmaps s) in
    let vas := eval cbn in (vmareas s) in let obs := eval cbn in (mmobjs s) in
    change s with (spaces k n ms vas obs) end;
  rewrite ?insert_insert_eq.
Ltac tstep k := kstep; tidy k.
Ltac member f x := match goal with |- context [f ?v] => change (f v) with x end; cbn iota.

Lemma anon_object_run k a o : slab_obj_alloc (alloc_count k) (dom (mmobjs k)) = Some o ->
  map_object vn_mmap None a k = Ret (0, Some o) (k <| alloc_count ::= S |>
    <| mmobjs := <[o := new_mmobj anon_mmobj_ops (MmoVmas [])]> (mmobjs k) |>).
Proof. intros Ho. unfold map_object, anon_create, slab_alloc, init_obj, modify, bind. simpl. by rewrite Ho. Qed.

Lemma shadow_object_run k s : slab_obj_alloc (alloc_count k) (dom (mmobjs k)) = Some s ->
  shadow_create k = Ret (Some s) (k <| alloc_count ::= S |>
    <| mmobjs := <[s := new_mmobj shadow_mmobj_ops (MmoBottom None)]> (mmobjs k) |>).
Proof. intros Hs. by rewrite shadow_create_run, Hs. Qed.

Lemma map_private_run n k map npages prot flags off dir start :
  vmmaps k !! map = Some {| vmm_list := []; vmm_proc := None |} ->
  (forall n live, is_Some (slab_obj_alloc n live)) -> 0 < npages ->
  Z.land (Z.lnot (Z.lor (Z.lor (Z.lor PROT_NONE PROT_READ) PROT_WRITE) PROT_EXEC)) prot = 0 ->
  is_private flags = true -> PAGE_ALIGNED off = true ->
  vmmap_find_range map npages dir k = Ret start k -> user_lo <= start -> start + npages <= user_hi ->
  exists a s o, vmareas k !! a = None /\ mmobjs k !! o = None /\ mmobjs k !! s = None /\ s <> o /\
    vmmap_map (O := mm_ops (S n)) vn_mmap map None 0 npages prot flags off dir k =
      Ret (start, Some a) (mapped k map a s o (mapped_area map s o start npages off prot flags)).
Proof.
  intros Hmap Hmem Hn Hprot Hpriv Hoff Hfind Hlo Hhi. pose proof map_shared_private as (_ & _ & Hpos).
  assert (Hflag : (Z.land MAP_PRIVATE flags =? 0) = false).
  { unfold is_private in Hpriv. to_prop. rewrite Z.land_comm. apply Z.eqb_neq. lia. }
  assert (Hul : 0 < user_lo) by apply user_mem_low_pos. pose proof user_pages as Hup.
  destruct (Hmem (alloc_count k) (dom (vmareas k))) as [a Ha].
  destruct (Hmem (S (alloc_count k)) (dom (mmobjs k))) as [o Ho].
  destruct (Hmem (S (S (alloc_count k))) (dom (<[o := new_mmobj anon_mmobj_ops (MmoVmas [])]> (mmobjs k)))) as [s Hs].
  pose proof Ha as Hfa%slab_obj_alloc_fresh%not_elem_of_dom. pose proof Ho as Hfo%slab_obj_alloc_fresh%not_elem_of_dom.
  pose proof Hs as [Hfs Hne]%slab_obj_alloc_fresh%not_elem_of_dom%lookup_insert_None.
  exists a, s, o. split_and!; [done..|].
  unfold vmmap_map. rewrite (bind_deref vmmaps _ _ _ _ Hmap).
  rewrite !bind_KASSERT by (rewrite ?Hprot, ?Hflag, ?Hoff, ?orb_true_r; try (by apply Z.ltb_lt); done).
  unfold map_start. cbn [negb Z.eqb]. rewrite (bind_ret _ _ _ _ _ Hfind).
  replace (start <? 0) with false by (symmetry; apply Z.ltb_ge; lia).
  rewrite bind_unfold, vmarea_alloc_run, Ha. cbn [obind]. tstep k.
  erewrite bind_ret by (apply anon_object_run; exact Ho). cbn [Z.ltb Z.compare]. rewrite bind_nonnull. tidy k. kstep.
  cbn [mmo_refcount new_mmobj Z.eqb]. rewrite bind_ret_l. unfold map_attach. rewrite Hpriv.
  rewrite bind_unfold. erewrite bind_ret by (apply shadow_object_run; exact Hs). cbn beta iota. tidy k. do 3 tstep k.
  unfold olink_insert_tail. rewrite bind_unfold. do 2 kstep. cbn [mmo_vmas mmo_un new_mmobj]. kstep.
  member vma_olink (@None ptr). kstep.
  erewrite assign_Some by lookup_solve. cbn [obind ret]. tidy k.
  unfold vmmap_insert. rewrite bind_unfold. do 2 kstep. match goal with |- context [<[a := ?v]> _] => change v with
    ((mapped_area map s o start npages off prot flags) <| vma_vmmap := None |> <| vma_plink := None |>) end.
  assert (Hend : uint32 (start + npages) = start + npages) by (apply uint32_small; lia).
  rewrite !bind_KASSERT; [|simpl; rewrite ?Hend, ?andb_true_iff, ?Z.leb_le, ?Z.ltb_lt; unfold user_lo, user_hi in *; try lia; done..].
  tstep k. cbn [vmm_list insert_position]. rewrite bind_ret_l. unfold plink_insert. kstep.
  member vma_plink (@None ptr). kstep. erewrite assign_Some by lookup_solve. cbn [obind ret]. f_equal. unfold mapped. kernel_ext.
  - by rewrite insert_insert_eq.
  - rewrite insert_insert_ne, insert_insert_eq by done. done.
Qed.

(** The last reference to an object without pages. *)
Lemma put_bare n k o ob : mmobjs k !! o = Some ob -> anon_or_shadow ob -> mmo_refcount ob = 1 ->
  mmo_nrespages ob = 0 -> mmo_respages ob = [] ->
  put (S n) o k = (match mmo_shadowed ob with Some s => put n s | None => ret tt end;; slab_free mmobjs o)
    (k <| mmobjs := <[o := ob <| mmo_refcount ::= Z.pred |>]> (mmobjs k) |>).
Proof.
  intros Hob Hops Hr Hn Hres. rewrite (put_unfold n o k ob) by done. unfold put_body.
  rewrite (bind_deref mmobjs _ _ _ _ Hob), bind_KASSERT by (rewrite Hr; by apply bool_decide_eq_true).
  rewrite (bind_assign mmobjs _ _ _ _ _ Hob). cbv zeta. rewrite Hr, Hn, Hres. change (1 - 1) with 0.
  cbn [length uncache_loop Z.eqb]. erewrite bind_ret.
  2: { kstep. member mmo_respages (mmo_respages ob). rewrite Hres. reflexivity. }
  cbn [andb]. by kstep.
Qed.

Lemma destroy_private_run n k map a s o start npages off prot flags :
  vmmaps k !! map = Some {| vmm_list := []; vmm_proc := None |} -> is_private flags = true ->
  vmareas k !! a = None -> mmobjs k !! o = None -> mmobjs k !! s = None -> s <> o ->
  vmmap_destroy (O := mm_ops (S (S n))) map (mapped k map a s o (mapped_area map s o start npages off prot flags)) =
    Ret tt (spaces k (S (S (S (alloc_count k)))) (delete map (vmmaps k)) (vmareas k) (mmobjs k)).
Proof.
  intros Hmap Hpriv Ha Ho Hs Hne. unfold mapped, vmmap_destroy. kstep. cbn [vmm_list destroy_loop].
  rewrite bind_unfold. unfold plink_remove. rewrite bind_unfold. kstep. cbn [mapped_area vma_plink]. kstep.
  erewrite assign_Some by lookup_solve. cbn [obind]. tidy k. kstep. member vma_flags flags. rewrite Hpriv.
  unfold olink_remove. rewrite bind_unfold. kstep. member vma_olink (Some o). kstep. member mmo_vmas (Some [a]). kstep. kstep.
  erewrite assign_Some by lookup_solve. cbn [obind]. tidy k.
  unfold put_obj. rewrite bind_unfold. kstep. member vma_obj (Some s).
  change (mmo_put s) with (put (S (S n)) s). erewrite (put_bare (S n)); [|lookup_solve|by right|done..].
  member mmo_shadowed (Some o). rewrite bind_unfold.
  erewrite (put_bare n _ o); [|lookup_solve|by left|done..]. member mmo_shadowed (@None ptr).
  rewrite bind_ret_l. erewrite slab_free_Some by lookup_solve. cbn [obind].
  erewrite slab_free_Some by (simpl; rewrite lookup_delete_ne by done; lookup_solve). cbn [obind].
  unfold vmarea_free. erewrite bind_slab_free by lookup_solve. cbn [obind ret].
  erewrite slab_free_Some by lookup_solve. f_equal. kernel_ext.
  - by rewrite delete_insert_eq.
  - rewrite delete_insert_eq. by apply delete_id.
  - apply map_eq. intros i. destruct (decide (i = s)) as [->|Hs']; [by rewrite lookup_delete_eq|].
    rewrite lookup_delete_ne by done. destruct (decide (i = o)) as [->|Ho']; [by rewrite lookup_delete_eq|].
    by rewrite lookup_delete_ne, !lookup_insert_ne by done.
Qed.

(** The highest page of user memory is free in a new address space. *)
Lemma find_in_empty k map : vmmaps k !! map = Some {| vmm_list := []; vmm_proc := None |} ->
  exists start, vmmap_find_range map 1 VMMAP_DIR_HILO k = Ret start k /\ user_lo <= start /\ start + 1 <= user_hi.
Proof.
  intros Hmap. pose proof user_pages as Hup. unfold vmmap_find_range. rewrite (bind_deref vmmaps _ _ _ _ Hmap).
  rewrite bind_KASSERT, Z.eqb_refl by done.
  destruct (Z.eqb_spec VMMAP_DIR_HILO VMMAP_DIR_LOHI) as [Heq|_]; [by destruct vmmap_dirs|]. cbn [vmm_list].
  unfold find_hilo. cbn [last]. fold user_hi. exists (user_hi - 1). rewrite int32_small by lia. split; [done|lia].
Qed.
End address_space.

(** ** Starting processes *)
Section starting.
Context `{PO : PlatformOk, F : LoopFuel, MH : MmHeaders, Ops : MmobjOps, V : VfsCalls, VO : !VfsOk V, C : ContextCode}.
Implicit Types (k : kernel) (c : ptr).

Lemma omap_short {A B} (f : A -> option B) (l : list A) : (length (omap f l) <= length l)%nat.
Proof. induction l as [|x l IH]; [done|]. csimpl. destruct (f x); csimpl; lia. Qed.

(** While there are fewer processes than identifiers, one is free. *)
Lemma free_pid k : Z.of_nat (length (proc_list k)) < PROC_MAX_COUNT ->
  exists pid, 0 <= pid < PROC_MAX_COUNT /\ ~ used_pid k pid.
Proof.
  intros Hlen. pose proof proc_max_count_pos. set (pids := omap (fun p => p_pid <$> procs k !! p) (proc_list k)).
  assert (Hused : forall pid, used_pid k pid -> pid ∈ pids).
  { intros pid (p & pr & Hp & Hpr & <-). apply list_elem_of_omap. exists p. by rewrite Hpr. }
  destruct (decide (Forall (fun pid => pid ∈ pids) (seqZ 0 PROC_MAX_COUNT))) as [Hall|Hno].
  - exfalso. assert (Hsub : seqZ 0 PROC_MAX_COUNT ⊆+ pids).
    { apply NoDup_submseteq; [apply NoDup_seqZ|]. intros pid Hpid. rewrite Forall_forall in Hall. by apply Hall. }
    apply submseteq_length in Hsub. rewrite length_seqZ in Hsub. 
    assert (length pids <= length (proc_list k))%nat by apply omap_short. lia.
  - apply not_Forall_Exists in Hno; [|apply _]. apply Exists_exists in Hno as (pid & Hin & Hnot).
    apply elem_of_seqZ in Hin. exists pid. split; [lia|]. intros Hu. by apply Hnot, Hused.
Qed.

(** What starting a process needs: the current process [c], the idle and the init process, room for
    [n] more, and nobody waiting for a process that does not exist. *)
Record can_start (k : kernel) (c : ptr) (cp : proc) (n : nat) : Prop := {
  cs_procs : proc_wf k;
  cs_sched : sched_wf k;
  cs_cur : curproc k = Some c;
  cs_proc : procs k !! c = Some cp;
  cs_idle : used_pid k PID_IDLE;
  cs_init : used_pid k PID_INIT \/ p_pid cp = PID_IDLE;
  cs_cwd vn : p_cwd cp = Some vn -> vnode_active k vn;
  cs_waits p : procs k !! p = None -> tq_list (queue k (ProcWait p)) = [];
  cs_room : Z.of_nat (length (proc_list k) + n) <= PROC_MAX_COUNT;
}.

(** Process [p], a child of [c], has the one thread [t]; both are new with respect to [k]. *)
Record started (k k' : kernel) (c p t : ptr) : Prop := {
  st_fresh : procs k !! p = None /\ threads k !! t = None;
  st_proc : exists pr, procs k' !! p = Some pr /\ p_pproc pr = Some c /\ p_threads pr = [t] /\
    p_state pr = PROC_RUNNING /\ ~ used_pid k (p_pid pr);
  st_thread : exists thr, threads k' !! t = Some thr /\ kt_proc thr = Some p /\ kt_state thr = KT_RUN;
}.

(** The processes and threads there were, but for the children of [c]. *)
Definition others_same (k k' : kernel) (c : ptr) : Prop :=
  (forall q pr, q <> c -> procs k !! q = Some pr -> procs k' !! q = Some pr) /\
  (forall u thr, threads k !! u = Some thr -> threads k' !! u = Some thr) /\
  (forall pid, used_pid k pid -> used_pid k' pid) /\ curthr k' = curthr k.

Context (Hmem : forall n live, is_Some (slab_obj_alloc n live)).

(** A thread that becomes runnable. *)
Lemma enq_can_start k c cp n t thr : can_start k c cp n -> threads k !! t = Some thr -> kt_wchan thr = None ->
  can_start (enq Runq t (thr <| kt_state := KT_RUN |>) k) c cp n.
Proof.
  intros [Hwf Hs Hc Hcp Hidle Hinit Hcwd Hwait Hroom] Ht Hw. split; try done.
  - by apply (asleep_wf KT_RUN Runq t thr k).
  - intros vn Hvn. by apply (vnode_active_ext k), Hcwd.
  - intros p Hp. rewrite queue_enq, decide_False by done. by apply Hwait.
Qed.

(** A new process with a thread that is not yet runnable. *)
Lemma create_both_run k c cp n name f arg : can_start k c cp (S n) ->
  exists k1 k2 p t pr thr, proc_create name k = Ret (Some p) k1 /\ kthread_create (Some p) f arg 0 k1 = Ret (Some t) k2 /\
    procs k !! p = None /\ threads k !! t = None /\ can_start k2 c (cp <| p_children ::= fun l => l ++ [p] |>) n /\
    others_same k k2 c /\ fifo k2 Runq = fifo k Runq /\
    procs k2 !! p = Some pr /\ p_pproc pr = Some c /\ p_threads pr = [t] /\ p_state pr = PROC_RUNNING /\
    ~ used_pid k (p_pid pr) /\ threads k2 !! t = Some thr /\ kt_proc thr = Some p /\ kt_wchan thr = None /\ kt_qlink thr = None.
Proof.
  intros [Hwf Hs Hc Hcp Hidle Hinit Hcwd Hwait Hroom].
  destruct (proc_create_run k name c cp) as (k1 & p & pid & pd & map & brk & Hrun & Hwf1 & Hp & Hpid & Hp1 & Hc1 & Hoth &
    _ & _ & _ & _ & Hth & Hcu & Hct & Hqs & Hl & Hcwd1 & _); try done; [apply free_pid; lia|].
  destruct (kthread_create_run k1 p _ f arg 0 Hp1 Hmem) as (k2 & t & thr & Hrun2 & Ht & Hth2 & Hkp & _ & _ & _ & Hw & Hql &
    Hps2 & Hl2 & Hnx2 & Hcu2 & _ & _ & Hct2 & Hqs2 & Hmm2 & Hvn2).
  match type of Hps2 with _ = <[_ := ?x]> _ => set (pr := x) in Hps2 end.
  assert (Hcne : c <> p) by congruence. rewrite Hth in *.
  assert (Hc2 : procs k2 !! c = Some (cp <| p_children ::= fun l => l ++ [p] |>)) by (by rewrite Hps2, lookup_insert_ne by done).
  assert (Hold : forall q r, q <> c -> procs k !! q = Some r -> procs k2 !! q = Some r).
  { intros q r Hqc Hq. rewrite Hps2, lookup_insert_ne by congruence. by rewrite Hoth by congruence. }
  assert (Hused : forall i, used_pid k i -> used_pid k2 i).
  { intros i (q & r & Hq & Hpr & Hi). destruct (decide (q = c)) as [->|Hne].
    - rewrite Hcp in Hpr. injection Hpr as <-. exists c. eexists. rewrite Hl2, Hl. split; [apply elem_of_app; by left|by split].
    - exists q, r. rewrite Hl2, Hl. split; [apply elem_of_app; by left|split; [by apply Hold|done]]. }
  exists k1, k2, p, t, pr, thr. split; [done|]. split; [done|]. split; [done|]. split; [done|].
  split; [|split; [split_and!; [exact Hold| |exact Hused|congruence]|split; [|split; [|split_and!; try done]]]].
  - split; try done; [|..|rewrite Hl2, Hl, length_app; simpl; lia].
    + unfold proc_wf in *. rewrite Hps2, Hl2, Hnx2. by eapply tree_update.
    + eapply sched_wf_ext; [| |apply (new_thread_wf (k <| queues := <[ProcWait p := empty_ktqueue]> (queues k) |>) t thr)];
        try done; [by rewrite Hqs2|]. by apply queue_init_wf; [|apply Hwait].
    + congruence.
    + by apply Hused.
    + destruct Hinit; [left; by apply Hused|by right].
    + intros vn Hvn. by apply (vnode_active_ext k1), Hcwd1.
    + intros q Hq. unfold queue. rewrite Hqs2, Hqs.
      assert (Hqp : p <> q) by (intros ->; by rewrite Hps2, lookup_insert_eq in Hq).
      rewrite Hps2, lookup_insert_ne, Hoth in Hq by congruence. rewrite lookup_insert_ne by congruence. by apply Hwait.
  - intros u x Hu. rewrite Hth2, lookup_insert_ne by congruence. done.
  - unfold fifo, queue. by rewrite Hqs2, Hqs, lookup_insert_ne.
  - rewrite Hps2. apply lookup_insert_eq.
  - rewrite Hth2. apply lookup_insert_eq.
Qed.

Lemma start_proc_run k c cp n name f arg : can_start k c cp (S n) ->
  exists k' p t, start_proc name f arg k = Ret (Some p, Some t) k' /\ started k k' c p t /\
    fifo k' Runq = fifo k Runq ++ [t] /\ can_start k' c (cp <| p_children ::= fun l => l ++ [p] |>) n /\
    others_same k k' c.
Proof.
  intros Hcs. destruct (create_both_run k c cp n name f arg Hcs) as (k1 & k2 & p & t & pr & thr & Hrun & Hrun2 & Hp & Ht &
    Hcs2 & (Ho1 & Ho2 & Ho3 & Ho4) & Hf & Hp2 & Hpar & Hpt & Hst & Hpid & Ht2 & Hkp & Hw & Hq).
  eexists _, p, t. split_and!.
  - unfold start_proc. rewrite (bind_ret _ _ _ _ _ Hrun), (bind_ret _ _ _ _ _ Hrun2), bind_KASSERT, bind_nonnull by done.
    by rewrite (bind_ret _ _ _ _ _ (make_runnable_run t thr k2 Ht2 Hw Hq)).
  - split; [done|by exists pr|]. eexists. split; [apply lookup_insert_eq|done].
  - rewrite fifo_enq. unfold spec_enqueue. by rewrite decide_True, Hf by done.
  - by apply enq_can_start.
  - split_and!; [done| |done..]. intros u x Hu. unfold enq. simpl. rewrite lookup_insert_ne by congruence. by apply Ho2.
Qed.

Lemma started_later k k1 k' c p t : others_same k k1 c -> procs k1 !! c <> None -> started k1 k' c p t -> started k k' c p t.
Proof.
  intros (H1 & H2 & H3 & _) Hc [[Hp Ht] (pr & Hpr & Hpar & Hths & Hst & Hpid) Hthr]. split; [|by exists pr; split_and!; auto|done].
  split.
  - destruct (procs k !! p) as [q|] eqn:Hq; [|done]. by rewrite (H1 p q) in Hp by congruence.
  - destruct (threads k !! t) as [x|] eqn:Hx; [|done]. by rewrite (H2 t x) in Ht.
Qed.

Lemma started_stays k k1 k' c p t : others_same k1 k' c -> procs k !! c <> None -> started k k1 c p t -> started k k' c p t.
Proof.
  intros (H1 & H2 & _) Hc [[Hp Ht] (pr & Hpr & Hpar & Hths & Hst & Hpid) (thr & Hthr & ?)]. split; [done| |].
  - exists pr. split_and!; try done. apply H1; [congruence|done].
  - exists thr. split; [by apply H2|done].
Qed.

Lemma others_same_trans k k1 k' c : others_same k k1 c -> others_same k1 k' c -> others_same k k' c.
Proof. intros (H1 & H2 & H3 & H7) (H4 & H5 & H6 & H8). split_and!; eauto. congruence. Qed.

Lemma children_nil (cp : proc) : cp <| p_children ::= fun l => l ++ [] |> = cp.
Proof. transitivity (cp <| p_children := p_children cp ++ [] |>); [done|]. rewrite app_nil_r. by destruct cp. Qed.

Lemma children_cons (cp : proc) p ps : cp <| p_children ::= fun l => l ++ p :: ps |> =
  cp <| p_children ::= fun l => l ++ [p] |> <| p_children ::= fun l => l ++ ps |>.
Proof.
  transitivity (cp <| p_children := p_children cp ++ p :: ps |>); [done|].
  transitivity (cp <| p_children := (p_children cp ++ [p]) ++ ps |>); [by rewrite <- app_assoc|done].
Qed.

Lemma start_procs_run n name f arg : forall k c cp m, can_start k c cp (n + m) ->
  exists k' ps ts, start_procs n name f arg k = Ret tt k' /\ length ps = n /\ Forall2 (started k k' c) ps ts /\
    fifo k' Runq = fifo k Runq ++ ts /\ can_start k' c (cp <| p_children ::= fun l => l ++ ps |>) m /\ others_same k k' c.
Proof.
  induction n as [|n IH]; intros k c cp m Hcs.
  - exists k, [], []. cbn [start_procs]. split_and!; try done; [by rewrite app_nil_r|].
    by rewrite children_nil.
  - destruct (start_proc_run k c cp (n + m) name f arg Hcs) as (k1 & p & t & Hrun & Hst & Hf & Hcs1 & Ho).
    destruct (IH k1 c _ m Hcs1) as (k' & ps & ts & Hrun' & Hlen & Hall & Hf' & Hcs' & Ho').
    assert (Hc : procs k !! c <> None) by (by rewrite (cs_proc _ _ _ _ Hcs)).
    assert (Hc1 : procs k1 !! c <> None) by (by rewrite (cs_proc _ _ _ _ Hcs1)).
    exists k', (p :: ps), (t :: ts). split_and!.
    + cbn [start_procs]. by rewrite (bind_ret _ _ _ _ _ Hrun).
    + simpl. by rewrite Hlen.
    + constructor; [by eapply started_stays|]. eapply Forall2_impl; [exact Hall|]. intros. by eapply started_later.
    + by rewrite Hf', Hf, <- app_assoc.
    + by rewrite children_cons.
    + by eapply others_same_trans.
Qed.

(** The current thread goes to the end of the run queue and the oldest runnable thread runs. *)
Lemma yield_run k cur th t rest : sched_wf k -> curthr k = Some cur -> threads k !! cur = Some th -> kt_wchan th = None ->
  fifo k Runq ++ [cur] = t :: rest -> (0 < loop_fuel)%nat ->
  exists k' kont, yield k = Wait CtxSwitch k' kont /\ curthr k' = Some t /\ fifo k' Runq = rest /\ sched_wf k'.
Proof.
  intros Hs Hcur Hth Hw Hf Hfuel. assert (Hq : kt_qlink th = None) by (by rewrite (wf_link k Hs _ _ Hth)).
  unfold yield. rewrite bind_gets, Hcur, bind_nonnull, (bind_ret _ _ _ _ _ (make_runnable_run cur th k Hth Hw Hq)).
  set (k1 := enq _ _ _ _). assert (Hs1 : sched_wf k1) by (by apply (asleep_wf KT_RUN Runq cur th k)).
  assert (Hf1 : fifo k1 Runq = t :: rest).
  { unfold k1. rewrite fifo_enq. unfold spec_enqueue. by rewrite decide_True by done. }
  destruct (fifo_cons_thread _ _ _ _ Hs1 Hf1) as (thr & Ht & _).
  eexists (switched t thr k1), _. split; [eapply (switch_run k1 cur); [done|done|apply lookup_insert_eq|done..]|].
  split; [done|]. split; [by rewrite (fifo_switched t thr rest)|by eapply switched_wf].
Qed.
End starting.

(** ** Properties *)

(** C25: a new address space in which one page is mapped privately and which is then destroyed leaves
    nothing behind: the test succeeds, and the areas, address spaces and memory objects, the
    anonymous one and its shadow included, are what they were. *)
Theorem vmtest_map_destory_spec `{PO : PlatformOk, F : LoopFuel, MHO : MmHeadersOk, VM : VnodeMm} vn_mmap n k :
  (forall n live, is_Some (slab_obj_alloc n live)) -> VMMAP_DIR_HILO = 2 -> is_private 2 = true ->
  Z.land (Z.lnot (Z.lor (Z.lor (Z.lor PROT_NONE PROT_READ) PROT_WRITE) PROT_EXEC)) 7 = 0 ->
  vmtest_map_destory (Ops := mm_ops (S (S n))) vn_mmap k = Ret 0 (k <| alloc_count := (4 + alloc_count k)%nat |>).
Proof.
  intros Hmem Hdir Hpriv Hprot. unfold vmtest_map_destory.
  destruct (Hmem (alloc_count k) (dom (vmmaps k))) as [m Hm]. rewrite bind_unfold, vmmap_create_run, Hm.
  apply slab_obj_alloc_fresh, not_elem_of_dom in Hm. cbn [obind].
  rewrite bind_KASSERT, bind_nonnull by done. set (k1 := k <| alloc_count ::= S |> <| vmmaps := _ |>).
  assert (Hmap : vmmaps k1 !! m = Some {| vmm_list := []; vmm_proc := None |}) by apply lookup_insert_eq.
  destruct (find_in_empty k1 m Hmap) as (start & Hfind & Hlo & Hhi). rewrite Hdir in Hfind. pose proof user_pages.
  destruct (map_private_run vn_mmap (S n) k1 m 1 7 2 0 2 start) as (a & s & o & Ha & Ho & Hs & Hne & Hrun); try done.
  { by rewrite page_aligned_spec, Z.mod_0_l by (rewrite page_size_4k; done). }
  rewrite (bind_ret _ _ _ _ _ Hrun). replace (start <? 0) with false by (symmetry; apply Z.ltb_ge; lia).
  rewrite (bind_ret _ _ _ _ _ (destroy_private_run n k1 m a s o start 1 0 7 2 Hmap Hpriv Ha Ho Hs Hne)).
  unfold ret. f_equal. kernel_ext. rewrite delete_insert_eq. by apply delete_id.
Qed.

(** [createProcessAndThreads] starts ten processes: each is a new child of the current process, in
    the order of creation, with an identifier that was free and one thread, which is runnable.
    The threads are queued behind those that were runnable, in the order of creation, and the
    current thread behind them when it switches to the oldest. *)
Theorem createProcessAndThreads_spec `{PO : PlatformOk, F : LoopFuel, V : VfsCalls, VO : !VfsOk V,
    C : ContextCode, TC : TestCode} k c cp cur th :
  (0 < loop_fuel)%nat -> (forall n live, is_Some (slab_obj_alloc n live)) -> can_start k c cp 10 ->
  curthr k = Some cur -> threads k !! cur = Some th -> kt_wchan th = None ->
  exists k1 ps ts k' kont t rest, createProcessAndThreads k = Wait CtxSwitch k' kont /\ length ps = 10%nat /\
    Forall2 (started k k1 c) ps ts /\ procs k1 !! c = Some (cp <| p_children ::= fun l => l ++ ps |>) /\ proc_wf k1 /\
    fifo k Runq ++ ts ++ [cur] = t :: rest /\ curthr k' = Some t /\ fifo k' Runq = rest /\ sched_wf k'.
Proof.
  intros Hfuel Hmem Hcs Hcur Hth Hw. unfold createProcessAndThreads.
  destruct (start_procs_run Hmem 10 "normal test" (addr_of "normalTest") 0 k c cp 0 Hcs) as
    (k1 & ps & ts & Hrun & Hlen & Hall & Hf & Hcs1 & (_ & Hths & _ & Hct)).
  rewrite (bind_ret _ _ _ _ _ Hrun).
  destruct (fifo k Runq ++ ts ++ [cur]) as [|t rest] eqn:Hq.
  { apply (f_equal length) in Hq. rewrite !length_app in Hq. simpl in Hq. lia. }
  destruct (yield_run k1 cur th t rest) as (k' & kont & Hy & Hct' & Hf' & Hs'); try done;
    [apply Hcs1|congruence|by apply Hths|by rewrite Hf, <- app_assoc|].
  exists k1, ps, ts, k', kont, t, rest. split_and!; try done; apply Hcs1.
Qed.

(** ** The properties at concrete states *)
Module Witness.
Import Proc.Witness.
#[local] Existing Instance Proc.Witness.fuel.
#[local] Existing Instance Proc.Witness.counting_vfs.
#[local] Existing Instance Proc.Witness.counting_vfs_ok.
#[local] Instance any_context : ContextCode := {|
  DEFAULT_STACK_SIZE := 4096; context_setup _ _ _ _ _ _ := no_context |}.
#[local] Instance any_tests : TestCode := {|
  addr_of _ := 0; O_RDONLY := 0; O_WRONLY := 1; O_RDWR := 2; kshell_add_command _ _ := ret tt;
  sunghan_test := ret tt; sunghan_deadlock_test := ret tt; testproc := ret tt; vfstest_main _ := ret 0 |}.
#[local] Instance no_vnodes : VnodeMm := {|
  vo_vref _ := ret tt; vo_vput _ _ := ret tt; vlookuppage _ _ _ _ := ret (0, None); vreadpage _ _ := ret 0;
  vdirtypage _ _ := ret 0; vcleanpage _ _ := ret 0 |}.

Lemma vmtest_map_destory_spec_witness :
  vmtest_map_destory (Ops := mm_ops 2) (fun _ _ => ret (0, None)) world =
    Ret 0 (world <| alloc_count := 4%nat |>).
Proof.
  apply (vmtest_map_destory_spec (fun _ _ => ret (0, None)) 0 world).
  - intros n live. by eexists.
  - reflexivity.
  - reflexivity.
  - reflexivity.
Defined.

(** The shell is the current process, with thread 1. *)
Definition shell_thread : kthread := {|
  kt_ctx := no_context; kt_kstack := None; kt_retval := 0; kt_errno := 0; kt_proc := Some 3%positive;
  kt_cancelled := 0; kt_wchan := None; kt_state := KT_RUN; kt_qlink := None; kt_plink := Some 3%positive |}.
Definition with_thread (k : kernel) : kernel :=
  k <| threads := {[ 1%positive := shell_thread; 5%positive := zombie_thread ]} |> <| curthr := Some 1%positive |>.
Definition running : kernel := with_thread world.

Lemma thread_proc_wf k : proc_wf k -> proc_wf (with_thread k).
Proof. done. Qed.
Lemma thread_used k pid : used_pid k pid -> used_pid (with_thread k) pid.
Proof. done. Qed.

Lemma running_can_start : can_start running 3 shell 10.
Proof.
  split.
  - apply thread_proc_wf, world_wf.
  - apply sched_wf_checked. by_eval.
  - reflexivity.
  - reflexivity.
  - apply thread_used. exact (world_used 1 (node 0 None [2%positive] PROC_RUNNING []) eq_refl).
  - left. apply thread_used. exact (world_used 2 (node 1 (Some 1%positive) [3%positive] PROC_RUNNING []) eq_refl).
  - intros vn [= <-]. by eexists.
  - done.
  - by vm_compute.
Qed.

Lemma createProcessAndThreads_spec_witness :
  exists k' kont t, createProcessAndThreads running = Wait CtxSwitch k' kont /\
    curthr k' = Some t /\ length (fifo k' Runq) = 10%nat.
Proof.
  destruct (createProcessAndThreads_spec running 3 shell 1 shell_thread) as
    (k1 & ps & ts & k' & kont & t & rest & Hrun & Hlen & Hall & _ & _ & Hq & Hcur & Hf & _).
  - apply Nat.lt_0_succ.
  - intros n live. by eexists.
  - apply running_can_start.
  - reflexivity.
  - reflexivity.
  - reflexivity.
  - exists k', kont, t. split; [exact Hrun|]. split; [exact Hcur|]. rewrite Hf.
    apply Forall2_length in Hall. apply (f_equal length) in Hq. rewrite !length_app in Hq. simpl in Hq.
    change (length (fifo running Runq)) with 0%nat in Hq. lia.
Defined.
End Witness.
