(* ===== verification/Info.v ===== *)
(** * Info

    The routines that describe a structure as text: [proc_info] and [proc_list_info] of
    [kernel/proc/proc.c], [vmmap_mapping_info] of [kernel/vm/vmmap.c].  The text goes to a buffer of
    the caller: [mem] is the memory that starts at the address [buf] of the buffer, an address in it
    is an offset, and a store outside [mem] faults ([BadPtr]).

    What a conversion such as [%-13s] looks like belongs to the kernel's [printf] and is the
    parameter [format]; so is [iprintf], which appends to a buffer.  [snprintf] is that of C. *)

From stdpp Require Import pretty.
From Stdlib Require Import Ascii.
From S2P Require Import Prelude Platform State Vmmap Proc.

Definition NUL : ascii := Ascii.zero.
Definition newline : ascii := Ascii.ascii_of_nat 10.

(** The values that the conversions of a format consume. *)
Inductive arg :=
| AInt (z : Z)
| AStr (s : list ascii)
| AChar (c : ascii)
| APtr (p : option ptr).

(** What is appended where: the memory, and the members [buf] and [size] that [iprintf] updates. *)
Record cursor := { mem : list ascii; buf : Z; left : Z }.
#[export] Instance eta_cursor : Eta cursor := fun r => Build_cursor (mem r) (buf r) (left r).

(** [util/printf.h], [mm/page.h], and the values of [proc_state_t]. *)
Class Printf := {
  format : string -> list arg -> list ascii;
  iprintf_text : list ascii -> cursor -> cursor;
  PAGE_SHIFT : Z;
  proc_state_value : proc_state -> Z;
}.

(** The bytes [bs] stored at [at_] *)
Definition put_bytes (at_ : Z) (bs m : list ascii) : list ascii := list_inserts (Z.to_nat at_) bs m.

(** [iprintf] appends a text that fits, with its terminating NUL, and never leaves the space it was
    given. *)
Class PrintfOk `{Printf} : Prop := {
  iprintf_fits t c : 0 <= buf c -> Z.of_nat (length t) < left c ->
    buf c + left c <= Z.of_nat (length (mem c)) ->
    iprintf_text t c = {| mem := put_bytes (buf c) (t ++ [NUL]) (mem c);
                          buf := buf c + Z.of_nat (length t); left := left c - Z.of_nat (length t) |};
  iprintf_inside t c : 0 <= buf c -> 0 <= left c -> buf c + left c <= Z.of_nat (length (mem c)) ->
    let c' := iprintf_text t c in
    length (mem c') = length (mem c) /\ buf c <= buf c' /\ 0 <= left c' <= left c /\
    buf c' + left c' <= buf c + left c /\
    forall i, Z.of_nat i < buf c \/ buf c + left c <= Z.of_nat i -> mem c' !! i = mem c !! i;
}.

(** ** Operations *)
Section info.
Context `{P : Platform, PF : Printf}.

(** A store to the buffer. *)
Definition store (at_ : Z) (bs m : list ascii) : K (list ascii) :=
  if (0 <=? at_) && (at_ + Z.of_nat (length bs) <=? Z.of_nat (length m)) then ret (put_bytes at_ bs m)
  else fail BadPtr.

(** [snprintf(buf + at_, size, ...)]: the length of the whole text, and the memory. *)
Definition snprintf (at_ size : Z) (text m : list ascii) : K (Z * list ascii) :=
  m' ← (if size =? 0 then ret m else store at_ (take (Z.to_nat (size - 1)) text ++ [NUL]) m);
  ret (Z.of_nat (length text), m').

(** The string at the start of a buffer. *)
Fixpoint c_string (m : list ascii) : list ascii :=
  match m with
  | [] => []
  | c :: m => if decide (c = NUL) then [] else c :: c_string m
  end.

(** The text of a format that ends in a newline. *)
Definition line (fmt : string) (args : list arg) : list ascii := format (fmt +:+ String newline "") args.

Definition text_of (s : string) : list ascii := String.list_ascii_of_string s.

Definition iprintf (fmt : string) (args : list arg) (c : cursor) : cursor := iprintf_text (line fmt args) c.

(** [list_iterate_begin(&p->p_children, child, proc_t, p_child_link)] *)
Fixpoint children_info (l : list ptr) (c : cursor) : K cursor :=
  match l with
  | [] => ret c
  | child :: l =>
      q ← deref procs child;
      children_info l (iprintf "     %i (%s)" [AInt (p_pid q); AStr (text_of (p_comm q))] c)
  end.

Definition proc_info (a : option ptr) (m : list ascii) (osize : Z) : K (Z * list ascii) :=
  KASSERT (bool_decide (a <> None));;
  a ← nonnull a;
  p ← deref procs a;
  let c := {| mem := m; buf := 0; left := osize |} in
  let c := iprintf "pid:          %i" [AInt (p_pid p)] c in
  let c := iprintf "name:         %s" [AStr (text_of (p_comm p))] c in
  c ← match p_pproc p with
      | Some pp =>
          q ← deref procs pp;
          ret (iprintf "parent:       %i (%s)" [AInt (p_pid q); AStr (text_of (p_comm q))] c)
      | None => ret (iprintf "parent:       -" [] c)
      end;
  let c := match p_children p with
           | [] => iprintf "children:     -" [] c
           | _ => iprintf "children:" [] c
           end in
  c ← children_info (p_children p) c;
  let c := iprintf "status:       %i" [AInt (p_status p)] c in
  let c := iprintf "state:        %i" [AInt (proc_state_value (p_state p))] c in
  let c := iprintf "start brk:    0x%p" [AInt (p_start_brk p)] c in
  let c := iprintf "brk:          0x%p" [AInt (p_brk p)] c in
  ret (left c, mem c).

(** [char parent[64]], whose content before is [junk]. *)
Definition parent_text (junk : list ascii) (p : proc) : K (list ascii) :=
  '(_, m) ← match p_pproc p with
            | Some pp =>
                q ← deref procs pp;
                snprintf 0 64 (format "%3i (%s)" [AInt (p_pid q); AStr (text_of (p_comm q))]) junk
            | None => snprintf 0 64 (format "  -" []) junk
            end;
  ret (c_string m).

Fixpoint list_info_loop (junk : list ascii) (l : list ptr) (c : cursor) : K cursor :=
  match l with
  | [] => ret c
  | a :: l =>
      p ← deref procs a;
      parent ← parent_text junk p;
      list_info_loop junk l
        (iprintf " %3i  %-13s %-s" [AInt (p_pid p); AStr (text_of (p_comm p)); AStr parent] c)
  end.

Definition proc_list_info (junk : list ascii) (a : option ptr) (m : list ascii) (osize : Z) :
    K (Z * list ascii) :=
  KASSERT (bool_decide (a = None));;
  let c := {| mem := m; buf := 0; left := osize |} in
  let c := iprintf "%5s %-13s %-s" [AStr (text_of "PID"); AStr (text_of "NAME"); AStr (text_of "PARENT")] c in
  l ← gets proc_list;
  c ← list_info_loop junk l c;
  ret (left c, mem c).

(** ** [vmmap_mapping_info] *)
Definition flag_char (value flag : Z) (c : ascii) : arg :=
  AChar (if Z.land value flag =? 0 then "-"%char else c).

Definition area_line (v : vmarea) : list ascii :=
  line "%#.8x-%#.8x  %c%c%c  %7s 0x%p %#.5x %#.5x-%#.5x"
    [AInt (uint32 (Z.shiftl (vma_start v) PAGE_SHIFT)); AInt (uint32 (Z.shiftl (vma_end v) PAGE_SHIFT));
     flag_char (vma_prot v) PROT_READ "r"; flag_char (vma_prot v) PROT_WRITE "w";
     flag_char (vma_prot v) PROT_EXEC "x";
     AStr (text_of (if Z.land (vma_flags v) MAP_SHARED =? 0 then "PRIVATE" else " SHARED"));
     APtr (vma_obj v); AInt (vma_off v); AInt (vma_start v); AInt (vma_end v)].

Definition header_line : list ascii :=
  line "%21s %5s %7s %8s %10s %12s"
    [AStr (text_of "VADDR RANGE"); AStr (text_of "PROT"); AStr (text_of "FLAGS"); AStr (text_of "MMOBJ");
     AStr (text_of "OFFSET"); AStr (text_of "VFN RANGE")].

(** The loop over the areas; [at_] is [buf] as an offset. *)
Fixpoint mapping_loop (l : list ptr) (size at_ len : Z) (m : list ascii) : K (Z * Z * list ascii) :=
  match l with
  | [] => ret (size, at_, m)
  | vma :: l =>
      let size := int32 (size - len) in
      let at_ := at_ + len in
      if size <=? 0 then ret (size, at_, m)
      else
        v ← deref vmareas vma;
        '(len, m) ← snprintf at_ size (area_line v) m;
        mapping_loop l size at_ len m
  end.

Definition vmmap_mapping_info (map : option ptr) (m : list ascii) (osize : Z) : K (Z * list ascii) :=
  KASSERT (0 <? osize);;
  KASSERT (bool_decide (map <> None));;
  map ← nonnull map;
  mp ← deref vmmaps map;
  let size := int32 osize in
  '(len, m) ← snprintf 0 size header_line m;
  '(size, at_, m) ← mapping_loop (vmm_list mp) size 0 len m;
  if size <=? 0 then
    let size := int32 osize in
    m ← store (at_ + osize - 1) [NUL] m;
    ret (uint32 (osize - size), m)
  else ret (uint32 (osize - size), m).
End info.

(** ** Text in a buffer *)
Lemma length_put at_ bs m : length (put_bytes at_ bs m) = length m.
Proof. apply length_inserts. Qed.

(** Text continued where the last one ended: its NUL is overwritten. *)
Lemma put_append pre t m :
  put_bytes (Z.of_nat (length pre)) (t ++ [NUL]) (put_bytes 0 (pre ++ [NUL]) m) =
  put_bytes 0 ((pre ++ t) ++ [NUL]) m.
Proof.
  unfold put_bytes. rewrite Nat2Z.id. change (Z.to_nat 0) with 0%nat.
  rewrite <- app_assoc, !list_inserts_app_l, !Nat.add_0_r. set (m' := list_inserts 0 pre m).
  destruct t as [|c t]; cbn [app length list_inserts].
  - by rewrite list_insert_insert_eq.
  - rewrite <- list_insert_inserts_lt by lia. by rewrite list_insert_insert_eq.
Qed.

Lemma put_outside at_ bs m i :
  0 <= at_ -> Z.of_nat i < at_ \/ at_ + Z.of_nat (length bs) <= Z.of_nat i ->
  put_bytes at_ bs m !! i = m !! i.
Proof.
  intros Hat [Hi|Hi]; unfold put_bytes.
  - apply list_lookup_inserts_lt. lia.
  - apply list_lookup_inserts_ge. lia.
Qed.

Section texts.
Context `{P : Platform, PFO : PrintfOk}.
Implicit Types (ts : list (list ascii)) (c : cursor) (m : list ascii).

Definition prints ts c : cursor := fold_left (fun c t => iprintf_text t c) ts c.

Lemma prints_fit t ts m osize :
  Z.of_nat (length (concat (t :: ts))) < osize <= Z.of_nat (length m) ->
  prints (t :: ts) {| mem := m; buf := 0; left := osize |} =
    {| mem := put_bytes 0 (concat (t :: ts) ++ [NUL]) m; buf := Z.of_nat (length (concat (t :: ts)));
       left := osize - Z.of_nat (length (concat (t :: ts))) |}.
Proof.
  unfold prints. induction ts as [|u ts IH] using rev_ind; intros Hlen.
  - cbn. cbn in Hlen. rewrite app_nil_r in *. by rewrite iprintf_fits by (cbn; lia).
  - rewrite app_comm_cons, fold_left_app, concat_app, length_app in *.
    change (concat [u]) with (u ++ []) in *. rewrite app_nil_r in *.
    rewrite IH by lia. cbn [fold_left]. rewrite iprintf_fits; cbn [buf left mem]; [|lia|lia|].
    + rewrite put_append, Nat2Z.inj_add. f_equal; lia.
    + rewrite length_put. lia.
Qed.

(** Whatever the texts, they stay in the buffer. *)
Lemma prints_inside ts c : 0 <= buf c -> 0 <= left c -> buf c + left c <= Z.of_nat (length (mem c)) ->
  length (mem (prints ts c)) = length (mem c) /\ 0 <= left (prints ts c) <= left c /\
  forall i, Z.of_nat i < buf c \/ buf c + left c <= Z.of_nat i -> mem (prints ts c) !! i = mem c !! i.
Proof.
  revert c. induction ts as [|t ts IH]; intros c Hb Hl Hm; [done|].
  destruct (iprintf_inside t c Hb Hl Hm) as (Hlen & Hb' & Hl' & Hend & Hout).
  destruct (IH (iprintf_text t c)) as (Hlen1 & Hl1 & Hout1); [lia|lia|rewrite Hlen; lia|].
  change (prints (t :: ts) c) with (prints ts (iprintf_text t c)).
  split; [congruence|]. split; [lia|]. intros i Hi. rewrite Hout1 by lia. by apply Hout.
Qed.

(** What [m'] holds when the lines [ts] were printed to [osize] bytes of [m] and [room] are left. *)
Definition described ts m osize (room : Z) m' : Prop :=
  length m' = length m /\ 0 <= room <= osize /\
  (forall i, osize <= Z.of_nat i -> m' !! i = m !! i) /\
  (Z.of_nat (length (concat ts)) < osize ->
   m' = put_bytes 0 (concat ts ++ [NUL]) m /\ room = osize - Z.of_nat (length (concat ts))).

Lemma prints_described t ts m osize : 0 <= osize <= Z.of_nat (length m) ->
  let c := prints (t :: ts) {| mem := m; buf := 0; left := osize |} in
  described (t :: ts) m osize (left c) (mem c).
Proof.
  intros Hsize c. destruct (prints_inside (t :: ts) {| mem := m; buf := 0; left := osize |})
    as (Hlen & Hl & Hout); cbn [buf left mem] in *; [lia..|].
  split; [done|]. split; [done|]. split; [intros i Hi; apply Hout; lia|].
  intros Hfit. unfold c. by rewrite prints_fit by lia.
Qed.

(** ** What the routines print *)
Definition name_of (k : kernel) (fmt : string) (a : ptr) : list ascii :=
  match procs k !! a with
  | Some q => line fmt [AInt (p_pid q); AStr (text_of (p_comm q))]
  | None => []
  end.

Lemma name_of_live k fmt a q : procs k !! a = Some q ->
  name_of k fmt a = line fmt [AInt (p_pid q); AStr (text_of (p_comm q))].
Proof. unfold name_of. by intros ->. Qed.

Definition proc_lines (k : kernel) (p : proc) : list (list ascii) :=
  line "pid:          %i" [AInt (p_pid p)] ::
  line "name:         %s" [AStr (text_of (p_comm p))] ::
  (match p_pproc p with
   | Some pp => name_of k "parent:       %i (%s)" pp
   | None => line "parent:       -" []
   end) ::
  line (if bool_decide (p_children p = []) then "children:     -" else "children:") [] ::
  map (name_of k "     %i (%s)") (p_children p) ++
  [line "status:       %i" [AInt (p_status p)];
   line "state:        %i" [AInt (proc_state_value (p_state p))];
   line "start brk:    0x%p" [AInt (p_start_brk p)];
   line "brk:          0x%p" [AInt (p_brk p)]].

Lemma children_info_run k l c : procs_live k l ->
  children_info l c k = Ret (prints (map (name_of k "     %i (%s)") l) c) k.
Proof.
  intros Hl. revert c. induction Hl as [|a l [q Hq] _ IH]; intros c; [done|].
  cbn [children_info map]. rewrite (bind_deref procs _ _ _ _ Hq), IH.
  unfold prints. cbn [fold_left]. by rewrite (name_of_live k _ a q Hq).
Qed.

Lemma proc_info_run k a p m osize : proc_wf k -> procs k !! a = Some p ->
  proc_info (Some a) m osize k =
    (let c := prints (proc_lines k p) {| mem := m; buf := 0; left := osize |} in Ret (left c, mem c) k).
Proof.
  intros Hwf Ha. unfold proc_info. rewrite bind_KASSERT, bind_nonnull by done.
  rewrite (bind_deref procs _ _ _ _ Ha). cbv zeta.
  match goal with |- context [bind (match p_pproc p with _ => _ end) ?f] => set (rest := f) end.
  assert (Hrest : forall c, rest c k = (let c := prints (drop 3 (proc_lines k p)) c in Ret (left c, mem c) k)).
  { intros c. unfold rest. erewrite bind_ret by (apply children_info_run, (children_live k a p Hwf Ha)).
    unfold prints, proc_lines. cbn [drop fold_left]. rewrite fold_left_app. cbn [fold_left].
    destruct (p_children p); done. }
  destruct (p_pproc p) as [pp|] eqn:Hpp.
  - destruct (tw_parent _ _ _ Hwf _ _ _ Ha Hpp) as (_ & q & Hq).
    erewrite bind_ret by (rewrite (bind_deref procs _ _ _ _ Hq); reflexivity). rewrite Hrest.
    unfold proc_lines. rewrite Hpp, !(name_of_live k _ pp q Hq). done.
  - rewrite bind_ret_l, Hrest. unfold proc_lines. by rewrite Hpp.
Qed.

(** The column of the parent: at most 63 characters of its identifier and name. *)
Definition parent_column (k : kernel) (p : proc) : list ascii :=
  c_string (take 63 (match p_pproc p with
    | Some pp => match procs k !! pp with
        | Some q => format "%3i (%s)" [AInt (p_pid q); AStr (text_of (p_comm q))]
        | None => [] end
    | None => format "  -" [] end) ++ [NUL]).

Definition list_line (k : kernel) (a : ptr) : list ascii :=
  match procs k !! a with
  | Some p => line " %3i  %-13s %-s" [AInt (p_pid p); AStr (text_of (p_comm p)); AStr (parent_column k p)]
  | None => []
  end.

Definition list_lines (k : kernel) : list (list ascii) :=
  line "%5s %-13s %-s" [AStr (text_of "PID"); AStr (text_of "NAME"); AStr (text_of "PARENT")] ::
  map (list_line k) (proc_list k).

(** The string that [snprintf] leaves at the start of a buffer does not depend on what was there. *)
Lemma c_string_app s m : c_string ((s ++ [NUL]) ++ m) = c_string (s ++ [NUL]).
Proof. induction s as [|c s IH]; [done|]. cbn. case_decide; [done|]. by rewrite <- IH. Qed.

Lemma snprintf_string k n t m : (0 < n)%nat -> (n <= length m)%nat ->
  exists m', snprintf 0 (Z.of_nat n) t m k = Ret (Z.of_nat (length t), m') k /\
    c_string m' = c_string (take (n - 1) t ++ [NUL]).
Proof.
  intros Hn Hm. unfold snprintf. destruct (Z.eqb_spec (Z.of_nat n) 0); [lia|].
  replace (Z.to_nat (Z.of_nat n - 1)) with (n - 1)%nat by lia. unfold store.
  set (bs := take (n - 1) t ++ [NUL]).
  assert (Hbs : (length bs <= length m)%nat) by (unfold bs; rewrite length_app, length_take; cbn; lia).
  destruct (Z.leb_spec (0 + Z.of_nat (length bs)) (Z.of_nat (length m))) as [_|]; [|lia].
  eexists. split; [reflexivity|]. unfold put_bytes. change (Z.to_nat 0) with 0%nat.
  assert (list_inserts 0 bs m = bs ++ drop (length bs) m) as ->; [|exact (c_string_app _ _)].
  clear -Hbs. revert m Hbs. induction bs as [|b bs IH]; intros m Hm; [by rewrite drop_0|].
  destruct m as [|x m]; cbn in Hm; [lia|]. cbn [list_inserts length drop app].
  by rewrite list_inserts_cons, IH by lia.
Qed.

Lemma parent_text_run k a p junk : proc_wf k -> procs k !! a = Some p -> (64 <= length junk)%nat ->
  parent_text junk p k = Ret (parent_column k p) k.
Proof.
  intros Hwf Ha Hj. unfold parent_text, parent_column.
  destruct (p_pproc p) as [pp|] eqn:Hpp.
  - destruct (tw_parent _ _ _ Hwf _ _ _ Ha Hpp) as (_ & q & Hq). rewrite Hq.
    destruct (snprintf_string k 64 (format "%3i (%s)" [AInt (p_pid q); AStr (text_of (p_comm q))]) junk)
      as (m' & Hrun & Hm'); [lia|lia|].
    erewrite bind_ret by (rewrite (bind_deref procs _ _ _ _ Hq); exact Hrun). cbn beta iota.
    by rewrite Hm'.
  - destruct (snprintf_string k 64 (format "  -" []) junk) as (m' & Hrun & Hm'); [lia|lia|].
    erewrite bind_ret by exact Hrun. cbn beta iota. by rewrite Hm'.
Qed.

Lemma list_info_run k junk l c : proc_wf k -> procs_live k l -> (64 <= length junk)%nat ->
  list_info_loop junk l c k = Ret (prints (map (list_line k) l) c) k.
Proof.
  intros Hwf Hl Hj. revert c. induction Hl as [|a l [p Hp] _ IH]; intros c; [done|].
  cbn [list_info_loop map]. rewrite (bind_deref procs _ _ _ _ Hp).
  rewrite (bind_ret _ _ _ _ _ (parent_text_run k a p junk Hwf Hp Hj)), IH.
  unfold prints. cbn [fold_left]. unfold list_line at 3. by rewrite Hp.
Qed.
End texts.

Lemma store_run (k : kernel) at_ bs m : 0 <= at_ -> at_ + Z.of_nat (length bs) <= Z.of_nat (length m) ->
  store at_ bs m k = Ret (put_bytes at_ bs m) k.
Proof.
  intros H1 H2. unfold store.
  destruct (Z.leb_spec 0 at_), (Z.leb_spec (at_ + Z.of_nat (length bs)) (Z.of_nat (length m))); done || lia.
Qed.

(** ** The text of an address space *)
Section mapping.
Context `{P : Platform, PFO : PrintfOk}.
Context (k : kernel) (m0 : list ascii) (osize : Z).
Hypotheses (Hsize : 0 < osize < 2 ^ 31) (Hroom : osize <= Z.of_nat (length m0)).

(** The start of the buffer when as much of [text] was stored as fits. *)
Definition truncated (text : list ascii) : list ascii :=
  put_bytes 0 (take (Z.to_nat (osize - 1)) text ++ [NUL]) m0.

(** A line behind the lines [pre], which fit. *)
Lemma snprintf_behind pre t : Z.of_nat (length pre) < osize ->
  snprintf (Z.of_nat (length pre)) (osize - Z.of_nat (length pre)) t (truncated pre) k =
    Ret (Z.of_nat (length t), truncated (pre ++ t)) k.
Proof.
  intros Hpre. unfold snprintf. destruct (Z.eqb_spec (osize - Z.of_nat (length pre)) 0); [lia|].
  erewrite bind_ret
    by (apply store_run; unfold truncated; rewrite ?length_put, ?length_app, ?length_take; cbn [length]; lia).
  unfold truncated. rewrite (take_ge pre) by lia. rewrite put_append, take_app.
  rewrite (take_ge pre) by lia. unfold ret. do 6 f_equal. lia.
Qed.

Lemma mapping_loop_run l vs : Forall2 (fun a v => vmareas k !! a = Some v) l vs -> forall pre cur,
  Z.of_nat (length pre) < osize ->
  Z.of_nat (length pre) + Z.of_nat (length (concat (cur :: map area_line vs))) < 2 ^ 31 ->
  let n := Z.of_nat (length pre) + Z.of_nat (length (concat (removelast (cur :: map area_line vs)))) in
  exists size at_ m',
    mapping_loop l (osize - Z.of_nat (length pre)) (Z.of_nat (length pre)) (Z.of_nat (length cur))
      (truncated (pre ++ cur)) k = Ret (size, at_, m') k /\ length m' = length m0 /\
    if decide (n < osize)
    then size = osize - n /\ m' = truncated (pre ++ concat (cur :: map area_line vs))
    else size <= 0 /\ osize <= at_.
Proof.
  induction 1 as [|a v l vs Ha _ IH]; intros pre cur Hpre Hall n.
  - eexists _, _, _. split; [reflexivity|]. split; [apply length_put|]. subst n. cbn.
    rewrite decide_True by lia. rewrite app_nil_r. split; [lia|done].
  - cbn [mapping_loop]. cbn [map concat] in Hall. rewrite !length_app in Hall. rewrite int32_small by lia.
    subst n. cbn [map]. change (removelast (cur :: area_line v :: map area_line vs))
      with (cur :: removelast (area_line v :: map area_line vs)). cbn [concat]. rewrite length_app.
    destruct (Z.leb_spec (osize - Z.of_nat (length pre) - Z.of_nat (length cur)) 0) as [Hfull|Hfits].
    + eexists _, _, _. split; [reflexivity|]. split; [apply length_put|]. rewrite decide_False; lia.
    + rewrite (bind_deref vmareas _ _ _ _ Ha).
      destruct (IH (pre ++ cur) (area_line v)) as (size & at_ & m' & Hrun & Hlen & Hres);
        [rewrite length_app; lia|cbn [concat]; rewrite !length_app; lia|].
      rewrite length_app, Nat2Z.inj_add, Z.sub_add_distr in Hrun.
      pose proof (snprintf_behind (pre ++ cur) (area_line v) ltac:(rewrite length_app; lia)) as Hsn.
      rewrite length_app, Nat2Z.inj_add, Z.sub_add_distr in Hsn.
      rewrite (bind_ret _ _ _ _ _ Hsn). cbn beta iota.
      exists size, at_, m'. split; [exact Hrun|]. split; [done|].
      rewrite length_app in Hres. cbn [concat] in Hres. rewrite app_assoc.
      replace (Z.of_nat (length pre) + Z.of_nat (length cur + _))
        with (Z.of_nat (length pre + length cur)
              + Z.of_nat (length (concat (removelast (area_line v :: map area_line vs))))) by lia.
      exact Hres.
Qed.
End mapping.

(** ** Properties *)
Section properties.
Context `{P : Platform, PFO : PrintfOk}.

(** [proc_info] stays within the buffer it is given, and when the description of the process
    (identifier, name, parent, each child, status, state and break, a line each) fits, the buffer
    holds exactly it with a terminating NUL and the space that is left is returned. *)
Theorem proc_info_spec k a p m osize :
  proc_wf k -> procs k !! a = Some p -> 0 <= osize <= Z.of_nat (length m) ->
  exists room m', proc_info (Some a) m osize k = Ret (room, m') k /\
    described (proc_lines k p) m osize room m'.
Proof.
  intros Hwf Ha Hsize. rewrite (proc_info_run k a p m osize Hwf Ha). cbv zeta.
  eexists _, _. split; [reflexivity|]. by apply prints_described.
Qed.

(** [proc_list_info] stays within the buffer, and prints a heading and a line for each process
    of the system in the order of the process list; a parent's name is cut to the 63 characters of
    the local buffer, whatever that buffer held. *)
Theorem proc_list_info_spec k junk m osize :
  proc_wf k -> (64 <= length junk)%nat -> 0 <= osize <= Z.of_nat (length m) ->
  exists room m', proc_list_info junk None m osize k = Ret (room, m') k /\
    described (list_lines k) m osize room m'.
Proof.
  intros Hwf Hj Hsize. unfold proc_list_info. rewrite bind_KASSERT by done. cbv zeta. rewrite bind_gets.
  rewrite (bind_ret _ _ _ _ _ (list_info_run k junk _ _ Hwf (wf_procs_live k Hwf) Hj)).
  eexists _, _. split; [reflexivity|]. by apply (prints_described _ (map (list_line k) (proc_list k))).
Qed.

(** C31: [vmmap_mapping_info] with a buffer of [osize] bytes.  When all lines but the last fit, the
    buffer holds as much of the text as fits, terminated by NUL, and the result is the length of the
    text without its last line.  Otherwise it stores outside the buffer. *)
Theorem vmmap_mapping_info_spec k map mp vs m osize :
  vmmaps k !! map = Some mp -> Forall2 (fun a v => vmareas k !! a = Some v) (vmm_list mp) vs ->
  0 < osize < 2 ^ 31 -> Z.of_nat (length m) = osize ->
  let lines := header_line :: List.map area_line vs in
  Z.of_nat (length (concat lines)) < 2 ^ 31 ->
  let n := Z.of_nat (length (concat (removelast lines))) in
  vmmap_mapping_info (Some map) m osize k =
    if decide (n < osize)
    then Ret (n, put_bytes 0 (take (Z.to_nat (osize - 1)) (concat lines) ++ [NUL]) m) k
    else Fault BadPtr.
Proof.
  intros Hmap HF Hsize Hm lines Hlen n. unfold vmmap_mapping_info.
  rewrite bind_KASSERT by (apply Z.ltb_lt; lia). rewrite bind_KASSERT, bind_nonnull by done.
  rewrite (bind_deref vmmaps _ _ _ _ Hmap). cbv zeta. rewrite int32_small by lia.
  assert (Hsn : snprintf 0 osize header_line m k =
    Ret (Z.of_nat (length header_line), truncated m osize header_line) k).
  { unfold snprintf. destruct (Z.eqb_spec osize 0); [lia|].
    erewrite bind_ret by (apply store_run; rewrite ?length_app, ?length_take; cbn [length]; lia). done. }
  rewrite (bind_ret _ _ _ _ _ Hsn). cbn beta iota.
  destruct (mapping_loop_run k m osize Hsize ltac:(lia) _ _ HF [] header_line)
    as (size & at_ & m' & Hrun & Hl & Hres); [cbn; lia|cbn [length]; unfold lines in *; lia|].
  cbn [length app] in Hrun, Hres. rewrite Z.sub_0_r in Hrun.
  rewrite (bind_ret _ _ _ _ _ Hrun). cbn beta iota. rewrite Z.add_0_l in Hres. fold lines n in Hres.
  assert (0 <= n) by lia. destruct (decide (n < osize)) as [Hn|Hn].
  - destruct Hres as [-> ->]. destruct (Z.leb_spec (osize - n) 0); [lia|].
    replace (osize - (osize - n)) with n by lia. by rewrite uint32_small by lia.
  - destruct Hres as [Hs Hat]. destruct (Z.leb_spec size 0); [|lia].
    unfold store. cbn [length]. destruct (Z.leb_spec (at_ + osize - 1 + Z.of_nat 1) (Z.of_nat (length m'))); [lia|].
    by rewrite andb_false_r.
Qed.
End properties.

(** ** The properties at concrete states *)
Module Witness.

(** Conversions without padding: flags, widths and precisions are skipped. *)
Definition show (a : arg) : list ascii :=
  match a with
  | AInt z => text_of (pretty z)
  | AStr s => s
  | AChar c => [c]
  | APtr p => text_of (match p with Some q => pretty (Zpos q) | None => "0" end)
  end.

Fixpoint expand (conv : bool) (fmt : list ascii) (args : list arg) : list ascii :=
  match fmt with
  | [] => []
  | c :: fmt =>
      if conv then
        if decide (c ∈ text_of "0123456789-#.") then expand true fmt args
        else match args with a :: args => show a ++ expand false fmt args | [] => expand false fmt [] end
      else if decide (c = "%"%char) then expand true fmt args
      else c :: expand false fmt args
  end.

Definition append_text (t : list ascii) (c : cursor) : cursor :=
  if left c <=? 0 then c
  else
    let n := Z.min (Z.of_nat (length t)) (left c - 1) in
    {| mem := put_bytes (buf c) (take (Z.to_nat n) t ++ [NUL]) (mem c); buf := buf c + n; left := left c - n |}.

#[local] Instance plain : Printf := {|
  format fmt args := expand false (text_of fmt) args;
  iprintf_text := append_text;
  PAGE_SHIFT := 12;
  proc_state_value s := match s with PROC_RUNNING => 0 | PROC_DEAD => 1 end;
|}.

#[local] Instance plain_ok : PrintfOk.
Proof.
  split; intros t c; cbn [iprintf_text plain]; unfold append_text.
  - intros Hb Hl Hm. destruct (Z.leb_spec (left c) 0); [lia|]. rewrite Z.min_l by lia.
    by rewrite Nat2Z.id, firstn_all.
  - intros Hb Hl Hm. destruct (Z.leb_spec (left c) 0); [cbn; split_and!; done || lia|].
    cbn [mem buf left]. split_and!; try lia; [apply length_put|]. intros i Hi. apply put_outside; [done|].
    rewrite length_app, length_take. cbn [length]. lia.
Qed.

Definition blank (n : nat) : list ascii := replicate n "?"%char.

(** The shell and its two children in a buffer of 200 bytes. *)
Lemma proc_info_spec_witness :
  exists room m', proc_info (Some 3%positive) (blank 200) 200 Proc.Witness.world = Ret (room, m') Proc.Witness.world /\
    c_string m' = concat (proc_lines Proc.Witness.world Proc.Witness.shell) /\ 0 < room.
Proof.
  destruct (proc_info_spec Proc.Witness.world 3 Proc.Witness.shell (blank 200) 200) as (room & m' & Hrun & Hd).
  - exact Proc.Witness.world_wf.
  - reflexivity.
  - vm_compute. split; congruence.
  - exists room, m'. split; [exact Hrun|]. destruct Hd as (_ & _ & _ & Hfit).
    destruct Hfit as [-> ->]; [vm_compute; reflexivity|]. split; vm_compute; reflexivity.
Defined.

Lemma proc_list_info_spec_witness :
  exists room m', proc_list_info (blank 64) None (blank 50) 30 Proc.Witness.world = Ret (room, m') Proc.Witness.world /\
    drop 30 m' = blank 20.
Proof.
  destruct (proc_list_info_spec Proc.Witness.world (blank 64) (blank 50) 30) as (room & m' & Hrun & Hd).
  - exact Proc.Witness.world_wf.
  - by vm_compute.
  - vm_compute. split; congruence.
  - exists room, m'. split; [exact Hrun|]. destruct Hd as (Hlen & _ & Hout & _).
    change (blank 20) with (drop 30 (blank 50)). apply list_eq. intros i. rewrite !lookup_drop. apply Hout. lia.
Defined.

(** Two areas: 100 bytes are enough for the heading and one of them, 20 bytes are not. *)
Lemma vmmap_mapping_info_spec_witness :
  (exists m', vmmap_mapping_info (Some 1%positive) (blank 100) 100 Vmmap.Witness.vm = Ret (92, m') Vmmap.Witness.vm) /\
  vmmap_mapping_info (Some 1%positive) (blank 20) 20 Vmmap.Witness.vm = Fault BadPtr.
Proof.
  split; [eexists|];
    rewrite (vmmap_mapping_info_spec Vmmap.Witness.vm 1
      {| vmm_list := [1%positive; 2%positive]; vmm_proc := None |} [Vmmap.Witness.area1; Vmmap.Witness.area2]);
    try reflexivity; try (repeat constructor; fail); try (vm_compute; split; congruence).
Defined.
End Witness.
